(* ===== verification/_CoqProject ===== *)
-Q . S2P
Prelude.v
Numerals.v
State.v
Machine.v
Image.v
Kheap.v
KheapBitmap.v
KheapSpec.v
KheapOps.v
KheapClient.v
KheapProps.v
Framebuffer.v
FramebufferFacts.v
FramebufferProps.v
Isr.v
Keyboard.v
Serial.v
SerialFacts.v
Pic.v
Interrupt.v
InterruptFacts.v
Samples.v
SerialProps.v
InputProps.v
Producer.v
Interleave.v
InterleaveProps.v
Descriptors.v
DescriptorProps.v
Paging.v
PagingFacts.v
PagingProps.v
Syscall.v
Preempt.v
SyscallFacts.v
SyscallCalls.v
SyscallProps.v
CString.v
Stdio.v
StdioFacts.v
Printf.v
Shell.v
TokenizeFacts.v
ShellFacts.v
ShellTurn.v
UserSamples.v
UserProps.v
EchoProgram.v
Kmain.v
Boot.v
BootInit.v
BootHeap.v
BootSequence.v
BootFinal.v
Process.v
BootSamples.v
KmainProps.v
Footprint.v
FootprintDrivers.v
FootprintCalls.v
Storage.v
Invariant.v
InvariantDrivers.v
InvariantKernel.v
InvariantProps.v
Asm.v
AsmFacts.v
AsmStubs.v
AsmUser.v
AsmSamples.v
AsmEntry.v
AsmRefine.v
AsmProps.v
Integrity.v
IntegrityProps.v
AsmBoot.v
AsmBootFacts.v
AsmBootProps.v
