(* ===== verification/Prelude.v ===== *)
(** LittleOS: a verification of the kernel and its user program.

    * The program

    LittleOS is a 32-bit x86 kernel in C with some assembly (src/kernel, src/drivers,
    src/arch, src/include) and one user program, a shell on a small C library
    (src/userland).  GRUB loads the kernel with the shell as a boot module.  [kmain]
    initialises the console, the serial line, the descriptor tables, the interrupt
    controllers, the keyboard, paging and the heap, copies the module into the frames
    of a process and drops to ring 3.  The shell talks to the kernel through
    [int 0x80]; keyboard and serial interrupts fill one ring buffer that SYS_READ
    empties; all output goes to the screen and to COM1.

    * The model

    The kernel state is one record ([kernel] of State.v): byte-addressed memory, the
    static variables of each translation unit, the CPU registers the code loads, and
    the trace of port operations.  C functions are computations of a state monad with
    three outcomes: a result, [Fault] (an access outside an object or to unmapped
    memory) and [Hang] (a polling loop or a halted CPU still waiting when its fuel is
    used up).  Unsigned values are integers in the range of their width, and every
    wrap-around is written out.  The hardware is a parameter ([Env]): what a port read
    returns and which interrupt comes, as functions of the history; the interfaces
    [UartReady], [UartRx] and [KbdSource] state what the drivers rely on, and the
    device models ([crtc_of], [uart_of], [master] and [slave]) compute from the trace
    what the port writes did to the controllers.  The addresses the linker chooses are
    a parameter too ([Layout], [UserLayout], [ShellLayout], [ProgramLayout]), with their alignment and
    disjointness as named hypotheses.

    * The files

    - Prelude: integers, monad, loops, total correctness ([wp]), arrays.
      Numerals: the decimal and hexadecimal numerals of the Standard Library as text,
      against which printed numbers are specified.
      State: the static storage.  Machine: memory, ports (arch/x86/cpu/io.s).
      Image: the storage as loaded (data of arch/x86/boot/loader.s).
    - Kheap: kernel/kheap.c.  KheapBitmap, KheapSpec, KheapOps: bitmap lemmas, the
      invariant [heap_inv] against an abstract map of chunks, and each operation.
      KheapClient: the allocator as an abstract machine that clients use, and the
      account a client keeps of the pointers it holds ([client_run]).
      KheapProps: its theorems.
    - Framebuffer: drivers/framebuffer.c and the abstract terminal it implements.
      FramebufferFacts, FramebufferProps: the refinement and its theorems.
    - Isr, Interrupt: arch/x86/cpu/isr.c and [hlt].  Keyboard: drivers/keyboard.c.
      Serial: drivers/serial.c and the 16550A.  Pic: drivers/pic.c and the 8259.
      SerialFacts, InterruptFacts: their lemmas.  SerialProps, InputProps: their
      theorems.  Samples: sample devices and states.  Producer: interrupt handlers only
      add to the end of the ring buffer.  Interleave, InterleaveProps: interrupts between
      the memory accesses of [keyboard_getchar] and in the wait of SYS_READ.
    - Descriptors, DescriptorProps: arch/x86/cpu/gdt.c and idt.c, the loads of
      loader.s and idt.s, and descriptors as the CPU decodes them.
    - Paging, PagingFacts, PagingProps: arch/x86/mmu/paging.c and the page walk.
    - Syscall, SyscallFacts, SyscallCalls, SyscallProps: kernel/syscall.c, and the line
      editor that SYS_READ promises.  Preempt: SYS_READ with interrupts between its
      statements, of which the undisturbed call is an instance.
    - CString, Stdio, StdioFacts, Printf: userland/libc (string.c, stdio.c, syscall.s).
      Shell, TokenizeFacts, ShellFacts, ShellTurn: userland/shell, and the session a
      user sees.  UserSamples, UserProps: a sample program and the theorems.
      EchoProgram: modules/program.s, with its theorem.
    - Kmain: kernel/kmain.c, include/kernel/multiboot.h, [kheap_print_stats] and
      [enter_user_mode].  Boot, BootInit, BootHeap, BootSequence, BootFinal: the boot as
      steps on an abstract state [boot_state], and its final states.  Process: the
      memory the process sees through its page directory.  BootSamples, KmainProps:
      a sample machine and the theorems.
    - Footprint, FootprintDrivers, FootprintCalls: the memory that a computation depends
      on and changes, by comparing two runs, for every driver, interrupt and system call.
    - Storage: where the image, its tables and its static storage lie, what a store to
      them may do, and the placement that link.ld guarantees ([KernelLayout]).
    - Invariant, InvariantDrivers, InvariantKernel: what ring 3 can reach and call, and
      the operations that keep it so, from the primitives up to [kmain].  InvariantProps:
      the entry points, the reachable states and the theorem.
    - Asm: the stubs of arch/x86/cpu/isr.s, kernel/syscall.s and
      userland/libc/src/syscall.s, [enter_user_mode] and io.s as programs of the
      instructions they use, on a machine of registers and kernel state that enters and
      leaves interrupts as the CPU does.  AsmFacts: symbolic execution, words pushed and
      taken off.  AsmStubs: each stub up to its C call and from it.  AsmUser: system
      calls and [enter_user_mode] from the caller's side.  AsmSamples: sample programs.
      AsmRefine: a stub against the C model of the same call.  AsmEntry:
      userland/libc/src/entry.s around any [main], with its theorem.  AsmProps: the
      theorems.
    - Integrity: a program as any sequence of stores, interrupts and system calls
      ([sys_step]), and what these leave [intact].  IntegrityProps: the theorems.
    - AsmBoot: the loader of arch/x86/boot/loader.s from the first instruction, its halt
      loop, and the routines of loader.s and idt.s that load system registers.
      AsmBootFacts, AsmBootProps: the switch to paged memory and the theorems.

    * What the theorems show

    - The boot (KmainProps): [kmain] reaches ring 3, or the halt loop, with every
      component exactly as specified; composed with the shell's theorem, the boot
      leads to a working session.  The loader (AsmBootProps) gets there from the state
      the boot loader leaves, paging off, and what belongs neither to the image nor to
      the screen keeps its bytes under both of its addresses; the halt loop goes on serving the keyboard;
      the register loads do what the C model of them says.
    - Integrity (IntegrityProps): whatever the started program stores, calls and is
      interrupted by, ring 3 keeps reaching its own frames only, no store through a
      pointer reaches the code or the static storage of the image, and the heap, the
      tables and the memory outside the image stay as they were; a read into a pointer
      of the kernel is the exception, and shown to be one.
    - The user program (UserProps): the shell's session, its tokenizer, formatted
      output and strings, through every system call, interrupt and driver.
    - System calls (SyscallProps): a line is read as the abstract editor computes it,
      also with keyboard interrupts between the statements; output reaches both devices;
      error results.
    - The sample program (EchoProgram) answers every line with the line.
    - The heap (KheapProps): it refines an abstract allocator over all histories of
      calls; clients that keep to the pointers they got back have separate payloads in the
      pool, and no call or store changes those it is not meant for; first fit, release, rejected pointers, zeroing, reallocation,
      round trip, wrap-around of sizes.
    - The console (FramebufferProps) refines an 80x25 terminal.
    - Input (InputProps): the ring buffer is a bounded queue; typing a text puts that
      text into it; every interrupt is acknowledged as its vector requires; waiting
      returns; unhandled exceptions are reported.
    - Interrupts at any access (InterleaveProps): [keyboard_getchar] is atomic for the
      handlers as long as its decrement of the count is; the decrement is not, and a
      character that comes inside it is not counted; a key that comes between the polls
      of SYS_READ and [hlt] waits for another interrupt.
    - Serial line and interrupt controllers (SerialProps), descriptor tables
      (DescriptorProps) and address spaces (PagingProps): the configuration the CPU and
      the devices end up with, as they decode it, and the protection it gives.
    - Confinement (InvariantProps): in every state that any calls of the kernel's
      functions lead to, ring 3 can access the frames of its process only and enter the
      kernel by one gate, gates lead to their own stubs, and the keyboard's variables
      are consistent.
    - Assembly (AsmProps): an interrupt is invisible to the program it interrupts, with
      the error codes that the CPU documents for its exceptions
      ([exception_with_code]); a
      call of the library's [sys_write] goes from ring 3 to both devices and back, one of
      [sys_read] comes back with the line typed; every library call does at the level of
      instructions what its C model does; the frame of [enter_user_mode] leads to ring 3
      as kmain's model has it.  A program whose [main] returns faults for ever (AsmEntry).

    * Bounds and fuel

    Loops that count are structural.  Loops that poll or scan have [poll_fuel] turns;
    the theorems state how much is enough (the text read, the keys still to come, 128
    for the boot's messages) and prove that the computation then returns, so they are
    total: [wp m Q s] says that [m] returns from [s] without fault.  The endless loops (the
    shell's, the sample program's, the halt loop of loader.s, the guard of entry.s) are
    modelled as any number [n] of their turns.

    * Not modelled, and why

    - The C code of the kernel runs with interrupts enabled in SYS_READ, in
      [keyboard_read_char], in the last part of [kmain] and in the halt loop. They are
      taken at [hlt]; in SYS_READ also before each statement (Preempt), and between
      single accesses in [keyboard_getchar] (Interleave). One that comes inside a
      driver's output routine is not interleaved with it: the handlers share the ring
      buffer and the interrupt controllers with other code, not the console or the
      transmitter. That the program an interrupt comes to does not notice it is a
      theorem of AsmProps, and the sequences of Integrity take interrupts at any point
      of the program.
    - Memory is one map of the current address space.  Setting PG in CR0 replaces it by
      what the walk shows of the physical memory ([paged_memory]); loading CR3 does not
      change it, and after that switch the theorems put [process_memory], computed by the
      page walk, in its place.  The page walk asks
      for the U/S bit of ring 3 accesses and for R/W of its stores ([walk_write]).
    - Static variables are records, not bytes of that map: the code names them, and the
      page tables, descriptor tables and frames are read from there.  What a store
      through a pointer to such a variable, or to code, would do is not modelled.  The
      theorems on Integrity and on confinement therefore let any state follow such a
      store ([static], [settles]) and show that none happens, or leave calls aside that
      make one ([spares_static]); the bytes that the map has at those addresses are taken
      to be arbitrary ([refreshed]), and no theorem there says that they are kept.
    - The identity mapping below 4MB and the same frames at 3GB are not aliased; the
      boot only reads below.  The module and the boot information are assumed not to
      overlap the screen and the heap's pool, and for the theorem on the loader the
      image and the screen, so that both addresses show the same bytes ([outside]).
    - The user program's theorems take [int 0x80] at the C interface: the fields of
      [struct pt_regs] that the system calls use; AsmProps shows that the stubs and the
      trap do the same.  A C function called from assembly may change EAX, ECX and EDX
      and nothing else that the caller sees; its own stack frame is not in memory, and
      return addresses are there only where a routine of Asm reads past them.
    - docs/example.c is not part of the system; Makefile, link.ld and menu.lst are build
      configuration; kernel/kheap.s is empty.  modules/program.s, which the build does not
      assemble, is modelled at the trap, as the library's wrappers are. *)
From stdpp Require Export base numbers strings list gmap.
From Stdlib Require Export ZArith Lia.
Open Scope Z_scope.

(** * Machine integers

    A C value of an unsigned type is a [Z] in the range of its width; every
    arithmetic result is brought back by the wrap of the type that holds it. *)

Definition u8 (x : Z) : Z := x mod 256.
Definition u16 (x : Z) : Z := x mod 65536.
Definition u32 (x : Z) : Z := x mod 4294967296.

(** The value of a 32-bit pattern read as a signed [int]. *)
Definition s32 (x : Z) : Z :=
  if u32 x <? 2147483648 then u32 x else u32 x - 4294967296.

Definition is_u8 (x : Z) : Prop := 0 <= x < 256.
Definition is_u16 (x : Z) : Prop := 0 <= x < 65536.
Definition is_u32 (x : Z) : Prop := 0 <= x < 4294967296.

Create HintDb words.

(** [word_solve] unfolds the widths and calls [lia]. *)
Ltac word_unfold := unfold u8, u16, u32, is_u8, is_u16, is_u32 in *.
Ltac word_solve := word_unfold; Z.div_mod_to_equations; lia.

Lemma u8_range x : is_u8 (u8 x).
Proof. word_solve. Qed.
Lemma u16_range x : is_u16 (u16 x).
Proof. word_solve. Qed.
Lemma u32_range x : is_u32 (u32 x).
Proof. word_solve. Qed.
Lemma u8_small x : is_u8 x -> u8 x = x.
Proof. word_solve. Qed.
Lemma u16_small x : is_u16 x -> u16 x = x.
Proof. word_solve. Qed.
Lemma u32_small x : is_u32 x -> u32 x = x.
Proof. word_solve. Qed.

Lemma s32_small x : 0 <= x < 2147483648 -> s32 x = x.
Proof. intros Hx. unfold s32. rewrite u32_small by word_solve. by rewrite (proj2 (Z.ltb_lt _ _)) by lia. Qed.

#[export] Hint Resolve u8_range u16_range u32_range : words.
Create Rewrite HintDb words.
#[export] Hint Rewrite u8_small u16_small u32_small using word_solve : words.

(** * Outcomes and the state monad

    [Fault] is an access the C program must not make (outside an object, or
    to an unmapped address); [Hang] is a polling loop or a halted CPU that is
    still waiting when its fuel is used up. *)

Inductive outcome (A : Type) : Type :=
| Ok (a : A)
| Fault
| Hang.
Arguments Ok {A} a.
Arguments Fault {A}.
Arguments Hang {A}.

Definition M (S A : Type) : Type := S -> outcome (A * S).

Definition ret {S A} (a : A) : M S A := fun s => Ok (a, s).
Definition fault {S A} : M S A := fun _ => Fault.
Definition hang {S A} : M S A := fun _ => Hang.
Definition bind {S A B} (m : M S A) (f : A -> M S B) : M S B := fun s =>
  match m s with
  | Ok (a, s') => f a s'
  | Fault => Fault
  | Hang => Hang
  end.
Definition gets {S A} (f : S -> A) : M S A := fun s => Ok (f s, s).
Definition modify {S} (f : S -> S) : M S unit := fun s => Ok (tt, f s).
Definition from_option {S A} (o : option A) : M S A :=
  match o with Some a => ret a | None => fault end.

Declare Scope c_scope.
Delimit Scope c_scope with c.
Notation "x <- m ;; k" := (bind m (fun x => k))
  (at level 100, m at next level, right associativity) : c_scope.
Notation "m ;;; k" := (bind m (fun _ => k))
  (at level 100, right associativity) : c_scope.
Notation "'when' b 'do' m" := (if b then m else ret tt)
  (at level 99, b at level 80, m at level 99) : c_scope.
Open Scope c_scope.

(** * Loops *)

(** [for_loop lo step n body] runs [body] at [lo], [lo + step], ..., [n] times. *)
Fixpoint for_loop {S} (lo step : Z) (n : nat) (body : Z -> M S unit) : M S unit :=
  match n with
  | O => ret tt
  | Datatypes.S n' => body lo ;;; for_loop (lo + step) step n' body
  end.

(** [for (i = lo; i < hi; i++) body] and [for (i = lo; i < hi; i += 2) body]. *)
Definition for_up {S} (lo hi : Z) (body : Z -> M S unit) : M S unit :=
  for_loop lo 1 (Z.to_nat (hi - lo)) body.
Definition for_up2 {S} (lo hi : Z) (body : Z -> M S unit) : M S unit :=
  for_loop lo 2 (Z.to_nat ((hi - lo + 1) / 2)) body.

(** [while (cond) body] with at most [fuel] evaluations of the condition. *)
Fixpoint while_fuel {S} (fuel : nat) (cond : M S bool) (body : M S unit) : M S unit :=
  match fuel with
  | O => hang
  | Datatypes.S fuel' =>
      b <- cond ;;
      if b then body ;;; while_fuel fuel' cond body else ret tt
  end.

(** * Total correctness

    [wp m Q s]: from [s] the computation returns, without fault and within its
    fuel, and the result and the state it leaves satisfy [Q]. *)

Definition wp {S A} (m : M S A) (Q : A -> S -> Prop) (s : S) : Prop :=
  exists a s', m s = Ok (a, s') /\ Q a s'.

(** The state a computation leaves; the initial one when it does not return. *)
Definition after {S A} (m : M S A) (s : S) : S :=
  match m s with Ok (_, s') => s' | _ => s end.

Lemma after_wp {S A} (m : M S A) (Q : A -> S -> Prop) s :
  wp m Q s -> exists a, m s = Ok (a, after m s) /\ Q a (after m s).
Proof. intros (a & s' & Hm & HQ). exists a. unfold after. by rewrite Hm. Qed.

Create HintDb wp.

Section WP.
Context {S : Type}.

Lemma wp_ret {A} (a : A) (Q : A -> S -> Prop) s : Q a s -> wp (ret a) Q s.
Proof. intros H. by exists a, s. Qed.

Lemma wp_gets {A} (f : S -> A) (Q : A -> S -> Prop) s : Q (f s) s -> wp (gets f) Q s.
Proof. intros H. by exists (f s), s. Qed.

Lemma wp_modify (f : S -> S) (Q : unit -> S -> Prop) s : Q tt (f s) -> wp (modify f) Q s.
Proof. intros H. by exists tt, (f s). Qed.

Lemma wp_bind {A B} (m : M S A) (f : A -> M S B) Q s :
  wp m (fun a s' => wp (f a) Q s') s -> wp (bind m f) Q s.
Proof.
  intros (a & s' & Hm & b & s'' & Hf & HQ).
  exists b, s''. split; [|done]. unfold bind. by rewrite Hm.
Qed.

Lemma bind_ok {A B} (m : M S A) (f : A -> M S B) s a s' :
  m s = Ok (a, s') -> bind m f s = f a s'.
Proof. intros Hm. unfold bind. by rewrite Hm. Qed.

Lemma wp_mono {A} (m : M S A) (Q Q' : A -> S -> Prop) s :
  wp m Q s -> (forall a s', Q a s' -> Q' a s') -> wp m Q' s.
Proof. intros (a & s' & Hm & HQ) H. exists a, s'. auto. Qed.

Lemma wp_from_option {A} (o : option A) a (Q : A -> S -> Prop) s :
  o = Some a -> Q a s -> wp (from_option o) Q s.
Proof. intros -> H. by apply wp_ret. Qed.

Lemma wp_eq {A} (m : M S A) (Q : A -> S -> Prop) s a s' :
  m s = Ok (a, s') -> Q a s' -> wp m Q s.
Proof. intros Hm HQ. by exists a, s'. Qed.

(** Computations that run alike from a state have the same specifications there. *)
Lemma wp_run_eq {A} (m m' : M S A) (Q : A -> S -> Prop) s :
  m s = m' s -> wp m' Q s -> wp m Q s.
Proof. intros Heq (a & s' & Hm & HQ). exists a, s'. by rewrite Heq. Qed.

Lemma bind_assoc {A B C} (m : M S A) (f : A -> M S B) (g : B -> M S C) s :
  bind m (fun a => bind (f a) g) s = bind (bind m f) g s.
Proof. unfold bind. by destruct (m s) as [[]| |]. Qed.

(** A loop keeps an invariant indexed by the loop variable. *)
Lemma wp_for_loop (I : Z -> S -> Prop) step n body lo s :
  I lo s ->
  (forall j s', 0 <= j < Z.of_nat n -> I (lo + step * j) s' ->
     wp (body (lo + step * j)) (fun _ s'' => I (lo + step * (j + 1)) s'') s') ->
  wp (for_loop lo step n body) (fun _ s' => I (lo + step * Z.of_nat n) s') s.
Proof.
  revert lo s. induction n as [|n IH]; intros lo s HI Hbody.
  - apply wp_ret. by replace (lo + step * Z.of_nat 0) with lo by lia.
  - simpl. apply wp_bind. eapply wp_mono.
    { pose proof (Hbody 0 s) as H0.
      replace (lo + step * 0) with lo in H0 by lia.
      replace (lo + step * (0 + 1)) with (lo + step) in H0 by lia.
      apply H0; [lia|done]. }
    intros [] s' HI'. simpl in HI'.
    replace (lo + step * Z.of_nat (Datatypes.S n)) with (lo + step + step * Z.of_nat n) by lia.
    apply IH; [done|]. intros j t Hj HIj.
    replace (lo + step + step * j) with (lo + step * (j + 1)) in * by lia.
    replace (lo + step + step * (j + 1)) with (lo + step * (j + 1 + 1)) by lia.
    apply Hbody; [lia|done].
Qed.

Lemma wp_for_up (I : Z -> S -> Prop) lo hi body s :
  lo <= hi -> I lo s ->
  (forall i s', lo <= i < hi -> I i s' -> wp (body i) (fun _ s'' => I (i + 1) s'') s') ->
  wp (for_up lo hi body) (fun _ s' => I hi s') s.
Proof.
  intros Hle HI Hbody. unfold for_up.
  eapply wp_mono; [apply (wp_for_loop I); [done|]|].
  - intros j s' Hj HIj. replace (lo + 1 * (j + 1)) with (lo + 1 * j + 1) by lia.
    apply Hbody; [lia|done].
  - intros [] s' HI'. simpl in *. by replace hi with (lo + 1 * Z.of_nat (Z.to_nat (hi - lo))) by lia.
Qed.

(** The body is not run when the range is empty. *)
Lemma for_up_empty lo hi (body : Z -> M S unit) : hi <= lo -> for_up lo hi body = ret tt.
Proof. intros H. unfold for_up. by replace (Z.to_nat (hi - lo)) with 0%nat by lia. Qed.

(** A polling loop returns as soon as its fuel covers the waiting time. *)
Lemma while_fuel_mono n m (cond : M S bool) body s a s' :
  (n <= m)%nat -> while_fuel n cond body s = Ok (a, s') ->
  while_fuel m cond body s = Ok (a, s').
Proof.
  revert m s. induction n as [|n IH]; intros m s Hle H; [done|].
  destruct m as [|m]; [lia|]. simpl in *. unfold bind in *.
  destruct (cond s) as [[[] t]| |]; try done.
  destruct (body t) as [[[] t']| |]; try done. apply IH; [lia|done].
Qed.
End WP.

#[export] Hint Resolve wp_ret wp_gets wp_modify : wp.

(** One step of symbolic execution of a monadic body. *)
Ltac wp_step :=
  lazymatch goal with
  | |- wp (bind _ _) _ _ => apply wp_bind
  | |- wp (ret _) _ _ => apply wp_ret
  | |- wp (gets _) _ _ => apply wp_gets
  | |- wp (modify _) _ _ => apply wp_modify
  | |- wp (from_option (Some _)) _ _ => eapply wp_from_option; [reflexivity|]
  | |- wp ((fun _ => _) _) _ _ => cbv beta
  end.
Ltac wp_steps := repeat (wp_step; cbv beta).

(** Case analysis on the boolean tests of the code. *)
Ltac case_bool :=
  match goal with
  | |- context [?a =? ?b] => destruct (Z.eqb_spec a b)
  | |- context [?a <? ?b] => destruct (Z.ltb_spec a b)
  | |- context [?a <=? ?b] => destruct (Z.leb_spec a b)
  end.

(** * Arrays

    A C array indexed by an unsigned value: reading or writing outside the
    array is a [Fault]. *)

Definition arr_get {A} (l : list A) (i : Z) : option A :=
  if 0 <=? i then l !! Z.to_nat i else None.
Definition arr_set {A} (l : list A) (i : Z) (a : A) : option (list A) :=
  if (0 <=? i) && (i <? Z.of_nat (length l)) then Some (<[Z.to_nat i := a]> l) else None.

Section Arrays.
Context {A : Type}.
Implicit Types (l : list A) (i j : Z).

Lemma arr_get_Some l i : 0 <= i < Z.of_nat (length l) -> is_Some (arr_get l i).
Proof.
  intros H. unfold arr_get. rewrite (proj2 (Z.leb_le 0 i)) by lia.
  apply lookup_lt_is_Some. lia.
Qed.

Lemma arr_get_lt l i a : arr_get l i = Some a -> 0 <= i < Z.of_nat (length l).
Proof.
  unfold arr_get. case_bool; [|done]. intros ?%lookup_lt_Some. lia.
Qed.

Lemma arr_set_Some l i a :
  0 <= i < Z.of_nat (length l) -> arr_set l i a = Some (<[Z.to_nat i := a]> l).
Proof.
  intros H. unfold arr_set.
  by rewrite (proj2 (Z.leb_le 0 i)), (proj2 (Z.ltb_lt i _)) by lia.
Qed.

Lemma arr_set_None l i a : ~ 0 <= i < Z.of_nat (length l) -> arr_set l i a = None.
Proof. intros H. unfold arr_set. repeat case_bool; simpl; auto; lia. Qed.

Lemma arr_get_set l i j a l' :
  arr_set l i a = Some l' ->
  arr_get l' j = if i =? j then Some a else arr_get l j.
Proof.
  unfold arr_set, arr_get. destruct (Z.leb_spec 0 i); [|done].
  destruct (Z.ltb_spec i (Z.of_nat (length l))); [|done]. intros [= <-].
  destruct (Z.leb_spec 0 j); case_bool; subst; try done; try lia.
  - apply list_lookup_insert_eq. lia.
  - apply list_lookup_insert_ne. lia.
Qed.

Lemma arr_set_length l i a l' : arr_set l i a = Some l' -> length l' = length l.
Proof. unfold arr_set. destruct (_ && _); [|done]. intros [= <-]. apply length_insert. Qed.
End Arrays.

(** * Bits *)

Lemma u8_testbit x n : 0 <= n -> Z.testbit (u8 x) n = (n <? 8) && Z.testbit x n.
Proof.
  intros Hn. unfold u8. change 256 with (2 ^ 8). destruct (Z.ltb_spec n 8); simpl.
  - by apply Z.mod_pow2_bits_low.
  - by apply Z.mod_pow2_bits_high.
Qed.

Lemma shiftl_1_testbit a n : 0 <= a -> 0 <= n -> Z.testbit (Z.shiftl 1 a) n = (a =? n).
Proof. intros Ha Hn. rewrite Z.shiftl_1_l. by apply Z.pow2_bits_eqb. Qed.

(** A byte is zero under a one-bit mask exactly when the bit is clear. *)
Lemma land_bit_eq0 x a : 0 <= a -> (Z.land x (Z.shiftl 1 a) =? 0) = negb (Z.testbit x a).
Proof.
  intros Ha. destruct (Z.testbit x a) eqn:E; simpl.
  - apply Z.eqb_neq. intros H0.
    assert (Z.testbit (Z.land x (Z.shiftl 1 a)) a = true) as H1.
    { by rewrite Z.land_spec, E, shiftl_1_testbit, Z.eqb_refl by lia. }
    rewrite H0 in H1. by rewrite Z.bits_0 in H1.
  - apply Z.eqb_eq, Z.bits_inj'. intros n Hn.
    rewrite Z.land_spec, shiftl_1_testbit, Z.bits_0 by lia.
    destruct (Z.eqb_spec a n); subst; [by rewrite E|by rewrite andb_false_r].
Qed.

Lemma land_255 x : Z.land x 0xFF = u8 x.
Proof. change 0xFF with (Z.ones 8). by rewrite Z.land_ones. Qed.

Lemma u8_u8 x : u8 (u8 x) = u8 x.
Proof. apply u8_small, u8_range. Qed.

(** Widths are closed under bitwise operations. *)
Lemma lor_range n a b : 0 <= n -> 0 <= a < 2 ^ n -> 0 <= b < 2 ^ n -> 0 <= Z.lor a b < 2 ^ n.
Proof.
  intros Hn Ha Hb. assert (0 <= Z.lor a b) as Hl by (apply Z.lor_nonneg; lia). split; [done|].
  replace (Z.lor a b) with (Z.lor a b mod 2 ^ n); [apply Z.mod_pos_bound; lia|].
  rewrite <- Z.land_ones by lia. rewrite Z.land_lor_distr_l, !Z.land_ones by lia. by rewrite !Z.mod_small by lia.
Qed.
Lemma land_range n a b : 0 <= n -> 0 <= b < 2 ^ n -> 0 <= Z.land a b < 2 ^ n.
Proof.
  intros Hn Hb. assert (0 <= Z.land a b) as Hl by (apply Z.land_nonneg; lia). split; [done|].
  replace (Z.land a b) with (Z.land a b mod 2 ^ n); [apply Z.mod_pos_bound; lia|].
  rewrite <- Z.land_ones, <- Z.land_assoc by lia. f_equal. rewrite Z.land_ones by lia. apply Z.mod_small. lia.
Qed.
Lemma lor_u32 a b : is_u32 a -> is_u32 b -> is_u32 (Z.lor a b).
Proof. apply (lor_range 32). lia. Qed.
Lemma land_u8 a b : is_u8 b -> is_u8 (Z.land a b).
Proof. apply (land_range 8). lia. Qed.
Lemma land_u16 a b : is_u16 b -> is_u16 (Z.land a b).
Proof. apply (land_range 16). lia. Qed.

(** A boolean property of bytes is decided by the 256 cases. *)
Lemma u8_forall (P : Z -> bool) :
  forallb P (seqZ 0 256) = true -> forall x, is_u8 x -> P x = true.
Proof.
  intros Hall x Hx. rewrite forallb_forall in Hall. apply Hall.
  apply list_elem_of_In, elem_of_seqZ. word_solve.
Qed.

Lemma land_128 x : is_u8 x -> (Z.land x 0x80 =? 0) = (x <? 128).
Proof.
  intros Hx. apply eqb_prop. revert x Hx.
  apply (u8_forall (fun x => Bool.eqb (Z.land x 0x80 =? 0) (x <? 128))). by vm_compute.
Qed.

(** * Character strings

    A C string literal is the list of its bytes, without the terminator. *)
Definition str (s : String.string) : list Z :=
  (fun a => Z.of_N (Ascii.N_of_ascii a)) <$> String.list_ascii_of_string s.
Arguments str s%_string.

Lemma str_u8 s : Forall is_u8 (str s).
Proof.
  unfold str. apply Forall_fmap, Forall_true. intros a. simpl.
  pose proof (Ascii.N_ascii_bounded a). word_unfold. lia.
Qed.
