(* ===== verification/Numerals.v ===== *)
(** Decimal and hexadecimal numerals: the text of a number as the Standard Library
    prints it, and its characterization by digits, value and first digit. *)
From Stdlib Require Import NArith DecimalString DecimalN HexadecimalString HexadecimalN.
From S2P Require Import Prelude.

(** * The text of a number *)

Definition decimal_text (n : Z) : list Z := str (DecimalString.NilZero.string_of_uint (N.to_uint (Z.to_N n))).
Definition hexadecimal_text (n : Z) : list Z := str (HexadecimalString.NilZero.string_of_uint (N.to_hex_uint (Z.to_N n))).

(** The same with a sign. *)
Definition signed_text (n : Z) : list Z := if n <? 0 then 45 :: decimal_text (- n) else decimal_text n.

(** * Digits *)

Definition digit_char (d : Z) : Z := if d <? 10 then 48 + d else 97 + d - 10.
Definition digit_value (c : Z) : Z := if c <? 97 then c - 48 else c - 97 + 10.

(** The value of a numeral, most significant digit first. *)
Definition numeral_value (base : Z) (s : list Z) : Z := fold_left (fun v c => v * base + digit_value c) s 0.

Lemma digit_value_char d : 0 <= d < 16 -> digit_value (digit_char d) = d.
Proof. intros Hd. unfold digit_value, digit_char. repeat case_bool; lia. Qed.

(** [digit_cases d n] splits on the values of a digit below [n]. *)
Ltac digit_cases d n :=
  lazymatch n with
  | O => exfalso; lia
  | S ?m => let v := eval vm_compute in (Z.of_nat m) in destruct (Z.eq_dec d v) as [->|]; [|digit_cases d m]
  end.

(** ** Decimal *)

Definition dec_cons (d : Z) (u : Decimal.uint) : Decimal.uint :=
  match d with
  | 0 => Decimal.D0 u | 1 => Decimal.D1 u | 2 => Decimal.D2 u | 3 => Decimal.D3 u | 4 => Decimal.D4 u
  | 5 => Decimal.D5 u | 6 => Decimal.D6 u | 7 => Decimal.D7 u | 8 => Decimal.D8 u | _ => Decimal.D9 u
  end.
Definition dec_of (ds : list Z) : Decimal.uint := foldr dec_cons Decimal.Nil ds.

Lemma dec_string ds :
  Forall (fun d => 0 <= d < 10) ds -> str (DecimalString.NilEmpty.string_of_uint (dec_of ds)) = digit_char <$> ds.
Proof.
  induction 1 as [|d ds Hd _ IH]; [done|]. cbn [fmap list_fmap]. rewrite <- IH. cbn [dec_of foldr]. fold (dec_of ds).
  digit_cases d 10%nat; reflexivity.
Qed.

Lemma dec_acc ds : Forall (fun d => 0 <= d < 10) ds ->
  forall acc, Z.pos (Pos.of_uint_acc (dec_of ds) acc) = fold_left (fun v d => v * 10 + d) ds (Z.pos acc).
Proof.
  induction 1 as [|d ds Hd _ IH]; intros acc; [done|]. cbn [fold_left]. cbn [dec_of foldr]. fold (dec_of ds).
  digit_cases d 10%nat; cbn [dec_cons Pos.of_uint_acc]; rewrite IH; f_equal; lia.
Qed.

Lemma dec_value d ds : 0 < d < 10 -> Forall (fun d => 0 <= d < 10) ds ->
  Z.of_N (N.of_uint (dec_of (d :: ds))) = fold_left (fun v d => v * 10 + d) ds d.
Proof.
  intros Hd Hds. pose proof (dec_acc ds Hds) as Ha. cbn [dec_of foldr]. fold (dec_of ds).
  digit_cases d 10%nat; try (exfalso; lia); cbn [dec_cons N.of_uint Pos.of_uint Z.of_N]; apply Ha.
Qed.

Lemma decimal_unique n d ds :
  0 < d < 10 -> Forall (fun d => 0 <= d < 10) ds -> fold_left (fun v d => v * 10 + d) ds d = n ->
  decimal_text n = digit_char <$> d :: ds.
Proof.
  intros Hd Hds Hn. unfold decimal_text. rewrite <- Hn, <- dec_value, N2Z.id by done.
  rewrite DecimalN.Unsigned.to_of. rewrite <- dec_string by (constructor; [lia|done]).
  cbn [dec_of foldr]. fold (dec_of ds). digit_cases d 10%nat; try (exfalso; lia); reflexivity.
Qed.

(** ** Hexadecimal *)

Definition hex_cons (d : Z) (u : Hexadecimal.uint) : Hexadecimal.uint :=
  match d with
  | 0 => Hexadecimal.D0 u | 1 => Hexadecimal.D1 u | 2 => Hexadecimal.D2 u | 3 => Hexadecimal.D3 u
  | 4 => Hexadecimal.D4 u | 5 => Hexadecimal.D5 u | 6 => Hexadecimal.D6 u | 7 => Hexadecimal.D7 u
  | 8 => Hexadecimal.D8 u | 9 => Hexadecimal.D9 u | 10 => Hexadecimal.Da u | 11 => Hexadecimal.Db u
  | 12 => Hexadecimal.Dc u | 13 => Hexadecimal.Dd u | 14 => Hexadecimal.De u | _ => Hexadecimal.Df u
  end.
Definition hex_of (ds : list Z) : Hexadecimal.uint := foldr hex_cons Hexadecimal.Nil ds.

Lemma hex_string ds :
  Forall (fun d => 0 <= d < 16) ds -> str (HexadecimalString.NilEmpty.string_of_uint (hex_of ds)) = digit_char <$> ds.
Proof.
  induction 1 as [|d ds Hd _ IH]; [done|]. cbn [fmap list_fmap]. rewrite <- IH. cbn [hex_of foldr]. fold (hex_of ds).
  digit_cases d 16%nat; reflexivity.
Qed.

Lemma hex_acc ds : Forall (fun d => 0 <= d < 16) ds ->
  forall acc, Z.pos (Pos.of_hex_uint_acc (hex_of ds) acc) = fold_left (fun v d => v * 16 + d) ds (Z.pos acc).
Proof.
  induction 1 as [|d ds Hd _ IH]; intros acc; [done|]. cbn [fold_left]. cbn [hex_of foldr]. fold (hex_of ds).
  digit_cases d 16%nat; cbn [hex_cons Pos.of_hex_uint_acc]; rewrite IH; f_equal; lia.
Qed.

Lemma hex_value d ds : 0 < d < 16 -> Forall (fun d => 0 <= d < 16) ds ->
  Z.of_N (N.of_hex_uint (hex_of (d :: ds))) = fold_left (fun v d => v * 16 + d) ds d.
Proof.
  intros Hd Hds. pose proof (hex_acc ds Hds) as Ha. cbn [hex_of foldr]. fold (hex_of ds).
  digit_cases d 16%nat; try (exfalso; lia); cbn [hex_cons N.of_hex_uint Pos.of_hex_uint Z.of_N]; apply Ha.
Qed.

Lemma hex_unique n d ds :
  0 < d < 16 -> Forall (fun d => 0 <= d < 16) ds -> fold_left (fun v d => v * 16 + d) ds d = n ->
  hexadecimal_text n = digit_char <$> d :: ds.
Proof.
  intros Hd Hds Hn. unfold hexadecimal_text. rewrite <- Hn, <- hex_value, N2Z.id by done.
  rewrite HexadecimalN.Unsigned.to_of. rewrite <- hex_string by (constructor; [lia|done]).
  cbn [hex_of foldr]. fold (hex_of ds). digit_cases d 16%nat; try (exfalso; lia); reflexivity.
Qed.
