(* ===== verification/State.v ===== *)
(** The static storage of the kernel.

    One record per translation unit holds its [static] variables; [kernel]
    puts them together with the byte-addressed virtual memory, the CPU state
    the code loads and the trace of port operations.  [Layout] gives the
    addresses the linker chooses, [Env] the answers of the hardware. *)
From S2P Require Import Prelude.

(** * Constants of the headers *)

Definition FB_NUM_COLS : Z := 80.
Definition FB_NUM_ROWS : Z := 25.
Definition FB_BLACK : Z := 0.
Definition FB_LIGHT_GREEN : Z := 10.
Definition FB_LIGHT_CYAN : Z := 11.
Definition FB_LIGHT_RED : Z := 12.
Definition FB_LIGHT_MAGENTA : Z := 13.
Definition FB_LIGHT_BROWN : Z := 14.
Definition FB_WHITE : Z := 15.

Definition KBD_BUFFER_SIZE : Z := 256.

Definition KHEAP_BLOCK_SIZE : Z := 32.
Definition KHEAP_SIZE : Z := 256 * 1024.
Definition KHEAP_TOTAL_BLOCKS : Z := KHEAP_SIZE / KHEAP_BLOCK_SIZE.
Definition KHEAP_BITMAP_SIZE : Z := KHEAP_TOTAL_BLOCKS / 8.
Definition KHEAP_MAGIC : Z := 0x1EA9BEEF.

(** * Per-file static variables *)

(** drivers/framebuffer.c; the cells themselves are in memory. *)
Record fb_state := FbState {
  cursor_pos : Z;
  current_fg : Z;
  current_bg : Z
}.

(** drivers/keyboard.c *)
Record kbd_state := KbdState {
  shift_active : Z;
  kbd_buffer : list Z;
  kbd_buf_head : Z;
  kbd_buf_tail : Z;
  kbd_buf_count : Z
}.

(** kernel/kheap.c; [kheap_memory] is in memory, at [kheap_memory_addr]. *)
Record heap_state := HeapState {
  kheap_bitmap : list Z;
  kheap_initialized : Z
}.

(** arch/x86/cpu/isr.c: the function pointers the drivers register. *)
Inductive isr_handler := H_null | keyboard_interrupt | serial_interrupt.

#[global] Instance isr_handler_eq_dec : EqDecision isr_handler.
Proof. solve_decision. Defined.

(** include/arch/x86/gdt.h *)
Record gdt_entry := GdtEntry {
  limit_low : Z;
  base_low : Z;
  base_middle : Z;
  access : Z;
  granularity : Z;
  base_high : Z
}.

(** [struct gdt_ptr] and [struct idt_ptr]. *)
Record table_ptr := TablePtr { tp_limit : Z; tp_base : Z }.

Record tss_entry := TssEntry {
  prev_tss : Z; tss_esp0 : Z; tss_ss0 : Z; tss_esp1 : Z; tss_ss1 : Z;
  tss_esp2 : Z; tss_ss2 : Z; tss_cr3 : Z; tss_eip : Z; tss_eflags : Z;
  tss_eax : Z; tss_ecx : Z; tss_edx : Z; tss_ebx : Z; tss_esp : Z;
  tss_ebp : Z; tss_esi : Z; tss_edi : Z; tss_es : Z; tss_cs : Z;
  tss_ss : Z; tss_ds : Z; tss_fs : Z; tss_gs : Z; tss_ldt : Z;
  tss_trap : Z; tss_iomap_base : Z
}.

(** arch/x86/cpu/gdt.c *)
Record gdt_state := GdtState { gdt : list gdt_entry; gdtr : table_ptr; tss : tss_entry }.

(** include/arch/x86/idt.h and arch/x86/cpu/idt.c *)
Record idt_entry := IdtEntry {
  offset_lowerbits : Z;
  selector : Z;
  zero : Z;
  type_attr : Z;
  offset_higherbits : Z
}.
Record idt_state := IdtState { idt : list idt_entry; idtr : table_ptr }.

(** arch/x86/mmu/paging.c, with the bootstrap tables of loader.s. *)
Record paging_state := PagingState {
  boot_page_directory : list Z;
  boot_page_table1 : list Z;
  user_page_directory : list Z;
  user_code_page_table : list Z;
  user_stack_page_table : list Z;
  user_code_pages : list (list Z);
  user_stack_page : list Z
}.

(** The CPU registers that the assembly routines called from C load. *)
Record cpu_state := CpuState {
  cpu_if : bool;
  cpu_gdtr : table_ptr;
  cpu_tr : Z;
  cpu_idtr : table_ptr;
  cpu_cr3 : Z;
  cpu_cs : Z;
  cpu_ds : Z
}.

(** * Port traffic

    The trace is kept newest first. *)
Inductive io_event :=
| Out (port value : Z)
| In (port value : Z)
| Irq (vector : Z).

#[global] Instance io_event_eq_dec : EqDecision io_event.
Proof. solve_decision. Defined.

Abbreviation trace := (list io_event).

(** The hardware: what a port read returns after a given history, and the
    vector that wakes a halted CPU, when one ever comes. *)
Class Env := {
  env_in : trace -> Z -> Z;
  env_irq : trace -> option Z
}.

(** The number of times a polling loop is unrolled. *)
Class PollFuel := poll_fuel : nat.

(** * The kernel state *)

Record kernel := Kernel {
  k_mem : gmap Z Z;
  k_trace : trace;
  k_cpu : cpu_state;
  k_fb : fb_state;
  k_kbd : kbd_state;
  k_heap : heap_state;
  k_isr : list isr_handler;
  k_gdt : gdt_state;
  k_idt : idt_state;
  k_paging : paging_state
}.

Abbreviation K := (M kernel).

Definition set_mem (m : gmap Z Z) (k : kernel) : kernel :=
  Kernel m (k_trace k) (k_cpu k) (k_fb k) (k_kbd k) (k_heap k) (k_isr k) (k_gdt k) (k_idt k) (k_paging k).
Definition set_trace (t : trace) (k : kernel) : kernel :=
  Kernel (k_mem k) t (k_cpu k) (k_fb k) (k_kbd k) (k_heap k) (k_isr k) (k_gdt k) (k_idt k) (k_paging k).
Definition set_cpu (c : cpu_state) (k : kernel) : kernel :=
  Kernel (k_mem k) (k_trace k) c (k_fb k) (k_kbd k) (k_heap k) (k_isr k) (k_gdt k) (k_idt k) (k_paging k).
Definition set_fb (f : fb_state) (k : kernel) : kernel :=
  Kernel (k_mem k) (k_trace k) (k_cpu k) f (k_kbd k) (k_heap k) (k_isr k) (k_gdt k) (k_idt k) (k_paging k).
Definition set_kbd (b : kbd_state) (k : kernel) : kernel :=
  Kernel (k_mem k) (k_trace k) (k_cpu k) (k_fb k) b (k_heap k) (k_isr k) (k_gdt k) (k_idt k) (k_paging k).
Definition set_heap (h : heap_state) (k : kernel) : kernel :=
  Kernel (k_mem k) (k_trace k) (k_cpu k) (k_fb k) (k_kbd k) h (k_isr k) (k_gdt k) (k_idt k) (k_paging k).
Definition set_isr (h : list isr_handler) (k : kernel) : kernel :=
  Kernel (k_mem k) (k_trace k) (k_cpu k) (k_fb k) (k_kbd k) (k_heap k) h (k_gdt k) (k_idt k) (k_paging k).
Definition set_gdt (g : gdt_state) (k : kernel) : kernel :=
  Kernel (k_mem k) (k_trace k) (k_cpu k) (k_fb k) (k_kbd k) (k_heap k) (k_isr k) g (k_idt k) (k_paging k).
Definition set_idt (i : idt_state) (k : kernel) : kernel :=
  Kernel (k_mem k) (k_trace k) (k_cpu k) (k_fb k) (k_kbd k) (k_heap k) (k_isr k) (k_gdt k) i (k_paging k).
Definition set_paging (p : paging_state) (k : kernel) : kernel :=
  Kernel (k_mem k) (k_trace k) (k_cpu k) (k_fb k) (k_kbd k) (k_heap k) (k_isr k) (k_gdt k) (k_idt k) p.

Lemma kernel_eta k : k = Kernel (k_mem k) (k_trace k) (k_cpu k) (k_fb k) (k_kbd k)
  (k_heap k) (k_isr k) (k_gdt k) (k_idt k) (k_paging k).
Proof. by destruct k. Qed.

(** Writing back what is there changes nothing. *)
Lemma set_kbd_id k : k = set_kbd (k_kbd k) k.
Proof. apply kernel_eta. Qed.
Lemma set_mem_id k : k = set_mem (k_mem k) k.
Proof. apply kernel_eta. Qed.
Lemma set_trace_id k : k = set_trace (k_trace k) k.
Proof. apply kernel_eta. Qed.

(** * Addresses chosen by the linker (link.ld, loader.s) *)

Class Layout := {
  kheap_memory_addr : Z;
  gdt_addr : Z;
  tss_addr : Z;
  idt_addr : Z;
  isr_stub_addr : Z -> Z;
  Int128Handler_addr : Z;
  kernel_stack_addr : Z;
  boot_page_table1_addr : Z;
  boot_page_directory_addr : Z;
  user_page_directory_addr : Z;
  user_code_page_table_addr : Z;
  user_stack_page_table_addr : Z;
  user_code_pages_addr : Z;
  user_stack_page_addr : Z;
  kernel_physical_start_addr : Z;
  kernel_physical_end_addr : Z;
  kernel_virtual_start_addr : Z;
  kernel_virtual_end_addr : Z
}.
