(* ===== verification/Machine.v ===== *)
(** Memory accesses, buffers, port I/O and the interrupt flag
    (arch/x86/cpu/io.s): the primitives every driver is written with. *)
From S2P Require Import Prelude State.

(** * Memory

    A byte address is a 32-bit value; an address the page tables do not map
    has no entry and faults. *)

Definition load8 (a : Z) : K Z :=
  k <- gets id ;;
  from_option (k_mem k !! u32 a).

Definition store8 (a v : Z) : K unit :=
  k <- gets id ;;
  match k_mem k !! u32 a with
  | Some _ => modify (set_mem (<[u32 a := u8 v]> (k_mem k)))
  | None => fault
  end.

(** Little-endian 32-bit accesses, as the CPU makes them. *)
Definition le32 (b0 b1 b2 b3 : Z) : Z :=
  b0 + 256 * b1 + 65536 * b2 + 16777216 * b3.

Definition load32 (a : Z) : K Z :=
  b0 <- load8 a ;;
  b1 <- load8 (a + 1) ;;
  b2 <- load8 (a + 2) ;;
  b3 <- load8 (a + 3) ;;
  ret (le32 b0 b1 b2 b3).

Definition store32 (a v : Z) : K unit :=
  store8 a v ;;;
  store8 (a + 1) (v / 256) ;;;
  store8 (a + 2) (v / 65536) ;;;
  store8 (a + 3) (v / 16777216).

(** A [const char *] argument: a pointer into memory, or a string literal or
    local array that no other pointer reaches. *)
Inductive cbuf :=
| Ptr (a : Z)
| Lit (bytes : list Z).

Definition buf_get (b : cbuf) (i : Z) : K Z :=
  match b with
  | Ptr a => load8 (a + i)
  | Lit l => from_option (arr_get l i)
  end.

(** * Ports *)

Section Ports.
Context `{Env}.

Definition outb (port value : Z) : K unit :=
  modify (fun k => set_trace (Out (u16 port) (u8 value) :: k_trace k) k).

Definition inb (port : Z) : K Z :=
  k <- gets id ;;
  let v := u8 (env_in (k_trace k) (u16 port)) in
  modify (set_trace (In (u16 port) v :: k_trace k)) ;;;
  ret v.
End Ports.

Definition set_cpu_if (b : bool) (c : cpu_state) : cpu_state :=
  CpuState b (cpu_gdtr c) (cpu_tr c) (cpu_idtr c) (cpu_cr3 c) (cpu_cs c) (cpu_ds c).

Definition enable_interrupts : K unit :=
  modify (fun k => set_cpu (set_cpu_if true (k_cpu k)) k).
Definition disable_interrupts : K unit :=
  modify (fun k => set_cpu (set_cpu_if false (k_cpu k)) k).

(** * Lemmas on memory *)

(** Every byte of [[a, a+n)] is mapped and holds a byte value. *)
Definition mapped (m : gmap Z Z) (a n : Z) : Prop :=
  forall i, 0 <= i < n -> exists v, m !! (a + i) = Some v /\ is_u8 v.

(** [m'] has the same addresses as [m] and differs only on [[a, a+n)]. *)
Definition only_differ (m m' : gmap Z Z) (a n : Z) : Prop :=
  forall x, ~ a <= x < a + n -> m' !! x = m !! x.

(** The bytes of [[a, a+n)]; an unmapped one reads as 0. *)
Definition bytes_at (m : gmap Z Z) (a : Z) (n : nat) : list Z :=
  (fun i => default 0 (m !! (a + i))) <$> seqZ 0 (Z.of_nat n).

Lemma mapped_sub m a n b p : mapped m a n -> a <= b -> b + p <= a + n -> mapped m b p.
Proof.
  intros H Hab Hp i Hi. destruct (H (b + i - a)) as (v & Hv & Hr); [lia|].
  exists v. by replace (b + i) with (a + (b + i - a)) by lia.
Qed.

Lemma mapped_insert m a n x v : mapped m a n -> is_u8 v -> mapped (<[x := v]> m) a n.
Proof.
  intros H Hv i Hi. destruct (decide (x = a + i)) as [->|Hne].
  - exists v. by rewrite lookup_insert_eq.
  - rewrite lookup_insert_ne by done. by apply H.
Qed.

Lemma only_differ_refl m a n : only_differ m m a n.
Proof. by intros x Hx. Qed.

Lemma only_differ_trans m1 m2 m3 a n :
  only_differ m1 m2 a n -> only_differ m2 m3 a n -> only_differ m1 m3 a n.
Proof. intros H1 H2 x Hx. rewrite H2, H1; auto. Qed.

Lemma only_differ_insert m a n x v : a <= x < a + n -> only_differ m (<[x := v]> m) a n.
Proof. intros Hx y Hy. rewrite lookup_insert_ne; [done|lia]. Qed.

Lemma only_differ_weaken m m' a n b p :
  only_differ m m' a n -> b <= a -> a + n <= b + p -> only_differ m m' b p.
Proof. intros H Hb Hp x Hx. apply H. lia. Qed.

Lemma mapped_only_differ m m' a n b p :
  mapped m a n -> only_differ m m' b p -> mapped m' b p -> mapped m' a n.
Proof.
  intros Hm Hd Hm' i Hi.
  destruct (decide (b <= a + i < b + p)) as [Hin|Hout].
  - destruct (Hm' (a + i - b)) as (v & Hv & Hr); [lia|]. exists v.
    by replace (a + i) with (b + (a + i - b)) by lia.
  - rewrite (Hd _ Hout). by apply Hm.
Qed.

Lemma load8_mapped m a n k x :
  k_mem k = m -> mapped m a n -> a <= x < a + n -> 0 <= a -> a + n <= 4294967296 ->
  exists v, m !! x = Some v /\ is_u8 v /\ load8 x k = Ok (v, k).
Proof.
  intros <- Hm Hx Ha Hn. destruct (Hm (x - a)) as (v & Hv & Hr); [lia|].
  replace (a + (x - a)) with x in Hv by lia. exists v. split_and!; try done.
  unfold load8, bind, gets, id. rewrite u32_small by word_solve. by rewrite Hv.
Qed.

Lemma load8_eq k x v : is_u32 x -> k_mem k !! x = Some v -> load8 x k = Ok (v, k).
Proof. intros Hx Hv. unfold load8, bind, gets, id. rewrite u32_small by done. by rewrite Hv. Qed.

Lemma store8_eq k x v w :
  is_u32 x -> k_mem k !! x = Some w ->
  store8 x v k = Ok (tt, set_mem (<[x := u8 v]> (k_mem k)) k).
Proof.
  intros Hx Hw. unfold store8, bind, gets, id. rewrite u32_small by done. by rewrite Hw.
Qed.

Lemma wp_load8 k x v (Q : Z -> kernel -> Prop) :
  is_u32 x -> k_mem k !! x = Some v -> Q v k -> wp (load8 x) Q k.
Proof. intros Hx Hv HQ. eapply wp_eq; [by apply load8_eq|done]. Qed.

Lemma wp_store8 k x v w (Q : unit -> kernel -> Prop) :
  is_u32 x -> k_mem k !! x = Some w ->
  Q tt (set_mem (<[x := u8 v]> (k_mem k)) k) -> wp (store8 x v) Q k.
Proof. intros Hx Hw HQ. eapply wp_eq; [by eapply store8_eq|done]. Qed.

(** The four bytes of a 32-bit value give it back. *)
Lemma le32_bytes v :
  is_u32 v -> le32 (u8 v) (u8 (v / 256)) (u8 (v / 65536)) (u8 (v / 16777216)) = v.
Proof. intros H. unfold le32. word_solve. Qed.

Lemma le32_range b0 b1 b2 b3 :
  is_u8 b0 -> is_u8 b1 -> is_u8 b2 -> is_u8 b3 -> is_u32 (le32 b0 b1 b2 b3).
Proof. unfold le32. word_solve. Qed.

(** * 32-bit words in memory *)

Definition byte_at (m : gmap Z Z) (a : Z) : Z := default 0 (m !! a).
Definition word_at (m : gmap Z Z) (a : Z) : Z :=
  le32 (byte_at m a) (byte_at m (a + 1)) (byte_at m (a + 2)) (byte_at m (a + 3)).
Definition put32 (m : gmap Z Z) (a v : Z) : gmap Z Z :=
  <[a + 3 := u8 (v / 16777216)]> (<[a + 2 := u8 (v / 65536)]>
    (<[a + 1 := u8 (v / 256)]> (<[a := u8 v]> m))).

Lemma word_at_ext m m' a :
  (forall i, 0 <= i < 4 -> m' !! (a + i) = m !! (a + i)) -> word_at m' a = word_at m a.
Proof.
  intros H. unfold word_at, byte_at. rewrite <- (Z.add_0_r a) at 1 5.
  by rewrite !H by lia.
Qed.

Lemma put32_lookup_ne m a v x : ~ a <= x < a + 4 -> put32 m a v !! x = m !! x.
Proof. intros Hx. unfold put32. by rewrite !lookup_insert_ne by lia. Qed.

Lemma put32_only_differ m a v : only_differ m (put32 m a v) a 4.
Proof. intros x Hx. by apply put32_lookup_ne. Qed.

Lemma put32_mapped m a v b n : mapped m b n -> mapped (put32 m a v) b n.
Proof. intros H. unfold put32. auto 10 using mapped_insert, u8_range. Qed.

Lemma word_at_put32 m a v : is_u32 v -> word_at (put32 m a v) a = v.
Proof.
  intros Hv. unfold word_at, byte_at, put32.
  repeat (rewrite lookup_insert_eq || rewrite lookup_insert_ne by lia). simpl.
  by apply le32_bytes.
Qed.

Lemma word_at_put32_ne m a b v : a + 4 <= b \/ b + 4 <= a -> word_at (put32 m a v) b = word_at m b.
Proof. intros H. apply word_at_ext. intros i Hi. apply put32_lookup_ne. lia. Qed.

Lemma word_at_range m a : mapped m a 4 -> is_u32 (word_at m a).
Proof.
  intros Hm. unfold word_at, byte_at. rewrite <- (Z.add_0_r a) at 1.
  apply le32_range;
    (edestruct Hm as (v & -> & Hr); [lia|]; exact Hr).
Qed.

Lemma mapped_lookup m a n x :
  mapped m a n -> a <= x < a + n -> exists v, m !! x = Some v /\ is_u8 v.
Proof.
  intros Hm Hx. destruct (Hm (x - a)) as (v & Hv & Hr); [lia|].
  exists v. by replace x with (a + (x - a)) at 1 by lia.
Qed.

Lemma load8_state a k v k' : load8 a k = Ok (v, k') -> k' = k.
Proof. unfold load8, bind, gets, id. destruct (k_mem k !! u32 a); [|done]. by intros [= _ <-]. Qed.
Lemma load32_state a k v k' : load32 a k = Ok (v, k') -> k' = k.
Proof.
  unfold load32, bind. do 4 (destruct (load8 _ k) as [[? ?]| |] eqn:E; [apply load8_state in E as ->|done..]).
  by intros [= _ <-].
Qed.

Lemma load32_eq k a :
  mapped (k_mem k) a 4 -> 0 <= a -> a + 4 <= 4294967296 ->
  load32 a k = Ok (word_at (k_mem k) a, k).
Proof.
  intros Hm Ha Hn. unfold load32, bind, word_at, byte_at.
  destruct (mapped_lookup _ _ _ a Hm) as (v0 & Hv0 & _); [lia|].
  destruct (mapped_lookup _ _ _ (a + 1) Hm) as (v1 & Hv1 & _); [lia|].
  destruct (mapped_lookup _ _ _ (a + 2) Hm) as (v2 & Hv2 & _); [lia|].
  destruct (mapped_lookup _ _ _ (a + 3) Hm) as (v3 & Hv3 & _); [lia|].
  rewrite (load8_eq _ _ v0), (load8_eq _ _ v1), (load8_eq _ _ v2), (load8_eq _ _ v3)
    by (done || word_solve).
  by rewrite Hv0, Hv1, Hv2, Hv3.
Qed.

Lemma set_mem_set_mem m m' k : set_mem m' (set_mem m k) = set_mem m' k.
Proof. done. Qed.

Lemma store32_eq k a v :
  mapped (k_mem k) a 4 -> 0 <= a -> a + 4 <= 4294967296 ->
  store32 a v k = Ok (tt, set_mem (put32 (k_mem k) a v) k).
Proof.
  intros Hm Ha Hn. unfold store32, bind.
  destruct (mapped_lookup _ _ _ a Hm) as (v0 & Hv0 & _); [lia|].
  destruct (mapped_lookup _ _ _ (a + 1) Hm) as (v1 & Hv1 & _); [lia|].
  destruct (mapped_lookup _ _ _ (a + 2) Hm) as (v2 & Hv2 & _); [lia|].
  destruct (mapped_lookup _ _ _ (a + 3) Hm) as (v3 & Hv3 & _); [lia|].
  rewrite (store8_eq _ _ _ v0) by (done || word_solve).
  rewrite (store8_eq _ _ _ v1) by (word_solve || (simpl; by rewrite lookup_insert_ne by lia)).
  rewrite (store8_eq _ _ _ v2) by (word_solve || (simpl; by rewrite !lookup_insert_ne by lia)).
  by rewrite (store8_eq _ _ _ v3) by (word_solve || (simpl; by rewrite !lookup_insert_ne by lia)).
Qed.

(** * Buffers *)

(** The first bytes of the buffer are [s]. *)
Definition buf_reads (m : gmap Z Z) (buf : cbuf) (s : list Z) : Prop :=
  match buf with
  | Lit l => forall i c, s !! i = Some c -> l !! i = Some c
  | Ptr a => forall i c, s !! i = Some c ->
      m !! (a + Z.of_nat i) = Some c /\ is_u32 (a + Z.of_nat i)
  end.

Lemma buf_reads_lit m s : buf_reads m (Lit s) s.
Proof. by intros i c Hc. Qed.

Lemma buf_reads_prefix m buf s t : buf_reads m buf (s ++ t) -> buf_reads m buf s.
Proof. destruct buf; intros Hr i c Hi; apply Hr; by apply lookup_app_l_Some. Qed.

Lemma buf_get_reads k buf s i c :
  buf_reads (k_mem k) buf s -> s !! Z.to_nat i = Some c -> 0 <= i -> buf_get buf i k = Ok (c, k).
Proof.
  destruct buf as [a|l]; intros H Hc Hi; simpl.
  - destruct (H _ _ Hc) as (H1 & H2). rewrite Z2Nat.id in * by done. by apply load8_eq.
  - unfold arr_get. by rewrite (proj2 (Z.leb_le 0 i)), (H _ _ Hc) by done.
Qed.
