(* ===== verification/Image.v ===== *)
(** The kernel image as loaded: the initial values of the static variables,
    and a sample placement of them on which the theorems are instantiated. *)
From S2P Require Import Prelude State Machine.

(** * Initial values of the static storage *)

Definition KERNEL_VIRTUAL_BASE : Z := 0xC0000000.

Definition gdt_entry_zero : gdt_entry := GdtEntry 0 0 0 0 0 0.
Definition idt_entry_zero : idt_entry := IdtEntry 0 0 0 0 0.
Definition table_ptr_zero : table_ptr := TablePtr 0 0.
Definition tss_entry_zero : tss_entry :=
  TssEntry 0 0 0 0 0 0 0 0 0 0 0 0 0 0 0 0 0 0 0 0 0 0 0 0 0 0 0.

(** [static uint8_t current_fg = FB_WHITE], [current_bg = FB_BLACK]. *)
Definition fb_init_state : fb_state := FbState 0 FB_WHITE FB_BLACK.
Definition kbd_init_state : kbd_state := KbdState 0 (replicate 256 0) 0 0 0.
Definition heap_init_state : heap_state := HeapState (replicate 1024 0) 0.

(** The page table and directory that loader.s assembles. *)
Definition boot_table : list Z := (fun i => Z.lor (i * 4096) 3) <$> seqZ 0 1024.
Definition boot_directory (boot_page_table1_addr : Z) : list Z :=
  let pde := boot_page_table1_addr - KERNEL_VIRTUAL_BASE + 3 in
  [pde] ++ replicate 767 0 ++ [pde] ++ replicate 255 0.

Definition paging_init_state `{Layout} : paging_state :=
  PagingState (boot_directory boot_page_table1_addr) boot_table
    (replicate 1024 0) (replicate 1024 0) (replicate 1024 0)
    (replicate 16 (replicate 4096 0)) (replicate 4096 0).

Definition cpu_reset : cpu_state :=
  CpuState false table_ptr_zero 0 table_ptr_zero 0 0x08 0x10.

(** The state in which [kmain] is entered, over a memory [m]. *)
Definition image `{Layout} (m : gmap Z Z) : kernel :=
  Kernel m [] cpu_reset fb_init_state kbd_init_state heap_init_state
    (replicate 256 H_null)
    (GdtState (replicate 6 gdt_entry_zero) table_ptr_zero tss_entry_zero)
    (IdtState (replicate 256 idt_entry_zero) table_ptr_zero)
    paging_init_state.

(** * A sample placement *)

(** [n] zero bytes from address [a]. *)
Definition zero_mem (a n : Z) : gmap Z Z :=
  gset_to_gmap 0 (list_to_set (seqZ a n) : gset Z).

Lemma zero_mem_lookup a n x : a <= x < a + n -> zero_mem a n !! x = Some 0.
Proof.
  intros Hx. unfold zero_mem. apply lookup_gset_to_gmap_Some. split; [|done].
  apply elem_of_list_to_set, elem_of_seqZ. lia.
Qed.

Lemma zero_mem_mapped a n b p : a <= b -> b + p <= a + n -> mapped (zero_mem a n) b p.
Proof.
  intros Hb Hp i Hi. exists 0. split; [apply zero_mem_lookup; lia|word_solve].
Qed.

(** Addresses of the shape the linker script gives: code at 1MB, data above. *)
#[export] Instance sample_layout : Layout := {
  kheap_memory_addr := 0xC0120000;
  gdt_addr := 0xC0110000;
  tss_addr := 0xC0110100;
  idt_addr := 0xC0111000;
  isr_stub_addr := fun i => 0xC0102000 + 16 * i;
  Int128Handler_addr := 0xC0103000;
  kernel_stack_addr := 0xC0180000;
  boot_page_table1_addr := 0xC0108000;
  boot_page_directory_addr := 0xC0109000;
  user_page_directory_addr := 0xC0160000;
  user_code_page_table_addr := 0xC0161000;
  user_stack_page_table_addr := 0xC0162000;
  user_code_pages_addr := 0xC0163000;
  user_stack_page_addr := 0xC0173000;
  kernel_physical_start_addr := 0x00100000;
  kernel_physical_end_addr := 0x00190000;
  kernel_virtual_start_addr := 0xC0100000;
  kernel_virtual_end_addr := 0xC0190000
}.

(** The 4MB that the bootstrap page table maps at 3GB. *)
Definition sample_mem : gmap Z Z := zero_mem 0xC0000000 0x400000.
Definition sample_kernel : kernel := image sample_mem.
