(* ===== verification/Kheap.v ===== *)
(** The kernel bitmap heap allocator: the operations of kernel/kheap.c.

    [kheap_memory] is the byte range of [KHEAP_SIZE] bytes at
    [kheap_memory_addr]; pointers are addresses and NULL is 0.  The headers of
    the chunks are in that memory, where any other code can reach them. *)
From S2P Require Import Prelude State Machine.

Definition NULL : Z := 0.

(** Offsets of the fields of [kheap_header_t] and its size. *)
Definition off_magic : Z := 0.
Definition off_start_block : Z := 4.
Definition off_num_blocks : Z := 8.
Definition off_size : Z := 12.
Definition sizeof_header : Z := 16.

Section Kheap.
Context `{Layout}.

(** The loops of [kheap_memset] and [kheap_memcpy]; [store] writes the
    [i]-th byte of the destination object. *)
Definition kheap_memset (store : Z -> Z -> K unit) (val count : Z) : K unit :=
  for_up 0 count (fun i => store i (u8 val)).

Definition kheap_memcpy (dest src count : Z) : K unit :=
  for_up 0 count (fun i => v <- load8 (src + i) ;; store8 (dest + i) v).

Definition set_bitmap (bm : list Z) (k : kernel) : kernel :=
  set_heap (HeapState bm (kheap_initialized (k_heap k))) k.

Definition bitmap_load (i : Z) : K Z :=
  h <- gets k_heap ;;
  from_option (arr_get (kheap_bitmap h) i).

Definition bitmap_store (i v : Z) : K unit :=
  h <- gets k_heap ;;
  bm <- from_option (arr_set (kheap_bitmap h) i (u8 v)) ;;
  modify (set_bitmap bm).

Definition bitmap_set (bit : Z) : K unit :=
  byte <- bitmap_load (bit / 8) ;;
  bitmap_store (bit / 8) (Z.lor byte (u8 (Z.shiftl 1 (bit mod 8)))).

Definition bitmap_clear (bit : Z) : K unit :=
  byte <- bitmap_load (bit / 8) ;;
  bitmap_store (bit / 8) (Z.land byte (u8 (Z.lnot (Z.shiftl 1 (bit mod 8))))).

Definition bitmap_test (bit : Z) : K bool :=
  byte <- bitmap_load (bit / 8) ;;
  ret (negb (Z.land byte (Z.shiftl 1 (bit mod 8)) =? 0)).

Definition kheap_init : K unit :=
  kheap_memset bitmap_store 0 KHEAP_BITMAP_SIZE ;;;
  kheap_memset (fun i v => store8 (kheap_memory_addr + i) v) 0 KHEAP_SIZE ;;;
  modify (fun k => set_heap (HeapState (kheap_bitmap (k_heap k)) 1) k).

(** The search loop of [kmalloc] from block [i] on, [n] iterations from the
    end: the start of the run it selects, if any. *)
Fixpoint kmalloc_scan (n : nat) (i consecutive_free start_block blocks_needed : Z)
  : K (option Z) :=
  match n with
  | O => ret None
  | S n' =>
      b <- bitmap_test i ;;
      if negb b then
        let start_block := if consecutive_free =? 0 then i else start_block in
        let consecutive_free := u32 (consecutive_free + 1) in
        if consecutive_free =? blocks_needed then ret (Some start_block)
        else kmalloc_scan n' (i + 1) consecutive_free start_block blocks_needed
      else kmalloc_scan n' (i + 1) 0 start_block blocks_needed
  end.

Definition mark_blocks (start_block blocks_needed : Z) : K unit :=
  for_up start_block (u32 (start_block + blocks_needed)) bitmap_set.

Definition kmalloc (size : Z) : K Z :=
  h <- gets k_heap ;;
  if (kheap_initialized h =? 0) || (size =? 0) then ret NULL
  else
    let total_needed := u32 (sizeof_header + size) in
    let blocks_needed := u32 (total_needed + KHEAP_BLOCK_SIZE - 1) / KHEAP_BLOCK_SIZE in
    if KHEAP_TOTAL_BLOCKS <? blocks_needed then ret NULL
    else
      found <- kmalloc_scan (Z.to_nat KHEAP_TOTAL_BLOCKS) 0 0 0 blocks_needed ;;
      match found with
      | None => ret NULL
      | Some start_block =>
          mark_blocks start_block blocks_needed ;;;
          let header := u32 (kheap_memory_addr + u32 (start_block * KHEAP_BLOCK_SIZE)) in
          store32 (header + off_magic) KHEAP_MAGIC ;;;
          store32 (header + off_start_block) start_block ;;;
          store32 (header + off_num_blocks) blocks_needed ;;;
          store32 (header + off_size) size ;;;
          ret (u32 (header + sizeof_header))
      end.

Definition kcalloc (num size : Z) : K Z :=
  let total_size := u32 (num * size) in
  ptr <- kmalloc total_size ;;
  (when negb (ptr =? NULL) do kheap_memset (fun i v => store8 (ptr + i) v) 0 total_size) ;;;
  ret ptr.

Definition kfree (ptr : Z) : K unit :=
  h <- gets k_heap ;;
  if (ptr =? NULL) || (kheap_initialized h =? 0) then ret tt
  else
    let heap_start := kheap_memory_addr in
    let heap_end := u32 (heap_start + KHEAP_SIZE) in
    if (ptr <? u32 (heap_start + sizeof_header)) || (heap_end <=? ptr) then ret tt
    else
      let header := u32 (ptr - sizeof_header) in
      magic <- load32 (header + off_magic) ;;
      if negb (magic =? KHEAP_MAGIC) then ret tt
      else
        start_block <- load32 (header + off_start_block) ;;
        num_blocks <- load32 (header + off_num_blocks) ;;
        for_up start_block (u32 (start_block + num_blocks))
          (fun b => when b <? KHEAP_TOTAL_BLOCKS do bitmap_clear b) ;;;
        store32 (header + off_magic) 0.

Definition krealloc (ptr new_size : Z) : K Z :=
  if ptr =? NULL then kmalloc new_size
  else if new_size =? 0 then kfree ptr ;;; ret NULL
  else
    let header := u32 (ptr - sizeof_header) in
    magic <- load32 (header + off_magic) ;;
    if negb (magic =? KHEAP_MAGIC) then ret NULL
    else
      num_blocks <- load32 (header + off_num_blocks) ;;
      let current_capacity := u32 (u32 (num_blocks * KHEAP_BLOCK_SIZE) - sizeof_header) in
      if new_size <=? current_capacity then
        store32 (header + off_size) new_size ;;; ret ptr
      else
        new_ptr <- kmalloc new_size ;;
        if new_ptr =? NULL then ret NULL
        else
          size <- load32 (header + off_size) ;;
          let copy_bytes := if size <? new_size then size else new_size in
          kheap_memcpy new_ptr ptr copy_bytes ;;;
          kfree ptr ;;;
          ret new_ptr.

Definition kheap_get_total_memory : K Z := ret KHEAP_SIZE.

Fixpoint used_blocks_loop (n : nat) (i used_blocks : Z) : K Z :=
  match n with
  | O => ret used_blocks
  | S n' =>
      b <- bitmap_test i ;;
      used_blocks_loop n' (i + 1) (if b then u32 (used_blocks + 1) else used_blocks)
  end.

Definition kheap_get_used_memory : K Z :=
  used_blocks <- used_blocks_loop (Z.to_nat KHEAP_TOTAL_BLOCKS) 0 0 ;;
  ret (u32 (used_blocks * KHEAP_BLOCK_SIZE)).

Definition kheap_get_free_memory : K Z :=
  total <- kheap_get_total_memory ;;
  used <- kheap_get_used_memory ;;
  ret (u32 (total - used)).
End Kheap.
