(* ===== verification/KheapBitmap.v ===== *)
(** The allocation bitmap of kernel/kheap.c read as a set of blocks: what
    [bitmap_set], [bitmap_clear], [bitmap_test] and the loops over them do to
    it, and the first-fit search. *)
From S2P Require Import Prelude State Machine Kheap.

(** * The bitmap as a set of blocks *)

Definition bitmap_wf (bm : list Z) : Prop :=
  Z.of_nat (length bm) = KHEAP_BITMAP_SIZE /\ Forall is_u8 bm.

(** Block [b] is marked allocated. *)
Definition bit_of (bm : list Z) (b : Z) : bool :=
  Z.testbit (default 0 (arr_get bm (b / 8))) (b mod 8).

(** Marking the blocks of [[s, s+n)]. *)
Definition in_run (s n b : Z) : bool := (s <=? b) && (b <? s + n).

(** Every block of [[s, s+n)] is free. *)
Definition run_free (bm : list Z) (s n : Z) : Prop :=
  forall b, s <= b < s + n -> bit_of bm b = false.

(** [s] is the first block from which [n] blocks are free. *)
Definition first_fit (bm : list Z) (n s : Z) : Prop :=
  0 <= s /\ s + n <= KHEAP_TOTAL_BLOCKS /\ run_free bm s n /\
  forall s', 0 <= s' < s -> ~ run_free bm s' n.

Definition no_fit (bm : list Z) (n : Z) : Prop :=
  forall s, 0 <= s -> s + n <= KHEAP_TOTAL_BLOCKS -> ~ run_free bm s n.

Ltac kheap_consts :=
  change KHEAP_TOTAL_BLOCKS with 8192 in *; change KHEAP_BITMAP_SIZE with 1024 in *;
  change KHEAP_SIZE with 262144 in *; change KHEAP_BLOCK_SIZE with 32 in *;
  change sizeof_header with 16 in *.

Lemma bitmap_byte bm b :
  bitmap_wf bm -> 0 <= b < KHEAP_TOTAL_BLOCKS ->
  exists v, arr_get bm (b / 8) = Some v /\ is_u8 v /\ bit_of bm b = Z.testbit v (b mod 8).
Proof.
  intros [Hlen Hall] Hb. kheap_consts.
  destruct (arr_get_Some bm (b / 8)) as [v Hv]; [word_solve|].
  exists v. split_and!; [done| |unfold bit_of; by rewrite Hv].
  unfold arr_get in Hv. destruct (0 <=? b / 8); [|done].
  eapply Forall_lookup_1; eauto.
Qed.

Lemma bit_update bm bm' b v w b' :
  arr_get bm (b / 8) = Some v -> arr_set bm (b / 8) w = Some bm' ->
  (forall n, 0 <= n < 8 -> n <> b mod 8 -> Z.testbit w n = Z.testbit v n) ->
  0 <= b -> 0 <= b' ->
  bit_of bm' b' = if b =? b' then Z.testbit w (b mod 8) else bit_of bm b'.
Proof.
  intros Hv Hset Hw Hb Hb'. unfold bit_of. rewrite (arr_get_set _ _ _ _ _ Hset).
  destruct (Z.eqb_spec b b') as [->|Hne]; [by rewrite Z.eqb_refl|].
  destruct (Z.eqb_spec (b / 8) (b' / 8)) as [Heq|]; [|done]. simpl.
  rewrite <- Heq, Hv. simpl. apply Hw; word_solve.
Qed.

Lemma Forall_arr_set {A} (P : A -> Prop) (l l' : list A) i a :
  arr_set l i a = Some l' -> Forall P l -> P a -> Forall P l'.
Proof.
  unfold arr_set. destruct (_ && _); [|done]. intros [= <-] Hall Ha. by apply Forall_insert.
Qed.

Section BitmapOps.
Context `{Layout}.

Lemma set_bitmap_set_bitmap bm bm' k : set_bitmap bm' (set_bitmap bm k) = set_bitmap bm' k.
Proof. done. Qed.

Lemma bitmap_load_eq k i v :
  arr_get (kheap_bitmap (k_heap k)) i = Some v -> bitmap_load i k = Ok (v, k).
Proof. intros Hv. unfold bitmap_load, bind, gets. by rewrite Hv. Qed.

Lemma bitmap_store_eq k i v bm' :
  arr_set (kheap_bitmap (k_heap k)) i (u8 v) = Some bm' ->
  bitmap_store i v k = Ok (tt, set_bitmap bm' k).
Proof. intros Hv. unfold bitmap_store, bind, gets. by rewrite Hv. Qed.

Lemma bitmap_test_eq k b :
  bitmap_wf (kheap_bitmap (k_heap k)) -> 0 <= b < KHEAP_TOTAL_BLOCKS ->
  bitmap_test b k = Ok (bit_of (kheap_bitmap (k_heap k)) b, k).
Proof.
  intros Hwf Hb. destruct (bitmap_byte _ _ Hwf Hb) as (v & Hv & Hr & Hbit).
  unfold bitmap_test, bind. rewrite (bitmap_load_eq _ _ _ Hv).
  unfold ret. rewrite land_bit_eq0, negb_involutive by word_solve. by rewrite Hbit.
Qed.

Lemma bitmap_update_eq (f : Z -> Z) k b x :
  bitmap_wf (kheap_bitmap (k_heap k)) -> 0 <= b < KHEAP_TOTAL_BLOCKS ->
  (forall v, is_u8 v -> Z.testbit (u8 (f v)) (b mod 8) = x) ->
  (forall v n, is_u8 v -> 0 <= n < 8 -> n <> b mod 8 -> Z.testbit (u8 (f v)) n = Z.testbit v n) ->
  exists bm', (byte <- bitmap_load (b / 8) ;; bitmap_store (b / 8) (f byte)) k
              = Ok (tt, set_bitmap bm' k) /\
    bitmap_wf bm' /\
    forall b', 0 <= b' ->
      bit_of bm' b' = if b =? b' then x else bit_of (kheap_bitmap (k_heap k)) b'.
Proof.
  intros Hwf Hb Hx Hother. destruct (bitmap_byte _ _ Hwf Hb) as (v & Hv & Hr & _).
  pose proof (arr_set_Some _ _ (u8 (f v)) (arr_get_lt _ _ _ Hv)) as Hset.
  eexists. unfold bind. rewrite (bitmap_load_eq _ _ _ Hv). split_and!.
  - by apply bitmap_store_eq.
  - destruct Hwf as [Hlen Hall]. split.
    + by rewrite (arr_set_length _ _ _ _ Hset).
    + eapply Forall_arr_set; eauto using u8_range.
  - intros b' Hb'. erewrite (bit_update _ _ b v) by (eauto; lia).
    destruct (b =? b'); auto.
Qed.

Lemma bitmap_set_eq k b :
  bitmap_wf (kheap_bitmap (k_heap k)) -> 0 <= b < KHEAP_TOTAL_BLOCKS ->
  exists bm', bitmap_set b k = Ok (tt, set_bitmap bm' k) /\ bitmap_wf bm' /\
    forall b', 0 <= b' -> bit_of bm' b' = if b =? b' then true
                                         else bit_of (kheap_bitmap (k_heap k)) b'.
Proof.
  intros Hwf Hb. apply (bitmap_update_eq (fun v => Z.lor v (u8 (Z.shiftl 1 (b mod 8))))); auto.
  - intros v Hv. rewrite u8_testbit, Z.lor_spec, u8_testbit, shiftl_1_testbit, Z.eqb_refl by word_solve.
    rewrite (proj2 (Z.ltb_lt (b mod 8) 8)) by word_solve. apply orb_true_r.
  - intros v n Hv Hn Hne. rewrite u8_testbit, Z.lor_spec, u8_testbit, shiftl_1_testbit by word_solve.
    rewrite (proj2 (Z.ltb_lt n 8)), (proj2 (Z.eqb_neq (b mod 8) n)) by lia. apply orb_false_r.
Qed.

Lemma bitmap_clear_eq k b :
  bitmap_wf (kheap_bitmap (k_heap k)) -> 0 <= b < KHEAP_TOTAL_BLOCKS ->
  exists bm', bitmap_clear b k = Ok (tt, set_bitmap bm' k) /\ bitmap_wf bm' /\
    forall b', 0 <= b' -> bit_of bm' b' = if b =? b' then false
                                         else bit_of (kheap_bitmap (k_heap k)) b'.
Proof.
  intros Hwf Hb.
  apply (bitmap_update_eq (fun v => Z.land v (u8 (Z.lnot (Z.shiftl 1 (b mod 8)))))); auto.
  - intros v Hv.
    rewrite u8_testbit, Z.land_spec, u8_testbit, Z.lnot_spec, shiftl_1_testbit, Z.eqb_refl by word_solve.
    by rewrite !andb_false_r.
  - intros v n Hv Hn Hne.
    rewrite u8_testbit, Z.land_spec, u8_testbit, Z.lnot_spec, shiftl_1_testbit by word_solve.
    rewrite (proj2 (Z.ltb_lt n 8)), (proj2 (Z.eqb_neq (b mod 8) n)) by lia. apply andb_true_r.
Qed.

(** A loop that updates the bits of [[s, e)] one by one. *)
Lemma bitmap_loop (body : Z -> K unit) x k s e :
  (forall b k', s <= b < e -> bitmap_wf (kheap_bitmap (k_heap k')) ->
     exists bm', body b k' = Ok (tt, set_bitmap bm' k') /\ bitmap_wf bm' /\
     forall b', 0 <= b' -> bit_of bm' b' = if b =? b' then x
                                          else bit_of (kheap_bitmap (k_heap k')) b') ->
  s <= e -> bitmap_wf (kheap_bitmap (k_heap k)) ->
  exists bm', for_up s e body k = Ok (tt, set_bitmap bm' k) /\ bitmap_wf bm' /\
    forall b', 0 <= b' -> bit_of bm' b' = if in_run s (e - s) b' then x
                                         else bit_of (kheap_bitmap (k_heap k)) b'.
Proof.
  intros Hbody Hse Hwf.
  set (I := fun i k' => exists bm', k' = set_bitmap bm' k /\ bitmap_wf bm' /\
    forall b', 0 <= b' -> bit_of bm' b' = if in_run s (i - s) b' then x
                                         else bit_of (kheap_bitmap (k_heap k)) b').
  assert (wp (for_up s e body) (fun _ k' => I e k') k) as ([] & k' & Hrun & bm' & -> & Hwf' & Hbits).
  { apply wp_for_up; [done| |].
    - exists (kheap_bitmap (k_heap k)). split_and!; [by destruct k as [? ? ? ? ? [] ? ? ? ?]|done|].
      intros b' Hb'. unfold in_run. repeat case_bool; simpl; auto; lia.
    - intros i k' Hi (bm & -> & Hwf' & Hbits).
      destruct (Hbody i (set_bitmap bm k)) as (bm' & Hrun & Hwf'' & Hbits'); [lia|done|].
      apply (wp_eq _ _ _ _ _ Hrun). exists bm'. split_and!; [done|done|].
      intros b' Hb'. rewrite Hbits', Hbits by done.
      unfold in_run. repeat case_bool; simpl; auto; lia. }
  exists bm'. by split_and!.
Qed.

Lemma mark_blocks_eq k s n :
  bitmap_wf (kheap_bitmap (k_heap k)) -> 0 <= s -> 0 <= n -> s + n <= KHEAP_TOTAL_BLOCKS ->
  exists bm', mark_blocks s n k = Ok (tt, set_bitmap bm' k) /\ bitmap_wf bm' /\
    forall b', 0 <= b' -> bit_of bm' b' = if in_run s n b' then true
                                         else bit_of (kheap_bitmap (k_heap k)) b'.
Proof.
  intros Hwf Hs Hn Hsn. unfold mark_blocks. kheap_consts. rewrite u32_small by word_solve.
  destruct (bitmap_loop bitmap_set true k s (s + n)) as (bm' & H1 & H2 & H3); auto; [|lia|].
  - intros b k' Hb Hwf'. apply bitmap_set_eq; [done|kheap_consts; lia].
  - exists bm'. replace (s + n - s) with n in H3 by lia. by split_and!.
Qed.
End BitmapOps.

(** * The search loop is first fit *)

(** What the loop knows on entering iteration [i] with [c] consecutive free
    blocks behind it: they start at [start], the block before them is taken,
    and no run of [n] free blocks ends at or before [i]. *)
Record scan_inv (bm : list Z) (n i c start : Z) : Prop := ScanInv {
  scan_c : 0 <= c < n;
  scan_i : c <= i;
  scan_start : 0 < c -> start = i - c;
  scan_free : run_free bm (i - c) c;
  scan_max : 0 < i - c -> bit_of bm (i - c - 1) = true;
  scan_none : forall s, 0 <= s -> s + n <= i -> ~ run_free bm s n
}.

Lemma scan_inv_init bm n start : 1 <= n -> scan_inv bm n 0 0 start.
Proof. intros Hn. constructor; try lia. intros b Hb. lia. Qed.

(** A taken block restarts the count. *)
Lemma scan_inv_taken bm n i c start :
  scan_inv bm n i c start -> bit_of bm i = true -> scan_inv bm n (i + 1) 0 start.
Proof.
  intros [Hc Hi _ _ _ Hnone] Hbit. constructor; try lia.
  - intros b Hb. lia.
  - intros _. by replace (i + 1 - 0 - 1) with i by lia.
  - intros s Hs Hsn Hfree. destruct (decide (s + n <= i)) as [|Hgt]; [by apply (Hnone s)|].
    specialize (Hfree i). rewrite Hbit in Hfree. discriminate Hfree. lia.
Qed.

(** A free block that does not complete the run extends it. *)
Lemma scan_inv_free bm n i c start :
  scan_inv bm n i c start -> bit_of bm i = false -> c + 1 <> n ->
  scan_inv bm n (i + 1) (c + 1) (if c =? 0 then i else start).
Proof.
  intros [Hc Hi Hst Hfr Hmax Hnone] Hbit Hne. constructor; try lia.
  - intros _. case_bool; [lia|]. rewrite Hst; lia.
  - intros b Hb. destruct (decide (b = i)) as [->|]; [done|]. apply Hfr. lia.
  - intros Hpos. replace (i + 1 - (c + 1) - 1) with (i - c - 1) by lia. apply Hmax. lia.
  - intros s Hs Hsn Hfree. destruct (decide (s + n <= i)) as [|Hgt]; [by apply (Hnone s)|].
    specialize (Hfree (i - c - 1)). rewrite Hmax in Hfree by lia.
    discriminate Hfree. lia.
Qed.

(** A free block that completes the run is the end of the first fit. *)
Lemma scan_inv_found bm n i c start :
  scan_inv bm n i c start -> bit_of bm i = false -> c + 1 = n -> i < KHEAP_TOTAL_BLOCKS ->
  first_fit bm n (if c =? 0 then i else start).
Proof.
  intros [Hc Hi Hst Hfr Hmax Hnone] Hbit Heq Hlt.
  replace (if c =? 0 then i else start) with (i - c) by (case_bool; [lia|rewrite Hst; lia]).
  split_and!; [lia|lia| |].
  - intros b Hb. destruct (decide (b = i)) as [->|]; [done|]. apply Hfr. lia.
  - intros s Hs. apply Hnone; lia.
Qed.

Section Scan.
Context `{Layout}.

Lemma kmalloc_scan_spec k n m i c start :
  bitmap_wf (kheap_bitmap (k_heap k)) -> 1 <= n <= KHEAP_TOTAL_BLOCKS ->
  0 <= i -> i + Z.of_nat m = KHEAP_TOTAL_BLOCKS ->
  scan_inv (kheap_bitmap (k_heap k)) n i c start ->
  exists r, kmalloc_scan m i c start n k = Ok (r, k) /\
    match r with
    | Some s => first_fit (kheap_bitmap (k_heap k)) n s
    | None => no_fit (kheap_bitmap (k_heap k)) n
    end.
Proof.
  intros Hwf Hn. revert i c start. induction m as [|m IH]; intros i c start Hi Him Hinv.
  - exists None. split; [done|]. intros s Hs Hsn. apply (scan_none _ _ _ _ _ Hinv); lia.
  - simpl. unfold bind. rewrite bitmap_test_eq by (done || lia).
    destruct (bit_of _ i) eqn:Hbit; simpl.
    + apply IH; [lia|lia|by eapply scan_inv_taken].
    + pose proof (scan_c _ _ _ _ _ Hinv) as Hc. kheap_consts. rewrite u32_small by word_solve.
      destruct (Z.eqb_spec (c + 1) n) as [Heq|Hne].
      * eexists. split; [done|]. eapply scan_inv_found; eauto. kheap_consts. lia.
      * apply IH; [lia|lia|by apply scan_inv_free].
Qed.

(** A request whose size wrapped to zero blocks is never served. *)
Lemma kmalloc_scan_zero k m i c start :
  bitmap_wf (kheap_bitmap (k_heap k)) -> 0 <= i -> i + Z.of_nat m = KHEAP_TOTAL_BLOCKS ->
  0 <= c <= i -> kmalloc_scan m i c start 0 k = Ok (None, k).
Proof.
  intros Hwf. revert i c start. induction m as [|m IH]; intros i c start Hi Him Hc; [done|].
  simpl. unfold bind. rewrite bitmap_test_eq by (done || lia).
  destruct (bit_of _ i); simpl; [apply IH; lia|].
  kheap_consts. rewrite u32_small by word_solve.
  rewrite (proj2 (Z.eqb_neq (c + 1) 0)) by lia. apply IH; lia.
Qed.

(** The count of marked blocks. *)
Fixpoint count_bits (bm : list Z) (n : nat) (i : Z) : Z :=
  match n with
  | O => 0
  | S n' => (if bit_of bm i then 1 else 0) + count_bits bm n' (i + 1)
  end.

Lemma count_bits_bound bm n i : 0 <= count_bits bm n i <= Z.of_nat n.
Proof.
  revert i. induction n as [|n IH]; intros i; simpl; [lia|].
  specialize (IH (i + 1)). destruct (bit_of bm i); lia.
Qed.

Lemma used_blocks_loop_eq k m i acc :
  bitmap_wf (kheap_bitmap (k_heap k)) -> 0 <= i -> i + Z.of_nat m = KHEAP_TOTAL_BLOCKS ->
  0 <= acc <= i ->
  used_blocks_loop m i acc k = Ok (acc + count_bits (kheap_bitmap (k_heap k)) m i, k).
Proof.
  intros Hwf. revert i acc. induction m as [|m IH]; intros i acc Hi Him Hacc.
  - simpl. unfold ret. by rewrite Z.add_0_r.
  - simpl. unfold bind. rewrite bitmap_test_eq by (done || lia).
    destruct (bit_of _ i) eqn:Hbit.
    + kheap_consts. rewrite u32_small by word_solve. rewrite IH by lia. f_equal. f_equal. lia.
    + rewrite IH by lia. f_equal.
Qed.
End Scan.
