(* ===== verification/KheapSpec.v ===== *)
(** What the kernel heap promises, and that kernel/kheap.c keeps it.

    The abstract state is a finite map from the first block of every live
    chunk to its length in blocks and its payload size.  [heap_inv] relates it
    to the bitmap and to the headers in memory; the theorems say what each
    operation does to the map and to memory. *)
From S2P Require Import Prelude State Machine Kheap KheapBitmap.

Record chunk := Chunk { ch_blocks : Z; ch_size : Z }.

(** link.ld places the pool inside the 32-bit address space; the attribute in
    kheap.c aligns it to 4096 bytes. *)
Class HeapLayout `{Layout} : Prop := {
  heap_addr_pos : 0 < kheap_memory_addr;
  heap_addr_end : kheap_memory_addr + KHEAP_SIZE < 4294967296;
  heap_addr_aligned : kheap_memory_addr mod 4096 = 0
}.

Section Spec.
Context `{HeapLayout}.

Definition hdr (s : Z) : Z := kheap_memory_addr + 32 * s.
Definition payload (s : Z) : Z := hdr s + 16.

(** The geometry of a live chunk: it lies in the pool and its header and
    payload fit in its blocks. *)
Definition chunk_ok (s : Z) (c : chunk) : Prop :=
  0 <= s /\ 1 <= ch_blocks c /\ s + ch_blocks c <= KHEAP_TOTAL_BLOCKS /\
  0 < ch_size c /\ 16 + ch_size c <= 32 * ch_blocks c.

Definition header_ok (m : gmap Z Z) (s : Z) (c : chunk) : Prop :=
  word_at m (hdr s) = KHEAP_MAGIC /\ word_at m (hdr s + 4) = s /\
  word_at m (hdr s + 8) = ch_blocks c /\ word_at m (hdr s + 12) = ch_size c.

Definition chunk_covers (A : gmap Z chunk) (b : Z) : Prop :=
  exists s c, A !! s = Some c /\ s <= b < s + ch_blocks c.

Record heap_inv (A : gmap Z chunk) (k : kernel) : Prop := HeapInv {
  hi_init : kheap_initialized (k_heap k) <> 0;
  hi_wf : bitmap_wf (kheap_bitmap (k_heap k));
  hi_mapped : mapped (k_mem k) kheap_memory_addr KHEAP_SIZE;
  hi_chunk : forall s c, A !! s = Some c -> chunk_ok s c;
  hi_header : forall s c, A !! s = Some c -> header_ok (k_mem k) s c;
  hi_disj : forall s c s' c', A !! s = Some c -> A !! s' = Some c' -> s <> s' ->
    s + ch_blocks c <= s' \/ s' + ch_blocks c' <= s;
  hi_bits : forall b, 0 <= b < KHEAP_TOTAL_BLOCKS ->
    (bit_of (kheap_bitmap (k_heap k)) b = true <-> chunk_covers A b)
}.

(** The number of blocks [kmalloc] needs for a payload of [size] bytes. *)
Definition blocks_for (size : Z) : Z := (size + 47) / 32.

Lemma hdr_bounds s :
  0 <= s < KHEAP_TOTAL_BLOCKS -> 0 < hdr s /\ hdr s + 32 < 4294967296.
Proof. intros Hs. destruct H0. unfold hdr. kheap_consts. lia. Qed.

Lemma header_mapped k s a n :
  mapped (k_mem k) kheap_memory_addr KHEAP_SIZE -> 0 <= s < KHEAP_TOTAL_BLOCKS ->
  hdr s <= a -> a + n <= hdr s + 32 -> mapped (k_mem k) a n.
Proof.
  intros Hm Hs Ha Hn. eapply mapped_sub; [done| |]; unfold hdr in *; kheap_consts; lia.
Qed.

Lemma chunk_covers_insert A s c b :
  A !! s = None ->
  chunk_covers (<[s := c]> A) b <-> (s <= b < s + ch_blocks c \/ chunk_covers A b).
Proof.
  intros Hs. split.
  - intros (s' & c' & Hl & Hb). destruct (decide (s = s')) as [->|Hne].
    + rewrite lookup_insert_eq in Hl. simplify_eq. by left.
    + rewrite lookup_insert_ne in Hl by done. right. by exists s', c'.
  - intros [Hb|(s' & c' & Hl & Hb)].
    + exists s, c. by rewrite lookup_insert_eq.
    + exists s', c'. rewrite lookup_insert_ne; [done|]. congruence.
Qed.

Lemma header_ok_ext m m' s c :
  header_ok m s c ->
  (forall i, 0 <= i < 16 -> m' !! (hdr s + i) = m !! (hdr s + i)) -> header_ok m' s c.
Proof.
  intros (H1 & H2 & H3 & H4) Hm.
  assert (forall o, 0 <= o <= 12 -> word_at m' (hdr s + o) = word_at m (hdr s + o)) as Hw.
  { intros o Ho. apply word_at_ext. intros i Hi. rewrite <- Z.add_assoc. apply Hm. lia. }
  pose proof (Hw 0) as Hw0. rewrite Z.add_0_r in Hw0.
  unfold header_ok. rewrite Hw0, !Hw by lia. by split_and!.
Qed.

(** Memory may change anywhere but in the headers. *)
Lemma heap_inv_mem A k m :
  heap_inv A k -> mapped m kheap_memory_addr KHEAP_SIZE ->
  (forall s c, A !! s = Some c -> forall i, 0 <= i < 16 -> m !! (hdr s + i) = k_mem k !! (hdr s + i)) ->
  heap_inv A (set_mem m k).
Proof.
  intros [] Hm Hh. constructor; auto. intros s c Hs. simpl.
  apply (header_ok_ext (k_mem k)); eauto.
Qed.

(** The blocks of a live chunk are marked, so a free run meets no chunk. *)
Lemma run_free_disjoint A k s n s' c' :
  heap_inv A k -> 0 <= s -> s + n <= KHEAP_TOTAL_BLOCKS ->
  run_free (kheap_bitmap (k_heap k)) s n -> 1 <= n -> A !! s' = Some c' ->
  s + n <= s' \/ s' + ch_blocks c' <= s.
Proof.
  intros Hinv Hs Hsn Hfree Hn Hl.
  destruct (hi_chunk _ _ Hinv _ _ Hl) as (Hs' & Hb' & Hsb & _).
  destruct (decide (s + n <= s')); [by left|].
  destruct (decide (s' + ch_blocks c' <= s)); [by right|]. exfalso.
  set (b := Z.max s s'). assert (bit_of (kheap_bitmap (k_heap k)) b = true) as Ht.
  { apply (hi_bits _ _ Hinv); [lia|]. exists s', c'. split; [done|lia]. }
  rewrite Hfree in Ht by lia. done.
Qed.

Lemma blocks_for_bounds size :
  0 < size -> 1 <= blocks_for size /\ 16 + size <= 32 * blocks_for size.
Proof. intros Hs. unfold blocks_for. word_solve. Qed.

(** ** kmalloc *)

(** The header [kmalloc] writes for a chunk at [s]. *)
Definition put_header (m : gmap Z Z) (s n size : Z) : gmap Z Z :=
  put32 (put32 (put32 (put32 m (hdr s) KHEAP_MAGIC) (hdr s + 4) s) (hdr s + 8) n) (hdr s + 12) size.

Lemma put_header_only_differ m s n size : only_differ m (put_header m s n size) (hdr s) 16.
Proof.
  unfold put_header.
  repeat (eapply only_differ_trans; [|eapply only_differ_weaken; [apply put32_only_differ|lia|lia]]).
  apply only_differ_refl.
Qed.

Lemma put_header_mapped m s n size a p : mapped m a p -> mapped (put_header m s n size) a p.
Proof. intros Hm. unfold put_header. auto using put32_mapped. Qed.

Lemma put_header_ok m s n size :
  is_u32 s -> is_u32 n -> is_u32 size -> header_ok (put_header m s n size) s (Chunk n size).
Proof.
  intros Hs Hn Hz. unfold header_ok, put_header. simpl.
  split_and!; rewrite ?word_at_put32_ne by lia;
    rewrite word_at_put32; auto; unfold KHEAP_MAGIC; word_solve.
Qed.

(** The last steps of [kmalloc]: marking the run and writing the header. *)
Lemma heap_inv_alloc A k s n size bm' :
  heap_inv A k -> first_fit (kheap_bitmap (k_heap k)) n s -> 1 <= n -> 0 < size -> is_u32 size ->
  16 + size <= 32 * n -> bitmap_wf bm' ->
  (forall b, 0 <= b -> bit_of bm' b = if in_run s n b then true
                                       else bit_of (kheap_bitmap (k_heap k)) b) ->
  A !! s = None /\
  heap_inv (<[s := Chunk n size]> A) (set_mem (put_header (k_mem k) s n size) (set_bitmap bm' k)).
Proof.
  intros Hinv (Hs & Hsn & Hfree & _) Hn Hsz Hu Hfit Hwf Hbits.
  pose proof (fun s' c' => run_free_disjoint A k s n s' c' Hinv Hs Hsn Hfree Hn) as Hdis.
  assert (A !! s = None) as Hnone.
  { destruct (A !! s) as [c|] eqn:Hl; [|done].
    destruct (hi_chunk _ _ Hinv _ _ Hl) as (_ & ? & _). specialize (Hdis _ _ Hl). lia. }
  split; [done|]. constructor; simpl.
  - apply (hi_init _ _ Hinv).
  - done.
  - apply put_header_mapped, (hi_mapped _ _ Hinv).
  - intros s' c'. destruct (decide (s = s')) as [<-|Hne].
    + rewrite lookup_insert_eq. intros [= <-]. unfold chunk_ok. simpl. lia.
    + rewrite lookup_insert_ne by done. apply (hi_chunk _ _ Hinv).
  - intros s' c'. destruct (decide (s = s')) as [<-|Hne].
    + rewrite lookup_insert_eq. intros [= <-]. apply put_header_ok; kheap_consts; word_solve.
    + rewrite lookup_insert_ne by done. intros Hl.
      destruct (hi_chunk _ _ Hinv _ _ Hl) as (_ & ? & _). specialize (Hdis _ _ Hl).
      apply (header_ok_ext (k_mem k)); [by apply (hi_header _ _ Hinv)|].
      intros i Hi. apply put_header_only_differ. unfold hdr. lia.
  - intros s1 c1 s2 c2. rewrite !lookup_insert.
    repeat case_decide; subst; intros Hl1 Hl2 Hne; simplify_eq; simpl.
    + apply (Hdis _ _ Hl2).
    + destruct (Hdis _ _ Hl1); [by right|by left].
    + eapply (hi_disj _ _ Hinv); eauto.
  - intros b Hb. rewrite Hbits, chunk_covers_insert by (done || lia). simpl.
    rewrite <- (hi_bits _ _ Hinv) by done. unfold in_run.
    repeat case_bool; simpl; split; intros; auto; try lia;
      match goal with H : _ \/ _ |- _ => destruct H; [lia|done] end.
Qed.

(** The two outcomes of [kmalloc]: NULL with nothing changed when no run of
    free blocks is long enough, or the payload of a new chunk at the first
    run that is. *)
Definition kmalloc_post (A : gmap Z chunk) (k : kernel) (size p : Z) (k' : kernel) : Prop :=
  let bm := kheap_bitmap (k_heap k) in
  let n := blocks_for size in
  (p = NULL /\ k' = k /\ no_fit bm n) \/
  (exists s bm', first_fit bm n s /\ p = payload s /\ A !! s = None /\
     k' = set_mem (put_header (k_mem k) s n size) (set_bitmap bm' k) /\
     heap_inv (<[s := Chunk n size]> A) k').

Lemma kmalloc_size_eq size :
  0 < size -> size + 47 < 4294967296 ->
  u32 (u32 (sizeof_header + size) + KHEAP_BLOCK_SIZE - 1) / KHEAP_BLOCK_SIZE = blocks_for size.
Proof. intros Hs Hb. unfold blocks_for. kheap_consts. rewrite !u32_small by word_solve. f_equal. lia. Qed.

(** Writing the header of a chunk at block [s]. *)
Lemma header_stores k s n size :
  mapped (k_mem k) kheap_memory_addr KHEAP_SIZE -> 0 <= s < KHEAP_TOTAL_BLOCKS ->
  (let header := u32 (kheap_memory_addr + u32 (s * KHEAP_BLOCK_SIZE)) in
   store32 (header + off_magic) KHEAP_MAGIC ;;;
   store32 (header + off_start_block) s ;;;
   store32 (header + off_num_blocks) n ;;;
   store32 (header + off_size) size ;;;
   ret (u32 (header + sizeof_header))) k
  = Ok (payload s, set_mem (put_header (k_mem k) s n size) k).
Proof.
  intros Hm Hs. pose proof (hdr_bounds s Hs) as Hb.
  replace (u32 (kheap_memory_addr + u32 (s * KHEAP_BLOCK_SIZE))) with (hdr s).
  2: { destruct H0. unfold hdr in *. kheap_consts. rewrite !u32_small by word_solve. lia. }
  cbv zeta. unfold off_magic, off_start_block, off_num_blocks, off_size.
  rewrite Z.add_0_r. unfold bind.
  assert (forall a, hdr s <= a -> a + 4 <= hdr s + 32 -> mapped (k_mem k) a 4) as Hma
    by (intros; eapply header_mapped; eauto; lia).
  rewrite store32_eq by (try apply Hma; lia).
  rewrite store32_eq by (try apply put32_mapped, Hma; lia).
  rewrite store32_eq by (try apply put32_mapped, put32_mapped, Hma; lia).
  rewrite store32_eq by (try apply put32_mapped, put32_mapped, put32_mapped, Hma; lia).
  unfold ret. kheap_consts. rewrite u32_small by word_solve. done.
Qed.

(** [kmalloc] once the number of blocks is known, whatever the requested
    size: used for ordinary requests and for those whose size wraps. *)
Lemma kmalloc_raw k size n :
  kheap_initialized (k_heap k) <> 0 -> bitmap_wf (kheap_bitmap (k_heap k)) ->
  mapped (k_mem k) kheap_memory_addr KHEAP_SIZE -> size <> 0 ->
  u32 (u32 (sizeof_header + size) + KHEAP_BLOCK_SIZE - 1) / KHEAP_BLOCK_SIZE = n -> 1 <= n ->
  wp (kmalloc size) (fun p k' =>
    (p = NULL /\ k' = k /\ no_fit (kheap_bitmap (k_heap k)) n) \/
    (exists s bm', first_fit (kheap_bitmap (k_heap k)) n s /\ p = payload s /\
       k' = set_mem (put_header (k_mem k) s n size) (set_bitmap bm' k) /\ bitmap_wf bm' /\
       forall b, 0 <= b -> bit_of bm' b = if in_run s n b then true
                                           else bit_of (kheap_bitmap (k_heap k)) b)) k.
Proof.
  intros Hinit Hwf Hm Hsz Hn Hn1. unfold kmalloc. wp_steps.
  rewrite (proj2 (Z.eqb_neq _ _) Hinit), (proj2 (Z.eqb_neq size 0)) by lia.
  cbn [orb]. cbv zeta. rewrite Hn. case_bool.
  { apply wp_ret. left. split_and!; [done|done|]. intros s. lia. }
  destruct (kmalloc_scan_spec k n (Z.to_nat KHEAP_TOTAL_BLOCKS) 0 0 0)
    as (r & Hscan & Hr); auto using scan_inv_init; [kheap_consts; lia..|].
  apply wp_bind, (wp_eq _ _ _ _ _ Hscan). destruct r as [s|]; [|apply wp_ret; by left].
  destruct Hr as (Hs & Hsn & Hfree & Hfirst).
  destruct (mark_blocks_eq k s n) as (bm' & Hmark & Hwf' & Hbits); auto; [lia|].
  apply wp_bind, (wp_eq _ _ _ _ _ Hmark).
  eapply wp_eq. { apply header_stores; [done|lia]. }
  right. exists s, bm'. by split_and!.
Qed.

Lemma kmalloc_wp A k size :
  heap_inv A k -> 0 < size -> size + 47 < 4294967296 ->
  wp (kmalloc size) (kmalloc_post A k size) k.
Proof.
  intros Hinv Hsz Hub. pose proof (blocks_for_bounds size Hsz) as [Hn1 Hfit].
  eapply wp_mono; [apply (kmalloc_raw k size (blocks_for size)); try apply Hinv; [lia|..]|].
  - by apply kmalloc_size_eq.
  - done.
  - intros p k' [?|(s & bm' & Hff & -> & -> & Hwf' & Hbits)]; [by left|].
    destruct (heap_inv_alloc A k s (blocks_for size) size bm') as [Hnone Hinv'];
      [done..|word_solve|done|done|done|].
    right. exists s, bm'. by split_and!.
Qed.
End Spec.
