(* ===== verification/KheapOps.v ===== *)
(** The specifications of the remaining heap operations: [kheap_init],
    [kfree], [kcalloc], [krealloc] and the memory statistics. *)
From S2P Require Import Prelude State Machine Kheap KheapBitmap KheapSpec.

(** * Filling and copying memory *)

Section Copy.
Context `{Layout}.

(** [kheap_memset] through memory writes every byte of its range, only those. *)
Lemma memset_wp k a val n :
  mapped (k_mem k) a n -> 0 <= a -> a + n <= 4294967296 -> 0 <= n ->
  exists m', kheap_memset (fun i v => store8 (a + i) v) val n k = Ok (tt, set_mem m' k) /\
    only_differ (k_mem k) m' a n /\
    (forall i, 0 <= i < n -> m' !! (a + i) = Some (u8 val)).
Proof.
  intros Hm Ha Han Hn.
  set (I := fun i k' => exists m', k' = set_mem m' k /\ only_differ (k_mem k) m' a i /\
    mapped m' a n /\ forall j, 0 <= j < i -> m' !! (a + j) = Some (u8 val)).
  assert (wp (kheap_memset (fun i v => store8 (a + i) v) val n) (fun _ => I n) k)
    as ([] & k' & Hrun & m' & -> & Hd & _ & Hv); [|by exists m'].
  apply wp_for_up; [done| |].
  - exists (k_mem k). split_and!; [by destruct k|apply only_differ_refl|done|lia].
  - intros i k' Hi (m & -> & Hd & Hm' & Hv).
    destruct (mapped_lookup _ _ _ (a + i) Hm') as (w & Hw & _); [lia|].
    eapply wp_store8; [word_solve|done|].
    rewrite (u8_small (u8 val)) by apply u8_range.
    exists (<[a + i := u8 val]> m). split_and!; [done| | |].
    + eapply only_differ_trans; [eapply only_differ_weaken; [apply Hd|lia|lia]|].
      apply only_differ_insert. lia.
    + apply mapped_insert; [done|apply u8_range].
    + intros j Hj. destruct (decide (j = i)) as [->|]; [by rewrite lookup_insert_eq|].
      rewrite lookup_insert_ne by lia. apply Hv. lia.
Qed.

(** [kheap_memcpy] between disjoint ranges. *)
Lemma memcpy_wp k dst src n :
  mapped (k_mem k) dst n -> mapped (k_mem k) src n ->
  0 <= dst -> dst + n <= 4294967296 -> 0 <= src -> src + n <= 4294967296 -> 0 <= n ->
  dst + n <= src \/ src + n <= dst ->
  exists m', kheap_memcpy dst src n k = Ok (tt, set_mem m' k) /\
    only_differ (k_mem k) m' dst n /\
    (forall i, 0 <= i < n -> m' !! (dst + i) = k_mem k !! (src + i)).
Proof.
  intros Hmd Hms Hd Hdn Hs Hsn Hn Hdis.
  set (I := fun i k' => exists m', k' = set_mem m' k /\ only_differ (k_mem k) m' dst i /\
    mapped m' dst n /\ forall j, 0 <= j < i -> m' !! (dst + j) = k_mem k !! (src + j)).
  assert (wp (kheap_memcpy dst src n) (fun _ => I n) k)
    as ([] & k' & Hrun & m' & -> & Hdf & _ & Hv); [|by exists m'].
  apply wp_for_up; [done| |].
  - exists (k_mem k). split_and!; [by destruct k|apply only_differ_refl|done|lia].
  - intros i k' Hi (m & -> & Hdf & Hm' & Hv).
    destruct (mapped_lookup _ _ _ (dst + i) Hm') as (w & Hw & _); [lia|].
    destruct (mapped_lookup _ _ _ (src + i) Hms) as (v & Hvv & Hvr); [lia|].
    apply wp_bind. eapply wp_load8; [word_solve|simpl; rewrite Hdf by lia; done|].
    eapply wp_store8; [word_solve|done|]. rewrite (u8_small v) by done.
    exists (<[dst + i := v]> m). split_and!; [done| | |].
    + eapply only_differ_trans; [eapply only_differ_weaken; [apply Hdf|lia|lia]|].
      apply only_differ_insert. lia.
    + by apply mapped_insert.
    + intros j Hj. destruct (decide (j = i)) as [->|]; [by rewrite lookup_insert_eq, Hvv|].
      rewrite lookup_insert_ne by lia. apply Hv. lia.
Qed.

(** [kheap_memset] on the bitmap clears every block. *)
Lemma memset_bitmap_wp k :
  Z.of_nat (length (kheap_bitmap (k_heap k))) = KHEAP_BITMAP_SIZE ->
  exists bm', kheap_memset bitmap_store 0 KHEAP_BITMAP_SIZE k = Ok (tt, set_bitmap bm' k) /\
    bitmap_wf bm' /\ forall b, bit_of bm' b = false.
Proof.
  intros Hlen. set (n := KHEAP_BITMAP_SIZE) in *.
  set (I := fun i k' => exists bm', k' = set_bitmap bm' k /\ Z.of_nat (length bm') = n /\
    forall j, 0 <= j < i -> arr_get bm' j = Some 0).
  assert (wp (kheap_memset bitmap_store 0 n) (fun _ => I n) k)
    as ([] & k' & Hrun & bm' & -> & Hl & Hz).
  { apply wp_for_up; [done| |].
    - exists (kheap_bitmap (k_heap k)). split_and!; [by destruct k as [? ? ? ? ? [] ? ? ? ?]|done|lia].
    - intros i k' Hi (bm & -> & Hl & Hz).
      pose proof (arr_set_Some bm i (u8 (u8 0)) ltac:(lia)) as Hset.
      eapply wp_eq; [by apply bitmap_store_eq|]. eexists. split_and!; [done| |].
      + rewrite (arr_set_length _ _ _ _ Hset). done.
      + intros j Hj. rewrite (arr_get_set _ _ _ _ _ Hset). case_bool; [done|]. apply Hz. lia. }
  exists bm'. split_and!; [done| |].
  - split; [done|]. apply Forall_lookup_2. intros i v Hv.
    specialize (Hz (Z.of_nat i)). unfold arr_get in Hz.
    rewrite (proj2 (Z.leb_le 0 (Z.of_nat i))), Nat2Z.id, Hv in Hz by lia.
    apply lookup_lt_Some in Hv. assert (Some v = Some 0) as [= ->] by (apply Hz; lia). word_solve.
  - intros b. unfold bit_of. destruct (arr_get bm' (b / 8)) as [v|] eqn:Hv; [|apply Z.bits_0].
    pose proof (arr_get_lt _ _ _ Hv). rewrite Hz in Hv by lia. simplify_eq. apply Z.bits_0.
Qed.
End Copy.

Section Ops.
Context `{HeapLayout}.

(** ** kheap_init *)

Lemma kheap_init_wp k :
  Z.of_nat (length (kheap_bitmap (k_heap k))) = KHEAP_BITMAP_SIZE ->
  mapped (k_mem k) kheap_memory_addr KHEAP_SIZE ->
  wp kheap_init (fun _ k' => heap_inv ∅ k' /\
    only_differ (k_mem k) (k_mem k') kheap_memory_addr KHEAP_SIZE /\
    (forall i, 0 <= i < KHEAP_SIZE -> k_mem k' !! (kheap_memory_addr + i) = Some 0) /\
    k' = set_heap (k_heap k') (set_mem (k_mem k') k)) k.
Proof.
  intros Hlen Hm. unfold kheap_init. apply wp_bind.
  destruct (memset_bitmap_wp k Hlen) as (bm' & Hrun & Hwf & Hbits).
  apply (wp_eq _ _ _ _ _ Hrun), wp_bind.
  destruct (memset_wp (set_bitmap bm' k) kheap_memory_addr 0 KHEAP_SIZE)
    as (m' & Hrun' & Hd & Hz); [done|destruct H0; kheap_consts; lia..|].
  apply (wp_eq _ _ _ _ _ Hrun'), wp_modify. simpl.
  split_and!; [|done|done|done]. constructor; simpl; try done.
  - intros i Hi. exists 0. split; [by apply Hz|word_solve].
  - intros b Hb. split; [by rewrite Hbits|]. by intros (s & c & Hl & _).
Qed.

(** ** kfree *)

(** Clearing the blocks of a live chunk and its magic removes it. *)
Lemma heap_inv_release A k s c bm' :
  heap_inv A k -> A !! s = Some c -> bitmap_wf bm' ->
  (forall b, 0 <= b -> bit_of bm' b = if in_run s (ch_blocks c) b then false
                                       else bit_of (kheap_bitmap (k_heap k)) b) ->
  heap_inv (delete s A) (set_mem (put32 (k_mem k) (hdr s) 0) (set_bitmap bm' k)).
Proof.
  intros Hinv Hs Hwf Hbits.
  assert (forall s' c', delete s A !! s' = Some c' -> A !! s' = Some c' /\ s <> s') as Hdel.
  { intros s' c'. rewrite lookup_delete. case_decide; [done|]. auto. }
  pose proof (hi_chunk _ _ Hinv _ _ Hs) as (Hs0 & Hb0 & _).
  constructor; simpl; [apply Hinv|done|by apply put32_mapped, (hi_mapped _ _ Hinv)| | | |].
  - intros s' c' [Hl _]%Hdel. by apply (hi_chunk _ _ Hinv).
  - intros s' c' [Hl Hne]%Hdel. apply (header_ok_ext (k_mem k)); [by apply (hi_header _ _ Hinv)|].
    intros i Hi. apply put32_lookup_ne. pose proof (hi_chunk _ _ Hinv _ _ Hl) as (_ & Hb' & _).
    destruct (hi_disj _ _ Hinv _ _ _ _ Hs Hl Hne); unfold hdr; lia.
  - intros s1 c1 s2 c2 [Hl1 _]%Hdel [Hl2 _]%Hdel Hne. by eapply (hi_disj _ _ Hinv).
  - intros b Hb. rewrite Hbits by lia.
    pose proof (hi_bits _ _ Hinv b Hb) as Hiff. unfold in_run. split.
    + destruct (Z.leb_spec s b), (Z.ltb_spec b (s + ch_blocks c)); simpl; try done;
        intros (s' & c' & Hl & Hr)%Hiff; exists s', c'; (split; [|done]);
        rewrite lookup_delete_ne; auto; intros ->; simplify_eq; lia.
    + intros (s' & c' & [Hl Hne]%Hdel & Hr).
      destruct (hi_disj _ _ Hinv _ _ _ _ Hs Hl Hne);
      destruct (Z.leb_spec s b), (Z.ltb_spec b (s + ch_blocks c)); simpl; try lia;
      apply Hiff; by exists s', c'.
Qed.

(** The clearing loop of [kfree]. *)
Lemma clear_blocks_eq k s n :
  bitmap_wf (kheap_bitmap (k_heap k)) -> 0 <= s -> 0 <= n -> s + n <= KHEAP_TOTAL_BLOCKS ->
  exists bm', for_up s (u32 (s + n)) (fun b => when b <? KHEAP_TOTAL_BLOCKS do bitmap_clear b) k
    = Ok (tt, set_bitmap bm' k) /\ bitmap_wf bm' /\
    forall b', 0 <= b' -> bit_of bm' b' = if in_run s n b' then false
                                         else bit_of (kheap_bitmap (k_heap k)) b'.
Proof.
  intros Hwf Hs Hn Hsn. rewrite u32_small by (kheap_consts; word_solve).
  edestruct (bitmap_loop (fun b => when b <? KHEAP_TOTAL_BLOCKS do bitmap_clear b) false k s (s + n))
    as (bm' & H1 & H2 & H3); [|lia|done|].
  - intros b k' Hb Hwf'. rewrite (proj2 (Z.ltb_lt b _)) by lia. apply bitmap_clear_eq; [done|lia].
  - exists bm'. replace (s + n - s) with n in H3 by lia. by split_and!.
Qed.

Lemma kfree_live A k s c :
  heap_inv A k -> A !! s = Some c ->
  exists bm', kfree (payload s) k = Ok (tt, set_mem (put32 (k_mem k) (hdr s) 0) (set_bitmap bm' k)) /\
    heap_inv (delete s A) (set_mem (put32 (k_mem k) (hdr s) 0) (set_bitmap bm' k)) /\
    (forall b, 0 <= b -> bit_of bm' b = if in_run s (ch_blocks c) b then false
                                         else bit_of (kheap_bitmap (k_heap k)) b).
Proof.
  intros Hinv Hs. pose proof (hi_chunk _ _ Hinv _ _ Hs) as (Hs0 & Hb0 & Hsb & _).
  destruct (hi_header _ _ Hinv _ _ Hs) as (H1 & H2 & H3 & H4).
  pose proof (hdr_bounds s ltac:(lia)) as Hhb.
  assert (forall a, hdr s <= a -> a + 4 <= hdr s + 32 -> mapped (k_mem k) a 4) as Hma
    by (intros; eapply header_mapped; [apply Hinv|instantiate (1 := s); lia|lia|lia]).
  destruct (clear_blocks_eq k s (ch_blocks c)) as (bm' & Hclr & Hwf' & Hbits);
    [apply Hinv|lia..|].
  exists bm'. split_and!; [|by eapply heap_inv_release|done].
  unfold kfree, bind, gets.
  rewrite (proj2 (Z.eqb_neq _ _) (hi_init _ _ Hinv)).
  destruct H0. unfold payload in *. kheap_consts. unfold hdr in Hhb.
  rewrite !u32_small by (unfold hdr in *; word_solve).
  rewrite (proj2 (Z.eqb_neq (hdr s + 16) NULL)) by (unfold hdr, NULL; lia).
  rewrite (proj2 (Z.ltb_ge (hdr s + 16) _)), (proj2 (Z.leb_gt _ (hdr s + 16))) by (unfold hdr; lia).
  cbn [orb]. unfold off_magic, off_start_block, off_num_blocks.
  replace (hdr s + 16 - 16) with (hdr s) by lia. rewrite Z.add_0_r.
  rewrite load32_eq, H1 by (try apply Hma; unfold hdr in *; lia).
  rewrite Z.eqb_refl. cbn [negb].
  rewrite !load32_eq by (try apply Hma; unfold hdr in *; lia). rewrite H2, H3, Hclr.
  by rewrite store32_eq by (try (simpl; apply Hma); unfold hdr in *; lia).
Qed.

(** A pointer that [kfree] rejects: NULL, outside the pool, or not preceded
    by the magic number. *)
Definition kfree_rejects (k : kernel) (p : Z) : Prop :=
  p = NULL \/ p < kheap_memory_addr + 16 \/ kheap_memory_addr + KHEAP_SIZE <= p \/
  word_at (k_mem k) (p - 16) <> KHEAP_MAGIC.

Lemma kfree_ignores A k p :
  heap_inv A k -> is_u32 p -> kfree_rejects k p -> kfree p k = Ok (tt, k).
Proof.
  intros Hinv Hp Hrej. unfold kfree, bind, gets.
  rewrite (proj2 (Z.eqb_neq _ _) (hi_init _ _ Hinv)). rewrite orb_false_r.
  pose proof (hi_mapped _ _ Hinv) as Hm.
  destruct H0. kheap_consts. rewrite !(u32_small (kheap_memory_addr + _)) by word_solve.
  destruct (Z.eqb_spec p NULL); [done|].
  destruct (Z.ltb_spec p (kheap_memory_addr + 16)); [done|].
  destruct (Z.leb_spec (kheap_memory_addr + 262144) p); [done|]. cbn [orb].
  rewrite u32_small by word_solve. unfold off_magic. rewrite Z.add_0_r.
  rewrite load32_eq by (lia || (eapply mapped_sub; [done|lia|lia])).
  destruct Hrej as [?|[?|[?|Hne]]]; kheap_consts; try lia.
  by rewrite (proj2 (Z.eqb_neq _ _) Hne).
Qed.

(** ** Writing payloads *)

Lemma payload_mapped A k s c :
  heap_inv A k -> A !! s = Some c -> mapped (k_mem k) (payload s) (ch_size c).
Proof.
  intros Hinv Hs. pose proof (hi_chunk _ _ Hinv _ _ Hs) as (? & ? & ? & ? & ?).
  eapply mapped_sub; [apply Hinv| |]; unfold payload, hdr; kheap_consts; lia.
Qed.

Lemma payload_bounds A k s c :
  heap_inv A k -> A !! s = Some c ->
  0 < payload s /\ payload s + ch_size c < 4294967296 /\ is_u32 (ch_size c).
Proof.
  intros Hinv Hs. pose proof (hi_chunk _ _ Hinv _ _ Hs) as (? & ? & ? & ? & ?).
  destruct H0. unfold payload, hdr. kheap_consts. word_solve.
Qed.

(** A write inside the payload of a live chunk keeps the heap well formed. *)
Lemma payload_write_inv A k s c m n :
  heap_inv A k -> A !! s = Some c -> n <= ch_size c ->
  only_differ (k_mem k) m (payload s) n ->
  mapped m (payload s) n ->
  heap_inv A (set_mem m k).
Proof.
  intros Hinv Hs Hn Hd Hm. apply heap_inv_mem; [done| |].
  - eapply mapped_only_differ; [apply Hinv|done|done].
  - intros s' c' Hl i Hi. apply Hd.
    pose proof (hi_chunk _ _ Hinv _ _ Hs) as (? & ? & ? & ? & ?).
    pose proof (hi_chunk _ _ Hinv _ _ Hl) as (? & ? & ? & ? & ?).
    destruct (decide (s = s')) as [<-|Hne]; [unfold payload; lia|].
    destruct (hi_disj _ _ Hinv _ _ _ _ Hs Hl Hne); unfold payload, hdr; lia.
Qed.

(** ** kcalloc *)

Definition kcalloc_post (A : gmap Z chunk) (k : kernel) (total p : Z) (k' : kernel) : Prop :=
  let bm := kheap_bitmap (k_heap k) in
  let n := blocks_for total in
  (p = NULL /\ k' = k /\ no_fit bm n) \/
  (exists s, first_fit bm n s /\ p = payload s /\ A !! s = None /\
     heap_inv (<[s := Chunk n total]> A) k' /\
     only_differ (k_mem k) (k_mem k') (hdr s) (16 + total) /\
     (forall i, 0 <= i < total -> k_mem k' !! (p + i) = Some 0)).

Lemma kcalloc_wp A k num size :
  heap_inv A k -> 0 < num * size -> num * size + 47 < 4294967296 ->
  wp (kcalloc num size) (kcalloc_post A k (num * size)) k.
Proof.
  intros Hinv Hpos Hub. unfold kcalloc. rewrite u32_small by word_solve. cbv zeta.
  apply wp_bind. eapply wp_mono; [by apply (kmalloc_wp A)|].
  intros p k' [(-> & -> & Hno)|(s & bm' & Hff & -> & Hnone & Hk' & Hinv')].
  { apply wp_bind, wp_ret, wp_ret. by left. }
  pose proof (payload_bounds _ _ s _ Hinv' ltac:(apply lookup_insert_eq)) as (Hp1 & Hp2 & _).
  pose proof (payload_mapped _ _ s _ Hinv' ltac:(apply lookup_insert_eq)) as Hpm.
  simpl in *. rewrite (proj2 (Z.eqb_neq (payload s) NULL)) by (unfold NULL; lia). cbn [negb].
  destruct (memset_wp k' (payload s) 0 (num * size)) as (m' & Hrun & Hd & Hz); [done|lia..|].
  apply wp_bind, (wp_eq _ _ _ _ _ Hrun), wp_ret. right. exists s. split_and!; try done.
  - eapply (payload_write_inv _ _ s _ _ (num * size)); [done|apply lookup_insert_eq|done|done|].
    intros i Hi. exists 0. split; [by apply Hz|word_solve].
  - rewrite Hk' in Hd. eapply only_differ_trans.
    + eapply only_differ_weaken; [apply (put_header_only_differ _ s)|lia|lia].
    + eapply only_differ_weaken; [apply Hd|unfold payload; lia|unfold payload; lia].
Qed.

(** ** krealloc on a live chunk *)

Definition krealloc_post (A : gmap Z chunk) (k : kernel) (s : Z) (c : chunk) (new_size p : Z)
    (k' : kernel) : Prop :=
  let bm := kheap_bitmap (k_heap k) in
  let n := blocks_for new_size in
  if new_size <=? 32 * ch_blocks c - 16 then
    p = payload s /\ k' = set_mem (put32 (k_mem k) (hdr s + 12) new_size) k /\
    heap_inv (<[s := Chunk (ch_blocks c) new_size]> A) k'
  else
    (p = NULL /\ k' = k /\ no_fit bm n) \/
    (exists s', first_fit bm n s' /\ p = payload s' /\ A !! s' = None /\
       heap_inv (<[s' := Chunk n new_size]> (delete s A)) k' /\
       (forall i, 0 <= i < ch_size c -> k_mem k' !! (p + i) = k_mem k !! (payload s + i)) /\
       (forall x, ~ hdr s' <= x < hdr s' + 16 + ch_size c -> ~ hdr s <= x < hdr s + 4 ->
          k_mem k' !! x = k_mem k !! x)).

Lemma heap_inv_resize A k s c size :
  heap_inv A k -> A !! s = Some c -> 0 < size -> size <= 32 * ch_blocks c - 16 ->
  heap_inv (<[s := Chunk (ch_blocks c) size]> A) (set_mem (put32 (k_mem k) (hdr s + 12) size) k).
Proof.
  intros Hinv Hs Hpos Hle. pose proof (hi_chunk _ _ Hinv _ _ Hs) as (? & ? & ? & ? & ?).
  assert (forall s' c', <[s := Chunk (ch_blocks c) size]> A !! s' = Some c' ->
    exists c0, A !! s' = Some c0 /\ ch_blocks c0 = ch_blocks c' /\
      (s' = s /\ c' = Chunk (ch_blocks c) size \/ s' <> s /\ c0 = c')) as Hl'.
  { intros s' c'. rewrite lookup_insert. case_decide; subst; intros; simplify_eq; eauto 6. }
  constructor; simpl; [apply Hinv|apply Hinv|by apply put32_mapped, (hi_mapped _ _ Hinv)| | | |].
  - intros s' c' (c0 & Hl & Hb & [[-> ->]|[Hne ->]])%Hl'; [|by apply (hi_chunk _ _ Hinv)].
    unfold chunk_ok. simpl. lia.
  - intros s' c' (c0 & Hl & Hb & [[-> ->]|[Hne ->]])%Hl'.
    + destruct (hi_header _ _ Hinv _ _ Hs) as (H1' & H2' & H3' & H4').
      unfold header_ok. simpl. rewrite !word_at_put32_ne by lia.
      rewrite word_at_put32 by (kheap_consts; word_solve). by split_and!.
    + apply (header_ok_ext (k_mem k)); [by apply (hi_header _ _ Hinv)|]. intros i Hi.
      apply put32_lookup_ne. pose proof (hi_chunk _ _ Hinv _ _ Hl) as (? & ? & ? & ? & ?).
      destruct (hi_disj _ _ Hinv _ _ _ _ Hs Hl (not_eq_sym Hne)); unfold hdr; lia.
  - intros s1 c1 s2 c2 (d1 & Hl1 & <- & _)%Hl' (d2 & Hl2 & <- & _)%Hl' Hne.
    by eapply (hi_disj _ _ Hinv).
  - intros b Hb. rewrite (hi_bits _ _ Hinv b Hb). split.
    + intros (s' & c' & Hl & Hr). destruct (decide (s = s')) as [<-|Hne].
      * exists s, (Chunk (ch_blocks c) size). rewrite lookup_insert_eq. simplify_eq. done.
      * exists s', c'. by rewrite lookup_insert_ne.
    + intros (s' & c' & (c0 & Hl & Heq & _)%Hl' & Hr). exists s', c0. by rewrite Heq.
Qed.

(** Copying the old payload into the new chunk, then freeing the old one. *)
Lemma krealloc_copy A k s c s' n size :
  heap_inv (<[s' := Chunk n size]> A) k -> A !! s = Some c -> A !! s' = None -> ch_size c < size ->
  wp (kheap_memcpy (payload s') (payload s) (ch_size c) ;;; kfree (payload s) ;;; ret (payload s'))
    (fun p k' => p = payload s' /\ heap_inv (<[s' := Chunk n size]> (delete s A)) k' /\
       (forall i, 0 <= i < ch_size c -> k_mem k' !! (p + i) = k_mem k !! (payload s + i)) /\
       (forall x, ~ payload s' <= x < payload s' + ch_size c -> ~ hdr s <= x < hdr s + 4 ->
          k_mem k' !! x = k_mem k !! x)) k.
Proof.
  intros Hinv Hs Hs' Hlt. set (A1 := <[s' := Chunk n size]> A) in *.
  assert (s <> s') as Hne by congruence.
  assert (A1 !! s = Some c) as Hs1 by (by unfold A1; rewrite lookup_insert_ne).
  assert (A1 !! s' = Some (Chunk n size)) as Hs1' by apply lookup_insert_eq.
  pose proof (hi_chunk _ _ Hinv _ _ Hs1) as (? & ? & ? & ? & ?).
  pose proof (hi_chunk _ _ Hinv _ _ Hs1') as (? & ? & ? & ? & ?). simpl in *.
  pose proof (hi_disj _ _ Hinv _ _ _ _ Hs1 Hs1' Hne) as Hdis. simpl in Hdis.
  pose proof (payload_bounds _ _ _ _ Hinv Hs1). pose proof (payload_bounds _ _ _ _ Hinv Hs1').
  pose proof (payload_mapped _ _ _ _ Hinv Hs1) as Hpm.
  pose proof (payload_mapped _ _ _ _ Hinv Hs1') as Hpm'. simpl in *.
  assert (mapped (k_mem k) (payload s') (ch_size c)) as Hpm2 by (eapply mapped_sub; [done|lia|lia]).
  destruct (memcpy_wp k (payload s') (payload s) (ch_size c)) as (m' & Hrun & Hd & Hv);
    [done|done|lia..|unfold payload, hdr; lia|].
  apply wp_bind, (wp_eq _ _ _ _ _ Hrun).
  assert (heap_inv A1 (set_mem m' k)) as Hinv1.
  { eapply (payload_write_inv _ _ s' _ _ (ch_size c)); [done|done|simpl; lia|done|].
    intros i Hi. rewrite Hv by done. by apply Hpm. }
  destruct (kfree_live _ _ _ _ Hinv1 Hs1) as (bm' & Hfree & Hinv2 & _).
  apply wp_bind, (wp_eq _ _ _ _ _ Hfree), wp_ret. split_and!; [done| | |]; simpl.
  - unfold A1 in Hinv2. by rewrite delete_insert_ne in Hinv2.
  - intros i Hi. rewrite put32_lookup_ne by (unfold payload, hdr; lia). by apply Hv.
  - intros x Hx Hx'. rewrite put32_lookup_ne by done. by apply Hd.
Qed.

Lemma krealloc_wp A k s c new_size :
  heap_inv A k -> A !! s = Some c -> 0 < new_size -> new_size + 47 < 4294967296 ->
  wp (krealloc (payload s) new_size) (krealloc_post A k s c new_size) k.
Proof.
  intros Hinv Hs Hpos Hub. pose proof (hi_chunk _ _ Hinv _ _ Hs) as (Hc1 & Hc2 & Hc3 & Hc4 & Hc5).
  destruct (hi_header _ _ Hinv _ _ Hs) as (H1 & H2 & H3 & H4).
  pose proof (hdr_bounds s ltac:(lia)) as Hhb.
  assert (forall k0 o, heap_inv A k0 \/ mapped (k_mem k0) kheap_memory_addr KHEAP_SIZE ->
    0 <= o <= 12 -> mapped (k_mem k0) (hdr s + o) 4) as Hma.
  { intros k0 o Hm Ho. eapply (header_mapped k0 s); [destruct Hm as [Hm|]; [apply Hm|done]|lia..]. }
  unfold krealloc, krealloc_post. unfold payload at 1.
  rewrite (proj2 (Z.eqb_neq (hdr s + 16) NULL)) by (unfold NULL; lia).
  rewrite (proj2 (Z.eqb_neq new_size 0)) by lia. cbv zeta.
  replace (u32 (payload s - sizeof_header)) with (hdr s + 0)
    by (unfold payload, sizeof_header; rewrite u32_small by word_solve; lia).
  unfold off_magic, off_num_blocks, off_size. rewrite !Z.add_0_r.
  apply wp_bind. eapply wp_eq.
  { apply load32_eq; [rewrite <- (Z.add_0_r (hdr s)); apply Hma; [by left|]|..]; lia. }
  rewrite H1, Z.eqb_refl. cbn [negb]. apply wp_bind. eapply wp_eq.
  { apply load32_eq; [apply Hma; [by left|]|..]; lia. }
  rewrite H3. replace (u32 (u32 (ch_blocks c * KHEAP_BLOCK_SIZE) - sizeof_header))
    with (32 * ch_blocks c - 16)
    by (kheap_consts; rewrite !u32_small by word_solve; lia).
  case_bool.
  - apply wp_bind. eapply wp_eq.
    { apply store32_eq; [apply Hma; [by left|]|..]; lia. }
    apply wp_ret. split_and!; [done|done|]. by apply heap_inv_resize.
  - apply wp_bind. eapply wp_mono; [by apply (kmalloc_wp A)|].
    intros p k' [(-> & -> & Hno)|(s' & bm' & Hff & -> & Hnone & Hk' & Hinv')].
    { apply wp_ret. by left. }
    pose proof (payload_bounds _ _ s' _ Hinv' ltac:(apply lookup_insert_eq)) as (Hp1 & _).
    rewrite (proj2 (Z.eqb_neq (payload s') NULL)) by (unfold NULL; lia).
    assert (A !! s = Some c -> <[s' := Chunk (blocks_for new_size) new_size]> A !! s = Some c) as Hs1
      by (intros; rewrite lookup_insert_ne by congruence; done).
    apply wp_bind. eapply wp_eq.
    { apply load32_eq; [apply Hma; [right; apply Hinv'|]|..]; lia. }
    destruct (hi_header _ _ Hinv' _ _ (Hs1 Hs)) as (_ & _ & _ & ->).
    rewrite (proj2 (Z.ltb_lt (ch_size c) new_size)) by lia.
    eapply wp_mono;
      [apply (krealloc_copy A k' s c s' (blocks_for new_size) new_size); [done..|lia]|].
    intros p k2 (-> & Hinv2 & Hcopy & Hframe). right. exists s'.
    pose proof (put_header_only_differ (k_mem k) s' (blocks_for new_size) new_size) as Hph.
    assert (k_mem k' = put_header (k_mem k) s' (blocks_for new_size) new_size) as Hmk by (by rewrite Hk').
    pose proof (hi_disj _ _ Hinv' _ _ _ _ (Hs1 Hs) (lookup_insert_eq _ _ _) ltac:(congruence)) as Hdis.
    pose proof (hi_chunk _ _ Hinv' _ _ (lookup_insert_eq _ _ _)) as (? & ? & _).
    split_and!; try done.
    + intros i Hi. rewrite Hcopy, Hmk by done. apply Hph. cbn [ch_blocks ch_size] in *. unfold payload, hdr. lia.
    + intros x Hx Hx'. rewrite Hframe, Hmk by (unfold payload; lia). apply Hph. lia.
Qed.

(** ** Statistics *)

(** The blocks held by live chunks. *)
Definition total_blocks (A : gmap Z chunk) : Z :=
  map_fold (fun _ c acc => ch_blocks c + acc) 0 A.
End Ops.

Fixpoint count_fun (f : Z -> bool) (n : nat) (i : Z) : Z :=
  match n with
  | O => 0
  | S n' => (if f i then 1 else 0) + count_fun f n' (i + 1)
  end.

Lemma count_bits_fun bm n i : count_bits bm n i = count_fun (bit_of bm) n i.
Proof. revert i. induction n as [|n IH]; intros i; simpl; [done|]. by rewrite IH. Qed.

Lemma count_fun_ext f g n i :
  (forall b, i <= b < i + Z.of_nat n -> f b = g b) -> count_fun f n i = count_fun g n i.
Proof.
  revert i. induction n as [|n IH]; intros i Hfg; simpl; [done|].
  rewrite (Hfg i) by lia. f_equal. apply IH. intros b Hb. apply Hfg. lia.
Qed.

Lemma count_fun_false n i : count_fun (fun _ => false) n i = 0.
Proof. revert i. induction n as [|n IH]; intros i; simpl; [done|]. rewrite IH. done. Qed.

(** Adding the run [[s, s+n)] to a disjoint set adds its length to the count:
    the overlap of the run with the counted window. *)
Lemma count_fun_run f s n m i :
  0 <= n -> (forall b, s <= b < s + n -> f b = false) ->
  count_fun (fun b => in_run s n b || f b) m i
  = count_fun f m i + Z.max 0 (Z.min (s + n) (i + Z.of_nat m) - Z.max s i).
Proof.
  intros Hn Hdis. revert i. induction m as [|m IH]; intros i; simpl count_fun; [lia|].
  rewrite IH. unfold in_run. destruct (Z.leb_spec s i), (Z.ltb_spec i (s + n)); simpl;
    [rewrite Hdis by lia|..]; destruct (f i); lia.
Qed.

Lemma total_blocks_insert A s c :
  A !! s = None -> total_blocks (<[s := c]> A) = ch_blocks c + total_blocks A.
Proof.
  intros Hs. unfold total_blocks. rewrite map_fold_insert_L; [done| |done].
  intros. lia.
Qed.

Lemma total_blocks_delete A s c :
  A !! s = Some c -> total_blocks (delete s A) = total_blocks A - ch_blocks c.
Proof.
  intros Hs. rewrite <- (insert_delete_id A s c Hs) at 2.
  rewrite total_blocks_insert by apply lookup_delete_eq. lia.
Qed.

(** The marked blocks are those of the chunks, counted once each. *)
Lemma count_covers A f :
  (forall s c, A !! s = Some c -> 0 <= s /\ 1 <= ch_blocks c /\ s + ch_blocks c <= KHEAP_TOTAL_BLOCKS) ->
  (forall s c s' c', A !! s = Some c -> A !! s' = Some c' -> s <> s' ->
     s + ch_blocks c <= s' \/ s' + ch_blocks c' <= s) ->
  (forall b, 0 <= b < KHEAP_TOTAL_BLOCKS -> (f b = true <-> chunk_covers A b)) ->
  count_fun f (Z.to_nat KHEAP_TOTAL_BLOCKS) 0 = total_blocks A.
Proof.
  revert f. induction A as [|s c A Hs IH] using map_ind; intros f Hgeo Hdis Hf.
  - unfold total_blocks. rewrite map_fold_empty, <- (count_fun_false (Z.to_nat KHEAP_TOTAL_BLOCKS) 0).
    apply count_fun_ext. intros b Hb. destruct (f b) eqn:E; [|done].
    apply Hf in E as (s & c & Hl & _); [done|lia].
  - rewrite total_blocks_insert by done.
    destruct (Hgeo s c (lookup_insert_eq _ _ _)) as (Hs0 & Hb0 & Hsb).
    assert (forall s' c', A !! s' = Some c' -> <[s := c]> A !! s' = Some c' /\ s <> s') as Hin.
    { intros s' c' Hl. assert (s <> s') by congruence. by rewrite lookup_insert_ne. }
    set (g := fun b => f b && negb (in_run s (ch_blocks c) b)).
    rewrite (count_fun_ext f (fun b => in_run s (ch_blocks c) b || g b)).
    + rewrite count_fun_run, (IH g); [kheap_consts; lia|..].
      * intros s' c' [Hl _]%Hin. by apply Hgeo.
      * intros s1 c1 s2 c2 [Hl1 _]%Hin [Hl2 _]%Hin. by apply Hdis.
      * intros b Hb. unfold g, in_run. rewrite andb_true_iff, Hf, chunk_covers_insert by done.
        split; [intros [[?|?] Hn]; [lia|done]|]. intros Hcov. split; [by right|].
        destruct Hcov as (s' & c' & [Hl Hne]%Hin & Hr).
        destruct (Hdis s c s' c' (lookup_insert_eq _ _ _) Hl Hne); lia.
      * lia.
      * intros b Hb. unfold g, in_run. apply andb_false_iff. right. lia.
    + intros b Hb. unfold g, in_run. rewrite Z2Nat.id in Hb by done.
      assert (f b = false -> ~ s <= b < s + ch_blocks c) as Hcase.
      { intros Hfalse Hr. assert (f b = true) as Ht; [|by rewrite Ht in Hfalse].
        apply Hf; [lia|]. exists s, c. split; [apply lookup_insert_eq|done]. }
      destruct (f b); [|specialize (Hcase eq_refl)]; repeat case_bool; simpl; auto; lia.
Qed.

Lemma total_blocks_bound `{HeapLayout} A k :
  heap_inv A k -> 0 <= total_blocks A <= KHEAP_TOTAL_BLOCKS.
Proof.
  intros Hinv. rewrite <- (count_covers A (bit_of (kheap_bitmap (k_heap k)))).
  - rewrite <- count_bits_fun.
    pose proof (count_bits_bound (kheap_bitmap (k_heap k)) (Z.to_nat KHEAP_TOTAL_BLOCKS) 0).
    kheap_consts. lia.
  - intros s c Hl. destruct (hi_chunk _ _ Hinv _ _ Hl) as (? & ? & ? & _). auto.
  - apply (hi_disj _ _ Hinv).
  - apply (hi_bits _ _ Hinv).
Qed.

Lemma used_memory_eq `{HeapLayout} A k :
  heap_inv A k -> kheap_get_used_memory k = Ok (32 * total_blocks A, k).
Proof.
  intros Hinv. pose proof (total_blocks_bound A k Hinv) as Hb.
  unfold kheap_get_used_memory, bind.
  rewrite used_blocks_loop_eq by (apply Hinv || (kheap_consts; lia)).
  rewrite count_bits_fun, (count_covers A).
  - unfold ret. kheap_consts. rewrite u32_small by word_solve. f_equal. f_equal. lia.
  - intros s c Hl. destruct (hi_chunk _ _ Hinv _ _ Hl) as (? & ? & ? & _). auto.
  - apply (hi_disj _ _ Hinv).
  - apply (hi_bits _ _ Hinv).
Qed.

Lemma free_memory_eq `{HeapLayout} A k :
  heap_inv A k -> kheap_get_free_memory k = Ok (KHEAP_SIZE - 32 * total_blocks A, k).
Proof.
  intros Hinv. pose proof (total_blocks_bound A k Hinv). unfold kheap_get_free_memory, kheap_get_total_memory, bind, ret.
  rewrite (used_memory_eq A k Hinv). kheap_consts. by rewrite u32_small by word_solve.
Qed.
