(* ===== verification/KheapClient.v ===== *)
(** The heap as its callers see it: an abstract allocator and the simulation
    that kernel/kheap.c implements it for every client that keeps to the
    contract (frees and writes only what it owns). *)
From S2P Require Import Prelude State Machine Kheap KheapBitmap KheapSpec KheapOps.

(** What a client may do; [Poke] is a store through a pointer it received. *)
Inductive heap_op :=
| OpMalloc (size : Z)
| OpCalloc (num size : Z)
| OpRealloc (p size : Z)
| OpFree (p : Z)
| OpPoke (p v : Z).

Section Client.
Context `{HeapLayout}.

Definition run_op (op : heap_op) : K Z :=
  match op with
  | OpMalloc size => kmalloc size
  | OpCalloc num size => kcalloc num size
  | OpRealloc p size => krealloc p size
  | OpFree p => kfree p ;;; ret 0
  | OpPoke p v => store8 p v ;;; ret 0
  end.

(** ** The abstract allocator *)

Definition abs_free_run (A : gmap Z chunk) (s n : Z) : Prop :=
  forall b, s <= b < s + n -> ~ chunk_covers A b.
Definition abs_fit (A : gmap Z chunk) (n s : Z) : Prop :=
  0 <= s /\ s + n <= KHEAP_TOTAL_BLOCKS /\ abs_free_run A s n /\
  forall s', 0 <= s' < s -> ~ abs_free_run A s' n.
Definition abs_full (A : gmap Z chunk) (n : Z) : Prop :=
  forall s, 0 <= s -> s + n <= KHEAP_TOTAL_BLOCKS -> ~ abs_free_run A s n.

Inductive abs_step (A : gmap Z chunk) : heap_op -> Z -> gmap Z chunk -> Prop :=
| abs_malloc size s : abs_fit A (blocks_for size) s ->
    abs_step A (OpMalloc size) (payload s) (<[s := Chunk (blocks_for size) size]> A)
| abs_malloc_null size : abs_full A (blocks_for size) -> abs_step A (OpMalloc size) NULL A
| abs_calloc num size s : abs_fit A (blocks_for (num * size)) s ->
    abs_step A (OpCalloc num size) (payload s)
      (<[s := Chunk (blocks_for (num * size)) (num * size)]> A)
| abs_calloc_null num size : abs_full A (blocks_for (num * size)) ->
    abs_step A (OpCalloc num size) NULL A
| abs_realloc_stay s c size : A !! s = Some c -> size <= 32 * ch_blocks c - 16 ->
    abs_step A (OpRealloc (payload s) size) (payload s) (<[s := Chunk (ch_blocks c) size]> A)
| abs_realloc_move s c size s' : A !! s = Some c -> 32 * ch_blocks c - 16 < size ->
    abs_fit A (blocks_for size) s' ->
    abs_step A (OpRealloc (payload s) size) (payload s')
      (<[s' := Chunk (blocks_for size) size]> (delete s A))
| abs_realloc_null s c size : A !! s = Some c -> 32 * ch_blocks c - 16 < size ->
    abs_full A (blocks_for size) -> abs_step A (OpRealloc (payload s) size) NULL A
| abs_free s c : A !! s = Some c -> abs_step A (OpFree (payload s)) 0 (delete s A)
| abs_free_null : abs_step A (OpFree NULL) 0 A
| abs_poke s c i v : A !! s = Some c -> 0 <= i < ch_size c ->
    abs_step A (OpPoke (payload s + i) v) 0 A.

(** The contract of the callers. *)
Definition size_ok (size : Z) : Prop := 0 < size /\ size + 47 < 4294967296.
Inductive op_ok (A : gmap Z chunk) : heap_op -> Prop :=
| ok_malloc size : size_ok size -> op_ok A (OpMalloc size)
| ok_calloc num size : size_ok (num * size) -> op_ok A (OpCalloc num size)
| ok_realloc s c size : A !! s = Some c -> size_ok size -> op_ok A (OpRealloc (payload s) size)
| ok_free s c : A !! s = Some c -> op_ok A (OpFree (payload s))
| ok_free_null : op_ok A (OpFree NULL)
| ok_poke s c i v : A !! s = Some c -> 0 <= i < ch_size c -> op_ok A (OpPoke (payload s + i) v).

(** The chunk an operation is entitled to write, if any. *)
Definition op_target (A : gmap Z chunk) (op : heap_op) (s : Z) : Prop :=
  match op with
  | OpPoke p _ => exists c i, A !! s = Some c /\ 0 <= i < ch_size c /\ p = payload s + i
  | OpRealloc p _ | OpFree p => p = payload s
  | _ => False
  end.

Lemma first_fit_abs A k n s :
  heap_inv A k -> first_fit (kheap_bitmap (k_heap k)) n s -> 1 <= n -> abs_fit A n s.
Proof.
  intros Hinv (H1 & H2 & H3 & H4) Hn.
  split_and!; [done|done| |].
  - intros b Hb Hcov. apply (hi_bits _ _ Hinv) in Hcov; [|lia]. by rewrite H3 in Hcov.
  - intros s' Hs' Hfree. apply (H4 s' Hs'). intros b Hb.
    destruct (bit_of _ b) eqn:E; [|done]. apply (hi_bits _ _ Hinv) in E; [|lia].
    by destruct (Hfree b Hb).
Qed.

Lemma no_fit_abs A k n : heap_inv A k -> no_fit (kheap_bitmap (k_heap k)) n -> abs_full A n.
Proof.
  intros Hinv Hno s Hs Hsn Hfree. apply (Hno s Hs Hsn). intros b Hb.
  destruct (bit_of _ b) eqn:E; [|done]. apply (hi_bits _ _ Hinv) in E; [|lia].
  by destruct (Hfree b Hb).
Qed.

Lemma payload_inj s s' : payload s = payload s' -> s = s'.
Proof. unfold payload, hdr. lia. Qed.

(** A run selected by the search lies outside every live chunk. *)
Lemma fit_outside A k n s s' c' x :
  heap_inv A k -> first_fit (kheap_bitmap (k_heap k)) n s -> 1 <= n -> A !! s' = Some c' ->
  hdr s' <= x < hdr s' + 16 + ch_size c' -> ~ hdr s <= x < hdr s + 32 * n.
Proof.
  intros Hinv (H1 & H2 & H3 & _) Hn Hl Hx.
  pose proof (hi_chunk _ _ Hinv _ _ Hl) as (? & ? & ? & ? & ?).
  destruct (run_free_disjoint A k s n s' c' Hinv H1 H2 H3 Hn Hl); unfold hdr in *; lia.
Qed.

(** Two live chunks share no byte. *)
Lemma chunks_apart A k s c s' c' x :
  heap_inv A k -> A !! s = Some c -> A !! s' = Some c' -> s <> s' ->
  hdr s <= x < hdr s + 16 + ch_size c -> ~ hdr s' <= x < hdr s' + 16 + ch_size c'.
Proof.
  intros Hinv Hs Hs' Hne Hx.
  pose proof (hi_chunk _ _ Hinv _ _ Hs) as (? & ? & ? & ? & ?).
  pose proof (hi_chunk _ _ Hinv _ _ Hs') as (? & ? & ? & ? & ?).
  destruct (hi_disj _ _ Hinv _ _ _ _ Hs Hs' Hne); unfold hdr in *; lia.
Qed.

Definition payload_kept (k k' : kernel) (s : Z) (c : chunk) : Prop :=
  forall i, 0 <= i < ch_size c -> k_mem k' !! (payload s + i) = k_mem k !! (payload s + i).

(** Where a payload lies, and two of them. *)
Lemma payload_placed A k s c :
  heap_inv A k -> A !! s = Some c ->
  kheap_memory_addr + 16 <= payload s /\ payload s + ch_size c <= kheap_memory_addr + KHEAP_SIZE /\ payload s mod 16 = 0.
Proof.
  intros Hinv Hs. pose proof (hi_chunk _ _ Hinv _ _ Hs) as (? & ? & ? & ? & ?). destruct H0.
  unfold payload, hdr. kheap_consts. split_and!; word_solve.
Qed.

Lemma payloads_apart A k s c s' c' :
  heap_inv A k -> A !! s = Some c -> A !! s' = Some c' -> s <> s' ->
  payload s + ch_size c <= payload s' - 16 \/ payload s' + ch_size c' <= payload s - 16.
Proof.
  intros Hinv Hs Hs' Hne. pose proof (hi_chunk _ _ Hinv _ _ Hs) as (? & ? & ? & ? & ?).
  pose proof (hi_chunk _ _ Hinv _ _ Hs') as (? & ? & ? & ? & ?).
  pose proof (hi_disj _ _ Hinv _ _ _ _ Hs Hs' Hne). unfold payload, hdr. lia.
Qed.

(** [kmalloc] on a heap whose first fit is known. *)
Lemma kmalloc_at A k size s :
  heap_inv A k -> size_ok size -> abs_fit A (blocks_for size) s ->
  kmalloc size k = Ok (payload s, after (kmalloc size) k) /\
  heap_inv (<[s := Chunk (blocks_for size) size]> A) (after (kmalloc size) k).
Proof.
  intros Hinv [Hpos Hub] (Hs & Hsn & Hfree & Hfirst).
  pose proof (blocks_for_bounds size Hpos) as [Hn _].
  destruct (after_wp _ _ _ (kmalloc_wp A k size Hinv Hpos Hub)) as (p & Hrun & Hpost).
  destruct Hpost as [(_ & _ & Hno)|(s' & bm' & Hff & -> & _ & _ & Hinv')].
  - apply (no_fit_abs A) in Hno; [|done]. by destruct (Hno s).
  - destruct (first_fit_abs _ _ _ _ Hinv Hff Hn) as (Hs' & Hsn' & Hfree' & Hfirst').
    assert (s = s') as <-; [|done].
    destruct (decide (s < s')); [by destruct (Hfirst' s)|].
    destruct (decide (s' < s)); [by destruct (Hfirst s')|lia].
Qed.

(** What one permitted operation does. *)
Definition sim_post (A : gmap Z chunk) (k : kernel) (op : heap_op) (r : Z) (k' : kernel) : Prop :=
  exists A', abs_step A op r A' /\ heap_inv A' k' /\
    (forall s c, A !! s = Some c -> ~ op_target A op s -> payload_kept k k' s c).

Lemma sim_malloc A k size : heap_inv A k -> size_ok size ->
  wp (kmalloc size) (sim_post A k (OpMalloc size)) k.
Proof.
  intros Hinv [Hpos Hub]. pose proof (blocks_for_bounds size Hpos) as [Hn _].
  eapply wp_mono; [by apply (kmalloc_wp A)|].
  intros p k' [(-> & -> & Hno)|(s & bm' & Hff & -> & Hnone & -> & Hinv')].
  - exists A. split_and!; [apply abs_malloc_null; by eapply no_fit_abs|done|done].
  - eexists. split_and!; [apply abs_malloc; by eapply first_fit_abs|done|].
    intros s' c' Hl _ i Hi. simpl. apply put_header_only_differ.
    pose proof (fit_outside _ _ _ _ _ _ (payload s' + i) Hinv Hff Hn Hl). unfold payload in *. lia.
Qed.

Lemma sim_calloc A k num size : heap_inv A k -> size_ok (num * size) ->
  wp (kcalloc num size) (sim_post A k (OpCalloc num size)) k.
Proof.
  intros Hinv [Hpos Hub]. pose proof (blocks_for_bounds _ Hpos) as [Hn Hfit].
  eapply wp_mono; [by apply (kcalloc_wp A)|].
  intros p k' [(-> & -> & Hno)|(s & Hff & -> & Hnone & Hinv' & Hd & _)].
  - exists A. split_and!; [apply abs_calloc_null; by eapply no_fit_abs|done|done].
  - eexists. split_and!; [apply abs_calloc; by eapply first_fit_abs|done|].
    intros s' c' Hl _ i Hi. apply Hd.
    pose proof (fit_outside _ _ _ _ _ _ (payload s' + i) Hinv Hff Hn Hl). unfold payload in *. lia.
Qed.

Lemma sim_realloc A k s c size : heap_inv A k -> A !! s = Some c -> size_ok size ->
  wp (krealloc (payload s) size) (sim_post A k (OpRealloc (payload s) size)) k.
Proof.
  intros Hinv Hs [Hpos Hub]. pose proof (blocks_for_bounds size Hpos) as [Hn Hfit].
  pose proof (hi_chunk _ _ Hinv _ _ Hs) as (? & ? & ? & ? & ?).
  eapply wp_mono; [by apply (krealloc_wp A)|]. intros p k'. unfold krealloc_post.
  destruct (Z.leb_spec size (32 * ch_blocks c - 16)) as [Hle|Hgt].
  - intros (-> & -> & Hinv'). eexists. split_and!; [by eapply abs_realloc_stay|done|].
    intros s' c' Hl Hnt i Hi. simpl. apply put32_lookup_ne.
    assert (s' <> s) as Hne by (intros ->; by apply Hnt).
    pose proof (chunks_apart _ _ _ _ _ _ (payload s' + i) Hinv Hl Hs Hne). unfold payload in *. lia.
  - intros [(-> & -> & Hno)|(s' & Hff & -> & Hnone & Hinv' & _ & Hframe)].
    + exists A. split_and!; [eapply abs_realloc_null; eauto using no_fit_abs|done|done].
    + eexists. split_and!; [eapply abs_realloc_move; eauto using first_fit_abs|done|].
      intros s'' c'' Hl Hnt i Hi.
      assert (s'' <> s) as Hne by (intros ->; by apply Hnt).
      pose proof (chunks_apart _ _ _ _ _ _ (payload s'' + i) Hinv Hl Hs Hne).
      pose proof (fit_outside _ _ _ _ _ _ (payload s'' + i) Hinv Hff Hn Hl).
      apply Hframe; unfold payload in *; lia.
Qed.

Lemma sim_free A k s c : heap_inv A k -> A !! s = Some c ->
  wp (kfree (payload s) ;;; ret 0) (sim_post A k (OpFree (payload s))) k.
Proof.
  intros Hinv Hs. destruct (kfree_live _ _ _ _ Hinv Hs) as (bm' & Hrun & Hinv' & _).
  apply wp_bind, (wp_eq _ _ _ _ _ Hrun), wp_ret. eexists.
  split_and!; [by eapply abs_free|done|]. intros s' c' Hl Hnt i Hi. simpl. apply put32_lookup_ne.
  assert (s' <> s) as Hne by (intros ->; by apply Hnt).
  pose proof (hi_chunk _ _ Hinv _ _ Hs) as (? & ? & ? & ? & ?).
  pose proof (chunks_apart _ _ _ _ _ _ (payload s' + i) Hinv Hl Hs Hne). unfold payload in *. lia.
Qed.

Lemma sim_poke A k s c i v : heap_inv A k -> A !! s = Some c -> 0 <= i < ch_size c ->
  wp (store8 (payload s + i) v ;;; ret 0) (sim_post A k (OpPoke (payload s + i) v)) k.
Proof.
  intros Hinv Hs Hi. pose proof (payload_bounds _ _ _ _ Hinv Hs) as (? & ? & ?).
  pose proof (payload_mapped _ _ _ _ Hinv Hs) as Hm.
  destruct (Hm i Hi) as (w & Hw & _). pose proof (hi_chunk _ _ Hinv _ _ Hs) as (? & ? & ? & ? & ?).
  apply wp_bind. eapply wp_store8; [word_solve|done|]. apply wp_ret.
  exists A. split_and!; [by eapply abs_poke| |].
  - eapply (payload_write_inv A k s c _ (ch_size c)); [done|done|lia| |].
    + apply only_differ_insert. lia.
    + apply mapped_insert; [done|apply u8_range].
  - intros s' c' Hl Hnt j Hj. simpl. apply lookup_insert_ne.
    assert (s' <> s) as Hne by (intros ->; apply Hnt; by exists c, i).
    pose proof (chunks_apart _ _ _ _ _ _ (payload s' + j) Hinv Hl Hs Hne). unfold payload in *. lia.
Qed.

Lemma heap_sim A k op : heap_inv A k -> op_ok A op -> wp (run_op op) (sim_post A k op) k.
Proof.
  intros Hinv []; simpl; eauto using sim_malloc, sim_calloc, sim_realloc, sim_free, sim_poke.
  apply wp_bind, wp_ret, wp_ret. exists A. split_and!; [apply abs_free_null|done|done].
Qed.

(** The abstract result determines the abstract state. *)
Lemma abs_step_det A op r A1 A2 :
  (forall s c, A !! s = Some c -> 0 <= s) ->
  abs_step A op r A1 -> abs_step A op r A2 -> A1 = A2.
Proof.
  assert (forall s, 0 <= s -> payload s <> NULL) as Hnn.
  { intros s Hs. destruct H0. unfold payload, hdr, NULL. lia. }
  intros Hpos H1 H2. destruct H1; inversion H2; subst; simplify_eq; try done;
    repeat match goal with
    | H : payload _ = payload _ |- _ => apply payload_inj in H; subst
    | H : payload ?s = NULL |- _ => destruct (Hnn s); [|exact H]
    | H : NULL = payload ?s |- _ => symmetry in H
    | H : 0 = payload ?s |- _ => symmetry in H; change 0 with NULL in H
    end; simplify_eq; try done; try lia; 
    match goal with
    | H : abs_fit _ _ ?s |- 0 <= ?s => apply H
    | |- _ => by eapply Hpos
    end.
Qed.

(** ** Histories

    The states a client can bring the heap to: initialisation, then any
    sequence of permitted operations, each chosen after seeing the results
    of the previous ones. *)
Inductive heap_reach (k0 : kernel) : gmap Z chunk -> kernel -> Prop :=
| reach_init k : kheap_init k0 = Ok (tt, k) -> heap_reach k0 ∅ k
| reach_op A k op r k' A' :
    heap_reach k0 A k -> op_ok A op -> run_op op k = Ok (r, k') -> abs_step A op r A' ->
    heap_reach k0 A' k'.

Lemma heap_reach_inv k0 A k :
  Z.of_nat (length (kheap_bitmap (k_heap k0))) = KHEAP_BITMAP_SIZE ->
  mapped (k_mem k0) kheap_memory_addr KHEAP_SIZE ->
  heap_reach k0 A k -> heap_inv A k.
Proof.
  intros Hlen Hm. induction 1 as [k Hrun|A k op r k' A' _ IH Hok Hrun Hstep].
  - destruct (kheap_init_wp k0 Hlen Hm) as ([] & k1 & Hrun1 & Hinv & _).
    rewrite Hrun in Hrun1. injection Hrun1 as <-. done.
  - destruct (heap_sim A k op IH Hok) as (r1 & k1 & Hrun1 & A1 & Hstep1 & Hinv1 & _).
    rewrite Hrun in Hrun1. injection Hrun1 as <- <-. assert (A1 = A') as <-; [|done].
    eapply abs_step_det; [|done|done]. intros s c Hs. apply (hi_chunk _ _ IH _ _ Hs).
Qed.

(** ** The account of a client

    What a client knows of its allocations, from its requests and the pointers it got
    back alone: the payloads it holds, each with the size it asked for. *)
Abbreviation account := (list (Z * Z)).

Definition drop_pointer (p : Z) (L : account) : account := filter (fun e => e.1 <> p) L.
Definition track (L : account) (op : heap_op) (r : Z) : account :=
  match op with
  | OpMalloc size => if r =? NULL then L else (r, size) :: L
  | OpCalloc num size => if r =? NULL then L else (r, num * size) :: L
  | OpRealloc p size => if r =? NULL then L else (r, size) :: drop_pointer p L
  | OpFree p => drop_pointer p L
  | OpPoke _ _ => L
  end.

(** It frees and reallocates the pointers it holds and stores inside their sizes. *)
Definition allowed (L : account) (op : heap_op) : Prop :=
  match op with
  | OpMalloc size => size_ok size
  | OpCalloc num size => size_ok (num * size)
  | OpRealloc p size => p ∈ L.*1 /\ size_ok size
  | OpFree p => p = NULL \/ p ∈ L.*1
  | OpPoke a _ => exists p n, (p, n) ∈ L /\ p <= a < p + n
  end.

(** The payloads that an operation is meant to change or give up. *)
Definition meant_for (op : heap_op) (p n : Z) : Prop :=
  match op with
  | OpPoke a _ => p <= a < p + n
  | OpRealloc q _ | OpFree q => q = p
  | _ => False
  end.

Inductive client_run (k0 : kernel) : account -> kernel -> Prop :=
| client_init k : kheap_init k0 = Ok (tt, k) -> client_run k0 [] k
| client_op L k op r k' :
    client_run k0 L k -> allowed L op -> run_op op k = Ok (r, k') -> client_run k0 (track L op r) k'.

(** The account lists the chunks of the abstract allocator, once each. *)
Record represents (A : gmap Z chunk) (L : account) : Prop := Represents {
  rep_entry : forall p n, (p, n) ∈ L <-> exists s c, A !! s = Some c /\ p = payload s /\ n = ch_size c;
  rep_once : NoDup (L.*1)
}.

Lemma elem_drop (p n q : Z) (L : account) : (p, n) ∈ drop_pointer q L <-> p <> q /\ (p, n) ∈ L.
Proof. unfold drop_pointer. by rewrite list_elem_of_filter. Qed.

Lemma held_entry (p : Z) (L : account) : p ∈ L.*1 <-> exists n, (p, n) ∈ L.
Proof.
  rewrite list_elem_of_fmap. split; [intros ([q n] & -> & Hin); by exists n|intros [n Hin]; by exists (p, n)].
Qed.

Lemma represents_insert A L s c :
  A !! s = None -> represents A L -> represents (<[s := c]> A) ((payload s, ch_size c) :: L).
Proof.
  intros Hs [He Ho]. constructor.
  - intros p n. rewrite elem_of_cons, He. split.
    + intros [[= -> ->]|(s' & c' & Hl & -> & ->)]; [by exists s, c; rewrite lookup_insert_eq|].
      exists s', c'. rewrite lookup_insert_ne by (intros ->; congruence). done.
    + intros (s' & c' & Hl & -> & ->). apply lookup_insert_Some in Hl as [[<- <-]|[_ Hl]]; [by left|right]. by exists s', c'.
  - cbn. constructor; [|done]. rewrite held_entry. intros [n (s' & c' & Hl & Hp & _)%He]. apply payload_inj in Hp. congruence.
Qed.

Lemma represents_delete A L s : represents A L -> represents (delete s A) (drop_pointer (payload s) L).
Proof.
  intros [He Ho]. constructor.
  - intros p n. rewrite elem_drop, He. split.
    + intros (Hne & s' & c' & Hl & -> & ->). exists s', c'. rewrite lookup_delete_ne by (intros ->; done). done.
    + intros (s' & c' & Hl & -> & ->). apply lookup_delete_Some in Hl as [Hne Hl]. split; [|by exists s', c'].
      intros Hp%payload_inj. congruence.
  - clear He. induction L as [|[q n] L IH]; [constructor|]. apply NoDup_cons in Ho as [Hq Ho]. unfold drop_pointer. rewrite filter_cons.
    case_decide; [|by apply IH]. cbn. constructor; [|by apply IH].
    intros [n' [_ Hin]%elem_drop]%held_entry. apply Hq, held_entry. by exists n'.
Qed.

Lemma drop_other (p : Z) (L : account) : p ∉ L.*1 -> drop_pointer p L = L.
Proof.
  induction L as [|[q n] L IH]; [done|]. cbn [fmap list_fmap]. rewrite not_elem_of_cons. intros [Hne Hp]. unfold drop_pointer.
  rewrite filter_cons_True by (cbn in *; auto). f_equal. by apply IH.
Qed.

Lemma live_payload A k s : heap_inv A k -> is_Some (A !! s) -> payload s <> NULL.
Proof. intros Hinv [c Hs]. destruct (hi_chunk _ _ Hinv _ _ Hs) as (? & _), H0. unfold payload, hdr, NULL. lia. Qed.

Lemma fit_payload A n s : abs_fit A n s -> payload s <> NULL.
Proof. intros (? & _). destruct H0. unfold payload, hdr, NULL. lia. Qed.

Lemma fit_fresh A k n s : heap_inv A k -> 1 <= n -> abs_fit A n s -> A !! s = None.
Proof.
  intros Hinv Hn (_ & _ & Hfree & _). destruct (A !! s) as [c|] eqn:Hs; [|done].
  destruct (Hfree s); [lia|]. exists s, c. split; [done|]. pose proof (hi_chunk _ _ Hinv _ _ Hs) as (? & ? & ? & ? & ?). lia.
Qed.

(** The account follows the abstract allocator. *)
Lemma track_represents A k L op r A' :
  heap_inv A k -> op_ok A op -> represents A L -> abs_step A op r A' -> represents A' (track L op r).
Proof.
  intros Hinv Hok Hrep Hstep.
  assert (forall size, size_ok size -> 1 <= blocks_for size) as Hb by (intros size [Hp _]; apply (blocks_for_bounds size Hp)).
  destruct Hstep as [size s Hf|size Hf|num size s Hf|num size Hf|s c size Hs Hle|s c size s' Hs Hgt Hf|s c size Hs Hgt Hf|s c Hs| |s c i v Hs Hi];
    cbn [track]; rewrite ?Z.eqb_refl; try done.
  - rewrite (proj2 (Z.eqb_neq _ _)) by (by eapply fit_payload). inversion Hok.
    apply (represents_insert _ _ _ (Chunk _ _)); [eapply fit_fresh; eauto|done].
  - rewrite (proj2 (Z.eqb_neq _ _)) by (by eapply fit_payload). inversion Hok.
    apply (represents_insert _ _ _ (Chunk _ _)); [eapply fit_fresh; eauto|done].
  - rewrite (proj2 (Z.eqb_neq _ _)) by (eapply live_payload; eauto). rewrite <- insert_delete_eq.
    apply (represents_insert _ _ _ (Chunk _ _)); [by rewrite lookup_delete_eq|by apply represents_delete].
  - rewrite (proj2 (Z.eqb_neq _ _)) by (by eapply fit_payload). assert (size_ok size) as Hz by (by inversion Hok).
    apply (represents_insert _ _ _ (Chunk _ _)); [|by apply represents_delete].
    rewrite lookup_delete_None. right. eapply fit_fresh; eauto.
  - by apply represents_delete.
  - rewrite drop_other; [done|]. intros [n (s & c & Hs & Hp & _)%(rep_entry _ _ Hrep)]%held_entry.
    by destruct (live_payload A k s Hinv (ex_intro _ c Hs)).
Qed.

Lemma allowed_ok A L op : represents A L -> allowed L op -> op_ok A op.
Proof.
  intros [He _]. destruct op as [size|num size|p size|p|a v]; cbn [allowed].
  - apply ok_malloc.
  - apply ok_calloc.
  - intros [[n (s & c & Hs & -> & _)%He]%held_entry Hz]. by eapply ok_realloc.
  - intros [->|[n (s & c & Hs & -> & _)%He]%held_entry]; [apply ok_free_null|by eapply ok_free].
  - intros (p & n & (s & c & Hs & -> & ->)%He & Ha). replace a with (payload s + (a - payload s)) by lia.
    eapply ok_poke; [done|lia].
Qed.

Lemma client_run_inv k0 L k :
  Z.of_nat (length (kheap_bitmap (k_heap k0))) = KHEAP_BITMAP_SIZE ->
  mapped (k_mem k0) kheap_memory_addr KHEAP_SIZE ->
  client_run k0 L k -> exists A, heap_inv A k /\ represents A L.
Proof.
  intros Hlen Hm. induction 1 as [k Hrun|L k op r k' _ (A & Hinv & Hrep) Hal Hrun].
  - exists ∅. split; [apply (heap_reach_inv k0 _ _ Hlen Hm); by apply reach_init|]. constructor; [|constructor].
    intros p n. split; [by intros ?%elem_of_nil|intros (s & c & Hs & _); by rewrite lookup_empty in Hs].
  - pose proof (allowed_ok A L op Hrep Hal) as Hok.
    destruct (heap_sim A k op Hinv Hok) as (r1 & k1 & Hrun1 & A' & Hstep & Hinv' & _).
    rewrite Hrun in Hrun1. injection Hrun1 as <- <-. exists A'. split; [done|]. exact (track_represents A k L op r A' Hinv Hok Hrep Hstep).
Qed.

Lemma meant_target A k op s c :
  heap_inv A k -> A !! s = Some c -> op_target A op s -> meant_for op (payload s) (ch_size c).
Proof.
  intros Hinv Hs. destruct op; cbn; try done. intros (c' & i & Hs' & Hi & ->). assert (c' = c) as -> by congruence. lia.
Qed.
End Client.
