(* ===== verification/KheapProps.v ===== *)
(** The correctness of the kernel heap, stated for kernel/kheap.c, with an
    instance of each statement on the sample placement of the kernel. *)
From S2P Require Import Prelude State Machine Image Kheap KheapBitmap KheapSpec KheapOps KheapClient.

Section Props.
Context `{HeapLayout}.

(** C5. The heap refines the abstract allocator: in every state that a client
    keeping to its contract can bring the heap to after [kheap_init], the
    bitmap and headers represent the abstract state, and every further
    permitted call returns (it neither faults nor loops), takes the step the
    abstract allocator takes, and leaves the payload of every chunk it was
    not called on as it was. *)
Theorem heap_refines_allocator k0 A k :
  Z.of_nat (length (kheap_bitmap (k_heap k0))) = KHEAP_BITMAP_SIZE ->
  mapped (k_mem k0) kheap_memory_addr KHEAP_SIZE ->
  heap_reach k0 A k ->
  heap_inv A k /\
  forall op, op_ok A op ->
    exists r k' A', run_op op k = Ok (r, k') /\ abs_step A op r A' /\ heap_inv A' k' /\
      forall s c, A !! s = Some c -> ~ op_target A op s -> payload_kept k k' s c.
Proof.
  intros Hlen Hm Hreach. pose proof (heap_reach_inv k0 A k Hlen Hm Hreach) as Hinv.
  split; [done|]. intros op Hok.
  destruct (heap_sim A k op Hinv Hok) as (r & k' & Hrun & A' & H1' & H2' & H3').
  by exists r, k', A'.
Qed.

(** C6. [kmalloc] is first fit: it answers NULL and changes nothing when no
    run of [blocks_for size] free blocks exists; otherwise it takes the lowest
    such run, writes only the 16 header bytes in memory, and returns the
    address after them. *)
Theorem kmalloc_first_fit A k size :
  heap_inv A k -> 0 < size -> size + 47 < 4294967296 ->
  exists p k', kmalloc size k = Ok (p, k') /\
    ((p = NULL /\ k' = k /\ no_fit (kheap_bitmap (k_heap k)) (blocks_for size)) \/
     (exists s, first_fit (kheap_bitmap (k_heap k)) (blocks_for size) s /\ p = payload s /\
        heap_inv (<[s := Chunk (blocks_for size) size]> A) k' /\ A !! s = None /\
        only_differ (k_mem k) (k_mem k') (hdr s) 16 /\
        forall b, 0 <= b < KHEAP_TOTAL_BLOCKS ->
          bit_of (kheap_bitmap (k_heap k')) b
          = in_run s (blocks_for size) b || bit_of (kheap_bitmap (k_heap k)) b)).
Proof.
  intros Hinv Hpos Hub. pose proof (blocks_for_bounds size Hpos) as [Hn1 Hfit].
  destruct (kmalloc_raw k size (blocks_for size)) as (p & k' & Hrun & Hpost);
    try apply Hinv; [lia|by apply kmalloc_size_eq|done|].
  exists p, k'. split; [done|].
  destruct Hpost as [?|(s & bm' & Hff & -> & -> & Hwf & Hbits)]; [by left|right].
  destruct (heap_inv_alloc A k s (blocks_for size) size bm') as [Hnone Hinv'];
    [done..|word_solve|done|done|done|].
  exists s. split_and!; try done; [apply put_header_only_differ|].
  intros b Hb. simpl. rewrite Hbits by lia. by destruct (in_run _ _ b).
Qed.

(** C7. What a client of the heap may rely on: initialise it and then allocate, zero,
    reallocate, free and store in any order, each step allowed by the pointers got back
    so far.  Every payload still held lies in the pool, starts on a 16-byte boundary and
    has the size that was asked for, no two of them share a byte, nor does one reach
    into the 16 bytes before another; and every further step that is allowed returns and
    leaves the bytes of the payloads it is not meant for as they are. *)
Theorem live_payloads_separate k0 L k :
  Z.of_nat (length (kheap_bitmap (k_heap k0))) = KHEAP_BITMAP_SIZE ->
  mapped (k_mem k0) kheap_memory_addr KHEAP_SIZE -> client_run k0 L k ->
  (forall i p n, L !! i = Some (p, n) ->
    kheap_memory_addr + 16 <= p /\ p + n <= kheap_memory_addr + KHEAP_SIZE /\ p mod 16 = 0 /\
    forall j q n', L !! j = Some (q, n') -> i <> j -> p + n <= q - 16 \/ q + n' <= p - 16) /\
  forall op, allowed L op -> exists r k', run_op op k = Ok (r, k') /\
    forall p n x, (p, n) ∈ L -> ~ meant_for op p n -> p <= x < p + n -> k_mem k' !! x = k_mem k !! x.
Proof.
  intros Hlen Hm Hrun. destruct (client_run_inv k0 L k Hlen Hm Hrun) as (A & Hinv & Hrep). split.
  - intros i p n Hi.
    destruct (proj1 (rep_entry _ _ Hrep p n) (list_elem_of_lookup_2 _ _ _ Hi)) as (s & c & Hs & -> & ->).
    destruct (payload_placed A k s c Hinv Hs) as (H1 & H2 & H3). split_and!; [done..|]. intros j q n' Hj Hij.
    destruct (proj1 (rep_entry _ _ Hrep q n') (list_elem_of_lookup_2 _ _ _ Hj)) as (s' & c' & Hs' & -> & ->).
    apply (payloads_apart A k); try done. intros <-. apply Hij.
    apply (NoDup_lookup (L.*1) i j (payload s)); [apply Hrep|by rewrite list_lookup_fmap, Hi|by rewrite list_lookup_fmap, Hj].
  - intros op Hal. destruct (heap_sim A k op Hinv (allowed_ok A L op Hrep Hal)) as (r & k' & Hop & A' & _ & _ & Hkeep).
    exists r, k'. split; [done|]. intros p n x (s & c & Hs & -> & ->)%(rep_entry _ _ Hrep) Hmf Hx.
    replace x with (payload s + (x - payload s)) by lia. apply (Hkeep s c Hs); [|lia].
    intros Ht. by apply Hmf, (meant_target A k op s c).
Qed.

(** C8. [kfree] of a live pointer releases exactly the blocks of its chunk,
    keeps the other chunks, and writes nothing but the magic word. *)
Theorem kfree_releases A k s c :
  heap_inv A k -> A !! s = Some c ->
  exists k', kfree (payload s) k = Ok (tt, k') /\ heap_inv (delete s A) k' /\
    only_differ (k_mem k) (k_mem k') (hdr s) 4 /\
    forall b, 0 <= b < KHEAP_TOTAL_BLOCKS ->
      bit_of (kheap_bitmap (k_heap k')) b
      = negb (in_run s (ch_blocks c) b) && bit_of (kheap_bitmap (k_heap k)) b.
Proof.
  intros Hinv Hs. destruct (kfree_live _ _ _ _ Hinv Hs) as (bm' & Hrun & Hinv' & Hbits).
  eexists. split_and!; [done|done|apply put32_only_differ|].
  intros b Hb. simpl. rewrite Hbits by lia. by destruct (in_run _ _ b).
Qed.

(** C9. [kfree] ignores NULL, pointers outside the pool and pointers that are
    not preceded by the magic number: the state is unchanged. *)
Theorem kfree_rejects_bad_pointers A k p :
  heap_inv A k -> is_u32 p -> kfree_rejects k p -> kfree p k = Ok (tt, k).
Proof. apply kfree_ignores. Qed.

(** A second [kfree] of the same pointer does nothing: the cleared magic
    number stops it, and the heap stays well formed. *)
Theorem double_free_harmless A k s c :
  heap_inv A k -> A !! s = Some c ->
  exists k', kfree (payload s) k = Ok (tt, k') /\ kfree (payload s) k' = Ok (tt, k') /\
    heap_inv (delete s A) k'.
Proof.
  intros Hinv Hs. destruct (kfree_live _ _ _ _ Hinv Hs) as (bm' & Hrun & Hinv' & _).
  eexists. split_and!; [done| |done].
  pose proof (payload_bounds _ _ _ _ Hinv Hs). pose proof (hi_chunk _ _ Hinv _ _ Hs) as (? & ? & ? & ? & ?).
  eapply kfree_ignores; [done|word_solve|]. right. right. right. simpl.
  replace (payload s - 16) with (hdr s) by (unfold payload; lia).
  rewrite word_at_put32 by word_solve. done.
Qed.

(** Allocating and freeing is a round trip: the abstract state and every
    bit of the bitmap are back to what they were, also when the allocation
    fails. *)
Theorem malloc_free_round_trip A k size :
  heap_inv A k -> 0 < size -> size + 47 < 4294967296 ->
  wp (p <- kmalloc size ;; kfree p)
    (fun _ k' => heap_inv A k' /\
       forall b, 0 <= b < KHEAP_TOTAL_BLOCKS ->
         bit_of (kheap_bitmap (k_heap k')) b = bit_of (kheap_bitmap (k_heap k)) b) k.
Proof.
  intros Hinv Hpos Hub. apply wp_bind. eapply wp_mono; [by apply (kmalloc_wp A)|].
  intros p k' [(-> & -> & _)|(s & bm' & Hff & -> & Hnone & Hk' & Hinv')].
  - eapply wp_eq; [eapply kfree_ignores; [done|unfold NULL; word_solve|by left]|done].
  - destruct (kfree_live _ _ s _ Hinv' (lookup_insert_eq _ _ _)) as (bm2 & Hrun & Hinv2 & _).
    eapply wp_eq; [done|]. rewrite delete_insert_id in Hinv2 by done. split; [done|].
    intros b Hb. apply eq_true_iff_eq.
    by rewrite (hi_bits _ _ Hinv2 b Hb), (hi_bits _ _ Hinv b Hb).
Qed.

(** [kcalloc] hands out zeroed memory: either NULL with nothing changed,
    or a first-fit chunk whose [num * size] payload bytes all read 0, no byte
    outside the new chunk being written. *)
Theorem kcalloc_zeroed A k num size :
  heap_inv A k -> 0 < num * size -> num * size + 47 < 4294967296 ->
  exists p k', kcalloc num size k = Ok (p, k') /\ kcalloc_post A k (num * size) p k'.
Proof. apply kcalloc_wp. Qed.

(** C10. [krealloc] of a live chunk keeps its data: it grows in place when the
    blocks suffice; otherwise it moves the payload to a first-fit chunk and
    frees the old one, or answers NULL and leaves the old chunk intact. *)
Theorem krealloc_preserves_data A k s c new_size :
  heap_inv A k -> A !! s = Some c -> 0 < new_size -> new_size + 47 < 4294967296 ->
  exists p k', krealloc (payload s) new_size k = Ok (p, k') /\
    (p <> NULL -> exists s' c', p = payload s' /\ ch_size c' = new_size /\
       heap_inv (<[s' := c']> (delete s A)) k' /\
       forall i, 0 <= i < Z.min (ch_size c) new_size ->
         k_mem k' !! (p + i) = k_mem k !! (payload s + i)) /\
    (p = NULL -> k' = k /\ no_fit (kheap_bitmap (k_heap k)) (blocks_for new_size)).
Proof.
  intros Hinv Hs Hpos Hub.
  destruct (krealloc_wp A k s c new_size Hinv Hs Hpos Hub) as (p & k' & Hrun & Hpost).
  exists p, k'. split; [done|]. pose proof (payload_bounds _ _ _ _ Hinv Hs) as (Hp & _).
  revert Hpost. unfold krealloc_post, NULL. case_bool.
  - intros (-> & -> & Hinv'). split; [intros _|lia].
    exists s, (Chunk (ch_blocks c) new_size). rewrite insert_delete_eq.
    split_and!; [done|done|done|]. intros i Hi. apply put32_lookup_ne.
    unfold payload. lia.
  - intros [(-> & -> & Hno)|(s' & Hff & -> & Hnone & Hinv' & Hcopy & _)]; [done|].
    pose proof (payload_bounds _ _ s' _ Hinv' (lookup_insert_eq _ _ _)) as (Hp' & _).
    split; [intros _|lia]. exists s', (Chunk (blocks_for new_size) new_size).
    split_and!; [done|done|done|]. intros i Hi. apply Hcopy. lia.
Qed.

(** The statistics are exact: used memory is 32 bytes for every block of
    every live chunk, and used plus free memory is the size of the pool. *)
Theorem memory_statistics_exact A k :
  heap_inv A k ->
  kheap_get_used_memory k = Ok (32 * total_blocks A, k) /\
  kheap_get_free_memory k = Ok (KHEAP_SIZE - 32 * total_blocks A, k) /\
  kheap_get_total_memory k = Ok (KHEAP_SIZE, k).
Proof.
  intros Hinv. split_and!; [by apply used_memory_eq|by apply free_memory_eq|done].
Qed.

(** C11. The size computation of [kmalloc] wraps: a request for one of the 15
    largest 32-bit sizes (nearly 4GB from a 256KB pool) does not fail.  On any
    heap with a free block it returns a chunk of a single block, whose 16
    payload bytes the recorded size exceeds. *)
Theorem kmalloc_size_wraps A k size :
  heap_inv A k -> 4294967281 <= size < 4294967296 -> ~ no_fit (kheap_bitmap (k_heap k)) 1 ->
  exists s k', kmalloc size k = Ok (payload s, k') /\
    0 <= s < KHEAP_TOTAL_BLOCKS /\ payload s <> NULL /\
    word_at (k_mem k') (hdr s + 8) = 1 /\ word_at (k_mem k') (hdr s + 12) = size /\
    forall b, 0 <= b < KHEAP_TOTAL_BLOCKS ->
      bit_of (kheap_bitmap (k_heap k')) b = (s =? b) || bit_of (kheap_bitmap (k_heap k)) b.
Proof.
  intros Hinv Hsz Hfit. destruct (kmalloc_raw k size 1) as (p & k' & Hrun & Hpost);
    try apply Hinv; [lia| |done|].
  { kheap_consts. word_unfold. replace (16 + size) with (size - 4294967280 + 1 * 4294967296) by lia.
    rewrite Z_mod_plus_full, !Z.mod_small by (rewrite ?Z.mod_small; lia). word_solve. }
  destruct Hpost as [(_ & _ & Hno)|(s & bm' & (Hs & Hsn & _) & -> & -> & Hwf & Hbits)]; [done|].
  pose proof (hdr_bounds s ltac:(lia)).
  destruct (put_header_ok (k_mem k) s 1 size) as (_ & _ & H3 & H4); try (kheap_consts; word_solve).
  exists s. eexists. split_and!; [done|lia|lia|unfold payload, NULL; lia|done|done|].
  intros b Hb. simpl. rewrite Hbits by lia. unfold in_run.
  repeat case_bool; simpl; auto; lia.
Qed.

(** [kheap_init] on a mapped pool gives the empty heap, whatever the
    bitmap and the pool held before: all blocks free, all bytes 0. *)
Theorem kheap_init_empties k :
  Z.of_nat (length (kheap_bitmap (k_heap k))) = KHEAP_BITMAP_SIZE ->
  mapped (k_mem k) kheap_memory_addr KHEAP_SIZE ->
  exists k', kheap_init k = Ok (tt, k') /\ heap_inv ∅ k' /\
    (forall b, 0 <= b < KHEAP_TOTAL_BLOCKS -> bit_of (kheap_bitmap (k_heap k')) b = false) /\
    (forall i, 0 <= i < KHEAP_SIZE -> k_mem k' !! (kheap_memory_addr + i) = Some 0).
Proof.
  intros Hlen Hm. destruct (kheap_init_wp k Hlen Hm) as ([] & k' & Hrun & Hinv & _ & Hz & _).
  exists k'. split_and!; try done. intros b Hb.
  destruct (bit_of _ b) eqn:E; [|done].
  apply (hi_bits _ _ Hinv b Hb) in E as (s & c & Hl & _). done.
Qed.
End Props.

(** * Instances on the sample placement *)

#[export] Instance sample_heap_layout : HeapLayout.
Proof. by constructor. Qed.

(** The sample kernel after [kheap_init], after [kmalloc(100)] and after a
    second [kmalloc(40)]. *)
Definition heap0 : kernel := after kheap_init sample_kernel.
Definition heap1 : kernel := after (kmalloc 100) heap0.
Definition heap2 : kernel := after (kmalloc 40) heap1.

Lemma sample_pool_mapped : mapped (k_mem sample_kernel) kheap_memory_addr KHEAP_SIZE.
Proof. by apply zero_mem_mapped. Qed.

Lemma heap0_run : kheap_init sample_kernel = Ok (tt, heap0).
Proof.
  destruct (after_wp _ _ _ (kheap_init_wp sample_kernel eq_refl sample_pool_mapped)) as ([] & Hrun & _).
  done.
Qed.

Lemma heap0_inv : heap_inv ∅ heap0.
Proof.
  destruct (after_wp _ _ _ (kheap_init_wp sample_kernel eq_refl sample_pool_mapped)) as ([] & _ & Hinv & _).
  done.
Qed.

Definition alloc1 : gmap Z chunk := {[0 := Chunk 4 100]}.
Definition alloc2 : gmap Z chunk := <[4 := Chunk 2 40]> alloc1.

Lemma alloc1_covers b : chunk_covers alloc1 b <-> 0 <= b < 4.
Proof.
  unfold alloc1. rewrite <- insert_empty, chunk_covers_insert by done. simpl. split; [|by left].
  intros [?|(s & c & Hl & _)]; [done|]. done.
Qed.

Lemma heap1_run : kmalloc 100 heap0 = Ok (payload 0, heap1) /\ heap_inv alloc1 heap1.
Proof.
  apply (kmalloc_at ∅ heap0 100 0 heap0_inv); [by split|].
  split_and!; [done|done| |lia]. intros b Hb (s & c & Hl & _). done.
Qed.

Lemma heap2_run : kmalloc 40 heap1 = Ok (payload 4, heap2) /\ heap_inv alloc2 heap2.
Proof.
  apply (kmalloc_at alloc1 heap1 40 4 (proj2 heap1_run)); [by split|].
  split_and!; [done|done| |].
  - intros b Hb. rewrite alloc1_covers. lia.
  - intros s Hs Hfree. apply (Hfree s); [change (blocks_for 40) with 2; lia|].
    rewrite alloc1_covers. lia.
Qed.

Lemma heap1_not_full : ~ no_fit (kheap_bitmap (k_heap heap1)) 1.
Proof.
  intros Hno. apply (no_fit_abs alloc1 heap1 1 (proj2 heap1_run)) in Hno.
  destruct (Hno 4); [done|done|]. intros b Hb. rewrite alloc1_covers. lia.
Qed.

Lemma heap1_reach : heap_reach sample_kernel alloc1 heap1.
Proof.
  eapply (reach_op _ ∅ heap0 (OpMalloc 100)); [apply reach_init, heap0_run|by apply ok_malloc| |].
  - apply heap1_run.
  - apply (abs_malloc ∅ 100 0). split_and!; [done|done| |lia]. intros b Hb (s & c & Hl & _). done.
Qed.

Lemma heap_refines_allocator_witness :
  exists r k' A', run_op (OpFree (payload 0)) heap1 = Ok (r, k') /\
    abs_step alloc1 (OpFree (payload 0)) r A' /\ heap_inv A' k'.
Proof.
  destruct (heap_refines_allocator sample_kernel alloc1 heap1 eq_refl sample_pool_mapped heap1_reach)
    as [_ Hop].
  destruct (Hop (OpFree (payload 0))) as (r & k' & A' & H1 & H2 & H3 & _).
  - eapply ok_free. reflexivity.
  - exists r, k', A'. auto.
Defined.

Lemma kmalloc_first_fit_witness :
  exists p k', kmalloc 40 heap1 = Ok (p, k') /\ (p = NULL -> k' = heap1).
Proof.
  destruct (kmalloc_first_fit alloc1 heap1 40 (proj2 heap1_run) eq_refl eq_refl)
    as (p & k' & Hrun & Hpost).
  exists p, k'. split; [exact Hrun|]. intros ->.
  destruct Hpost as [(_ & Hk & _)|(s & _ & Hp & Hinv & _)]; [exact Hk|].
  exfalso. pose proof (payload_bounds _ _ s _ Hinv (lookup_insert_eq _ _ _)) as (Hb & _).
  rewrite <- Hp in Hb. discriminate Hb.
Defined.

Lemma heap2_client : client_run sample_kernel [(payload 4, 40); (payload 0, 100)] heap2.
Proof.
  refine (client_op sample_kernel [(payload 0, 100)] heap1 (OpMalloc 40) (payload 4) heap2 _ _ _); [|by split|apply heap2_run].
  refine (client_op sample_kernel [] heap0 (OpMalloc 100) (payload 0) heap1 _ _ _); [apply client_init, heap0_run|by split|apply heap1_run].
Qed.

Lemma live_payloads_separate_witness :
  payload 0 + 100 <= payload 4 - 16 /\
  exists r k', run_op (OpFree (payload 4)) heap2 = Ok (r, k') /\ k_mem k' !! payload 0 = k_mem heap2 !! payload 0.
Proof.
  destruct (live_payloads_separate sample_kernel [(payload 4, 40); (payload 0, 100)] heap2 eq_refl sample_pool_mapped heap2_client)
    as [Hsep Hop]. split.
  - destruct (Hsep 1%nat (payload 0) 100 eq_refl) as (_ & _ & _ & Hj).
    destruct (Hj 0%nat (payload 4) 40 eq_refl ltac:(lia)) as [Hl|Hr]; [exact Hl|].
    vm_compute in Hr. destruct (Hr eq_refl).
  - destruct (Hop (OpFree (payload 4))) as (r & k' & Hrun & Hkeep); [right; left|].
    exists r, k'. split; [exact Hrun|]. apply (Hkeep (payload 0) 100); [right; left| |lia].
    intros Hp%payload_inj. discriminate Hp.
Defined.

Lemma kfree_releases_witness :
  exists k', kfree (payload 0) heap2 = Ok (tt, k') /\ heap_inv (delete 0 alloc2) k'.
Proof.
  destruct (kfree_releases alloc2 heap2 0 (Chunk 4 100) (proj2 heap2_run) eq_refl)
    as (k' & H1 & H2 & _).
  exists k'. auto.
Defined.

Lemma kfree_rejects_bad_pointers_witness : kfree 0x1000 heap1 = Ok (tt, heap1).
Proof.
  apply (kfree_rejects_bad_pointers alloc1 heap1 0x1000 (proj2 heap1_run)).
  - split; [discriminate|reflexivity].
  - right. left. reflexivity.
Defined.

Lemma double_free_harmless_witness :
  exists k', kfree (payload 0) heap1 = Ok (tt, k') /\ kfree (payload 0) k' = Ok (tt, k').
Proof.
  destruct (double_free_harmless alloc1 heap1 0 (Chunk 4 100) (proj2 heap1_run) eq_refl)
    as (k' & H1 & H2 & _).
  exists k'. auto.
Defined.

Lemma malloc_free_round_trip_witness :
  exists k', (p <- kmalloc 40 ;; kfree p) heap1 = Ok (tt, k') /\ heap_inv alloc1 k'.
Proof.
  destruct (malloc_free_round_trip alloc1 heap1 40 (proj2 heap1_run) eq_refl eq_refl)
    as ([] & k' & H1 & H2 & _).
  exists k'. auto.
Defined.

Lemma kcalloc_zeroed_witness :
  exists p k', kcalloc 10 4 heap1 = Ok (p, k') /\ kcalloc_post alloc1 heap1 40 p k'.
Proof. apply (kcalloc_zeroed alloc1 heap1 10 4 (proj2 heap1_run) eq_refl eq_refl). Defined.

Lemma krealloc_preserves_data_witness :
  exists p k', krealloc (payload 0) 500 heap2 = Ok (p, k') /\ (p = NULL -> k' = heap2).
Proof.
  destruct (krealloc_preserves_data alloc2 heap2 0 (Chunk 4 100) 500 (proj2 heap2_run)
    eq_refl eq_refl eq_refl) as (p & k' & H1 & _ & H2).
  exists p, k'. split; [exact H1|]. intros Hp. apply (H2 Hp).
Defined.

Lemma memory_statistics_exact_witness :
  kheap_get_used_memory heap2 = Ok (32 * total_blocks alloc2, heap2) /\ total_blocks alloc2 = 6.
Proof.
  split; [apply (memory_statistics_exact alloc2 heap2 (proj2 heap2_run))|reflexivity].
Defined.

Lemma kmalloc_size_wraps_witness :
  exists s k', kmalloc 4294967295 heap1 = Ok (payload s, k') /\ word_at (k_mem k') (hdr s + 8) = 1.
Proof.
  destruct (kmalloc_size_wraps alloc1 heap1 4294967295 (proj2 heap1_run)
    ltac:(lia) heap1_not_full) as (s & k' & H1 & _ & _ & H2 & _).
  exists s, k'. auto.
Defined.

Lemma kheap_init_empties_witness :
  exists k', kheap_init sample_kernel = Ok (tt, k') /\ heap_inv ∅ k'.
Proof.
  destruct (kheap_init_empties sample_kernel eq_refl sample_pool_mapped) as (k' & H1 & H2 & _).
  exists k'. auto.
Defined.
