(* ===== verification/Framebuffer.v ===== *)
(** The VGA text-mode console driver: drivers/framebuffer.c.

    The 80x25 cells are the 4000 bytes of memory at 0xC00B8000, two per cell:
    the character and its attribute. *)
From S2P Require Import Prelude State Machine.

(** * Operations *)

Definition FB_COMMAND_PORT : Z := 0x3D4.
Definition FB_DATA_PORT : Z := 0x3D5.
Definition FB_HIGH_BYTE_COMMAND : Z := 14.
Definition FB_LOW_BYTE_COMMAND : Z := 15.

(** [static char *fb] *)
Definition fb : Z := 0xC00B8000.

Definition set_cursor_pos (p : Z) : K unit :=
  modify (fun k => set_fb (FbState p (current_fg (k_fb k)) (current_bg (k_fb k))) k).

(** [(char)(((bg & 0x0F) << 4) | (fg & 0x0F))] *)
Definition attribute (fg bg : Z) : Z :=
  u8 (Z.lor (Z.shiftl (Z.land bg 0x0F) 4) (Z.land fg 0x0F)).

Definition fb_write_cell (offset c fg bg : Z) : K unit :=
  store8 (fb + offset) c ;;;
  store8 (fb + (offset + 1)) (attribute fg bg).

Definition fb_move_cursor (pos : Z) : K unit :=
  outb FB_COMMAND_PORT FB_HIGH_BYTE_COMMAND ;;;
  outb FB_DATA_PORT (u8 (Z.land (Z.shiftr pos 8) 0x00FF)) ;;;
  outb FB_COMMAND_PORT FB_LOW_BYTE_COMMAND ;;;
  outb FB_DATA_PORT (u8 (Z.land pos 0x00FF)).

(** The body of the two blanking loops. *)
Definition fb_blank (i : Z) : K unit :=
  s <- gets k_fb ;;
  store8 (fb + i) 32 ;;;
  store8 (fb + (i + 1)) (attribute (current_fg s) (current_bg s)).

Definition fb_scroll : K unit :=
  let move_bytes := (FB_NUM_ROWS - 1) * FB_NUM_COLS * 2 in
  for_up 0 move_bytes (fun i =>
    v <- load8 (fb + (i + FB_NUM_COLS * 2)) ;; store8 (fb + i) v) ;;;
  let last_row_start := (FB_NUM_ROWS - 1) * FB_NUM_COLS * 2 in
  let total_bytes := FB_NUM_ROWS * FB_NUM_COLS * 2 in
  for_up2 last_row_start total_bytes fb_blank ;;;
  set_cursor_pos ((FB_NUM_ROWS - 1) * FB_NUM_COLS).

Definition fb_clear : K unit :=
  let total_bytes := FB_NUM_ROWS * FB_NUM_COLS * 2 in
  for_up2 0 total_bytes fb_blank ;;;
  set_cursor_pos 0 ;;;
  s <- gets k_fb ;;
  fb_move_cursor (cursor_pos s).

Definition fb_set_color (fg bg : Z) : K unit :=
  modify (fun k => set_fb (FbState (cursor_pos (k_fb k)) fg bg) k).

(** [c] is the byte of the character: '\n' is 10, '\r' 13, '\t' 9, '\b' 8. *)
Definition fb_put_char (c : Z) : K unit :=
  s <- gets k_fb ;;
  let cursor := cursor_pos s in
  (if c =? 10 then
     set_cursor_pos (u16 ((cursor / FB_NUM_COLS + 1) * FB_NUM_COLS))
   else if c =? 13 then
     set_cursor_pos (u16 (cursor / FB_NUM_COLS * FB_NUM_COLS))
   else if c =? 9 then
     set_cursor_pos (u16 (Z.land (cursor + 8) (Z.lnot (8 - 1))))
   else if c =? 8 then
     when 0 <? cursor do
       (set_cursor_pos (u16 (cursor - 1)) ;;;
        fb_write_cell (u16 (cursor - 1) * 2) 32 (current_fg s) (current_bg s))
   else
     fb_write_cell (cursor * 2) c (current_fg s) (current_bg s) ;;;
     set_cursor_pos (u16 (cursor + 1))) ;;;
  s <- gets k_fb ;;
  (when FB_NUM_COLS * FB_NUM_ROWS <=? cursor_pos s do fb_scroll) ;;;
  s <- gets k_fb ;;
  fb_move_cursor (cursor_pos s).

Definition fb_write (buf : cbuf) (len : Z) : K Z :=
  for_up 0 len (fun i => c <- buf_get buf i ;; fb_put_char c) ;;;
  ret (s32 len).

Definition write (buf : cbuf) (len : Z) : K Z := fb_write buf len.

(** * The terminal it implements

    A screen of 2000 cells, a cursor and the two colours, with no memory and
    no ports: what a user of the console relies on. *)

Record term := Term {
  t_cells : list (Z * Z);
  t_cur : Z;
  t_fg : Z;
  t_bg : Z
}.

Definition cells_total : Z := FB_NUM_COLS * FB_NUM_ROWS.

Definition term_blank (t : term) : Z * Z := (32, attribute (t_fg t) (t_bg t)).

Definition term_scroll (t : term) : term :=
  if cells_total <=? t_cur t then
    Term (drop 80 (t_cells t) ++ replicate 80 (term_blank t)) (cells_total - FB_NUM_COLS) (t_fg t) (t_bg t)
  else t.

Definition term_goto (t : term) (p : Z) : term := Term (t_cells t) p (t_fg t) (t_bg t).
Definition term_set (t : term) (p c : Z) : term :=
  Term (<[Z.to_nat p := (c, attribute (t_fg t) (t_bg t))]> (t_cells t)) (t_cur t) (t_fg t) (t_bg t).

Definition term_put (t : term) (c : Z) : term :=
  let cur := t_cur t in
  term_scroll
    (if c =? 10 then term_goto t ((cur / 80 + 1) * 80)
     else if c =? 13 then term_goto t (cur / 80 * 80)
     else if c =? 9 then term_goto t ((cur / 8 + 1) * 8)
     else if c =? 8 then
       if 0 <? cur then term_goto (term_set t (cur - 1) 32) (cur - 1) else t
     else term_goto (term_set t cur c) (cur + 1)).

Definition term_write (t : term) (s : list Z) : term := fold_left term_put s t.
Definition term_clear (t : term) : term :=
  Term (replicate 2000 (term_blank t)) 0 (t_fg t) (t_bg t).

(** * Abstraction *)

(** The cells that the memory holds. *)
Definition cell_at (m : gmap Z Z) (i : Z) : Z * Z :=
  (byte_at m (fb + 2 * i), byte_at m (fb + (2 * i + 1))).
Definition cells_of (m : gmap Z Z) : list (Z * Z) := cell_at m <$> seqZ 0 2000.

Definition term_of (k : kernel) : term :=
  Term (cells_of (k_mem k)) (cursor_pos (k_fb k)) (current_fg (k_fb k)) (current_bg (k_fb k)).

(** The CRT controller: an index register and the two cursor registers, as
    the port writes of the trace leave them. *)
Record crtc := Crtc { crtc_index : Z; crtc_high : Z; crtc_low : Z }.
Fixpoint crtc_of (tr : trace) : crtc :=
  match tr with
  | [] => Crtc 0 0 0
  | Out p v :: tr' =>
      let s := crtc_of tr' in
      if p =? FB_COMMAND_PORT then Crtc v (crtc_high s) (crtc_low s)
      else if p =? FB_DATA_PORT then
        if crtc_index s =? FB_HIGH_BYTE_COMMAND then Crtc (crtc_index s) v (crtc_low s)
        else if crtc_index s =? FB_LOW_BYTE_COMMAND then Crtc (crtc_index s) (crtc_high s) v
        else s
      else s
  | _ :: tr' => crtc_of tr'
  end.
Definition hardware_cursor (tr : trace) : Z :=
  256 * crtc_high (crtc_of tr) + crtc_low (crtc_of tr).

(** The driver invariant: the window is mapped, the cursor is on screen and the
    hardware cursor is at the same place. *)
Record fb_ok (k : kernel) : Prop := FbOk {
  fb_mapped : mapped (k_mem k) fb 4000;
  fb_cursor : 0 <= cursor_pos (k_fb k) < cells_total;
  fb_sync : hardware_cursor (k_trace k) = cursor_pos (k_fb k)
}.
