(* ===== verification/FramebufferFacts.v ===== *)
(** The console driver refines the terminal, one routine at a time. *)
From S2P Require Import Prelude State Machine Framebuffer.

Ltac fb_consts :=
  change FB_NUM_COLS with 80 in *; change FB_NUM_ROWS with 25 in *;
  change cells_total with 2000 in *; change fb with 3221979136 in *.

(** * Cells and memory *)

Lemma cells_length m : length (cells_of m) = 2000%nat.
Proof. unfold cells_of. by rewrite length_fmap, length_seqZ. Qed.

Lemma cells_lookup m i :
  (i < 2000)%nat -> cells_of m !! i = Some (cell_at m (Z.of_nat i)).
Proof.
  intros Hi. unfold cells_of. rewrite list_lookup_fmap, lookup_seqZ_lt by lia. done.
Qed.

Lemma cells_eq m (l : list (Z * Z)) :
  length l = 2000%nat ->
  (forall i, 0 <= i < 2000 -> l !! Z.to_nat i = Some (cell_at m i)) -> cells_of m = l.
Proof.
  intros Hlen Hl. apply list_eq. intros i.
  destruct (decide (i < 2000)%nat) as [Hlt|Hge].
  - rewrite cells_lookup by done. rewrite <- (Hl (Z.of_nat i)) by lia. by rewrite Nat2Z.id.
  - rewrite !lookup_ge_None_2; [done|lia|rewrite cells_length; lia].
Qed.

Lemma cell_at_ext m m' i :
  m' !! (fb + 2 * i) = m !! (fb + 2 * i) -> m' !! (fb + (2 * i + 1)) = m !! (fb + (2 * i + 1)) ->
  cell_at m' i = cell_at m i.
Proof. intros H1 H2. unfold cell_at, byte_at. by rewrite H1, H2. Qed.

(** The screen is a function of the memory window and of the console state. *)
Lemma term_same k k' :
  k_fb k' = k_fb k -> (forall x, fb <= x < fb + 4000 -> k_mem k' !! x = k_mem k !! x) -> term_of k' = term_of k.
Proof.
  intros Hf Hm. unfold term_of. rewrite Hf. f_equal. unfold cells_of. apply list_fmap_ext.
  intros i x Hx. apply lookup_seqZ in Hx as [-> Hx]. apply cell_at_ext; apply Hm; lia.
Qed.

Lemma fb_ok_same k k' :
  k_fb k' = k_fb k -> k_trace k' = k_trace k -> (forall x, fb <= x < fb + 4000 -> k_mem k' !! x = k_mem k !! x) ->
  fb_ok k -> fb_ok k'.
Proof.
  intros Hf Ht Hm []. constructor; rewrite ?Hf, ?Ht; try done. intros i Hi. rewrite Hm by lia. by apply fb_mapped.
Qed.

(** * fb_write_cell *)

Definition put_cell (m : gmap Z Z) (p c fg bg : Z) : gmap Z Z :=
  <[fb + (p * 2 + 1) := attribute fg bg]> (<[fb + p * 2 := u8 c]> m).

Lemma attribute_u8 fg bg : is_u8 (attribute fg bg).
Proof. apply u8_range. Qed.

Lemma fb_write_cell_eq k p c fg bg :
  mapped (k_mem k) fb 4000 -> 0 <= p < 2000 ->
  fb_write_cell (p * 2) c fg bg k = Ok (tt, set_mem (put_cell (k_mem k) p c fg bg) k).
Proof.
  intros Hm Hp. unfold fb_write_cell, bind.
  destruct (mapped_lookup _ _ _ (fb + p * 2) Hm) as (v & Hv & _); [lia|].
  destruct (mapped_lookup _ _ _ (fb + (p * 2 + 1)) Hm) as (w & Hw & _); [lia|].
  rewrite (store8_eq _ _ _ v) by (done || (fb_consts; word_solve)).
  rewrite (store8_eq _ _ _ w).
  - unfold put_cell. by rewrite (u8_small (attribute fg bg)) by apply attribute_u8.
  - fb_consts. word_solve.
  - simpl. by rewrite lookup_insert_ne by lia.
Qed.

Lemma put_cell_mapped m p c fg bg a n : mapped m a n -> mapped (put_cell m p c fg bg) a n.
Proof. intros Hm. apply mapped_insert, attribute_u8. apply mapped_insert, u8_range. done. Qed.

Lemma put_cell_differ m p c fg bg :
  0 <= p < 2000 -> only_differ m (put_cell m p c fg bg) fb 4000.
Proof.
  intros Hp. eapply only_differ_trans; apply only_differ_insert; lia.
Qed.

Lemma put_cell_cells m p c fg bg :
  0 <= p < 2000 ->
  cells_of (put_cell m p c fg bg) = <[Z.to_nat p := (u8 c, attribute fg bg)]> (cells_of m).
Proof.
  intros Hp. apply cells_eq; [by rewrite length_insert, cells_length|].
  intros i Hi. destruct (decide (i = p)) as [->|Hne].
  - rewrite list_lookup_insert_eq by (rewrite cells_length; lia).
    unfold cell_at, byte_at, put_cell.
    rewrite lookup_insert_ne by lia. replace (2 * p) with (p * 2) by lia.
    by rewrite !lookup_insert_eq.
  - rewrite list_lookup_insert_ne, cells_lookup by lia. rewrite Z2Nat.id by lia. f_equal.
    symmetry. apply cell_at_ext; unfold put_cell; by rewrite !lookup_insert_ne by lia.
Qed.

(** * Blanking and copying loops *)

(** The memory after blanking the cells of [[a, b)]. *)
Definition blanked (m m' : gmap Z Z) (a b att : Z) : Prop :=
  only_differ m m' (fb + 2 * a) (2 * (b - a)) /\
  forall i, a <= i < b -> m' !! (fb + 2 * i) = Some 32 /\ m' !! (fb + (2 * i + 1)) = Some att.

Lemma blank_loop_wp k a b :
  mapped (k_mem k) fb 4000 -> 0 <= a <= b -> b <= 2000 ->
  exists m', for_up2 (2 * a) (2 * b) fb_blank k = Ok (tt, set_mem m' k) /\
    mapped m' fb 4000 /\
    blanked (k_mem k) m' a b (attribute (current_fg (k_fb k)) (current_bg (k_fb k))).
Proof.
  intros Hm Hab Hb. set (att := attribute (current_fg (k_fb k)) (current_bg (k_fb k))).
  set (I := fun i k' => exists m', k' = set_mem m' k /\ mapped m' fb 4000 /\
    blanked (k_mem k) m' a (i / 2) att).
  assert (wp (for_up2 (2 * a) (2 * b) fb_blank) (fun _ => I (2 * b)) k)
    as ([] & k' & Hrun & m' & -> & Hm' & Hbl).
  2: { exists m'. replace (2 * b / 2) with b in Hbl by word_solve. by split_and!. }
  unfold for_up2. eapply wp_mono; [apply (wp_for_loop I)|].
  - exists (k_mem k). split_and!; [by destruct k|done|]. replace (2 * a / 2) with a by word_solve.
    split; [intros x Hx; done|lia].
  - intros j k' Hj (m' & -> & Hm' & Hd & Hv). unfold fb_blank. wp_steps. simpl.
    replace ((2 * a + 2 * j) / 2) with (a + j) in * by word_solve.
    assert (a + j < b) by word_solve.
    destruct (mapped_lookup _ _ _ (fb + (2 * a + 2 * j)) Hm') as (v & Hvv & _); [lia|].
    destruct (mapped_lookup _ _ _ (fb + (2 * a + 2 * j + 1)) Hm') as (w & Hw & _); [lia|].
    eapply wp_store8; [fb_consts; word_solve|done|].
    eapply wp_store8; [fb_consts; word_solve|simpl; by rewrite lookup_insert_ne by lia|]. simpl.
    rewrite (u8_small 32), (u8_small (attribute _ _)) by (apply attribute_u8 || word_solve).
    eexists. split_and!; [done| |].
    + apply mapped_insert, attribute_u8. apply mapped_insert; [done|word_solve].
    + replace ((2 * a + 2 * (j + 1)) / 2) with (a + j + 1) by word_solve. split.
      * intros x Hx. rewrite !lookup_insert_ne by lia. apply Hd. lia.
      * intros i Hi. destruct (decide (i = a + j)) as [->|Hne].
        -- rewrite lookup_insert_ne by lia.
           replace (2 * (a + j)) with (2 * a + 2 * j) by lia. by rewrite !lookup_insert_eq.
        -- rewrite !lookup_insert_ne by lia. apply Hv. lia.
  - intros [] k' HI. simpl in HI.
    replace (2 * a + 2 * Z.of_nat (Z.to_nat ((2 * b - 2 * a + 1) / 2))) with (2 * b) in HI by word_solve. done.
Qed.

(** The copy loop of [fb_scroll] moves every row up by one. *)
Lemma scroll_loop_wp k :
  mapped (k_mem k) fb 4000 ->
  exists m', for_up 0 3840 (fun i => v <- load8 (fb + (i + 160)) ;; store8 (fb + i) v) k
    = Ok (tt, set_mem m' k) /\ mapped m' fb 4000 /\
    only_differ (k_mem k) m' fb 3840 /\
    (forall i, 0 <= i < 3840 -> m' !! (fb + i) = k_mem k !! (fb + (i + 160))).
Proof.
  intros Hm.
  set (I := fun i k' => exists m', k' = set_mem m' k /\ mapped m' fb 4000 /\
    only_differ (k_mem k) m' fb i /\
    (forall j, 0 <= j < i -> m' !! (fb + j) = k_mem k !! (fb + (j + 160)))).
  assert (wp (for_up 0 3840 (fun i => v <- load8 (fb + (i + 160)) ;; store8 (fb + i) v)) (fun _ => I 3840) k)
    as ([] & k' & Hrun & m' & -> & H1 & H2 & H3); [|by exists m'].
  apply wp_for_up; [done| |].
  - exists (k_mem k). split_and!; [by destruct k|done|apply only_differ_refl|lia].
  - intros i k' Hi (m' & -> & Hm' & Hd & Hv).
    destruct (mapped_lookup _ _ _ (fb + (i + 160)) Hm) as (v & Hvv & Hvr); [lia|].
    destruct (mapped_lookup _ _ _ (fb + i) Hm') as (w & Hw & _); [lia|].
    apply wp_bind. eapply wp_load8; [fb_consts; word_solve|simpl; rewrite Hd by lia; done|].
    eapply wp_store8; [fb_consts; word_solve|done|]. rewrite (u8_small v) by done.
    eexists. split_and!; [done|by apply mapped_insert| |].
    + eapply only_differ_trans; [eapply only_differ_weaken; [apply Hd|lia|lia]|].
      apply only_differ_insert. lia.
    + intros j Hj. simpl. destruct (decide (j = i)) as [->|]; [by rewrite lookup_insert_eq, Hvv|].
      rewrite lookup_insert_ne by lia. apply Hv. lia.
Qed.

(** * Scrolling *)

Lemma fb_scroll_wp k :
  mapped (k_mem k) fb 4000 ->
  exists m', fb_scroll k
    = Ok (tt, set_fb (FbState 1920 (current_fg (k_fb k)) (current_bg (k_fb k))) (set_mem m' k)) /\
    mapped m' fb 4000 /\ only_differ (k_mem k) m' fb 4000 /\
    cells_of m' = drop 80 (cells_of (k_mem k)) ++ replicate 80 (term_blank (term_of k)).
Proof.
  intros Hm. destruct (scroll_loop_wp k Hm) as (m1 & Hrun1 & Hm1 & Hd1 & Hv1).
  destruct (blank_loop_wp (set_mem m1 k) 1920 2000) as (m2 & Hrun2 & Hm2 & Hd2 & Hv2); [done|lia..|].
  exists m2. split_and!; [|done| |].
  - unfold fb_scroll. change ((FB_NUM_ROWS - 1) * FB_NUM_COLS * 2) with 3840.
    change (FB_NUM_ROWS * FB_NUM_COLS * 2) with 4000. change (FB_NUM_COLS * 2) with 160.
    rewrite (bind_ok _ _ _ _ _ Hrun1).
    change (2 * 1920) with 3840 in Hrun2. change (2 * 2000) with 4000 in Hrun2.
    by rewrite (bind_ok _ _ _ _ _ Hrun2).
  - eapply only_differ_trans; [eapply only_differ_weaken; [apply Hd1|lia|lia]|].
    eapply only_differ_weaken; [apply Hd2|lia|lia].
  - apply cells_eq; [by rewrite length_app, length_drop, length_replicate, cells_length|].
    intros i Hi. destruct (decide (i < 1920)) as [Hlt|Hge].
    + rewrite lookup_app_l by (rewrite length_drop, cells_length; lia).
      rewrite lookup_drop, cells_lookup by lia. f_equal. unfold cell_at, byte_at.
      rewrite !Hd2, !Hv1 by (simpl; lia).
      replace (2 * Z.of_nat (80 + Z.to_nat i)) with (2 * i + 160) by lia.
      by replace (2 * i + 160 + 1) with (2 * i + 1 + 160) by lia.
    + rewrite lookup_app_r by (rewrite length_drop, cells_length; lia).
      rewrite length_drop, cells_length, lookup_replicate_2 by lia.
      destruct (Hv2 i) as [H1 H2]; [lia|]. unfold cell_at, byte_at. by rewrite H1, H2.
Qed.

(** * The hardware cursor *)

Definition cursor_events (pos : Z) : trace :=
  [Out FB_DATA_PORT (u8 pos); Out FB_COMMAND_PORT FB_LOW_BYTE_COMMAND;
   Out FB_DATA_PORT (u8 (pos / 256)); Out FB_COMMAND_PORT FB_HIGH_BYTE_COMMAND].

Lemma fb_move_cursor_eq pos k :
  fb_move_cursor pos k = Ok (tt, set_trace (cursor_events pos ++ k_trace k) k).
Proof.
  unfold fb_move_cursor, bind, outb, modify. cbn [k_trace set_trace].
  change 0x00FF with 0xFF. rewrite !land_255, !u8_u8, Z.shiftr_div_pow2 by done. done.
Qed.

Lemma hardware_cursor_events pos tr :
  is_u16 pos -> hardware_cursor (cursor_events pos ++ tr) = pos.
Proof. intros Hp. unfold hardware_cursor. cbn. word_solve. Qed.

(** Events on the CRT controller ports only. *)
Definition crtc_event (e : io_event) : Prop :=
  exists p v, e = Out p v /\ (p = FB_COMMAND_PORT \/ p = FB_DATA_PORT).

Lemma cursor_events_crtc pos : Forall crtc_event (cursor_events pos).
Proof. repeat constructor; eexists _, _; (split; [done|]); auto. Qed.

(** * Routines on the terminal

    [fb_step k k' t]: from [k] the driver reached [k'], which shows the terminal
    [t]; only the window, the driver's variables and the CRT controller changed. *)
Record fb_step (k k' : kernel) (t : term) : Prop := FbStep {
  step_ok : fb_ok k';
  step_term : term_of k' = t;
  step_mem : only_differ (k_mem k) (k_mem k') fb 4000;
  step_frame : k' = set_trace (k_trace k') (set_fb (k_fb k') (set_mem (k_mem k') k));
  step_trace : exists evs, k_trace k' = evs ++ k_trace k /\ Forall crtc_event evs
}.

(** The end of [fb_put_char]: scroll if needed, then move the cursor. *)
Definition fb_finish : K unit :=
  s <- gets k_fb ;;
  (when FB_NUM_COLS * FB_NUM_ROWS <=? cursor_pos s do fb_scroll) ;;;
  s <- gets k_fb ;;
  fb_move_cursor (cursor_pos s).

Lemma fb_finish_wp k0 k :
  mapped (k_mem k) fb 4000 -> 0 <= cursor_pos (k_fb k) <= 2000 ->
  only_differ (k_mem k0) (k_mem k) fb 4000 ->
  k = set_fb (k_fb k) (set_mem (k_mem k) k0) ->
  wp fb_finish (fun _ k' => fb_step k0 k' (term_scroll (term_of k))) k.
Proof.
  intros Hm Hc Hd Hk. unfold fb_finish. wp_steps. fb_consts. change (80 * 25) with 2000.
  assert (k_trace k = k_trace k0) as Htr by (by rewrite Hk).
  destruct (Z.leb_spec 2000 (cursor_pos (k_fb k))) as [Hge|Hlt].
  - destruct (fb_scroll_wp k Hm) as (m' & Hrun & Hm' & Hd' & Hcells).
    apply (wp_eq _ _ _ _ _ Hrun). wp_steps. eapply wp_eq; [apply fb_move_cursor_eq|].
    unfold term_scroll. fb_consts. simpl t_cur. rewrite (proj2 (Z.leb_le _ _) Hge).
    constructor; simpl.
    + constructor; simpl; [done|fb_consts; lia|by apply hardware_cursor_events].
    + unfold term_of. simpl. by rewrite Hcells.
    + by eapply only_differ_trans.
    + by rewrite Hk.
    + rewrite Htr. exists (cursor_events 1920). split; [done|apply cursor_events_crtc].
  - wp_steps. eapply wp_eq; [apply fb_move_cursor_eq|].
    unfold term_scroll. fb_consts. simpl t_cur. rewrite (proj2 (Z.leb_gt _ _) Hlt).
    constructor; simpl.
    + constructor; simpl; [done|fb_consts; lia|apply hardware_cursor_events; word_solve].
    + done.
    + done.
    + by rewrite Hk.
    + rewrite Htr. eexists (cursor_events _). split; [done|apply cursor_events_crtc].
Qed.

Lemma tab_stop c : 0 <= c -> Z.land (c + 8) (Z.lnot (8 - 1)) = (c / 8 + 1) * 8.
Proof.
  intros Hc. change (8 - 1) with (Z.ones 3).
  rewrite <- Z.ldiff_land, Z.ldiff_ones_r, Z.shiftr_div_pow2, Z.shiftl_mul_pow2 by lia.
  change (2 ^ 3) with 8. word_solve.
Qed.

Lemma fb_put_char_wp k c :
  fb_ok k -> is_u8 c -> wp (fb_put_char c) (fun _ k' => fb_step k k' (term_put (term_of k) c)) k.
Proof.
  intros [Hm Hc _] Hu. unfold fb_put_char. wp_steps. fold fb_finish. unfold term_put. simpl t_cur.
  fb_consts. set (cur := cursor_pos (k_fb k)) in *.
  assert (forall p, 0 <= p <= 2000 -> wp fb_finish
    (fun _ k' => fb_step k k' (term_scroll (term_goto (term_of k) p)))
    (set_fb (FbState p (current_fg (k_fb k)) (current_bg (k_fb k))) k)) as Hgoto.
  { intros p Hp. change (term_goto (term_of k) p) with
      (term_of (set_fb (FbState p (current_fg (k_fb k)) (current_bg (k_fb k))) k)).
    apply fb_finish_wp; [done|done|apply only_differ_refl|by destruct k]. }
  assert (forall p c', 0 <= p < 2000 -> is_u8 c' -> forall q, 0 <= q <= 2000 -> wp fb_finish
    (fun _ k' => fb_step k k' (term_scroll (term_goto (term_set (term_of k) p c') q)))
    (set_fb (FbState q (current_fg (k_fb k)) (current_bg (k_fb k)))
       (set_mem (put_cell (k_mem k) p c' (current_fg (k_fb k)) (current_bg (k_fb k))) k))) as Hput.
  { intros p c' Hp Hc' q Hq.
    replace (term_goto (term_set (term_of k) p c') q) with
      (term_of (set_fb (FbState q (current_fg (k_fb k)) (current_bg (k_fb k)))
         (set_mem (put_cell (k_mem k) p c' (current_fg (k_fb k)) (current_bg (k_fb k))) k))).
    2: { unfold term_of, term_goto, term_set. simpl. by rewrite put_cell_cells, (u8_small c') by done. }
    apply fb_finish_wp; [by apply put_cell_mapped|done|by apply put_cell_differ|by destruct k]. }
  repeat case_bool.
  - wp_steps. apply wp_modify. rewrite u16_small by word_solve. apply Hgoto. word_solve.
  - wp_steps. apply wp_modify. rewrite u16_small by word_solve. apply Hgoto. word_solve.
  - wp_steps. apply wp_modify. rewrite tab_stop by lia. rewrite u16_small by word_solve.
    apply Hgoto. word_solve.
  - apply wp_bind. apply wp_modify. rewrite u16_small by word_solve.
    eapply wp_eq; [apply fb_write_cell_eq; [done|lia]|]. apply (Hput (cur - 1) 32); word_solve.
  - wp_steps. pose proof (Hgoto cur ltac:(lia)) as H0. unfold cur in H0 at 2.
    by destruct k as [? ? ? [] ? ? ? ? ? ?].
  - apply wp_bind. eapply wp_eq; [apply fb_write_cell_eq; [done|lia]|].
    apply wp_modify. rewrite u16_small by word_solve. apply (Hput cur c); [lia|done|lia].
Qed.

(** * Strings *)

Lemma fb_step_refl k : fb_ok k -> fb_step k k (term_of k).
Proof.
  intros Hok. constructor; [done|done|apply only_differ_refl|by destruct k|by exists []].
Qed.

Lemma fb_step_trans k1 k2 k3 t2 t3 : fb_step k1 k2 t2 -> fb_step k2 k3 t3 -> fb_step k1 k3 t3.
Proof.
  intros [_ _ Hm1 Hf1 (e1 & Ht1 & He1)] [Hok2 Hterm2 Hm2 Hf2 (e2 & Ht2 & He2)].
  constructor; [done|done|by eapply only_differ_trans| |].
  - rewrite Hf2 at 1. rewrite Hf1. by destruct k1, k2, k3.
  - exists (e2 ++ e1). rewrite Ht2, Ht1, app_assoc. split; [done|by apply Forall_app_2].
Qed.

(** The buffer is not part of the framebuffer. *)
Definition buf_apart (buf : cbuf) (n : nat) : Prop :=
  match buf with
  | Ptr a => a + Z.of_nat n <= fb \/ fb + 4000 <= a
  | Lit _ => True
  end.

(** The buffer holds the bytes [s], outside the framebuffer itself. *)
Definition buf_holds (m : gmap Z Z) (buf : cbuf) (s : list Z) : Prop :=
  buf_reads m buf s /\ buf_apart buf (length s).

Lemma buf_holds_lit m s : buf_holds m (Lit s) s.
Proof. split; [apply buf_reads_lit|done]. Qed.

Lemma buf_holds_ext m m' buf s :
  only_differ m m' fb 4000 -> buf_holds m buf s -> buf_holds m' buf s.
Proof.
  intros Hd [Hr Ha]. split; [|done]. destruct buf as [a|l]; [|done]. intros i c Hc.
  destruct (Hr i c Hc) as (H1 & H2). split; [|done]. apply lookup_lt_Some in Hc.
  rewrite Hd; [done|]. simpl in Ha. lia.
Qed.

Lemma term_write_app t s1 s2 : term_write t (s1 ++ s2) = term_write (term_write t s1) s2.
Proof. apply fold_left_app. Qed.

Lemma fb_write_wp k buf s :
  fb_ok k -> buf_holds (k_mem k) buf s -> Forall is_u8 s ->
  wp (fb_write buf (Z.of_nat (length s)))
    (fun r k' => r = s32 (Z.of_nat (length s)) /\ fb_step k k' (term_write (term_of k) s)) k.
Proof.
  intros Hok Hbuf Hu. unfold fb_write. apply wp_bind.
  set (I := fun i k' => fb_step k k' (term_write (term_of k) (take (Z.to_nat i) s))).
  eapply wp_mono; [apply (wp_for_up I); [lia|by apply fb_step_refl|]|].
  - intros i k' Hi Hstep.
    destruct (lookup_lt_is_Some_2 s (Z.to_nat i)) as [c Hc]; [lia|].
    apply wp_bind. eapply wp_eq.
    { eapply buf_get_reads; [eapply buf_holds_ext; [apply (step_mem _ _ _ Hstep)|done]|done|lia]. }
    eapply wp_mono; [apply fb_put_char_wp; [apply (step_ok _ _ _ Hstep)|by eapply Forall_lookup_1]|].
    intros [] k2 Hstep2. unfold I. replace (Z.to_nat (i + 1)) with (S (Z.to_nat i)) by lia.
    rewrite (take_S_r _ _ c), term_write_app by done. simpl.
    rewrite <- (step_term _ _ _ Hstep). by eapply fb_step_trans.
  - intros [] k' Hstep. apply wp_ret. split; [done|].
    unfold I in Hstep. by rewrite Nat2Z.id, firstn_all in Hstep.
Qed.

Lemma fb_clear_wp k :
  mapped (k_mem k) fb 4000 ->
  wp fb_clear (fun _ k' => fb_step k k' (term_clear (term_of k))) k.
Proof.
  intros Hm. destruct (blank_loop_wp k 0 2000) as (m' & Hrun & Hm' & Hd & Hv); [done|lia..|].
  unfold fb_clear. change (FB_NUM_ROWS * FB_NUM_COLS * 2) with (2 * 2000). change 0 with (2 * 0) at 1.
  apply wp_bind, (wp_eq _ _ _ _ _ Hrun), wp_bind, wp_modify. wp_steps.
  eapply wp_eq; [apply fb_move_cursor_eq|]. constructor; simpl.
  - constructor; simpl; [done|fb_consts; lia|by apply hardware_cursor_events].
  - unfold term_of, term_clear. cbn [k_mem k_fb set_trace set_fb set_mem cursor_pos].
    f_equal. apply cells_eq; [by rewrite length_replicate|].
    intros i Hi. rewrite lookup_replicate_2 by lia. f_equal.
    destruct (Hv i Hi) as [H1 H2]. unfold cell_at, byte_at. by rewrite H1, H2.
  - eapply only_differ_weaken; [apply Hd|lia|lia].
  - by destruct k.
  - eexists (cursor_events _). split; [done|apply cursor_events_crtc].
Qed.

Lemma fb_set_color_wp k fg bg :
  fb_ok k ->
  wp (fb_set_color fg bg) (fun _ k' => fb_step k k' (Term (t_cells (term_of k)) (t_cur (term_of k)) fg bg)) k.
Proof.
  intros [Hm Hc Hs]. apply wp_modify. constructor; simpl;
    [by constructor|done|apply only_differ_refl|by destruct k|by exists []].
Qed.
