(* ===== verification/FramebufferProps.v ===== *)
(** The correctness of the console driver, stated for drivers/framebuffer.c. *)
From S2P Require Import Prelude State Machine Image Framebuffer FramebufferFacts.

(** C21. The console refines the terminal: [fb_write] of a string returns, the
    cells, cursor and colours are then those of the terminal after the same
    string, the cursor is on screen and the hardware cursor with it, and no byte
    outside the 4000 of the window has changed. *)
Theorem fb_write_refines_terminal k buf s :
  fb_ok k -> buf_holds (k_mem k) buf s -> Forall is_u8 s -> Z.of_nat (length s) < 2147483648 ->
  exists k', fb_write buf (Z.of_nat (length s)) k = Ok (Z.of_nat (length s), k') /\
    term_of k' = term_write (term_of k) s /\ fb_ok k' /\
    only_differ (k_mem k) (k_mem k') fb 4000.
Proof.
  intros Hok Hbuf Hu Hlen.
  destruct (fb_write_wp k buf s Hok Hbuf Hu) as (r & k' & Hrun & -> & [Hok' Ht Hm _ _]).
  exists k'. by rewrite s32_small in Hrun by lia.
Qed.

(** [fb_clear] needs nothing but a mapped window: it blanks every cell in
    the current colours and brings both cursors to the top left corner. *)
Theorem fb_clear_blanks k :
  mapped (k_mem k) fb 4000 ->
  exists k', fb_clear k = Ok (tt, k') /\ fb_ok k' /\ term_of k' = term_clear (term_of k) /\
    cursor_pos (k_fb k') = 0 /\ hardware_cursor (k_trace k') = 0 /\
    only_differ (k_mem k) (k_mem k') fb 4000.
Proof.
  intros Hm. destruct (fb_clear_wp k Hm) as ([] & k' & Hrun & [Hok Ht Hmem _ _]).
  assert (cursor_pos (k_fb k') = 0) as Hc by (change (t_cur (term_of k') = 0); by rewrite Ht).
  exists k'. split_and!; try done. by rewrite (fb_sync _ Hok).
Qed.

(** A line feed on the last row scrolls: every row moves up by one, the last
    row is blank and the cursor is at its first column. *)
Theorem line_feed_scrolls k :
  fb_ok k -> 1920 <= cursor_pos (k_fb k) ->
  exists k', fb_put_char 10 k = Ok (tt, k') /\ fb_ok k' /\ cursor_pos (k_fb k') = 1920 /\
    (forall i, 0 <= i < 1920 -> cell_at (k_mem k') i = cell_at (k_mem k) (i + 80)) /\
    (forall i, 1920 <= i < 2000 ->
       cell_at (k_mem k') i = (32, attribute (current_fg (k_fb k)) (current_bg (k_fb k)))).
Proof.
  intros Hok Hc. pose proof (fb_cursor _ Hok) as Hc'. fb_consts.
  destruct (fb_put_char_wp k 10 Hok) as ([] & k' & Hrun & [Hok' Ht _ _ _]); [word_solve|].
  exists k'.
  assert (term_put (term_of k) 10 = Term (drop 80 (cells_of (k_mem k)) ++ replicate 80 (term_blank (term_of k)))
    1920 (current_fg (k_fb k)) (current_bg (k_fb k))) as Heq.
  { unfold term_put, term_scroll, term_goto. cbn [Z.eqb Pos.eqb t_cur term_of]. fb_consts.
    by rewrite (proj2 (Z.leb_le 2000 _)) by word_solve. }
  rewrite Heq in Ht.
  pose proof (f_equal t_cells Ht) as Hcells. pose proof (f_equal t_cur Ht) as Hcur.
  cbn [t_cells t_cur term_of] in Hcells, Hcur.
  assert (forall i, 0 <= i < 2000 -> cells_of (k_mem k') !! Z.to_nat i = Some (cell_at (k_mem k') i)) as Hl.
  { intros i Hi. rewrite cells_lookup, Z2Nat.id by lia. done. }
  split_and!; [done|done|done| |]; intros i Hi; specialize (Hl i ltac:(lia)); rewrite Hcells in Hl.
  - rewrite lookup_app_l in Hl by (rewrite length_drop, cells_length; lia).
    rewrite lookup_drop, cells_lookup in Hl by lia. apply (inj Some) in Hl. symmetry.
    by replace (Z.of_nat (80 + Z.to_nat i)) with (i + 80) in Hl by lia.
  - rewrite lookup_app_r in Hl by (rewrite length_drop, cells_length; lia).
    rewrite length_drop, cells_length, lookup_replicate_2 in Hl by lia. apply (inj Some) in Hl. by rewrite <- Hl.
Qed.

(** Backspace undoes a printable character: writing a character and then
    '\b' leaves the cursor where it was and a blank in its cell, provided the
    character did not fall on the very last cell. *)
Theorem backspace_erases k c :
  fb_ok k -> 32 <= c < 127 -> cursor_pos (k_fb k) < 1999 ->
  exists k', fb_write (Lit [c; 8]) 2 k = Ok (2, k') /\ fb_ok k' /\
    cursor_pos (k_fb k') = cursor_pos (k_fb k) /\
    t_cells (term_of k')
    = <[Z.to_nat (cursor_pos (k_fb k)) := (32, attribute (current_fg (k_fb k)) (current_bg (k_fb k)))]>
        (cells_of (k_mem k)).
Proof.
  intros Hok Hch Hc. pose proof (fb_cursor _ Hok) as Hc'. fb_consts.
  destruct (fb_write_wp k (Lit [c; 8]) [c; 8] Hok (buf_holds_lit _ _)) as (r & k' & Hrun & -> & [Hok' Ht _ _ _]);
    [repeat constructor; word_solve|].
  exists k'. rewrite Ht. split_and!; [done|done| |].
  all: change (cursor_pos (k_fb k')) with (t_cur (term_of k')) || idtac; rewrite ?Ht;
    unfold term_write, fold_left, term_put at 2, term_scroll, term_goto, term_set;
    cbn [t_cur t_fg t_bg t_cells term_of]; fb_consts;
    rewrite !(proj2 (Z.eqb_neq c _)) by lia; cbn [t_cur t_fg t_bg t_cells];
    rewrite (proj2 (Z.leb_gt 2000 (cursor_pos (k_fb k) + 1))) by lia;
    unfold term_put, term_scroll, term_goto, term_set; cbn [t_cur t_fg t_bg t_cells Z.eqb Pos.eqb];
    rewrite (proj2 (Z.ltb_lt 0 _)) by lia; fb_consts; cbn [t_cur t_fg t_bg t_cells];
    rewrite (proj2 (Z.leb_gt 2000 _)) by lia; cbn [t_cur t_fg t_bg t_cells].
  - lia.
  - replace (cursor_pos (k_fb k) + 1 - 1) with (cursor_pos (k_fb k)) by lia. apply list_insert_insert_eq.
Qed.

(** * Instances *)

Lemma sample_fb_ok : fb_ok sample_kernel.
Proof. constructor; [by apply zero_mem_mapped|done|done]. Qed.

Lemma fb_write_refines_terminal_witness :
  exists k', fb_write (Lit [72; 105; 10]) 3 sample_kernel = Ok (3, k') /\
    term_of k' = term_write (term_of sample_kernel) [72; 105; 10].
Proof.
  destruct (fb_write_refines_terminal sample_kernel (Lit [72; 105; 10]) [72; 105; 10] sample_fb_ok
    (buf_holds_lit _ _)) as (k' & H1 & H2 & _).
  - repeat constructor; discriminate.
  - reflexivity.
  - exists k'. auto.
Defined.

Lemma fb_clear_blanks_witness :
  exists k', fb_clear sample_kernel = Ok (tt, k') /\ cursor_pos (k_fb k') = 0.
Proof.
  destruct (fb_clear_blanks sample_kernel (fb_mapped _ sample_fb_ok)) as (k' & H1 & _ & _ & H2 & _).
  exists k'. auto.
Defined.

(** The sample kernel with the cursor on the last row. *)
Definition sample_last_row : kernel :=
  set_trace (cursor_events 1930) (set_fb (FbState 1930 15 0) sample_kernel).

Lemma sample_last_row_ok : fb_ok sample_last_row.
Proof. constructor; [by apply zero_mem_mapped|done|done]. Qed.

Lemma line_feed_scrolls_witness :
  exists k', fb_put_char 10 sample_last_row = Ok (tt, k') /\ cursor_pos (k_fb k') = 1920.
Proof.
  destruct (line_feed_scrolls sample_last_row sample_last_row_ok) as (k' & H1 & _ & H2 & _).
  - discriminate.
  - exists k'. auto.
Defined.

Lemma backspace_erases_witness :
  exists k', fb_write (Lit [65; 8]) 2 sample_kernel = Ok (2, k') /\ cursor_pos (k_fb k') = 0.
Proof.
  destruct (backspace_erases sample_kernel 65 sample_fb_ok) as (k' & H1 & _ & H2 & _).
  - split; [discriminate|reflexivity].
  - reflexivity.
  - exists k'. auto.
Defined.
