(* ===== verification/Isr.v ===== *)
(** The interrupt handler table of arch/x86/cpu/isr.c.

    A C function pointer stored in [interrupt_handlers] is one of the handlers
    the drivers register, or null; the dispatcher is in Interrupt.v. *)
From S2P Require Import Prelude State Machine.

Definition register_interrupt_handler (n : Z) (handler : isr_handler) : K unit :=
  t <- gets k_isr ;;
  t' <- from_option (arr_set t (u8 n) handler) ;;
  modify (set_isr t').

Lemma register_interrupt_handler_eq k n h :
  length (k_isr k) = 256%nat ->
  register_interrupt_handler n h k
  = Ok (tt, set_isr (<[Z.to_nat (u8 n) := h]> (k_isr k)) k).
Proof.
  intros Hlen. unfold register_interrupt_handler, bind, gets.
  rewrite arr_set_Some; [done|]. rewrite Hlen. apply u8_range.
Qed.
