(* ===== verification/Keyboard.v ===== *)
(** The PS/2 keyboard driver: drivers/keyboard.c.

    Scancodes read by the interrupt handler are decoded with the two tables and
    queued in a ring buffer of 256 characters. *)
From S2P Require Import Prelude State Machine Isr.

(** * Tables *)

(** Scancode Set 1 to unshifted ASCII. *)
Definition kbd_us_ascii : list Z :=
  [0; 27; 49; 50; 51; 52; 53; 54; 55; 56; 57; 48; 45; 61; 8;
   9;
   113; 119; 101; 114; 116; 121; 117; 105; 111; 112; 91; 93; 10;
   0;
   97; 115; 100; 102; 103; 104; 106; 107; 108; 59; 39; 96;
   0;
   92; 122; 120; 99; 118; 98; 110; 109; 44; 46; 47;
   0;
   42;
   0;
   32;
   0;
   0; 0; 0; 0; 0; 0; 0; 0; 0; 0;
   0;
   0;
   0; 0; 0; 45; 0; 0; 0; 43; 0; 0; 0; 0; 0; 0; 0; 0; 0; 0; 0]
  ++ replicate 38 0.

(** Scancode Set 1 to shifted ASCII. *)
Definition kbd_us_ascii_shift : list Z :=
  [0; 27; 33; 64; 35; 36; 37; 94; 38; 42; 40; 41; 95; 43; 8;
   9;
   81; 87; 69; 82; 84; 89; 85; 73; 79; 80; 123; 125; 10;
   0;
   65; 83; 68; 70; 71; 72; 74; 75; 76; 58; 34; 126;
   0;
   124; 90; 88; 67; 86; 66; 78; 77; 60; 62; 63;
   0;
   42;
   0;
   32;
   0;
   0; 0; 0; 0; 0; 0; 0; 0; 0; 0;
   0;
   0;
   0; 0; 0; 45; 0; 0; 0; 43; 0; 0; 0; 0; 0; 0; 0; 0; 0; 0; 0]
  ++ replicate 38 0.

Definition KBD_DATA_PORT : Z := 0x60.
Definition KBD_STATUS_PORT : Z := 0x64.

(** * Operations *)

Section Keyboard.
Context `{Env} `{PollFuel}.

Definition read_scan_code : K Z := inb KBD_DATA_PORT.

Definition keyboard_put_char (c : Z) : K unit :=
  s <- gets k_kbd ;;
  when kbd_buf_count s <? KBD_BUFFER_SIZE do
    (buf <- from_option (arr_set (kbd_buffer s) (kbd_buf_tail s) (u8 c)) ;;
     modify (set_kbd (KbdState (shift_active s) buf (kbd_buf_head s)
       (u32 (kbd_buf_tail s + 1) mod KBD_BUFFER_SIZE) (u32 (kbd_buf_count s + 1))))).

Definition keyboard_has_char : K bool :=
  s <- gets k_kbd ;;
  ret (0 <? kbd_buf_count s).

Definition keyboard_getchar : K Z :=
  s <- gets k_kbd ;;
  if kbd_buf_count s =? 0 then ret (-1)
  else
    c <- from_option (arr_get (kbd_buffer s) (kbd_buf_head s)) ;;
    modify (set_kbd (KbdState (shift_active s) (kbd_buffer s)
      (u32 (kbd_buf_head s + 1) mod KBD_BUFFER_SIZE) (kbd_buf_tail s) (u32 (kbd_buf_count s - 1)))) ;;;
    ret (u8 c).

Definition set_shift_active (b : Z) : K unit :=
  modify (fun k => let s := k_kbd k in
    set_kbd (KbdState b (kbd_buffer s) (kbd_buf_head s) (kbd_buf_tail s) (kbd_buf_count s)) k).

Definition keyboard_interrupt_handler : K unit :=
  scancode <- read_scan_code ;;
  if (scancode =? 0x2A) || (scancode =? 0x36) then set_shift_active 1
  else if (scancode =? 0xAA) || (scancode =? 0xB6) then set_shift_active 0
  else if negb (Z.land scancode 0x80 =? 0) then ret tt
  else
    when scancode <? 128 do
      (s <- gets k_kbd ;;
       c <- from_option (if negb (shift_active s =? 0) then arr_get kbd_us_ascii_shift scancode
                         else arr_get kbd_us_ascii scancode) ;;
       when negb (c =? 0) do keyboard_put_char c).

Definition keyboard_init : K unit :=
  modify (fun k => set_kbd (KbdState (shift_active (k_kbd k)) (kbd_buffer (k_kbd k)) 0 0 0) k) ;;;
  register_interrupt_handler 33 keyboard_interrupt ;;;
  while_fuel poll_fuel
    (v <- inb KBD_STATUS_PORT ;; ret (negb (Z.land v 0x01 =? 0)))
    (_ <- inb KBD_DATA_PORT ;; ret tt).

End Keyboard.

(** * The queue the ring buffer implements *)

(** The pending characters, oldest first. *)
Definition ring_slot (s : kbd_state) (i : Z) : Z :=
  default 0 (arr_get (kbd_buffer s) ((kbd_buf_head s + i) mod 256)).
Definition queue_of (s : kbd_state) : list Z := ring_slot s <$> seqZ 0 (kbd_buf_count s).

Record kbd_ok (s : kbd_state) : Prop := KbdOk {
  kbd_len : Z.of_nat (length (kbd_buffer s)) = KBD_BUFFER_SIZE;
  kbd_head_ok : 0 <= kbd_buf_head s < KBD_BUFFER_SIZE;
  kbd_count_ok : 0 <= kbd_buf_count s <= KBD_BUFFER_SIZE;
  kbd_tail_ok : kbd_buf_tail s = (kbd_buf_head s + kbd_buf_count s) mod KBD_BUFFER_SIZE;
  kbd_bytes : Forall is_u8 (kbd_buffer s)
}.

(** A bounded queue: a full one drops what is put into it. *)
Definition queue_put (q : list Z) (c : Z) : list Z :=
  if Z.of_nat (length q) <? 256 then q ++ [c] else q.

(** What a scancode means in a given shift state: the new shift state and the
    character it produces, if any. *)
Definition decode (shift sc : Z) : Z * option Z :=
  if (sc =? 0x2A) || (sc =? 0x36) then (1, None)
  else if (sc =? 0xAA) || (sc =? 0xB6) then (0, None)
  else if 128 <=? sc then (shift, None)
  else
    let c := default 0 (arr_get (if shift =? 0 then kbd_us_ascii else kbd_us_ascii_shift) sc) in
    (shift, if c =? 0 then None else Some c).

(** * Facts *)

Lemma queue_length s : kbd_ok s -> Z.of_nat (length (queue_of s)) = kbd_buf_count s.
Proof. intros Hs. unfold queue_of. rewrite length_fmap, length_seqZ. destruct Hs. lia. Qed.

Lemma queue_lookup s i :
  kbd_ok s -> 0 <= i < kbd_buf_count s -> queue_of s !! Z.to_nat i = Some (ring_slot s i).
Proof.
  intros Hs Hi. unfold queue_of. rewrite list_lookup_fmap, lookup_seqZ_lt by lia. simpl. f_equal. f_equal. lia.
Qed.

Lemma kbd_queue_bytes s : kbd_ok s -> Forall is_u8 (queue_of s).
Proof.
  intros Hs. unfold queue_of. apply Forall_fmap, Forall_true. intros i. simpl. unfold ring_slot.
  destruct (arr_get _ _) as [c|] eqn:Hc; simpl; [|word_solve].
  unfold arr_get in Hc. destruct (0 <=? _); [|done]. eapply Forall_lookup_1; [apply (kbd_bytes _ Hs)|done].
Qed.

Section Facts.
Context `{Env}.

Lemma keyboard_put_char_wp k c :
  kbd_ok (k_kbd k) -> is_u8 c ->
  wp (keyboard_put_char c) (fun _ k' => exists s', k' = set_kbd s' k /\ kbd_ok s' /\
    shift_active s' = shift_active (k_kbd k) /\ queue_of s' = queue_put (queue_of (k_kbd k)) c) k.
Proof.
  intros Hs Hc. unfold keyboard_put_char, queue_put. wp_steps. set (s := k_kbd k) in *.
  rewrite (queue_length s Hs). change KBD_BUFFER_SIZE with 256. pose proof Hs as [Hlen Hh Hct Ht Hb].
  change KBD_BUFFER_SIZE with 256 in *. case_bool.
  2: { apply wp_ret. exists s. split_and!; [by destruct k|done|done|done]. }
  assert (0 <= kbd_buf_tail s < 256) by (rewrite Ht; word_solve).
  pose proof (arr_set_Some (kbd_buffer s) (kbd_buf_tail s) (u8 c) ltac:(lia)) as Hset.
  apply wp_bind. eapply wp_from_option; [done|]. apply wp_modify. eexists. split_and!; [done| |done|].
  - constructor; simpl; change KBD_BUFFER_SIZE with 256; [by rewrite length_insert|done| | |].
    + rewrite u32_small by word_solve. lia.
    + rewrite !u32_small by word_solve. rewrite Ht. rewrite Zplus_mod_idemp_l. f_equal. lia.
    + apply Forall_insert; [done|apply u8_range].
  - unfold queue_of. simpl. rewrite (u32_small (kbd_buf_count s + 1)) by word_solve.
    rewrite seqZ_app by lia. rewrite fmap_app. f_equal.
    + apply list_fmap_ext. intros i x Hx. apply lookup_seqZ in Hx as [-> Hx].
      unfold ring_slot. simpl. rewrite (arr_get_set _ _ _ _ _ Hset).
      rewrite (proj2 (Z.eqb_neq _ _)); [done|]. rewrite Ht. word_solve.
    + simpl. f_equal. unfold ring_slot. simpl. rewrite (arr_get_set _ _ _ _ _ Hset).
      rewrite (proj2 (Z.eqb_eq _ _)); [simpl; by apply u8_small|]. by rewrite Ht.
Qed.

Lemma keyboard_getchar_wp k :
  kbd_ok (k_kbd k) ->
  wp keyboard_getchar (fun r k' =>
    match queue_of (k_kbd k) with
    | [] => r = -1 /\ k' = k
    | c :: q => r = c /\ exists s', k' = set_kbd s' k /\ kbd_ok s' /\
        shift_active s' = shift_active (k_kbd k) /\ queue_of s' = q
    end) k.
Proof.
  intros Hs. unfold keyboard_getchar. wp_steps. set (s := k_kbd k) in *.
  pose proof Hs as [Hlen Hh Hct Ht Hb]. change KBD_BUFFER_SIZE with 256 in *. case_bool.
  { apply wp_ret. unfold queue_of. rewrite e. done. }
  destruct (arr_get_Some (kbd_buffer s) (kbd_buf_head s)) as [c Hc]; [lia|].
  assert (is_u8 c) as Hu.
  { unfold arr_get in Hc. destruct (0 <=? _); [|done]. by eapply Forall_lookup_1. }
  assert (queue_of s = c :: (ring_slot s <$> seqZ 1 (kbd_buf_count s - 1))) as ->.
  { unfold queue_of. rewrite seqZ_cons by lia. rewrite <- Z.sub_1_r. simpl. f_equal.
    unfold ring_slot. by rewrite Z.add_0_r, Z.mod_small, Hc by lia. }
  wp_steps. eapply wp_from_option; [done|]. wp_steps. split; [by apply u8_small|].
  eexists. split_and!; [done| |done|].
  - constructor; simpl; change KBD_BUFFER_SIZE with 256; [done| | | |done].
    + word_solve.
    + rewrite u32_small by word_solve. lia.
    + rewrite !u32_small by word_solve. rewrite Ht, Zplus_mod_idemp_l. f_equal. lia.
  - unfold queue_of. simpl. rewrite (u32_small (kbd_buf_count s - 1)) by word_solve.
    replace (seqZ 1 (kbd_buf_count s - 1)) with (Z.add 1 <$> seqZ 0 (kbd_buf_count s - 1))
      by (by rewrite fmap_add_seqZ). rewrite <- list_fmap_compose.
    apply list_fmap_ext. intros i x Hx. apply lookup_seqZ in Hx as [-> Hx].
    unfold ring_slot. simpl. rewrite u32_small by word_solve. rewrite Zplus_mod_idemp_l.
    do 3 f_equal. lia.
Qed.

(** The tables have 128 byte entries. *)
Lemma table_entry (b : bool) sc :
  0 <= sc < 128 -> exists c, arr_get (if b then kbd_us_ascii else kbd_us_ascii_shift) sc = Some c /\ is_u8 c.
Proof.
  intros Hsc. destruct (arr_get_Some (if b then kbd_us_ascii else kbd_us_ascii_shift) sc) as [c Hc].
  { by destruct b. }
  exists c. split; [done|]. unfold arr_get in Hc. rewrite (proj2 (Z.leb_le 0 sc)) in Hc by lia.
  eapply Forall_lookup_1; [|done]. destruct b; repeat constructor; done.
Qed.

(** One keyboard interrupt: the scancode the controller supplies is decoded. *)
Lemma keyboard_interrupt_wp k :
  kbd_ok (k_kbd k) ->
  wp keyboard_interrupt_handler (fun _ k' =>
    let sc := u8 (env_in (k_trace k) KBD_DATA_PORT) in
    let (shift, c) := decode (shift_active (k_kbd k)) sc in
    exists s', k' = set_kbd s' (set_trace (In KBD_DATA_PORT sc :: k_trace k) k) /\ kbd_ok s' /\
      shift_active s' = shift /\
      queue_of s' = match c with Some c => queue_put (queue_of (k_kbd k)) c | None => queue_of (k_kbd k) end) k.
Proof.
  intros Hs. unfold keyboard_interrupt_handler, read_scan_code, inb. wp_steps.
  change (u16 KBD_DATA_PORT) with KBD_DATA_PORT.
  cbv zeta. change (id k) with k in *. set (sc := u8 (env_in (k_trace k) KBD_DATA_PORT)).
  pose proof (u8_range (env_in (k_trace k) KBD_DATA_PORT)) as Hsc. fold sc in Hsc.
  unfold decode. destruct (_ || _).
  { apply wp_modify. eexists. split_and!; [done|by destruct Hs; constructor|done|done]. }
  destruct (_ || _).
  { apply wp_modify. eexists. split_and!; [done|by destruct Hs; constructor|done|done]. }
  rewrite land_128 by done. rewrite <- Z.leb_antisym. destruct (Z.leb_spec 128 sc) as [Hge|Hlt].
  { apply wp_ret. exists (k_kbd k). split_and!; [exact (set_kbd_id (set_trace _ k))|done|done|done]. }
  rewrite (proj2 (Z.ltb_lt _ _) Hlt). wp_steps. simpl.
  destruct (table_entry (shift_active (k_kbd k) =? 0) sc) as (c & Hc & Hu); [word_solve|].
  eapply (wp_from_option _ c). { by destruct (shift_active (k_kbd k) =? 0). }
  rewrite Hc. simpl. destruct (c =? 0); simpl.
  { apply wp_ret. exists (k_kbd k). split_and!; [exact (set_kbd_id (set_trace _ k))|done|done|done]. }
  eapply wp_mono; [by apply keyboard_put_char_wp|].
  intros [] k' (s' & -> & Hs' & Hsh & Hq). eexists. by split_and!.
Qed.
End Facts.
