(* ===== verification/Serial.v ===== *)
(** The 16550A UART driver: drivers/serial.c. *)
From S2P Require Import Prelude State Machine Isr Keyboard.

(** * Operations *)

Definition SERIAL_COM1_BASE : Z := 0x3F8.
Definition SERIAL_DATA_PORT (base : Z) : Z := base.
Definition SERIAL_INT_ENABLE_PORT (base : Z) : Z := base + 1.
Definition SERIAL_FIFO_COMMAND_PORT (base : Z) : Z := base + 2.
Definition SERIAL_LINE_COMMAND_PORT (base : Z) : Z := base + 3.
Definition SERIAL_MODEM_COMMAND_PORT (base : Z) : Z := base + 4.
Definition SERIAL_LINE_STATUS_PORT (base : Z) : Z := base + 5.
Definition SERIAL_LINE_ENABLED_DLAB : Z := 0x80.

(** The divisor [serial_config_baud_rate] programs. *)
Definition baud_divisor (baud_rate : Z) : Z :=
  if 110 <=? baud_rate then u16 (115200 / baud_rate)
  else if baud_rate =? 0 then 1 else u16 baud_rate.

Section Serial.
Context `{Env} `{PollFuel}.

Definition serial_config_baud_rate (base baud_rate : Z) : K unit :=
  let divisor := baud_divisor baud_rate in
  outb (SERIAL_LINE_COMMAND_PORT base) SERIAL_LINE_ENABLED_DLAB ;;;
  outb (SERIAL_DATA_PORT base) (u8 (Z.land divisor 0xFF)) ;;;
  outb (SERIAL_DATA_PORT base + 1) (u8 (Z.land (Z.shiftr divisor 8) 0xFF)).

Definition serial_config_line (com : Z) : K unit := outb (SERIAL_LINE_COMMAND_PORT com) 0x03.
Definition serial_config_buffers (com : Z) : K unit := outb (SERIAL_FIFO_COMMAND_PORT com) 0x07.
Definition serial_config_modem (com : Z) : K unit := outb (SERIAL_MODEM_COMMAND_PORT com) 0x0B.

Definition serial_is_transmit_fifo_empty (com : Z) : K Z :=
  v <- inb (SERIAL_LINE_STATUS_PORT com) ;;
  ret (Z.land v 0x20).

(** [while (serial_is_transmit_fifo_empty(com) == 0);] *)
Definition serial_wait (com : Z) : K unit :=
  while_fuel poll_fuel (v <- serial_is_transmit_fifo_empty com ;; ret (v =? 0)) (ret tt).

Definition serial_write (com : Z) (buf : cbuf) (len : Z) : K Z :=
  for_up 0 len (fun i =>
    serial_wait com ;;;
    c <- buf_get buf i ;;
    outb (SERIAL_DATA_PORT com) (u8 c)) ;;;
  ret (s32 len).

Definition serial_write_char (com c : Z) : K Z :=
  serial_wait com ;;;
  outb (SERIAL_DATA_PORT com) (u8 c) ;;;
  ret 1.

Definition serial_receive (com : Z) : K Z :=
  v <- inb (SERIAL_LINE_STATUS_PORT com) ;;
  ret (Z.land v 1).

Definition serial_read_char (com : Z) : K Z :=
  r <- serial_receive com ;;
  if negb (r =? 0) then inb (SERIAL_DATA_PORT com) else ret (-1).

Definition serial_interrupt_handler : K unit :=
  while_fuel poll_fuel
    (r <- serial_receive SERIAL_COM1_BASE ;; ret (negb (r =? 0)))
    (c <- serial_read_char SERIAL_COM1_BASE ;;
     when negb (c =? -1) do keyboard_put_char (u8 c)).

Definition serial_init : K unit :=
  serial_config_baud_rate SERIAL_COM1_BASE 115200 ;;;
  serial_config_line SERIAL_COM1_BASE ;;;
  serial_config_buffers SERIAL_COM1_BASE ;;;
  serial_config_modem SERIAL_COM1_BASE ;;;
  outb (SERIAL_INT_ENABLE_PORT SERIAL_COM1_BASE) 0x01 ;;;
  register_interrupt_handler 36 serial_interrupt.
End Serial.

(** * The UART, as the trace drives it

    The registers of the 16550A at the COM1 ports after a history of port
    operations, and the bytes given to its transmitter (newest first).  Offsets
    0 and 1 address the divisor latch while the DLAB bit of the line control
    register is set. *)

Record uart := Uart {
  uart_lcr : Z; uart_dll : Z; uart_dlm : Z; uart_ier : Z; uart_fcr : Z; uart_mcr : Z;
  uart_tx : list Z
}.

Definition uart_reset : uart := Uart 0 0 0 0 0 0 [].
Definition dlab (u : uart) : bool := Z.testbit (uart_lcr u) 7.

Definition uart_out (u : uart) (off v : Z) : uart :=
  if off =? 0 then
    if dlab u then Uart (uart_lcr u) v (uart_dlm u) (uart_ier u) (uart_fcr u) (uart_mcr u) (uart_tx u)
    else Uart (uart_lcr u) (uart_dll u) (uart_dlm u) (uart_ier u) (uart_fcr u) (uart_mcr u) (v :: uart_tx u)
  else if off =? 1 then
    if dlab u then Uart (uart_lcr u) (uart_dll u) v (uart_ier u) (uart_fcr u) (uart_mcr u) (uart_tx u)
    else Uart (uart_lcr u) (uart_dll u) (uart_dlm u) v (uart_fcr u) (uart_mcr u) (uart_tx u)
  else if off =? 2 then Uart (uart_lcr u) (uart_dll u) (uart_dlm u) (uart_ier u) v (uart_mcr u) (uart_tx u)
  else if off =? 3 then Uart v (uart_dll u) (uart_dlm u) (uart_ier u) (uart_fcr u) (uart_mcr u) (uart_tx u)
  else if off =? 4 then Uart (uart_lcr u) (uart_dll u) (uart_dlm u) (uart_ier u) (uart_fcr u) v (uart_tx u)
  else u.

Fixpoint uart_of (tr : trace) : uart :=
  match tr with
  | [] => uart_reset
  | Out p v :: tr' => uart_out (uart_of tr') (p - SERIAL_COM1_BASE) v
  | _ :: tr' => uart_of tr'
  end.

(** The transmitter is ready: bit 5 (THRE) of the line status register. *)
Definition thre (v : Z) : bool := negb (Z.land v 0x20 =? 0).

(** The history after [n] reads of the line status register. *)
Fixpoint polled `{Env} (n : nat) (tr : trace) : trace :=
  match n with
  | O => tr
  | S n' => let tr' := polled n' tr in In 0x3FD (u8 (env_in tr' 0x3FD)) :: tr'
  end.

(** The transmitter empties within the polling budget, whatever came before. *)
Class UartReady `{Env} `{PollFuel} : Prop :=
  uart_ready : forall tr, exists n, (n < poll_fuel)%nat /\
    thre (u8 (env_in (polled n tr) 0x3FD)) = true.

(** One transmission: polls that find the transmitter busy, one that finds it
    ready, and the byte (newest first). *)
Inductive sends (c : Z) : trace -> Prop :=
| sends_intro busy v :
    Forall (fun e => exists v, e = In 0x3FD v /\ thre v = false) busy -> thre v = true ->
    sends c (Out SERIAL_COM1_BASE c :: In 0x3FD v :: busy).

(** The transmissions of a string. *)
Inductive sends_all : list Z -> trace -> Prop :=
| sends_nil : sends_all [] []
| sends_snoc s c t t' : sends_all s t -> sends c t' -> sends_all (s ++ [c]) (t' ++ t).

(** * Facts *)

Lemma uart_of_app_in tr busy :
  Forall (fun e => exists v, e = In 0x3FD v /\ thre v = false) busy -> uart_of (busy ++ tr) = uart_of tr.
Proof. induction 1 as [|e busy (v & -> & _) _ IH]; [done|]. simpl. done. Qed.

Lemma uart_sends c t tr :
  sends c t -> dlab (uart_of tr) = false ->
  uart_tx (uart_of (t ++ tr)) = c :: uart_tx (uart_of tr) /\ dlab (uart_of (t ++ tr)) = false.
Proof.
  intros [busy v Hb _] Hd. cbn [app uart_of]. rewrite uart_of_app_in by done.
  change (SERIAL_COM1_BASE - SERIAL_COM1_BASE) with 0. unfold uart_out.
  rewrite Z.eqb_refl, Hd. by split.
Qed.

(** What a transmission puts on the line, when the latch is not addressed. *)
Lemma uart_sends_all s t tr :
  sends_all s t -> dlab (uart_of tr) = false ->
  uart_tx (uart_of (t ++ tr)) = rev s ++ uart_tx (uart_of tr) /\ dlab (uart_of (t ++ tr)) = false.
Proof.
  intros Hs. induction Hs as [|s c t t' _ IH Hsend]; intros Hd; [done|].
  destruct (IH Hd) as [IH1 IH2]. rewrite <- app_assoc.
  destruct (uart_sends c t' (t ++ tr) Hsend IH2) as [-> ->].
  by rewrite IH1, rev_app_distr.
Qed.

Section Facts.
Context `{Env} `{PollFuel}.

Lemma inb_eq p k :
  inb p k = Ok (u8 (env_in (k_trace k) (u16 p)),
                set_trace (In (u16 p) (u8 (env_in (k_trace k) (u16 p))) :: k_trace k) k).
Proof. done. Qed.

Lemma serial_wait_step n k :
  while_fuel (S n) (v <- serial_is_transmit_fifo_empty SERIAL_COM1_BASE ;; ret (v =? 0)) (ret tt) k =
  let v := u8 (env_in (k_trace k) 0x3FD) in
  let k' := set_trace (In 0x3FD v :: k_trace k) k in
  if thre v then Ok (tt, k')
  else while_fuel n (v <- serial_is_transmit_fifo_empty SERIAL_COM1_BASE ;; ret (v =? 0)) (ret tt) k'.
Proof.
  cbn [while_fuel]. unfold bind at 1. unfold bind at 1, serial_is_transmit_fifo_empty.
  unfold bind at 1. rewrite inb_eq. cbv zeta. change (u16 (SERIAL_LINE_STATUS_PORT _)) with 0x3FD.
  unfold ret at 1 2, thre. by destruct (Z.land _ 0x20 =? 0).
Qed.

(** The wait returns exactly when the transmitter became ready. *)
Lemma serial_wait_polls n m k :
  (n < m)%nat ->
  (forall j, (j < n)%nat -> thre (u8 (env_in (polled j (k_trace k)) 0x3FD)) = false) ->
  thre (u8 (env_in (polled n (k_trace k)) 0x3FD)) = true ->
  while_fuel m (v <- serial_is_transmit_fifo_empty SERIAL_COM1_BASE ;; ret (v =? 0)) (ret tt) k
  = Ok (tt, set_trace (polled (S n) (k_trace k)) k).
Proof.
  assert (forall j t, polled j (In 0x3FD (u8 (env_in t 0x3FD)) :: t) = polled (S j) t) as Hshift.
  { intros j t. induction j as [|j IH]; [done|]. cbn [polled] in *. by rewrite IH. }
  revert n k. induction m as [|m IH]; intros n k Hlt Hbusy Hready; [lia|].
  rewrite serial_wait_step. cbv zeta. destruct n as [|n].
  - cbn [polled] in *. by rewrite Hready.
  - pose proof (Hbusy 0%nat ltac:(lia)) as H1. cbn [polled] in H1. rewrite H1.
    rewrite (IH n).
    + cbn [k_trace set_trace]. by rewrite Hshift.
    + lia.
    + intros j Hj. cbn [k_trace set_trace]. rewrite Hshift. apply Hbusy. lia.
    + cbn [k_trace set_trace]. by rewrite Hshift.
Qed.

Lemma polled_app n tr :
  (forall j, (j < n)%nat -> thre (u8 (env_in (polled j tr) 0x3FD)) = false) ->
  exists busy, polled n tr = busy ++ tr /\
    Forall (fun e => exists v, e = In 0x3FD v /\ thre v = false) busy.
Proof.
  induction n as [|n IH]; intros Hb; [by exists []|].
  destruct IH as (busy & Heq & Hf); [intros; apply Hb; lia|].
  eexists (_ :: busy). cbn [polled]. rewrite Heq. split; [done|]. constructor; [|done].
  eexists. split; [done|]. rewrite <- Heq. apply Hb. lia.
Qed.

(** The first ready poll. *)
Lemma least_ready tr n :
  thre (u8 (env_in (polled n tr) 0x3FD)) = true ->
  exists m, (m <= n)%nat /\ thre (u8 (env_in (polled m tr) 0x3FD)) = true /\
    forall j, (j < m)%nat -> thre (u8 (env_in (polled j tr) 0x3FD)) = false.
Proof.
  induction n as [n IH] using lt_wf_ind. intros Hn.
  destruct (decide (Exists (fun j => thre (u8 (env_in (polled j tr) 0x3FD)) = true) (seq 0 n))) as [He|Hne].
  - apply Exists_exists in He as (j & Hj & Hr). apply elem_of_seq in Hj.
    destruct (IH j ltac:(lia) Hr) as (m & Hm & H1 & H2). exists m. split_and!; [lia|done|done].
  - exists n. split_and!; [lia|done|]. intros j Hj.
    destruct (thre (u8 (env_in (polled j tr) 0x3FD))) eqn:E; [|done]. destruct Hne. apply Exists_exists. exists j.
    split; [apply elem_of_seq; lia|exact E].
Qed.

(** Waiting and then writing one byte is one transmission. *)
Lemma serial_send_wp `{!UartReady} k c :
  is_u8 c ->
  wp (serial_wait SERIAL_COM1_BASE ;;; outb (SERIAL_DATA_PORT SERIAL_COM1_BASE) (u8 c))
    (fun _ k' => exists t, sends c t /\ k' = set_trace (t ++ k_trace k) k) k.
Proof.
  intros Hc. destruct (uart_ready (k_trace k)) as (n & Hn & Hr).
  destruct (least_ready _ _ Hr) as (m & Hm & Hready & Hbusy).
  apply wp_bind. eapply wp_eq; [apply (serial_wait_polls m); [lia|done|done]|].
  apply wp_modify. destruct (polled_app m (k_trace k) Hbusy) as (busy & Heq & Hf).
  eexists. split; [by apply (sends_intro _ busy _ Hf Hready)|].
  cbn [k_trace set_trace polled app]. rewrite <- Heq.
  rewrite u8_u8, (u8_small c) by done. reflexivity.
Qed.

Lemma serial_write_wp `{!UartReady} k buf s :
  buf_reads (k_mem k) buf s -> Forall is_u8 s ->
  wp (serial_write SERIAL_COM1_BASE buf (Z.of_nat (length s)))
    (fun r k' => r = s32 (Z.of_nat (length s)) /\
       exists t, sends_all s t /\ k' = set_trace (t ++ k_trace k) k) k.
Proof.
  intros Hbuf Hu. unfold serial_write. apply wp_bind.
  set (I := fun i k' => exists t, sends_all (take (Z.to_nat i) s) t /\ k' = set_trace (t ++ k_trace k) k).
  eapply wp_mono; [apply (wp_for_up I); [lia| |]|].
  - exists []. split; [constructor|apply set_trace_id].
  - intros i k' Hi (t & Ht & ->).
    destruct (lookup_lt_is_Some_2 s (Z.to_nat i)) as [c Hc]; [lia|].
    assert (is_u8 c) as Hcu by (by eapply Forall_lookup_1).
    destruct (serial_send_wp (set_trace (t ++ k_trace k) k) c Hcu) as ([] & k2 & Hrun & t' & Ht' & ->).
    assert (wp (serial_wait SERIAL_COM1_BASE ;;; c' <- buf_get buf i ;; outb (SERIAL_DATA_PORT SERIAL_COM1_BASE) (u8 c'))
      (fun _ => I (i + 1)) (set_trace (t ++ k_trace k) k)); [|done].
    unfold bind in Hrun |- *. unfold wp.
    destruct (serial_wait _ _) as [[[] k3]| |] eqn:Hw; try done.
    assert (k_mem k3 = k_mem k) as Hm by (by unfold outb, modify in Hrun; simplify_eq; destruct k3; simplify_eq/=).
    rewrite (buf_get_reads _ _ s i c); [|by rewrite Hm|done|lia].
    eexists _, _. split; [exact Hrun|]. exists (t' ++ t). split.
    + replace (Z.to_nat (i + 1)) with (S (Z.to_nat i)) by lia. rewrite (take_S_r _ _ c) by done.
      by constructor.
    + by rewrite <- app_assoc.
  - intros [] k' (t & Ht & ->). apply wp_ret. split; [done|]. exists t.
    by rewrite Nat2Z.id, firstn_all in Ht.
Qed.
End Facts.
