(* ===== verification/SerialFacts.v ===== *)
(** The receive side of the UART: the interface of the device, and the loop of
    the serial interrupt handler that drains it into the input queue. *)
From S2P Require Import Prelude State Machine Isr Keyboard Serial.

(** * The receiver

    [rx tr] is what the receive FIFO holds after the history [tr]; the laws say
    how the line status and data registers show it while no new byte arrives. *)
Class UartRx `{Env} (rx : trace -> list Z) : Prop := {
  rx_bytes : forall tr, Forall is_u8 (rx tr);
  rx_status : forall tr, (Z.land (u8 (env_in tr 0x3FD)) 1 =? 0) = bool_decide (rx tr = []);
  rx_data : forall tr c q, rx tr = c :: q -> u8 (env_in tr 0x3F8) = c;
  rx_poll : forall tr v, rx (In 0x3FD v :: tr) = rx tr;
  rx_pop : forall tr c q, rx tr = c :: q -> rx (In 0x3F8 c :: tr) = q
}.

(** A port read. *)
Definition is_in (e : io_event) : Prop := match e with In _ _ => True | _ => False end.

Section Receive.
Context `{Env} `{PollFuel} (rx : trace -> list Z) `{!UartRx rx}.

Lemma serial_receive_eq k :
  exists v, serial_receive SERIAL_COM1_BASE k = Ok (v, set_trace (In 0x3FD (u8 (env_in (k_trace k) 0x3FD)) :: k_trace k) k)
    /\ (v =? 0) = bool_decide (rx (k_trace k) = []).
Proof.
  unfold serial_receive, bind. rewrite inb_eq. eexists. split; [reflexivity|]. apply rx_status.
Qed.

(** Draining the FIFO feeds its bytes to the keyboard queue in order. *)
Lemma serial_drain n k :
  kbd_ok (k_kbd k) -> (length (rx (k_trace k)) < n)%nat ->
  exists s' tr', while_fuel n
      (r <- serial_receive SERIAL_COM1_BASE ;; ret (negb (r =? 0)))
      (c <- serial_read_char SERIAL_COM1_BASE ;; when negb (c =? -1) do keyboard_put_char (u8 c)) k
    = Ok (tt, set_kbd s' (set_trace tr' k)) /\ kbd_ok s' /\
    shift_active s' = shift_active (k_kbd k) /\
    queue_of s' = fold_left queue_put (rx (k_trace k)) (queue_of (k_kbd k)) /\ rx tr' = [] /\
    exists evs, tr' = evs ++ k_trace k /\ Forall is_in evs.
Proof.
  revert k. induction n as [|n IH]; intros k Hk Hlen; [lia|].
  cbn [while_fuel]. destruct (serial_receive_eq k) as (v & Hrun & Hv).
  unfold bind at 1. unfold bind at 1. rewrite Hrun. unfold ret at 1. rewrite Hv.
  set (k1 := set_trace (In 0x3FD (u8 (env_in (k_trace k) 0x3FD)) :: k_trace k) k).
  assert (rx (k_trace k1) = rx (k_trace k)) as Hrx1 by apply rx_poll.
  destruct (rx (k_trace k)) as [|c q] eqn:Hrx.
  - exists (k_kbd k), (k_trace k1). rewrite bool_decide_eq_true_2 by done. cbn [negb].
    split_and!; [|done|done|done|done|].
    + done.
    + eexists [_]. split; [done|]. by repeat constructor.
  - rewrite bool_decide_eq_false_2 by done. cbn [negb].
    destruct (serial_receive_eq k1) as (w & Hrun2 & Hw). rewrite Hrx1 in Hw.
    rewrite bool_decide_eq_false_2 in Hw by done.
    set (k2 := set_trace (In 0x3FD (u8 (env_in (k_trace k1) 0x3FD)) :: k_trace k1) k1) in *.
    assert (rx (k_trace k2) = c :: q) as Hrx2 by (unfold k2; simpl; by rewrite rx_poll).
    assert (is_u8 c) as Hcu by (pose proof (rx_bytes (k_trace k)) as Hb; rewrite Hrx in Hb; by inversion Hb).
    unfold bind at 1. unfold bind at 1. unfold serial_read_char at 1. unfold bind at 1.
    rewrite Hrun2, Hw. cbn [negb]. rewrite inb_eq. change (u16 (SERIAL_DATA_PORT _)) with 0x3F8.
    rewrite (rx_data _ c q Hrx2).
    rewrite (proj2 (Z.eqb_neq c (-1))) by word_solve. cbn [negb]. rewrite (u8_small c) by done.
    set (k3 := set_trace (In 0x3F8 c :: k_trace k2) k2).
    destruct (keyboard_put_char_wp k3 c) as ([] & k4 & Hput & s4 & -> & Hs4 & Hsh4 & Hq4); [done|done|].
    rewrite Hput. assert (rx (k_trace (set_kbd s4 k3)) = q) as Hrx4 by (by apply (rx_pop _ c q)).
    destruct (IH (set_kbd s4 k3)) as (s' & tr' & Hrun' & Hs' & Hsh' & Hq' & Hrx' & evs & Hevs & Hin);
      [done|rewrite Hrx4; simpl in Hlen; lia|].
    exists s', tr'. split_and!; [exact Hrun'|done|by rewrite Hsh'| |done|].
    + rewrite Hq', Hrx4. cbn [fold_left]. simpl. by rewrite Hq4.
    + exists (evs ++ [In 0x3F8 c; In 0x3FD (u8 (env_in (k_trace k1) 0x3FD)); In 0x3FD (u8 (env_in (k_trace k) 0x3FD))]).
      rewrite Hevs, <- app_assoc. split; [done|]. apply Forall_app_2; [done|by repeat constructor].
Qed.
End Receive.
