(* ===== verification/Pic.v ===== *)
(** The two cascaded 8259 interrupt controllers: drivers/pic.c. *)
From S2P Require Import Prelude State Machine.

(** * Operations *)

Definition PIC1_PORT_A : Z := 0x20.
Definition PIC1_PORT_B : Z := 0x21.
Definition PIC2_PORT_A : Z := 0xA0.
Definition PIC2_PORT_B : Z := 0xA1.
Definition PIC1_START_INTERRUPT : Z := 0x20.
Definition PIC2_START_INTERRUPT : Z := 0x28.
Definition PIC2_END_INTERRUPT : Z := PIC2_START_INTERRUPT + 7.
Definition PIC_ACK : Z := 0x20.

Definition pic_ack (irq : Z) : K unit :=
  if (irq <? PIC1_START_INTERRUPT) || (PIC2_END_INTERRUPT <? irq) then ret tt
  else
    (when PIC2_START_INTERRUPT <=? irq do outb PIC2_PORT_A PIC_ACK) ;;;
    outb PIC1_PORT_A PIC_ACK.

Definition pic_set_mask (mask1 mask2 : Z) : K unit :=
  outb PIC1_PORT_B mask1 ;;;
  outb PIC2_PORT_B mask2.

Definition pic_remap : K unit :=
  outb PIC1_PORT_A 0x11 ;;;
  outb PIC2_PORT_A 0x11 ;;;
  outb PIC1_PORT_B PIC1_START_INTERRUPT ;;;
  outb PIC2_PORT_B PIC2_START_INTERRUPT ;;;
  outb PIC1_PORT_B 0x04 ;;;
  outb PIC2_PORT_B 0x02 ;;;
  outb PIC1_PORT_B 0x01 ;;;
  outb PIC2_PORT_B 0x01 ;;;
  pic_set_mask 0xED 0xFF.

(** * The 8259, as the trace drives it

    One controller: which initialisation word it expects next on its data port,
    the words it has taken, its mask and the number of end-of-interrupt commands
    it has received. *)

Inductive icw := ICW2 | ICW3 | ICW4 | OCW.

Record pic := Pic {
  pic_next : icw; pic_icw4_needed : bool;
  pic_vector : Z; pic_cascade : Z; pic_mode : Z; pic_imr : Z; pic_eois : nat
}.

Definition pic_reset : pic := Pic OCW false 0 0 0 0 0.

(** A write to the command port: bit 4 starts an initialisation (with ICW3 when
    bit 1 is clear, with ICW4 when bit 0 is set); 0x20 is a non-specific EOI. *)
Definition pic_command (s : pic) (v : Z) : pic :=
  if Z.testbit v 4 then Pic ICW2 (Z.testbit v 0) 0 0 0 0 (pic_eois s)
  else if v =? 0x20 then
    Pic (pic_next s) (pic_icw4_needed s) (pic_vector s) (pic_cascade s) (pic_mode s) (pic_imr s) (S (pic_eois s))
  else s.

Definition pic_data (s : pic) (v : Z) : pic :=
  match pic_next s with
  | ICW2 => Pic ICW3 (pic_icw4_needed s) v (pic_cascade s) (pic_mode s) (pic_imr s) (pic_eois s)
  | ICW3 => Pic (if pic_icw4_needed s then ICW4 else OCW) (pic_icw4_needed s) (pic_vector s) v
              (pic_mode s) (pic_imr s) (pic_eois s)
  | ICW4 => Pic OCW (pic_icw4_needed s) (pic_vector s) (pic_cascade s) v (pic_imr s) (pic_eois s)
  | OCW => Pic OCW (pic_icw4_needed s) (pic_vector s) (pic_cascade s) (pic_mode s) v (pic_eois s)
  end.

(** The controller whose ports are [a] and [b] after a history. *)
Fixpoint pic_of (a b : Z) (tr : trace) : pic :=
  match tr with
  | [] => pic_reset
  | Out p v :: tr' =>
      let s := pic_of a b tr' in
      if p =? a then pic_command s v else if p =? b then pic_data s v else s
  | _ :: tr' => pic_of a b tr'
  end.

Definition master (tr : trace) : pic := pic_of PIC1_PORT_A PIC1_PORT_B tr.
Definition slave (tr : trace) : pic := pic_of PIC2_PORT_A PIC2_PORT_B tr.

(** * Facts *)

(** The end-of-interrupt commands a vector calls for (newest first). *)
Definition ack_events (irq : Z) : trace :=
  if (irq <? 32) || (47 <? irq) then []
  else if 40 <=? irq then [Out PIC1_PORT_A PIC_ACK; Out PIC2_PORT_A PIC_ACK]
  else [Out PIC1_PORT_A PIC_ACK].

Lemma pic_ack_eq irq k : pic_ack irq k = Ok (tt, set_trace (ack_events irq ++ k_trace k) k).
Proof.
  unfold pic_ack, ack_events. change PIC1_START_INTERRUPT with 32. change PIC2_END_INTERRUPT with 47.
  change PIC2_START_INTERRUPT with 40. destruct (_ || _); [by destruct k|].
  by destruct (40 <=? irq).
Qed.
