(* ===== verification/Interrupt.v ===== *)
(** Interrupt dispatch: [interrupt_handler] of arch/x86/cpu/isr.c, and the
    [hlt] loops that wait for it. *)
From S2P Require Import Prelude State Machine Framebuffer Isr Keyboard Serial Pic.

Section Interrupt.
Context `{Env} `{PollFuel}.

(** A call through a pointer of the handler table. *)
Definition call_handler (h : isr_handler) : K unit :=
  match h with
  | H_null => fault
  | keyboard_interrupt => keyboard_interrupt_handler
  | serial_interrupt => serial_interrupt_handler
  end.

(** ["\n[EXCEPTION] Unhandled CPU Exception: "] *)
Definition exception_msg : list Z := 10 :: str "[EXCEPTION] Unhandled CPU Exception: ".

Definition unhandled_exception (interrupt : Z) : K unit :=
  fb_set_color FB_LIGHT_RED FB_BLACK ;;;
  write (Lit exception_msg) 37 ;;;
  if 10 <=? interrupt then
    write (Lit [u8 (48 + interrupt / 10); u8 (48 + interrupt mod 10); 10; 0]) 3 ;;; ret tt
  else
    write (Lit [u8 (48 + interrupt); 10; 0]) 2 ;;; ret tt.

Definition interrupt_handler (interrupt : Z) : K unit :=
  t <- gets k_isr ;;
  h <- (if interrupt <? 256 then from_option (arr_get t interrupt) else ret H_null) ;;
  (if (interrupt <? 256) && negb (bool_decide (h = H_null)) then call_handler h
   else when interrupt <? 32 do unhandled_exception interrupt) ;;;
  when (32 <=? interrupt) && (interrupt <=? 47) do pic_ack (u8 interrupt).

(** The CPU takes an interrupt through an interrupt gate: it clears IF, runs the
    stub of isr.s, and the final [iret] restores the flag. *)
Definition take_interrupt (vector : Z) : K unit :=
  modify (fun k => set_trace (Irq vector :: k_trace k) k) ;;;
  disable_interrupts ;;;
  interrupt_handler vector ;;;
  enable_interrupts.

(** [hlt]: wait for the next interrupt; with IF clear, or when none ever comes,
    the CPU stays halted. *)
Definition hlt : K unit :=
  k <- gets id ;;
  match cpu_if (k_cpu k), env_irq (k_trace k) with
  | true, Some vector => take_interrupt vector
  | _, _ => hang
  end.

Definition keyboard_read_char : K Z :=
  enable_interrupts ;;;
  while_fuel poll_fuel (b <- keyboard_has_char ;; ret (negb b)) hlt ;;;
  c <- keyboard_getchar ;;
  ret (u8 c).
End Interrupt.
