(* ===== verification/InterruptFacts.v ===== *)
(** What one interrupt does to the kernel state, and the interface of the
    keyboard controller that the waiting loops rely on. *)
From S2P Require Import Prelude State Machine Framebuffer FramebufferFacts Isr Keyboard Serial SerialFacts Pic Interrupt.

(** * The keyboard controller

    [keys tr] are the scancodes still to come after the history [tr]: while
    there are some, vector 33 is raised, and reading port 0x60 takes the next. *)
Class KbdSource `{Env} (keys : trace -> list Z) : Prop := {
  key_bytes : forall tr, Forall is_u8 (keys tr);
  key_irq : forall tr, keys tr <> [] -> env_irq tr = Some 33;
  key_data : forall tr sc q, keys tr = sc :: q -> u8 (env_in tr KBD_DATA_PORT) = sc;
  key_pop : forall tr sc q, keys tr = sc :: q -> keys (In KBD_DATA_PORT sc :: tr) = q;
  key_in : forall tr p v, p <> KBD_DATA_PORT -> keys (In p v :: tr) = keys tr;
  key_out : forall tr p v, keys (Out p v :: tr) = keys tr;
  key_taken : forall tr v, keys (Irq v :: tr) = keys tr
}.

(** The characters a sequence of scancodes stands for, and the shift state at
    its end. *)
Fixpoint decode_all (shift : Z) (scs : list Z) : Z * list Z :=
  match scs with
  | [] => (shift, [])
  | sc :: scs' =>
      let (shift', c) := decode shift sc in
      let (shift'', cs) := decode_all shift' scs' in
      (shift'', match c with Some c => c :: cs | None => cs end)
  end.

Lemma decode_all_app shift s1 s2 :
  decode_all shift (s1 ++ s2) =
  let (shift1, c1) := decode_all shift s1 in
  let (shift2, c2) := decode_all shift1 s2 in (shift2, c1 ++ c2).
Proof.
  revert shift. induction s1 as [|sc s1 IH]; intros shift; simpl.
  { by destruct (decode_all shift s2). }
  destruct (decode shift sc) as [sh c]. rewrite IH. destruct (decode_all sh s1) as [sh1 c1].
  destruct (decode_all sh1 s2) as [sh2 c2]. by destruct c.
Qed.

(** The handler table as the drivers leave it. *)
Record isr_ok (t : list isr_handler) : Prop := IsrOk {
  isr_len : length t = 256%nat;
  isr_kbd : t !! 33%nat = Some keyboard_interrupt;
  isr_serial : t !! 36%nat = Some serial_interrupt
}.

Section Facts.
Context `{Env} `{PollFuel}.

(** ** Dispatch *)

(** The handler at a vector, null beyond the table. *)
Definition handler_at (t : list isr_handler) (v : Z) : isr_handler :=
  if v <? 256 then default H_null (arr_get t v) else H_null.

Lemma dispatch_registered k v h :
  0 <= v < 256 -> arr_get (k_isr k) v = Some h -> h <> H_null ->
  interrupt_handler v k = (call_handler h ;;; when (32 <=? v) && (v <=? 47) do pic_ack (u8 v)) k.
Proof.
  intros Hv Hh Hne. unfold interrupt_handler, bind at 1, gets. unfold bind at 1.
  rewrite (proj2 (Z.ltb_lt v 256)) by lia. rewrite Hh. cbn [from_option ret].
  rewrite bool_decide_eq_false_2 by done. done.
Qed.

Lemma dispatch_unregistered k v :
  0 <= v -> length (k_isr k) = 256%nat -> handler_at (k_isr k) v = H_null ->
  interrupt_handler v k = ((when v <? 32 do unhandled_exception v) ;;;
    when (32 <=? v) && (v <=? 47) do pic_ack (u8 v)) k.
Proof.
  intros Hv Hlen Hh. unfold interrupt_handler, bind at 1, gets. unfold bind at 1. unfold handler_at in Hh.
  destruct (Z.ltb_spec v 256) as [Hlt|Hge].
  - destruct (arr_get_Some (k_isr k) v) as [h Hget]; [lia|]. rewrite Hget in *. simpl in Hh. subst h. done.
  - by rewrite (proj2 (Z.ltb_ge v 32)) by lia.
Qed.

Lemma ack_when_eq v k :
  0 <= v < 256 ->
  (when (32 <=? v) && (v <=? 47) do pic_ack (u8 v)) k = Ok (tt, set_trace (ack_events v ++ k_trace k) k).
Proof.
  intros Hv. destruct ((32 <=? v) && (v <=? 47)) eqn:E.
  - rewrite pic_ack_eq. by rewrite u8_small by word_solve.
  - unfold ack_events. replace ((v <? 32) || (47 <? v)) with true; [by destruct k|].
    symmetry. apply orb_true_iff. apply andb_false_iff in E as [E|E].
    + left. apply Z.leb_gt in E. by apply Z.ltb_lt.
    + right. apply Z.leb_gt in E. by apply Z.ltb_lt.
Qed.

(** ** The keyboard interrupt *)

Section Keys.
Context (keys : trace -> list Z) `{!KbdSource keys}.

(** [key_step k sc k']: the interrupt that delivers [sc] took [k] to [k']. *)
Definition key_step (k : kernel) (sc : Z) (k' : kernel) : Prop :=
  exists s', k' = set_cpu (set_cpu_if true (k_cpu k))
      (set_kbd s' (set_trace (Out PIC1_PORT_A PIC_ACK :: In KBD_DATA_PORT sc :: Irq 33 :: k_trace k) k)) /\
    kbd_ok s' /\ shift_active s' = fst (decode (shift_active (k_kbd k)) sc) /\
    queue_of s' = match snd (decode (shift_active (k_kbd k)) sc) with
                  | Some c => queue_put (queue_of (k_kbd k)) c
                  | None => queue_of (k_kbd k)
                  end.

Lemma take_keyboard_wp k sc q :
  kbd_ok (k_kbd k) -> isr_ok (k_isr k) -> keys (k_trace k) = sc :: q ->
  wp (take_interrupt 33) (fun _ k' => key_step k sc k' /\ keys (k_trace k') = q) k.
Proof.
  intros Hk Hi Hq. unfold take_interrupt, disable_interrupts, enable_interrupts. wp_steps.
  match goal with |- wp _ _ ?k => set (k1 := k) end.
  assert (keys (k_trace k1) = sc :: q) as Hq1 by (unfold k1; cbn [k_trace set_cpu set_trace]; by rewrite key_taken).
  assert (arr_get (k_isr k1) 33 = Some keyboard_interrupt) as Hh by apply (isr_kbd _ Hi).
  eapply wp_run_eq; [by apply (dispatch_registered k1 33 keyboard_interrupt)|].
  apply wp_bind. eapply wp_mono; [by apply (keyboard_interrupt_wp k1)|].
  intros [] k2. cbv zeta. rewrite (key_data _ _ _ Hq1). change (k_kbd k1) with (k_kbd k).
  destruct (decode (shift_active (k_kbd k)) sc) as [sh c] eqn:Hdec. intros (s' & -> & Hs' & Hsh & Hqs).
  eapply wp_eq; [by apply ack_when_eq|]. wp_steps.
  split; [|cbn; by rewrite key_out; apply key_pop].
  exists s'. rewrite Hdec. cbn [fst snd]. split_and!; [by destruct k|done|done|done].
Qed.

(** [hlt] with interrupts enabled delivers the next scancode. *)
Lemma hlt_key_wp k sc q :
  cpu_if (k_cpu k) = true -> kbd_ok (k_kbd k) -> isr_ok (k_isr k) -> keys (k_trace k) = sc :: q ->
  wp hlt (fun _ k' => key_step k sc k' /\ keys (k_trace k') = q) k.
Proof.
  intros Hif Hk Hi Hq. unfold hlt. wp_steps. cbn [id]. rewrite Hif, (key_irq (k_trace k)) by (by rewrite Hq).
  by apply (take_keyboard_wp k sc q).
Qed.

(** [n] keyboard interrupts in a row. *)
Definition deliver (n : nat) : K unit := for_loop 0 1 n (fun _ => take_interrupt 33).

(** A loop that takes one of them in each turn puts the characters of the scancodes
    into the queue, in order, acknowledges each once and changes nothing else; [woken]
    tells whether its turns need interrupts to be enabled. *)
Definition takes_keys (woken : bool) (m : K unit) : Prop :=
  forall k sc q, (woken = true -> cpu_if (k_cpu k) = true) ->
    kbd_ok (k_kbd k) -> isr_ok (k_isr k) -> keys (k_trace k) = sc :: q ->
    wp m (fun _ k' => key_step k sc k' /\ keys (k_trace k') = q) k.

Lemma keys_loop_wp woken m scs rest k i :
  takes_keys woken m -> (woken = true -> cpu_if (k_cpu k) = true) ->
  kbd_ok (k_kbd k) -> isr_ok (k_isr k) -> keys (k_trace k) = scs ++ rest ->
  wp (for_loop i 1 (length scs) (fun _ => m)) (fun _ k' =>
    kbd_ok (k_kbd k') /\ keys (k_trace k') = rest /\
    shift_active (k_kbd k') = fst (decode_all (shift_active (k_kbd k)) scs) /\
    queue_of (k_kbd k') = fold_left queue_put (snd (decode_all (shift_active (k_kbd k)) scs)) (queue_of (k_kbd k)) /\
    pic_eois (master (k_trace k')) = (length scs + pic_eois (master (k_trace k)))%nat /\
    pic_eois (slave (k_trace k')) = pic_eois (slave (k_trace k)) /\
    set_cpu_if true (k_cpu k') = set_cpu_if true (k_cpu k) /\
    k' = set_cpu (k_cpu k') (set_kbd (k_kbd k') (set_trace (k_trace k') k))) k.
Proof.
  intros Hm. revert k i. induction scs as [|sc scs IH]; intros k i Hw Hk Hi Hq; cbn [length for_loop].
  { apply wp_ret. split_and!; try done. by destruct k. }
  apply wp_bind. eapply wp_mono; [by apply (Hm k sc (scs ++ rest))|].
  intros [] k1 [(s1 & -> & Hs1 & Hsh1 & Hq1) Hkeys1]. eapply wp_mono; [by apply IH|].
  cbn [k_kbd k_trace k_isr k_cpu set_cpu set_kbd set_trace]. rewrite Hsh1, Hq1.
  intros [] k' (H1 & H2 & H3 & H4 & H5 & H6 & H7 & H8). cbn [decode_all].
  destruct (decode (shift_active (k_kbd k)) sc) as [sh c]. cbn [fst snd] in *.
  destruct (decode_all sh scs) as [sh' cs]. cbn [fst snd] in *.
  split_and!; [done|done|done| | |done|done|rewrite H8; by destruct k].
  - rewrite H4. by destruct c.
  - rewrite H5. unfold master. simpl. lia.
Qed.

Lemma interrupt_takes_keys : takes_keys false (take_interrupt 33).
Proof. intros k sc q _. apply take_keyboard_wp. Qed.

Lemma hlt_takes_keys : takes_keys true hlt.
Proof. intros k sc q Hif Hk Hi Hq. apply hlt_key_wp; auto. Qed.

Lemma no_char_eq k :
  kbd_ok (k_kbd k) ->
  (b <- keyboard_has_char ;; ret (negb b)) k = Ok (bool_decide (queue_of (k_kbd k) = []), k).
Proof.
  intros Hk. unfold keyboard_has_char, bind, gets, ret. do 2 f_equal. rewrite <- (queue_length _ Hk).
  by destruct (queue_of (k_kbd k)).
Qed.

(** The flush loop of [keyboard_init]. *)
Lemma flush_wp
    (Hst : forall tr, (Z.land (u8 (env_in tr KBD_STATUS_PORT)) 1 =? 0) = bool_decide (keys tr = [])) n k :
  (length (keys (k_trace k)) < n)%nat ->
  wp (while_fuel n (v <- inb KBD_STATUS_PORT ;; ret (negb (Z.land v 0x01 =? 0))) (_ <- inb KBD_DATA_PORT ;; ret tt))
    (fun _ k' => exists tr', k' = set_trace tr' k /\ keys tr' = []) k.
Proof.
  revert k. induction n as [|n IH]; intros k Hn; [lia|]. cbn [while_fuel].
  apply wp_bind. apply wp_bind. eapply wp_eq; [apply inb_eq|]. apply wp_ret.
  change (u16 KBD_STATUS_PORT) with KBD_STATUS_PORT. rewrite Hst.
  destruct (keys (k_trace k)) as [|sc q] eqn:Hq.
  { apply wp_ret. eexists. split; [done|]. by rewrite key_in. }
  cbn [negb bool_decide]. apply wp_bind, wp_bind. eapply wp_eq; [apply inb_eq|]. apply wp_ret.
  change (u16 KBD_DATA_PORT) with KBD_DATA_PORT. cbn [k_trace set_trace].
  set (tr1 := In KBD_STATUS_PORT _ :: k_trace k).
  assert (keys tr1 = sc :: q) as Hq1 by (unfold tr1; by rewrite key_in).
  rewrite (key_data _ _ _ Hq1). eapply wp_mono; [apply IH|].
  - cbn [k_trace set_trace]. rewrite (key_pop _ _ _ Hq1). simpl in Hn. lia.
  - intros [] k' (tr' & -> & Htr). by exists tr'.
Qed.

(** The waiting loop of [keyboard_read_char]: it consumes scancodes up to and
    including the one that yields the first character. *)
Lemma wait_char_wp scs n k :
  cpu_if (k_cpu k) = true -> kbd_ok (k_kbd k) -> isr_ok (k_isr k) -> queue_of (k_kbd k) = [] ->
  keys (k_trace k) = scs -> snd (decode_all (shift_active (k_kbd k)) scs) <> [] -> (length scs < n)%nat ->
  wp (while_fuel n (b <- keyboard_has_char ;; ret (negb b)) hlt) (fun _ k' =>
    exists used c rest, scs = used ++ rest /\ keys (k_trace k') = rest /\
      snd (decode_all (shift_active (k_kbd k)) used) = [c] /\
      kbd_ok (k_kbd k') /\ queue_of (k_kbd k') = [c] /\ k_mem k' = k_mem k) k.
Proof.
  revert scs k. induction n as [|n IH]; intros scs k Hif Hk Hi Hemp Hq Hne Hn; [lia|].
  cbn [while_fuel]. apply wp_bind. eapply wp_eq; [by apply no_char_eq|].
  rewrite bool_decide_eq_true_2 by done. destruct scs as [|sc scs]; [done|]. apply wp_bind.
  eapply wp_mono; [by apply (hlt_key_wp k sc scs)|]. intros [] k1 [(s1 & -> & Hs1 & Hsh1 & Hq1) Hkeys1].
  cbn [decode_all] in Hne. destruct (decode (shift_active (k_kbd k)) sc) as [sh [c|]] eqn:Hdec; cbn [fst snd] in *.
  - destruct n as [|n]; [simpl in Hn; lia|]. cbn [while_fuel]. rewrite Hemp in Hq1. apply wp_bind.
    eapply wp_eq; [by apply no_char_eq|]. rewrite bool_decide_eq_false_2 by (cbn [k_kbd set_cpu set_kbd]; by rewrite Hq1).
    apply wp_ret.
    exists [sc], c, scs. split_and!; try done. cbn [decode_all]. by rewrite Hdec.
  - eapply wp_mono.
    { apply (IH scs); try done.
      - cbn [k_kbd set_cpu set_kbd set_trace]. by rewrite Hq1.
      - cbn [k_kbd set_cpu set_kbd set_trace]. rewrite Hsh1. by destruct (decode_all sh scs).
      - simpl in Hn. lia. }
    cbn [k_kbd k_mem set_cpu set_kbd set_trace]. rewrite Hsh1.
    intros [] k' (used & c & rest & -> & H1 & H2 & H3 & H4 & H5).
    exists (sc :: used), c, rest. split_and!; try done. cbn [decode_all]. rewrite Hdec. by destruct (decode_all sh used).
Qed.

End Keys.

(** ** What handlers leave alone *)

(** A port event that addresses neither interrupt controller. *)
Definition not_pic (e : io_event) : Prop :=
  match e with Out p _ => p <> PIC1_PORT_A /\ p <> PIC1_PORT_B /\ p <> PIC2_PORT_A /\ p <> PIC2_PORT_B | _ => True end.

Lemma pics_app evs tr :
  Forall not_pic evs -> master (evs ++ tr) = master tr /\ slave (evs ++ tr) = slave tr.
Proof.
  induction 1 as [|e evs He _ [IH1 IH2]]; [done|].
  destruct e as [p v| |]; [|done|done]. destruct He as (H1 & H2 & H3 & H4).
  unfold master, slave in *. cbn [app pic_of].
  by rewrite !(proj2 (Z.eqb_neq p _)) by done.
Qed.

Lemma crtc_not_pic evs : Forall crtc_event evs -> Forall not_pic evs.
Proof. intros Hev. eapply Forall_impl; [done|]. intros e (p & v & -> & [-> | ->]); done. Qed.
Lemma in_not_pic evs : Forall is_in evs -> Forall not_pic evs.
Proof. intros Hev. eapply Forall_impl; [done|]. by intros []. Qed.

(** The report of an unhandled exception. *)
Definition exception_text (v : Z) : list Z :=
  10 :: str "[EXCEPTION] Unhandled CPU Exception:" ++
  (if 10 <=? v then [48 + v / 10; 48 + v mod 10; 10] else [48 + v; 10]).

Lemma unhandled_exception_wp k v :
  fb_ok k -> 0 <= v < 32 ->
  wp (unhandled_exception v) (fun _ k' =>
    fb_step (set_fb (FbState (cursor_pos (k_fb k)) FB_LIGHT_RED FB_BLACK) k) k'
      (term_write (Term (cells_of (k_mem k)) (cursor_pos (k_fb k)) FB_LIGHT_RED FB_BLACK) (exception_text v))) k.
Proof.
  intros [Hm Hc Hs] Hv. unfold unhandled_exception, write, fb_set_color. wp_steps.
  set (k1 := set_fb _ k). assert (fb_ok k1) as Hok1 by (by constructor).
  assert (forall s, buf_reads (k_mem k1) (Lit (s ++ [32])) s) as Hpre
    by (intros s i c Hi; rewrite lookup_app_l; [done|by eapply lookup_lt_Some]).
  destruct (fb_write_wp k1 (Lit exception_msg) (10 :: str "[EXCEPTION] Unhandled CPU Exception:") Hok1)
    as (r & k2 & Hrun & _ & Hstep).
  { split; [|done]. exact (Hpre (10 :: str "[EXCEPTION] Unhandled CPU Exception:")). }
  { constructor; [done|apply str_u8]. }
  eapply wp_eq; [exact Hrun|]. unfold exception_text.
  assert (forall s n, Forall is_u8 s -> n = Z.of_nat (length s) -> forall l, buf_reads (k_mem k2) (Lit l) s ->
    wp (fb_write (Lit l) n ;;; ret tt) (fun _ k' => fb_step k1 k'
      (term_write (Term (cells_of (k_mem k)) (cursor_pos (k_fb k)) FB_LIGHT_RED FB_BLACK)
        ((10 :: str "[EXCEPTION] Unhandled CPU Exception:") ++ s))) k2) as Hfin.
  { intros s n Hu -> l Hl. apply wp_bind. eapply wp_mono; [apply (fb_write_wp k2 (Lit l) s)|].
    - apply Hstep.
    - by split.
    - done.
    - intros r' k' [_ Hstep']. apply wp_ret. rewrite term_write_app.
      eapply fb_step_trans; [done|]. by rewrite (step_term _ _ _ Hstep) in Hstep'. }
  case_bool.
  - rewrite !u8_small by word_solve. apply Hfin; [repeat constructor; word_solve|done|].
    by intros [|[|[|i]]] c Hi.
  - rewrite !u8_small by word_solve. apply Hfin; [repeat constructor; word_solve|done|].
    by intros [|[|i]] c Hi.
Qed.

(** An exception without a handler: the report and nothing else. *)
Lemma exception_wp k v :
  0 <= v < 32 -> fb_ok k -> length (k_isr k) = 256%nat -> k_isr k !! Z.to_nat v = Some H_null ->
  wp (interrupt_handler v) (fun _ k' =>
    fb_step (set_fb (FbState (cursor_pos (k_fb k)) FB_LIGHT_RED FB_BLACK) k) k'
      (term_write (Term (cells_of (k_mem k)) (cursor_pos (k_fb k)) FB_LIGHT_RED FB_BLACK) (exception_text v))) k.
Proof.
  intros Hv Hfb Hlen Hnull. assert (handler_at (k_isr k) v = H_null) as Hh.
  { unfold handler_at, arr_get. rewrite (proj2 (Z.ltb_lt _ _)), (proj2 (Z.leb_le _ _)) by lia. by rewrite Hnull. }
  eapply wp_run_eq; [apply dispatch_unregistered; [lia|done|done]|]. rewrite (proj2 (Z.ltb_lt v 32)) by lia.
  apply wp_bind. eapply wp_mono; [by apply (unhandled_exception_wp k v)|]. intros [] k1 Hs.
  eapply wp_eq; [apply ack_when_eq; lia|]. unfold ack_events. rewrite (proj2 (Z.ltb_lt v 32)) by lia. cbn [orb app]. by destruct k1.
Qed.

(** [quiet k k']: only other ports than the interrupt controllers' were used, the
    handler table is unchanged, and so is memory but for the screen. *)
Definition quiet (k k' : kernel) : Prop :=
  (exists evs, k_trace k' = evs ++ k_trace k /\ Forall not_pic evs) /\ k_isr k' = k_isr k /\
  only_differ (k_mem k) (k_mem k') fb 4000.

Lemma call_handler_quiet (rx : trace -> list Z) `{!UartRx rx} k h :
  h <> H_null -> kbd_ok (k_kbd k) -> (length (rx (k_trace k)) < poll_fuel)%nat ->
  wp (call_handler h) (fun _ k' => quiet k k') k.
Proof.
  intros Hne Hk Hrx. destruct h; [done| |]; cbn [call_handler].
  - eapply wp_mono; [by apply keyboard_interrupt_wp|]. cbv zeta. intros [] k' Hk'.
    destruct (decode _ _) as [sh c]. destruct Hk' as (s' & -> & _). split; [|done].
    eexists [_]. split; [done|]. by repeat constructor.
  - destruct (serial_drain rx poll_fuel k Hk Hrx) as (s' & tr' & Hrun & _ & _ & _ & _ & evs & -> & Hin).
    eapply wp_eq; [exact Hrun|]. split; [|done]. exists evs. split; [done|by apply in_not_pic].
Qed.

(** Up to the acknowledgement, the dispatcher is quiet on every vector. *)
Lemma dispatch_quiet (rx : trace -> list Z) `{!UartRx rx} k v :
  0 <= v < 256 -> fb_ok k -> kbd_ok (k_kbd k) -> length (k_isr k) = 256%nat ->
  (length (rx (k_trace k)) < poll_fuel)%nat ->
  exists m : K unit, interrupt_handler v k = (m ;;; when (32 <=? v) && (v <=? 47) do pic_ack (u8 v)) k /\
    wp m (fun _ k' => quiet k k') k.
Proof.
  intros Hv Hfb Hk Hlen Hrx. destruct (arr_get_Some (k_isr k) v) as [h Hh]; [lia|].
  destruct (decide (h = H_null)) as [->|Hne].
  - eexists. split.
    + apply dispatch_unregistered; [lia|done|]. unfold handler_at. rewrite Hh. by destruct (v <? 256).
    + destruct (Z.ltb_spec v 32).
      * eapply wp_mono; [apply unhandled_exception_wp; [done|lia]|]. intros [] k' [_ _ Hm Hframe (evs & Hevs & Hcrtc)].
        split; [|split; [by rewrite Hframe|exact Hm]]. exists evs. split; [done|by apply crtc_not_pic].
      * apply wp_ret. split; [by exists []|done].
  - eexists. split; [by apply (dispatch_registered k v h)|]. by apply (call_handler_quiet rx).
Qed.

Lemma ack_events_pics v tr :
  0 <= v < 256 ->
  master (ack_events v ++ tr) = (if (32 <=? v) && (v <=? 47) then pic_command (master tr) PIC_ACK else master tr) /\
  slave (ack_events v ++ tr) = (if (40 <=? v) && (v <=? 47) then pic_command (slave tr) PIC_ACK else slave tr).
Proof.
  intros Hv. unfold ack_events.
  destruct (Z.ltb_spec v 32), (Z.ltb_spec 47 v), (Z.leb_spec 40 v), (Z.leb_spec 32 v), (Z.leb_spec v 47);
    try lia; by split.
Qed.
End Facts.
