(* ===== verification/Samples.v ===== *)
(** Sample hardware and a kernel state with its drivers registered, on which the
    theorems are instantiated. *)
From S2P Require Import Prelude State Machine Image Framebuffer FramebufferFacts Isr Keyboard Serial SerialFacts Pic Interrupt InterruptFacts.

(** * Sample hardware

    Two peripherals that hand out given bytes in order, one per read of their
    data port: the UART (transmitter always ready) and the PS/2 controller,
    which raises vector 33 while a scancode is pending. *)
Fixpoint reads_of (port : Z) (tr : trace) : nat :=
  match tr with
  | [] => 0
  | In p _ :: tr' => if p =? port then S (reads_of port tr') else reads_of port tr'
  | _ :: tr' => reads_of port tr'
  end.
Definition pending (port : Z) (bytes : list Z) (tr : trace) : list Z := drop (reads_of port tr) bytes.

Definition sample_env (serial keys : list Z) : Env := {|
  env_in := fun tr port =>
    if port =? 0x3FD then (if bool_decide (pending 0x3F8 serial tr = []) then 0x20 else 0x21)
    else if port =? 0x3F8 then default 0 (head (pending 0x3F8 serial tr))
    else if port =? 0x60 then default 0 (head (pending 0x60 keys tr))
    else if port =? 0x64 then (if bool_decide (pending 0x60 keys tr = []) then 0 else 1)
    else 0;
  env_irq := fun tr => if bool_decide (pending 0x60 keys tr = []) then None else Some 33
|}.
Definition sample_fuel : PollFuel := 1000%nat.

(** * The sample devices satisfy the interfaces *)

Lemma sample_uart_ready serial keys : @UartReady (sample_env serial keys) sample_fuel.
Proof.
  intros tr. exists 0%nat. split; [unfold poll_fuel, sample_fuel; lia|].
  cbn. by destruct (bool_decide _).
Qed.

(** A sample line on which nothing arrives. *)
Lemma sample_idle keys tr : Z.land (u8 (@env_in (sample_env [] keys) tr 0x3FD)) 1 = 0.
Proof. cbn. unfold pending. by rewrite drop_nil. Qed.

Lemma sample_uart_rx serial keys :
  Forall is_u8 serial -> @UartRx (sample_env serial keys) (pending 0x3F8 serial).
Proof.
  intros Hs. split.
  - intros tr. by apply Forall_drop.
  - intros tr. cbn. by destruct (bool_decide _).
  - intros tr c q Hq. cbn. rewrite Hq. cbn. apply u8_small.
    apply (Forall_drop _ (reads_of 0x3F8 tr)) in Hs. unfold pending in Hq. rewrite Hq in Hs. by inversion Hs.
  - done.
  - intros tr c q Hq. unfold pending in *. cbn [reads_of]. rewrite Z.eqb_refl.
    replace (S (reads_of 0x3F8 tr)) with (reads_of 0x3F8 tr + 1)%nat by lia.
    by rewrite <- drop_drop, Hq.
Qed.

Lemma sample_kbd_ok : kbd_ok kbd_init_state.
Proof. constructor; try done. apply Forall_replicate. word_solve. Qed.

Lemma sample_kbd_source keys :
  Forall is_u8 keys -> @KbdSource (sample_env [] keys) (pending 0x60 keys).
Proof.
  intros Hs. split.
  - intros tr. by apply Forall_drop.
  - intros tr Hne. cbn. by rewrite bool_decide_eq_false_2.
  - intros tr c q Hq. cbn. rewrite Hq. cbn. apply u8_small.
    apply (Forall_drop _ (reads_of 0x60 tr)) in Hs. unfold pending in Hq. rewrite Hq in Hs. by inversion Hs.
  - intros tr c q Hq. unfold pending in *. cbn [reads_of]. rewrite Z.eqb_refl.
    replace (S (reads_of 0x60 tr)) with (reads_of 0x60 tr + 1)%nat by lia. by rewrite <- drop_drop, Hq.
  - intros tr p v Hp. unfold pending. cbn [reads_of]. change 0x60 with KBD_DATA_PORT. by rewrite (proj2 (Z.eqb_neq _ _) Hp).
  - done.
  - done.
Qed.

(** The sample kernel after the drivers registered their handlers. *)
Definition sample_isr : list isr_handler :=
  <[33%nat := keyboard_interrupt]> (<[36%nat := serial_interrupt]> (replicate 256 H_null)).
Definition sample_ready : kernel := set_isr sample_isr sample_kernel.

Lemma sample_isr_ok : isr_ok sample_isr.
Proof. by constructor. Qed.
Lemma sample_ready_kbd : kbd_ok (k_kbd sample_ready).
Proof. constructor; try done. apply Forall_replicate. word_solve. Qed.
Lemma sample_ready_fb : fb_ok sample_ready.
Proof. constructor; [by apply zero_mem_mapped|done|done]. Qed.

(** Memory does not matter to the input state. *)
Lemma input_set_mem m k :
  kbd_ok (k_kbd k) -> isr_ok (k_isr k) -> kbd_ok (k_kbd (set_mem m k)) /\ isr_ok (k_isr (set_mem m k)).
Proof. done. Qed.
