(* ===== verification/SerialProps.v ===== *)
(** The correctness of the serial and interrupt controller drivers, stated for
    drivers/serial.c and drivers/pic.c. *)
From S2P Require Import Prelude State Machine Image Isr Keyboard Serial SerialFacts Pic Samples.

Section Props.
Context `{Env} `{PollFuel}.

(** [serial_write] transmits its buffer: with a transmitter that empties
    within the polling budget it returns the length, the UART has been given
    exactly the bytes of the buffer in order, each one after a status read that
    found the holding register empty, and nothing but the trace changed. *)
Theorem serial_write_transmits `{!UartReady} k buf s :
  buf_reads (k_mem k) buf s -> Forall is_u8 s -> Z.of_nat (length s) < 2147483648 ->
  dlab (uart_of (k_trace k)) = false ->
  exists t, serial_write SERIAL_COM1_BASE buf (Z.of_nat (length s)) k
      = Ok (Z.of_nat (length s), set_trace (t ++ k_trace k) k) /\
    sends_all s t /\
    uart_tx (uart_of (t ++ k_trace k)) = rev s ++ uart_tx (uart_of (k_trace k)).
Proof.
  intros Hbuf Hu Hlen Hd.
  destruct (serial_write_wp k buf s Hbuf Hu) as (r & k' & Hrun & -> & t & Ht & ->).
  exists t. rewrite s32_small in Hrun by lia. split_and!; [done|done|].
  by apply uart_sends_all.
Qed.

(** [serial_init] leaves COM1 at divisor 1 (115200 baud), 8N1 with the
    divisor latch closed, FIFOs on, modem lines and the receive interrupt
    enabled, and its handler at vector 36; nothing is transmitted. *)
Theorem serial_init_configures k :
  length (k_isr k) = 256%nat ->
  exists k', serial_init k = Ok (tt, k') /\
    uart_of (k_trace k') = Uart 0x03 1 0 0x01 0x07 0x0B (uart_tx (uart_of (k_trace k))) /\
    dlab (uart_of (k_trace k')) = false /\
    k_isr k' = <[36%nat := serial_interrupt]> (k_isr k).
Proof.
  intros Hlen. eexists. split.
  { unfold serial_init, serial_config_baud_rate, serial_config_line, serial_config_buffers,
      serial_config_modem, bind, outb, modify. rewrite register_interrupt_handler_eq by done. reflexivity. }
  cbn [k_trace set_isr set_trace k_isr]. split_and!; reflexivity.
Qed.

(** The divisor programmed for a baud rate: for rates from 110 to 115200 it
    is the integer quotient, never 0, and the resulting rate is the closest one
    not below the request; above 115200 the quotient is 0, which the code writes
    to the latch all the same. *)
Theorem baud_rate_divisor k baud :
  0 <= baud < 4294967296 ->
  exists k', serial_config_baud_rate SERIAL_COM1_BASE baud k = Ok (tt, k') /\
    let u := uart_of (k_trace k') in
    let divisor := uart_dll u + 256 * uart_dlm u in
    (110 <= baud <= 115200 -> 1 <= divisor <= 1047 /\ divisor * baud <= 115200 < (divisor + 1) * baud) /\
    (115200 < baud -> divisor = 0) /\
    dlab u = true /\ uart_tx u = uart_tx (uart_of (k_trace k)).
Proof.
  intros Hb. eexists. split; [reflexivity|].
  assert (0 <= baud_divisor baud < 65536) as Hd.
  { unfold baud_divisor. repeat case_bool; try apply u16_range; lia. }
  cbn [k_trace set_trace]. cbv zeta. rewrite !land_255, !u8_u8, Z.shiftr_div_pow2 by lia.
  match goal with |- context [uart_of ?t] =>
    assert (uart_of t = Uart 0x80 (u8 (baud_divisor baud)) (u8 (baud_divisor baud / 256))
      (uart_ier (uart_of (k_trace k))) (uart_fcr (uart_of (k_trace k))) (uart_mcr (uart_of (k_trace k)))
      (uart_tx (uart_of (k_trace k)))) as -> by reflexivity
  end. cbn [uart_dll uart_dlm uart_tx].
  assert (u8 (baud_divisor baud) + 256 * u8 (baud_divisor baud / 256) = baud_divisor baud) as ->
    by word_solve.
  split_and!; [|..|done|done].
  - intros Hr. unfold baud_divisor. rewrite (proj2 (Z.leb_le _ _)) by lia.
    assert (1 <= 115200 / baud <= 1047) by (Z.div_mod_to_equations; nia).
    rewrite u16_small by word_solve. split; [done|]. Z.div_mod_to_equations. nia.
  - intros Hr. unfold baud_divisor. rewrite (proj2 (Z.leb_le _ _)) by lia.
    by rewrite Z.div_small by lia.
Qed.

(** The serial interrupt handler empties the receive FIFO into the shared
    input queue, in order of arrival, dropping only what does not fit. *)
Theorem serial_interrupt_drains (rx : trace -> list Z) `{!UartRx rx} k :
  kbd_ok (k_kbd k) -> (length (rx (k_trace k)) < poll_fuel)%nat ->
  exists k', serial_interrupt_handler k = Ok (tt, k') /\ kbd_ok (k_kbd k') /\
    queue_of (k_kbd k') = fold_left queue_put (rx (k_trace k)) (queue_of (k_kbd k)) /\
    rx (k_trace k') = [] /\ k_mem k' = k_mem k.
Proof.
  intros Hk Hlen. destruct (serial_drain rx poll_fuel k Hk Hlen) as (s' & tr' & Hrun & Hs' & _ & Hq & Hrx & _).
  eexists. split_and!; [exact Hrun|done|done|done|done].
Qed.

(** [pic_remap] brings both controllers out of initialisation in 8086 mode
    with vectors 32..39 and 40..47, the cascade on line 2, and only IRQ 1
    (keyboard) and IRQ 4 (COM1) unmasked. *)
Theorem pic_remap_programs k :
  exists k', pic_remap k = Ok (tt, k') /\
    master (k_trace k') = Pic OCW true 32 0x04 0x01 0xED (pic_eois (master (k_trace k))) /\
    slave (k_trace k') = Pic OCW true 40 0x02 0x01 0xFF (pic_eois (slave (k_trace k))) /\
    forall line, 0 <= line < 8 ->
      Z.testbit (pic_imr (master (k_trace k'))) line = negb ((line =? 1) || (line =? 4)) /\
      Z.testbit (pic_imr (slave (k_trace k'))) line = true.
Proof.
  eexists. split; [reflexivity|]. split; [reflexivity|]. split; [reflexivity|].
  intros line Hl. assert (line = 0 \/ line = 1 \/ line = 2 \/ line = 3 \/ line = 4 \/ line = 5 \/ line = 6 \/ line = 7)
    as Hc by lia.
  repeat destruct Hc as [->|Hc]; try (subst line); by split.
Qed.
End Props.

(** * Instances *)

Lemma serial_write_transmits_witness :
  let E := sample_env [] [] in let F := sample_fuel in
  exists t, serial_write SERIAL_COM1_BASE (Lit (str "ok")) 2 sample_kernel
      = Ok (2, set_trace (t ++ []) sample_kernel) /\
    sends_all (str "ok") t /\ uart_tx (uart_of (t ++ [])) = [107; 111].
Proof.
  intros E F. pose proof (sample_uart_ready [] []) as HR.
  apply (serial_write_transmits sample_kernel (Lit (str "ok")) (str "ok"));
    [apply buf_reads_lit|apply str_u8|cbn; lia|reflexivity].
Defined.

Lemma serial_init_configures_witness :
  exists k', serial_init sample_kernel = Ok (tt, k') /\
    uart_of (k_trace k') = Uart 0x03 1 0 0x01 0x07 0x0B [] /\
    dlab (uart_of (k_trace k')) = false /\
    k_isr k' = <[36%nat := serial_interrupt]> (replicate 256 H_null).
Proof. exact (serial_init_configures sample_kernel eq_refl). Defined.

Lemma baud_rate_divisor_witness :
  exists k', serial_config_baud_rate SERIAL_COM1_BASE 9600 sample_kernel = Ok (tt, k') /\
    let u := uart_of (k_trace k') in
    let divisor := uart_dll u + 256 * uart_dlm u in
    (110 <= 9600 <= 115200 -> 1 <= divisor <= 1047 /\ divisor * 9600 <= 115200 < (divisor + 1) * 9600) /\
    (115200 < 9600 -> divisor = 0) /\ dlab u = true /\ uart_tx u = [].
Proof. apply (baud_rate_divisor sample_kernel 9600). lia. Defined.

Lemma serial_interrupt_drains_witness :
  let E := sample_env [72; 105] [] in let F := sample_fuel in
  exists k', serial_interrupt_handler sample_kernel = Ok (tt, k') /\ kbd_ok (k_kbd k') /\
    queue_of (k_kbd k') = fold_left queue_put [72; 105] [] /\
    pending 0x3F8 [72; 105] (k_trace k') = [] /\ k_mem k' = k_mem sample_kernel.
Proof.
  intros E F. assert (Forall is_u8 [72; 105]) as Hu by (repeat constructor; done).
  pose proof (sample_uart_rx [72; 105] [] Hu) as HR.
  refine (serial_interrupt_drains (pending 0x3F8 [72; 105]) sample_kernel _ _);
    [exact sample_kbd_ok|unfold pending; cbn [reads_of k_trace sample_kernel image drop length]; unfold poll_fuel, F, sample_fuel; lia].
Defined.
