(* ===== verification/InputProps.v ===== *)
(** The correctness of console input and of interrupt dispatch, stated for
    drivers/keyboard.c, arch/x86/cpu/isr.c and drivers/pic.c. *)
From S2P Require Import Prelude State Machine Image Framebuffer FramebufferFacts Isr Keyboard Serial SerialFacts Pic Interrupt InterruptFacts Samples.

(** * The bounded queue *)

(** The calls a client makes on the ring buffer, and what they return. *)
Inductive kbd_call := Put (c : Z) | Get.

Section Calls.
Context `{Env}.

Fixpoint run_calls (l : list kbd_call) : K (list Z) :=
  match l with
  | [] => ret []
  | Put c :: l' => keyboard_put_char c ;;; run_calls l'
  | Get :: l' => r <- keyboard_getchar ;; rs <- run_calls l' ;; ret (r :: rs)
  end.
End Calls.

(** The same calls on an abstract queue of at most 256 characters. *)
Fixpoint queue_calls (q : list Z) (l : list kbd_call) : list Z * list Z :=
  match l with
  | [] => ([], q)
  | Put c :: l' => queue_calls (queue_put q c) l'
  | Get :: l' =>
      match q with
      | [] => let (rs, q') := queue_calls [] l' in (-1 :: rs, q')
      | c :: q0 => let (rs, q') := queue_calls q0 l' in (c :: rs, q')
      end
  end.

Definition call_ok (c : kbd_call) : Prop := match c with Put c => is_u8 c | Get => True end.

(** * The US keyboard *)

(** The rows of a US keyboard: the scancode of the first key, and what the keys
    of the row give without and with Shift. *)
Definition us_rows : list (Z * list Z * list Z) :=
  [ (0x02, str "1234567890-=", str "!@#$%^&*()_+");
    (0x0E, [8; 9], [8; 9]);
    (0x10, str "qwertyuiop[]", str "QWERTYUIOP{}");
    (0x1C, [10], [10]);
    (0x1E, str "asdfghjkl;'`", str "ASDFGHJKL:" ++ [34] ++ str "~");
    (0x2B, str "\zxcvbnm,./", str "|ZXCVBNM<>?");
    (0x39, str " ", str " ") ].

Fixpoint index_of (c : Z) (l : list Z) : option Z :=
  match l with
  | [] => None
  | d :: l' => if d =? c then Some 0 else Z.add 1 <$> index_of c l'
  end.

(** The scancodes of pressing and releasing the keys for one character. *)
Fixpoint key_presses_in (rows : list (Z * list Z * list Z)) (c : Z) : list Z :=
  match rows with
  | [] => []
  | (base, plain, shifted) :: rows' =>
      match index_of c plain, index_of c shifted with
      | Some i, _ => [base + i; base + i + 128]
      | None, Some i => [0x2A; base + i; base + i + 128; 0xAA]
      | None, None => key_presses_in rows' c
      end
  end.
Definition key_presses (c : Z) : list Z := key_presses_in us_rows c.
Definition type_text (s : list Z) : list Z := s ≫= key_presses.

Definition typable (c : Z) : Prop := 32 <= c < 127 \/ c = 8 \/ c = 9 \/ c = 10.

Lemma key_presses_decode c : typable c -> decode_all 0 (key_presses c) = (0, [c]).
Proof.
  intros Hc.
  assert (forallb (fun c => bool_decide (decode_all 0 (key_presses c) = (0, [c]))) (seqZ 8 3 ++ seqZ 32 95) = true) as Hall
    by (by vm_compute).
  rewrite forallb_forall in Hall. apply (bool_decide_unpack (decode_all 0 (key_presses c) = (0, [c]))).
  apply Is_true_true, Hall, list_elem_of_In, elem_of_app. rewrite !elem_of_seqZ. destruct Hc; lia.
Qed.

Lemma type_text_decode s : Forall typable s -> decode_all 0 (type_text s) = (0, s).
Proof.
  induction 1 as [|c s Hc _ IH]; [done|]. unfold type_text in *. cbn [mbind list_bind].
  rewrite decode_all_app, (key_presses_decode c Hc), IH. done.
Qed.

Lemma queue_put_all s q :
  (length q + length s <= 256)%nat -> fold_left queue_put s q = q ++ s.
Proof.
  revert q. induction s as [|c s IH]; intros q Hlen; simpl; [by rewrite app_nil_r|].
  unfold queue_put at 2. rewrite (proj2 (Z.ltb_lt _ _)) by (simpl in Hlen; lia).
  rewrite IH by (rewrite length_app; simpl in *; lia). by rewrite <- app_assoc.
Qed.

Section Props.
Context `{Env} `{PollFuel}.

(** C24. The ring buffer is a bounded FIFO: any sequence of put and get calls
    returns, every get answers what the abstract queue of 256 characters answers
    (-1 when it is empty), characters beyond 256 are dropped, and the indices
    stay inside the array. *)
Theorem ring_buffer_fifo l k :
  kbd_ok (k_kbd k) -> Forall call_ok l ->
  exists k', run_calls l k = Ok (fst (queue_calls (queue_of (k_kbd k)) l), k') /\
    kbd_ok (k_kbd k') /\ queue_of (k_kbd k') = snd (queue_calls (queue_of (k_kbd k)) l) /\
    k_mem k' = k_mem k /\ k_trace k' = k_trace k.
Proof.
  revert k. induction l as [|[c|] l IH]; intros k Hk Hl; cbn [run_calls queue_calls].
  - exists k. by split_and!.
  - apply Forall_cons in Hl as [Hc Hl].
    destruct (keyboard_put_char_wp k c Hk Hc) as ([] & k1 & Hrun & s & -> & Hs & _ & Hq).
    destruct (IH (set_kbd s k) Hs Hl) as (k' & Hrun' & H1 & H2 & H3 & H4). simpl in *. rewrite Hq in *.
    exists k'. rewrite (bind_ok _ _ _ _ _ Hrun). by split_and!.
  - apply Forall_cons in Hl as [_ Hl].
    destruct (keyboard_getchar_wp k Hk) as (r & k1 & Hrun & Hr). rewrite (bind_ok _ _ _ _ _ Hrun).
    destruct (queue_of (k_kbd k)) as [|c q] eqn:Hqk.
    + destruct Hr as [-> ->]. destruct (IH k Hk Hl) as (k' & Hrun' & H1 & H2 & H3 & H4). rewrite Hqk in *.
      exists k'. rewrite (bind_ok _ _ _ _ _ Hrun'). destruct (queue_calls [] l). by split_and!.
    + destruct Hr as [-> (s & -> & Hs & _ & Hqs)].
      destruct (IH (set_kbd s k) Hs Hl) as (k' & Hrun' & H1 & H2 & H3 & H4). simpl in *. rewrite Hqs in *.
      exists k'. rewrite (bind_ok _ _ _ _ _ Hrun'). destruct (queue_calls q l). by split_and!.
Qed.

(** C22. Typing round trip: when the scancodes of pressing and releasing the keys
    of a text on a US keyboard arrive as keyboard interrupts, with room in the
    buffer, the text is what the buffer has gained; Shift is released, and every
    interrupt was acknowledged to the master controller exactly once and to the
    slave never. *)
Theorem typing_round_trip (keys : trace -> list Z) `{!KbdSource keys} k text rest :
  kbd_ok (k_kbd k) -> isr_ok (k_isr k) -> shift_active (k_kbd k) = 0 ->
  Forall typable text -> (length (queue_of (k_kbd k)) + length text <= 256)%nat ->
  keys (k_trace k) = type_text text ++ rest ->
  exists k', deliver (length (type_text text)) k = Ok (tt, k') /\
    queue_of (k_kbd k') = queue_of (k_kbd k) ++ text /\
    shift_active (k_kbd k') = 0 /\ kbd_ok (k_kbd k') /\ keys (k_trace k') = rest /\
    pic_eois (master (k_trace k')) = (length (type_text text) + pic_eois (master (k_trace k)))%nat /\
    pic_eois (slave (k_trace k')) = pic_eois (slave (k_trace k)).
Proof.
  intros Hk Hi Hsh Ht Hroom Hkeys.
  destruct (keys_loop_wp keys false _ (type_text text) rest k 0 (interrupt_takes_keys keys) ltac:(done) Hk Hi Hkeys) as ([] & k' & Hrun & H1 & H2 & H3 & H4 & H5 & H6 & _).
  rewrite Hsh, (type_text_decode text Ht) in *. cbn [fst snd] in *.
  exists k'. split_and!; try done. by rewrite H4, queue_put_all.
Qed.

(** C32. [keyboard_read_char] does not lose or reorder input and does not wait
    when there is some: it returns the oldest buffered character; with an empty
    buffer it sleeps until the first scancode that yields a character, returns
    that character, and leaves the scancodes after it unread. *)
Theorem keyboard_read_char_returns (keys : trace -> list Z) `{!KbdSource keys} k :
  kbd_ok (k_kbd k) -> isr_ok (k_isr k) -> (length (keys (k_trace k)) < poll_fuel)%nat ->
  (queue_of (k_kbd k) = [] -> snd (decode_all (shift_active (k_kbd k)) (keys (k_trace k))) <> []) ->
  exists c k', keyboard_read_char k = Ok (c, k') /\ kbd_ok (k_kbd k') /\ k_mem k' = k_mem k /\
    match queue_of (k_kbd k) with
    | c0 :: q => c = c0 /\ queue_of (k_kbd k') = q /\ k_trace k' = k_trace k
    | [] => queue_of (k_kbd k') = [] /\ exists used, keys (k_trace k) = used ++ keys (k_trace k') /\
        snd (decode_all (shift_active (k_kbd k)) used) = [c]
    end.
Proof.
  intros Hk Hi Hfuel Hne.
  set (k0 := set_cpu (set_cpu_if true (k_cpu k)) k).
  assert (exists c k1, keyboard_getchar k1 = Ok (c, after keyboard_getchar k1) /\ is_u8 c /\
    while_fuel poll_fuel (b <- keyboard_has_char ;; ret (negb b)) hlt k0 = Ok (tt, k1) /\
    kbd_ok (k_kbd (after keyboard_getchar k1)) /\ k_mem (after keyboard_getchar k1) = k_mem k /\
    match queue_of (k_kbd k) with
    | c0 :: q => c = c0 /\ queue_of (k_kbd (after keyboard_getchar k1)) = q /\
        k_trace (after keyboard_getchar k1) = k_trace k
    | [] => queue_of (k_kbd (after keyboard_getchar k1)) = [] /\
        exists used, keys (k_trace k) = used ++ keys (k_trace (after keyboard_getchar k1)) /\
        snd (decode_all (shift_active (k_kbd k)) used) = [c]
    end) as (c & k1 & Hget & Hc & Hwait & H1 & H2 & H3).
  2: { exists c, (after keyboard_getchar k1). split_and!; try done.
       unfold keyboard_read_char, enable_interrupts, bind, modify. fold k0. unfold bind in Hwait.
       rewrite Hwait, Hget. unfold ret. by rewrite u8_small. }
  destruct (queue_of (k_kbd k)) as [|c0 q] eqn:Hq.
  - destruct (wait_char_wp keys (keys (k_trace k)) poll_fuel k0) as ([] & k1 & Hwait & used & c & rest & Hscs & Hrest & Hdec & Hk1 & Hq1 & Hm1);
      try done; [by apply Hne|].
    destruct (after_wp _ _ _ (keyboard_getchar_wp k1 Hk1)) as (r & Hget & Hr). rewrite Hq1 in Hr.
    destruct Hr as [-> (s' & Hs & Hok & _ & Hqs)]. exists c, k1. rewrite Hs in *. split_and!; try done.
    + pose proof (kbd_queue_bytes _ Hk1) as Hb. rewrite Hq1 in Hb. by inversion Hb.
    + exists used. split; [|done]. cbn [k_trace set_kbd]. by rewrite Hrest.
  - destruct (after_wp _ _ _ (keyboard_getchar_wp k0 Hk)) as (r & Hget & Hr). change (k_kbd k0) with (k_kbd k) in Hr.
    rewrite Hq in Hr. destruct Hr as [-> (s' & Hs & Hok & _ & Hqs)]. exists c0, k0. rewrite Hs in *. split_and!; try done.
    + pose proof (kbd_queue_bytes _ Hk) as Hb. rewrite Hq in Hb. by inversion Hb.
    + destruct poll_fuel; [lia|]. cbn [while_fuel]. rewrite (bind_ok _ _ _ _ _ (no_char_eq k0 Hk)).
      by rewrite bool_decide_eq_false_2 by (change (k_kbd k0) with (k_kbd k); by rewrite Hq).
Qed.

(** C25. Every interrupt is acknowledged exactly as its vector demands: whatever
    handlers are registered, [interrupt_handler] returns, and afterwards the
    master controller has had one EOI more for vectors 32..47 and the slave one
    for vectors 40..47; no other state of the controllers has changed. *)
Theorem interrupts_acknowledged (rx : trace -> list Z) `{!UartRx rx} k v :
  0 <= v < 256 -> fb_ok k -> kbd_ok (k_kbd k) -> length (k_isr k) = 256%nat ->
  (length (rx (k_trace k)) < poll_fuel)%nat ->
  exists k', interrupt_handler v k = Ok (tt, k') /\
    master (k_trace k') = (if (32 <=? v) && (v <=? 47) then pic_command (master (k_trace k)) PIC_ACK else master (k_trace k)) /\
    slave (k_trace k') = (if (40 <=? v) && (v <=? 47) then pic_command (slave (k_trace k)) PIC_ACK else slave (k_trace k)) /\
    k_isr k' = k_isr k.
Proof.
  intros Hv Hfb Hk Hlen Hrx. destruct (dispatch_quiet rx k v Hv Hfb Hk Hlen Hrx) as (m & Heq & [] & k1 & Hrun & (evs & Hevs & Hnp) & Hisr & _).
  exists (set_trace (ack_events v ++ k_trace k1) k1).
  rewrite Heq, (bind_ok _ _ _ _ _ Hrun), ack_when_eq by done. cbn [k_trace set_trace k_isr].
  destruct (ack_events_pics v (k_trace k1) Hv) as [-> ->]. rewrite Hevs.
  destruct (pics_app evs (k_trace k) Hnp) as [-> ->]. by split_and!.
Qed.

(** An exception no handler was registered for is reported: the console shows
    the message and the vector in decimal, in light red on black, and neither
    interrupt controller is addressed. *)
Theorem unhandled_exception_reported k v :
  0 <= v < 32 -> fb_ok k -> length (k_isr k) = 256%nat -> k_isr k !! Z.to_nat v = Some H_null ->
  exists k', interrupt_handler v k = Ok (tt, k') /\ fb_ok k' /\
    term_of k' = term_write (Term (cells_of (k_mem k)) (cursor_pos (k_fb k)) FB_LIGHT_RED FB_BLACK) (exception_text v) /\
    only_differ (k_mem k) (k_mem k') fb 4000 /\
    master (k_trace k') = master (k_trace k) /\ slave (k_trace k') = slave (k_trace k).
Proof.
  intros Hv Hfb Hlen Hnull. destruct (exception_wp k v Hv Hfb Hlen Hnull) as ([] & k1 & Hrun & [Hok Ht Hm _ (evs & Hevs & Hcrtc)]).
  exists k1. cbn [k_trace set_fb] in Hevs. rewrite Hevs. destruct (pics_app evs (k_trace k) (crtc_not_pic _ Hcrtc)) as [-> ->]. by split_and!.
Qed.

(** C34. [keyboard_init] terminates once it has read what the controller held: the
    flush loop, which has no bound of its own, ends after as many reads as there
    were scancodes.  Then the controller and the ring buffer are empty and the
    handler is installed at vector 33; the Shift state is the one variable of the
    driver it leaves as it was. *)
Theorem keyboard_init_resets (keys : trace -> list Z) `{!KbdSource keys} k :
  (forall tr, (Z.land (u8 (env_in tr KBD_STATUS_PORT)) 1 =? 0) = bool_decide (keys tr = [])) ->
  length (k_isr k) = 256%nat -> length (kbd_buffer (k_kbd k)) = 256%nat -> Forall is_u8 (kbd_buffer (k_kbd k)) ->
  (length (keys (k_trace k)) < poll_fuel)%nat ->
  exists k', keyboard_init k = Ok (tt, k') /\ kbd_ok (k_kbd k') /\ queue_of (k_kbd k') = [] /\
    keys (k_trace k') = [] /\ k_isr k' = <[33%nat := keyboard_interrupt]> (k_isr k) /\
    shift_active (k_kbd k') = shift_active (k_kbd k) /\ k_mem k' = k_mem k.
Proof.
  intros Hst Hlen Hbuf Hbytes Hfuel. unfold keyboard_init, modify, bind at 1. unfold bind at 1.
  rewrite register_interrupt_handler_eq by done. change (Z.to_nat (u8 33)) with 33%nat.
  match goal with |- context [while_fuel _ _ _ ?k1] => set (k0 := k1) end.
  destruct (flush_wp keys Hst poll_fuel k0 Hfuel) as ([] & k' & Hrun & tr' & -> & Hkeys).
  exists (set_trace tr' k0). split_and!; try done. constructor; try done.
  cbn [k_kbd set_trace set_isr set_kbd k0 kbd_buffer]. by rewrite Hbuf.
Qed.

End Props.

(** * Instances *)

Lemma ring_buffer_fifo_witness :
  let E := sample_env [] [] in
  exists k', run_calls [Put 97; Get; Get; Put 98] sample_ready = Ok ([97; -1], k') /\
    kbd_ok (k_kbd k') /\ queue_of (k_kbd k') = [98] /\
    k_mem k' = k_mem sample_ready /\ k_trace k' = k_trace sample_ready.
Proof.
  intros E. apply (ring_buffer_fifo [Put 97; Get; Get; Put 98] sample_ready); [exact sample_ready_kbd|].
  repeat constructor; done.
Defined.

(** Typing ["Hi"]: Shift and h, then i. *)
Lemma typing_round_trip_witness :
  let E := sample_env [] (type_text (str "Hi")) in let F := sample_fuel in
  exists k', deliver 6 sample_ready = Ok (tt, k') /\
    queue_of (k_kbd k') = [] ++ str "Hi" /\
    shift_active (k_kbd k') = 0 /\ kbd_ok (k_kbd k') /\ pending 0x60 (type_text (str "Hi")) (k_trace k') = [] /\
    pic_eois (master (k_trace k')) = 6%nat /\ pic_eois (slave (k_trace k')) = 0%nat.
Proof.
  intros E F. assert (Forall is_u8 (type_text (str "Hi"))) as Hu by (repeat constructor; done).
  pose proof (sample_kbd_source _ Hu) as HS.
  apply (typing_round_trip (pending 0x60 (type_text (str "Hi"))) sample_ready (str "Hi") []).
  - exact sample_ready_kbd.
  - exact sample_isr_ok.
  - reflexivity.
  - apply Forall_cons_2; [left; split; [discriminate|reflexivity]|]. apply Forall_cons_2; [left; split; [discriminate|reflexivity]|apply Forall_nil_2].
  - change (2 <= 256)%nat; lia.
  - reflexivity.
Defined.

Lemma keyboard_read_char_returns_witness :
  let E := sample_env [] [0x2A; 0x1E] in let F := sample_fuel in
  exists c k', keyboard_read_char sample_ready = Ok (c, k') /\ queue_of (k_kbd k') = [] /\
    exists used, [0x2A; 0x1E] = used ++ pending 0x60 [0x2A; 0x1E] (k_trace k') /\
      snd (decode_all 0 used) = [c].
Proof.
  intros E F. assert (Forall is_u8 [0x2A; 0x1E]) as Hu by (repeat constructor; done).
  pose proof (sample_kbd_source _ Hu) as HS.
  destruct (keyboard_read_char_returns (pending 0x60 [0x2A; 0x1E]) sample_ready sample_ready_kbd sample_isr_ok)
    as (c & k' & H1 & _ & _ & H2 & H3).
  - unfold poll_fuel, F, sample_fuel. cbn. lia.
  - intros _. discriminate.
  - exists c, k'. auto.
Defined.

Lemma interrupts_acknowledged_witness :
  let E := sample_env [] [30] in let F := sample_fuel in
  exists k', interrupt_handler 33 sample_ready = Ok (tt, k') /\
    master (k_trace k') = pic_command pic_reset PIC_ACK /\ slave (k_trace k') = pic_reset.
Proof.
  intros E F.
  pose proof (sample_uart_rx [] [30] ltac:(apply Forall_nil_2)) as HR.
  destruct (interrupts_acknowledged (pending 0x3F8 []) sample_ready 33) as (k' & H1 & H2 & H3 & _).
  - lia.
  - exact sample_ready_fb.
  - exact sample_ready_kbd.
  - reflexivity.
  - unfold poll_fuel, F, sample_fuel. cbn. lia.
  - exists k'. auto.
Defined.

Lemma unhandled_exception_reported_witness :
  let E := sample_env [] [] in let F := sample_fuel in
  exists k', interrupt_handler 14 sample_ready = Ok (tt, k') /\
    term_of k' = term_write (Term (cells_of (k_mem sample_ready)) 0 FB_LIGHT_RED FB_BLACK) (exception_text 14).
Proof.
  intros E F. destruct (unhandled_exception_reported sample_ready 14) as (k' & H1 & _ & H2 & _).
  - lia.
  - exact sample_ready_fb.
  - reflexivity.
  - reflexivity.
  - exists k'. auto.
Defined.

Lemma keyboard_init_resets_witness :
  let E := sample_env [] [30; 158] in let F := sample_fuel in
  exists k', keyboard_init sample_kernel = Ok (tt, k') /\ queue_of (k_kbd k') = [] /\
    pending 0x60 [30; 158] (k_trace k') = [].
Proof.
  intros E F. assert (Forall is_u8 [30; 158]) as Hu by (repeat constructor; done).
  pose proof (sample_kbd_source _ Hu) as HS.
  destruct (keyboard_init_resets (pending 0x60 [30; 158]) sample_kernel) as (k' & H1 & _ & H2 & H3 & _).
  - intros tr. cbn. by destruct (bool_decide _).
  - reflexivity.
  - reflexivity.
  - apply Forall_replicate. word_solve.
  - unfold poll_fuel, F, sample_fuel. cbn. lia.
  - exists k'. auto.
Defined.
