(* ===== verification/Producer.v ===== *)
(** The interrupt side of the ring buffer: a handler may add characters behind those
    that wait, and neither reads nor moves the read pointer. *)
From S2P Require Import Prelude State Machine Framebuffer Isr Keyboard Serial Pic Interrupt.

(** * Producers *)

Definition move_head (h : Z) (s : kbd_state) : kbd_state :=
  KbdState (shift_active s) (kbd_buffer s) h (kbd_buf_tail s) (kbd_buf_count s).
Definition with_head (h : Z) (k : kernel) : kernel := set_kbd (move_head h (k_kbd k)) k.

Definition at_head {A} (h : Z) (r : outcome (A * kernel)) : outcome (A * kernel) :=
  match r with Ok (a, k) => Ok (a, with_head h k) | Fault => Fault | Hang => Hang end.

(** The characters that waited still wait, in front. *)
Definition queue_grows (s s' : kbd_state) : Prop := kbd_ok s' /\ queue_of s `prefix_of` queue_of s'.

Record produces {A} (m : K A) : Prop := Produces {
  pr_head : forall h k, m (with_head h k) = at_head h (m k);
  pr_queue : forall k a k', kbd_ok (k_kbd k) -> m k = Ok (a, k') -> queue_grows (k_kbd k) (k_kbd k')
}.

Create HintDb producer.

Section Closure.
Context {A B : Type}.

Lemma produces_ret (a : A) : produces (ret a).
Proof. split; [done|]. by intros k ? ? Hk [= <- <-]. Qed.

Lemma produces_bind (m : K A) (f : A -> K B) : produces m -> (forall a, produces (f a)) -> produces (bind m f).
Proof.
  intros [Hm1 Hm2] Hf. split.
  - intros h k. unfold bind. rewrite Hm1. destruct (m k) as [[a k1]| |]; [|done..]. apply Hf.
  - intros k b k' Hk. unfold bind. destruct (m k) as [[a k1]| |] eqn:E; [|done..]. intros Hb.
    destruct (Hm2 k a k1 Hk E) as [H1 H2], (pr_queue _ (Hf a) k1 b k' ltac:(done) Hb) as [H3 H4]. split; [done|]. by transitivity (queue_of (k_kbd k1)).
Qed.

(** What does not touch the buffer. *)
Lemma produces_gets (f : kernel -> A) : (forall h k, f (with_head h k) = f k) -> produces (gets f).
Proof. intros Hf. split; [intros h k; unfold gets; cbn; by rewrite Hf|]. by intros k ? ? Hk [= <- <-]. Qed.

Lemma produces_option (o : option A) : produces (from_option o).
Proof. destruct o; [apply produces_ret|]. by split; [|intros k a k' Hk [=]]. Qed.
Lemma produces_hang : produces (hang : K A).
Proof. by split; [|intros k a k' Hk [=]]. Qed.
Lemma produces_fault : produces (fault : K A).
Proof. by split; [|intros k a k' Hk [=]]. Qed.
Lemma produces_if (b : bool) (m n : K A) : produces m -> produces n -> produces (if b then m else n).
Proof. by destruct b. Qed.
End Closure.

Lemma produces_modify f :
  (forall h k, f (with_head h k) = with_head h (f k)) -> (forall k, k_kbd (f k) = k_kbd k) -> produces (modify f).
Proof. intros H1 H2. split; [intros h k; unfold modify; cbn; by rewrite H1|]. intros k a k' Hk [= <- <-]. by rewrite H2. Qed.

Lemma produces_for n : forall lo step body, (forall i, produces (body i)) -> produces (for_loop lo step n body).
Proof.
  induction n as [|n IH]; intros lo step body Hb; cbn [for_loop]; [apply produces_ret|]. apply produces_bind; [apply Hb|]. intros _. by apply IH.
Qed.
Lemma produces_up lo hi body : (forall i, produces (body i)) -> produces (for_up lo hi body).
Proof. apply produces_for. Qed.
Lemma produces_up2 lo hi body : (forall i, produces (body i)) -> produces (for_up2 lo hi body).
Proof. apply produces_for. Qed.
Lemma produces_while n cond body : produces cond -> produces body -> produces (while_fuel n cond body).
Proof.
  intros Hc Hb. induction n as [|n IH]; cbn [while_fuel]; [apply produces_hang|]. apply produces_bind; [done|]. intros b.
  apply produces_if; [|apply produces_ret]. by apply produces_bind.
Qed.

Lemma produces_gets_fb : produces (gets k_fb).
Proof. by apply produces_gets. Qed.
Lemma produces_gets_isr : produces (gets k_isr).
Proof. by apply produces_gets. Qed.

Lemma produces_load8 a : produces (load8 a).
Proof.
  split; [intros h k; unfold load8, bind, gets, id; cbn; by destruct (k_mem k !! u32 a)|].
  intros k v k' Hk. unfold load8, bind, gets, id. destruct (k_mem k !! u32 a); [|done]. by intros [= _ <-].
Qed.
Lemma produces_store8 a v : produces (store8 a v).
Proof.
  split; [intros h k; unfold store8, bind, gets, id; cbn; by destruct (k_mem k !! u32 a)|].
  intros k u k' Hk. unfold store8, bind, gets, id. destruct (k_mem k !! u32 a); [|done]. by intros [= <- <-].
Qed.

#[export] Hint Resolve produces_ret produces_option produces_hang produces_fault produces_gets_fb produces_gets_isr produces_load8 produces_store8 : producer.

(** Structure first, then the hints. *)
Ltac produce := repeat (cbv zeta; lazymatch goal with
  | |- forall _, _ => intro
  | |- produces (bind (gets k_kbd) _) => fail
  | |- produces (bind _ _) => apply produces_bind
  | |- produces (if _ then _ else _) => apply produces_if
  | |- produces (for_up _ _ _) => apply produces_up
  | |- produces (for_up2 _ _ _) => apply produces_up2
  | |- produces (while_fuel _ _ _) => apply produces_while
  | |- produces _ => solve [eauto with producer]
  end).

(** * Ports, console and controllers *)

Section Devices.
Context `{Env} `{PollFuel}.

Lemma produces_outb p v : produces (outb p v).
Proof. by apply produces_modify. Qed.
Lemma produces_inb p : produces (inb p).
Proof. split; [done|]. intros k v k' Hk. unfold inb, bind, gets, modify, ret. by intros [= <- <-]. Qed.
Lemma produces_enable : produces enable_interrupts.
Proof. by apply produces_modify. Qed.
Lemma produces_disable : produces disable_interrupts.
Proof. by apply produces_modify. Qed.
Lemma produces_cursor p : produces (set_cursor_pos p).
Proof. by apply produces_modify. Qed.
Lemma produces_color fg bg : produces (fb_set_color fg bg).
Proof. by apply produces_modify. Qed.
Lemma produces_buf b i : produces (buf_get b i).
Proof. destruct b; [apply produces_load8|apply produces_option]. Qed.
End Devices.
#[export] Hint Resolve produces_outb produces_inb produces_enable produces_disable produces_cursor produces_color produces_buf : producer.

Section Drivers.
Context `{Env} `{PollFuel}.

Lemma produces_put_char c : produces (fb_put_char c).
Proof. unfold fb_put_char, fb_write_cell, fb_scroll, fb_move_cursor, fb_blank. produce. Qed.
Lemma produces_unhandled v : produces (unhandled_exception v).
Proof. pose proof produces_put_char. unfold unhandled_exception, write, fb_write. produce. Qed.
Lemma produces_ack irq : produces (pic_ack irq).
Proof. unfold pic_ack. produce. Qed.
Lemma produces_receive com : produces (serial_receive com).
Proof. unfold serial_receive. produce. Qed.
End Drivers.
#[export] Hint Resolve produces_unhandled produces_ack produces_receive : producer.

(** * The ring buffer *)

Section Buffer.
Context `{Env} `{PollFuel}.

Lemma produces_kbd_put c : produces (keyboard_put_char c).
Proof.
  split.
  - intros h k. unfold keyboard_put_char, bind, gets. cbn [with_head set_kbd k_kbd move_head kbd_buf_count kbd_buffer kbd_buf_tail].
    destruct (_ <? _); [|done]. by destruct (arr_set _ _ _).
  - intros k a k' Hk Hrun. assert (keyboard_put_char c k = keyboard_put_char (u8 c) k) as E
      by (unfold keyboard_put_char; by rewrite (u8_small (u8 c)) by apply u8_range).
    destruct (keyboard_put_char_wp k (u8 c) Hk (u8_range c)) as ([] & k1 & Hrun1 & s' & -> & Hs' & _ & Hq).
    rewrite E, Hrun1 in Hrun. simplify_eq. split; [done|]. cbn [k_kbd set_kbd]. rewrite Hq. unfold queue_put.
    destruct (_ <? _); [by apply prefix_app_r|done].
Qed.

Lemma produces_shift b : produces (set_shift_active b).
Proof. split; [done|]. intros k a k' Hk [= <- <-]. split; [by destruct Hk; constructor|done]. Qed.
End Buffer.
#[export] Hint Resolve produces_kbd_put produces_shift : producer.

Section Handlers.
Context `{Env} `{PollFuel}.

(** The one read of the keyboard's variables by its handler is of the Shift state. *)
Lemma produces_shifted {A} (f : Z -> K A) :
  (forall b, produces (f b)) -> produces (s <- gets k_kbd ;; f (shift_active s)).
Proof.
  intros Hf. split; [intros h k; apply (pr_head _ (Hf _))|]. intros k a k' Hk Hrun. exact (pr_queue _ (Hf _) k a k' Hk Hrun).
Qed.

Lemma produces_kbd_handler : produces keyboard_interrupt_handler.
Proof.
  unfold keyboard_interrupt_handler, read_scan_code. produce.
  apply (produces_shifted (fun b => c <- from_option (if negb (b =? 0) then _ else _) ;; when negb (c =? 0) do keyboard_put_char c)). produce.
Qed.

Lemma produces_serial_handler : produces serial_interrupt_handler.
Proof. unfold serial_interrupt_handler, serial_read_char. produce. Qed.

Lemma produces_interrupt v : produces (interrupt_handler v).
Proof.
  pose proof produces_kbd_handler. pose proof produces_serial_handler. unfold interrupt_handler. produce.
  destruct a0; cbn [call_handler]; eauto with producer.
Qed.

Lemma produces_take v : produces (take_interrupt v).
Proof. pose proof (produces_interrupt v). unfold take_interrupt. produce. by apply produces_modify. Qed.
End Handlers.
