(* ===== verification/Interleave.v ===== *)
(** Interrupts between the accesses of a system call.

    SYS_READ runs with interrupts enabled, so a handler can come between any two
    accesses of [keyboard_getchar] to the ring buffer, and between the last poll and
    [hlt].  Handlers themselves run with interrupts disabled and are not interrupted. *)
From stdpp Require Import relations.
From S2P Require Import Prelude State Machine Framebuffer Isr Keyboard Serial Pic Interrupt Producer.

(** * keyboard_getchar, one access at a time *)

(** Where it is, with what it holds in registers: the compiler does not optimise, so
    every use of a static variable is a load, and [kbd_buf_count--] is a load and a
    store. *)
Inductive getchar_pc :=
| G_test                   (* if (kbd_buf_count == 0) *)
| G_head                   (* kbd_buffer[kbd_buf_head]: load kbd_buf_head *)
| G_slot (h : Z)           (* load kbd_buffer[h] *)
| G_next (c : Z)           (* (kbd_buf_head + 1) % KBD_BUFFER_SIZE: load kbd_buf_head *)
| G_advance (c h : Z)      (* store kbd_buf_head *)
| G_count (c : Z)          (* kbd_buf_count--: load *)
| G_store (c n : Z)        (* kbd_buf_count--: store *)
| G_return (r : Z).

Definition set_count (n : Z) (s : kbd_state) : kbd_state :=
  KbdState (shift_active s) (kbd_buffer s) (kbd_buf_head s) (kbd_buf_tail s) n.

Definition getchar_step (p : getchar_pc) : K getchar_pc :=
  s <- gets k_kbd ;;
  match p with
  | G_test => ret (if kbd_buf_count s =? 0 then G_return (-1) else G_head)
  | G_head => ret (G_slot (kbd_buf_head s))
  | G_slot h => c <- from_option (arr_get (kbd_buffer s) h) ;; ret (G_next c)
  | G_next c => ret (G_advance c (kbd_buf_head s))
  | G_advance c h => modify (set_kbd (move_head (u32 (h + 1) mod KBD_BUFFER_SIZE) s)) ;;; ret (G_count c)
  | G_count c => ret (G_store c (kbd_buf_count s))
  | G_store c n => modify (set_kbd (set_count (u32 (n - 1)) s)) ;;; ret (G_return (u8 c))
  | G_return r => ret (G_return r)
  end.

(** Undisturbed, the accesses are the function. *)
Fixpoint getchar_run (n : nat) (p : getchar_pc) : K Z :=
  match p, n with
  | G_return r, _ => ret r
  | _, O => hang
  | _, S n' => p' <- getchar_step p ;; getchar_run n' p'
  end.

Lemma getchar_run_eq k : getchar_run 7 G_test k = keyboard_getchar k.
Proof.
  cbn [getchar_run]. unfold keyboard_getchar, getchar_step, bind, gets, modify, ret.
  destruct (kbd_buf_count (k_kbd k) =? 0); [done|]. cbn [getchar_run]. unfold getchar_step, bind, gets, modify, ret.
  by destruct (arr_get _ _).
Qed.

(** * Interleavings *)

Section Interleave.
Context `{Env} `{PollFuel}.

Definition irq (k k' : kernel) : Prop := exists v, 0 <= v < 48 /\ take_interrupt v k = Ok (tt, k').

(** Between the load and the store of the decrement. *)
Definition in_decrement (p : getchar_pc) : bool := match p with G_store _ _ => true | _ => false end.

(** An interrupt may come anywhere, but inside the decrement only if [torn]. *)
Inductive interleaved (torn : bool) : getchar_pc * kernel -> getchar_pc * kernel -> Prop :=
| il_own p k p' k' : getchar_step p k = Ok (p', k') -> interleaved torn (p, k) (p', k')
| il_irq p k k' : (in_decrement p = true -> torn = true) -> irq k k' -> interleaved torn (p, k) (p, k').

(** The accesses still to come. *)
Definition remaining (p : getchar_pc) : nat :=
  match p with
  | G_test => 7 | G_head => 6 | G_slot _ => 5 | G_next _ => 4 | G_advance _ _ => 3 | G_count _ => 2 | G_store _ _ => 1 | G_return _ => 0
  end.

(** ** What an interrupt keeps *)

Lemma with_head_id k : with_head (kbd_buf_head (k_kbd k)) k = k.
Proof. by destruct k as [? ? ? ? [] ? ? ? ? ?]. Qed.

Lemma with_head_twice h h' k : with_head h (with_head h' k) = with_head h k.
Proof. done. Qed.

Lemma irq_head h k k' : irq k k' -> irq (with_head h k) (with_head h k').
Proof. intros (v & Hv & Hrun). exists v. split; [done|]. by rewrite (pr_head _ (produces_take v)), Hrun. Qed.

Lemma irq_keeps_head k k' : irq k k' -> kbd_buf_head (k_kbd k') = kbd_buf_head (k_kbd k).
Proof.
  intros (v & Hv & Hrun). pose proof (pr_head _ (produces_take v) (kbd_buf_head (k_kbd k)) k) as E.
  rewrite with_head_id, Hrun in E. cbn [at_head] in E. by injection E as ->.
Qed.

(** The state behind an advanced read pointer. *)
Lemma irq_head_inv h k k' :
  irq (with_head h k) k' -> exists k1, irq k k1 /\ k' = with_head h k1.
Proof.
  intros Hi. pose proof (irq_head (kbd_buf_head (k_kbd k)) _ _ Hi) as Hi'. rewrite with_head_twice, with_head_id in Hi'.
  exists (with_head (kbd_buf_head (k_kbd k)) k'). split; [done|]. rewrite with_head_twice.
  pose proof (irq_keeps_head _ _ Hi) as Hh. cbn in Hh. by rewrite <- Hh, with_head_id.
Qed.

Lemma irq_grows k k' : kbd_ok (k_kbd k) -> irq k k' -> queue_grows (k_kbd k) (k_kbd k').
Proof. intros Hk (v & _ & Hrun). exact (pr_queue _ (produces_take v) k tt k' Hk Hrun). Qed.

Lemma irqs_ok k k' : kbd_ok (k_kbd k) -> rtc irq k k' -> kbd_ok (k_kbd k').
Proof. intros Hk Hi. induction Hi as [k|k k1 k' Hi _ IH]; [done|]. by apply IH, (irq_grows k). Qed.

(** The oldest character. *)
Definition front (s : kbd_state) : option Z := arr_get (kbd_buffer s) (kbd_buf_head s).

Lemma front_queue s c q : kbd_ok s -> queue_of s = c :: q -> front s = Some c.
Proof.
  intros Hs Hq. pose proof (queue_length s Hs) as Hl. rewrite Hq in Hl. cbn [length] in Hl. destruct Hs as [Hlen Hh Hc Ht Hb].
  change KBD_BUFFER_SIZE with 256 in *. unfold queue_of in Hq. rewrite seqZ_cons in Hq by lia. injection Hq as Hq _.
  unfold ring_slot in Hq. rewrite Z.add_0_r, Z.mod_small in Hq by lia. unfold front.
  destruct (arr_get_Some (kbd_buffer s) (kbd_buf_head s)) as [x Hx]; [lia|]. rewrite Hx in *. by f_equal.
Qed.

Lemma queue_nonempty s : kbd_ok s -> 0 < kbd_buf_count s -> exists c q, queue_of s = c :: q.
Proof.
  intros Hs Hc. pose proof (queue_length s Hs) as Hl. destruct (queue_of s) as [|c q]; [cbn in Hl; lia|]. eauto.
Qed.

Lemma irq_front k k' c :
  kbd_ok (k_kbd k) -> 0 < kbd_buf_count (k_kbd k) -> front (k_kbd k) = Some c -> irq k k' ->
  kbd_ok (k_kbd k') /\ 0 < kbd_buf_count (k_kbd k') /\ front (k_kbd k') = Some c.
Proof.
  intros Hk Hc Hf Hi. destruct (irq_grows k k' Hk Hi) as [Hk' [l Hl]]. destruct (queue_nonempty _ Hk Hc) as (x & q & Hq).
  rewrite (front_queue _ _ _ Hk Hq) in Hf. simplify_eq. rewrite Hq in Hl. cbn [app] in Hl.
  split_and!; [done| |exact (front_queue _ _ _ Hk' Hl)]. rewrite <- (queue_length _ Hk'), Hl. cbn [length]. lia.
Qed.

(** ** The linearization *)

Lemma getchar_eq k c :
  0 < kbd_buf_count (k_kbd k) -> front (k_kbd k) = Some c ->
  keyboard_getchar k = Ok (u8 c, set_kbd (set_count (u32 (kbd_buf_count (k_kbd k) - 1))
    (move_head (u32 (kbd_buf_head (k_kbd k) + 1) mod KBD_BUFFER_SIZE) (k_kbd k))) k).
Proof.
  intros Hc Hf. unfold keyboard_getchar, bind, gets, modify, ret. rewrite (proj2 (Z.eqb_neq _ 0)) by lia.
  unfold front in Hf. by rewrite Hf.
Qed.

(** In [k], [keyboard_getchar] is at [p]; the interrupts taken so far lead from [k0] to
    [k1], and its accesses so far can be moved behind them. *)
Inductive simulates (k0 : kernel) : getchar_pc -> kernel -> Prop :=
| sim_test k : rtc irq k0 k -> kbd_ok (k_kbd k) -> simulates k0 G_test k
| sim_before p k c :
    rtc irq k0 k -> kbd_ok (k_kbd k) -> 0 < kbd_buf_count (k_kbd k) -> front (k_kbd k) = Some c ->
    p = G_head \/ p = G_slot (kbd_buf_head (k_kbd k)) \/ p = G_next c \/ p = G_advance c (kbd_buf_head (k_kbd k)) ->
    simulates k0 p k
| sim_after p k1 c :
    rtc irq k0 k1 -> kbd_ok (k_kbd k1) -> 0 < kbd_buf_count (k_kbd k1) -> front (k_kbd k1) = Some c ->
    p = G_count c \/ p = G_store c (kbd_buf_count (k_kbd k1)) ->
    simulates k0 p (with_head (u32 (kbd_buf_head (k_kbd k1) + 1) mod KBD_BUFFER_SIZE) k1)
| sim_done r k k1 k2 :
    rtc irq k0 k1 -> keyboard_getchar k1 = Ok (r, k2) -> rtc irq k2 k -> simulates k0 (G_return r) k.

(** Own accesses succeed, come closer to the end and keep the relation. *)
Lemma own_simulates k0 p k :
  simulates k0 p k -> (remaining p > 0)%nat ->
  exists p' k', getchar_step p k = Ok (p', k') /\ simulates k0 p' k' /\ (remaining p' < remaining p)%nat.
Proof.
  intros Hs Hp. destruct Hs as [k Hi Hk|p k c Hi Hk Hc Hf Hpc|p k1 c Hi Hk Hc Hf Hpc|r k k1 k2 Hi Hg Hi2]; [| | |cbn in Hp; lia].
  - unfold getchar_step, bind, gets, ret. destruct (Z.eqb_spec (kbd_buf_count (k_kbd k)) 0) as [E|E]; eexists _, _; (split; [done|]).
    + split; [|cbn; lia]. apply (sim_done k0 (-1) k k k); [done| |done]. unfold keyboard_getchar, bind, gets, ret. by rewrite E.
    + split; [|cbn; lia]. destruct (queue_nonempty (k_kbd k) Hk) as (c & q & Hq); [destruct Hk; lia|].
      apply (sim_before k0 _ k c); try done; [destruct Hk; lia|by apply (front_queue _ _ q)|by left].
  - unfold getchar_step, bind, gets, ret, modify. unfold front in Hf. destruct Hpc as [->|[->|[->| ->]]]; rewrite ?Hf; eexists _, _; (split; [done|]).
    + split; [|cbn; lia]. apply (sim_before k0 _ k c); auto.
    + split; [|cbn; lia]. apply (sim_before k0 _ k c); auto.
    + split; [|cbn; lia]. apply (sim_before k0 _ k c); auto.
    + split; [|cbn; lia]. apply (sim_after k0 _ k c); auto.
  - unfold getchar_step, bind, gets, ret, modify. destruct Hpc as [->| ->]; eexists _, _; (split; [done|]).
    + split; [|cbn; lia]. apply (sim_after k0 _ k1 c); auto.
    + split; [|cbn; lia]. eapply (sim_done k0 (u8 c) _ k1); [done|by apply getchar_eq|]. reflexivity.
Qed.

Lemma irq_simulates k0 p k k' : simulates k0 p k -> in_decrement p = false -> irq k k' -> simulates k0 p k'.
Proof.
  intros Hs Hp Hi. destruct Hs as [k Hr Hk|p k c Hr Hk Hc Hf Hpc|p k1 c Hr Hk Hc Hf Hpc|r k k1 k2 Hr Hg Hi2].
  - apply sim_test; [by eapply rtc_r|by apply (irq_grows k)].
  - destruct (irq_front k k' c Hk Hc Hf Hi) as (Hk' & Hc' & Hf'). apply (sim_before k0 p k' c); try done; [by eapply rtc_r|].
    by rewrite (irq_keeps_head k k' Hi).
  - apply irq_head_inv in Hi as (k2 & Hi & ->). destruct (irq_front k1 k2 c Hk Hc Hf Hi) as (Hk' & Hc' & Hf').
    rewrite <- (irq_keeps_head k1 k2 Hi). apply (sim_after k0 p k2 c); try done; [by eapply rtc_r|]. destruct Hpc as [->| ->]; [by left|done].
  - apply (sim_done k0 r k' k1 k2); [done|done|by eapply rtc_r].
Qed.

Lemma interleaved_simulates k0 p k p' k' :
  simulates k0 p k -> rtc (interleaved false) (p, k) (p', k') -> simulates k0 p' k'.
Proof.
  intros Hs Hi. remember (p, k) as x eqn:Ex. remember (p', k') as y eqn:Ey. revert p k Ex Hs.
  induction Hi as [z|x z y Hxz _ IH]; intros p k -> Hs; [by simplify_eq|].
  destruct z as [p1 k1]. apply (IH Ey p1 k1 eq_refl). inversion Hxz as [? ? ? ? Hrun|? ? ? Hd Hirq]; subst.
  - destruct (decide (remaining p = 0)%nat) as [E|E].
    + destruct p; try done. unfold getchar_step, bind, gets, ret in Hrun. by simplify_eq.
    + destruct (own_simulates k0 p k Hs) as (p2 & k2 & Hrun2 & Hs2 & _); [lia|]. rewrite Hrun in Hrun2. by simplify_eq.
  - apply (irq_simulates k0 p1 k k1); [done| |done]. destruct (in_decrement p1); [|done]. by specialize (Hd eq_refl).
Qed.

Lemma simulates_return k0 r k :
  simulates k0 (G_return r) k -> exists k1 k2, rtc irq k0 k1 /\ keyboard_getchar k1 = Ok (r, k2) /\ rtc irq k2 k.
Proof.
  intros Hs. remember (G_return r) as p eqn:E. destruct Hs as [|p k c ? ? ? ? Hpc|p k1 c ? ? ? ? Hpc|r' k k1 k2 ? ? ?]; [done|..].
  - by destruct Hpc as [->|[->|[->| ->]]].
  - by destruct Hpc as [->| ->].
  - injection E as ->. by exists k1, k2.
Qed.

(** ** The torn decrement *)

(** One character fewer is the front of the same slots. *)
Lemma queue_of_count s n : 0 <= n <= kbd_buf_count s -> queue_of (set_count n s) = take (Z.to_nat n) (queue_of s).
Proof.
  intros Hn. unfold queue_of. cbn [set_count kbd_buf_count]. rewrite <- fmap_take.
  assert (take (Z.to_nat n) (seqZ 0 (kbd_buf_count s)) = seqZ 0 n) as ->; [|done].
  replace (kbd_buf_count s) with (n + (kbd_buf_count s - n)) by lia. rewrite seqZ_app by lia.
  by rewrite take_app_le, take_ge by (rewrite length_seqZ; lia).
Qed.

(** The steps up to the load of the count. *)
Lemma getchar_to_store torn k c :
  0 < kbd_buf_count (k_kbd k) -> front (k_kbd k) = Some c ->
  rtc (interleaved torn) (G_test, k)
    (G_store c (kbd_buf_count (k_kbd k)), with_head (u32 (kbd_buf_head (k_kbd k) + 1) mod KBD_BUFFER_SIZE) k).
Proof.
  intros Hc Hf. eapply rtc_l; [apply il_own; unfold getchar_step, bind, gets, ret; by rewrite (proj2 (Z.eqb_neq _ 0)) by lia|].
  eapply rtc_l; [by apply il_own|]. eapply rtc_l; [apply il_own; unfold getchar_step, bind, gets, ret; unfold front in Hf; by rewrite Hf|].
  do 3 (eapply rtc_l; [by apply il_own|]). reflexivity.
Qed.

(** One character short of a good state: the invariant is broken, and what is put next
    uncovers the character that was not counted. *)
Lemma short_count k s q c :
  kbd_ok s -> queue_of s = q ++ [c] -> Z.of_nat (length q) < 255 ->
  let k' := set_kbd (set_count (Z.of_nat (length q)) s) k in
  queue_of (k_kbd k') = q /\ ~ kbd_ok (k_kbd k') /\
  forall d, exists k'', keyboard_put_char d k' = Ok (tt, k'') /\ queue_of (k_kbd k'') = q ++ [c].
Proof.
  intros Hs Hq Hn k'. pose proof (queue_length s Hs) as Hl. rewrite Hq, length_app in Hl. cbn [length] in Hl. pose proof Hs as [Hlen Hh Hc Ht Hb].
  change KBD_BUFFER_SIZE with 256 in *. set (n := Z.of_nat (length q)) in *. split_and!; cbn [k' k_kbd set_kbd].
  - rewrite queue_of_count, Hq by lia. apply take_app_length'. unfold n. lia.
  - intros [_ _ _ Ht' _]. cbn [set_count kbd_buf_tail kbd_buf_head kbd_buf_count] in Ht'. change KBD_BUFFER_SIZE with 256 in Ht'. word_solve.
  - intros d. destruct (keyboard_put_char_wp (set_kbd s k) (u8 d) Hs (u8_range d)) as ([] & k1 & Hrun & s' & -> & Hs' & _ & Hqs).
    unfold keyboard_put_char, bind, gets in Hrun |- *. cbn [k' k_kbd set_kbd set_count kbd_buf_count kbd_buffer kbd_buf_tail kbd_buf_head shift_active] in *.
    change KBD_BUFFER_SIZE with 256 in *. rewrite (proj2 (Z.ltb_lt (kbd_buf_count s) 256)) in Hrun by lia. rewrite (proj2 (Z.ltb_lt n 256)) by lia. rewrite (u8_small (u8 d)) in Hrun by apply u8_range.
    destruct (arr_set _ _ _) as [buf|]; [|done]. unfold from_option, ret, modify in Hrun |- *. injection Hrun as Hrun. eexists. split; [done|].
    cbn [k_kbd set_kbd]. assert (s' = KbdState (shift_active s) buf (kbd_buf_head s) (u32 (kbd_buf_tail s + 1) mod 256) (u32 (kbd_buf_count s + 1))) as -> by (symmetry; exact Hrun).
    set (t := u32 (kbd_buf_tail s + 1) mod 256) in *. replace (u32 (kbd_buf_count s + 1)) with (n + 2) in Hqs by (rewrite u32_small by word_solve; lia).
    rewrite (u32_small (n + 1)) by word_solve.
    etransitivity; [apply (queue_of_count (KbdState (shift_active s) buf (kbd_buf_head s) t (n + 2)) (n + 1)); cbn; lia|]. rewrite Hqs. unfold queue_put.
    rewrite Hq, (proj2 (Z.ltb_lt _ _)) by (rewrite length_app; cbn [length]; lia). apply take_app_length'. rewrite length_app. cbn [length]. lia.
Qed.

(** A character that comes inside it is not counted. *)
Lemma torn_decrement k k1 x q c :
  kbd_ok (k_kbd k) -> queue_of (k_kbd k) = x :: q -> irq k k1 -> queue_of (k_kbd k1) = x :: q ++ [c] ->
  exists k', rtc (interleaved true) (G_test, k) (G_return x, k') /\
    queue_of (k_kbd k') = q /\ ~ kbd_ok (k_kbd k') /\
    forall d, exists k'', keyboard_put_char d k' = Ok (tt, k'') /\ queue_of (k_kbd k'') = q ++ [c].
Proof.
  intros Hk Hq Hi Hq1. destruct (irq_grows k k1 Hk Hi) as [Hk1 _]. pose proof (queue_length _ Hk) as Hl. pose proof (queue_length _ Hk1) as Hl1.
  pose proof (front_queue _ _ _ Hk Hq) as Hf. pose proof (front_queue _ _ _ Hk1 Hq1) as Hf1. rewrite Hq in Hl. rewrite Hq1 in Hl1.
  cbn [length] in Hl, Hl1. rewrite length_app in Hl1. cbn [length] in Hl1. pose proof (irq_keeps_head k k1 Hi) as Hh.
  set (n := Z.of_nat (length q)) in *. assert (u8 x = x) as Hx.
  { apply u8_small. unfold front, arr_get in Hf. destruct (0 <=? _); [|done]. destruct Hk as [_ _ _ _ Hb]. by eapply Forall_lookup_1. }
  destruct (keyboard_getchar_wp k1 Hk1) as (r & k2 & Hrun & Hpost). rewrite Hq1 in Hpost. destruct Hpost as (-> & s' & -> & Hs' & _ & Hqs).
  rewrite (getchar_eq k1 x) in Hrun by (done || lia). injection Hrun as _ <-.
  set (s1 := move_head (u32 (kbd_buf_head (k_kbd k1) + 1) mod KBD_BUFFER_SIZE) (k_kbd k1)) in *.
  assert (n + 2 <= 256) as Hn by (destruct Hk1 as [_ _ Hc _ _]; change KBD_BUFFER_SIZE with 256 in Hc; lia).
  rewrite (u32_small (kbd_buf_count (k_kbd k1) - 1)) in Hqs, Hs' by word_solve.
  destruct (short_count k1 (set_count (kbd_buf_count (k_kbd k1) - 1) s1) q c Hs' Hqs) as (H1 & H2 & H3); [fold n; lia|]. fold n in H1, H2, H3.
  exists (set_kbd (set_count n s1) k1). split_and!; [|exact H1|exact H2|exact H3].
  etransitivity; [apply getchar_to_store; [lia|exact Hf]|]. eapply rtc_l; [apply il_irq; [done|]; apply irq_head, Hi|].
  apply rtc_once, il_own. unfold getchar_step, bind, gets, modify, ret. rewrite Hx, u32_small by word_solve.
  replace (kbd_buf_count (k_kbd k) - 1) with n by lia. by rewrite <- Hh.
Qed.

Lemma getchar_ok k r k' : kbd_ok (k_kbd k) -> keyboard_getchar k = Ok (r, k') -> kbd_ok (k_kbd k').
Proof.
  intros Hk Hrun. destruct (keyboard_getchar_wp k Hk) as (r1 & k1 & Hrun1 & Hpost). rewrite Hrun in Hrun1. simplify_eq.
  destruct (queue_of (k_kbd k)); [by destruct Hpost as [_ ->]|]. by destruct Hpost as (_ & s' & -> & Hs' & _).
Qed.

(** ** Waiting *)

(** The wait of SYS_READ: poll both devices, then halt. *)
Inductive wait_pc := S_poll | S_serial | S_hlt | S_halted | S_char (c : Z).

Definition wait_step (p : wait_pc) : K wait_pc :=
  match p with
  | S_poll => c <- keyboard_getchar ;; ret (if c =? -1 then S_serial else S_char c)
  | S_serial => c <- serial_read_char SERIAL_COM1_BASE ;; ret (if c =? -1 then S_hlt else S_char c)
  | S_hlt => ret S_halted
  | S_halted | S_char _ => ret p
  end.

(** A halted CPU only wakes for an interrupt, and then goes on behind [hlt]. *)
Inductive waits : wait_pc * kernel -> wait_pc * kernel -> Prop :=
| w_own p k p' k' : p <> S_halted -> wait_step p k = Ok (p', k') -> waits (p, k) (p', k')
| w_irq p k k' : p <> S_halted -> irq k k' -> waits (p, k) (p, k')
| w_wake k k' : irq k k' -> waits (S_halted, k) (S_poll, k').

Lemma halted_waits k st : waits (S_halted, k) st -> exists k', irq k k' /\ st = (S_poll, k').
Proof. inversion 1; subst; [done|done|eauto]. Qed.

(** Both polls find nothing. *)
Lemma wait_poll_empty k : kbd_ok (k_kbd k) -> queue_of (k_kbd k) = [] -> wait_step S_poll k = Ok (S_serial, k).
Proof.
  intros Hk Hq. destruct (keyboard_getchar_wp k Hk) as (r & k' & Hrun & Hpost). rewrite Hq in Hpost. destruct Hpost as [-> ->].
  unfold wait_step, bind. by rewrite Hrun.
Qed.

Lemma wait_serial_idle k :
  Z.land (u8 (env_in (k_trace k) 0x3FD)) 1 = 0 ->
  wait_step S_serial k = Ok (S_hlt, set_trace (In 0x3FD (u8 (env_in (k_trace k) 0x3FD)) :: k_trace k) k).
Proof.
  intros Hl. unfold wait_step, serial_read_char, serial_receive, inb, bind, gets, modify, ret, id.
  change (u16 (SERIAL_LINE_STATUS_PORT SERIAL_COM1_BASE)) with 0x3FD. by rewrite Hl.
Qed.

Lemma poll_char k c q :
  kbd_ok (k_kbd k) -> queue_of (k_kbd k) = c :: q -> exists k', waits (S_poll, k) (S_char c, k') /\ queue_of (k_kbd k') = q.
Proof.
  intros Hk Hq. destruct (keyboard_getchar_wp k Hk) as (r & k' & Hrun & Hpost). rewrite Hq in Hpost.
  destruct Hpost as (-> & s' & -> & _ & _ & Hqs). exists (set_kbd s' k). split; [|done]. apply w_own; [done|].
  unfold wait_step, bind, ret. rewrite Hrun. assert (0 <= c) as Hc.
  { pose proof (front_queue _ _ _ Hk Hq) as Hf. unfold front, arr_get in Hf. destruct (0 <=? _); [|done]. destruct Hk as [_ _ _ _ Hb].
    pose proof (Forall_lookup_1 _ _ _ _ Hb Hf) as Hu. word_solve. }
  by rewrite (proj2 (Z.eqb_neq c (-1))) by lia.
Qed.
End Interleave.
