(* ===== verification/InterleaveProps.v ===== *)
(** The correctness of input under interrupts at any point, and where it ends: stated
    for [keyboard_getchar] and the wait of SYS_READ. *)
From stdpp Require Import relations.
From S2P Require Import Prelude State Machine Framebuffer Isr Keyboard Serial Pic Interrupt InterruptFacts Samples Producer Interleave.

Section Props.
Context `{Env} `{PollFuel}.

(** C27. [keyboard_getchar] is atomic for the interrupt handlers, as long as its
    decrement of the count is: with any interrupts between its other accesses it comes
    to its end, never reads outside the buffer, and result and state are those of some
    of the interrupts, then the undisturbed function, then the others. *)
Theorem getchar_linearizable k p k' :
  kbd_ok (k_kbd k) -> rtc (interleaved false) (G_test, k) (p, k') ->
  ((remaining p > 0)%nat -> exists p1 k1, getchar_step p k' = Ok (p1, k1) /\ (remaining p1 < remaining p)%nat) /\
  forall r, p = G_return r -> exists k1 k2, rtc irq k k1 /\ keyboard_getchar k1 = Ok (r, k2) /\ rtc irq k2 k'.
Proof.
  intros Hk Hrun. assert (simulates k p k') as Hs by (eapply interleaved_simulates; [by apply sim_test|exact Hrun]). split.
  - intros Hp. destruct (own_simulates k p k' Hs Hp) as (p1 & k1 & H1 & _ & H2). eauto.
  - intros r ->. by apply simulates_return.
Qed.

(** C28. The decrement is not atomic as compiled, and a character that arrives between
    its load and its store is not counted: the call returns the oldest character, but
    the new one is left behind the counted ones, the ring buffer's invariant is broken,
    no order of interrupts and call explains the state, and the next character put makes
    the lost one visible in its own place: from then on input is one key late. *)
Theorem getchar_loses_character k k1 x q c :
  kbd_ok (k_kbd k) -> queue_of (k_kbd k) = x :: q -> irq k k1 -> queue_of (k_kbd k1) = x :: q ++ [c] ->
  exists k', rtc (interleaved true) (G_test, k) (G_return x, k') /\ queue_of (k_kbd k') = q /\ ~ kbd_ok (k_kbd k') /\
    (forall ka kb r, rtc irq k ka -> keyboard_getchar ka = Ok (r, kb) -> ~ rtc irq kb k') /\
    forall d, exists k'', keyboard_put_char d k' = Ok (tt, k'') /\ queue_of (k_kbd k'') = q ++ [c].
Proof.
  intros Hk Hq Hi Hq1. destruct (torn_decrement k k1 x q c Hk Hq Hi Hq1) as (k' & Hrun & Hq' & Hbad & Hlate).
  exists k'. split_and!; [done|done|done| |done]. intros ka kb r Ha Hg Hb. apply Hbad.
  refine (irqs_ok kb k' _ Hb). exact (getchar_ok ka r kb (irqs_ok k ka Hk Ha) Hg).
Qed.

(** C29. A key can be missed by the wait, but is not lost: one that arrives after both
    polls and before [hlt] stays in the queue while the CPU halts; no step but another
    interrupt ends that, and after any other interrupt the waiting character is the
    first that SYS_READ gets. *)
Theorem read_wakeup_delayed k k2 c q :
  kbd_ok (k_kbd k) -> queue_of (k_kbd k) = [] -> Z.land (u8 (env_in (k_trace k) 0x3FD)) 1 = 0 ->
  irq (set_trace (In 0x3FD (u8 (env_in (k_trace k) 0x3FD)) :: k_trace k) k) k2 -> queue_of (k_kbd k2) = c :: q ->
  rtc waits (S_poll, k) (S_halted, k2) /\
  (forall st, waits (S_halted, k2) st -> exists k3, irq k2 k3 /\ st = (S_poll, k3)) /\
  forall k3, irq k2 k3 -> exists k4, rtc waits (S_halted, k2) (S_char c, k4).
Proof.
  intros Hk Hq Hlsr Hi Hq2. set (k1 := set_trace _ k) in Hi. assert (kbd_ok (k_kbd k2)) as Hk2 by (by apply (irq_grows k1)). split_and!.
  - eapply rtc_l; [apply w_own; [done|]; by apply wait_poll_empty|]. eapply rtc_l; [apply w_own; [done|]; by apply wait_serial_idle|].
    eapply rtc_l; [by apply w_irq|]. apply rtc_once. by apply w_own.
  - apply halted_waits.
  - intros k3 Hi3. destruct (irq_grows k2 k3 Hk2 Hi3) as [Hk3 [l Hl]]. rewrite Hq2 in Hl.
    destruct (poll_char k3 c (q ++ l) Hk3 Hl) as (k4 & H4 & _). exists k4. eapply rtc_l; [by apply w_wake|]. by apply rtc_once.
Qed.
End Props.

(** * Instances *)

(** Two keys, a and b, on the sample machine: the first was delivered. *)
Definition two_keys : list Z := [30; 48].

Lemma two_keys_state :
  let E := sample_env [] two_keys in let F := sample_fuel in
  exists k k1, kbd_ok (k_kbd k) /\ queue_of (k_kbd k) = [97] /\ irq k k1 /\ queue_of (k_kbd k1) = [97; 98].
Proof.
  intros E F. assert (Forall is_u8 two_keys) as Hu by (repeat constructor; done). pose proof (sample_kbd_source _ Hu) as HS.
  destruct (take_keyboard_wp (pending 0x60 two_keys) sample_ready 30 [48] sample_ready_kbd sample_isr_ok eq_refl)
    as ([] & k & Hrun & (s & Hk & Hs & Hsh & Hq) & Hkeys).
  assert (k_isr k = k_isr sample_ready) as Hisr by (rewrite Hk; reflexivity). assert (k_kbd k = s) as Hks by (rewrite Hk; reflexivity).
  destruct (take_keyboard_wp (pending 0x60 two_keys) k 48 []) as ([] & k1 & Hrun1 & (s1 & Hk1 & _ & _ & Hq1) & _);
    [by rewrite Hks|rewrite Hisr; exact sample_isr_ok|exact Hkeys|].
  exists k, k1. split_and!; [by rewrite Hks|rewrite Hks, Hq; reflexivity|exists 33; split; [lia|exact Hrun1]|].
  rewrite Hk1. cbn [k_kbd set_cpu set_kbd]. rewrite Hq1, Hks, Hsh, Hq. reflexivity.
Qed.

Lemma getchar_linearizable_witness :
  let E := sample_env [] two_keys in let F := sample_fuel in
  exists k k1 k2, rtc irq k k1 /\ keyboard_getchar k1 = Ok (97, k2).
Proof.
  intros E F. destruct two_keys_state as (k & _ & Hk & Hq & _). pose proof (front_queue _ _ _ Hk Hq) as Hf.
  pose proof (queue_length _ Hk) as Hl. rewrite Hq in Hl. cbn in Hl.
  destruct (getchar_linearizable k (G_return (u8 97)) (set_kbd (set_count (u32 (kbd_buf_count (k_kbd k) - 1)) (k_kbd (with_head (u32 (kbd_buf_head (k_kbd k) + 1) mod KBD_BUFFER_SIZE) k)))
    (with_head (u32 (kbd_buf_head (k_kbd k) + 1) mod KBD_BUFFER_SIZE) k))) as [_ Hlin].
  - exact Hk.
  - eapply rtc_r; [apply (getchar_to_store false k 97); [lia|exact Hf]|]. apply il_own. reflexivity.
  - destruct (Hlin 97 eq_refl) as (k1 & k2 & H1 & H2 & _). exists k, k1, k2. split; assumption.
Defined.

Lemma getchar_loses_character_witness :
  let E := sample_env [] two_keys in let F := sample_fuel in
  exists k k', rtc (interleaved true) (G_test, k) (G_return 97, k') /\ queue_of (k_kbd k') = [] /\ ~ kbd_ok (k_kbd k').
Proof.
  intros E F. destruct two_keys_state as (k & k1 & Hk & Hq & Hi & Hq1).
  destruct (getchar_loses_character k k1 97 [] 98 Hk Hq Hi Hq1) as (k' & H1 & H2 & H3 & _). exists k, k'. split; [exact H1|]. split; [exact H2|exact H3].
Defined.

Lemma read_wakeup_delayed_witness :
  let E := sample_env [] [30] in let F := sample_fuel in
  exists k k2, rtc waits (S_poll, k) (S_halted, k2) /\ queue_of (k_kbd k2) = [97].
Proof.
  intros E F. assert (Forall is_u8 [30]) as Hu by (repeat constructor; done). pose proof (sample_kbd_source _ Hu) as HS.
  destruct (take_keyboard_wp (pending 0x60 [30]) (set_trace [In 0x3FD 0x20] sample_ready) 30 [] sample_ready_kbd sample_isr_ok eq_refl)
    as ([] & k2 & Hrun & (s & Hk & Hs & Hsh & Hq) & _).
  assert (queue_of (k_kbd k2) = [97]) as Hq2 by (rewrite Hk; exact Hq).
  destruct (read_wakeup_delayed sample_ready k2 97 []) as (H1 & _).
  - exact sample_ready_kbd.
  - reflexivity.
  - reflexivity.
  - exists 33. split; [lia|exact Hrun].
  - exact Hq2.
  - exists sample_ready, k2. split; [exact H1|exact Hq2].
Defined.
