(* ===== verification/Descriptors.v ===== *)
(** Segment and interrupt descriptor tables: arch/x86/cpu/gdt.c and
    arch/x86/cpu/idt.c, the gate that kernel/syscall.c adds, and the assembly
    routines that load the registers. *)
From S2P Require Import Prelude State Machine Image.

(** * Register loads (loader.s, idt.s) *)

(** [lgdt], then the kernel data selector in the data segment registers and a far
    jump through the kernel code selector. *)
Definition load_gdt (ptr : table_ptr) : K unit :=
  modify (fun k => let c := k_cpu k in
    set_cpu (CpuState (cpu_if c) ptr (cpu_tr c) (cpu_idtr c) (cpu_cr3 c) 0x08 0x10) k).
Definition load_tss (tss_selector : Z) : K unit :=
  modify (fun k => let c := k_cpu k in
    set_cpu (CpuState (cpu_if c) (cpu_gdtr c) (u16 tss_selector) (cpu_idtr c) (cpu_cr3 c) (cpu_cs c) (cpu_ds c)) k).
Definition load_idt (ptr : table_ptr) : K unit :=
  modify (fun k => let c := k_cpu k in
    set_cpu (CpuState (cpu_if c) (cpu_gdtr c) (cpu_tr c) ptr (cpu_cr3 c) (cpu_cs c) (cpu_ds c)) k).

(** * The GDT *)

Definition GDT_ENTRIES : Z := 6.
Definition SEGMENT_KERNEL_CS : Z := 0x08.
Definition SEGMENT_KERNEL_DS : Z := 0x10.
Definition SEGMENT_USER_CS : Z := 0x18.
Definition SEGMENT_USER_DS : Z := 0x20.
Definition SEGMENT_TSS : Z := 0x28.
Definition sizeof_gdt_entry : Z := 8.
Definition sizeof_tss : Z := 104.

Definition gdt_set_gate (num base limit access gran : Z) : K unit :=
  g <- gets k_gdt ;;
  l <- from_option (arr_set (gdt g) num
    (GdtEntry (Z.land limit 0xFFFF) (Z.land base 0xFFFF) (Z.land (Z.shiftr base 16) 0xFF) access
       (Z.lor (Z.land (Z.shiftr limit 16) 0x0F) (Z.land gran 0xF0)) (Z.land (Z.shiftr base 24) 0xFF))) ;;
  modify (set_gdt (GdtState l (gdtr g) (tss g))).

Definition set_tss (t : tss_entry) : K unit :=
  modify (fun k => let g := k_gdt k in set_gdt (GdtState (gdt g) (gdtr g) t) k).

(** The byte loop over [tss] leaves every field 0; seven fields and the I/O map
    base are then assigned. *)
Definition write_tss `{Layout} (num ss0 esp0 : Z) : K unit :=
  let base := tss_addr in
  let limit := sizeof_tss - 1 in
  gdt_set_gate num base limit 0x89 0x00 ;;;
  set_tss tss_entry_zero ;;;
  let cs := Z.lor SEGMENT_KERNEL_CS 0x3 in
  let ds := Z.lor SEGMENT_KERNEL_DS 0x3 in
  set_tss (TssEntry 0 esp0 ss0 0 0 0 0 0 0 0 0 0 0 0 0 0 0 0 ds cs ds ds ds ds 0 0 (u16 sizeof_tss)).

Definition tss_set_kernel_stack (stack : Z) : K unit :=
  g <- gets k_gdt ;;
  let t := tss g in
  set_tss (TssEntry (prev_tss t) stack (tss_ss0 t) (tss_esp1 t) (tss_ss1 t) (tss_esp2 t) (tss_ss2 t)
    (tss_cr3 t) (tss_eip t) (tss_eflags t) (tss_eax t) (tss_ecx t) (tss_edx t) (tss_ebx t) (tss_esp t)
    (tss_ebp t) (tss_esi t) (tss_edi t) (tss_es t) (tss_cs t) (tss_ss t) (tss_ds t) (tss_fs t) (tss_gs t)
    (tss_ldt t) (tss_trap t) (tss_iomap_base t)).

Definition gdt_init `{Layout} : K unit :=
  modify (fun k => let g := k_gdt k in
    set_gdt (GdtState (gdt g) (TablePtr (u16 (sizeof_gdt_entry * GDT_ENTRIES - 1)) gdt_addr) (tss g)) k) ;;;
  gdt_set_gate 0 0 0 0 0 ;;;
  gdt_set_gate 1 0 0xFFFFFFFF 0x9A 0xCF ;;;
  gdt_set_gate 2 0 0xFFFFFFFF 0x92 0xCF ;;;
  gdt_set_gate 3 0 0xFFFFFFFF 0xFA 0xCF ;;;
  gdt_set_gate 4 0 0xFFFFFFFF 0xF2 0xCF ;;;
  write_tss 5 SEGMENT_KERNEL_DS 0 ;;;
  g <- gets k_gdt ;;
  load_gdt (gdtr g) ;;;
  load_tss SEGMENT_TSS.

(** * The IDT *)

Definition IDT_ENTRIES : Z := 256.
Definition sizeof_idt_entry : Z := 8.

Definition idt_set_gate (num base sel flags : Z) : K unit :=
  t <- gets k_idt ;;
  l <- from_option (arr_set (idt t) (u8 num)
    (IdtEntry (u16 (Z.land base 0xFFFF)) sel 0 flags (u16 (Z.land (Z.shiftr base 16) 0xFFFF)))) ;;
  modify (set_idt (IdtState l (idtr t))).

Definition idt_init `{Layout} : K unit :=
  modify (fun k => set_idt (IdtState (idt (k_idt k))
    (TablePtr (u16 (sizeof_idt_entry * IDT_ENTRIES - 1)) idt_addr)) k) ;;;
  for_up 0 IDT_ENTRIES (fun i => idt_set_gate (u8 i) 0 0 0) ;;;
  for_up 0 48 (fun i => idt_set_gate i (isr_stub_addr i) 0x08 0x8E) ;;;
  t <- gets k_idt ;;
  load_idt (idtr t).

Definition syscall_init `{Layout} : K unit := idt_set_gate 0x80 Int128Handler_addr 0x08 0xEE.

(** * Descriptors as the CPU reads them *)

Record segment := Segment {
  seg_base : Z; seg_limit : Z; seg_present : bool; seg_dpl : Z;
  seg_system : bool; seg_type : Z; seg_32bit : bool
}.

(** The limit is in bytes, or in 4KB pages when the granularity bit is set. *)
Definition segment_of (e : gdt_entry) : segment :=
  let raw := limit_low e + 65536 * (granularity e mod 16) in
  Segment (base_low e + 65536 * base_middle e + 16777216 * base_high e)
    (if Z.testbit (granularity e) 7 then raw * 4096 + 4095 else raw)
    (Z.testbit (access e) 7) (access e / 32 mod 4) (negb (Z.testbit (access e) 4)) (access e mod 16)
    (Z.testbit (granularity e) 6).

Record gate := Gate {
  gate_offset : Z; gate_selector : Z; gate_present : bool; gate_dpl : Z; gate_type : Z
}.
Definition gate_of (e : idt_entry) : gate :=
  Gate (offset_lowerbits e + 65536 * offset_higherbits e) (selector e)
    (Z.testbit (type_attr e) 7) (type_attr e / 32 mod 4) (type_attr e mod 16).

(** A software interrupt from ring 3 goes through only if the gate is present
    and its DPL is 3; anything else is a general protection fault. *)
Definition user_may_call (e : idt_entry) : bool := gate_present (gate_of e) && (3 <=? gate_dpl (gate_of e)).

(** * Facts *)

Lemma land_65535 x : Z.land x 0xFFFF = u16 x.
Proof. change 0xFFFF with (Z.ones 16). by rewrite Z.land_ones. Qed.
Lemma land_15 x : Z.land x 0x0F = x mod 16.
Proof. change 0x0F with (Z.ones 4). by rewrite Z.land_ones. Qed.

(** The granularity byte keeps limit bits 16..19 below and the flags above. *)
Lemma granularity_split lim gran :
  is_u8 gran -> 0 <= lim < 16 ->
  Z.lor lim (Z.land gran 0xF0) mod 16 = lim /\
  Z.testbit (Z.lor lim (Z.land gran 0xF0)) 7 = Z.testbit gran 7 /\
  Z.testbit (Z.lor lim (Z.land gran 0xF0)) 6 = Z.testbit gran 6.
Proof.
  intros Hg Hl.
  assert (forallb (fun g => forallb (fun l => (Z.lor l (Z.land g 0xF0) mod 16 =? l) &&
    Bool.eqb (Z.testbit (Z.lor l (Z.land g 0xF0)) 7) (Z.testbit g 7) &&
    Bool.eqb (Z.testbit (Z.lor l (Z.land g 0xF0)) 6) (Z.testbit g 6)) (seqZ 0 16)) (seqZ 0 256) = true)
    as Hall by (by vm_compute).
  rewrite forallb_forall in Hall.
  specialize (Hall gran ltac:(apply list_elem_of_In, elem_of_seqZ; word_solve)). rewrite forallb_forall in Hall.
  specialize (Hall lim ltac:(apply list_elem_of_In, elem_of_seqZ; lia)).
  rewrite !andb_true_iff, Z.eqb_eq, !eqb_true_iff in Hall. tauto.
Qed.

(** The entry [gdt_set_gate] writes. *)
Definition gdt_gate (base limit acc gran : Z) : gdt_entry :=
  GdtEntry (Z.land limit 0xFFFF) (Z.land base 0xFFFF) (Z.land (Z.shiftr base 16) 0xFF) acc
    (Z.lor (Z.land (Z.shiftr limit 16) 0x0F) (Z.land gran 0xF0)) (Z.land (Z.shiftr base 24) 0xFF).

Lemma gdt_set_gate_eq k num base limit acc gran :
  0 <= num < Z.of_nat (length (gdt (k_gdt k))) ->
  gdt_set_gate num base limit acc gran k
  = Ok (tt, set_gdt (GdtState (<[Z.to_nat num := gdt_gate base limit acc gran]> (gdt (k_gdt k)))
      (gdtr (k_gdt k)) (tss (k_gdt k))) k).
Proof. intros Hn. unfold gdt_set_gate, bind, gets. by rewrite arr_set_Some. Qed.

Lemma gdt_gate_segment base limit acc gran :
  is_u32 base -> is_u32 limit -> is_u8 gran ->
  segment_of (gdt_gate base limit acc gran) = Segment base
    (if Z.testbit gran 7 then limit mod 1048576 * 4096 + 4095 else limit mod 1048576)
    (Z.testbit acc 7) (acc / 32 mod 4) (negb (Z.testbit acc 4)) (acc mod 16) (Z.testbit gran 6).
Proof.
  intros Hb Hl Hg. unfold segment_of, gdt_gate.
  cbn [limit_low base_low base_middle access granularity base_high].
  rewrite land_15. rewrite !Z.shiftr_div_pow2 by lia.
  destruct (granularity_split (limit / 2 ^ 16 mod 16) gran Hg) as (-> & -> & ->); [word_solve|].
  rewrite !land_65535, !land_255. change (2 ^ 16) with 65536. change (2 ^ 24) with 16777216.
  f_equal; [word_solve|].
  assert (u16 limit + 65536 * (limit / 65536 mod 16) = limit mod 1048576) as -> by word_solve. done.
Qed.

(** One step of [gdt_init]. *)
Lemma gdt_step {A} k l r t num base limit acc gran (m : K A) :
  0 <= num < Z.of_nat (length l) ->
  (gdt_set_gate num base limit acc gran ;;; m) (set_gdt (GdtState l r t) k)
  = m (set_gdt (GdtState (<[Z.to_nat num := gdt_gate base limit acc gran]> l) r t) k).
Proof.
  intros Hn. exact (bind_ok _ (fun _ => m) _ tt _ (gdt_set_gate_eq (set_gdt (GdtState l r t) k) num base limit acc gran Hn)).
Qed.

(** The table, the TSS and the registers after [gdt_init]. *)
Definition gdt_final `{Layout} : list gdt_entry :=
  [gdt_gate 0 0 0 0; gdt_gate 0 0xFFFFFFFF 0x9A 0xCF; gdt_gate 0 0xFFFFFFFF 0x92 0xCF;
   gdt_gate 0 0xFFFFFFFF 0xFA 0xCF; gdt_gate 0 0xFFFFFFFF 0xF2 0xCF; gdt_gate tss_addr 103 0x89 0x00].
Definition tss_final (esp0 : Z) : tss_entry :=
  TssEntry 0 esp0 0x10 0 0 0 0 0 0 0 0 0 0 0 0 0 0 0 0x13 0x0B 0x13 0x13 0x13 0x13 0 0 104.
Definition cpu_with_gdt `{Layout} (c : cpu_state) : cpu_state :=
  CpuState (cpu_if c) (TablePtr 47 gdt_addr) 0x28 (cpu_idtr c) (cpu_cr3 c) 0x08 0x10.

Lemma gdt_init_eq `{Layout} k :
  length (gdt (k_gdt k)) = 6%nat ->
  gdt_init k = Ok (tt, set_cpu (cpu_with_gdt (k_cpu k))
    (set_gdt (GdtState gdt_final (TablePtr 47 gdt_addr) (tss_final 0)) k)).
Proof.
  intros Hl. unfold gdt_init, write_tss. unfold modify at 1, bind at 1.
  change (u16 (sizeof_gdt_entry * GDT_ENTRIES - 1)) with 47.
  destruct (gdt (k_gdt k)) as [|e0 [|e1 [|e2 [|e3 [|e4 [|e5 [|]]]]]]]; try discriminate.
  do 5 (rewrite gdt_step by (split; [discriminate|reflexivity])).
  rewrite (bind_ok _ _ _ tt (set_gdt (GdtState gdt_final (TablePtr 47 gdt_addr) (tss_final 0)) k)).
  - reflexivity.
  - rewrite gdt_step by (split; [discriminate|reflexivity]). reflexivity.
Qed.

Definition idt_gate (base sel flags : Z) : idt_entry :=
  IdtEntry (u16 (Z.land base 0xFFFF)) sel 0 flags (u16 (Z.land (Z.shiftr base 16) 0xFFFF)).

Lemma idt_set_gate_eq k num base sel flags :
  length (idt (k_idt k)) = 256%nat ->
  idt_set_gate num base sel flags k
  = Ok (tt, set_idt (IdtState (<[Z.to_nat (u8 num) := idt_gate base sel flags]> (idt (k_idt k))) (idtr (k_idt k))) k).
Proof.
  intros Hl. unfold idt_set_gate, bind, gets. rewrite arr_set_Some; [done|].
  rewrite Hl. apply u8_range.
Qed.

Lemma idt_gate_offset base sel flags : is_u32 base -> gate_offset (gate_of (idt_gate base sel flags)) = base.
Proof.
  intros Hb. unfold gate_of, idt_gate. cbn [gate_offset offset_lowerbits offset_higherbits].
  rewrite !land_65535, Z.shiftr_div_pow2 by lia. change (2 ^ 16) with 65536. word_solve.
Qed.

(** A loop of [idt_set_gate] over the vectors [0 .. n-1]. *)
Lemma idt_loop_wp k n f (g : Z -> Z * Z * Z) :
  (forall i, f i = idt_set_gate i (fst (fst (g i))) (snd (fst (g i))) (snd (g i))) ->
  length (idt (k_idt k)) = 256%nat -> 0 <= n <= 256 ->
  wp (for_up 0 n f) (fun _ k' => exists l, k' = set_idt (IdtState l (idtr (k_idt k))) k /\
    length l = 256%nat /\
    forall v : nat, (v < 256)%nat -> l !! v =
      if Z.of_nat v <? n then Some (idt_gate (fst (fst (g (Z.of_nat v)))) (snd (fst (g (Z.of_nat v)))) (snd (g (Z.of_nat v))))
      else idt (k_idt k) !! v) k.
Proof.
  intros Hf Hl Hn.
  set (I := fun i k' => exists l, k' = set_idt (IdtState l (idtr (k_idt k))) k /\ length l = 256%nat /\
    forall v : nat, (v < 256)%nat -> l !! v =
      if Z.of_nat v <? i then Some (idt_gate (fst (fst (g (Z.of_nat v)))) (snd (fst (g (Z.of_nat v)))) (snd (g (Z.of_nat v))))
      else idt (k_idt k) !! v).
  apply (wp_for_up I); [lia| |].
  - exists (idt (k_idt k)). split_and!; [by destruct k as [? ? ? ? ? ? ? ? [? ?] ?]|done|].
    intros v Hv. by rewrite (proj2 (Z.ltb_ge _ _)) by lia.
  - intros i k' Hi (l & -> & Hlen & Hlk). rewrite Hf. eapply wp_eq; [by apply idt_set_gate_eq|].
    eexists. split_and!; [done|by rewrite length_insert|]. intros v Hv. cbn [k_idt set_idt idt].
    rewrite u8_small by word_solve. destruct (decide (v = Z.to_nat i)) as [->|Hne].
    + rewrite list_lookup_insert_eq by lia. rewrite Z2Nat.id by lia. by rewrite (proj2 (Z.ltb_lt _ _)) by lia.
    + rewrite list_lookup_insert_ne by lia. rewrite Hlk by done.
      destruct (Z.ltb_spec (Z.of_nat v) i), (Z.ltb_spec (Z.of_nat v) (i + 1)); try done; lia.
Qed.

(** The whole table after [idt_init]. *)
Lemma idt_init_wp `{Layout} k :
  length (idt (k_idt k)) = 256%nat ->
  wp idt_init (fun _ k' => exists l,
    k' = set_cpu (CpuState (cpu_if (k_cpu k)) (cpu_gdtr (k_cpu k)) (cpu_tr (k_cpu k)) (TablePtr 2047 idt_addr)
           (cpu_cr3 (k_cpu k)) (cpu_cs (k_cpu k)) (cpu_ds (k_cpu k)))
         (set_idt (IdtState l (TablePtr 2047 idt_addr)) k) /\
    length l = 256%nat /\
    forall v : nat, (v < 256)%nat -> l !! v =
      Some (if Z.of_nat v <? 48 then idt_gate (isr_stub_addr (Z.of_nat v)) 0x08 0x8E else idt_entry_zero)) k.
Proof.
  intros Hl. unfold idt_init, load_idt. wp_steps.
  change (u16 (sizeof_idt_entry * IDT_ENTRIES - 1)) with 2047.
  eapply wp_mono.
  { apply (idt_loop_wp _ 256 _ (fun _ => (0, 0, 0))); [|done|lia].
    intros i. unfold idt_set_gate. by rewrite u8_u8. }
  intros [] k1 (l1 & -> & Hl1 & Hlk1). wp_steps. eapply wp_mono.
  { by apply (idt_loop_wp _ 48 _ (fun i => (isr_stub_addr i, 0x08, 0x8E))). }
  intros [] k2 (l2 & -> & Hl2 & Hlk2). wp_steps. exists l2. split_and!; [done|done|].
  intros v Hv. rewrite (Hlk2 v Hv). case_bool; [done|]. cbn [k_idt set_idt idt].
  rewrite (Hlk1 v Hv). by rewrite (proj2 (Z.ltb_lt _ _)) by lia.
Qed.
