(* ===== verification/DescriptorProps.v ===== *)
(** The correctness of the descriptor tables, stated for arch/x86/cpu/gdt.c,
    arch/x86/cpu/idt.c and [syscall_init] of kernel/syscall.c. *)
From S2P Require Import Prelude State Machine Image Descriptors.

(** The CPU reads back from a descriptor what [gdt_set_gate] was given: the
    base, the low 20 bits of the limit scaled by the granularity flag, the
    privilege level, the type and the default size; the other entries keep
    their contents. *)
Theorem gdt_gate_round_trip k num base limit acc gran :
  0 <= num < Z.of_nat (length (gdt (k_gdt k))) -> is_u32 base -> is_u32 limit -> is_u8 acc -> is_u8 gran ->
  exists k' e, gdt_set_gate num base limit acc gran k = Ok (tt, k') /\
    gdt (k_gdt k') !! Z.to_nat num = Some e /\
    segment_of e = Segment base
      (if Z.testbit gran 7 then limit mod 1048576 * 4096 + 4095 else limit mod 1048576)
      (Z.testbit acc 7) (acc / 32 mod 4) (negb (Z.testbit acc 4)) (acc mod 16) (Z.testbit gran 6) /\
    forall i, i <> Z.to_nat num -> gdt (k_gdt k') !! i = gdt (k_gdt k) !! i.
Proof.
  intros Hn Hb Hl Ha Hg. eexists _, _. split; [by apply gdt_set_gate_eq|]. cbn [k_gdt set_gdt gdt].
  split; [apply list_lookup_insert_eq; lia|]. split; [by apply gdt_gate_segment|].
  intros i Hi. by apply list_lookup_insert_ne.
Qed.

(** The flat 4GB segments. *)
Definition flat (code : bool) (dpl : Z) : segment :=
  Segment 0 0xFFFFFFFF true dpl false (if code then 10 else 2) true.

(** [gdt_init] leaves a flat machine: the null descriptor, readable code and
    writable data segments of all 4GB for rings 0 and 3 at the selectors the
    rest of the kernel uses, and an available 32-bit TSS covering [tss]; GDTR and
    TR are loaded, the ring 0 stack segment is the kernel data segment, and the
    I/O bitmap lies beyond the TSS limit, so ring 3 has no port access. *)
Theorem gdt_init_installs `{Layout} k :
  length (gdt (k_gdt k)) = 6%nat -> is_u32 tss_addr ->
  exists k' l, gdt_init k = Ok (tt, k') /\ gdt (k_gdt k') = l /\
    l !! 0%nat = Some gdt_entry_zero /\
    segment_of <$> l !! Z.to_nat (SEGMENT_KERNEL_CS / 8) = Some (flat true 0) /\
    segment_of <$> l !! Z.to_nat (SEGMENT_KERNEL_DS / 8) = Some (flat false 0) /\
    segment_of <$> l !! Z.to_nat (SEGMENT_USER_CS / 8) = Some (flat true 3) /\
    segment_of <$> l !! Z.to_nat (SEGMENT_USER_DS / 8) = Some (flat false 3) /\
    segment_of <$> l !! Z.to_nat (SEGMENT_TSS / 8) = Some (Segment tss_addr 103 true 0 true 9 false) /\
    cpu_gdtr (k_cpu k') = TablePtr 47 gdt_addr /\ cpu_tr (k_cpu k') = SEGMENT_TSS /\
    tss_ss0 (tss (k_gdt k')) = SEGMENT_KERNEL_DS /\ 103 < tss_iomap_base (tss (k_gdt k')) /\
    k_mem k' = k_mem k.
Proof.
  intros Hl Ht. eexists _, _. split; [by apply gdt_init_eq|]. split; [reflexivity|].
  split_and!; try reflexivity.
  change (Some (segment_of (gdt_gate tss_addr 103 0x89 0x00)) = Some (Segment tss_addr 103 true 0 true 9 false)).
  by rewrite gdt_gate_segment.
Qed.

(** C31. The IDT lets user code into the kernel by one door: after [idt_init] and
    [syscall_init], vectors 0..47 are ring 0 interrupt gates in the kernel code
    segment to their stubs, vector 128 is one to [Int128Handler] with DPL 3, all
    others are absent, and [int n] from ring 3 is allowed for n = 128 only. *)
Theorem idt_guards_kernel `{Layout} k :
  length (idt (k_idt k)) = 256%nat -> (forall v, 0 <= v < 48 -> is_u32 (isr_stub_addr v)) -> is_u32 Int128Handler_addr ->
  exists k', (idt_init ;;; syscall_init) k = Ok (tt, k') /\ cpu_idtr (k_cpu k') = TablePtr 2047 idt_addr /\
    length (idt (k_idt k')) = 256%nat /\
    forall v e, 0 <= v < 256 -> idt (k_idt k') !! Z.to_nat v = Some e ->
      (v < 48 -> gate_of e = Gate (isr_stub_addr v) SEGMENT_KERNEL_CS true 0 14) /\
      (v = 128 -> gate_of e = Gate Int128Handler_addr SEGMENT_KERNEL_CS true 3 14) /\
      (48 <= v -> v <> 128 -> gate_present (gate_of e) = false) /\
      (user_may_call e = true <-> v = 128).
Proof.
  intros Hl Hstub Hint. destruct (idt_init_wp k Hl) as ([] & k1 & Hrun & l & -> & Hlen & Hlk).
  eexists. split.
  { rewrite (bind_ok _ _ _ _ _ Hrun). by apply idt_set_gate_eq. }
  change (Z.to_nat (u8 128)) with 128%nat. cbn [k_idt set_idt set_cpu idt].
  split; [done|]. split; [by rewrite length_insert|]. intros v e Hv He.
  destruct (decide (v = 128)) as [->|Hne].
  - change (Z.to_nat 128) with 128%nat in He. rewrite list_lookup_insert_eq in He by lia.
    apply (inj Some) in He. subst e.
    assert (gate_of (idt_gate Int128Handler_addr 0x08 0xEE) = Gate Int128Handler_addr 8 true 3 14) as Hg.
    { rewrite <- (idt_gate_offset Int128Handler_addr 0x08 0xEE) at 2 by done. reflexivity. }
    unfold user_may_call. rewrite Hg. by split_and!; try lia.
  - rewrite list_lookup_insert_ne in He by lia. rewrite Hlk in He by lia. rewrite Z2Nat.id in He by lia.
    apply (inj Some) in He. destruct (Z.ltb_spec v 48); subst e.
    + assert (gate_of (idt_gate (isr_stub_addr v) 0x08 0x8E) = Gate (isr_stub_addr v) 8 true 0 14) as Hg.
      { rewrite <- (idt_gate_offset (isr_stub_addr v) 0x08 0x8E) at 2 by (apply Hstub; lia). reflexivity. }
      unfold user_may_call. rewrite Hg. by split_and!; try lia.
    + by split_and!; try lia.
Qed.

(** * Instances *)

Lemma gdt_gate_round_trip_witness :
  exists k' e, gdt_set_gate 2 0x12345678 0xABCDE 0x92 0x40 sample_kernel = Ok (tt, k') /\
    gdt (k_gdt k') !! 2%nat = Some e /\
    segment_of e = Segment 0x12345678 0xABCDE true 0 false 2 true.
Proof.
  destruct (gdt_gate_round_trip sample_kernel 2 0x12345678 0xABCDE 0x92 0x40) as (k' & e & H1 & H2 & H3 & _);
    [by split|by split..|]. exists k', e. auto.
Defined.

Lemma gdt_init_installs_witness :
  exists k', gdt_init sample_kernel = Ok (tt, k') /\
    segment_of <$> gdt (k_gdt k') !! 3%nat = Some (flat true 3).
Proof.
  destruct (gdt_init_installs sample_kernel) as (k' & l & H1 & <- & _ & _ & _ & H2 & _); [reflexivity|by split|].
  exists k'. auto.
Defined.

Lemma idt_guards_kernel_witness :
  exists k', (idt_init ;;; syscall_init) sample_kernel = Ok (tt, k') /\
    forall e, idt (k_idt k') !! 14%nat = Some e -> user_may_call e <> true.
Proof.
  destruct (idt_guards_kernel sample_kernel) as (k' & H1 & _ & _ & H2).
  - reflexivity.
  - intros v Hv. cbn. word_solve.
  - by split.
  - exists k'. split; [exact H1|]. intros e He Hc.
    destruct (H2 14 e) as (_ & _ & _ & Hu); [lia|exact He|]. apply (proj1 Hu) in Hc. discriminate Hc.
Defined.
