(* ===== verification/Paging.v ===== *)
(** The page tables of the kernel and of the user process:
    arch/x86/mmu/paging.c.

    The statically allocated tables and frames are arrays of their own; the
    module image is read from memory. *)
From S2P Require Import Prelude State Machine Image.

(** * Operations *)

Definition VIRTUAL_TO_PHYSICAL (addr : Z) : Z := u32 (addr - KERNEL_VIRTUAL_BASE).
Definition PAGING_FLAG_PRESENT : Z := 0x01.
Definition PAGING_FLAG_WRITE : Z := 0x02.
Definition PAGING_FLAG_USER : Z := 0x04.
Definition PAGING_KERNEL_PAGE : Z := Z.lor PAGING_FLAG_PRESENT PAGING_FLAG_WRITE.
Definition PAGING_USER_PAGE : Z := Z.lor (Z.lor PAGING_FLAG_PRESENT PAGING_FLAG_WRITE) PAGING_FLAG_USER.
Definition USER_STACK_TOP : Z := 0xBFFFFFFB.
Definition USER_ENTRY_POINT : Z := 0x00000000.
Definition USER_CODE_MAX_PAGES : Z := 16.

(** [mov cr3, eax] (loader.s) *)
Definition load_page_directory (cr3 : Z) : K unit :=
  modify (fun k => let c := k_cpu k in
    set_cpu (CpuState (cpu_if c) (cpu_gdtr c) (cpu_tr c) (cpu_idtr c) cr3 (cpu_cs c) (cpu_ds c)) k).

(** The assignments [array[i] = v] to each of the tables and frames. *)
Definition set_boot_pde (i v : Z) : K unit :=
  p <- gets k_paging ;;
  l <- from_option (arr_set (boot_page_directory p) i v) ;;
  modify (set_paging (PagingState l (boot_page_table1 p) (user_page_directory p) (user_code_page_table p)
    (user_stack_page_table p) (user_code_pages p) (user_stack_page p))).
Definition set_user_pde (i v : Z) : K unit :=
  p <- gets k_paging ;;
  l <- from_option (arr_set (user_page_directory p) i v) ;;
  modify (set_paging (PagingState (boot_page_directory p) (boot_page_table1 p) l (user_code_page_table p)
    (user_stack_page_table p) (user_code_pages p) (user_stack_page p))).
Definition set_code_pte (i v : Z) : K unit :=
  p <- gets k_paging ;;
  l <- from_option (arr_set (user_code_page_table p) i v) ;;
  modify (set_paging (PagingState (boot_page_directory p) (boot_page_table1 p) (user_page_directory p) l
    (user_stack_page_table p) (user_code_pages p) (user_stack_page p))).
Definition set_stack_pte (i v : Z) : K unit :=
  p <- gets k_paging ;;
  l <- from_option (arr_set (user_stack_page_table p) i v) ;;
  modify (set_paging (PagingState (boot_page_directory p) (boot_page_table1 p) (user_page_directory p)
    (user_code_page_table p) l (user_code_pages p) (user_stack_page p))).
Definition set_code_byte (page i v : Z) : K unit :=
  p <- gets k_paging ;;
  l <- from_option (arr_get (user_code_pages p) page) ;;
  l' <- from_option (arr_set l i v) ;;
  ll <- from_option (arr_set (user_code_pages p) page l') ;;
  modify (set_paging (PagingState (boot_page_directory p) (boot_page_table1 p) (user_page_directory p)
    (user_code_page_table p) (user_stack_page_table p) ll (user_stack_page p))).
Definition set_stack_byte (i v : Z) : K unit :=
  p <- gets k_paging ;;
  l <- from_option (arr_set (user_stack_page p) i v) ;;
  modify (set_paging (PagingState (boot_page_directory p) (boot_page_table1 p) (user_page_directory p)
    (user_code_page_table p) (user_stack_page_table p) (user_code_pages p) l)).

Section Ops.
Context `{Layout}.

Definition paging_init : K unit :=
  let pt_phys := VIRTUAL_TO_PHYSICAL boot_page_table1_addr in
  set_boot_pde 0 (Z.lor pt_phys PAGING_KERNEL_PAGE) ;;;
  set_boot_pde 768 (Z.lor pt_phys PAGING_KERNEL_PAGE).

(** The number of bytes of page [p] that come from the image. *)
Definition to_copy (module_size p : Z) : Z :=
  let offset := p * 4096 in
  if module_size <? u32 (offset + 4096) then u32 (module_size - offset) else 4096.

(** The body of the copy loop for page [p]. *)
Definition load_page (module_start module_size p : Z) : K unit :=
  let offset := p * 4096 in
  (when offset <? module_size do
     for_up 0 (to_copy module_size p) (fun i =>
       v <- load8 (module_start + (offset + i)) ;; set_code_byte p i v)) ;;;
  set_code_pte p (Z.lor (VIRTUAL_TO_PHYSICAL (user_code_pages_addr + p * 4096)) PAGING_USER_PAGE).

Definition paging_setup_user_process (module_start module_size : Z) : K unit :=
  for_up 0 1024 (fun i => set_user_pde i 0 ;;; set_code_pte i 0 ;;; set_stack_pte i 0) ;;;
  for_up 0 USER_CODE_MAX_PAGES (fun p => for_up 0 4096 (fun i => set_code_byte p i 0)) ;;;
  for_up 0 4096 (fun i => set_stack_byte i 0) ;;;
  for_up 0 USER_CODE_MAX_PAGES (load_page module_start module_size) ;;;
  set_user_pde 0 (Z.lor (VIRTUAL_TO_PHYSICAL user_code_page_table_addr) PAGING_USER_PAGE) ;;;
  set_stack_pte 1023 (Z.lor (VIRTUAL_TO_PHYSICAL user_stack_page_addr) PAGING_USER_PAGE) ;;;
  set_user_pde 767 (Z.lor (VIRTUAL_TO_PHYSICAL user_stack_page_table_addr) PAGING_USER_PAGE) ;;;
  p <- gets k_paging ;;
  e <- from_option (arr_get (boot_page_directory p) 768) ;;
  set_user_pde 768 e ;;;
  load_page_directory (VIRTUAL_TO_PHYSICAL user_page_directory_addr).
End Ops.

(** * The MMU

    The two-level walk of IA-32: [tables] gives the page table at a physical
    address.  A user access needs the U/S bit in both entries, and a user store the
    R/W bit in both too; a ring 0 store ignores R/W, since CR0.WP stays clear. *)

Definition entry_present (e : Z) : bool := Z.testbit e 0.
Definition entry_writable (e : Z) : bool := Z.testbit e 1.
Definition entry_user (e : Z) : bool := Z.testbit e 2.
Definition entry_frame (e : Z) : Z := e / 4096 * 4096.

Definition translate (tables : Z -> option (list Z)) (dir : list Z) (user : bool) (va : Z) : option Z :=
  pde ← dir !! Z.to_nat (va / 4194304);
  if entry_present pde && (negb user || entry_user pde) then
    pt ← tables (entry_frame pde);
    pte ← pt !! Z.to_nat (va / 4096 mod 1024);
    if entry_present pte && (negb user || entry_user pte) then Some (entry_frame pte + va mod 4096) else None
  else None.

Definition entries_writable (tables : Z -> option (list Z)) (dir : list Z) (va : Z) : bool :=
  default false (
    pde ← dir !! Z.to_nat (va / 4194304);
    pt ← tables (entry_frame pde);
    pte ← pt !! Z.to_nat (va / 4096 mod 1024);
    Some (entry_writable pde && entry_writable pte)).
(** Where a ring 3 store goes. *)
Definition translate_write (tables : Z -> option (list Z)) (dir : list Z) (va : Z) : option Z :=
  if entries_writable tables dir va then translate tables dir true va else None.

(** The page tables of the kernel at their physical addresses. *)
Definition tables_of `{Layout} (p : paging_state) (pa : Z) : option (list Z) :=
  if pa =? VIRTUAL_TO_PHYSICAL boot_page_table1_addr then Some (boot_page_table1 p)
  else if pa =? VIRTUAL_TO_PHYSICAL user_code_page_table_addr then Some (user_code_page_table p)
  else if pa =? VIRTUAL_TO_PHYSICAL user_stack_page_table_addr then Some (user_stack_page_table p)
  else None.

(** The page directory that CR3 points to, and the walk from there. *)
Definition loaded_directory `{Layout} (k : kernel) : option (list Z) :=
  if cpu_cr3 (k_cpu k) =? VIRTUAL_TO_PHYSICAL user_page_directory_addr then Some (user_page_directory (k_paging k))
  else if cpu_cr3 (k_cpu k) =? VIRTUAL_TO_PHYSICAL boot_page_directory_addr then Some (boot_page_directory (k_paging k))
  else None.
Definition walk `{Layout} (user : bool) (k : kernel) (va : Z) : option Z :=
  dir ← loaded_directory k; translate (tables_of (k_paging k)) dir user va.
Definition walk_write `{Layout} (k : kernel) (va : Z) : option Z :=
  dir ← loaded_directory k; translate_write (tables_of (k_paging k)) dir va.

(** The arrays have the sizes of their declarations. *)
Record paging_sized (p : paging_state) : Prop := PagingSized {
  sz_boot_dir : length (boot_page_directory p) = 1024%nat;
  sz_boot_table : length (boot_page_table1 p) = 1024%nat;
  sz_user_dir : length (user_page_directory p) = 1024%nat;
  sz_code_table : length (user_code_page_table p) = 1024%nat;
  sz_stack_table : length (user_stack_page_table p) = 1024%nat;
  sz_code_pages : length (user_code_pages p) = 16%nat;
  sz_code_page : Forall (fun l => length l = 4096%nat) (user_code_pages p);
  sz_stack_page : length (user_stack_page p) = 4096%nat
}.

(** What the linker guarantees: 4KB alignment, addresses in the mapped window
    of the kernel, distinct page tables. *)
Definition page_aligned (a : Z) : Prop := a mod 4096 = 0 /\ KERNEL_VIRTUAL_BASE <= a < 4294967296.
Class PagingLayout `{Layout} : Prop := {
  al_boot_table : page_aligned boot_page_table1_addr;
  al_code_table : page_aligned user_code_page_table_addr;
  al_stack_table : page_aligned user_stack_page_table_addr;
  al_code_pages : page_aligned user_code_pages_addr;
  al_code_pages_end : user_code_pages_addr + 65536 <= 4294967296;
  al_stack_page : page_aligned user_stack_page_addr;
  tables_distinct : NoDup [boot_page_table1_addr; user_code_page_table_addr; user_stack_page_table_addr]
}.
