(* ===== verification/PagingFacts.v ===== *)
(** What [paging_setup_user_process] builds, as closed forms of the arrays, and
    the arithmetic of page table entries. *)
From S2P Require Import Prelude State Machine Image Paging.

(** * Arrays filled from the front *)

Definition fill {A} (f : Z -> A) (i : Z) (l : list A) : list A := (f <$> seqZ 0 i) ++ drop (Z.to_nat i) l.

Section Fill.
Context {A : Type}.
Implicit Types (f : Z -> A) (l : list A).

Lemma fill_0 f l : fill f 0 l = l.
Proof. done. Qed.

Lemma fill_length f i l : 0 <= i <= Z.of_nat (length l) -> length (fill f i l) = length l.
Proof. intros Hi. unfold fill. rewrite length_app, length_fmap, length_seqZ, length_drop. lia. Qed.

Lemma fill_lookup f i l j :
  0 <= i <= Z.of_nat (length l) -> 0 <= j < Z.of_nat (length l) ->
  fill f i l !! Z.to_nat j = if j <? i then Some (f j) else l !! Z.to_nat j.
Proof.
  intros Hi Hj. unfold fill. case_bool.
  - rewrite lookup_app_l by (rewrite length_fmap, length_seqZ; lia).
    rewrite list_lookup_fmap, lookup_seqZ_lt by lia. simpl. do 2 f_equal. lia.
  - rewrite lookup_app_r by (rewrite length_fmap, length_seqZ; lia).
    rewrite length_fmap, length_seqZ, lookup_drop. f_equal. lia.
Qed.

Lemma fill_step f i l :
  0 <= i < Z.of_nat (length l) -> arr_set (fill f i l) i (f i) = Some (fill f (i + 1) l).
Proof.
  intros Hi. rewrite arr_set_Some by (rewrite fill_length; lia). f_equal.
  apply list_eq. intros j. destruct (decide (j < length l)%nat) as [Hj|Hj].
  - rewrite <- (Nat2Z.id j). rewrite (fill_lookup f (i + 1)) by lia.
    destruct (decide (Z.of_nat j = i)) as [<-|Hne].
    + rewrite list_lookup_insert_eq by (rewrite fill_length; lia). by rewrite (proj2 (Z.ltb_lt _ _)) by lia.
    + rewrite list_lookup_insert_ne by lia. rewrite fill_lookup by lia.
      destruct (Z.ltb_spec (Z.of_nat j) i), (Z.ltb_spec (Z.of_nat j) (i + 1)); try done; lia.
  - rewrite !lookup_ge_None_2; [done|rewrite fill_length; lia|rewrite length_insert, fill_length; lia].
Qed.

Lemma fill_full f n l : Z.of_nat (length l) = n -> fill f n l = f <$> seqZ 0 n.
Proof. intros <-. unfold fill. rewrite Nat2Z.id, drop_all. apply app_nil_r. Qed.

Lemma seqZ_fmap_lookup f n j : 0 <= j < n -> (f <$> seqZ 0 n) !! Z.to_nat j = Some (f j).
Proof. intros Hj. rewrite list_lookup_fmap, lookup_seqZ_lt by lia. simpl. do 2 f_equal. lia. Qed.
End Fill.

(** * Page table entries *)

Lemma aligned_lor a f : a mod 4096 = 0 -> 0 <= f < 8 -> Z.lor a f = a + f.
Proof.
  intros Ha Hf. symmetry. apply Z.add_nocarry_lor. apply Z.bits_inj'. intros n Hn.
  rewrite Z.land_spec, Z.bits_0. destruct (Z.ltb_spec n 3).
  - replace (Z.testbit a n) with (Z.testbit (a mod 2 ^ 3) n) by (by rewrite Z.mod_pow2_bits_low by lia).
    replace (a mod 2 ^ 3) with 0 by (change (2 ^ 3) with 8; Z.div_mod_to_equations; lia). by rewrite Z.bits_0.
  - replace (Z.testbit f n) with false; [by rewrite andb_false_r|].
    rewrite <- (Z.mod_small f (2 ^ 3)) by (change (2 ^ 3) with 8; lia). by rewrite Z.mod_pow2_bits_high by lia.
Qed.

Lemma aligned_testbit a f n : a mod 4096 = 0 -> 0 <= f < 8 -> 0 <= n < 3 -> Z.testbit (Z.lor a f) n = Z.testbit f n.
Proof.
  intros Ha Hf Hn. rewrite Z.lor_spec.
  replace (Z.testbit a n) with (Z.testbit (a mod 2 ^ 3) n) by (by rewrite Z.mod_pow2_bits_low by lia).
  replace (a mod 2 ^ 3) with 0 by (change (2 ^ 3) with 8; Z.div_mod_to_equations; lia). by rewrite Z.bits_0.
Qed.

(** An entry made of an aligned frame address and flags. *)
Lemma entry_parts a f :
  a mod 4096 = 0 -> 0 <= f < 8 ->
  entry_frame (Z.lor a f) = a /\ entry_present (Z.lor a f) = Z.testbit f 0 /\ entry_user (Z.lor a f) = Z.testbit f 2.
Proof.
  intros Ha Hf. unfold entry_present, entry_user. rewrite !aligned_testbit by lia.
  split; [|done]. unfold entry_frame. rewrite aligned_lor by done. Z.div_mod_to_equations. lia.
Qed.

Lemma entry_writable_flag a f : a mod 4096 = 0 -> 0 <= f < 8 -> entry_writable (Z.lor a f) = Z.testbit f 1.
Proof. intros Ha Hf. unfold entry_writable. by rewrite aligned_testbit by lia. Qed.

Lemma phys_aligned a :
  page_aligned a -> VIRTUAL_TO_PHYSICAL a = a - KERNEL_VIRTUAL_BASE /\ VIRTUAL_TO_PHYSICAL a mod 4096 = 0.
Proof.
  intros [Ha Hr]. unfold VIRTUAL_TO_PHYSICAL, KERNEL_VIRTUAL_BASE in *.
  rewrite u32_small by word_solve. split; [done|]. Z.div_mod_to_equations. lia.
Qed.

(** * Closed forms *)

Section Setup.
Context `{Layout}.

(** The byte of the image at [x], and the frame it gives for page [p]. *)
Definition image_byte (m : gmap Z Z) (module_start x : Z) : Z := byte_at m (module_start + x).
Definition zero_page : list Z := (fun _ => 0) <$> seqZ 0 4096.
Definition copied (module_size p : Z) : Z := Z.max 0 (Z.min 4096 (module_size - p * 4096)).
Definition page_image (m : gmap Z Z) (module_start module_size p : Z) : list Z :=
  fill (fun i => image_byte m module_start (p * 4096 + i)) (copied module_size p) zero_page.
Definition code_pte (p : Z) : Z :=
  Z.lor (VIRTUAL_TO_PHYSICAL (user_code_pages_addr + p * 4096)) PAGING_USER_PAGE.
Definition zero_table : list Z := (fun _ => 0) <$> seqZ 0 1024.

Definition with_user (p : paging_state) (dir code stack : list Z) (pages : list (list Z)) (sp : list Z) : paging_state :=
  PagingState (boot_page_directory p) (boot_page_table1 p) dir code stack pages sp.

Lemma page_image_lookup m ms size x :
  is_u32 size -> 0 <= x < 65536 ->
  page_image m ms size (x / 4096) !! Z.to_nat (x mod 4096) = Some (if x <? size then byte_at m (ms + x) else 0).
Proof.
  intros Hsize Hx. unfold page_image. assert (length zero_page = 4096%nat) as Hz by (unfold zero_page; by rewrite length_fmap, length_seqZ).
  rewrite fill_lookup by (unfold copied; word_solve). unfold copied, image_byte.
  destruct (Z.ltb_spec (x mod 4096) (Z.max 0 (Z.min 4096 (size - x / 4096 * 4096)))), (Z.ltb_spec x size);
    try (exfalso; word_solve).
  - do 2 f_equal. word_solve.
  - unfold zero_page. apply seqZ_fmap_lookup. word_solve.
Qed.

Lemma clear_tables_wp k :
  paging_sized (k_paging k) ->
  let p := k_paging k in
  wp (for_up 0 1024 (fun i => set_user_pde i 0 ;;; set_code_pte i 0 ;;; set_stack_pte i 0))
    (fun _ k' => k' = set_paging (with_user p zero_table zero_table zero_table (user_code_pages p) (user_stack_page p)) k) k.
Proof.
  intros [_ _ Hd Hc Hs _ _ _] p.
  set (I := fun i k' => k' = set_paging (with_user p (fill (fun _ => 0) i (user_page_directory p))
    (fill (fun _ => 0) i (user_code_page_table p)) (fill (fun _ => 0) i (user_stack_page_table p))
    (user_code_pages p) (user_stack_page p)) k).
  eapply wp_mono; [apply (wp_for_up I); [lia| |]|].
  - unfold I, with_user. rewrite !fill_0. by destruct k as [? ? ? ? ? ? ? ? ? []].
  - intros i k' Hi ->. unfold set_user_pde, set_code_pte, set_stack_pte. wp_steps.
    eapply wp_from_option; [apply (fill_step (fun _ => 0)); fold p in Hd; lia|]. wp_steps.
    eapply wp_from_option; [apply (fill_step (fun _ => 0)); fold p in Hc; lia|]. wp_steps.
    eapply wp_from_option; [apply (fill_step (fun _ => 0)); fold p in Hs; lia|]. wp_steps. done.
  - intros [] k' ->. unfold I. fold p in Hd, Hc, Hs. by rewrite !fill_full by lia.
Qed.

(** Filling the first [n] bytes of frame [p]. *)
Lemma fill_page_wp k0 P dir code stack pages sp p page n g body :
  0 <= p -> pages !! Z.to_nat p = Some page -> 0 <= n <= Z.of_nat (length page) ->
  (forall i k', 0 <= i < n -> k_mem k' = k_mem k0 -> body i k' = set_code_byte p i (g i) k') ->
  wp (for_up 0 n body)
    (fun _ k' => k' = set_paging (with_user P dir code stack (<[Z.to_nat p := fill g n page]> pages) sp) k0)
    (set_paging (with_user P dir code stack pages sp) k0).
Proof.
  intros Hp Hpage Hn Hbody. pose proof (lookup_lt_Some _ _ _ Hpage) as Hlt.
  set (I := fun i k' => k' = set_paging (with_user P dir code stack (<[Z.to_nat p := fill g i page]> pages) sp) k0).
  apply (wp_for_up I); [lia| |].
  - unfold I. by rewrite fill_0, list_insert_id.
  - intros i k' Hi ->. eapply wp_run_eq; [by apply Hbody|]. unfold set_code_byte. wp_steps.
    cbn [k_paging set_paging with_user user_code_pages].
    eapply (wp_from_option _ (fill g i page)).
    { unfold arr_get. rewrite (proj2 (Z.leb_le _ _)) by lia. by apply list_lookup_insert_eq. }
    wp_steps. eapply wp_from_option; [apply fill_step; lia|].
    wp_steps. eapply wp_from_option; [apply arr_set_Some; rewrite length_insert; lia|]. wp_steps.
    unfold I, with_user. cbn. by rewrite list_insert_insert_eq.
Qed.

Lemma clear_pages_wp k0 P dir code stack pages sp :
  length pages = 16%nat -> Forall (fun l => length l = 4096%nat) pages ->
  wp (for_up 0 USER_CODE_MAX_PAGES (fun p => for_up 0 4096 (fun i => set_code_byte p i 0)))
    (fun _ k' => k' = set_paging (with_user P dir code stack ((fun _ => zero_page) <$> seqZ 0 16) sp) k0)
    (set_paging (with_user P dir code stack pages sp) k0).
Proof.
  intros Hlen Hall.
  set (I := fun i k' => k' = set_paging (with_user P dir code stack (fill (fun _ => zero_page) i pages) sp) k0).
  eapply wp_mono; [apply (wp_for_up I); [unfold USER_CODE_MAX_PAGES; lia|done|]|].
  - intros p k' Hp ->. change USER_CODE_MAX_PAGES with 16 in Hp.
    destruct (lookup_lt_is_Some_2 pages (Z.to_nat p)) as [page Hpage]; [lia|].
    assert (length page = 4096%nat) as Hpl by (by eapply Forall_lookup_1 in Hall).
    eapply wp_mono.
    { apply (fill_page_wp k0 P dir code stack _ sp p page 4096 (fun _ => 0)); [lia| |lia|done].
      rewrite fill_lookup by lia. by rewrite Z.ltb_irrefl. }
    intros [] k' ->. unfold I. do 2 f_equal. rewrite (fill_full _ 4096) by lia.
    pose proof (fill_step (fun _ => zero_page) p pages ltac:(lia)) as Hs.
    rewrite arr_set_Some in Hs by (rewrite fill_length; lia). by apply (inj Some) in Hs.
  - intros [] k' ->. unfold I. change USER_CODE_MAX_PAGES with 16. by rewrite fill_full by lia.
Qed.

Lemma clear_stack_wp k0 P dir code stack pages sp :
  length sp = 4096%nat ->
  wp (for_up 0 4096 (fun i => set_stack_byte i 0))
    (fun _ k' => k' = set_paging (with_user P dir code stack pages zero_page) k0)
    (set_paging (with_user P dir code stack pages sp) k0).
Proof.
  intros Hlen.
  set (I := fun i k' => k' = set_paging (with_user P dir code stack pages (fill (fun _ => 0) i sp)) k0).
  eapply wp_mono; [apply (wp_for_up I); [lia|done|]|].
  - intros i k' Hi ->. unfold set_stack_byte. wp_steps.
    eapply wp_from_option; [apply (fill_step (fun _ => 0)); lia|]. by wp_steps.
  - intros [] k' ->. unfold I. by rewrite fill_full by lia.
Qed.

Lemma to_copy_copied module_size p :
  is_u32 module_size -> 0 <= p < 16 -> p * 4096 < module_size -> to_copy module_size p = copied module_size p.
Proof.
  intros Hm Hp Hlt. unfold to_copy, copied. rewrite !u32_small by word_solve. case_bool; lia.
Qed.

(** The module lies in memory below 4GB. *)
Definition module_mapped (m : gmap Z Z) (module_start module_size : Z) : Prop :=
  mapped m module_start (Z.min module_size 65536) /\ 0 <= module_start /\
  module_start + Z.min module_size 65536 <= 4294967296.

Lemma module_load m ms size x k :
  module_mapped m ms size -> k_mem k = m -> 0 <= x < Z.min size 65536 ->
  load8 (ms + x) k = Ok (image_byte m ms x, k).
Proof.
  intros (Hm & H0 & H1) <- Hx. destruct (Hm x Hx) as (v & Hv & _).
  unfold image_byte, byte_at. rewrite Hv. apply load8_eq; [word_solve|done].
Qed.

Lemma load_pages_wp k0 P dir stack sp ms size :
  is_u32 size -> module_mapped (k_mem k0) ms size ->
  wp (for_up 0 USER_CODE_MAX_PAGES (load_page ms size))
    (fun _ k' => k' = set_paging (with_user P dir (fill code_pte 16 zero_table) stack
       (page_image (k_mem k0) ms size <$> seqZ 0 16) sp) k0)
    (set_paging (with_user P dir zero_table stack ((fun _ => zero_page) <$> seqZ 0 16) sp) k0).
Proof.
  intros Hsize Hmod. set (zp := (fun _ => zero_page) <$> seqZ 0 16).
  assert (length zp = 16%nat) as Hzp by done.
  assert (length zero_table = 1024%nat) as Hzt by (unfold zero_table; by rewrite length_fmap, length_seqZ).
  assert (length zero_page = 4096%nat) as Hz by (unfold zero_page; by rewrite length_fmap, length_seqZ).
  set (I := fun i k' => k' = set_paging (with_user P dir (fill code_pte i zero_table) stack
    (fill (page_image (k_mem k0) ms size) i zp) sp) k0).
  eapply wp_mono; [apply (wp_for_up I); [unfold USER_CODE_MAX_PAGES; lia|done|]|].
  2: { intros [] k' ->. unfold I. change USER_CODE_MAX_PAGES with 16. by rewrite (fill_full _ 16 zp) by done. }
  intros p k' Hp ->. change USER_CODE_MAX_PAGES with 16 in Hp. unfold load_page. apply wp_bind.
  pose proof (fill_step (page_image (k_mem k0) ms size) p zp ltac:(lia)) as Hs.
  rewrite arr_set_Some in Hs by (rewrite fill_length; lia). apply (inj Some) in Hs.
  assert (fill (page_image (k_mem k0) ms size) p zp !! Z.to_nat p = Some zero_page) as Hcur.
  { rewrite fill_lookup by lia. rewrite Z.ltb_irrefl. unfold zp. by rewrite seqZ_fmap_lookup. }
  apply (wp_mono _ (fun _ k' => k' = set_paging (with_user P dir (fill code_pte p zero_table) stack
    (fill (page_image (k_mem k0) ms size) (p + 1) zp) sp) k0)).
  - rewrite <- Hs. unfold page_image at 1. case_bool.
    + rewrite to_copy_copied by done. apply fill_page_wp; [lia|done|unfold copied; lia|].
      intros i k' Hi Hk'. erewrite (bind_ok (load8 _)); [done|]. rewrite <- Hk'.
      apply (module_load (k_mem k') ms size); [by rewrite Hk'|done|]. unfold copied in Hi. lia.
    + apply wp_ret. unfold copied. replace (Z.max 0 _) with 0 by lia. by rewrite fill_0, list_insert_id.
  - intros [] k' ->. unfold set_code_pte. wp_steps.
    eapply wp_from_option; [apply (fill_step code_pte p zero_table); lia|]. by wp_steps.
Qed.

Definition code_pde : Z := Z.lor (VIRTUAL_TO_PHYSICAL user_code_page_table_addr) PAGING_USER_PAGE.
Definition stack_pde : Z := Z.lor (VIRTUAL_TO_PHYSICAL user_stack_page_table_addr) PAGING_USER_PAGE.
Definition stack_pte : Z := Z.lor (VIRTUAL_TO_PHYSICAL user_stack_page_addr) PAGING_USER_PAGE.
Definition boot_pde : Z := Z.lor (VIRTUAL_TO_PHYSICAL boot_page_table1_addr) PAGING_KERNEL_PAGE.

Definition user_dir (kernel_pde : Z) : list Z :=
  <[768%nat := kernel_pde]> (<[767%nat := stack_pde]> (<[0%nat := code_pde]> zero_table)).
Definition stack_table : list Z := <[1023%nat := stack_pte]> zero_table.

Definition with_cr3 (cr3 : Z) (c : cpu_state) : cpu_state :=
  CpuState (cpu_if c) (cpu_gdtr c) (cpu_tr c) (cpu_idtr c) cr3 (cpu_cs c) (cpu_ds c).

Lemma zero_table_length : length zero_table = 1024%nat.
Proof. unfold zero_table. by rewrite length_fmap, length_seqZ. Qed.

(** Everything [paging_setup_user_process] leaves. *)
Lemma setup_wp k ms size e :
  paging_sized (k_paging k) -> is_u32 size -> module_mapped (k_mem k) ms size ->
  boot_page_directory (k_paging k) !! 768%nat = Some e ->
  wp (paging_setup_user_process ms size) (fun _ k' =>
    k' = set_cpu (with_cr3 (VIRTUAL_TO_PHYSICAL user_page_directory_addr) (k_cpu k))
      (set_paging (with_user (k_paging k) (user_dir e) (fill code_pte 16 zero_table) stack_table
        (page_image (k_mem k) ms size <$> seqZ 0 16) zero_page) k)) k.
Proof.
  intros Hsz Hsize Hmod He. pose proof zero_table_length as Hzt. unfold paging_setup_user_process.
  apply wp_bind. eapply wp_mono; [by apply clear_tables_wp|]. intros [] k1 ->.
  apply wp_bind. eapply wp_mono; [apply clear_pages_wp; apply Hsz|]. intros [] k1 ->.
  apply wp_bind. eapply wp_mono; [apply clear_stack_wp; apply Hsz|]. intros [] k1 ->.
  apply wp_bind. eapply wp_mono; [by apply load_pages_wp|]. intros [] k1 ->.
  unfold set_user_pde, set_stack_pte, load_page_directory, with_user. wp_steps.
  eapply wp_from_option; [by apply arr_set_Some; cbn [k_paging set_paging user_page_directory]; rewrite Hzt|].
  wp_steps. eapply wp_from_option; [by apply arr_set_Some; cbn [k_paging set_paging user_stack_page_table]; rewrite Hzt|].
  wp_steps. eapply wp_from_option;
    [by apply arr_set_Some; cbn [k_paging set_paging user_page_directory]; rewrite length_insert, Hzt|].
  wp_steps. eapply wp_from_option; [exact He|].
  wp_steps. eapply wp_from_option;
    [by apply arr_set_Some; cbn [k_paging set_paging user_page_directory]; rewrite !length_insert, Hzt|].
  wp_steps. done.
Qed.

Lemma paging_init_eq k :
  length (boot_page_directory (k_paging k)) = 1024%nat ->
  let p := k_paging k in
  paging_init k = Ok (tt, set_paging (PagingState (<[768%nat := boot_pde]> (<[0%nat := boot_pde]> (boot_page_directory p)))
    (boot_page_table1 p) (user_page_directory p) (user_code_page_table p) (user_stack_page_table p)
    (user_code_pages p) (user_stack_page p)) k).
Proof.
  intros Hl p. unfold paging_init, set_boot_pde. unfold bind at 1. unfold bind at 1. unfold gets at 1.
  unfold bind at 1. rewrite arr_set_Some by (rewrite Hl; lia). cbn [from_option]. unfold ret at 1, modify at 1.
  unfold bind at 1, gets. cbn [k_paging set_paging boot_page_directory].
  unfold bind. rewrite arr_set_Some by (rewrite length_insert, Hl; lia). done.
Qed.

(** * The walk *)

Lemma zero_table_lookup i : (i < 1024)%nat -> zero_table !! i = Some 0.
Proof. intros Hi. rewrite <- (Nat2Z.id i). unfold zero_table. by rewrite seqZ_fmap_lookup by lia. Qed.

Lemma user_dir_lookup e d :
  0 <= d < 1024 -> user_dir e !! Z.to_nat d =
    Some (if d =? 0 then code_pde else if d =? 767 then stack_pde else if d =? 768 then e else 0).
Proof.
  intros Hd. unfold user_dir. pose proof zero_table_length as Hzt.
  destruct (Z.eqb_spec d 0) as [->|H0]; [by rewrite !list_lookup_insert_ne, list_lookup_insert_eq by lia|].
  destruct (Z.eqb_spec d 767) as [->|H1];
    [by rewrite list_lookup_insert_ne, list_lookup_insert_eq by (rewrite ?length_insert; lia)|].
  destruct (Z.eqb_spec d 768) as [->|H2]; [by rewrite list_lookup_insert_eq by (rewrite !length_insert; lia)|].
  rewrite !list_lookup_insert_ne by lia. apply zero_table_lookup. lia.
Qed.

Lemma code_table_lookup i :
  0 <= i < 1024 -> fill code_pte 16 zero_table !! Z.to_nat i = Some (if i <? 16 then code_pte i else 0).
Proof.
  intros Hi. rewrite fill_lookup by (rewrite zero_table_length; lia). case_bool; [done|].
  apply zero_table_lookup. lia.
Qed.

Lemma stack_table_lookup i :
  0 <= i < 1024 -> stack_table !! Z.to_nat i = Some (if i =? 1023 then stack_pte else 0).
Proof.
  intros Hi. unfold stack_table. case_bool.
  - subst i. by rewrite list_lookup_insert_eq by (rewrite zero_table_length; lia).
  - rewrite list_lookup_insert_ne by lia. apply zero_table_lookup. lia.
Qed.

Lemma boot_table_lookup i : 0 <= i < 1024 -> boot_table !! Z.to_nat i = Some (Z.lor (i * 4096) PAGING_KERNEL_PAGE).
Proof. intros Hi. unfold boot_table. by rewrite seqZ_fmap_lookup. Qed.

(** The walk through a directory entry whose table is known. *)
Lemma translate_entry tables dir user va a f pt :
  is_u32 va -> dir !! Z.to_nat (va / 4194304) = Some (Z.lor a f) -> a mod 4096 = 0 -> 0 <= f < 8 ->
  tables a = Some pt ->
  translate tables dir user va =
  if Z.testbit f 0 && (negb user || Z.testbit f 2) then
    pte ← pt !! Z.to_nat (va / 4096 mod 1024);
    if entry_present pte && (negb user || entry_user pte) then Some (entry_frame pte + va mod 4096) else None
  else None.
Proof.
  intros Hva Hdir Ha Hf Ht. unfold translate. rewrite Hdir. cbn [mbind option_bind].
  destruct (entry_parts a f Ha Hf) as (-> & -> & ->). by rewrite Ht.
Qed.

Lemma translate_absent tables dir user va :
  dir !! Z.to_nat (va / 4194304) = Some 0 -> translate tables dir user va = None.
Proof. intros Hdir. unfold translate. by rewrite Hdir. Qed.

(** Both entries are known and carry the R/W bit. *)
Lemma writable_entries tables dir va a f pt b g :
  dir !! Z.to_nat (va / 4194304) = Some (Z.lor a f) -> a mod 4096 = 0 -> 0 <= f < 8 -> tables a = Some pt ->
  pt !! Z.to_nat (va / 4096 mod 1024) = Some (Z.lor b g) -> b mod 4096 = 0 -> 0 <= g < 8 ->
  entries_writable tables dir va = Z.testbit f 1 && Z.testbit g 1.
Proof.
  intros Hdir Ha Hf Ht Hpt Hb Hg. unfold entries_writable. rewrite Hdir. cbn [mbind option_bind].
  destruct (entry_parts a f Ha Hf) as (-> & _ & _). rewrite Ht. cbn [mbind option_bind]. rewrite Hpt. cbn [mbind option_bind default].
  by rewrite !entry_writable_flag.
Qed.

(** What a user access went through. *)
Lemma translate_user_inv tables dir va pa :
  translate tables dir true va = Some pa -> exists pde pt pte,
    dir !! Z.to_nat (va / 4194304) = Some pde /\ entry_user pde = true /\ tables (entry_frame pde) = Some pt /\
    pt !! Z.to_nat (va / 4096 mod 1024) = Some pte /\ entry_user pte = true /\ pa = entry_frame pte + va mod 4096.
Proof.
  unfold translate. destruct (dir !! _) as [pde|]; [|done]. cbn [mbind option_bind negb orb].
  destruct (entry_present pde && entry_user pde) eqn:E1; [|done]. apply andb_prop in E1 as [_ E1].
  destruct (tables _) as [pt|] eqn:E2; [|done]. cbn [mbind option_bind]. destruct (pt !! _) as [pte|] eqn:E3; [|done]. cbn [mbind option_bind].
  destruct (entry_present pte && entry_user pte) eqn:E4; [|done]. apply andb_prop in E4 as [_ E4]. intros [= <-].
  by exists pde, pt, pte.
Qed.

Lemma write_walk k va pa : walk_write k va = Some pa -> walk true k va = Some pa.
Proof.
  unfold walk_write, walk, translate_write. destruct (loaded_directory k); [|done]. cbn [mbind option_bind]. by destruct (entries_writable _ _ _).
Qed.
End Setup.
