(* ===== verification/PagingProps.v ===== *)
(** The correctness of address space set-up, stated for arch/x86/mmu/paging.c
    against the two-level walk of the MMU. *)
From S2P Require Import Prelude State Machine Image Paging PagingFacts.

(** The physical address a ring 3 access reaches: 64KB of program at 0 and one
    page of stack below 3GB. *)
Definition user_frame `{Layout} (va : Z) : option Z :=
  if va <? 65536 then Some (user_code_pages_addr - KERNEL_VIRTUAL_BASE + va)
  else if (0xBFFFF000 <=? va) && (va <? 0xC0000000) then
    Some (user_stack_page_addr - KERNEL_VIRTUAL_BASE + (va - 0xBFFFF000))
  else None.

(** Ring 0 also reaches the first 4MB of physical memory at 3GB. *)
Definition kernel_frame `{Layout} (va : Z) : option Z :=
  if (0xC0000000 <=? va) && (va <? 0xC0400000) then Some (va - KERNEL_VIRTUAL_BASE) else user_frame va.

Section Walk.
Context `{PagingLayout}.

Lemma tables_of_boot p : tables_of p (VIRTUAL_TO_PHYSICAL boot_page_table1_addr) = Some (boot_page_table1 p).
Proof. unfold tables_of. by rewrite Z.eqb_refl. Qed.

Lemma phys_inj a b : page_aligned a -> page_aligned b -> a <> b -> (VIRTUAL_TO_PHYSICAL a =? VIRTUAL_TO_PHYSICAL b) = false.
Proof.
  intros Ha Hb Hne. destruct (phys_aligned a Ha) as [-> _], (phys_aligned b Hb) as [-> _]. apply Z.eqb_neq. lia.
Qed.

Lemma tables_of_code p : tables_of p (VIRTUAL_TO_PHYSICAL user_code_page_table_addr) = Some (user_code_page_table p).
Proof.
  pose proof tables_distinct as Hd. rewrite !NoDup_cons, !elem_of_cons in Hd. destruct Hd as (Hd & _).
  unfold tables_of. rewrite phys_inj, Z.eqb_refl; [done|apply al_code_table|apply al_boot_table|]. auto.
Qed.

Lemma tables_of_stack p : tables_of p (VIRTUAL_TO_PHYSICAL user_stack_page_table_addr) = Some (user_stack_page_table p).
Proof.
  pose proof tables_distinct as Hd. rewrite !NoDup_cons, !elem_of_cons in Hd. destruct Hd as (Hd1 & Hd2 & _).
  unfold tables_of. rewrite (phys_inj _ boot_page_table1_addr), (phys_inj _ user_code_page_table_addr), Z.eqb_refl;
    [done|apply al_stack_table|apply al_code_table|auto|apply al_stack_table|apply al_boot_table|auto].
Qed.

Lemma code_page_aligned i : 0 <= i < 16 -> page_aligned (user_code_pages_addr + i * 4096).
Proof.
  intros Hi. destruct al_code_pages as [Ha Hr]. pose proof al_code_pages_end. unfold page_aligned.
  split; [Z.div_mod_to_equations; lia|lia].
Qed.

(** A present user entry in both levels. *)
Lemma walk_user_page T dir user va a pt b :
  is_u32 va -> dir !! Z.to_nat (va / 4194304) = Some (Z.lor (VIRTUAL_TO_PHYSICAL a) PAGING_USER_PAGE) ->
  page_aligned a -> T (VIRTUAL_TO_PHYSICAL a) = Some pt ->
  pt !! Z.to_nat (va / 4096 mod 1024) = Some (Z.lor (VIRTUAL_TO_PHYSICAL b) PAGING_USER_PAGE) -> page_aligned b ->
  translate T dir user va = Some (b - KERNEL_VIRTUAL_BASE + va mod 4096).
Proof.
  intros Hva Hdir Ha Ht Hpt Hb. destruct (phys_aligned a Ha) as [_ Hal], (phys_aligned b Hb) as [Hpb Hbl].
  rewrite (translate_entry T dir user va _ _ _ Hva Hdir Hal ltac:(done) Ht), Hpt. cbn [mbind option_bind].
  destruct (entry_parts _ PAGING_USER_PAGE Hbl ltac:(done)) as (-> & -> & ->). rewrite Hpb. by destruct user.
Qed.

(** An absent entry in a user table. *)
Lemma walk_user_hole T dir user va a pt :
  is_u32 va -> dir !! Z.to_nat (va / 4194304) = Some (Z.lor (VIRTUAL_TO_PHYSICAL a) PAGING_USER_PAGE) ->
  page_aligned a -> T (VIRTUAL_TO_PHYSICAL a) = Some pt ->
  pt !! Z.to_nat (va / 4096 mod 1024) = Some 0 -> translate T dir user va = None.
Proof.
  intros Hva Hdir Ha Ht Hpt. destruct (phys_aligned a Ha) as [_ Hal].
  rewrite (translate_entry T dir user va _ _ _ Hva Hdir Hal ltac:(done) Ht), Hpt. by destruct user.
Qed.

(** The bootstrap table behind a kernel directory entry. *)
Lemma walk_boot p dir user va :
  is_u32 va -> dir !! Z.to_nat (va / 4194304) = Some boot_pde -> boot_page_table1 p = boot_table ->
  translate (tables_of p) dir user va = if user then None else Some (va mod 4194304).
Proof.
  intros Hva Hdir Hboot. destruct (phys_aligned _ al_boot_table) as [_ Hal].
  rewrite (translate_entry _ dir user va _ _ _ Hva Hdir Hal ltac:(done) (tables_of_boot p)).
  destruct user; [done|]. rewrite Hboot, boot_table_lookup by word_solve.
  cbn [mbind option_bind negb orb andb]. change (Z.testbit PAGING_KERNEL_PAGE 0) with true. cbn [andb].
  destruct (entry_parts (va / 4096 mod 1024 * 4096) PAGING_KERNEL_PAGE) as (-> & -> & _); [word_solve|done|].
  change (Z.testbit PAGING_KERNEL_PAGE 0) with true. cbn [andb]. f_equal. word_solve.
Qed.

(** Case analysis on the bounds that [user_frame] and [kernel_frame] test. *)
Ltac frame_cases va :=
  unfold kernel_frame, user_frame;
  destruct (Z.leb_spec 0xC0000000 va), (Z.ltb_spec va 0xC0400000), (Z.ltb_spec va 65536), (Z.leb_spec 0xBFFFF000 va),
    (Z.ltb_spec va 0xC0000000); try (exfalso; word_solve); cbn [andb].

(** The walk of the directory that [paging_setup_user_process] builds. *)
Lemma user_walk p pages sp user va :
  boot_page_table1 p = boot_table -> is_u32 va ->
  translate (tables_of (with_user p (user_dir boot_pde) (fill code_pte 16 zero_table) stack_table pages sp))
    (user_dir boot_pde) user va = if user then user_frame va else kernel_frame va.
Proof.
  intros Hboot Hva. set (P := with_user _ _ _ _ _ _).
  pose proof (user_dir_lookup boot_pde (va / 4194304) ltac:(word_solve)) as Hdir.
  destruct (Z.eqb_spec (va / 4194304) 0) as [H1|H1]; [|destruct (Z.eqb_spec (va / 4194304) 767) as [H2|H2];
    [|destruct (Z.eqb_spec (va / 4194304) 768) as [H3|H3]]].
  - pose proof (code_table_lookup (va / 4096 mod 1024) ltac:(word_solve)) as Hpte.
    destruct (Z.ltb_spec (va / 4096 mod 1024) 16) as [Hlt|Hge].
    + rewrite (walk_user_page _ _ user va _ _ _ Hva Hdir al_code_table (tables_of_code P) Hpte)
        by (apply code_page_aligned; word_solve).
      replace (user_code_pages_addr + va / 4096 mod 1024 * 4096 - KERNEL_VIRTUAL_BASE + va mod 4096)
        with (user_code_pages_addr - KERNEL_VIRTUAL_BASE + va) by word_solve.
      frame_cases va. by destruct user.
    + rewrite (walk_user_hole _ _ user va _ _ Hva Hdir al_code_table (tables_of_code P) Hpte).
      frame_cases va. by destruct user.
  - pose proof (stack_table_lookup (va / 4096 mod 1024) ltac:(word_solve)) as Hpte.
    destruct (Z.eqb_spec (va / 4096 mod 1024) 1023) as [Hlt|Hge].
    + rewrite (walk_user_page _ _ user va _ _ _ Hva Hdir al_stack_table (tables_of_stack P) Hpte al_stack_page).
      replace (va mod 4096) with (va - 0xBFFFF000) by word_solve. frame_cases va. by destruct user.
    + rewrite (walk_user_hole _ _ user va _ _ Hva Hdir al_stack_table (tables_of_stack P) Hpte).
      frame_cases va; by destruct user.
  - rewrite (walk_boot P _ user va Hva Hdir Hboot).
    replace (va mod 4194304) with (va - KERNEL_VIRTUAL_BASE) by (unfold KERNEL_VIRTUAL_BASE; word_solve).
    frame_cases va. by destruct user.
  - rewrite translate_absent by done. frame_cases va; by destruct user.
Qed.

(** Ring 3 may store wherever it may read. *)
Lemma user_walk_write p pages sp va :
  boot_page_table1 p = boot_table -> is_u32 va ->
  translate_write (tables_of (with_user p (user_dir boot_pde) (fill code_pte 16 zero_table) stack_table pages sp))
    (user_dir boot_pde) va = user_frame va.
Proof.
  intros Hboot Hva. unfold translate_write. rewrite (user_walk p pages sp true va Hboot Hva).
  set (P := with_user _ _ _ _ _ _). destruct (user_frame va) as [pa|] eqn:Hu; [|by destruct (entries_writable _ _ _)].
  pose proof (user_dir_lookup boot_pde (va / 4194304) ltac:(word_solve)) as Hdir.
  assert (va < 65536 \/ 0xBFFFF000 <= va < 0xC0000000) as [Hc|Hs].
  { revert Hu. unfold user_frame. destruct (Z.ltb_spec va 65536); [by left|]. destruct (Z.leb_spec 0xBFFFF000 va), (Z.ltb_spec va 0xC0000000); cbn [andb]; try done. right; lia. }
  - rewrite (proj2 (Z.eqb_eq (va / 4194304) 0)) in Hdir by word_solve.
    pose proof (code_table_lookup (va / 4096 mod 1024) ltac:(word_solve)) as Hpte.
    rewrite (proj2 (Z.ltb_lt _ _)) in Hpte by word_solve.
    destruct (phys_aligned _ al_code_table) as [_ Ha].
    destruct (phys_aligned _ (code_page_aligned (va / 4096 mod 1024) ltac:(word_solve))) as [_ Hb].
    by rewrite (writable_entries _ _ va _ _ _ _ _ Hdir Ha ltac:(done) (tables_of_code P) Hpte Hb ltac:(done)).
  - rewrite (proj2 (Z.eqb_neq (va / 4194304) 0)), (proj2 (Z.eqb_eq (va / 4194304) 767)) in Hdir by word_solve.
    pose proof (stack_table_lookup (va / 4096 mod 1024) ltac:(word_solve)) as Hpte.
    rewrite (proj2 (Z.eqb_eq _ _)) in Hpte by word_solve.
    destruct (phys_aligned _ al_stack_table) as [_ Ha], (phys_aligned _ al_stack_page) as [_ Hb].
    by rewrite (writable_entries _ _ va _ _ _ _ _ Hdir Ha ltac:(done) (tables_of_stack P) Hpte Hb ltac:(done)).
Qed.
End Walk.

Section Props.
Context `{PagingLayout}.

(** C20. The user address space: after [paging_init] and
    [paging_setup_user_process], CR3 holds the new directory, and for every one
    of the 2^32 virtual addresses a ring 3 access, load or store, reaches exactly
    the 64KB of program frames at 0 and the stack page below 3GB and faults
    everywhere else;
    ring 0 reaches those and the first 4MB of physical memory at 3GB, so no
    kernel page is open to the process. *)
Theorem user_address_space k ms size :
  paging_sized (k_paging k) -> boot_page_table1 (k_paging k) = boot_table ->
  is_u32 size -> module_mapped (k_mem k) ms size ->
  exists k', (paging_init ;;; paging_setup_user_process ms size) k = Ok (tt, k') /\
    cpu_cr3 (k_cpu k') = VIRTUAL_TO_PHYSICAL user_page_directory_addr /\
    forall va, is_u32 va ->
      translate (tables_of (k_paging k')) (user_page_directory (k_paging k')) true va = user_frame va /\
      translate_write (tables_of (k_paging k')) (user_page_directory (k_paging k')) va = user_frame va /\
      translate (tables_of (k_paging k')) (user_page_directory (k_paging k')) false va = kernel_frame va.
Proof.
  intros Hsz Hboot Hsize Hmod. pose proof (sz_boot_dir _ Hsz) as Hbd.
  pose proof (paging_init_eq k Hbd) as Hinit. cbv zeta in Hinit.
  set (k1 := set_paging _ k) in Hinit.
  destruct (setup_wp k1 ms size boot_pde) as ([] & k' & Hrun & ->).
  - destruct Hsz. constructor; try done. cbn [k1 k_paging set_paging boot_page_directory]. by rewrite !length_insert.
  - done.
  - done.
  - cbn [k1 k_paging set_paging boot_page_directory]. apply list_lookup_insert_eq. rewrite length_insert. lia.
  - eexists. rewrite (bind_ok _ _ _ _ _ Hinit). split; [exact Hrun|]. split; [done|].
    intros va Hva. cbn [k_paging set_cpu set_paging with_user user_page_directory]. split_and!.
    + by apply (user_walk (k_paging k1) _ _ true).
    + by apply (user_walk_write (k_paging k1)).
    + by apply (user_walk (k_paging k1) _ _ false).
Qed.

(** The process image: of the 64KB that ring 3 sees at 0, the first
    [module_size] bytes are those of the boot module and the rest is zero, as is
    the whole stack page; memory itself is not written. *)
Theorem user_image_loaded k ms size e :
  paging_sized (k_paging k) -> is_u32 size -> module_mapped (k_mem k) ms size ->
  boot_page_directory (k_paging k) !! 768%nat = Some e ->
  exists k', paging_setup_user_process ms size k = Ok (tt, k') /\
    (forall x, 0 <= x < 65536 ->
       exists page, user_code_pages (k_paging k') !! Z.to_nat (x / 4096) = Some page /\
         page !! Z.to_nat (x mod 4096) = Some (if x <? size then byte_at (k_mem k) (ms + x) else 0)) /\
    (forall x, 0 <= x < 4096 -> user_stack_page (k_paging k') !! Z.to_nat x = Some 0) /\
    k_mem k' = k_mem k.
Proof.
  intros Hsz Hsize Hmod He. destruct (setup_wp k ms size e Hsz Hsize Hmod He) as ([] & k' & Hrun & ->).
  eexists. split; [exact Hrun|]. split_and!; [|intros x Hx; unfold zero_page; by apply seqZ_fmap_lookup|done].
  intros x Hx. exists (page_image (k_mem k) ms size (x / 4096)).
  cbn [k_paging set_cpu set_paging with_user user_code_pages]. split; [by apply seqZ_fmap_lookup; word_solve|].
  by apply page_image_lookup.
Qed.

(** The bootstrap directory: entries 0 and 768, and the walk from it. *)
Lemma boot_directory_lookup d :
  0 <= d < 1024 -> boot_directory boot_page_table1_addr !! Z.to_nat d = Some (if (d =? 0) || (d =? 768) then boot_pde else 0).
Proof.
  intros Hd. destruct (phys_aligned _ al_boot_table) as [Hp Hal].
  assert (boot_directory boot_page_table1_addr = [boot_pde] ++ replicate 767 0 ++ [boot_pde] ++ replicate 255 0) as ->.
  { unfold boot_directory, boot_pde. rewrite aligned_lor by done. by rewrite Hp. }
  destruct (Z.eqb_spec d 0) as [->|Hne]; [done|]. cbn [orb].
  rewrite lookup_app_r by (simpl; lia). destruct (Z.ltb_spec d 768).
  - rewrite lookup_app_l by (rewrite length_replicate; simpl; lia). rewrite (proj2 (Z.eqb_neq d 768)) by lia.
    apply lookup_replicate_2. simpl. lia.
  - rewrite lookup_app_r by (rewrite length_replicate; simpl; lia). rewrite length_replicate.
    destruct (Z.eqb_spec d 768) as [->|]; [done|]. rewrite lookup_app_r by (simpl; lia).
    apply lookup_replicate_2. simpl. lia.
Qed.

Lemma boot_directory_walk p va user :
  boot_page_table1 p = boot_table -> is_u32 va ->
  translate (tables_of p) (boot_directory boot_page_table1_addr) user va
  = if negb user && ((va <? 0x400000) || (0xC0000000 <=? va) && (va <? 0xC0400000)) then Some (va mod 0x400000) else None.
Proof.
  intros Htab Hva. pose proof (boot_directory_lookup (va / 4194304) ltac:(word_solve)) as Hd.
  destruct ((va / 4194304 =? 0) || (va / 4194304 =? 768)) eqn:Hc.
  - rewrite (walk_boot _ _ user va Hva Hd Htab).
    replace ((va <? 0x400000) || (0xC0000000 <=? va) && (va <? 0xC0400000)) with true; [by destruct user|].
    symmetry. apply orb_true_iff in Hc. rewrite !Z.eqb_eq in Hc.
    rewrite orb_true_iff, andb_true_iff, Z.leb_le, !Z.ltb_lt. word_solve.
  - rewrite translate_absent by done.
    replace ((va <? 0x400000) || (0xC0000000 <=? va) && (va <? 0xC0400000)) with false; [by rewrite andb_false_r|].
    symmetry. apply orb_false_iff in Hc. rewrite !Z.eqb_neq in Hc.
    rewrite orb_false_iff, andb_false_iff, Z.leb_gt, !Z.ltb_ge. word_solve.
Qed.

(** C38. [paging_init] agrees with the tables that loader.s assembled: on them it
    changes nothing, the directory maps the first 4MB of physical memory both at
    0 and at 3GB for ring 0, and nothing at all for ring 3. *)
Theorem paging_init_synchronizes k :
  boot_page_directory (k_paging k) = boot_directory boot_page_table1_addr ->
  boot_page_table1 (k_paging k) = boot_table ->
  paging_init k = Ok (tt, k) /\
  forall va user, is_u32 va ->
    translate (tables_of (k_paging k)) (boot_page_directory (k_paging k)) user va
    = if negb user && ((va <? 0x400000) || (0xC0000000 <=? va) && (va <? 0xC0400000))
      then Some (va mod 0x400000) else None.
Proof.
  intros Hdir Htab. split; [|intros va user Hva; rewrite Hdir; by apply boot_directory_walk].
  assert (length (boot_page_directory (k_paging k)) = 1024%nat) as Hlen by (rewrite Hdir; by vm_compute).
  rewrite (paging_init_eq k Hlen). do 2 f_equal. cbv zeta.
  rewrite (list_insert_id _ 0), (list_insert_id _ 768) by (rewrite ?Hdir; apply (boot_directory_lookup 0) || apply (boot_directory_lookup 768); lia).
  by destruct k as [? ? ? ? ? ? ? ? ? []].
Qed.
End Props.

(** * Instances *)

#[export] Instance sample_paging_layout : PagingLayout.
Proof.
  split; try (by split); [done|]. apply (bool_decide_unpack (NoDup _)). exact I.
Qed.

Lemma paging_init_sized `{Layout} : paging_sized paging_init_state.
Proof.
  constructor; cbn [paging_init_state boot_page_directory boot_page_table1 user_page_directory
    user_code_page_table user_stack_page_table user_code_pages user_stack_page];
    rewrite ?length_replicate; try done.
  apply Forall_replicate. by rewrite length_replicate.
Qed.
Lemma sample_paging_sized : paging_sized (k_paging sample_kernel).
Proof. exact paging_init_sized. Qed.

(** A module of 100 bytes at 0xC0200000. *)
Lemma sample_module : module_mapped (k_mem sample_kernel) 0xC0200000 100.
Proof. split; [by apply zero_mem_mapped|done]. Qed.

Lemma user_address_space_witness :
  exists k', (paging_init ;;; paging_setup_user_process 0xC0200000 100) sample_kernel = Ok (tt, k') /\
    translate (tables_of (k_paging k')) (user_page_directory (k_paging k')) true 0xC0100000 = None.
Proof.
  destruct (user_address_space sample_kernel 0xC0200000 100 sample_paging_sized) as (k' & H1 & _ & H2).
  - reflexivity.
  - by split.
  - exact sample_module.
  - exists k'. split; [exact H1|]. apply (H2 0xC0100000). by split.
Defined.

Lemma user_image_loaded_witness :
  exists k', paging_setup_user_process 0xC0200000 100 sample_kernel = Ok (tt, k') /\
    forall x, 0 <= x < 4096 -> user_stack_page (k_paging k') !! Z.to_nat x = Some 0.
Proof.
  destruct (user_image_loaded sample_kernel 0xC0200000 100 0x00108003 sample_paging_sized) as (k' & H1 & _ & H2 & _).
  - by split.
  - exact sample_module.
  - reflexivity.
  - exists k'. auto.
Defined.

Lemma paging_init_synchronizes_witness :
  paging_init sample_kernel = Ok (tt, sample_kernel) /\
  translate (tables_of (k_paging sample_kernel)) (boot_page_directory (k_paging sample_kernel)) true 0 = None.
Proof.
  destruct (paging_init_synchronizes sample_kernel) as [H1 H2]; [reflexivity|reflexivity|].
  split; [exact H1|]. apply (H2 0 true). by split.
Defined.
