(* ===== verification/Syscall.v ===== *)
(** The system call dispatcher: [do_syscall_in_C] of kernel/syscall.c.

    [regs] points to the [struct pt_regs] that Int128Handler pushed on the
    kernel stack; its fields are 32-bit words of memory, like the user buffers
    the calls name. *)
From S2P Require Import Prelude State Machine Framebuffer Isr Keyboard Serial Pic Interrupt.

Definition ENOSYS : Z := 38.
Definition SYS_EXIT : Z := 1.
Definition SYS_FORK : Z := 2.
Definition SYS_READ : Z := 3.
Definition SYS_WRITE : Z := 4.
Definition SYS_CLEAR : Z := 5.

(** Offsets of the fields of [struct pt_regs] that the calls use. *)
Definition pt_ebx : Z := 0.
Definition pt_ecx : Z := 4.
Definition pt_edx : Z := 8.
Definition pt_eax : Z := 44.
Definition sizeof_pt_regs : Z := 68.

Section Syscall.
Context `{Env} `{PollFuel}.

Definition sys_write (regs : Z) : K unit :=
  fd <- load32 (regs + pt_ebx) ;;
  if (fd =? 1) || (fd =? 2) then
    buf <- load32 (regs + pt_ecx) ;;
    count <- load32 (regs + pt_edx) ;;
    (when negb (buf =? 0) && (0 <? count) do
      (fb_write (Ptr buf) count ;;;
       serial_write SERIAL_COM1_BASE (Ptr buf) count ;;;
       ret tt)) ;;;
    store32 (regs + pt_eax) count
  else store32 (regs + pt_eax) (u32 (-1)).

(** ["\033[2J\033[H"] *)
Definition ansi_clear : list Z := [27; 91; 50; 74; 27; 91; 72].

Definition sys_clear (regs : Z) : K unit :=
  fb_clear ;;;
  serial_write SERIAL_COM1_BASE (Lit ansi_clear) 7 ;;;
  store32 (regs + pt_eax) 0.

(** The [while (idx < max_count - 1)] loop; it returns [idx]. *)
Fixpoint read_loop (fuel : nat) (buf max_count idx : Z) : K Z :=
  match fuel with
  | O => hang
  | S fuel' =>
      if idx <? u32 (max_count - 1) then
        c <- keyboard_getchar ;;
        c <- (if c =? -1 then serial_read_char SERIAL_COM1_BASE else ret c) ;;
        if c =? -1 then hlt ;;; read_loop fuel' buf max_count idx
        else if (c =? 0) || (c =? 10) || (c =? 13) then
          fb_write (Lit [10]) 1 ;;;
          serial_write SERIAL_COM1_BASE (Lit [13; 10]) 2 ;;;
          ret idx
        else if (c =? 8) || (c =? 127) then
          if 0 <? idx then
            fb_write (Lit [8]) 1 ;;;
            serial_write SERIAL_COM1_BASE (Lit [8; 32; 8]) 3 ;;;
            read_loop fuel' buf max_count (u32 (idx - 1))
          else read_loop fuel' buf max_count idx
        else
          store8 (buf + idx) c ;;;
          fb_write (Lit [u8 c; 0]) 1 ;;;
          serial_write_char SERIAL_COM1_BASE (u8 c) ;;;
          read_loop fuel' buf max_count (u32 (idx + 1))
      else ret idx
  end.

Definition sys_read (regs : Z) : K unit :=
  fd <- load32 (regs + pt_ebx) ;;
  if fd =? 0 then
    buf <- load32 (regs + pt_ecx) ;;
    max_count <- load32 (regs + pt_edx) ;;
    if (buf =? 0) || (max_count <=? 1) then
      (when negb (buf =? 0) && (max_count =? 1) do store8 buf 0) ;;;
      store32 (regs + pt_eax) 0
    else
      enable_interrupts ;;;
      idx <- read_loop poll_fuel buf max_count 0 ;;
      store8 (buf + idx) 0 ;;;
      store32 (regs + pt_eax) idx
  else store32 (regs + pt_eax) (u32 (-1)).

Definition do_syscall_in_C (regs : Z) : K unit :=
  if regs =? 0 then ret tt
  else
    eax <- load32 (regs + pt_eax) ;;
    if eax =? SYS_WRITE then sys_write regs
    else if eax =? SYS_EXIT then
      ebx <- load32 (regs + pt_ebx) ;;
      store32 (regs + pt_eax) ebx
    else if eax =? SYS_CLEAR then sys_clear regs
    else if eax =? SYS_READ then sys_read regs
    else store32 (regs + pt_eax) (u32 (- ENOSYS)).
End Syscall.

(** * The line editor that SYS_READ promises

    Characters accumulate until an end-of-line character or until only the
    terminator still fits; backspace and DEL remove the last one. *)

Definition is_eol (c : Z) : bool := (c =? 0) || (c =? 10) || (c =? 13).
Definition is_erase (c : Z) : bool := (c =? 8) || (c =? 127).

(** What is echoed, and its form on the screen and on the serial line. *)
Inductive echo := E_eol | E_erase | E_char (c : Z).
Definition screen_echo (e : echo) : list Z :=
  match e with E_eol => [10] | E_erase => [8] | E_char c => [c] end.
Definition serial_echo (e : echo) : list Z :=
  match e with E_eol => [13; 10] | E_erase => [8; 32; 8] | E_char c => [c] end.

(** The line, the input after it and the echoes; [None] while the line is not
    finished. *)
Fixpoint edit_line (cap : Z) (acc cs : list Z) : option (list Z * list Z * list echo) :=
  if cap - 1 <=? Z.of_nat (length acc) then Some (acc, cs, [])
  else
    match cs with
    | [] => None
    | c :: cs' =>
        if is_eol c then Some (acc, cs', [E_eol])
        else if is_erase c then
          match acc with
          | [] => edit_line cap [] cs'
          | _ => '(line, rest, es) ← edit_line cap (removelast acc) cs'; Some (line, rest, E_erase :: es)
          end
        else '(line, rest, es) ← edit_line cap (acc ++ [c]) cs'; Some (line, rest, E_char c :: es)
    end.
