(* ===== verification/Preempt.v ===== *)
(** SYS_READ with interrupts between its statements: the branch of [do_syscall_in_C]
    in kernel/syscall.c with a point at which interrupts are taken before each statement
    that runs with interrupts enabled, [hlt] and the polls right before it apart. *)
From S2P Require Import Prelude State Machine Framebuffer Isr Keyboard Serial Pic Interrupt InterruptFacts Syscall.

Section Preempt.
Context `{Env} `{PollFuel}.
(** What is done where an interrupt may come. *)
Context (yield : K unit).

(** The [while (idx < max_count - 1)] loop. *)
Fixpoint read_loop_with (fuel : nat) (buf max_count idx : Z) : K Z :=
  match fuel with
  | O => hang
  | S fuel' =>
      if idx <? u32 (max_count - 1) then
        yield ;;;
        c <- keyboard_getchar ;;
        c <- (if c =? -1 then serial_read_char SERIAL_COM1_BASE else ret c) ;;
        if c =? -1 then hlt ;;; read_loop_with fuel' buf max_count idx
        else
          yield ;;;
          if (c =? 0) || (c =? 10) || (c =? 13) then
            fb_write (Lit [10]) 1 ;;;
            yield ;;;
            serial_write SERIAL_COM1_BASE (Lit [13; 10]) 2 ;;;
            ret idx
          else if (c =? 8) || (c =? 127) then
            if 0 <? idx then
              fb_write (Lit [8]) 1 ;;;
              yield ;;;
              serial_write SERIAL_COM1_BASE (Lit [8; 32; 8]) 3 ;;;
              read_loop_with fuel' buf max_count (u32 (idx - 1))
            else read_loop_with fuel' buf max_count idx
          else
            store8 (buf + idx) c ;;;
            yield ;;;
            fb_write (Lit [u8 c; 0]) 1 ;;;
            yield ;;;
            serial_write_char SERIAL_COM1_BASE (u8 c) ;;;
            read_loop_with fuel' buf max_count (u32 (idx + 1))
      else ret idx
  end.

Definition sys_read_with (regs : Z) : K unit :=
  fd <- load32 (regs + pt_ebx) ;;
  if fd =? 0 then
    buf <- load32 (regs + pt_ecx) ;;
    max_count <- load32 (regs + pt_edx) ;;
    if (buf =? 0) || (max_count <=? 1) then
      (when negb (buf =? 0) && (max_count =? 1) do store8 buf 0) ;;;
      store32 (regs + pt_eax) 0
    else
      enable_interrupts ;;;
      idx <- read_loop_with poll_fuel buf max_count 0 ;;
      yield ;;;
      store8 (buf + idx) 0 ;;;
      yield ;;;
      store32 (regs + pt_eax) idx
  else store32 (regs + pt_eax) (u32 (-1)).
End Preempt.

(** With nothing to do there, it is the call as it stands. *)
Lemma bind_ext {S X Y} (m : M S X) (f g : X -> M S Y) s : (forall x s', f x s' = g x s') -> bind m f s = bind m g s.
Proof. intros Hf. unfold bind. destruct (m s) as [[x s']| |]; [apply Hf|done..]. Qed.

Lemma bind_run {S X Y} (m m' : M S X) (f : X -> M S Y) s : m s = m' s -> bind m f s = bind m' f s.
Proof. intros Hm. unfold bind. by rewrite Hm. Qed.

#[local] Ltac skip := match goal with |- bind (ret tt) ?f ?s = _ => change (bind (ret tt) f s) with (f tt s); cbv beta end.
#[local] Ltac quiet := repeat first [skip | apply bind_ext; intros ? ?].

Lemma read_loop_quiet `{Env} `{PollFuel} fuel buf max_count idx k :
  read_loop_with (ret tt) fuel buf max_count idx k = read_loop fuel buf max_count idx k.
Proof.
  revert idx k. induction fuel as [|fuel IH]; intros idx k; [done|]. cbn [read_loop_with read_loop].
  destruct (idx <? _); [|done]. skip. do 2 (apply bind_ext; intros ? ?).
  destruct (_ =? -1); [apply bind_ext; intros; apply IH|]. skip. destruct (_ || _ || _); [by quiet|].
  destruct (_ || _); [destruct (0 <? idx); [|apply IH]|]; quiet; apply IH.
Qed.

Lemma sys_read_quiet `{Env} `{PollFuel} regs k : sys_read_with (ret tt) regs k = sys_read regs k.
Proof.
  unfold sys_read_with, sys_read. apply bind_ext. intros fd k1. destruct (fd =? 0); [|done].
  do 2 (apply bind_ext; intros ? ?). destruct (_ || _); [done|]. apply bind_ext. intros [] k2.
  etransitivity; [apply bind_run, read_loop_quiet|]. by quiet.
Qed.

(** Keyboard interrupts, as many as the history of the devices says. *)
Definition preempt `{Env} `{PollFuel} (arrivals : trace -> nat) : K unit :=
  n <- gets (fun k => arrivals (k_trace k)) ;;
  deliver n.
