(* ===== verification/SyscallFacts.v ===== *)
(** The loop of SYS_READ: how each console and input operation moves the
    invariant that ties the kernel state to the line being edited. *)
From S2P Require Import Prelude State Machine Framebuffer FramebufferFacts Isr Keyboard Serial SerialFacts Pic Interrupt InterruptFacts Syscall Preempt.

(** A concrete list holds bytes. *)
Ltac bytes_done := solve [repeat (apply Forall_cons_2; [done|]); apply Forall_nil_2].

(** * Devices and each other's ports *)

Definition out_ports (P : Z -> Prop) (e : io_event) : Prop := match e with Out p _ => P p | _ => True end.
Definition off_uart (p : Z) : Prop := p < 0x3F8.
Definition off_crtc (p : Z) : Prop := p <> FB_COMMAND_PORT /\ p <> FB_DATA_PORT.

Lemma uart_of_app evs tr : Forall (out_ports off_uart) evs -> uart_of (evs ++ tr) = uart_of tr.
Proof.
  induction 1 as [|e evs He _ IH]; [done|]. destruct e as [p v| |]; [|done|done].
  cbn [app uart_of]. rewrite IH. unfold uart_out, off_uart, SERIAL_COM1_BASE in *. cbn in He.
  by rewrite !(proj2 (Z.eqb_neq _ _)) by lia.
Qed.

Lemma crtc_of_app evs tr : Forall (out_ports off_crtc) evs -> crtc_of (evs ++ tr) = crtc_of tr.
Proof.
  induction 1 as [|e evs He _ IH]; [done|]. destruct e as [p v| |]; [|done|done].
  cbn [app crtc_of]. destruct He as [H1 H2]. by rewrite !(proj2 (Z.eqb_neq _ _)) by done.
Qed.

Lemma crtc_off_uart evs : Forall crtc_event evs -> Forall (out_ports off_uart) evs.
Proof. intros He. eapply Forall_impl; [done|]. intros e (p & v & -> & [-> | ->]); done. Qed.

(** A transmission uses COM1 only. *)
Definition uart_event (e : io_event) : Prop :=
  match e with Out p _ => p = SERIAL_COM1_BASE | In p _ => p = 0x3FD | Irq _ => False end.

Lemma sends_all_uart s t : sends_all s t -> Forall uart_event t.
Proof.
  induction 1 as [|s c t t' _ IH Hs]; [done|]. apply Forall_app_2; [|done].
  destruct Hs as [busy v Hb _]. repeat constructor.
  eapply Forall_impl; [done|]. by intros e (w & -> & _).
Qed.

Lemma uart_off_crtc t : Forall uart_event t -> Forall (out_ports off_crtc) t.
Proof. intros He. eapply Forall_impl; [done|]. intros [p v| |]; [|done|done]. by intros ->. Qed.

Lemma fb_ok_events k evs k' :
  fb_ok k -> Forall (out_ports off_crtc) evs -> k_trace k' = evs ++ k_trace k ->
  k_fb k' = k_fb k -> k_mem k' = k_mem k -> fb_ok k'.
Proof.
  intros [Hm Hc Hs] He Ht Hf Hmem. constructor; rewrite ?Hf, ?Hmem; try done.
  unfold hardware_cursor in *. by rewrite Ht, crtc_of_app.
Qed.

(** * The invariant *)

Section Reading.
Context `{Env} `{PollFuel} (keys : trace -> list Z) `{!KbdSource keys}.

Lemma keys_uart t tr : Forall uart_event t -> keys (t ++ tr) = keys tr.
Proof.
  induction 1 as [|e t He _ IH]; [done|]. cbn [app]. destruct e as [p v|p v|]; [| |done].
  - by rewrite key_out.
  - cbn in He. subst p. by rewrite key_in.
Qed.

Lemma keys_crtc evs tr : Forall crtc_event evs -> keys (evs ++ tr) = keys tr.
Proof. induction 1 as [|e evs (p & v & -> & _) _ IH]; [done|]. cbn [app]. by rewrite key_out. Qed.

(** The characters still to be read: buffered ones, then those of the scancodes
    to come. *)
Definition input_of (k : kernel) : list Z :=
  queue_of (k_kbd k) ++ snd (decode_all (shift_active (k_kbd k)) (keys (k_trace k))).

(** From [k0], with the line [acc] typed so far, the input [cs] to come and
    [scr] and [ser] echoed; [n] bounds the events still to come. *)
Record reading (k0 : kernel) (buf cap : Z) (n : nat) (acc cs scr ser : list Z) (k : kernel) : Prop := Reading {
  r_fb : fb_ok k;
  r_kbd : kbd_ok (k_kbd k);
  r_isr : isr_ok (k_isr k);
  r_if : cpu_if (k_cpu k) = true;
  r_dlab : dlab (uart_of (k_trace k)) = false;
  r_term : term_of k = term_write (term_of k0) scr;
  r_tx : uart_tx (uart_of (k_trace k)) = rev ser ++ uart_tx (uart_of (k_trace k0));
  r_input : input_of k = cs;
  r_pending : (2 * length (keys (k_trace k)) + length (queue_of (k_kbd k)) <= n)%nat;
  r_mapped : mapped (k_mem k) buf cap;
  r_line : forall i c, acc !! i = Some c -> k_mem k !! (buf + Z.of_nat i) = Some c;
  r_frame : forall x, ~ buf <= x < buf + cap -> ~ fb <= x < fb + 4000 -> k_mem k !! x = k_mem k0 !! x
}.

(** The buffer lies below 4GB, off the screen. *)
Definition buf_ok (buf cap : Z) : Prop :=
  0 <= buf /\ buf + cap <= 4294967296 /\ (buf + cap <= fb \/ fb + 4000 <= buf).

Context (k0 : kernel) (buf cap : Z) (Hbuf : buf_ok buf cap).

Lemma reading_write n acc cs scr ser k s :
  reading k0 buf cap n acc cs scr ser k -> Forall is_u8 s -> Z.of_nat (length acc) <= cap ->
  forall l, buf_reads (k_mem k) (Lit l) s ->
  wp (fb_write (Lit l) (Z.of_nat (length s))) (fun _ k' => reading k0 buf cap n acc cs (scr ++ s) ser k') k.
Proof.
  intros R Hs Hacc l Hl. destruct Hbuf as (Hb1 & Hb2 & Hb3).
  eapply wp_mono; [by apply (fb_write_wp k (Lit l) s (r_fb _ _ _ _ _ _ _ _ _ R)); [split|]|].
  intros r k' (_ & [Hok Ht Hm Hf (evs & Hevs & Hcrtc)]). destruct R.
  assert (k_kbd k' = k_kbd k /\ k_isr k' = k_isr k /\ k_cpu k' = k_cpu k) as (E1 & E2 & E3) by (by rewrite Hf).
  assert (uart_of (k_trace k') = uart_of (k_trace k)) as E4 by (rewrite Hevs; apply uart_of_app, crtc_off_uart; done).
  constructor; rewrite ?E1, ?E2, ?E3, ?E4; try done.
  - rewrite Ht, r_term0. symmetry. apply term_write_app.
  - unfold input_of in *. rewrite E1, Hevs, keys_crtc by done. done.
  - by rewrite Hevs, keys_crtc.
  - intros i Hi. rewrite Hm by lia. by apply r_mapped0.
  - intros i c Hc. pose proof (lookup_lt_Some _ _ _ Hc). rewrite Hm by lia. by apply r_line0.
  - intros x H1 H2. rewrite Hm by done. by apply r_frame0.
Qed.

Lemma reading_sends n acc cs scr ser k s t :
  reading k0 buf cap n acc cs scr ser k -> sends_all s t ->
  reading k0 buf cap n acc cs scr (ser ++ s) (set_trace (t ++ k_trace k) k).
Proof.
  intros [] Ht. pose proof (sends_all_uart _ _ Ht) as Hev.
  destruct (uart_sends_all s t (k_trace k) Ht r_dlab0) as [Htx Hdl].
  constructor; try done.
  - eapply (fb_ok_events k t); [done|by apply uart_off_crtc|done..].
  - cbn [k_trace set_trace]. by rewrite Htx, r_tx0, rev_app_distr, app_assoc.
  - unfold input_of in *. cbn [k_trace set_trace k_kbd]. by rewrite keys_uart.
  - cbn [k_trace set_trace k_kbd]. by rewrite keys_uart.
Qed.

(** A status poll that finds the serial line idle. *)
Lemma reading_poll n acc cs scr ser k v :
  reading k0 buf cap n acc cs scr ser k -> reading k0 buf cap n acc cs scr ser (set_trace (In 0x3FD v :: k_trace k) k).
Proof.
  intros []. constructor; try done.
  - by eapply (fb_ok_events k [In 0x3FD v]); [|repeat constructor|..].
  - unfold input_of in *. cbn [k_trace set_trace k_kbd]. by rewrite key_in.
  - cbn [k_trace set_trace k_kbd]. by rewrite key_in.
Qed.

Lemma reading_get n acc c cs scr ser k s :
  reading k0 buf cap (S n) acc (c :: cs) scr ser k -> kbd_ok s -> shift_active s = shift_active (k_kbd k) ->
  queue_of (k_kbd k) = c :: queue_of s -> reading k0 buf cap n acc cs scr ser (set_kbd s k).
Proof.
  intros [] Hs Hsh Hq. constructor; try done.
  - by eapply (fb_ok_events k []).
  - unfold input_of in *. cbn [k_trace set_kbd k_kbd]. rewrite Hsh. rewrite Hq in r_input0. by simplify_eq/=.
  - cbn [k_trace set_kbd k_kbd]. rewrite Hq in r_pending0. simpl in r_pending0. lia.
Qed.

(** A key that comes while the buffer has room for all the input. *)
Lemma reading_key n acc cs scr ser k sc q k' :
  reading k0 buf cap (S n) acc cs scr ser k -> queue_of (k_kbd k) = [] \/ Z.of_nat (length cs) <= 256 -> keys (k_trace k) = sc :: q ->
  key_step k sc k' -> keys (k_trace k') = q -> reading k0 buf cap n acc cs scr ser k'.
Proof.
  intros [] Hroom Hkeys (s' & -> & Hs' & Hsh & Hqs) Hk'.
  set (evs := [Out PIC1_PORT_A PIC_ACK; In KBD_DATA_PORT sc; Irq 33]).
  assert (forall c, snd (decode (shift_active (k_kbd k)) sc) = Some c -> queue_put (queue_of (k_kbd k)) c = queue_of (k_kbd k) ++ [c]) as Hput.
  { intros c Hc. unfold queue_put. rewrite (proj2 (Z.ltb_lt _ _)); [done|]. destruct Hroom as [->|Hroom]; [done|].
    unfold input_of in *. rewrite Hkeys in r_input0. rewrite <- r_input0 in Hroom. cbn [decode_all] in Hroom.
    destruct (decode (shift_active (k_kbd k)) sc) as [sh d], (decode_all sh q) as [sh' cs']. cbn [snd] in *. subst d.
    rewrite length_app in Hroom. cbn [length] in Hroom. lia. }
  constructor; try done.
  - by eapply (fb_ok_events k evs); [|repeat constructor|..].
  - unfold input_of in *. rewrite Hk'. rewrite Hkeys in r_input0. rewrite <- r_input0. cbn [k_kbd set_cpu set_kbd decode_all].
    rewrite Hqs, Hsh. destruct (decode (shift_active (k_kbd k)) sc) as [sh c]. cbn [fst snd] in *.
    destruct (decode_all sh q) as [sh' cs']. destruct c as [c|]; [|done]. rewrite (Hput c eq_refl). by rewrite <- app_assoc.
  - rewrite Hk'. rewrite Hkeys in r_pending0. cbn [k_kbd set_cpu set_kbd]. rewrite Hqs.
    destruct (snd (decode _ _)) as [c|]; [rewrite (Hput c eq_refl), length_app|]; simpl in *; lia.
Qed.

Lemma reading_mono n n' acc cs scr ser k :
  reading k0 buf cap n acc cs scr ser k -> (n <= n')%nat -> reading k0 buf cap n' acc cs scr ser k.
Proof. intros [] Hn. constructor; try done. lia. Qed.

(** Keys that come between two statements. *)
Lemma preempt_wp arrivals n acc cs scr ser k :
  (forall tr, (arrivals tr <= length (keys tr))%nat) -> Z.of_nat (length cs) <= 256 ->
  reading k0 buf cap n acc cs scr ser k -> wp (preempt arrivals) (fun _ k' => reading k0 buf cap n acc cs scr ser k') k.
Proof.
  intros Harr Hroom R. unfold preempt, deliver. apply wp_bind, wp_gets. specialize (Harr (k_trace k)).
  set (m := arrivals (k_trace k)) in *. clearbody m. generalize 0. revert k R Harr.
  induction m as [|m IH]; intros k R Harr lo; cbn [for_loop]; [by apply wp_ret|].
  destruct (keys (k_trace k)) as [|sc q] eqn:Hkeys; [cbn [length] in Harr; lia|]. cbn [length] in Harr.
  apply wp_bind. eapply wp_mono; [apply (take_keyboard_wp keys k sc q); [apply R|apply R|exact Hkeys]|].
  intros [] k1 [Hstep Hk1]. apply IH; [|rewrite Hk1; lia].
  pose proof (r_pending _ _ _ _ _ _ _ _ _ R) as Hp. rewrite Hkeys in Hp. cbn [length] in Hp. destruct n as [|n]; [lia|].
  apply (reading_mono n); [|lia]. eapply reading_key; [exact R|by right|exact Hkeys|exact Hstep|exact Hk1].
Qed.

Lemma reading_store n acc cs scr ser k c :
  reading k0 buf cap n acc cs scr ser k -> is_u8 c -> Z.of_nat (length acc) < cap ->
  wp (store8 (buf + Z.of_nat (length acc)) c) (fun _ k' => reading k0 buf cap n (acc ++ [c]) cs scr ser k') k.
Proof.
  intros [] Hc Hlt. destruct Hbuf as (Hb1 & Hb2 & Hb3).
  destruct (r_mapped0 (Z.of_nat (length acc))) as (w & Hw & _); [lia|].
  eapply wp_store8; [word_solve|done|]. rewrite (u8_small c) by done.
  assert (only_differ (k_mem k) (<[buf + Z.of_nat (length acc) := c]> (k_mem k)) buf cap) as Hd
    by (apply only_differ_insert; lia).
  constructor; try done.
  - destruct r_fb0. constructor; [|done|done]. by apply mapped_insert.
  - rewrite <- r_term0. apply term_same; [done|]. intros x Hx. apply Hd. lia.
  - by apply mapped_insert.
  - intros i d Hi. cbn [k_mem set_mem]. apply lookup_app_Some in Hi as [Hi|[Hge Hi]].
    + pose proof (lookup_lt_Some _ _ _ Hi). rewrite lookup_insert_ne by lia. by apply r_line0.
    + destruct (i - length acc)%nat as [|j] eqn:Hj; [|done]. simplify_eq/=.
      replace (Z.of_nat i) with (Z.of_nat (length acc)) by lia. by rewrite lookup_insert_eq.
  - intros x H1 H2. cbn [k_mem set_mem]. rewrite Hd by done. by apply r_frame0.
Qed.

Lemma reading_drop n acc cs scr ser k acc' :
  reading k0 buf cap n acc cs scr ser k -> acc' `prefix_of` acc -> reading k0 buf cap n acc' cs scr ser k.
Proof.
  intros [] [l ->]. constructor; try done. intros i c Hc. apply r_line0.
  rewrite lookup_app_l; [done|]. by eapply lookup_lt_Some.
Qed.

(** ** One iteration *)

(** No byte waits in the serial receiver. *)
Context `{!UartReady} (Hidle : forall tr, Z.land (u8 (env_in tr 0x3FD)) 1 = 0).

Section Yield.
(** What happens between statements keeps the invariant while the input to come is
    [ok]. *)
Context (yield : K unit) (ok : list Z -> Prop) (Htail : forall c cs, ok (c :: cs) -> ok cs).
Context (Hyield : forall n acc cs scr ser k, ok cs -> reading k0 buf cap n acc cs scr ser k ->
  wp yield (fun _ k' => reading k0 buf cap n acc cs scr ser k') k).

Lemma yield_wp {A} n acc cs scr ser k (m : K A) Q :
  reading k0 buf cap n acc cs scr ser k -> ok cs ->
  (forall k', reading k0 buf cap n acc cs scr ser k' -> wp m Q k') -> wp (yield ;;; m) Q k.
Proof. intros R Hok HQ. apply wp_bind. eapply wp_mono; [by apply Hyield|]. intros [] k'. apply HQ. Qed.

(** Console output in the loop, then the rest of it. *)
Lemma echo_wp {A} n acc cs scr ser k s1 l1 n1 s2 n2 (m : K A) Q :
  reading k0 buf cap n acc cs scr ser k -> Z.of_nat (length acc) <= cap ->
  Forall is_u8 s1 -> Forall is_u8 s2 -> n1 = Z.of_nat (length s1) -> n2 = Z.of_nat (length s2) ->
  (forall i c, s1 !! i = Some c -> l1 !! i = Some c) -> ok cs ->
  (forall k', reading k0 buf cap n acc cs (scr ++ s1) (ser ++ s2) k' -> wp m Q k') ->
  wp (fb_write (Lit l1) n1 ;;; yield ;;; serial_write SERIAL_COM1_BASE (Lit s2) n2 ;;; m) Q k.
Proof.
  intros R Hacc Hs1 Hs2 -> -> Hl Hok HQ. apply wp_bind. eapply wp_mono; [by eapply (reading_write n acc cs scr ser k s1)|].
  intros r k1 R1. eapply yield_wp; [exact R1|exact Hok|]. clear k1 R1. intros k1 R1.
  apply wp_bind. eapply wp_mono; [by apply serial_write_wp; [apply buf_reads_lit|]|].
  intros r' k2 (_ & t & Ht & ->). apply HQ. by apply reading_sends.
Qed.

Lemma echo_char_wp {A} n acc cs scr ser k c (m : K A) Q :
  reading k0 buf cap n acc cs scr ser k -> Z.of_nat (length acc) <= cap -> is_u8 c -> ok cs ->
  (forall k', reading k0 buf cap n acc cs (scr ++ [c]) (ser ++ [c]) k' -> wp m Q k') ->
  wp (fb_write (Lit [u8 c; 0]) 1 ;;; yield ;;; serial_write_char SERIAL_COM1_BASE (u8 c) ;;; m) Q k.
Proof.
  intros R Hacc Hc Hok HQ. rewrite (u8_small c) by done.
  apply wp_bind. eapply wp_mono; [eapply (reading_write n acc cs scr ser k [c]); [done|by apply Forall_singleton|done|]|].
  { by intros [|i] d Hi. }
  intros r k1 R1. eapply yield_wp; [exact R1|exact Hok|]. clear k1 R1. intros k1 R1. unfold serial_write_char. apply wp_bind.
  destruct (serial_send_wp k1 c Hc) as ([] & k2 & Hrun & t & Ht & ->).
  assert ((serial_wait SERIAL_COM1_BASE ;;; outb (SERIAL_DATA_PORT SERIAL_COM1_BASE) (u8 c) ;;; ret 1) k1
    = Ok (1, set_trace (t ++ k_trace k1) k1)) as Hrun'.
  { unfold bind in Hrun |- *. destruct (serial_wait _ k1) as [[[] k3]| |]; try done.
    destruct (outb _ _ k3) as [[[] k4]| |]; try done. by simplify_eq/=. }
  eapply wp_eq; [exact Hrun'|]. apply HQ. apply reading_sends; [done|].
  rewrite <- (app_nil_r t). apply (sends_snoc [] c [] t); [constructor|done].
Qed.

(** An accepted character. *)
Lemma store_echo_wp {A} n acc cs scr ser k c (m : K A) Q :
  reading k0 buf cap n acc cs scr ser k -> is_u8 c -> Z.of_nat (length acc) < cap -> ok cs ->
  (forall k', reading k0 buf cap n (acc ++ [c]) cs (scr ++ [c]) (ser ++ [c]) k' -> wp m Q k') ->
  wp (store8 (buf + Z.of_nat (length acc)) c ;;; yield ;;;
      fb_write (Lit [u8 c; 0]) 1 ;;; yield ;;; serial_write_char SERIAL_COM1_BASE (u8 c) ;;; m) Q k.
Proof.
  intros R Hc Hacc Hok HQ. apply wp_bind. eapply wp_mono; [by eapply reading_store|].
  intros [] k2 R2. eapply yield_wp; [exact R2|exact Hok|]. clear k2 R2. intros k2 R2.
  eapply (echo_char_wp n (acc ++ [c])); [exact R2|rewrite length_app; simpl; lia|exact Hc|exact Hok|exact HQ].
Qed.

(** Fetching the next character: from the ring buffer, or none. *)
Lemma next_char_wp n acc cs scr ser k :
  reading k0 buf cap n acc cs scr ser k ->
  wp (c <- keyboard_getchar ;; if c =? -1 then serial_read_char SERIAL_COM1_BASE else ret c)
    (fun r k' => match queue_of (k_kbd k) with
       | [] => r = -1 /\ reading k0 buf cap n acc cs scr ser k' /\ queue_of (k_kbd k') = []
       | c :: _ => r = c /\ is_u8 c /\ exists n' cs', n = S n' /\ cs = c :: cs' /\ reading k0 buf cap n' acc cs' scr ser k'
       end) k.
Proof.
  intros R. pose proof (r_kbd _ _ _ _ _ _ _ _ _ R) as Hk. pose proof (r_input _ _ _ _ _ _ _ _ _ R) as Hin.
  pose proof (r_pending _ _ _ _ _ _ _ _ _ R) as Hp. unfold input_of in Hin.
  apply wp_bind. eapply wp_mono; [by apply keyboard_getchar_wp|]. intros r k1 Hr.
  pose proof (kbd_queue_bytes _ Hk) as Hb.
  destruct (queue_of (k_kbd k)) as [|c q] eqn:Hq.
  - destruct Hr as [-> ->]. cbn [Z.eqb Pos.eqb]. unfold serial_read_char, serial_receive.
    apply wp_bind, wp_bind. eapply wp_eq; [apply inb_eq|]. apply wp_ret.
    change (u16 (SERIAL_LINE_STATUS_PORT SERIAL_COM1_BASE)) with 0x3FD. rewrite Hidle. cbn [Z.eqb negb].
    apply wp_ret. split_and!; [done|by apply reading_poll|done].
  - destruct Hr as [-> (s' & -> & Hs' & Hsh & Hqs)]. apply Forall_cons in Hb as [Hc _].
    rewrite (proj2 (Z.eqb_neq c (-1))) by word_solve. apply wp_ret. split_and!; [done|done|].
    simpl in Hin, Hp. destruct n as [|n']; [lia|]. eexists n', _. split_and!; [done|by symmetry|].
    subst cs. eapply reading_get; [done|done|done|]. by rewrite Hq, Hqs.
Qed.

Lemma edit_line_unfold cap' acc cs :
  edit_line cap' acc cs = if cap' - 1 <=? Z.of_nat (length acc) then Some (acc, cs, []) else
    match cs with
    | [] => None
    | c :: cs' =>
        if is_eol c then Some (acc, cs', [E_eol])
        else if is_erase c then
          match acc with
          | [] => edit_line cap' [] cs'
          | _ => '(line, rest, es) ← edit_line cap' (removelast acc) cs'; Some (line, rest, E_erase :: es)
          end
        else '(line, rest, es) ← edit_line cap' (acc ++ [c]) cs'; Some (line, rest, E_char c :: es)
    end.
Proof. by destruct cs. Qed.

Lemma removelast_snoc (a : Z) l :
  removelast (a :: l) `prefix_of` a :: l /\ S (length (removelast (a :: l))) = length (a :: l).
Proof.
  destruct (exists_last (l := a :: l)) as (l' & b & Heq); [done|]. rewrite Heq, removelast_last, length_app.
  split; [by exists [b]|]. simpl. lia.
Qed.

(** With input to come and nothing buffered, a scancode is pending. *)
Lemma reading_more n acc cs scr ser k :
  reading k0 buf cap n acc cs scr ser k -> queue_of (k_kbd k) = [] -> cs <> [] ->
  exists n' sc ks, n = S n' /\ keys (k_trace k) = sc :: ks.
Proof.
  intros [] Hq Hne. unfold input_of in *. rewrite Hq in r_input0.
  destruct (keys (k_trace k)) as [|sc ks]; [by subst cs|]. simpl in r_pending0.
  destruct n as [|n']; [lia|]. by exists n', sc, ks.
Qed.

(** The loop finishes the line that the editor finishes, with the same echoes. *)
Lemma read_loop_with_wp fuel n acc cs scr ser k line rest es :
  reading k0 buf cap n acc cs scr ser k -> (n < fuel)%nat -> ok cs ->
  2 <= cap < 4294967296 -> Z.of_nat (length acc) <= cap - 1 ->
  edit_line cap acc cs = Some (line, rest, es) ->
  wp (read_loop_with yield fuel buf cap (Z.of_nat (length acc))) (fun r k' =>
    r = Z.of_nat (length line) /\ Z.of_nat (length line) <= cap - 1 /\ ok rest /\
    exists n', reading k0 buf cap n' line rest (scr ++ concat (screen_echo <$> es)) (ser ++ concat (serial_echo <$> es)) k') k.
Proof.
  revert n acc cs scr ser k es. induction fuel as [|fuel IH]; intros n acc cs scr ser k es R Hn Hok Hcap Hacc Hed; [lia|].
  cbn [read_loop_with]. rewrite u32_small by word_solve.
  pose proof Hed as Hcase. rewrite edit_line_unfold in Hcase.
  destruct (Z.leb_spec (cap - 1) (Z.of_nat (length acc))) as [Hfull|Hroom].
  { simplify_eq. rewrite (proj2 (Z.ltb_ge _ _)) by lia. apply wp_ret. split_and!; [done|lia|done|].
    exists n. cbn [fmap list_fmap concat]. by rewrite !app_nil_r. }
  rewrite (proj2 (Z.ltb_lt _ _)) by lia.
  eapply yield_wp; [exact R|exact Hok|]. clear k R. intros k R.
  eapply wp_run_eq; [apply bind_assoc|]. apply wp_bind. eapply wp_mono; [by apply next_char_wp|].
  intros r k1. destruct (queue_of (k_kbd k)) as [|c q] eqn:Hq.
  - intros (-> & R1 & Hq1). cbn [Z.eqb Pos.eqb]. apply wp_bind.
    destruct (reading_more _ _ _ _ _ _ R1 Hq1) as (n' & sc & ks & -> & Hkeys); [by intros ->|].
    eapply wp_mono; [eapply (hlt_key_wp keys k1 sc ks); [apply R1..|done]|]. intros [] k2 [Hstep Hks].
    apply (IH n' acc cs); [eapply reading_key; [exact R1|by left|exact Hkeys|exact Hstep|exact Hks]|lia|done|done|lia|done].
  - intros (-> & Hc & n' & cs' & -> & -> & R1). rewrite (proj2 (Z.eqb_neq c (-1))) by word_solve. apply Htail in Hok.
    change ((c =? 0) || (c =? 10) || (c =? 13)) with (is_eol c). change ((c =? 8) || (c =? 127)) with (is_erase c).
    eapply yield_wp; [exact R1|exact Hok|]. clear k1 R1. intros k1 R1. destruct (is_eol c).
    { simplify_eq. eapply (echo_wp n' line rest scr ser k1 [10] [10] _ [13; 10]); try done; [lia|bytes_done|bytes_done|].
      intros k2 R2. apply wp_ret. split_and!; [done|lia|done|]. by exists n'. }
    destruct (is_erase c).
    + destruct acc as [|a0 acc0]; [apply (IH n' [] cs'); [done|lia|done|done|done|done]|].
      destruct (edit_line cap (removelast (a0 :: acc0)) cs') as [[[line' rest'] es']|] eqn:Hrec; [|done].
      cbn in Hcase. simplify_eq. rewrite (proj2 (Z.ltb_lt _ _)) by (cbn [length]; lia).
      eapply (echo_wp n' (a0 :: acc0) cs' scr ser k1 [8] [8] _ [8; 32; 8]); try done; [lia|bytes_done|bytes_done|].
      intros k2 R2. destruct (removelast_snoc a0 acc0) as (Hpre & Hlen).
      rewrite u32_small by word_solve.
      replace (Z.of_nat (length (a0 :: acc0)) - 1) with (Z.of_nat (length (removelast (a0 :: acc0)))) by lia.
      eapply wp_mono.
      { apply (IH n' (removelast (a0 :: acc0)) cs' (scr ++ [8]) (ser ++ [8; 32; 8]) _ es'); [by eapply reading_drop|lia|done|done|lia|done]. }
      intros r k3 (-> & Hle & Hok3 & n3 & R3). split_and!; [done|done|done|]. exists n3. cbn [fmap list_fmap concat screen_echo serial_echo].
      by rewrite !app_assoc.
    + destruct (edit_line cap (acc ++ [c]) cs') as [[[line' rest'] es']|] eqn:Hrec; [|done].
      cbn in Hcase. simplify_eq. eapply store_echo_wp; [exact R1|exact Hc|lia|exact Hok|].
      intros k3 R3. rewrite u32_small by word_solve.
      replace (Z.of_nat (length acc) + 1) with (Z.of_nat (length (acc ++ [c]))) by (rewrite length_app; simpl; lia).
      eapply wp_mono.
      { apply (IH n' (acc ++ [c]) cs' (scr ++ [c]) (ser ++ [c]) _ es'); [done|lia|done|done|rewrite length_app; simpl; lia|done]. }
      intros r k4 (-> & Hle & Hok4 & n4 & R4). split_and!; [done|done|done|]. exists n4. cbn [fmap list_fmap concat screen_echo serial_echo].
      by rewrite !app_assoc.
Qed.
End Yield.

(** The same without interrupts between the statements. *)
Lemma read_loop_wp fuel n acc cs scr ser k line rest es :
  reading k0 buf cap n acc cs scr ser k -> (n < fuel)%nat ->
  2 <= cap < 4294967296 -> Z.of_nat (length acc) <= cap - 1 ->
  edit_line cap acc cs = Some (line, rest, es) ->
  wp (read_loop fuel buf cap (Z.of_nat (length acc))) (fun r k' =>
    r = Z.of_nat (length line) /\ Z.of_nat (length line) <= cap - 1 /\
    exists n', reading k0 buf cap n' line rest (scr ++ concat (screen_echo <$> es)) (ser ++ concat (serial_echo <$> es)) k') k.
Proof.
  intros R Hn Hcap Hacc Hed. eapply wp_run_eq; [symmetry; apply read_loop_quiet|]. eapply wp_mono.
  { apply (read_loop_with_wp (ret tt) (fun _ => True)) with (n := n) (cs := cs) (rest := rest) (line := line) (es := es) (scr := scr) (ser := ser);
      [done|intros; by apply wp_ret|exact R|exact Hn|done|exact Hcap|exact Hacc|exact Hed]. }
  intros r k' (-> & Hle & _ & R'). by split_and!.
Qed.
End Reading.
