(* ===== verification/SyscallCalls.v ===== *)
(** Register frames in memory, and SYS_WRITE as a specification that user code
    can be verified against. *)
From S2P Require Import Prelude State Machine Framebuffer FramebufferFacts Isr Keyboard Serial SerialFacts Pic Interrupt InterruptFacts Syscall Preempt SyscallFacts.

(** * Register frames *)

(** The frame at [regs] is mapped, below 4GB and off the screen. *)
Record regs_ok (m : gmap Z Z) (regs : Z) : Prop := RegsOk {
  regs_mapped : mapped m regs 68;
  regs_pos : 0 < regs;
  regs_end : regs + 68 <= 4294967296;
  regs_apart : regs + 68 <= fb \/ fb + 4000 <= regs
}.

(** The frame holds this call number and these arguments. *)
Definition regs_hold (m : gmap Z Z) (regs eax ebx ecx edx : Z) : Prop :=
  word_at m (regs + pt_eax) = eax /\ word_at m (regs + pt_ebx) = ebx /\
  word_at m (regs + pt_ecx) = ecx /\ word_at m (regs + pt_edx) = edx.

Section Frames.
Context {k : kernel} {regs : Z} (Hregs : regs_ok (k_mem k) regs).

Lemma load_reg off : 0 <= off <= 64 -> load32 (regs + off) k = Ok (word_at (k_mem k) (regs + off), k).
Proof.
  intros Ho. destruct Hregs. apply load32_eq; [|lia|lia]. apply (mapped_sub _ regs 68); [done|lia|lia].
Qed.

Lemma store_eax v : store32 (regs + pt_eax) v k = Ok (tt, set_mem (put32 (k_mem k) (regs + pt_eax) v) k).
Proof.
  destruct Hregs. unfold pt_eax. apply store32_eq; [|lia|lia]. apply (mapped_sub _ regs 68); [done|lia|lia].
Qed.

Lemma regs_range off : 0 <= off <= 64 -> is_u32 (word_at (k_mem k) (regs + off)).
Proof. intros Ho. destruct Hregs. apply word_at_range. apply (mapped_sub _ regs 68); [done|lia|lia]. Qed.

(** Storing the result does not touch the screen. *)
Lemma term_store_eax v : term_of (set_mem (put32 (k_mem k) (regs + pt_eax) v) k) = term_of k.
Proof.
  destruct Hregs. apply term_same; [done|]. intros x Hx. unfold pt_eax. apply put32_lookup_ne. lia.
Qed.
End Frames.

Lemma regs_ok_differ m m' regs a n :
  regs_ok m regs -> only_differ m m' a n -> regs + 68 <= a \/ a + n <= regs -> regs_ok m' regs.
Proof.
  intros [] Hd Ha. constructor; try done. intros i Hi. rewrite Hd by lia. by apply regs_mapped0.
Qed.

(** The dispatcher up to the switch. *)
Lemma dispatch_eq `{Env} `{PollFuel} k regs eax ebx ecx edx :
  regs_ok (k_mem k) regs -> regs_hold (k_mem k) regs eax ebx ecx edx ->
  do_syscall_in_C regs k =
    (if eax =? SYS_WRITE then sys_write regs
     else if eax =? SYS_EXIT then
       ebx <- load32 (regs + pt_ebx) ;;
       store32 (regs + pt_eax) ebx
     else if eax =? SYS_CLEAR then sys_clear regs
     else if eax =? SYS_READ then sys_read regs
     else store32 (regs + pt_eax) (u32 (- ENOSYS))) k.
Proof.
  intros Hr (<- & _). unfold do_syscall_in_C. destruct Hr as [Hm Hp He Ha] eqn:E.
  rewrite (proj2 (Z.eqb_neq regs 0)) by lia.
  rewrite (bind_ok _ _ _ _ _ (load_reg Hr pt_eax ltac:(unfold pt_eax; lia))). done.
Qed.

(** * Output through the kernel *)

(** Events on the screen's and the serial line's ports. *)
Definition console_event (e : io_event) : Prop := crtc_event e \/ uart_event e.

(** [outputs regs k k' t s]: from [k] to [k'], the screen became [t] and [s] was sent
    over COM1; only the window, the result register at [regs] and the console changed. *)
Record outputs (regs : Z) (k k' : kernel) (t : term) (s : list Z) : Prop := Outputs {
  o_fb : fb_ok k';
  o_dlab : dlab (uart_of (k_trace k')) = false;
  o_term : term_of k' = t;
  o_tx : uart_tx (uart_of (k_trace k')) = rev s ++ uart_tx (uart_of (k_trace k));
  o_mem : forall x, ~ fb <= x < fb + 4000 -> ~ regs + pt_eax <= x < regs + pt_eax + 4 -> k_mem k' !! x = k_mem k !! x;
  o_mapped : forall a n, mapped (k_mem k) a n -> mapped (k_mem k') a n;
  o_frame : k' = set_trace (k_trace k') (set_fb (k_fb k') (set_mem (k_mem k') k));
  o_trace : exists evs, k_trace k' = evs ++ k_trace k /\ Forall console_event evs
}.

Section Write.
Context `{Env} `{PollFuel} `{!UartReady}.

(** The result register is written last. *)
Lemma outputs_store regs k k1 t s v :
  regs_ok (k_mem k1) regs -> fb_ok k1 -> dlab (uart_of (k_trace k1)) = false ->
  term_of k1 = t -> uart_tx (uart_of (k_trace k1)) = rev s ++ uart_tx (uart_of (k_trace k)) ->
  only_differ (k_mem k) (k_mem k1) fb 4000 ->
  k1 = set_trace (k_trace k1) (set_fb (k_fb k1) (set_mem (k_mem k1) k)) ->
  (exists evs, k_trace k1 = evs ++ k_trace k /\ Forall console_event evs) -> is_u32 v ->
  wp (store32 (regs + pt_eax) v) (fun _ k' => outputs regs k k' t s /\ word_at (k_mem k') (regs + pt_eax) = v) k1.
Proof.
  intros Hr Hfb Hdl Ht Htx Hm Hf Htr Hv. eapply wp_eq; [by apply store_eax|]. split; [|by apply word_at_put32].
  constructor; try done.
  - destruct Hfb. constructor; [|done|done]. by apply put32_mapped.
  - by rewrite (term_store_eax Hr).
  - intros x Hx1 Hx2. cbn [k_mem set_mem]. rewrite put32_lookup_ne by done. by apply Hm.
  - intros a n Ha. apply put32_mapped. eapply mapped_only_differ; [done|done|apply Hfb].
  - exact (f_equal (set_mem (put32 (k_mem k1) (regs + pt_eax) v)) Hf).
Qed.

Lemma do_write_wp k regs fd buf s :
  fd = 1 \/ fd = 2 -> fb_ok k -> dlab (uart_of (k_trace k)) = false ->
  regs_ok (k_mem k) regs -> regs_hold (k_mem k) regs SYS_WRITE fd buf (Z.of_nat (length s)) -> 0 < buf ->
  buf_holds (k_mem k) (Ptr buf) s -> Forall is_u8 s ->
  wp (do_syscall_in_C regs)
    (fun _ k' => outputs regs k k' (term_write (term_of k) s) s /\ word_at (k_mem k') (regs + pt_eax) = Z.of_nat (length s)) k.
Proof.
  intros Hfd Hfb Hdl Hr Hh Hbuf Hs Hu. pose proof (regs_range Hr pt_edx ltac:(done)) as Hrange.
  eapply wp_run_eq; [by apply (dispatch_eq k regs _ _ _ _ Hr Hh)|].
  destruct Hh as (_ & Hebx & Hecx & Hedx). rewrite Hedx in Hrange.
  rewrite Z.eqb_refl. unfold sys_write.
  apply wp_bind. eapply wp_eq; [by apply (load_reg Hr)|]. rewrite Hebx.
  replace ((fd =? 1) || (fd =? 2)) with true by (destruct Hfd as [-> | ->]; done).
  apply wp_bind. eapply wp_eq; [by apply (load_reg Hr)|]. rewrite Hecx.
  apply wp_bind. eapply wp_eq; [by apply (load_reg Hr)|]. rewrite Hedx.
  rewrite (proj2 (Z.eqb_neq buf 0)) by lia. cbn [negb andb]. apply wp_bind.
  destruct (Z.ltb_spec 0 (Z.of_nat (length s))) as [Hpos|Hz].
  - apply wp_bind. eapply wp_mono; [by apply (fb_write_wp k (Ptr buf) s)|].
    intros r1 k1 (_ & [Hok1 Ht1 Hm1 Hf1 (evs & Hev1 & Hcr)]). apply wp_bind.
    eapply wp_mono; [apply (serial_write_wp k1 (Ptr buf) s); [by apply (buf_holds_ext (k_mem k))|done]|].
    intros r2 k2 (_ & t & Ht & ->). apply wp_ret. pose proof (sends_all_uart _ _ Ht) as Hut.
    assert (uart_of (k_trace k1) = uart_of (k_trace k)) as Hua by (rewrite Hev1; by apply uart_of_app, crtc_off_uart).
    destruct (uart_sends_all s t (k_trace k1) Ht ltac:(by rewrite Hua)) as [Htx Hd].
    apply outputs_store; cbn [k_mem set_trace k_trace]; try done.
    + eapply regs_ok_differ; [done|done|apply Hr].
    + eapply (fb_ok_events k1 t); [done|by apply uart_off_crtc|done..].
    + by rewrite Htx, Hua.
    + exact (f_equal (set_trace (t ++ k_trace k1)) Hf1).
    + exists (t ++ evs). rewrite Hev1, app_assoc. split; [done|]. apply Forall_app_2.
      * eapply Forall_impl; [done|]. by right.
      * eapply Forall_impl; [done|]. by left.
  - apply wp_ret. destruct s; [|simpl in Hz; lia].
    apply outputs_store; try done; [by destruct k|by exists []].
Qed.

Lemma do_clear_wp k regs a b c :
  mapped (k_mem k) fb 4000 -> dlab (uart_of (k_trace k)) = false ->
  regs_ok (k_mem k) regs -> regs_hold (k_mem k) regs SYS_CLEAR a b c ->
  wp (do_syscall_in_C regs)
    (fun _ k' => outputs regs k k' (term_clear (term_of k)) ansi_clear /\ word_at (k_mem k') (regs + pt_eax) = 0) k.
Proof.
  intros Hfb Hdl Hr Hh. eapply wp_run_eq; [by apply (dispatch_eq k regs _ _ _ _ Hr Hh)|].
  change (SYS_CLEAR =? SYS_WRITE) with false. change (SYS_CLEAR =? SYS_EXIT) with false.
  change (SYS_CLEAR =? SYS_CLEAR) with true. cbv iota. unfold sys_clear. apply wp_bind.
  eapply wp_mono; [by apply fb_clear_wp|]. intros [] k1 [Hok1 Ht1 Hm1 Hf1 (evs & Hev1 & Hcr)]. apply wp_bind.
  eapply wp_mono; [apply (serial_write_wp k1 (Lit ansi_clear) ansi_clear); [apply buf_reads_lit|bytes_done]|].
  intros r2 k2 (_ & t & Ht & ->). pose proof (sends_all_uart _ _ Ht) as Hut.
  assert (uart_of (k_trace k1) = uart_of (k_trace k)) as Hua by (rewrite Hev1; by apply uart_of_app, crtc_off_uart).
  destruct (uart_sends_all ansi_clear t (k_trace k1) Ht ltac:(by rewrite Hua)) as [Htx Hd].
  apply outputs_store; cbn [k_mem set_trace k_trace]; try done.
  - eapply regs_ok_differ; [done|done|apply Hr].
  - eapply (fb_ok_events k1 t); [done|by apply uart_off_crtc|done..].
  - by rewrite Htx, Hua.
  - exact (f_equal (set_trace (t ++ k_trace k1)) Hf1).
  - exists (t ++ evs). rewrite Hev1, app_assoc. split; [done|]. apply Forall_app_2.
    + eapply Forall_impl; [done|]. by right.
    + eapply Forall_impl; [done|]. by left.
Qed.
End Write.

(** * Input through the kernel *)

(** [reads_line keys regs buf cap k k' line rest es]: from [k] to [k'], a line was
    read into the buffer with the echoes [es]. *)
Record reads_line (keys : trace -> list Z) (regs buf cap : Z) (k k' : kernel) (line rest : list Z) (es : list echo)
    : Prop := ReadsLine {
  rl_fb : fb_ok k';
  rl_kbd : kbd_ok (k_kbd k');
  rl_isr : isr_ok (k_isr k');
  rl_dlab : dlab (uart_of (k_trace k')) = false;
  rl_eax : word_at (k_mem k') (regs + pt_eax) = Z.of_nat (length line);
  rl_fits : Z.of_nat (length line) < cap;
  rl_buf : forall i c, (line ++ [0]) !! i = Some c -> k_mem k' !! (buf + Z.of_nat i) = Some c;
  rl_term : term_of k' = term_write (term_of k) (concat (screen_echo <$> es));
  rl_tx : uart_tx (uart_of (k_trace k')) = rev (concat (serial_echo <$> es)) ++ uart_tx (uart_of (k_trace k));
  rl_input : input_of keys k' = rest;
  rl_mem : forall x, ~ buf <= x < buf + cap -> ~ fb <= x < fb + 4000 -> ~ regs + pt_eax <= x < regs + pt_eax + 4 ->
    k_mem k' !! x = k_mem k !! x;
  rl_mapped : forall a n, mapped (k_mem k) a n -> mapped (k_mem k') a n
}.

Section Read.
Context `{Env} `{PollFuel} `{!UartReady} (keys : trace -> list Z) `{!KbdSource keys}.
Context (Hidle : forall tr, Z.land (u8 (env_in tr 0x3FD)) 1 = 0).

(** A finished [reading] with the terminator stored is a line read. *)
Lemma reading_done k k3 regs buf cap n line rest es :
  reading keys k buf cap n (line ++ [0]) rest (concat (screen_echo <$> es)) (concat (serial_echo <$> es)) k3 ->
  regs_ok (k_mem k) regs -> buf_ok buf cap -> regs + 68 <= buf \/ buf + cap <= regs ->
  Z.of_nat (length line) < cap ->
  wp (store32 (regs + pt_eax) (Z.of_nat (length line))) (fun _ k' => reads_line keys regs buf cap k k' line rest es) k3.
Proof.
  intros [] Hr Hbok Hap Hlt. pose proof Hr as [Hrm Hr1 Hr2 Hr3].
  assert (regs_ok (k_mem k3) regs) as Hrk.
  { constructor; try done. intros i Hi. rewrite r_frame by lia. by apply Hrm. }
  eapply wp_eq; [by apply store_eax|]. constructor; cbn [k_mem set_mem k_trace]; try done.
  - destruct r_fb. constructor; [|done|done]. by apply put32_mapped.
  - apply word_at_put32. destruct Hbok. word_solve.
  - intros i c Hc. pose proof (lookup_lt_Some _ _ _ Hc) as Hlen. rewrite length_app in Hlen. simpl in Hlen.
    rewrite put32_lookup_ne by (unfold pt_eax; lia). by apply r_line.
  - by rewrite (term_store_eax Hrk).
  - intros x Hx1 Hx2 Hx3. rewrite put32_lookup_ne by done. by apply r_frame.
  - intros a p Ha. apply put32_mapped. intros i Hi.
    destruct (decide (buf <= a + i < buf + cap)); [eapply mapped_lookup; [exact r_mapped|lia]|].
    destruct (decide (fb <= a + i < fb + 4000)); [eapply mapped_lookup; [apply r_fb|lia]|].
    rewrite r_frame by done. by apply Ha.
Qed.

(** What a call needs of memory and devices. *)
Record read_ready (regs buf cap : Z) (k : kernel) : Prop := ReadReady {
  rr_fb : fb_ok k;
  rr_kbd : kbd_ok (k_kbd k);
  rr_isr : isr_ok (k_isr k);
  rr_dlab : dlab (uart_of (k_trace k)) = false;
  rr_regs : regs_ok (k_mem k) regs;
  rr_hold : regs_hold (k_mem k) regs SYS_READ 0 buf cap;
  rr_pos : 0 < buf;
  rr_buf : buf_ok buf cap;
  rr_mapped : mapped (k_mem k) buf cap;
  rr_apart : regs + 68 <= buf \/ buf + cap <= regs;
  rr_cap : 2 <= cap;
  rr_fuel : (2 * length (keys (k_trace k)) + length (queue_of (k_kbd k)) < poll_fuel)%nat
}.

(** The call with anything between its statements that keeps the invariant of the
    loop, while the input to come is [ok]. *)
Lemma sys_read_with_wp (yield : K unit) (ok : list Z -> Prop) k regs buf cap line rest es :
  (forall c cs, ok (c :: cs) -> ok cs) ->
  (forall n acc cs scr ser k1, ok cs -> reading keys k buf cap n acc cs scr ser k1 ->
    wp yield (fun _ k2 => reading keys k buf cap n acc cs scr ser k2) k1) ->
  read_ready regs buf cap k -> ok (input_of keys k) -> edit_line cap [] (input_of keys k) = Some (line, rest, es) ->
  wp (sys_read_with yield regs) (fun _ k' => reads_line keys regs buf cap k k' line rest es) k.
Proof.
  intros Htail Hyield [Hfb Hkbd Hisr Hdl Hr (_ & Hebx & Hecx & Hedx) Hbuf Hbok Hbm Hap Hcap Hfuel] Hok Hed.
  assert (cap < 4294967296) as Hcap2 by (destruct Hbok; lia). unfold sys_read_with.
  apply wp_bind. eapply wp_eq; [by apply (load_reg Hr)|]. rewrite Hebx, Z.eqb_refl.
  apply wp_bind. eapply wp_eq; [by apply (load_reg Hr)|]. rewrite Hecx.
  apply wp_bind. eapply wp_eq; [by apply (load_reg Hr)|]. rewrite Hedx.
  rewrite (proj2 (Z.eqb_neq buf 0)), (proj2 (Z.leb_gt cap 1)) by lia. cbn [orb].
  unfold enable_interrupts. apply wp_bind, wp_modify. set (k1 := set_cpu _ k).
  assert (reading keys k buf cap (2 * length (keys (k_trace k)) + length (queue_of (k_kbd k))) []
    (input_of keys k) [] [] k1) as R by (by constructor; [destruct Hfb; constructor|..]).
  apply wp_bind. change 0 with (Z.of_nat (length (@nil Z))) at 1.
  eapply wp_mono; [apply (read_loop_with_wp keys k buf cap Hbok Hidle yield ok Htail Hyield poll_fuel _ [] _ _ _ k1 line rest es R); [lia|done|lia|simpl; lia|done]|].
  intros r k2 (-> & Hle & Hok2 & n & R2). apply wp_bind. eapply wp_mono; [by apply (Hyield _ _ _ _ _ _ Hok2 R2)|].
  clear k2 R2. intros [] k2 R2. apply wp_bind.
  eapply wp_mono; [eapply (reading_store keys k buf cap Hbok n line rest _ _ k2 0 R2); [done|lia]|].
  intros [] k3 R3. apply wp_bind. eapply wp_mono; [by apply (Hyield _ _ _ _ _ _ Hok2 R3)|].
  clear k3 R3. intros [] k3 R3. eapply reading_done; [done|done|done|done|lia].
Qed.

Lemma do_read_wp k regs buf cap line rest es :
  fb_ok k -> kbd_ok (k_kbd k) -> isr_ok (k_isr k) -> dlab (uart_of (k_trace k)) = false ->
  regs_ok (k_mem k) regs -> regs_hold (k_mem k) regs SYS_READ 0 buf cap ->
  0 < buf -> buf_ok buf cap -> mapped (k_mem k) buf cap -> regs + 68 <= buf \/ buf + cap <= regs ->
  2 <= cap -> (2 * length (keys (k_trace k)) + length (queue_of (k_kbd k)) < poll_fuel)%nat ->
  edit_line cap [] (input_of keys k) = Some (line, rest, es) ->
  wp (do_syscall_in_C regs) (fun _ k' => reads_line keys regs buf cap k k' line rest es) k.
Proof.
  intros Hfb Hkbd Hisr Hdl Hr Hh Hbuf Hbok Hbm Hap Hcap Hfuel Hed.
  eapply wp_run_eq; [by apply (dispatch_eq k regs _ _ _ _ Hr Hh)|].
  change (SYS_READ =? SYS_WRITE) with false. change (SYS_READ =? SYS_EXIT) with false.
  change (SYS_READ =? SYS_CLEAR) with false. change (SYS_READ =? SYS_READ) with true. cbv iota.
  eapply wp_run_eq; [symmetry; apply sys_read_quiet|].
  apply (sys_read_with_wp (ret tt) (fun _ => True)); [done|intros; by apply wp_ret|by constructor|done|done].
Qed.
End Read.
