(* ===== verification/SyscallProps.v ===== *)
(** The correctness of the system calls, stated for [do_syscall_in_C] of
    kernel/syscall.c. *)
From S2P Require Import Prelude State Machine Image Framebuffer FramebufferFacts Isr Keyboard Serial SerialFacts Pic Interrupt InterruptFacts Samples Syscall Preempt SyscallFacts SyscallCalls.

(** The calls that do nothing but answer: exit, unknown numbers, wrong file
    descriptors and empty buffers. *)
Definition plain_result (eax ebx ecx edx : Z) : option Z :=
  if eax =? SYS_EXIT then Some ebx
  else if eax =? SYS_WRITE then
    if (ebx =? 1) || (ebx =? 2) then if (ecx =? 0) || (edx =? 0) then Some edx else None
    else Some 0xFFFFFFFF
  else if eax =? SYS_READ then
    if ebx =? 0 then if (ecx =? 0) || (edx =? 0) then Some 0 else None else Some 0xFFFFFFFF
  else if eax =? SYS_CLEAR then None
  else Some (4294967296 - ENOSYS).

Section Props.
Context `{Env} `{PollFuel}.

(** C19. SYS_READ is a line editor: for a keyboard that supplies the rest of the
    input, an idle serial line and a ready transmitter, the call returns; the
    buffer then holds exactly the line that the editor makes of the buffered and
    typed characters, and its terminator, within the given capacity; the result
    is its length; screen and serial line show the editor's echoes; the input
    after the line is still to be read, and no other memory has changed. *)
Theorem sys_read_line (keys : trace -> list Z) `{!KbdSource keys} `{!UartReady} k regs buf cap line rest es :
  (forall tr, Z.land (u8 (env_in tr 0x3FD)) 1 = 0) ->
  fb_ok k -> kbd_ok (k_kbd k) -> isr_ok (k_isr k) -> dlab (uart_of (k_trace k)) = false ->
  regs_ok (k_mem k) regs -> regs_hold (k_mem k) regs SYS_READ 0 buf cap ->
  0 < buf -> buf_ok buf cap -> mapped (k_mem k) buf cap -> regs + 68 <= buf \/ buf + cap <= regs ->
  2 <= cap -> (2 * length (keys (k_trace k)) + length (queue_of (k_kbd k)) < poll_fuel)%nat ->
  edit_line cap [] (input_of keys k) = Some (line, rest, es) ->
  exists k', do_syscall_in_C regs k = Ok (tt, k') /\
    word_at (k_mem k') (regs + pt_eax) = Z.of_nat (length line) /\ Z.of_nat (length line) < cap /\
    (forall i c, (line ++ [0]) !! i = Some c -> k_mem k' !! (buf + Z.of_nat i) = Some c) /\
    term_of k' = term_write (term_of k) (concat (screen_echo <$> es)) /\
    uart_tx (uart_of (k_trace k')) = rev (concat (serial_echo <$> es)) ++ uart_tx (uart_of (k_trace k)) /\
    input_of keys k' = rest /\
    forall x, ~ buf <= x < buf + cap -> ~ fb <= x < fb + 4000 -> ~ regs + pt_eax <= x < regs + pt_eax + 4 ->
      k_mem k' !! x = k_mem k !! x.
Proof.
  intros Hidle Hfb Hkbd Hisr Hdl Hr Hh Hbuf Hbok Hbm Hap Hcap Hfuel Hed.
  destruct (do_read_wp keys Hidle k regs buf cap line rest es) as ([] & k' & Hrun & []); try done.
  exists k'. by split_and!.
Qed.

(** C26. SYS_READ reads the same line whenever the keys come: with any number of keyboard
    interrupts before each of its statements, as long as all the input fits into the
    ring buffer, it returns, and line, count, echoes, the input left and all other memory
    are what the line editor says of the input alone, not of the times it came at.  (The
    time between the last poll and [hlt] is excepted.) *)
Theorem sys_read_preempted (keys : trace -> list Z) `{!KbdSource keys} `{!UartReady} (arrivals : trace -> nat) k regs buf cap line rest es :
  (forall tr, Z.land (u8 (env_in tr 0x3FD)) 1 = 0) -> (forall tr, (arrivals tr <= length (keys tr))%nat) ->
  read_ready keys regs buf cap k -> Z.of_nat (length (input_of keys k)) <= 256 ->
  edit_line cap [] (input_of keys k) = Some (line, rest, es) ->
  exists k', sys_read_with (preempt arrivals) regs k = Ok (tt, k') /\ reads_line keys regs buf cap k k' line rest es.
Proof.
  intros Hidle Harr Hready Hroom Hed.
  destruct (sys_read_with_wp keys Hidle (preempt arrivals) (fun cs => Z.of_nat (length cs) <= 256) k regs buf cap line rest es)
    as ([] & k' & Hrun & HQ); [| |exact Hready|exact Hroom|exact Hed|by exists k'].
  - intros c cs Hc. cbn [length] in Hc. lia.
  - intros n acc cs scr ser k1 Hcs R. by apply preempt_wp.
Qed.

(** SYS_WRITE to stdout or stderr shows the buffer on the screen and sends it
    over COM1, byte for byte, and answers its length; only the window and the
    result register change in memory. *)
Theorem sys_write_shows `{!UartReady} k regs fd buf s :
  fd = 1 \/ fd = 2 -> s <> [] -> fb_ok k -> dlab (uart_of (k_trace k)) = false ->
  regs_ok (k_mem k) regs -> regs_hold (k_mem k) regs SYS_WRITE fd buf (Z.of_nat (length s)) -> 0 < buf ->
  buf_holds (k_mem k) (Ptr buf) s -> Forall is_u8 s ->
  exists k', do_syscall_in_C regs k = Ok (tt, k') /\
    word_at (k_mem k') (regs + pt_eax) = Z.of_nat (length s) /\
    term_of k' = term_write (term_of k) s /\
    uart_tx (uart_of (k_trace k')) = rev s ++ uart_tx (uart_of (k_trace k)) /\
    forall x, ~ fb <= x < fb + 4000 -> ~ regs + pt_eax <= x < regs + pt_eax + 4 -> k_mem k' !! x = k_mem k !! x.
Proof.
  intros Hfd Hne Hfb Hdl Hr Hh Hbuf Hs Hu.
  destruct (do_write_wp k regs fd buf s Hfd Hfb Hdl Hr Hh Hbuf Hs Hu) as ([] & k' & Hrun & [] & Heax).
  exists k'. by split_and!.
Qed.

(** SYS_CLEAR blanks the screen, sends the ANSI clear sequence over COM1 and
    answers 0. *)
Theorem sys_clear_clears `{!UartReady} k regs a b c :
  mapped (k_mem k) fb 4000 -> dlab (uart_of (k_trace k)) = false ->
  regs_ok (k_mem k) regs -> regs_hold (k_mem k) regs SYS_CLEAR a b c ->
  exists k', do_syscall_in_C regs k = Ok (tt, k') /\
    word_at (k_mem k') (regs + pt_eax) = 0 /\ term_of k' = term_clear (term_of k) /\
    uart_tx (uart_of (k_trace k')) = rev ansi_clear ++ uart_tx (uart_of (k_trace k)) /\
    forall x, ~ fb <= x < fb + 4000 -> ~ regs + pt_eax <= x < regs + pt_eax + 4 -> k_mem k' !! x = k_mem k !! x.
Proof.
  intros Hfb Hdl Hr Hh. destruct (do_clear_wp k regs a b c Hfb Hdl Hr Hh) as ([] & k' & Hrun & [] & Heax).
  exists k'. by split_and!.
Qed.

(** C33. Every other outcome is an answer and nothing else: unknown call numbers
    (SYS_FORK among them) get -ENOSYS, a wrong descriptor gets -1, a read into no
    buffer gets 0, SYS_EXIT returns the status, and a write of a null or empty
    buffer answers the count although nothing is shown; only the result word of
    the frame changes. *)
Theorem syscall_plain_results k regs eax ebx ecx edx v :
  regs_ok (k_mem k) regs -> regs_hold (k_mem k) regs eax ebx ecx edx ->
  plain_result eax ebx ecx edx = Some v ->
  do_syscall_in_C regs k = Ok (tt, set_mem (put32 (k_mem k) (regs + pt_eax) v) k).
Proof.
  intros Hr Hh Hv. rewrite (dispatch_eq k regs _ _ _ _ Hr Hh). destruct Hh as (_ & Hebx & Hecx & Hedx).
  unfold plain_result in Hv. destruct (Z.eqb_spec eax SYS_EXIT) as [->|H1].
  { change (SYS_EXIT =? SYS_WRITE) with false. cbv iota. simplify_eq.
    rewrite (bind_ok _ _ _ _ _ (load_reg Hr pt_ebx ltac:(done))). exact (store_eax Hr _). }
  destruct (Z.eqb_spec eax SYS_WRITE) as [->|H2].
  { unfold sys_write. rewrite (bind_ok _ _ _ _ _ (load_reg Hr pt_ebx ltac:(done))), Hebx.
    destruct ((ebx =? 1) || (ebx =? 2)); [|simplify_eq; exact (store_eax Hr _)].
    rewrite (bind_ok _ _ _ _ _ (load_reg Hr pt_ecx ltac:(done))), Hecx.
    rewrite (bind_ok _ _ _ _ _ (load_reg Hr pt_edx ltac:(done))), Hedx.
    destruct (Z.eqb_spec ecx 0); cbn [orb negb andb] in *; [simplify_eq; exact (store_eax Hr _)|].
    destruct (Z.eqb_spec edx 0) as [e|]; [|done]. simplify_eq. rewrite e. exact (store_eax Hr _). }
  destruct (Z.eqb_spec eax SYS_READ) as [->|H3].
  { change (SYS_READ =? SYS_CLEAR) with false. cbv iota. unfold sys_read.
    rewrite (bind_ok _ _ _ _ _ (load_reg Hr pt_ebx ltac:(done))), Hebx.
    destruct (ebx =? 0); [|simplify_eq; exact (store_eax Hr _)].
    rewrite (bind_ok _ _ _ _ _ (load_reg Hr pt_ecx ltac:(done))), Hecx.
    rewrite (bind_ok _ _ _ _ _ (load_reg Hr pt_edx ltac:(done))), Hedx.
    destruct (Z.eqb_spec ecx 0); cbn [orb negb andb] in *; [simplify_eq; exact (store_eax Hr _)|].
    destruct (Z.eqb_spec edx 0) as [e|]; [|done]. simplify_eq. rewrite e. exact (store_eax Hr _). }
  destruct (Z.eqb_spec eax SYS_CLEAR) as [->|H4]; [done|]. simplify_eq. exact (store_eax Hr _).
Qed.

End Props.

(** * Instances

    A frame at 0xC0180000 on the sample kernel stack and a buffer at 0xC0200000
    that starts with the bytes of ["hi"]. *)
Definition sample_regs : Z := 0xC0180000.
Definition sample_buf : Z := 0xC0200000.
Definition put_frame (m : gmap Z Z) (regs eax ebx ecx edx : Z) : gmap Z Z :=
  put32 (put32 (put32 (put32 m (regs + pt_edx) edx) (regs + pt_ecx) ecx) (regs + pt_ebx) ebx) (regs + pt_eax) eax.

Lemma put_frame_holds m regs eax ebx ecx edx :
  is_u32 eax -> is_u32 ebx -> is_u32 ecx -> is_u32 edx ->
  regs_hold (put_frame m regs eax ebx ecx edx) regs eax ebx ecx edx.
Proof.
  intros Ha Hb Hc Hd. unfold regs_hold, put_frame, pt_eax, pt_ebx, pt_ecx, pt_edx. split_and!.
  - by apply word_at_put32.
  - rewrite word_at_put32_ne by lia. by apply word_at_put32.
  - rewrite !(word_at_put32_ne _ _ (regs + 4)) by lia. by apply word_at_put32.
  - rewrite !(word_at_put32_ne _ _ (regs + 8)) by lia. by apply word_at_put32.
Qed.

Definition sample_call (eax ebx ecx edx : Z) : kernel :=
  set_mem (put_frame (put32 sample_mem sample_buf 0x6968) sample_regs eax ebx ecx edx) sample_ready.

Lemma sample_call_mapped eax ebx ecx edx a n :
  0xC0000000 <= a -> a + n <= 0xC0400000 -> mapped (k_mem (sample_call eax ebx ecx edx)) a n.
Proof. intros Ha Hn. cbn [sample_call k_mem set_mem]. unfold put_frame. do 5 apply put32_mapped. apply zero_mem_mapped; lia. Qed.

Lemma sample_call_regs eax ebx ecx edx : regs_ok (k_mem (sample_call eax ebx ecx edx)) sample_regs.
Proof. constructor; [by apply sample_call_mapped|done|done|by right]. Qed.

Lemma sample_call_fb eax ebx ecx edx : fb_ok (sample_call eax ebx ecx edx).
Proof. constructor; [by apply sample_call_mapped|done|done]. Qed.

Lemma sample_call_holds eax ebx ecx edx :
  is_u32 eax -> is_u32 ebx -> is_u32 ecx -> is_u32 edx ->
  regs_hold (k_mem (sample_call eax ebx ecx edx)) sample_regs eax ebx ecx edx.
Proof. apply put_frame_holds. Qed.

Lemma sample_call_kbd eax ebx ecx edx : kbd_ok (k_kbd (sample_call eax ebx ecx edx)).
Proof. exact (proj1 (input_set_mem _ sample_ready sample_ready_kbd sample_isr_ok)). Qed.
Lemma sample_call_isr eax ebx ecx edx : isr_ok (k_isr (sample_call eax ebx ecx edx)).
Proof. exact (proj2 (input_set_mem _ sample_ready sample_ready_kbd sample_isr_ok)). Qed.

Lemma sys_read_line_witness :
  let E := sample_env [] [0x23; 0x17; 0x1C] in let F := sample_fuel in
  exists k', do_syscall_in_C sample_regs (sample_call SYS_READ 0 sample_buf 16) = Ok (tt, k') /\
    word_at (k_mem k') (sample_regs + pt_eax) = 2.
Proof.
  intros E F. assert (Forall is_u8 [0x23; 0x17; 0x1C]) as Hu by bytes_done.
  pose proof (sample_kbd_source _ Hu) as HS. pose proof (sample_uart_ready [] [0x23; 0x17; 0x1C]) as HR.
  destruct (sys_read_line (pending 0x60 [0x23; 0x17; 0x1C]) (sample_call SYS_READ 0 sample_buf 16) sample_regs sample_buf 16
    (str "hi") [] [E_char 104; E_char 105; E_eol]) as (k' & Hk1 & Hk2 & _).
  - apply sample_idle.
  - apply sample_call_fb.
  - exact (sample_call_kbd _ _ _ _).
  - exact (sample_call_isr _ _ _ _).
  - reflexivity.
  - apply sample_call_regs.
  - by apply sample_call_holds.
  - reflexivity.
  - split; [discriminate|]. split; [discriminate|]. by right.
  - by apply sample_call_mapped.
  - by left.
  - discriminate.
  - change (6 < 1000)%nat. lia.
  - reflexivity.
  - exists k'. auto.
Defined.

(** One key comes before each statement, while there are any. *)
Lemma sys_read_preempted_witness :
  let E := sample_env [] [0x23; 0x17; 0x1C] in let F := sample_fuel in
  let arrivals tr := Nat.min 1 (length (pending 0x60 [0x23; 0x17; 0x1C] tr)) in
  exists k', sys_read_with (preempt arrivals) sample_regs (sample_call SYS_READ 0 sample_buf 16) = Ok (tt, k') /\
    word_at (k_mem k') (sample_regs + pt_eax) = 2.
Proof.
  intros E F arrivals. assert (Forall is_u8 [0x23; 0x17; 0x1C]) as Hu by bytes_done.
  pose proof (sample_kbd_source _ Hu) as HS. pose proof (sample_uart_ready [] [0x23; 0x17; 0x1C]) as HR.
  destruct (sys_read_preempted (pending 0x60 [0x23; 0x17; 0x1C]) arrivals (sample_call SYS_READ 0 sample_buf 16) sample_regs sample_buf 16
    (str "hi") [] [E_char 104; E_char 105; E_eol]) as (k' & Hk1 & Hk2).
  - apply sample_idle.
  - intros tr. apply Nat.le_min_r.
  - constructor; [apply sample_call_fb|exact (sample_call_kbd _ _ _ _)|exact (sample_call_isr _ _ _ _)|reflexivity|apply sample_call_regs
      |by apply sample_call_holds|reflexivity|split; [discriminate|]; split; [discriminate|]; by right|by apply sample_call_mapped|by left|discriminate|].
    change (6 < 1000)%nat. lia.
  - discriminate.
  - reflexivity.
  - exists k'. split; [exact Hk1|exact (rl_eax _ _ _ _ _ _ _ _ _ Hk2)].
Defined.

Lemma sys_write_shows_witness :
  let E := sample_env [] [] in let F := sample_fuel in
  exists k', do_syscall_in_C sample_regs (sample_call SYS_WRITE 1 sample_buf 2) = Ok (tt, k') /\
    uart_tx (uart_of (k_trace k')) = [105; 104].
Proof.
  intros E F. pose proof (sample_uart_ready [] []) as HR.
  destruct (sys_write_shows (sample_call SYS_WRITE 1 sample_buf 2) sample_regs 1 sample_buf [104; 105])
    as (k' & Hk1 & _ & _ & Hk2 & _).
  - by left.
  - discriminate.
  - apply sample_call_fb.
  - reflexivity.
  - apply sample_call_regs.
  - by apply sample_call_holds.
  - reflexivity.
  - split; [|by right]. intros i c Hi. cbn [sample_call k_mem set_mem]. unfold put_frame, pt_eax, pt_ebx, pt_ecx, pt_edx, sample_regs, sample_buf.
    destruct i as [|[|i]]; [| |discriminate Hi]; injection Hi as <-; (split; [|by split]);
      rewrite !put32_lookup_ne by lia; unfold put32; rewrite !lookup_insert_ne by lia; apply lookup_insert_eq.
  - bytes_done.
  - exists k'. auto.
Defined.

Lemma sys_clear_clears_witness :
  let E := sample_env [] [] in let F := sample_fuel in
  exists k', do_syscall_in_C sample_regs (sample_call SYS_CLEAR 0 0 0) = Ok (tt, k') /\
    word_at (k_mem k') (sample_regs + pt_eax) = 0.
Proof.
  intros E F. pose proof (sample_uart_ready [] []) as HR.
  destruct (sys_clear_clears (sample_call SYS_CLEAR 0 0 0) sample_regs 0 0 0) as (k' & Hk1 & Hk2 & _).
  - by apply sample_call_mapped.
  - reflexivity.
  - apply sample_call_regs.
  - by apply sample_call_holds.
  - exists k'. auto.
Defined.

Lemma syscall_plain_results_witness :
  let E := sample_env [] [] in let F := sample_fuel in
  do_syscall_in_C sample_regs (sample_call SYS_FORK 7 0 0)
  = Ok (tt, set_mem (put32 (k_mem (sample_call SYS_FORK 7 0 0)) (sample_regs + pt_eax) (4294967296 - ENOSYS))
      (sample_call SYS_FORK 7 0 0)).
Proof.
  intros E F. apply (syscall_plain_results (sample_call SYS_FORK 7 0 0) sample_regs SYS_FORK 7 0 0).
  - apply sample_call_regs.
  - by apply sample_call_holds.
  - reflexivity.
Defined.
