(* ===== verification/CString.v ===== *)
(** The string routines of the user C library: userland/libc/src/string.c.

    Strings are bytes of memory up to a zero; the loops without a bound of their
    own are unrolled [poll_fuel] times. *)
From S2P Require Import Prelude State Machine.

(** * Operations *)

Section Ops.
Context `{PollFuel}.

(** [while (s && s[len] != '\0') len++;] *)
Fixpoint strlen_loop (fuel : nat) (s len : Z) : K Z :=
  match fuel with
  | O => hang
  | S fuel' =>
      if s =? 0 then ret len
      else
        c <- load8 (s + len) ;;
        if c =? 0 then ret len else strlen_loop fuel' s (u32 (len + 1))
  end.
Definition strlen (s : Z) : K Z := strlen_loop poll_fuel s 0.

(** [while ( *s1 && ( *s1 == *s2)) { s1++; s2++; }] and the final difference. *)
Fixpoint strcmp_loop (fuel : nat) (s1 s2 : Z) : K Z :=
  match fuel with
  | O => hang
  | S fuel' =>
      c1 <- load8 s1 ;;
      same <- (if c1 =? 0 then ret false else c2 <- load8 s2 ;; ret (c1 =? c2)) ;;
      if same then strcmp_loop fuel' (s1 + 1) (s2 + 1)
      else
        c1 <- load8 s1 ;;
        c2 <- load8 s2 ;;
        ret (c1 - c2)
  end.
Definition strcmp (s1 s2 : Z) : K Z := strcmp_loop poll_fuel s1 s2.

(** [n] iterations are left of the loop at index [i]. *)
Fixpoint strncmp_loop (n : nat) (s1 s2 i : Z) : K Z :=
  match n with
  | O => ret 0
  | S n' =>
      c1 <- load8 (s1 + i) ;;
      c2 <- load8 (s2 + i) ;;
      if negb (c1 =? c2) || (c1 =? 0) then ret (c1 - c2) else strncmp_loop n' s1 s2 (i + 1)
  end.
Definition strncmp (s1 s2 n : Z) : K Z := strncmp_loop (Z.to_nat n) s1 s2 0.

(** [while (( *d++ = *src++) != '\0');] *)
Fixpoint strcpy_loop (fuel : nat) (d src : Z) : K unit :=
  match fuel with
  | O => hang
  | S fuel' =>
      c <- load8 src ;;
      store8 d c ;;;
      if c =? 0 then ret tt else strcpy_loop fuel' (d + 1) (src + 1)
  end.
Definition strcpy (dest src : Z) : K Z := strcpy_loop poll_fuel dest src ;;; ret dest.

(** The copying loop of [strncpy]; it returns [i]. *)
Fixpoint strncpy_copy (n : nat) (dest src i : Z) : K Z :=
  match n with
  | O => ret i
  | S n' =>
      c <- load8 (src + i) ;;
      if c =? 0 then ret i
      else store8 (dest + i) c ;;; strncpy_copy n' dest src (i + 1)
  end.
Definition strncpy (dest src n : Z) : K Z :=
  i <- strncpy_copy (Z.to_nat n) dest src 0 ;;
  for_up i n (fun j => store8 (dest + j) 0) ;;;
  ret dest.

Definition memset (s c n : Z) : K Z :=
  for_up 0 n (fun i => store8 (s + i) (u8 c)) ;;;
  ret s.

Definition memcpy (dest src n : Z) : K Z :=
  for_up 0 n (fun i => v <- load8 (src + i) ;; store8 (dest + i) v) ;;;
  ret dest.

(** [c] is an [int]: it is narrowed in the loop and not in the test after it. *)
Fixpoint strchr_loop (fuel : nat) (s c : Z) : K Z :=
  match fuel with
  | O => hang
  | S fuel' =>
      b <- load8 s ;;
      if b =? 0 then (if c =? 0 then ret s else ret 0)
      else if b =? u8 c then ret s
      else strchr_loop fuel' (s + 1) c
  end.
Definition strchr (s c : Z) : K Z := strchr_loop poll_fuel s c.
End Ops.

(** * C strings in memory *)

(** The bytes of [s] and the terminator are at [a]. *)
Record cstr (m : gmap Z Z) (a : Z) (s : list Z) : Prop := Cstr {
  cstr_reads : buf_reads m (Ptr a) (s ++ [0]);
  cstr_bytes : Forall (fun c => 0 < c < 256) s
}.

(** The difference of the first bytes in which two strings differ. *)
Fixpoint str_diff (s1 s2 : list Z) : Z :=
  match s1, s2 with
  | [], [] => 0
  | [], c2 :: _ => - c2
  | c1 :: _, [] => c1
  | c1 :: s1', c2 :: s2' => if c1 =? c2 then str_diff s1' s2' else c1 - c2
  end.

(** Dictionary order. *)
Fixpoint str_lt (s1 s2 : list Z) : Prop :=
  match s1, s2 with
  | _, [] => False
  | [], _ :: _ => True
  | c1 :: s1', c2 :: s2' => c1 < c2 \/ c1 = c2 /\ str_lt s1' s2'
  end.

Definition nonzero (c : Z) : Prop := 0 < c < 256.

Lemma str_diff_eq s1 s2 : Forall nonzero s1 -> Forall nonzero s2 -> str_diff s1 s2 = 0 <-> s1 = s2.
Proof.
  intros H1. revert s2. induction H1 as [|c1 s1 Hc1 _ IH]; intros s2 H2; destruct H2 as [|c2 s2 Hc2 H2];
    unfold nonzero in *; simpl; try (split; [lia|done]); [done|].
  case_bool.
  - subst c2. rewrite IH by done. split; [by intros ->|by intros [= ->]].
  - split; [lia|by intros [= -> ->]].
Qed.

Lemma str_diff_lt s1 s2 : Forall nonzero s1 -> Forall nonzero s2 -> str_diff s1 s2 < 0 <-> str_lt s1 s2.
Proof.
  intros H1. revert s2. induction H1 as [|c1 s1 Hc1 _ IH]; intros s2 H2; destruct H2 as [|c2 s2 Hc2 H2];
    unfold nonzero in *; simpl; try lia.
  case_bool.
  - subst c2. rewrite IH by done. split; [by right|]. intros [?|[_ ?]]; [lia|done].
  - split; [left; lia|]. intros [?|[? _]]; lia.
Qed.

Lemma str_diff_anti s1 s2 : str_diff s2 s1 = - str_diff s1 s2.
Proof.
  revert s2. induction s1 as [|c1 s1 IH]; intros [|c2 s2]; simpl; try lia.
  rewrite (Z.eqb_sym c2 c1). case_bool; [apply IH|lia].
Qed.

(** * Facts *)

Section Facts.
Context `{PollFuel}.

Lemma cstr_head m a s : cstr m a s -> exists c, head (s ++ [0]) = Some c /\ m !! a = Some c /\ is_u32 a.
Proof.
  intros [Hr _]. destruct (s ++ [0]) as [|c l] eqn:E; [by destruct s|].
  destruct (Hr 0%nat c eq_refl) as [H1 H2]. rewrite Z.add_0_r in *. by exists c.
Qed.

Lemma cstr_nil m a : cstr m a [] -> m !! a = Some 0 /\ is_u32 a.
Proof. intros Hs. destruct (cstr_head _ _ _ Hs) as (c & Hc & Hm). by simplify_eq/=. Qed.

Lemma cstr_cons m a c s : cstr m a (c :: s) -> m !! a = Some c /\ is_u32 a /\ 0 < c < 256 /\ cstr m (a + 1) s.
Proof.
  intros Hs. destruct (cstr_head _ _ _ Hs) as (d & Hd & Hm & Hu). simplify_eq/=.
  destruct Hs as [Hr Hb]. apply Forall_cons in Hb as [Hc Hb]. split; [done|]. split; [done|]. split; [done|]. split; [|done].
  intros i e Hi. destruct (Hr (S i) e Hi) as [H1 H2]. by replace (a + 1 + Z.of_nat i) with (a + Z.of_nat (S i)) by lia.
Qed.

Lemma load8_cstr_nil k a : cstr (k_mem k) a [] -> load8 a k = Ok (0, k).
Proof. intros Hs. destruct (cstr_nil _ _ Hs). by apply load8_eq. Qed.
Lemma load8_cstr_cons k a c s : cstr (k_mem k) a (c :: s) -> load8 a k = Ok (c, k).
Proof. intros Hs. destruct (cstr_cons _ _ _ _ Hs) as (H1 & H2 & _). by apply load8_eq. Qed.

Lemma cstr_app m a s1 s2 : cstr m a (s1 ++ s2) -> cstr m (a + Z.of_nat (length s1)) s2.
Proof.
  intros [Hr Hb]. apply Forall_app in Hb as [_ Hb]. split; [|done]. intros i c Hi.
  destruct (Hr (length s1 + i)%nat c) as [H1 H2].
  - rewrite <- app_assoc, lookup_app_r by lia. by replace (length s1 + i - length s1)%nat with i by lia.
  - by replace (a + Z.of_nat (length s1) + Z.of_nat i) with (a + Z.of_nat (length s1 + i)) by lia.
Qed.

Lemma strlen_loop_eq k a s2 : forall s1 fuel,
  cstr (k_mem k) a (s1 ++ s2) -> a <> 0 -> (length s2 < fuel)%nat ->
  Z.of_nat (length (s1 ++ s2)) < 4294967296 ->
  strlen_loop fuel a (Z.of_nat (length s1)) k = Ok (Z.of_nat (length (s1 ++ s2)), k).
Proof.
  induction s2 as [|c s2 IH]; intros s1 fuel Hs Ha Hf Hl; (destruct fuel as [|fuel]; [simpl in Hf; lia|]);
    cbn [strlen_loop]; rewrite (proj2 (Z.eqb_neq a 0)) by done; pose proof (cstr_app _ _ _ _ Hs) as Ht.
  - rewrite (bind_ok _ _ _ _ _ (load8_cstr_nil _ _ Ht)). by rewrite app_nil_r.
  - rewrite (bind_ok _ _ _ _ _ (load8_cstr_cons _ _ _ _ Ht)). destruct (cstr_cons _ _ _ _ Ht) as (_ & _ & Hc & _).
    rewrite (proj2 (Z.eqb_neq c 0)) by lia. rewrite length_app in Hl. simpl in Hl, Hf.
    rewrite u32_small by word_solve.
    replace (Z.of_nat (length s1) + 1) with (Z.of_nat (length (s1 ++ [c]))) by (rewrite length_app; simpl; lia).
    replace (s1 ++ c :: s2) with ((s1 ++ [c]) ++ s2) in * by (by rewrite <- app_assoc).
    apply IH; [done|done|lia|rewrite !length_app; simpl; lia].
Qed.

Lemma strlen_eq k a s :
  cstr (k_mem k) a s -> a <> 0 -> (length s < poll_fuel)%nat -> Z.of_nat (length s) < 4294967296 ->
  strlen a k = Ok (Z.of_nat (length s), k).
Proof. intros Hs Ha Hf Hl. by apply (strlen_loop_eq k a s []). Qed.

Lemma strcmp_loop_eq k s1 : forall s2 a1 a2 fuel,
  cstr (k_mem k) a1 s1 -> cstr (k_mem k) a2 s2 -> (length s1 < fuel)%nat ->
  strcmp_loop fuel a1 a2 k = Ok (str_diff s1 s2, k).
Proof.
  induction s1 as [|c1 s1 IH]; intros s2 a1 a2 fuel H1 H2 Hf; (destruct fuel as [|fuel]; [simpl in Hf; lia|]); cbn [strcmp_loop].
  - rewrite (bind_ok _ _ _ _ _ (load8_cstr_nil _ _ H1)). cbn [Z.eqb]. unfold bind at 1, ret at 1.
    rewrite (bind_ok _ _ _ _ _ (load8_cstr_nil _ _ H1)).
    destruct s2 as [|c2 s2].
    + by rewrite (bind_ok _ _ _ _ _ (load8_cstr_nil _ _ H2)).
    + by rewrite (bind_ok _ _ _ _ _ (load8_cstr_cons _ _ _ _ H2)).
  - pose proof (load8_cstr_cons _ _ _ _ H1) as L1. destruct (cstr_cons _ _ _ _ H1) as (_ & _ & Hc & H1').
    rewrite (bind_ok _ _ _ _ _ L1), (proj2 (Z.eqb_neq c1 0)) by lia.
    destruct s2 as [|c2 s2].
    + pose proof (load8_cstr_nil _ _ H2) as L2. unfold bind at 1. rewrite (bind_ok _ _ _ _ _ L2). unfold ret at 1.
      rewrite (proj2 (Z.eqb_neq c1 0)) by lia. rewrite (bind_ok _ _ _ _ _ L1), (bind_ok _ _ _ _ _ L2).
      cbn [str_diff]. by rewrite Z.sub_0_r.
    + pose proof (load8_cstr_cons _ _ _ _ H2) as L2. destruct (cstr_cons _ _ _ _ H2) as (_ & _ & _ & H2').
      unfold bind at 1. rewrite (bind_ok _ _ _ _ _ L2). unfold ret at 1. cbn [str_diff].
      destruct (Z.eqb_spec c1 c2); [apply IH; [done|done|simpl in Hf; lia]|].
      by rewrite (bind_ok _ _ _ _ _ L1), (bind_ok _ _ _ _ _ L2).
Qed.

(** * Bounded copy *)

(** The first [i] bytes at [dest] are those of [s], padded with zeros, and only
    bytes of the destination changed. *)
Definition padded (k : kernel) (dest n : Z) (s : list Z) (i : Z) (k' : kernel) : Prop :=
  exists m, k' = set_mem m k /\ only_differ (k_mem k) m dest n /\ mapped m dest n /\
    forall t, 0 <= t < i -> m !! (dest + t) = Some (default 0 (s !! Z.to_nat t)).

Lemma padded_store k dest n s i k' v :
  padded k dest n s i k' -> 0 <= i < n -> 0 <= dest -> dest + n <= 4294967296 ->
  v = default 0 (s !! Z.to_nat i) -> is_u8 v ->
  wp (store8 (dest + i) v) (fun _ k'' => padded k dest n s (i + 1) k'') k'.
Proof.
  intros (m & -> & Hd & Hm & Ht) Hi Hlo Hhi Hv Hu. destruct (Hm i Hi) as (w & Hw & _).
  eapply wp_store8; [word_solve|done|]. rewrite u8_small by done. exists (<[dest + i := v]> m). split_and!.
  - done.
  - intros x Hx. rewrite lookup_insert_ne by lia. by apply Hd.
  - by apply mapped_insert.
  - intros t Hr. destruct (decide (t = i)) as [->|Hne].
    + rewrite lookup_insert_eq. by subst v.
    + rewrite lookup_insert_ne by lia. apply Ht. lia.
Qed.

Lemma strncpy_copy_wp k dest src n s :
  cstr (k_mem k) src s -> 0 <= dest -> dest + n <= 4294967296 ->
  dest + n <= src \/ src + Z.of_nat (length s) + 1 <= dest ->
  forall c i k', padded k dest n s i k' -> 0 <= i <= Z.of_nat (length s) -> i + Z.of_nat c = n ->
  wp (strncpy_copy c dest src i) (fun j k'' => padded k dest n s j k'' /\ i <= j <= n /\ (j < n -> Z.of_nat (length s) <= j)) k'.
Proof.
  intros Hs Hlo Hhi Hap. induction c as [|c IH]; intros i k' Hp Hi Hn; cbn [strncpy_copy].
  { apply wp_ret. split; [done|]. lia. }
  pose proof Hp as (m & -> & Hd & Hm & Ht). apply wp_bind.
  destruct ((s ++ [0]) !! Z.to_nat i) as [b|] eqn:Hb; [|apply lookup_ge_None in Hb; rewrite length_app in Hb; simpl in Hb; lia].
  destruct (cstr_reads _ _ _ Hs _ _ Hb) as [Hm1 Hm2]. rewrite Z2Nat.id in Hm1, Hm2 by lia.
  eapply wp_eq; [apply load8_eq; [exact Hm2|cbn [k_mem set_mem]; rewrite Hd by lia; exact Hm1]|].
  apply lookup_app_Some in Hb as [Hb|[Hge Hb]].
  - pose proof (cstr_bytes _ _ _ Hs) as Hall. rewrite Forall_lookup in Hall. pose proof (Hall _ _ Hb).
    apply lookup_lt_Some in Hb as Hlt. rewrite (proj2 (Z.eqb_neq b 0)) by lia. apply wp_bind.
    eapply wp_mono; [apply (padded_store k dest n s i); [done|lia|done|done|by rewrite Hb|word_solve]|].
    intros [] k2 Hp2. eapply wp_mono; [apply (IH (i + 1) k2 Hp2); lia|]. intros j k3 (Hp3 & Hj & Hj2). split; [done|lia].
  - destruct (Z.to_nat i - length s)%nat eqn:E; [|done]. apply (inj Some) in Hb. subst b. cbn [Z.eqb]. apply wp_ret.
    split; [done|lia].
Qed.

Lemma strncpy_wp k dest src n s :
  cstr (k_mem k) src s -> mapped (k_mem k) dest n -> 0 <= n -> 0 <= dest -> dest + n <= 4294967296 ->
  dest + n <= src \/ src + Z.of_nat (length s) + 1 <= dest ->
  wp (strncpy dest src n) (fun r k' => r = dest /\ padded k dest n s n k') k.
Proof.
  intros Hs Hm Hn Hlo Hhi Hap. unfold strncpy. apply wp_bind.
  eapply wp_mono; [apply (strncpy_copy_wp k dest src n s); try done; [|lia|lia]|].
  { exists (k_mem k). split_and!; [apply set_mem_id|done|done|lia]. }
  intros i k1 (Hp & Hi & Hend). apply wp_bind.
  eapply wp_mono; [apply (wp_for_up (fun j k' => padded k dest n s j k') i n); [lia|done|]|].
  - intros j k2 Hj Hp2. apply (padded_store k dest n s j); [done|lia|done|done| |word_solve].
    rewrite lookup_ge_None_2; [done|lia].
  - intros [] k2 Hp2. by apply wp_ret.
Qed.
End Facts.
