(* ===== verification/Stdio.v ===== *)
(** System call stubs and formatted output of the user C library:
    userland/libc/src/syscall.s and userland/libc/src/stdio.c.

    User code runs on the same state as the kernel: its memory is the part of
    the address space below 3GB, and [int 0x80] runs the dispatcher on the
    register frame that the CPU and Int128Handler push on the ring 0 stack. *)
From S2P Require Import Prelude State Machine Framebuffer Isr Keyboard Serial Pic Interrupt Syscall CString.

(** Where the user program keeps its string literals and the local variable of
    [putchar] whose address it takes. *)
Class UserLayout := {
  lit_addr : list Z -> Z;
  putchar_ch : Z
}.

(** * System calls from ring 3 *)

Section Trap.
Context `{Env} `{PollFuel} `{Layout}.

(** The frame Int128Handler builds, at the top of the ring 0 stack. *)
Definition trap_frame : Z := kernel_stack_addr + 4096 - sizeof_pt_regs.

(** [int 0x80] up to the dispatcher: the interrupt gate clears IF and the handler
    saves the registers that carry the call. *)
Definition push_frame (eax ebx ecx edx : Z) : K unit :=
  disable_interrupts ;;;
  store32 (trap_frame + pt_eax) eax ;;;
  store32 (trap_frame + pt_edx) edx ;;;
  store32 (trap_frame + pt_ecx) ecx ;;;
  store32 (trap_frame + pt_ebx) ebx.

(** Registers that a stub does not set, and the call does not read, are passed as
    0.  After the dispatcher, EAX is restored from the frame and [iret] sets IF. *)
Definition int80 (eax ebx ecx edx : Z) : K Z :=
  push_frame eax ebx ecx edx ;;;
  do_syscall_in_C trap_frame ;;;
  r <- load32 (trap_frame + pt_eax) ;;
  enable_interrupts ;;;
  ret r.

Definition user_write (fd buf count : Z) : K Z := r <- int80 SYS_WRITE fd buf count ;; ret (s32 r).
Definition user_read (fd buf count : Z) : K Z := r <- int80 SYS_READ fd buf count ;; ret (s32 r).
Definition user_exit (status : Z) : K Z := r <- int80 SYS_EXIT status 0 0 ;; ret (s32 r).
Definition user_clear : K Z := r <- int80 SYS_CLEAR 0 0 0 ;; ret (s32 r).
End Trap.

(** * stdio.c *)

Section Stdio.
Context `{Env} `{PollFuel} `{Layout} `{UserLayout}.

Definition putchar (c : Z) : K Z :=
  store8 putchar_ch (u8 c) ;;;
  user_write 1 putchar_ch 1.

Definition puts (s : Z) : K Z :=
  n <- strlen s ;;
  len <- user_write 1 s n ;;
  _ <- user_write 1 (lit_addr [10]) 1 ;;
  ret (len + 1).

Definition c_gets (buf max_size : Z) : K Z :=
  bytes <- user_read 0 buf max_size ;;
  if bytes <=? 0 then ret 0 else ret buf.

(** The digits of [n], least significant first, as the loop stores them in [buf]. *)
Fixpoint digits (fuel : nat) (n base : Z) : list Z :=
  match fuel with
  | O => []
  | S fuel' =>
      if 0 <? n then
        let rem := n mod base in
        (if rem <? 10 then 48 + rem else 97 + rem - 10) :: digits fuel' (n / base) base
      else []
  end.

Fixpoint putchars (l : list Z) : K unit :=
  match l with
  | [] => ret tt
  | c :: l' => putchar c ;;; putchars l'
  end.

(** [num] is an [int]; [-num] and the conversions to [unsigned int] wrap.  The
    array holds 32 digits, as many as the loop can produce in base 2. *)
Definition print_number (num base : Z) : K unit :=
  n <- (if (base =? 10) && (num <? 0) then putchar 45 ;;; ret (u32 (- num)) else ret (u32 num)) ;;
  if n =? 0 then putchar 48 ;;; ret tt
  else putchars (rev (digits 32 n base)).

(** The arguments of [printf], as 32-bit words taken in order; taking more than
    were passed is undefined. *)
Definition va_arg (args : list Z) : K Z := from_option (head args).

(** The [while] loop of [printf] at the pointer [format]. *)
Fixpoint printf_loop (fuel : nat) (format : Z) (args : list Z) : K unit :=
  match fuel with
  | O => hang
  | S fuel' =>
      c <- load8 format ;;
      if c =? 0 then ret tt
      else if c =? 37 then
        d <- load8 (format + 1) ;;
        args' <-
          (if d =? 99 then
             a <- va_arg args ;; putchar (u8 a) ;;; ret (tail args)
           else if d =? 115 then
             a <- va_arg args ;;
             let s := if a =? 0 then lit_addr (str "(null)") else a in
             n <- strlen s ;; user_write 1 s n ;;; ret (tail args)
           else if (d =? 100) || (d =? 105) then
             a <- va_arg args ;; print_number (s32 a) 10 ;;; ret (tail args)
           else if (d =? 120) || (d =? 112) then
             a <- va_arg args ;; print_number (s32 a) 16 ;;; ret (tail args)
           else if d =? 37 then putchar 37 ;;; ret args
           else putchar 37 ;;; putchar d ;;; ret args) ;;
        printf_loop fuel' (format + 2) args'
      else
        putchar c ;;;
        printf_loop fuel' (format + 1) args
  end.
Definition printf (format : Z) (args : list Z) : K Z :=
  printf_loop poll_fuel format args ;;; ret 0.
End Stdio.
