(* ===== verification/StdioFacts.v ===== *)
(** What the output routines of the user library show, down to the screen cells
    and the UART: each satisfies [prints k k' s] for the text [s] it writes. *)
From S2P Require Import Prelude State Machine Framebuffer FramebufferFacts Isr Keyboard Serial SerialFacts Pic Interrupt InterruptFacts Syscall SyscallFacts SyscallCalls CString Stdio.

(** * The user's view *)

(** Addresses that output may change: the window, the register frame and
    [putchar]'s variable. *)
Definition scratch `{Layout} `{UserLayout} (x : Z) : Prop :=
  fb <= x < fb + 4000 \/ trap_frame <= x < trap_frame + 68 \/ x = putchar_ch.

(** The ring 0 stack and [putchar]'s variable are where they can be. *)
Class UserPlaced `{Layout} `{UserLayout} : Prop := {
  frame_range : 0 < trap_frame /\ trap_frame + 68 <= 4294967296;
  frame_apart : trap_frame + 68 <= fb \/ fb + 4000 <= trap_frame;
  ch_range : 0 < putchar_ch < 4294967296;
  ch_apart : ~ fb <= putchar_ch < fb + 4000 /\ ~ trap_frame <= putchar_ch < trap_frame + 68
}.

(** The console works and the frame and the variable are mapped. *)
Record user_ok `{Layout} `{UserLayout} (k : kernel) : Prop := UserOk {
  u_fb : fb_ok k;
  u_dlab : dlab (uart_of (k_trace k)) = false;
  u_frame : mapped (k_mem k) trap_frame 68;
  u_ch : mapped (k_mem k) putchar_ch 1
}.

(** [shows k k' t s]: from [k] to [k'], the screen became [t] and [s] was sent over
    COM1, and the program's memory and the input are as they were. *)
Record shows `{Layout} `{UserLayout} (k k' : kernel) (t : term) (s : list Z) : Prop := Shows {
  p_ok : user_ok k';
  p_term : term_of k' = t;
  p_tx : uart_tx (uart_of (k_trace k')) = rev s ++ uart_tx (uart_of (k_trace k));
  p_mem : forall x, ~ scratch x -> k_mem k' !! x = k_mem k !! x;
  p_kbd : k_kbd k' = k_kbd k;
  p_isr : k_isr k' = k_isr k;
  p_trace : exists evs, k_trace k' = evs ++ k_trace k /\ Forall console_event evs
}.

(** The text [s] was written to the screen and the serial line. *)
Abbreviation prints k k' s := (shows k k' (term_write (term_of k) s) s).

Section Prints.
Context `{Layout} `{UserLayout}.

Lemma prints_refl k : user_ok k -> prints k k [].
Proof. intros Hk. constructor; try done. by exists []. Qed.

Lemma prints_trans k1 k2 k3 s1 s2 : prints k1 k2 s1 -> prints k2 k3 s2 -> prints k1 k3 (s1 ++ s2).
Proof.
  intros P1 P2. destruct (p_trace _ _ _ _ P1) as (e1 & Ht1 & He1), (p_trace _ _ _ _ P2) as (e2 & Ht2 & He2).
  constructor.
  - apply P2.
  - by rewrite (p_term _ _ _ _ P2), (p_term _ _ _ _ P1), term_write_app.
  - by rewrite (p_tx _ _ _ _ P2), (p_tx _ _ _ _ P1), rev_app_distr, app_assoc.
  - intros x Hx. by rewrite (p_mem _ _ _ _ P2), (p_mem _ _ _ _ P1).
  - by rewrite (p_kbd _ _ _ _ P2), (p_kbd _ _ _ _ P1).
  - by rewrite (p_isr _ _ _ _ P2), (p_isr _ _ _ _ P1).
  - exists (e2 ++ e1). rewrite Ht2, Ht1, app_assoc. split; [done|by apply Forall_app_2].
Qed.

(** A string outside the scratch addresses. *)
Definition kept (a : Z) (n : nat) : Prop := forall i, 0 <= i < Z.of_nat n -> ~ scratch (a + i).

(** It is apart from each range that output changes. *)
Lemma kept_apart a n lo len :
  kept a n -> (0 < n)%nat -> 0 < len -> (forall x, lo <= x < lo + len -> scratch x) -> lo + len <= a \/ a + Z.of_nat n <= lo.
Proof.
  intros Hk Hn Hlen Hlo. destruct (Z.le_gt_cases (a + Z.of_nat n) lo) as [|Hc1]; [by right|]. left.
  destruct (Z.le_gt_cases (lo + len) a) as [|Hc2]; [assumption|]. exfalso.
  apply (Hk (Z.max lo a - a)); [lia|]. replace (a + (Z.max lo a - a)) with (Z.max lo a) by lia. apply Hlo. lia.
Qed.

Lemma kept_placed a n : kept a n -> (0 < n)%nat ->
  (fb + 4000 <= a \/ a + Z.of_nat n <= fb) /\ (trap_frame + 68 <= a \/ a + Z.of_nat n <= trap_frame) /\ ~ a <= putchar_ch < a + Z.of_nat n.
Proof.
  intros Hk Hn. split_and!.
  - apply kept_apart; [assumption..|lia|]. intros x Hx. by left.
  - apply kept_apart; [assumption..|lia|]. intros x Hx. right. by left.
  - intros Hc. apply (Hk (putchar_ch - a)); [lia|]. do 2 right. lia.
Qed.

Lemma shows_reads k k' t s a l :
  shows k k' t s -> kept a (length l) -> buf_reads (k_mem k) (Ptr a) l -> buf_reads (k_mem k') (Ptr a) l.
Proof.
  intros P Hk Hr i c Hi. destruct (Hr i c Hi) as [H1 H2]. split; [|done].
  pose proof (lookup_lt_Some _ _ _ Hi). rewrite (p_mem _ _ _ _ P); [done|]. apply Hk. lia.
Qed.

Lemma shows_cstr k k' t s a l :
  shows k k' t s -> kept a (S (length l)) -> cstr (k_mem k) a l -> cstr (k_mem k') a l.
Proof.
  intros P Hk [Hr Hb]. split; [|done]. eapply shows_reads; [done| |done]. rewrite length_app. simpl.
  by replace (length l + 1)%nat with (S (length l)) by lia.
Qed.
End Prints.

(** The frame after its four argument words were pushed. *)
Lemma push_frame_at `{Layout} k eax ebx ecx edx :
  mapped (k_mem k) trap_frame 68 -> 0 < trap_frame -> trap_frame + 68 <= 4294967296 ->
  trap_frame + 68 <= fb \/ fb + 4000 <= trap_frame ->
  is_u32 eax -> is_u32 ebx -> is_u32 ecx -> is_u32 edx ->
  wp (push_frame eax ebx ecx edx)
    (fun _ k' => exists m, k' = set_mem m (set_cpu (set_cpu_if false (k_cpu k)) k) /\
       regs_hold m trap_frame eax ebx ecx edx /\ regs_ok m trap_frame /\
       only_differ (k_mem k) m trap_frame 68 /\
       (forall a n, mapped (k_mem k) a n -> mapped m a n)) k.
Proof.
  intros Hfr Hf1 Hf2 Hap Ha Hb Hc Hd.
  assert (forall m off, mapped m trap_frame 68 -> 0 <= off <= 64 -> mapped m (trap_frame + off) 4) as Hsub
    by (intros m off Hm Hoff; apply (mapped_sub _ trap_frame 68); [done|lia|lia]).
  unfold push_frame, disable_interrupts. apply wp_bind, wp_modify. unfold pt_eax, pt_ebx, pt_ecx, pt_edx.
  set (k1 := set_cpu _ k).
  assert (forall m off v, mapped m trap_frame 68 -> 0 <= off <= 64 ->
    store32 (trap_frame + off) v (set_mem m k1) = Ok (tt, set_mem (put32 m (trap_frame + off) v) k1)) as Hst.
  { intros m off v Hm Hoff. rewrite store32_eq by (by apply Hsub || lia). done. }
  rewrite (set_mem_id k1) at 1.
  apply wp_bind. eapply wp_eq; [by apply Hst|]. apply wp_bind. eapply wp_eq; [apply Hst; [by apply put32_mapped|lia]|].
  apply wp_bind. eapply wp_eq; [apply Hst; [by do 2 apply put32_mapped|lia]|].
  eapply wp_eq; [apply Hst; [by do 3 apply put32_mapped|lia]|].
  eexists. split_and!; [done| |..].
  - unfold regs_hold, pt_eax, pt_ebx, pt_ecx, pt_edx. split_and!.
    + rewrite !(word_at_put32_ne _ _ (trap_frame + 44)) by lia. by apply word_at_put32.
    + by apply word_at_put32.
    + rewrite !(word_at_put32_ne _ _ (trap_frame + 4)) by lia. by apply word_at_put32.
    + rewrite !(word_at_put32_ne _ _ (trap_frame + 8)) by lia. by apply word_at_put32.
  - constructor; [by do 4 apply put32_mapped|lia|lia|exact Hap].
  - intros x Hx. by rewrite !put32_lookup_ne by lia.
  - intros a n Hm. by do 4 apply put32_mapped.
Qed.

Section Facts.
Context `{Env} `{PollFuel} `{Layout} `{UserLayout} `{!UserPlaced} `{!UartReady}.

Lemma push_frame_wp k eax ebx ecx edx :
  user_ok k -> is_u32 eax -> is_u32 ebx -> is_u32 ecx -> is_u32 edx ->
  wp (push_frame eax ebx ecx edx)
    (fun _ k' => exists m, k' = set_mem m (set_cpu (set_cpu_if false (k_cpu k)) k) /\
       regs_hold m trap_frame eax ebx ecx edx /\ regs_ok m trap_frame /\
       only_differ (k_mem k) m trap_frame 68 /\
       (forall a n, mapped (k_mem k) a n -> mapped m a n)) k.
Proof. intros [_ _ Hfr _] Ha Hb Hc Hd. destruct frame_range. by apply push_frame_at; [..|apply frame_apart| | | |]. Qed.

(** Pushing the frame does not touch the screen. *)
Lemma frame_term k m : only_differ (k_mem k) m trap_frame 68 ->
  term_of (set_mem m (set_cpu (set_cpu_if false (k_cpu k)) k)) = term_of k.
Proof.
  intros Hd. apply term_same; [done|]. intros x Hx. apply Hd. destruct frame_apart; lia.
Qed.

(** Returning to ring 3 after a call that only did output. *)
Lemma pop_frame_wp k m k2 t s :
  user_ok k -> only_differ (k_mem k) m trap_frame 68 -> (forall a n, mapped (k_mem k) a n -> mapped m a n) ->
  outputs trap_frame (set_mem m (set_cpu (set_cpu_if false (k_cpu k)) k)) k2 t s ->
  wp (r <- load32 (trap_frame + pt_eax) ;; enable_interrupts ;;; ret r)
    (fun r k' => r = word_at (k_mem k2) (trap_frame + pt_eax) /\ shows k k' t s) k2.
Proof.
  intros [Hkfb Hdl Hfr Hch] Hd Hmap O. unfold enable_interrupts.
  assert (mapped (k_mem k2) trap_frame 68) as Hfr2 by (apply (o_mapped _ _ _ _ _ O); by apply Hmap).
  apply wp_bind. eapply wp_eq.
  { apply load32_eq; [apply (mapped_sub _ trap_frame 68); [done|unfold pt_eax; lia..]|destruct frame_range; unfold pt_eax; lia..]. }
  apply wp_bind, wp_modify, wp_ret. split; [done|]. destruct O. constructor.
  - constructor; [by destruct o_fb; constructor|done|done|]. apply o_mapped. by apply Hmap.
  - exact o_term.
  - done.
  - intros x Hx. change (k_mem k2 !! x = k_mem k !! x). unfold scratch in Hx.
    rewrite o_mem by (unfold pt_eax; lia). apply Hd. lia.
  - change (k_kbd k2 = k_kbd k). by rewrite o_frame.
  - change (k_isr k2 = k_isr k). by rewrite o_frame.
  - done.
Qed.

(** Output through [int 0x80]. *)
Lemma user_write_wp k fd buf s :
  fd = 1 \/ fd = 2 -> user_ok k -> is_u32 buf -> 0 < buf -> buf_reads (k_mem k) (Ptr buf) s -> Forall is_u8 s ->
  (forall i, 0 <= i < Z.of_nat (length s) -> ~ trap_frame <= buf + i < trap_frame + 68) ->
  buf_apart (Ptr buf) (length s) -> Z.of_nat (length s) < 2147483648 ->
  wp (user_write fd buf (Z.of_nat (length s))) (fun r k' => r = Z.of_nat (length s) /\ prints k k' s) k.
Proof.
  intros Hfd Hk Hu Hpos Hr Hb Hap Hfb Hlen. pose proof Hk as [Hkfb Hdl Hfr Hch].
  unfold user_write, int80. apply wp_bind, wp_bind.
  eapply wp_mono; [apply (push_frame_wp k SYS_WRITE fd buf (Z.of_nat (length s)) Hk); [done|destruct Hfd; subst fd; done|done|word_solve]|].
  intros [] k1 (m & -> & Hh & Hrok & Hd & Hmap). set (k1 := set_mem m _).
  assert (term_of k1 = term_of k) as Hterm by (by apply frame_term).
  assert (fb_ok k1) as Hfb1 by (destruct Hkfb; constructor; [by apply Hmap|done|done]).
  apply wp_bind. eapply wp_mono.
  { apply (do_write_wp k1 trap_frame fd buf s); try done. split; [|done]. intros i c Hi.
    destruct (Hr i c Hi) as [Hm1 Hm2]. split; [|done]. pose proof (lookup_lt_Some _ _ _ Hi).
    cbn [k1 k_mem set_mem]. rewrite Hd; [done|]. apply Hap. lia. }
  intros [] k2 (O & Heax). rewrite Hterm in O. eapply wp_mono; [by apply (pop_frame_wp k m k2)|].
  intros r k3 [-> P]. apply wp_ret. by rewrite Heax, s32_small by lia.
Qed.

Lemma putchar_wp k c :
  user_ok k -> wp (putchar c) (fun _ k' => prints k k' [u8 c]) k.
Proof.
  intros Hk. pose proof Hk as [Hfb Hdl Hfr Hch]. destruct ch_range as [Hc1 Hc2], ch_apart as [Ha1 Ha2].
  unfold putchar. apply wp_bind. destruct (Hch 0) as (w & Hw & _); [lia|]. rewrite Z.add_0_r in Hw.
  eapply wp_store8; [word_solve|done|]. rewrite u8_u8. set (k1 := set_mem _ k).
  assert (term_of k1 = term_of k) as Hterm
    by (apply term_same; [done|intros x Hx; apply lookup_insert_ne; lia]).
  assert (user_ok k1) as Hk1.
  { constructor; [|done|by apply mapped_insert, u8_range|by apply mapped_insert, u8_range].
    destruct Hfb. constructor; [by apply mapped_insert, u8_range|done|done]. }
  eapply wp_mono; [apply (user_write_wp k1 1 putchar_ch [u8 c]); try done|].
  - by left.
  - word_solve.
  - intros [|i] d Hi; [|done]. apply (inj Some) in Hi. subst d. rewrite Z.add_0_r. split; [apply lookup_insert_eq|word_solve].
  - apply Forall_singleton, u8_range.
  - intros i Hi. simpl in Hi. by replace (putchar_ch + i) with putchar_ch by lia.
  - simpl. lia.
  - intros r k' [_ P]. constructor.
    + apply P.
    + rewrite (p_term _ _ _ _ P), Hterm. reflexivity.
    + exact (p_tx _ _ _ _ P).
    + intros x Hx. rewrite (p_mem _ _ _ _ P) by done. cbn [k1 k_mem set_mem]. apply lookup_insert_ne.
      intros Heq. apply Hx. right. right. by symmetry.
    + exact (p_kbd _ _ _ _ P).
    + exact (p_isr _ _ _ _ P).
    + exact (p_trace _ _ _ _ P).
Qed.

Lemma putchars_wp l k :
  user_ok k -> wp (putchars l) (fun _ k' => prints k k' (u8 <$> l)) k.
Proof.
  revert k. induction l as [|c l IH]; intros k Hk; cbn [putchars].
  - by apply wp_ret, prints_refl.
  - apply wp_bind. eapply wp_mono; [by apply putchar_wp|]. intros r k1 P1.
    eapply wp_mono; [apply IH, P1|]. intros [] k2 P2. by apply (prints_trans k k1 k2 [u8 c]).
Qed.

(** Clearing the screen through [int 0x80]. *)
Lemma user_clear_wp k :
  user_ok k -> wp user_clear (fun r k' => r = 0 /\ shows k k' (term_clear (term_of k)) ansi_clear) k.
Proof.
  intros Hk. pose proof Hk as [Hkfb Hdl Hfr Hch]. unfold user_clear, int80. apply wp_bind, wp_bind.
  eapply wp_mono; [by apply (push_frame_wp k SYS_CLEAR 0 0 0 Hk)|].
  intros [] k1 (m & -> & Hh & Hrok & Hd & Hmap). set (k1 := set_mem m _).
  assert (term_of k1 = term_of k) as Hterm by (apply frame_term; done).
  apply wp_bind. eapply wp_mono; [apply (do_clear_wp k1 trap_frame 0 0 0); try done; by apply Hmap, Hkfb|].
  intros [] k2 (O & Heax). rewrite Hterm in O. eapply wp_mono; [by apply (pop_frame_wp k m k2)|].
  intros r k3 [-> P]. apply wp_ret. by rewrite Heax.
Qed.

(** A C string outside the scratch addresses is written whole. *)
Lemma write_cstr_wp k a s :
  user_ok k -> 0 < a -> cstr (k_mem k) a s -> kept a (S (length s)) ->
  (length s < poll_fuel)%nat -> Z.of_nat (length s) < 2147483648 ->
  wp (n <- strlen a ;; user_write 1 a n) (fun r k' => r = Z.of_nat (length s) /\ prints k k' s) k.
Proof.
  intros Hk Ha Hs Hkept Hfuel Hlen. apply wp_bind. eapply wp_eq; [apply strlen_eq; try done; lia|].
  destruct (cstr_head _ _ _ Hs) as (_ & _ & _ & Hu).
  apply user_write_wp; try done; [by left|..].
  - intros i c Hi. apply (cstr_reads _ _ _ Hs). by apply lookup_app_l_Some.
  - eapply Forall_impl; [apply (cstr_bytes _ _ _ Hs)|]. intros c Hc. word_solve.
  - intros i Hi Hf. apply (Hkept i); [lia|]. unfold scratch. lia.
  - destruct (kept_placed _ _ Hkept) as [Hfb _]; [lia|]. simpl. lia.
Qed.
End Facts.
