(* ===== verification/Printf.v ===== *)
(** Formatted output: the text that [printf] and [print_number] of
    userland/libc/src/stdio.c stand for, and that they print it. *)
From S2P Require Import Prelude State Machine Framebuffer FramebufferFacts Isr Keyboard Serial SerialFacts Pic Interrupt InterruptFacts Syscall SyscallFacts SyscallCalls CString Stdio StdioFacts Numerals.

(** * Numbers *)

(** What the loops of [print_number] write. *)
Definition unsigned_text (n base : Z) : list Z := if n =? 0 then [48] else rev (digits 32 n base).
Definition number_text (num base : Z) : list Z :=
  if (base =? 10) && (num <? 0) then 45 :: unsigned_text (u32 (- num)) base else unsigned_text (u32 num) base.

Lemma digits_range fuel n base :
  2 <= base <= 16 -> 0 <= n -> Forall (fun c => 0 <= digit_value c < base /\ 48 <= c < 103) (digits fuel n base).
Proof.
  intros Hb. revert n. induction fuel as [|fuel IH]; intros n Hn; cbn [digits]; [constructor|].
  case_bool; [|constructor]. assert (0 <= n mod base < base) by (apply Z.mod_pos_bound; lia).
  fold (digit_char (n mod base)). constructor; [|apply IH, Z.div_pos; lia].
  rewrite digit_value_char by lia. split; [done|]. unfold digit_char. case_bool; lia.
Qed.

Lemma digits_value fuel n base :
  2 <= base <= 16 -> 0 <= n < base ^ Z.of_nat fuel -> numeral_value base (rev (digits fuel n base)) = n.
Proof.
  intros Hb. revert n. induction fuel as [|fuel IH]; intros n Hn; cbn [digits].
  { change (base ^ Z.of_nat 0) with 1 in Hn. unfold numeral_value. simpl. lia. }
  case_bool; [|unfold numeral_value; simpl; lia].
  assert (0 <= n mod base < base) by (apply Z.mod_pos_bound; lia).
  fold (digit_char (n mod base)). cbn [rev]. unfold numeral_value. rewrite fold_left_app. cbn [fold_left].
  fold (numeral_value base (rev (digits fuel (n / base) base))). rewrite IH.
  - rewrite digit_value_char by lia. pose proof (Z.div_mod n base ltac:(lia)). lia.
  - split; [apply Z.div_pos; lia|]. apply Z.div_lt_upper_bound; [lia|].
    rewrite Nat2Z.inj_succ, Z.pow_succ_r in Hn by lia. lia.
Qed.

Lemma digits_nonzero fuel n base : 0 < n -> (0 < fuel)%nat -> digits fuel n base <> [].
Proof. intros Hn Hf. destruct fuel; [lia|]. cbn [digits]. by rewrite (proj2 (Z.ltb_lt _ _)). Qed.

Lemma unsigned_text_value n base :
  2 <= base <= 16 -> is_u32 n -> numeral_value base (unsigned_text n base) = n.
Proof.
  intros Hb Hn. unfold unsigned_text. case_bool; [by subst|]. apply digits_value; [done|].
  split; [word_solve|]. apply Z.lt_le_trans with (2 ^ 32); [word_solve|]. apply Z.pow_le_mono_l. lia.
Qed.

Lemma unsigned_text_range n base :
  2 <= base <= 16 -> is_u32 n -> Forall (fun c => 48 <= c < 103) (unsigned_text n base).
Proof.
  intros Hb Hn. unfold unsigned_text. case_bool; [constructor; [lia|constructor]|].
  apply Forall_rev. eapply Forall_impl; [apply digits_range; [done|word_solve]|]. by intros c [_ Hc].
Qed.

Lemma unsigned_text_nonempty n base : is_u32 n -> unsigned_text n base <> [].
Proof.
  intros Hn. unfold unsigned_text. case_bool; [done|]. intros E. apply (f_equal (@rev Z)) in E.
  rewrite rev_involutive in E. by apply (digits_nonzero 32 n base) in E; [|word_solve|lia].
Qed.

Lemma unsigned_text_digits n base :
  2 <= base <= 16 -> is_u32 n -> Forall (fun c => 0 <= digit_value c < base) (unsigned_text n base).
Proof.
  intros Hb Hn. unfold unsigned_text. case_bool; [constructor; [cbn; lia|constructor]|].
  apply Forall_rev. eapply Forall_impl; [apply digits_range; [done|word_solve]|]. by intros c [Hc _].
Qed.

(** ** The loop against the numerals *)

Lemma digits_numeral base fuel : 2 <= base <= 16 -> forall n, 0 < n < base ^ Z.of_nat fuel ->
  exists d ds, rev (digits fuel n base) = digit_char <$> d :: ds /\ 0 < d < base /\ Forall (fun d => 0 <= d < base) ds /\
    fold_left (fun v d => v * base + d) ds d = n.
Proof.
  intros Hb. induction fuel as [|fuel IH]; intros n Hn; [change (base ^ Z.of_nat 0) with 1 in Hn; lia|].
  cbn [digits]. rewrite (proj2 (Z.ltb_lt 0 n)) by lia. fold (digit_char (n mod base)). cbn [rev].
  pose proof (Z.mod_pos_bound n base ltac:(lia)) as Hm. pose proof (Z.div_mod n base ltac:(lia)) as Hdm.
  rewrite Nat2Z.inj_succ, Z.pow_succ_r in Hn by lia. destruct (Z.eq_dec (n / base) 0) as [E|E].
  - exists n, []. rewrite E in *. split_and!; [|lia|lia|done|done].
    destruct fuel; cbn [digits]; rewrite ?Z.ltb_irrefl; cbn [rev app fmap list_fmap]; do 2 f_equal; lia.
  - destruct (IH (n / base)) as (d & ds & -> & Hd & Hds & Hv).
    { split; [pose proof (Z.div_pos n base); lia|]. apply Z.div_lt_upper_bound; lia. }
    exists d, (ds ++ [n mod base]). split_and!; [by rewrite app_comm_cons, fmap_app|lia|lia|by apply Forall_app_2, Forall_singleton|].
    rewrite fold_left_app. cbn [fold_left]. rewrite Hv. lia.
Qed.

Lemma unsigned_text_decimal n : is_u32 n -> unsigned_text n 10 = decimal_text n.
Proof.
  intros Hn. unfold unsigned_text. case_bool; [by subst|]. destruct (digits_numeral 10 32 ltac:(lia) n) as (d & ds & -> & Hd & Hds & Hv).
  - split; [word_solve|]. apply Z.lt_le_trans with (2 ^ 32); [word_solve|]. by apply Z.leb_le.
  - symmetry. by apply decimal_unique.
Qed.

Lemma unsigned_text_hex n : is_u32 n -> unsigned_text n 16 = hexadecimal_text n.
Proof.
  intros Hn. unfold unsigned_text. case_bool; [by subst|]. destruct (digits_numeral 16 32 ltac:(lia) n) as (d & ds & -> & Hd & Hds & Hv).
  - split; [word_solve|]. apply Z.lt_le_trans with (2 ^ 32); [word_solve|]. by apply Z.leb_le.
  - symmetry. by apply hex_unique.
Qed.

Lemma s32_range z : -2147483648 <= s32 z < 2147483648.
Proof. unfold s32. case_bool; word_solve. Qed.

Lemma number_text_decimal num : -2147483648 <= num < 2147483648 -> number_text num 10 = signed_text num.
Proof.
  intros Hn. unfold number_text, signed_text. cbn [Z.eqb Pos.eqb andb]. case_bool.
  - rewrite unsigned_text_decimal by apply u32_range. by rewrite u32_small by word_solve.
  - rewrite unsigned_text_decimal by apply u32_range. by rewrite u32_small by word_solve.
Qed.

Lemma number_text_hex z : number_text (s32 z) 16 = hexadecimal_text (u32 z).
Proof.
  unfold number_text. cbn [Z.eqb Pos.eqb andb]. rewrite unsigned_text_hex by apply u32_range. f_equal. unfold s32. case_bool; word_solve.
Qed.

Lemma u8_text s : Forall (fun c => 48 <= c < 103) s -> u8 <$> s = s.
Proof. induction 1 as [|c s Hc _ IH]; [done|]. cbn [fmap list_fmap]. rewrite u8_small by word_solve. by f_equal. Qed.

(** * Formats *)

Inductive arg := A_int (z : Z) | A_str (s : list Z) | A_null.

Definition string_text (a : arg) : option (list Z) :=
  match a with A_str s => Some s | A_null => Some (str "(null)") | A_int _ => None end.
Definition int_text (f : Z -> list Z) (a : arg) : option (list Z) :=
  match a with A_int z => Some (f z) | _ => None end.

(** The text one conversion stands for; [None] when the argument is missing or
    not of the kind the conversion takes. *)
Definition conversion (d : Z) (args : list arg) : option (list Z * list arg) :=
  if (d =? 99) || (d =? 115) || (d =? 100) || (d =? 105) || (d =? 120) || (d =? 112) then
    match args with
    | [] => None
    | a :: args' =>
        t ← (if d =? 99 then int_text (fun z => [u8 z]) a
             else if d =? 115 then string_text a
             else if (d =? 100) || (d =? 105) then int_text (fun z => signed_text (s32 z)) a
             else int_text (fun z => hexadecimal_text (u32 z)) a);
        Some (t, args')
    end
  else if d =? 37 then Some ([37], args)
  else Some ([37; d], args).

(** A format that ends in a lone percent sign has no meaning. *)
Fixpoint format_text (fmt : list Z) (args : list arg) : option (list Z) :=
  match fmt with
  | [] => Some []
  | c :: fmt' =>
      if c =? 37 then
        match fmt' with
        | [] => None
        | d :: fmt'' =>
            '(t, args') ← conversion d args;
            rest ← format_text fmt'' args'; Some (t ++ rest)
        end
      else rest ← format_text fmt' args; Some (c :: rest)
  end.

Section Printf.
Context `{Env} `{PollFuel} `{Layout} `{UserLayout} `{!UserPlaced} `{!UartReady}.

(** A string that output can be given: in memory, apart from the scratch
    addresses, within the loop budget. *)
Record text_at (m : gmap Z Z) (a : Z) (s : list Z) : Prop := TextAt {
  ta_pos : 0 < a;
  ta_str : cstr m a s;
  ta_kept : kept a (S (length s));
  ta_fuel : (length s < poll_fuel)%nat;
  ta_len : Z.of_nat (length s) < 2147483648
}.

Definition arg_at (m : gmap Z Z) (w : Z) (a : arg) : Prop :=
  match a with A_int z => w = u32 z | A_str s => text_at m w s | A_null => w = 0 end.

Lemma text_at_shows k k' t s a l : shows k k' t s -> text_at (k_mem k) a l -> text_at (k_mem k') a l.
Proof. intros P [Hpos Hstr Hkept Hfuel Hlen]. constructor; try done. by eapply shows_cstr. Qed.

Lemma args_prints k k' s ws args :
  prints k k' s -> Forall2 (arg_at (k_mem k)) ws args -> Forall2 (arg_at (k_mem k')) ws args.
Proof. intros P Ha. eapply Forall2_impl; [done|]. intros w [z|l|]; [done| |done]. by apply text_at_shows with (term_write (term_of k) s) s. Qed.

Lemma print_number_wp k num base :
  user_ok k -> 2 <= base <= 16 -> wp (print_number num base) (fun _ k' => prints k k' (number_text num base)) k.
Proof.
  intros Hk Hb. unfold print_number, number_text.
  assert (forall n k1 s, is_u32 n -> prints k k1 s ->
    wp (if n =? 0 then putchar 48 ;;; ret tt else putchars (rev (digits 32 n base)))
      (fun _ k' => prints k k' (s ++ unsigned_text n base)) k1) as Hdig.
  { intros n k1 s Hn P. pose proof (unsigned_text_range n base Hb Hn) as Hr. unfold unsigned_text in *. case_bool.
    - apply wp_bind. eapply wp_mono; [apply putchar_wp, P|]. intros r k2 P2. apply wp_ret. by apply (prints_trans k k1).
    - eapply wp_mono; [apply putchars_wp, P|]. intros [] k2 P2. rewrite u8_text in P2 by done. by apply (prints_trans k k1). }
  destruct ((base =? 10) && (num <? 0)).
  - apply wp_bind, wp_bind. eapply wp_mono; [by apply putchar_wp|]. intros r k1 P. apply wp_ret.
    apply (Hdig _ k1 [45]); [apply u32_range|done].
  - apply wp_bind, wp_ret. apply (Hdig _ k []); [apply u32_range|by apply prints_refl].
Qed.

(** The literal that replaces a null string argument. *)
Definition null_ok (m : gmap Z Z) : Prop := text_at m (lit_addr (str "(null)")) (str "(null)").

(** The body of [printf] for one conversion character. *)
Definition convert (d : Z) (args : list Z) : K (list Z) :=
  if d =? 99 then
    a <- va_arg args ;; putchar (u8 a) ;;; ret (tail args)
  else if d =? 115 then
    a <- va_arg args ;;
    let s := if a =? 0 then lit_addr (str "(null)") else a in
    n <- strlen s ;; user_write 1 s n ;;; ret (tail args)
  else if (d =? 100) || (d =? 105) then
    a <- va_arg args ;; print_number (s32 a) 10 ;;; ret (tail args)
  else if (d =? 120) || (d =? 112) then
    a <- va_arg args ;; print_number (s32 a) 16 ;;; ret (tail args)
  else if d =? 37 then putchar 37 ;;; ret args
  else putchar 37 ;;; putchar d ;;; ret args.

Lemma write_text_wp {A} k a s (r : A) :
  user_ok k -> text_at (k_mem k) a s ->
  wp (n <- strlen a ;; user_write 1 a n ;;; ret r) (fun r' k' => r' = r /\ prints k k' s) k.
Proof.
  intros Hk [Hpos Hstr Hkept Hfuel Hlen].
  eapply wp_run_eq; [apply bind_assoc|]. apply wp_bind.
  eapply wp_mono; [by apply (write_cstr_wp k a s)|]. intros x k' [_ P]. by apply wp_ret.
Qed.

Lemma s32_u32 z : s32 (u32 z) = s32 z.
Proof. unfold s32. by rewrite (u32_small (u32 z)) by apply u32_range. Qed.

(** A number argument, in decimal and in hexadecimal. *)
Lemma print_decimal_wp k z :
  user_ok k -> wp (print_number (s32 (u32 z)) 10) (fun _ k' => prints k k' (signed_text (s32 z))) k.
Proof.
  intros Hk. rewrite s32_u32. eapply wp_mono; [apply (print_number_wp k _ 10 Hk); lia|]. intros [] k' P.
  by rewrite number_text_decimal in P by apply s32_range.
Qed.
Lemma print_hex_wp k z :
  user_ok k -> wp (print_number (s32 (u32 z)) 16) (fun _ k' => prints k k' (hexadecimal_text (u32 z))) k.
Proof.
  intros Hk. rewrite s32_u32. eapply wp_mono; [apply (print_number_wp k _ 16 Hk); lia|]. intros [] k' P.
  by rewrite number_text_hex in P.
Qed.

Lemma convert_wp k d ws args t args' :
  user_ok k -> null_ok (k_mem k) -> is_u8 d -> Forall2 (arg_at (k_mem k)) ws args ->
  conversion d args = Some (t, args') ->
  wp (convert d ws) (fun ws' k' => prints k k' t /\ Forall2 (arg_at (k_mem k')) ws' args') k.
Proof.
  intros Hk Hnull Hd Hargs Hconv. unfold convert, conversion in *.
  assert (forall k' ws', prints k k' t -> Forall2 (arg_at (k_mem k)) ws' args' ->
    prints k k' t /\ Forall2 (arg_at (k_mem k')) ws' args') as Hfin by (intros; split; [done|by eapply args_prints]).
  destruct (Z.eqb_spec d 99), (Z.eqb_spec d 115), (Z.eqb_spec d 100), (Z.eqb_spec d 105), (Z.eqb_spec d 120),
    (Z.eqb_spec d 112); try (exfalso; lia); cbn [orb] in *;
    try (destruct Hargs as [|w a ws0 args0 Ha Hargs]; [done|]; destruct a as [z|s|]; cbn in Ha, Hconv; simplify_eq;
         unfold va_arg; cbn [head from_option]; apply wp_bind, wp_ret; cbn [tail]).
  - apply wp_bind. eapply wp_mono; [by apply putchar_wp|]. intros r k' P. apply wp_ret, Hfin; [|done].
    rewrite u8_u8 in P. replace (u8 (u32 z)) with (u8 z) in P by word_solve. done.
  - rewrite (proj2 (Z.eqb_neq w 0)) by (pose proof (ta_pos _ _ _ Ha); lia).
    eapply wp_mono; [by apply write_text_wp|]. intros r k' [-> P]. by apply Hfin.
  - cbn [Z.eqb]. eapply wp_mono; [by apply (write_text_wp k _ (str "(null)"))|]. intros r k' [-> P]. by apply Hfin.
  - apply wp_bind. eapply wp_mono; [by apply print_decimal_wp|]. intros [] k' P. by apply wp_ret, Hfin.
  - apply wp_bind. eapply wp_mono; [by apply print_decimal_wp|]. intros [] k' P. by apply wp_ret, Hfin.
  - apply wp_bind. eapply wp_mono; [by apply print_hex_wp|]. intros [] k' P. by apply wp_ret, Hfin.
  - apply wp_bind. eapply wp_mono; [by apply print_hex_wp|]. intros [] k' P. by apply wp_ret, Hfin.
  - destruct (d =? 37); simplify_eq.
    + apply wp_bind. eapply wp_mono; [by apply putchar_wp|]. intros r k' P. by apply wp_ret, Hfin.
    + apply wp_bind. eapply wp_mono; [by apply putchar_wp|]. intros r k1 P1. apply wp_bind.
      eapply wp_mono; [apply putchar_wp, P1|]. intros r' k2 P2. apply wp_ret, Hfin; [|done].
      rewrite (u8_small d) in P2 by done. by apply (prints_trans k k1 k2 [37] [d]).
Qed.

Lemma kept_tail a n : kept a (S n) -> kept (a + 1) n.
Proof. intros Hk i Hi. replace (a + 1 + i) with (a + (i + 1)) by lia. apply Hk. lia. Qed.

Lemma printf_loop_wp fuel fmt : forall args ws a k k0 t0 t,
  prints k0 k t0 -> null_ok (k_mem k) -> cstr (k_mem k) a fmt -> kept a (S (length fmt)) ->
  (length fmt < fuel)%nat -> Forall2 (arg_at (k_mem k)) ws args -> format_text fmt args = Some t ->
  wp (printf_loop fuel a ws) (fun _ k' => prints k0 k' (t0 ++ t)) k.
Proof.
  revert fmt. induction fuel as [|fuel IH]; intros fmt args ws a k k0 t0 t P Hnull Hs Hkept Hf Hargs Ht; [lia|].
  pose proof (p_ok _ _ _ _ P) as Hk. cbn [printf_loop]. apply wp_bind.
  destruct fmt as [|c fmt].
  { eapply wp_eq; [by apply load8_cstr_nil|]. cbn [Z.eqb format_text] in *. simplify_eq. apply wp_ret.
    by rewrite app_nil_r. }
  eapply wp_eq; [by eapply load8_cstr_cons|]. destruct (cstr_cons _ _ _ _ Hs) as (_ & _ & Hc & Hs1).
  cbn [format_text] in Ht. rewrite (proj2 (Z.eqb_neq c 0)) by lia. pose proof (kept_tail _ _ Hkept) as Hkept1.
  destruct (Z.eqb_spec c 37) as [->|Hne].
  - destruct fmt as [|d fmt]; [done|]. apply wp_bind. eapply wp_eq; [by eapply load8_cstr_cons|].
    destruct (cstr_cons _ _ _ _ Hs1) as (_ & _ & Hd & Hs2).
    destruct (conversion d args) as [[t1 args1]|] eqn:Hconv; [|done]. cbn in Ht.
    destruct (format_text fmt args1) as [t2|] eqn:Ht2; [|done]. cbn in Ht. simplify_eq.
    fold (convert d ws). apply wp_bind. eapply wp_mono; [apply (convert_wp k d ws args t1 args1); try done; word_solve|].
    intros ws1 k1 [P1 Hargs1]. pose proof (kept_tail _ _ Hkept1) as Hkept2. rewrite app_assoc.
    replace (a + 2) with (a + 1 + 1) by lia.
    apply (IH fmt args1); [by eapply prints_trans|by eapply text_at_shows|by eapply shows_cstr|done|simpl in Hf; lia|done|done].
  - destruct (format_text fmt args) as [t2|] eqn:Ht2; [|done]. cbn in Ht. simplify_eq.
    apply wp_bind. eapply wp_mono; [by apply putchar_wp|]. intros r k1 P1. rewrite (u8_small c) in P1 by word_solve.
    change (c :: t2) with ([c] ++ t2). rewrite app_assoc.
    apply (IH fmt args); [by eapply prints_trans|by eapply text_at_shows|by eapply shows_cstr|done|simpl in Hf; lia|
      by eapply args_prints|done].
Qed.

(** [printf] of a literal or any other string prints what its format means. *)
Lemma printf_wp k a fmt ws args t :
  user_ok k -> null_ok (k_mem k) -> text_at (k_mem k) a fmt -> Forall2 (arg_at (k_mem k)) ws args ->
  format_text fmt args = Some t ->
  wp (printf a ws) (fun r k' => r = 0 /\ prints k k' t) k.
Proof.
  intros Hk Hnull [Hpos Hstr Hkept Hfuel Hlen] Hargs Ht. unfold printf. apply wp_bind.
  eapply wp_mono; [eapply (printf_loop_wp poll_fuel fmt args ws a k k [] t); try done; by apply prints_refl|].
  intros [] k' P. by apply wp_ret.
Qed.
End Printf.
