(* ===== verification/Shell.v ===== *)
(** The user shell: userland/shell/shell.c and userland/shell/commands.c. *)
From S2P Require Import Prelude State Machine Framebuffer Isr Keyboard Serial Pic Interrupt Syscall CString Stdio.

Definition MAX_LINE_LEN : Z := 128.
Definition MAX_ARGS : Z := 16.

(** The static variables [line_buf] and [argv] of shell.c. *)
Class ShellLayout := {
  line_buf_addr : Z;
  argv_addr : Z
}.

(** * tokenize *)

Section Tokenize.
Context `{PollFuel}.

(** [while ( *line == ' ' || ...) line++;] *)
Fixpoint skip_space (fuel : nat) (line : Z) : K Z :=
  match fuel with
  | O => hang
  | S fuel' =>
      c <- load8 line ;;
      if (c =? 32) || (c =? 9) || (c =? 10) || (c =? 13) then skip_space fuel' (line + 1) else ret line
  end.

(** [while ( *line != '\0' && *line != ' ' && ...) line++;] *)
Fixpoint skip_word (fuel : nat) (line : Z) : K Z :=
  match fuel with
  | O => hang
  | S fuel' =>
      c <- load8 line ;;
      if negb (c =? 0) && negb (c =? 32) && negb (c =? 9) && negb (c =? 10) && negb (c =? 13) then skip_word fuel' (line + 1) else ret line
  end.

(** The outer loop; it returns [count]. *)
Fixpoint tokenize_loop (fuel : nat) (line args count max_args : Z) : K Z :=
  match fuel with
  | O => hang
  | S fuel' =>
      c <- load8 line ;;
      if negb (c =? 0) && (count <? max_args) then
        line <- skip_space poll_fuel line ;;
        c <- load8 line ;;
        if c =? 0 then ret count
        else
          store32 (args + 4 * count) line ;;;
          line <- skip_word poll_fuel line ;;
          c <- load8 line ;;
          line <- (if negb (c =? 0) then store8 line 0 ;;; ret (line + 1) else ret line) ;;
          tokenize_loop fuel' line args (count + 1) max_args
      else ret count
  end.

Definition tokenize (line args max_args : Z) : K Z :=
  count <- tokenize_loop poll_fuel line args 0 max_args ;;
  store32 (args + 4 * count) 0 ;;;
  ret count.
End Tokenize.

(** * Commands *)

Definition help_title : list Z := 10 :: str "AetherOS Shell - Built-in Commands:" ++ [10].
Definition help_rule : list Z := str "-----------------------------------------------------------------" ++ [10].
Definition help_format : list Z := str "  %s" ++ [9; 9] ++ str "- %s" ++ [10].
Definition about_rule : list Z := str "=================================================================" ++ [10].
Definition about_lines : list (list Z) :=
  [ 10 :: about_rule;
    str "       AetherOS (LittleOS) - x86 32-bit Operating System         " ++ [10];
    str "       Kernel Mode: Higher-Half Paging (0xC0100000) Ring 0       " ++ [10];
    str "       User Mode  : Flat Binary at 0x00000000 Ring 3             " ++ [10];
    str "       Developed with Pair Programming by AmiyaSokiya & AI       " ++ [10];
    about_rule ++ [10] ].
Definition not_found_format : list Z :=
  str "AetherOS: command not found: %s. Type 'help' for available commands." ++ [10].
Definition banner_lines : list (list Z) :=
  [ 10 :: about_rule;
    str "         Welcome to AetherOS Userland Shell (Ring 3)             " ++ [10];
    str "         Type 'help' to see available commands.                  " ++ [10];
    about_rule ++ [10] ].
Definition prompt : list Z := str "AetherOS> ".

Inductive command_func := cmd_help_f | cmd_clear_f | cmd_echo_f | cmd_about_f.

Record builtin_cmd := BuiltinCmd { cmd_name : list Z; cmd_description : list Z; cmd_func : command_func }.

Definition builtin_commands : list builtin_cmd :=
  [ BuiltinCmd (str "help") (str "Display information about builtin commands") cmd_help_f;
    BuiltinCmd (str "clear") (str "Clear the terminal screen") cmd_clear_f;
    BuiltinCmd (str "echo") (str "Display a line of text") cmd_echo_f;
    BuiltinCmd (str "about") (str "Display system and kernel information") cmd_about_f ].

Section Commands.
Context `{Env} `{PollFuel} `{Layout} `{UserLayout}.

(** [printf] of a string literal. *)
Definition printf_lit (fmt : list Z) (args : list Z) : K Z := printf (lit_addr fmt) args.

Fixpoint printf_lits (l : list (list Z)) : K unit :=
  match l with
  | [] => ret tt
  | s :: l' => printf_lit s [] ;;; printf_lits l'
  end.

(** The loop over the table. *)
Fixpoint help_entries (l : list builtin_cmd) : K unit :=
  match l with
  | [] => ret tt
  | c :: l' => printf_lit help_format [lit_addr (cmd_name c); lit_addr (cmd_description c)] ;;; help_entries l'
  end.

Definition cmd_help (argc argv : Z) : K Z :=
  printf_lit help_title [] ;;;
  printf_lit help_rule [] ;;;
  help_entries builtin_commands ;;;
  printf_lit help_rule [] ;;;
  ret 0.

Definition cmd_clear (argc argv : Z) : K Z := user_clear ;;; ret 0.

Definition cmd_echo (argc argv : Z) : K Z :=
  for_up 1 argc (fun i =>
    a <- load32 (argv + 4 * i) ;;
    printf_lit (str "%s") [a] ;;;
    when i <? argc - 1 do (printf_lit (str " ") [] ;;; ret tt)) ;;;
  printf_lit [10] [] ;;;
  ret 0.

Definition cmd_about (argc argv : Z) : K Z := printf_lits about_lines ;;; ret 0.

Definition run_command (f : command_func) : Z -> Z -> K Z :=
  match f with
  | cmd_help_f => cmd_help
  | cmd_clear_f => cmd_clear
  | cmd_echo_f => cmd_echo
  | cmd_about_f => cmd_about
  end.

(** The loop of [main] over the command table; it returns [found]. *)
Fixpoint dispatch (l : list builtin_cmd) (argc argv : Z) : K Z :=
  match l with
  | [] => ret 0
  | c :: l' =>
      name <- load32 argv ;;
      r <- strcmp name (lit_addr (cmd_name c)) ;;
      if r =? 0 then run_command (cmd_func c) argc argv ;;; ret 1
      else dispatch l' argc argv
  end.

(** The body of [while (1)]. *)
Definition shell_iteration `{ShellLayout} : K unit :=
  printf_lit prompt [] ;;;
  line <- c_gets line_buf_addr MAX_LINE_LEN ;;
  if line =? 0 then ret tt
  else
    argc <- tokenize line argv_addr MAX_ARGS ;;
    if argc =? 0 then ret tt
    else
      found <- dispatch builtin_commands argc argv_addr ;;
      when found =? 0 do
        (name <- load32 argv_addr ;;
         printf_lit not_found_format [name] ;;; ret tt).

(** [main] never returns: [main n] is its run through [n] turns of [while (1)]. *)
Definition main `{ShellLayout} (turns : nat) : K unit :=
  printf_lits banner_lines ;;;
  for_loop 0 1 turns (fun _ => shell_iteration).
End Commands.
