(* ===== verification/TokenizeFacts.v ===== *)
(** The tokenizer of the shell against the words of a line. *)
From S2P Require Import Prelude State Machine CString Stdio Shell.

(** * Words *)

(** White space: blank, tab, line feed and carriage return. *)
Definition is_space (c : Z) : bool := bool_decide (c ∈ str " " ++ [9; 10; 13]).

(** The conditions of the two scanning loops. *)
Lemma space_test c : (c =? 32) || (c =? 9) || (c =? 10) || (c =? 13) = is_space c.
Proof. unfold is_space. change (str " " ++ [9; 10; 13]) with [32; 9; 10; 13]. case_bool_decide as Hc; rewrite !elem_of_cons, elem_of_nil in Hc; lia. Qed.
Lemma word_test c :
  negb (c =? 0) && negb (c =? 32) && negb (c =? 9) && negb (c =? 10) && negb (c =? 13) = negb (c =? 0) && negb (is_space c).
Proof. rewrite <- space_test. lia. Qed.

(** The maximal runs of characters that are not white space; [cur] is the run
    being read. *)
Fixpoint words_from (cur s : list Z) : list (list Z) :=
  match s with
  | [] => match cur with [] => [] | _ => [cur] end
  | c :: s' =>
      if is_space c then match cur with [] => words_from [] s' | _ => cur :: words_from [] s' end
      else words_from (cur ++ [c]) s'
  end.
Definition words (s : list Z) : list (list Z) := words_from [] s.

Definition spaces (s : list Z) : Prop := Forall (fun c => is_space c = true) s.
Definition solid (s : list Z) : Prop := Forall (fun c => is_space c = false) s.

Lemma words_spaces sp s : spaces sp -> words (sp ++ s) = words s.
Proof. induction 1 as [|c sp Hc _ IH]; [done|]. unfold words in *. cbn [app words_from]. by rewrite Hc. Qed.

Lemma words_from_solid w cur s : solid w -> words_from cur (w ++ s) = words_from (cur ++ w) s.
Proof.
  intros Hw. revert cur. induction Hw as [|c w Hc _ IH]; intros cur; cbn [app words_from]; [by rewrite app_nil_r|].
  rewrite Hc, IH, <- app_assoc. done.
Qed.

Lemma words_end w : solid w -> w <> [] -> words w = [w].
Proof.
  intros Hw Hne. unfold words. rewrite <- (app_nil_r w) at 1. rewrite words_from_solid by done. by destruct w.
Qed.

Lemma words_sep w c s : solid w -> w <> [] -> is_space c = true -> words (w ++ c :: s) = w :: words s.
Proof.
  intros Hw Hne Hc. unfold words. rewrite words_from_solid by done. cbn [app words_from]. rewrite Hc. by destruct w.
Qed.

(** A line is white space, a word, and the rest after it. *)
Lemma span_solid s : exists w t, s = w ++ t /\ solid w /\ (t = [] \/ exists c t', t = c :: t' /\ is_space c = true).
Proof.
  induction s as [|c s (w & t & -> & Hw & Ht)]; [exists [], []; by split_and!; [|constructor|left]|].
  destruct (is_space c) eqn:Hc.
  - exists [], (c :: w ++ t). split_and!; [done|constructor|right; eauto].
  - exists (c :: w), t. split_and!; [done|by constructor|done].
Qed.

Lemma span_spaces s : exists sp t, s = sp ++ t /\ spaces sp /\ (t = [] \/ exists c t', t = c :: t' /\ is_space c = false).
Proof.
  induction s as [|c s (sp & t & -> & Hsp & Ht)]; [exists [], []; by split_and!; [|constructor|left]|].
  destruct (is_space c) eqn:Hc.
  - exists (c :: sp), t. split_and!; [done|by constructor|done].
  - exists [], (c :: sp ++ t). split_and!; [done|constructor|right; eauto].
Qed.

(** * Scanning *)

Section Scan.
Context `{PollFuel}.

Lemma skip_space_eq k sp : forall t a fuel,
  cstr (k_mem k) a (sp ++ t) -> spaces sp -> (t = [] \/ exists c t', t = c :: t' /\ is_space c = false) ->
  (length sp < fuel)%nat -> skip_space fuel a k = Ok (a + Z.of_nat (length sp), k).
Proof.
  induction sp as [|c sp IH]; intros t a fuel Hs Hsp Ht Hf; (destruct fuel as [|fuel]; [simpl in Hf; lia|]); cbn [skip_space].
  - rewrite Z.add_0_r. destruct Ht as [->|(c & t' & -> & Hc)]; simpl in Hs.
    + by rewrite (bind_ok _ _ _ _ _ (load8_cstr_nil _ _ Hs)).
    + rewrite (bind_ok _ _ _ _ _ (load8_cstr_cons _ _ _ _ Hs)). by rewrite space_test, Hc.
  - apply Forall_cons in Hsp as [Hc Hsp]. simpl in Hs. rewrite (bind_ok _ _ _ _ _ (load8_cstr_cons _ _ _ _ Hs)), space_test, Hc.
    destruct (cstr_cons _ _ _ _ Hs) as (_ & _ & _ & Hs'). rewrite (IH t) by (done || simpl in Hf; lia).
    do 2 f_equal. simpl. lia.
Qed.

Lemma skip_word_eq k w : forall t a fuel,
  cstr (k_mem k) a (w ++ t) -> solid w -> (t = [] \/ exists c t', t = c :: t' /\ is_space c = true) ->
  (length w < fuel)%nat -> skip_word fuel a k = Ok (a + Z.of_nat (length w), k).
Proof.
  induction w as [|c w IH]; intros t a fuel Hs Hw Ht Hf; (destruct fuel as [|fuel]; [simpl in Hf; lia|]); cbn [skip_word].
  - rewrite Z.add_0_r. destruct Ht as [->|(c & t' & -> & Hc)]; simpl in Hs.
    + by rewrite (bind_ok _ _ _ _ _ (load8_cstr_nil _ _ Hs)).
    + rewrite (bind_ok _ _ _ _ _ (load8_cstr_cons _ _ _ _ Hs)). rewrite word_test, Hc. by rewrite andb_false_r.
  - apply Forall_cons in Hw as [Hc Hw]. simpl in Hs. rewrite (bind_ok _ _ _ _ _ (load8_cstr_cons _ _ _ _ Hs)), word_test, Hc.
    destruct (cstr_cons _ _ _ _ Hs) as (_ & _ & Hnz & Hs'). rewrite (proj2 (Z.eqb_neq c 0)) by lia. cbn [negb andb].
    rewrite (IH t) by (done || simpl in Hf; lia). do 2 f_equal. simpl. lia.
Qed.
End Scan.

(** * Strings under writes elsewhere *)

Lemma cstr_ext m m' a s :
  (forall x, a <= x <= a + Z.of_nat (length s) -> m' !! x = m !! x) -> cstr m a s -> cstr m' a s.
Proof.
  intros Hx [Hr Hb]. split; [|done]. intros i c Hi. destruct (Hr i c Hi) as [H1 H2]. split; [|done].
  apply lookup_lt_Some in Hi. rewrite length_app in Hi. simpl in Hi. rewrite Hx; [done|]. lia.
Qed.

(** Cutting a string at a character. *)
Lemma cstr_cut m a w c t :
  cstr m a (w ++ c :: t) ->
  cstr (<[a + Z.of_nat (length w) := 0]> m) a w /\ cstr (<[a + Z.of_nat (length w) := 0]> m) (a + Z.of_nat (length w) + 1) t.
Proof.
  intros Hs. pose proof (cstr_app _ _ _ _ Hs) as Hct. destruct (cstr_cons _ _ _ _ Hct) as (_ & Hu & _ & Ht).
  split.
  - destruct Hs as [Hr Hb]. apply Forall_app in Hb as [Hb _]. split; [|done]. intros i d Hi.
    apply lookup_app_Some in Hi as [Hi|[Hge Hi]].
    + destruct (Hr i d) as [H1 H2]; [rewrite <- app_assoc; by apply lookup_app_l_Some|].
      pose proof (lookup_lt_Some _ _ _ Hi). split; [|done]. by rewrite lookup_insert_ne by lia.
    + destruct (i - length w)%nat eqn:Hd; [|done]. apply (inj Some) in Hi. subst d.
      replace i with (length w) by lia. split; [apply lookup_insert_eq|done].
  - eapply cstr_ext; [|exact Ht]. intros x Hx. apply lookup_insert_ne. lia.
Qed.

(** * The loop *)

(** The words [ws] are strings at the pointers [ps], which the entries of [args]
    from [count] on hold; they lie between [lo] and [hi]. *)
Record tokens (m : gmap Z Z) (args count lo hi : Z) (ws : list (list Z)) (ps : list Z) : Prop := Tokens {
  tk_strs : Forall2 (cstr m) ps ws;
  tk_range : Forall2 (fun p w => lo <= p /\ p + Z.of_nat (length w) <= hi) ps ws;
  tk_ptrs : forall i p, ps !! i = Some p -> word_at m (args + 4 * (count + Z.of_nat i)) = p
}.

(** Only the line and the entries written change. *)
Definition tokenized (m m' : gmap Z Z) (line args count len n : Z) : Prop :=
  (forall x, ~ line <= x < line + len -> ~ args + 4 * count <= x < args + 4 * (count + n) -> m' !! x = m !! x) /\
  (forall a n, mapped m a n -> mapped m' a n).

Lemma tokens_cons m m' args count lo hi mid w ws p ps :
  tokens m' args (count + 1) mid hi ws ps -> cstr m p w -> word_at m (args + 4 * count) = p ->
  lo <= p -> lo <= mid -> p + Z.of_nat (length w) <= hi ->
  (forall x, p <= x <= p + Z.of_nat (length w) -> m' !! x = m !! x) ->
  (forall x, args + 4 * count <= x < args + 4 * count + 4 -> m' !! x = m !! x) ->
  tokens m' args count lo hi (w :: ws) (p :: ps).
Proof.
  intros [Hstr Hran Hptr] Hw Hp Hlo Hmid Hhi Hkeep Hkeepa. constructor.
  - constructor; [by eapply cstr_ext|done].
  - constructor; [done|]. eapply Forall2_impl; [done|]. intros q v [Hq1 Hq2]. lia.
  - intros [|i] q Hq.
    + apply (inj Some) in Hq. subst q. rewrite Z.add_0_r. rewrite <- Hp. apply word_at_ext. intros j Hj. apply Hkeepa. lia.
    + rewrite <- (Hptr i q Hq). f_equal. lia.
Qed.

Section Loop.
Context `{PollFuel}.
Context (args max : Z) (Hargs : 0 <= args /\ args + 4 * max <= 4294967296).

(** Preconditions at one iteration. *)
Record tok_pre (m : gmap Z Z) (line count : Z) (rest : list Z) : Prop := TokPre {
  tp_str : cstr m line rest;
  tp_args : mapped m args (4 * max);
  tp_count : 0 <= count <= max;
  tp_apart : line + Z.of_nat (length rest) + 1 <= args \/ args + 4 * max <= line;
  tp_fuel : (length rest < poll_fuel)%nat
}.

(** Storing the pointer of a word. *)
Lemma store_entry_eq k line count rest v :
  tok_pre (k_mem k) line count rest -> count < max -> is_u32 v ->
  store32 (args + 4 * count) v k = Ok (tt, set_mem (put32 (k_mem k) (args + 4 * count) v) k).
Proof.
  intros [Hs Ha Hc _ _] Hlt Hv. apply store32_eq; [|lia|lia]. apply (mapped_sub _ args (4 * max)); [done|lia|lia].
Qed.

(** Ending a word: the separator after it, if there is one, becomes its
    terminator, and scanning goes on behind it at [l3]. *)
Lemma cut_word_wp {A} k l1 w u (f : Z -> K A) Q :
  cstr (k_mem k) l1 (w ++ u) -> solid w -> w <> [] ->
  (u = [] \/ exists c u', u = c :: u' /\ is_space c = true) ->
  (forall m2 l3 t, cstr m2 l1 w -> cstr m2 l3 t -> words (w ++ u) = w :: words t ->
     l1 + Z.of_nat (length w) < l3 \/ t = [] /\ l1 + Z.of_nat (length w) = l3 ->
     l3 + Z.of_nat (length t) = l1 + Z.of_nat (length w) + Z.of_nat (length u) ->
     (forall x, ~ l1 + Z.of_nat (length w) <= x < l3 -> m2 !! x = k_mem k !! x) ->
     (forall a n, mapped (k_mem k) a n -> mapped m2 a n) -> wp (f l3) Q (set_mem m2 k)) ->
  wp (c <- load8 (l1 + Z.of_nat (length w)) ;;
      line <- (if negb (c =? 0) then store8 (l1 + Z.of_nat (length w)) 0 ;;; ret (l1 + Z.of_nat (length w) + 1)
               else ret (l1 + Z.of_nat (length w))) ;;
      f line) Q k.
Proof.
  intros Hs Hw Hne Hsep Hf. pose proof (cstr_app _ _ _ _ Hs) as Hu. apply wp_bind.
  destruct Hsep as [->|(c & u' & -> & Hc)].
  - eapply wp_eq; [by apply load8_cstr_nil|]. cbn [Z.eqb negb]. apply wp_bind, wp_ret. rewrite app_nil_r in *.
    rewrite (set_mem_id k). apply (Hf (k_mem k) _ []); try done; [by apply words_end|by right].
  - eapply wp_eq; [by eapply load8_cstr_cons|]. destruct (cstr_cons _ _ _ _ Hu) as (Hm & Hr & Hnz & _).
    rewrite (proj2 (Z.eqb_neq c 0)) by lia. cbn [negb]. apply wp_bind, wp_bind.
    eapply wp_store8; [done|done|]. apply wp_ret. destruct (cstr_cut _ _ _ _ _ Hs) as [Hc1 Hc2].
    apply (Hf (<[l1 + Z.of_nat (length w) := 0]> (k_mem k)) _ u'); try done.
    + by apply words_sep.
    + left. lia.
    + simpl. lia.
    + intros x Hx. apply lookup_insert_ne. lia.
    + intros a n Ha. by apply mapped_insert.
Qed.

(** What the loop leaves from [line] on, with [count] entries used before it. *)
Definition tok_post (k : kernel) (line count : Z) (rest : list Z) (r : Z) (k' : kernel) : Prop := exists m' ps,
  let ws := take (Z.to_nat (max - count)) (words rest) in
  k' = set_mem m' k /\ r = count + Z.of_nat (length ws) /\
  tokens m' args count line (line + Z.of_nat (length rest)) ws ps /\
  tokenized (k_mem k) m' line args count (Z.of_nat (length rest)) (Z.of_nat (length ws)).

Lemma tok_stop_wp k line count rest :
  take (Z.to_nat (max - count)) (words rest) = [] -> wp (ret count) (tok_post k line count rest) k.
Proof.
  intros Hws. apply wp_ret. exists (k_mem k), []. rewrite Hws. split_and!; [apply set_mem_id|simpl; lia| |by split].
  constructor; [constructor|constructor|done].
Qed.

(** The word [w] behind the separators [sp], with what the loop leaves of the rest. *)
Lemma tok_post_word k line count sp w u m2 l3 t r k' :
  let l1 := line + Z.of_nat (length sp) in let m1 := put32 (k_mem k) (args + 4 * count) l1 in
  tok_pre (k_mem k) line count (sp ++ w ++ u) -> spaces sp -> w <> [] -> 0 <= count < max -> is_u32 l1 ->
  cstr m2 l1 w -> words (w ++ u) = w :: words t ->
  l1 + Z.of_nat (length w) < l3 \/ t = [] /\ l1 + Z.of_nat (length w) = l3 ->
  l3 + Z.of_nat (length t) = l1 + Z.of_nat (length w) + Z.of_nat (length u) ->
  (forall x, ~ l1 + Z.of_nat (length w) <= x < l3 -> m2 !! x = m1 !! x) ->
  (forall a n, mapped m1 a n -> mapped m2 a n) ->
  tok_post (set_mem m2 (set_mem m1 k)) l3 (count + 1) t r k' -> tok_post k line count (sp ++ w ++ u) r k'.
Proof.
  intros l1 m1 [_ _ _ Hap _] Hsp Hwne Hc Hu1 Hw2 Hwords Hl3 Hend Hm2 Hmap2 (m' & ps & -> & -> & Htok & Hd1 & Hd2).
  assert (word_at m1 (args + 4 * count) = l1) as Hptr by (by apply word_at_put32).
  assert (length w <> 0)%nat by (by destruct w). exists m', (l1 :: ps). cbn zeta. rewrite (words_spaces sp _ Hsp), Hwords.
  replace (Z.to_nat (max - count)) with (S (Z.to_nat (max - (count + 1)))) by lia. cbn [take]. rewrite !length_app in *.
  set (ws := take (Z.to_nat (max - (count + 1))) (words t)) in *.
  assert (length ws <= Z.to_nat (max - (count + 1)))%nat as Hws by (unfold ws; rewrite length_take; lia).
  change (k_mem (set_mem m2 (set_mem m1 k))) with m2 in *. split_and!.
  - done.
  - cbn [length]. lia.
  - replace (l3 + Z.of_nat (length t)) with (line + Z.of_nat (length sp + (length w + length u))) in Htok by lia.
    eapply (tokens_cons m2); [done|done| |lia|lia|lia| |].
    + rewrite <- Hptr. apply word_at_ext. intros j Hj. apply Hm2. lia.
    + intros x Hx. apply Hd1; [|lia]. destruct Hl3 as [?|[-> ?]]; simpl; lia.
    + intros x Hx. apply Hd1; lia.
  - split; [|intros a n Hmn; by apply Hd2, Hmap2, put32_mapped]. intros x Hx1 Hx2. cbn [length] in Hx2.
    rewrite Hd1 by lia. rewrite Hm2 by lia. apply put32_lookup_ne. lia.
Qed.

Lemma tokenize_loop_wp fuel : forall k line count rest,
  tok_pre (k_mem k) line count rest -> (length rest < fuel)%nat ->
  wp (tokenize_loop fuel line args count max) (tok_post k line count rest) k.
Proof.
  induction fuel as [|fuel IH]; intros k line count rest Hpre Hf; [lia|]. pose proof Hpre as [Hs Ha Hc Hap Hfuel].
  cbn [tokenize_loop]. apply wp_bind.
  destruct rest as [|c0 rest0] eqn:Hrest.
  { eapply wp_eq; [by apply load8_cstr_nil|]. apply tok_stop_wp, take_nil. }
  eapply wp_eq; [by eapply load8_cstr_cons|]. destruct (cstr_cons _ _ _ _ Hs) as (_ & _ & Hc0 & _).
  rewrite (proj2 (Z.eqb_neq c0 0)) by lia. cbn [negb andb]. rewrite <- Hrest in *. clear Hc0.
  destruct (Z.ltb_spec count max) as [Hlt|Hge].
  2: { apply tok_stop_wp. by replace (Z.to_nat (max - count)) with 0%nat by lia. }
  destruct (span_spaces rest) as (sp & t & -> & Hsp & Ht). rewrite length_app in *.
  apply wp_bind. eapply wp_eq; [eapply skip_space_eq; [done|done|done|lia]|].
  pose proof (cstr_app _ _ _ _ Hs) as Hs1. set (l1 := line + Z.of_nat (length sp)) in *. apply wp_bind.
  destruct Ht as [->|(c1 & t1 & Heq & Hc1)].
  { eapply wp_eq; [by apply load8_cstr_nil|]. apply tok_stop_wp. rewrite (words_spaces sp [] Hsp). apply take_nil. }
  eapply wp_eq; [subst t; by eapply load8_cstr_cons|].
  assert (0 < c1 < 256 /\ is_u32 l1) as [Hnz Hu1] by (subst t; by destruct (cstr_cons _ _ _ _ Hs1) as (_ & ? & ? & _)).
  rewrite (proj2 (Z.eqb_neq c1 0)) by lia.
  destruct (span_solid t) as (w & u & Htw & Hw & Hsep).
  assert (w <> []) as Hwne.
  { intros ->. simpl in Htw. destruct Hsep as [->|(d & u' & -> & Hd)]; simplify_eq. by rewrite Hc1 in Hd. }
  clear Heq. subst t. rewrite length_app in *.
  apply wp_bind. eapply wp_eq; [by eapply (store_entry_eq k)|]. set (k1 := set_mem _ k).
  assert (cstr (k_mem k1) l1 (w ++ u)) as Hs2
    by (eapply cstr_ext; [|done]; intros x Hx; apply put32_lookup_ne; rewrite length_app in Hx; lia).
  apply wp_bind. eapply wp_eq; [eapply (skip_word_eq k1); [done|done|done|lia]|].
  apply (cut_word_wp k1 l1 w u (fun line => tokenize_loop fuel line args (count + 1) max)); try done.
  intros m2 l3 t Hw2 Ht2 Hwords Hl3 Hend Hm2 Hmap2. assert (length w <> 0)%nat by (by destruct w). eapply wp_mono.
  { apply (IH (set_mem m2 k1) l3 (count + 1) t); [|lia].
    constructor; [done|by apply Hmap2, put32_mapped|lia|lia|lia]. }
  intros r k'. apply tok_post_word; try assumption; lia.
Qed.

(** Storing the final null pointer keeps the tokens. *)
Lemma tokens_null m lo len ws ps v :
  tokens m args 0 lo (lo + len) ws ps ->
  (lo + len + 1 <= args \/ args + 4 * Z.of_nat (length ws) + 4 <= lo) ->
  tokens (put32 m (args + 4 * Z.of_nat (length ws)) v) args 0 lo (lo + len) ws ps.
Proof.
  intros [Hs Hr Hp] Hap. pose proof (Forall2_length _ _ _ Hs) as Hlen. constructor; [|done|].
  - assert (Forall2 (fun p w => cstr m p w /\ lo <= p /\ p + Z.of_nat (length w) <= lo + len) ps ws) as Hboth.
    { clear Hp Hlen Hap. induction Hs; inversion Hr; subst; constructor; [tauto|auto]. }
    eapply Forall2_impl; [exact Hboth|]. intros p w (Hw & H1 & H2). eapply cstr_ext; [|exact Hw].
    intros x Hx. apply put32_lookup_ne. lia.
  - intros i p Hi. rewrite <- (Hp i p Hi). pose proof (lookup_lt_Some _ _ _ Hi). apply word_at_put32_ne. lia.
Qed.

Lemma tokenize_wp k line rest :
  tok_pre (k_mem k) line 0 rest -> Z.of_nat (length (words rest)) < max ->
  wp (tokenize line args max) (fun r k' => exists m' ps,
    k' = set_mem m' k /\ r = Z.of_nat (length (words rest)) /\
    tokens m' args 0 line (line + Z.of_nat (length rest)) (words rest) ps /\
    word_at m' (args + 4 * r) = 0 /\
    tokenized (k_mem k) m' line args 0 (Z.of_nat (length rest)) (r + 1)) k.
Proof.
  intros Hpre Hlt. pose proof Hpre as [Hs Ha Hc Hap Hf]. unfold tokenize. apply wp_bind.
  eapply wp_mono; [by apply (tokenize_loop_wp poll_fuel k line 0 rest)|].
  intros r k' (m' & ps & Hk & Hr & Htok & Hd1 & Hd2). rewrite take_ge in * by lia.
  rewrite Z.add_0_l in Hr. subst r k'. apply wp_bind. eapply wp_eq.
  { apply (store32_eq (set_mem m' k)); [|lia|lia]. apply (mapped_sub _ args (4 * max)); [by apply Hd2|lia|lia]. }
  apply wp_ret. eexists _, ps. split_and!; [done|done| | |].
  - apply tokens_null; [done|lia].
  - by apply word_at_put32.
  - split; [|intros a n Hm; by apply put32_mapped, Hd2].
    intros x Hx1 Hx2. rewrite put32_lookup_ne by lia. apply Hd1; lia.
Qed.

(** With [max] words or more, the terminating null pointer is stored behind the
    [max] entries. *)
Lemma tokenize_full_wp k line rest :
  tok_pre (k_mem k) line 0 rest -> max <= Z.of_nat (length (words rest)) -> args + 4 * max + 4 <= 4294967296 ->
  mapped (k_mem k) (args + 4 * max) 4 -> line + Z.of_nat (length rest) + 1 <= args \/ args + 4 * max + 4 <= line ->
  wp (tokenize line args max) (fun r k' => exists m' ps,
    k' = set_mem m' k /\ r = max /\
    tokens m' args 0 line (line + Z.of_nat (length rest)) (take (Z.to_nat max) (words rest)) ps /\
    word_at m' (args + 4 * max) = 0) k.
Proof.
  intros Hpre Hge Hend Hmap Hap. pose proof Hpre as [Hs Ha Hc _ Hf]. unfold tokenize. apply wp_bind.
  eapply wp_mono; [by apply (tokenize_loop_wp poll_fuel k line 0 rest)|].
  intros r k' (m' & ps & Hk & Hr & Htok & Hd1 & Hd2). rewrite Z.sub_0_r in *.
  assert (Z.of_nat (length (take (Z.to_nat max) (words rest))) = max) as Hlen by (rewrite length_take; lia).
  rewrite Z.add_0_l, Hlen in Hr. subst r k'. apply wp_bind. eapply wp_eq.
  { apply (store32_eq (set_mem m' k)); [by apply Hd2|lia|lia]. }
  apply wp_ret. eexists _, ps. split_and!; [done|done| |by apply word_at_put32].
  rewrite <- Hlen at 1. apply tokens_null; [done|lia].
Qed.
End Loop.
