(* ===== verification/ShellFacts.v ===== *)
(** The shell on top of the library and the kernel: reading a line, running a
    command, one turn of the main loop. *)
From S2P Require Import Prelude State Machine Framebuffer FramebufferFacts Isr Keyboard Serial SerialFacts Pic Interrupt InterruptFacts Syscall SyscallFacts SyscallCalls CString Stdio StdioFacts Printf Shell TokenizeFacts.

(** * Characters of the input *)

Lemma decode_nonzero shift sc c : snd (decode shift sc) = Some c -> nonzero c.
Proof.
  intros Hdec. unfold decode in Hdec.
  destruct ((sc =? 0x2A) || (sc =? 0x36)); [discriminate Hdec|].
  destruct ((sc =? 0xAA) || (sc =? 0xB6)); [discriminate Hdec|].
  destruct (128 <=? sc) eqn:Hlt; [discriminate Hdec|]. apply Z.leb_gt in Hlt.
  destruct (arr_get (if shift =? 0 then kbd_us_ascii else kbd_us_ascii_shift) sc) as [d|] eqn:Hd; [|discriminate Hdec].
  change (default 0 (Some d)) with d in Hdec. destruct (Z.eqb_spec d 0); [discriminate Hdec|]. cbn [snd] in Hdec. simplify_eq.
  pose proof (arr_get_lt _ _ _ Hd) as Hr.
  destruct (table_entry (shift =? 0) sc) as (e & He & Hu); [lia|]. rewrite He in Hd. simplify_eq.
  unfold nonzero. word_solve.
Qed.

Lemma decode_all_nonzero scs : forall shift, Forall nonzero (snd (decode_all shift scs)).
Proof.
  induction scs as [|sc scs IH]; intros shift; cbn [decode_all]; [constructor|].
  pose proof (decode_nonzero shift sc) as Hd. destruct (decode shift sc) as [sh c]. cbn [snd] in Hd.
  specialize (IH sh). destruct (decode_all sh scs) as [sh' cs]. cbn [snd] in *.
  destruct c as [c|]; [|done]. constructor; [by apply Hd|done].
Qed.

Lemma edit_line_nonzero cap cs : forall acc line rest es,
  Forall is_u8 cs -> Forall nonzero acc -> edit_line cap acc cs = Some (line, rest, es) -> Forall nonzero line.
Proof.
  induction cs as [|c cs IH]; intros acc line rest es Hcs Hacc Hed; rewrite edit_line_unfold in Hed.
  { destruct (_ <=? _); by simplify_eq. }
  apply Forall_cons in Hcs as [Hc Hcs]. destruct (_ <=? _); [by simplify_eq|].
  destruct (is_eol c) eqn:Heol; [by simplify_eq|]. destruct (is_erase c).
  - destruct acc as [|a acc]; [by eapply IH|].
    destruct (edit_line cap (removelast (a :: acc)) cs) as [[[l r] e]|] eqn:Hrec; [|done]. cbn in Hed. simplify_eq.
    eapply IH; [done| |done]. destruct (removelast_snoc a acc) as [[l Hl] _]. rewrite Hl in Hacc.
    by apply Forall_app in Hacc as [? _].
  - destruct (edit_line cap (acc ++ [c]) cs) as [[[l r] e]|] eqn:Hrec; [|done]. cbn in Hed. simplify_eq.
    eapply IH; [done| |done]. apply Forall_app_2; [done|]. apply Forall_singleton. unfold is_eol in Heol.
    destruct (Z.eqb_spec c 0); [done|]. unfold nonzero. word_solve.
Qed.

(** * Reading a line from ring 3 *)

Record user_reads `{Layout} `{UserLayout} (keys : trace -> list Z) (buf cap : Z) (k k' : kernel)
    (line rest : list Z) (es : list echo) : Prop := UserReads {
  ur_ok : user_ok k';
  ur_kbd : kbd_ok (k_kbd k');
  ur_isr : isr_ok (k_isr k');
  ur_str : cstr (k_mem k') buf line;
  ur_fits : Z.of_nat (length line) < cap;
  ur_term : term_of k' = term_write (term_of k) (concat (screen_echo <$> es));
  ur_tx : uart_tx (uart_of (k_trace k')) = rev (concat (serial_echo <$> es)) ++ uart_tx (uart_of (k_trace k));
  ur_input : input_of keys k' = rest;
  ur_mem : forall x, ~ buf <= x < buf + cap -> ~ scratch x -> k_mem k' !! x = k_mem k !! x;
  ur_mapped : forall a n, mapped (k_mem k) a n -> mapped (k_mem k') a n
}.

Section Facts.
Context `{Env} `{PollFuel} `{Layout} `{UserLayout} `{!UserPlaced} `{!UartReady}.
Context (keys : trace -> list Z) `{!KbdSource keys}.
Context (Hidle : forall tr, Z.land (u8 (env_in tr 0x3FD)) 1 = 0).

Lemma input_bytes k : kbd_ok (k_kbd k) -> Forall is_u8 (input_of keys k).
Proof.
  intros Hk. apply Forall_app_2; [by apply kbd_queue_bytes|].
  eapply Forall_impl; [apply decode_all_nonzero|]. unfold nonzero. intros c Hc. word_solve.
Qed.

(** Output leaves the input alone. *)
Lemma shows_input k k' t s : shows k k' t s -> input_of keys k' = input_of keys k /\ keys (k_trace k') = keys (k_trace k).
Proof.
  intros P. destruct (p_trace _ _ _ _ P) as (evs & Ht & He).
  assert (keys (k_trace k') = keys (k_trace k)) as Hkeys.
  { rewrite Ht. clear Ht. induction He as [|e evs [Hc|Hu] _ IH]; [done|..]; cbn [app].
    - etrans; [by apply (keys_crtc keys [e]), Forall_singleton|exact IH].
    - etrans; [by apply (keys_uart keys [e]), Forall_singleton|exact IH]. }
  split; [|done]. unfold input_of. by rewrite (p_kbd _ _ _ _ P), Hkeys.
Qed.

Lemma user_read_wp k buf cap line rest es :
  user_ok k -> kbd_ok (k_kbd k) -> isr_ok (k_isr k) -> 0 < buf -> buf_ok buf cap -> mapped (k_mem k) buf cap ->
  trap_frame + 68 <= buf \/ buf + cap <= trap_frame -> 2 <= cap -> cap < 2147483648 ->
  ~ buf <= putchar_ch < buf + cap ->
  (2 * length (keys (k_trace k)) + length (queue_of (k_kbd k)) < poll_fuel)%nat ->
  edit_line cap [] (input_of keys k) = Some (line, rest, es) ->
  wp (user_read 0 buf cap) (fun r k' => r = Z.of_nat (length line) /\ user_reads keys buf cap k k' line rest es) k.
Proof.
  intros Hk Hkbd Hisr Hpos Hbok Hbm Hap Hcap Hcap2 Hch Hfuel Hed. pose proof Hk as [Hfb Hdl Hfr Hchm].
  unfold user_read, int80. apply wp_bind, wp_bind. destruct Hbok as (Hb1 & Hb2 & Hb3) eqn:Eb.
  eapply wp_mono; [apply (push_frame_wp k SYS_READ 0 buf cap Hk); [done|done|word_solve|word_solve]|].
  intros [] k0 (m & -> & Hh & Hrok & Hd & Hmap). set (k1 := set_mem m _).
  assert (forall x, fb <= x < fb + 4000 -> m !! x = k_mem k !! x) as Hwin
    by (intros x Hx; apply Hd; destruct frame_apart; lia).
  assert (term_of k1 = term_of k) as Hterm by by apply term_same.
  assert (fb_ok k1) as Hfb1 by (destruct Hfb; constructor; [by apply Hmap|done|done]).
  apply wp_bind. eapply wp_mono.
  { apply (do_read_wp keys Hidle k1 trap_frame buf cap line rest es); try done. by apply Hmap. }
  intros [] k2 R. unfold enable_interrupts.
  assert (mapped (k_mem k2) trap_frame 68) as Hfr2 by (apply (rl_mapped _ _ _ _ _ _ _ _ _ R); by apply Hmap).
  apply wp_bind. eapply wp_eq.
  { apply load32_eq; [apply (mapped_sub _ trap_frame 68); [done|unfold pt_eax; lia..]|destruct frame_range; unfold pt_eax; lia..]. }
  apply wp_bind, wp_modify, wp_ret, wp_ret. destruct R. rewrite rl_eax, s32_small by lia. split; [done|].
  constructor.
  - constructor; [by destruct rl_fb; constructor|done|done|]. apply rl_mapped. by apply Hmap.
  - done.
  - done.
  - split; [|eapply (edit_line_nonzero cap (input_of keys k) []); [by apply input_bytes|constructor|done]].
    intros i c Hi. split; [by apply rl_buf|]. apply lookup_lt_Some in Hi. rewrite length_app in Hi. simpl in Hi. word_solve.
  - done.
  - change (term_of k2 = term_write (term_of k) (concat (screen_echo <$> es))). by rewrite rl_term, Hterm.
  - done.
  - done.
  - intros x Hx1 Hx2. change (k_mem k2 !! x = k_mem k !! x). unfold scratch in Hx2.
    rewrite rl_mem by (unfold pt_eax; lia). apply Hd. lia.
  - intros a n Ha. apply rl_mapped. by apply Hmap.
Qed.
End Facts.

(** * Commands *)

(** Every string literal of the program. *)
Definition shell_literals : list (list Z) :=
  [str "(null)"; [10]; str "%s"; str " "; prompt; not_found_format; help_title; help_rule; help_format]
  ++ about_lines ++ banner_lines ++ (cmd_name <$> builtin_commands) ++ (cmd_description <$> builtin_commands).

Lemma literals_small : Forall (fun s => Z.of_nat (length s) < 100 /\ Forall nonzero s) shell_literals.
Proof. apply (bool_decide_unpack _). vm_compute. exact I. Qed.

(** What a command line, as its words, makes the shell show. *)
Fixpoint join (ws : list (list Z)) : list Z :=
  match ws with
  | [] => []
  | [w] => w
  | w :: ws' => w ++ [32] ++ join ws'
  end.
Definition help_entry (c : builtin_cmd) : list Z :=
  str "  " ++ cmd_name c ++ [9; 9] ++ str "- " ++ cmd_description c ++ [10].
Definition help_text : list Z := help_title ++ help_rule ++ concat (help_entry <$> builtin_commands) ++ help_rule.
Definition not_found_text (w : list Z) : list Z :=
  str "AetherOS: command not found: " ++ w ++ str ". Type 'help' for available commands." ++ [10].
Definition command_text (ws : list (list Z)) : list Z :=
  match ws with
  | [] => []
  | w :: args =>
      if bool_decide (w = str "help") then help_text
      else if bool_decide (w = str "echo") then join args ++ [10]
      else if bool_decide (w = str "about") then concat about_lines
      else not_found_text w
  end.

(** What a command line does to the screen and what it sends: [clear] is the
    command that does not print. *)
Definition is_clear (ws : list (list Z)) : bool := bool_decide (head ws = Some (str "clear")).
Definition command_screen (ws : list (list Z)) (t : term) : term :=
  if is_clear ws then term_clear t else term_write t (command_text ws).
Definition command_serial (ws : list (list Z)) : list Z := if is_clear ws then ansi_clear else command_text ws.

Section Commands.
Context `{Env} `{PollFuel} `{Layout} `{UserLayout} `{!UserPlaced} `{!UartReady}.

Definition lits_ok (m : gmap Z Z) : Prop := forall s, s ∈ shell_literals -> text_at m (lit_addr s) s.

Lemma lits_shows k k' t s : shows k k' t s -> lits_ok (k_mem k) -> lits_ok (k_mem k').
Proof. intros P Hl u Hu. eapply text_at_shows; [done|by apply Hl]. Qed.

Lemma printf_lit_wp k fmt ws args t :
  user_ok k -> lits_ok (k_mem k) -> fmt ∈ shell_literals -> Forall2 (arg_at (k_mem k)) ws args ->
  format_text fmt args = Some t -> wp (printf_lit fmt ws) (fun _ k' => prints k k' t) k.
Proof.
  intros Hk Hl Hin Ha Ht. eapply wp_mono; [apply (printf_wp k (lit_addr fmt) fmt ws args t); try done|by intros r k' [_ P]].
  - apply Hl. left.
  - by apply Hl.
Qed.

(** The same in the middle of a routine that has printed [s] since [k]. *)
Lemma printf_lit_next {A} k k1 s fmt ws args t (m : K A) Q :
  prints k k1 s -> lits_ok (k_mem k) -> fmt ∈ shell_literals -> Forall2 (arg_at (k_mem k)) ws args ->
  format_text fmt args = Some t -> (forall k2, prints k k2 (s ++ t) -> wp m Q k2) ->
  wp (printf_lit fmt ws ;;; m) Q k1.
Proof.
  intros P Hl Hin Ha Ht Hm. apply wp_bind.
  eapply wp_mono; [apply (printf_lit_wp k1 fmt ws args t); try done; [apply P|by eapply lits_shows|by eapply args_prints]|].
  intros r k2 P2. apply Hm. by eapply prints_trans.
Qed.

Lemma printf_lits_wp l : forall k k1 s,
  prints k k1 s -> lits_ok (k_mem k) -> Forall (fun t => t ∈ shell_literals /\ format_text t [] = Some t) l ->
  wp (printf_lits l) (fun _ k' => prints k k' (s ++ concat l)) k1.
Proof.
  induction l as [|t l IH]; intros k k1 s P Hl Hall; cbn [printf_lits concat].
  - apply wp_ret. by rewrite app_nil_r.
  - apply Forall_cons in Hall as [[Hin Ht] Hall].
    eapply (printf_lit_next k k1 s t [] [] t); try done. intros k2 P2. rewrite app_assoc. by apply IH.
Qed.

Lemma help_entries_wp l : forall k k1 s,
  prints k k1 s -> lits_ok (k_mem k) ->
  Forall (fun c => cmd_name c ∈ shell_literals /\ cmd_description c ∈ shell_literals) l ->
  wp (help_entries l) (fun _ k' => prints k k' (s ++ concat (help_entry <$> l))) k1.
Proof.
  induction l as [|c l IH]; intros k k1 s P Hl Hall; cbn [help_entries concat fmap list_fmap].
  - apply wp_ret. by rewrite app_nil_r.
  - apply Forall_cons in Hall as [[Hn Hd] Hall].
    eapply (printf_lit_next k k1 s _ _ [A_str (cmd_name c); A_str (cmd_description c)] (help_entry c)); try done.
    + by do 8 right; left.
    + apply Forall2_cons_2; [by apply Hl|]. apply Forall2_cons_2; [by apply Hl|apply Forall2_nil_2].
    + intros k2 P2. rewrite app_assoc. by apply IH.
Qed.

(** Membership in a closed list. *)
Ltac lit_in := apply (bool_decide_unpack (_ ∈ shell_literals)); vm_compute; exact I.

Lemma cmd_help_wp k argc argv :
  user_ok k -> lits_ok (k_mem k) -> wp (cmd_help argc argv) (fun _ k' => prints k k' help_text) k.
Proof.
  intros Hk Hl. unfold cmd_help, help_text.
  eapply (printf_lit_next k k [] _ _ [] help_title); try done; [by apply prints_refl|lit_in|]. intros k1 P1.
  eapply (printf_lit_next k k1 _ _ _ [] help_rule); try done; [lit_in|]. intros k2 P2.
  apply wp_bind. eapply wp_mono; [apply (help_entries_wp builtin_commands k k2 _ P2 Hl)|].
  { repeat (apply Forall_cons_2; [split; lit_in|]). apply Forall_nil_2. }
  intros [] k3 P3. eapply (printf_lit_next k k3 _ _ _ [] help_rule); try done; [lit_in|]. intros k4 P4.
  apply wp_ret. by rewrite <- !app_assoc in P4.
Qed.

Lemma cmd_about_wp k argc argv :
  user_ok k -> lits_ok (k_mem k) -> wp (cmd_about argc argv) (fun _ k' => prints k k' (concat about_lines)) k.
Proof.
  intros Hk Hl. unfold cmd_about. apply wp_bind.
  eapply wp_mono; [apply (printf_lits_wp about_lines k k []); [by apply prints_refl|done|]|].
  - repeat (apply Forall_cons_2; [split; [lit_in|reflexivity]|]). apply Forall_nil_2.
  - intros [] k' P. by apply wp_ret.
Qed.

Lemma banner_wp k :
  user_ok k -> lits_ok (k_mem k) -> wp (printf_lits banner_lines) (fun _ k' => prints k k' (concat banner_lines)) k.
Proof.
  intros Hk Hl. apply (printf_lits_wp banner_lines k k []); [by apply prints_refl|done|].
  repeat (apply Forall_cons_2; [split; [lit_in|reflexivity]|]). apply Forall_nil_2.
Qed.

(** The argument vector at [argv] holds pointers to the words [ws], apart from
    what output changes. *)
Record args_ok (m : gmap Z Z) (argv : Z) (ws : list (list Z)) (ps : list Z) : Prop := ArgsOk {
  ao_text : Forall2 (text_at m) ps ws;
  ao_ptrs : forall i p, ps !! i = Some p -> word_at m (argv + 4 * Z.of_nat i) = p;
  ao_mapped : mapped m argv (4 * Z.of_nat (length ws));
  ao_range : 0 <= argv /\ argv + 4 * Z.of_nat (length ws) <= 4294967296;
  ao_kept : kept argv (4 * length ws)
}.

Lemma args_ok_prints k k' s argv ws ps : prints k k' s -> args_ok (k_mem k) argv ws ps -> args_ok (k_mem k') argv ws ps.
Proof.
  intros P [Ht Hp Hm Hr Hk]. pose proof (Forall2_length _ _ _ Ht) as Hlen. constructor; try done.
  - eapply Forall2_impl; [done|]. intros p w. by apply text_at_shows with (term_write (term_of k) s) s.
  - intros i p Hi. rewrite <- (Hp i p Hi). apply word_at_ext. intros j Hj. pose proof (lookup_lt_Some _ _ _ Hi).
    rewrite (p_mem _ _ _ _ P); [done|]. replace (argv + 4 * Z.of_nat i + j) with (argv + (4 * Z.of_nat i + j)) by lia.
    apply Hk. lia.
  - intros i Hi. rewrite (p_mem _ _ _ _ P); [by apply Hm|]. apply Hk. lia.
Qed.

(** Loading an argument. *)
Lemma load_arg_wp k argv ws ps i w (Q : Z -> kernel -> Prop) :
  args_ok (k_mem k) argv ws ps -> ws !! i = Some w ->
  (forall p, text_at (k_mem k) p w -> Q p k) -> wp (load32 (argv + 4 * Z.of_nat i)) Q k.
Proof.
  intros [Ht Hp Hm Hr Hk] Hw HQ. pose proof (lookup_lt_Some _ _ _ Hw) as Hlt.
  destruct (Forall2_lookup_r _ _ _ _ _ Ht Hw) as (p & Hpi & Htp).
  eapply wp_eq; [apply load32_eq; [apply (mapped_sub _ argv (4 * Z.of_nat (length ws))); [done|lia|lia]|lia|lia]|].
  rewrite (Hp i p Hpi). by apply HQ.
Qed.

Lemma echo_loop_wp argv ps ws : forall pre rest k k1 s n,
  ws = pre ++ rest -> prints k k1 s -> lits_ok (k_mem k) -> args_ok (k_mem k) argv ws ps -> n = length rest ->
  wp (for_loop (Z.of_nat (length pre)) 1 n (fun i =>
    a <- load32 (argv + 4 * i) ;;
    printf_lit (str "%s") [a] ;;;
    when i <? Z.of_nat (length ws) - 1 do (printf_lit (str " ") [] ;;; ret tt)))
    (fun _ k' => prints k k' (s ++ join rest)) k1.
Proof.
  intros pre rest. revert pre. induction rest as [|w rest IH]; intros pre k k1 s n Hws P Hl Ha ->; cbn [length for_loop].
  { apply wp_ret. cbn [join]. by rewrite app_nil_r. }
  apply wp_bind, wp_bind. eapply (load_arg_wp k1 argv ws ps (length pre) w).
  { by eapply args_ok_prints. }
  { rewrite Hws, lookup_app_r by lia. by rewrite Nat.sub_diag. }
  intros p Hp. apply wp_bind.
  eapply wp_mono.
  { apply (printf_lit_wp k1 (str "%s") [p] [A_str w] w); [apply P|by eapply lits_shows|lit_in| |].
    - apply Forall2_cons_2; [done|apply Forall2_nil_2].
    - change (Some (w ++ []) = Some w). by rewrite app_nil_r. }
  intros r k2 P2. pose proof (prints_trans _ _ _ _ _ P P2) as P12.
  replace (Z.of_nat (length pre) + 1) with (Z.of_nat (length (pre ++ [w]))) by (rewrite length_app; simpl; lia).
  assert (ws = (pre ++ [w]) ++ rest) as Hws' by (by rewrite <- app_assoc).
  destruct rest as [|w2 rest].
  - rewrite (proj2 (Z.ltb_ge _ _)) by (rewrite Hws, length_app; simpl; lia). apply wp_ret.
    cbn [length for_loop join]. by apply wp_ret.
  - rewrite (proj2 (Z.ltb_lt _ _)) by (rewrite Hws, length_app; simpl; lia).
    eapply (printf_lit_next k k2 (s ++ w) (str " ") [] [] [32]); try done; [lit_in|]. intros k3 P3. apply wp_ret.
    change (join (w :: w2 :: rest)) with (w ++ [32] ++ join (w2 :: rest)). rewrite !app_assoc.
    by apply (IH (pre ++ [w])).
Qed.

Lemma cmd_echo_wp k argv w ws ps :
  user_ok k -> lits_ok (k_mem k) -> args_ok (k_mem k) argv (w :: ws) ps ->
  wp (cmd_echo (Z.of_nat (length (w :: ws))) argv) (fun _ k' => prints k k' (join ws ++ [10])) k.
Proof.
  intros Hk Hl Ha. unfold cmd_echo. apply wp_bind. unfold for_up.
  eapply wp_mono.
  { apply (echo_loop_wp argv ps (w :: ws) [w] ws k k []); [done|by apply prints_refl|done|done|simpl; lia]. }
  intros [] k1 P1. eapply (printf_lit_next k k1 _ [10] [] [] [10]); try done; [lit_in|]. intros k2 P2. by apply wp_ret.
Qed.

(** One comparison of the dispatch loop. *)
Lemma dispatch_step {A} k argv w ws ps name (m1 m2 : K A) Q :
  lits_ok (k_mem k) -> args_ok (k_mem k) argv (w :: ws) ps -> name ∈ shell_literals ->
  (w = name -> wp m1 Q k) -> (w <> name -> wp m2 Q k) ->
  wp (p <- load32 argv ;; r <- strcmp p (lit_addr name) ;; if r =? 0 then m1 else m2) Q k.
Proof.
  intros Hl Ha Hin Heq Hne. apply wp_bind. replace argv with (argv + 4 * Z.of_nat 0) by lia.
  eapply (load_arg_wp k argv (w :: ws) ps 0 w); [done|done|]. intros p Hp. pose proof (Hl _ Hin) as Hn.
  apply wp_bind. eapply wp_eq; [eapply strcmp_loop_eq; [apply Hp|apply Hn|apply Hp]|].
  pose proof (str_diff_eq w name (cstr_bytes _ _ _ (ta_str _ _ _ Hp)) (cstr_bytes _ _ _ (ta_str _ _ _ Hn))) as Hd.
  destruct (Z.eqb_spec (str_diff w name) 0) as [E|E]; [by apply Heq, Hd|]. apply Hne. by rewrite Hd in E.
Qed.

Definition is_builtin (w : list Z) : bool :=
  bool_decide (w = str "help") || bool_decide (w = str "clear") || bool_decide (w = str "echo") || bool_decide (w = str "about").

Lemma dispatch_wp k argv w ws ps :
  user_ok k -> lits_ok (k_mem k) -> args_ok (k_mem k) argv (w :: ws) ps ->
  wp (dispatch builtin_commands (Z.of_nat (length (w :: ws))) argv)
    (fun r k' => if is_builtin w then r = 1 /\ shows k k' (command_screen (w :: ws) (term_of k)) (command_serial (w :: ws))
       else r = 0 /\ k' = k) k.
Proof.
  intros Hk Hl Ha. cbn [builtin_commands dispatch cmd_name cmd_func run_command].
  eapply dispatch_step; [done|done|lit_in|intros ->|intros Hne1].
  { apply wp_bind. eapply wp_mono; [by apply cmd_help_wp|]. intros r k' P. by apply wp_ret. }
  eapply dispatch_step; [done|done|lit_in|intros ->|intros Hne2].
  { apply wp_bind. unfold cmd_clear. apply wp_bind. eapply wp_mono; [by apply user_clear_wp|]. intros r k' [_ P].
    apply wp_ret, wp_ret. by split. }
  eapply dispatch_step; [done|done|lit_in|intros ->|intros Hne3].
  { apply wp_bind. eapply wp_mono; [by eapply cmd_echo_wp|]. intros r k' P. by apply wp_ret. }
  eapply dispatch_step; [done|done|lit_in|intros ->|intros Hne4].
  { apply wp_bind. eapply wp_mono; [by apply cmd_about_wp|]. intros r k' P. by apply wp_ret. }
  apply wp_ret. unfold is_builtin. by rewrite !bool_decide_eq_false_2 by done.
Qed.

(** From the argument vector to the effect of the command. *)
Lemma run_words_wp k argv w ws ps :
  user_ok k -> lits_ok (k_mem k) -> args_ok (k_mem k) argv (w :: ws) ps ->
  wp (found <- dispatch builtin_commands (Z.of_nat (length (w :: ws))) argv ;;
      when found =? 0 do (name <- load32 argv ;; printf_lit not_found_format [name] ;;; ret tt))
    (fun _ k' => shows k k' (command_screen (w :: ws) (term_of k)) (command_serial (w :: ws))) k.
Proof.
  intros Hk Hl Ha. apply wp_bind. eapply wp_mono; [by eapply dispatch_wp|]. intros r k1 Hr.
  destruct (is_builtin w) eqn:Hb; [destruct Hr as [-> P]; by apply wp_ret|]. destruct Hr as [-> ->]. cbn [Z.eqb]. apply wp_bind.
  replace argv with (argv + 4 * Z.of_nat 0) at 1 by lia.
  eapply (load_arg_wp k argv (w :: ws) ps 0 w); [done|done|]. intros p Hp. apply wp_bind.
  eapply wp_mono.
  { apply (printf_lit_wp k not_found_format [p] [A_str w] (not_found_text w)); [done|done|lit_in| |reflexivity].
    apply Forall2_cons_2; [done|apply Forall2_nil_2]. }
  intros r k2 P2. apply wp_ret. unfold is_builtin in Hb. rewrite !orb_false_iff, !bool_decide_eq_false in Hb.
  destruct Hb as [[[Hb1 Hb2] Hb3] Hb4].
  unfold command_screen, command_serial, is_clear, command_text. cbn [head].
  by rewrite !bool_decide_eq_false_2 by congruence.
Qed.
End Commands.

