(* ===== verification/ShellTurn.v ===== *)
(** One turn of the shell's main loop, and any number of them: the session a
    user sees. *)
From S2P Require Import Prelude State Machine Framebuffer FramebufferFacts Isr Keyboard Serial SerialFacts Pic Interrupt InterruptFacts Syscall SyscallFacts SyscallCalls CString Stdio StdioFacts Printf Shell TokenizeFacts ShellFacts.

(** * The session, abstractly *)

(** A turn shows the prompt, the echoes of the line as it is edited, and the
    effect of the command. *)
Definition turn_screen (t : term) (line : list Z) (es : list echo) : term :=
  command_screen (words line) (term_write (term_write t prompt) (concat (screen_echo <$> es))).
Definition turn_sent (line : list Z) (es : list echo) : list Z :=
  prompt ++ concat (serial_echo <$> es) ++ command_serial (words line).

(** [n] turns on the input [cs] from the screen [t]: the final screen, what was
    sent over the serial line, and the input left; [None] when the input does not
    finish the lines or a line has more than 15 words. *)
Fixpoint session (n : nat) (t : term) (cs : list Z) : option (term * list Z * list Z) :=
  match n with
  | O => Some (t, [], cs)
  | S n' =>
      '(line, rest, es) ← edit_line MAX_LINE_LEN [] cs;
      if Z.of_nat (length (words line)) <? MAX_ARGS then
        '(t', sent, rest') ← session n' (turn_screen t line es) rest;
        Some (t', turn_sent line es ++ sent, rest')
      else None
  end.

(** * The shell's memory *)

(** The buffers lie below 4GB, apart from each other, from the string literals and
    from what output changes. *)
Class ShellPlaced `{Layout} `{UserLayout} `{ShellLayout} : Prop := {
  line_range : 0 < line_buf_addr /\ line_buf_addr + 128 <= 4294967296;
  argv_range : 0 <= argv_addr /\ argv_addr + 64 <= 4294967296;
  line_argv_apart : line_buf_addr + 128 <= argv_addr \/ argv_addr + 64 <= line_buf_addr;
  line_kept : kept line_buf_addr 128;
  argv_kept : kept argv_addr 64;
  lits_apart : forall s x, s ∈ shell_literals -> lit_addr s <= x <= lit_addr s + Z.of_nat (length s) ->
    ~ line_buf_addr <= x < line_buf_addr + 128 /\ ~ argv_addr <= x < argv_addr + 64
}.

Record shell_ok `{PollFuel} `{Layout} `{UserLayout} `{ShellLayout} (k : kernel) : Prop := ShellOk {
  so_user : user_ok k;
  so_lits : lits_ok (k_mem k);
  so_line : mapped (k_mem k) line_buf_addr 128;
  so_argv : mapped (k_mem k) argv_addr 64;
  so_kbd : kbd_ok (k_kbd k);
  so_isr : isr_ok (k_isr k)
}.

Section Turn.
Context `{Env} `{PollFuel} `{Layout} `{UserLayout} `{ShellLayout} `{!UserPlaced} `{!ShellPlaced} `{!UartReady}.

Lemma text_at_ext m m' a s :
  (forall x, a <= x <= a + Z.of_nat (length s) -> m' !! x = m !! x) -> text_at m a s -> text_at m' a s.
Proof. intros Hx [Hpos Hstr Hkept Hfuel Hlen]. constructor; try done. by eapply cstr_ext. Qed.

(** A literal is not where the program or the kernel writes. *)
Lemma lits_ok_ext m m' :
  (forall x, ~ line_buf_addr <= x < line_buf_addr + 128 -> ~ argv_addr <= x < argv_addr + 64 -> ~ scratch x ->
     m' !! x = m !! x) -> lits_ok m -> lits_ok m'.
Proof.
  intros Hm Hl s Hs. pose proof (Hl s Hs) as Ht. eapply text_at_ext; [|exact Ht].
  intros x Hx. destruct (lits_apart s x Hs Hx) as [Ha1 Ha2]. apply Hm; [done|done|].
  replace x with (lit_addr s + (x - lit_addr s)) by lia. apply (ta_kept _ _ _ Ht). lia.
Qed.

Lemma mapped_shows k k' t s a n : shows k k' t s -> kept a n -> mapped (k_mem k) a (Z.of_nat n) -> mapped (k_mem k') a (Z.of_nat n).
Proof. intros P Hk Hm i Hi. rewrite (p_mem _ _ _ _ P); [by apply Hm|]. by apply Hk. Qed.

Lemma shell_ok_shows k k' t s : shows k k' t s -> shell_ok k -> shell_ok k'.
Proof.
  intros P [Hu Hl Hline Hargv Hkbd Hisr]. constructor.
  - apply P.
  - by eapply lits_shows.
  - by apply (mapped_shows k k' t s _ 128 P line_kept).
  - by apply (mapped_shows k k' t s _ 64 P argv_kept).
  - by rewrite (p_kbd _ _ _ _ P).
  - by rewrite (p_isr _ _ _ _ P).
Qed.

(** Writing in the line buffer and the argument vector changes nothing else. *)
Lemma shell_ok_mem k m :
  shell_ok k -> (forall x, ~ line_buf_addr <= x < line_buf_addr + 128 -> ~ argv_addr <= x < argv_addr + 64 -> m !! x = k_mem k !! x) ->
  (forall a n, mapped (k_mem k) a n -> mapped m a n) -> shell_ok (set_mem m k) /\ term_of (set_mem m k) = term_of k.
Proof.
  intros [[Hfb Hdl Hfr Hch] Hl Hline Hargv Hkbd Hisr] Hm Hmap. split.
  - constructor; try done; [|eapply lits_ok_ext; [|done]; auto|by apply Hmap|by apply Hmap].
    constructor; [|done|by apply Hmap|by apply Hmap]. destruct Hfb. constructor; [by apply Hmap|done|done].
  - assert (forall x, fb <= x < fb + 4000 -> m !! x = k_mem k !! x) as Hwin.
    { intros x Hx. apply Hm; intros Hc.
      - apply (line_kept (x - line_buf_addr)); [lia|]. left. lia.
      - apply (argv_kept (x - argv_addr)); [lia|]. left. lia. }
    by apply term_same.
Qed.

(** A kept range is apart from each range that output changes. *)
Lemma line_buf_placed :
  buf_ok line_buf_addr 128 /\ (trap_frame + 68 <= line_buf_addr \/ line_buf_addr + 128 <= trap_frame) /\
  ~ line_buf_addr <= putchar_ch < line_buf_addr + 128.
Proof.
  destruct line_range as [Hl1 Hl2], (kept_placed _ _ line_kept) as (Hp1 & Hp2 & Hp3); [lia|].
  unfold buf_ok. split_and!; lia.
Qed.

Context (keys : trace -> list Z) `{!KbdSource keys}.
Context (Hidle : forall tr, Z.land (u8 (env_in tr 0x3FD)) 1 = 0).
Context (Hfuel : forall tr, (2 * length (keys tr) + 256 < poll_fuel)%nat).

Lemma shell_ok_reads k k' line rest es :
  user_reads keys line_buf_addr 128 k k' line rest es -> shell_ok k -> shell_ok k'.
Proof.
  intros [] [Hu Hl Hline Hargv Hkbd Hisr]. constructor; try done.
  - eapply lits_ok_ext; [|done]. auto.
  - by apply ur_mapped.
  - by apply ur_mapped.
Qed.

Lemma pending_bound k : kbd_ok (k_kbd k) -> (2 * length (keys (k_trace k)) + length (queue_of (k_kbd k)) < poll_fuel)%nat.
Proof.
  intros Hk. pose proof (queue_length _ Hk). pose proof (Hfuel (k_trace k)). destruct Hk. unfold KBD_BUFFER_SIZE in *. lia.
Qed.

(** [gets] on the line buffer. *)
Lemma gets_wp k line rest es :
  shell_ok k -> edit_line 128 [] (input_of keys k) = Some (line, rest, es) ->
  wp (c_gets line_buf_addr 128) (fun r k' => r = (if bool_decide (line = []) then 0 else line_buf_addr) /\
    user_reads keys line_buf_addr 128 k k' line rest es) k.
Proof.
  intros [Hu Hl Hline Hargv Hkbd Hisr] Hed. destruct line_buf_placed as (Hb1 & Hb2 & Hb3), line_range as [Hl1 Hl2].
  unfold c_gets. apply wp_bind.
  eapply wp_mono; [apply (user_read_wp keys Hidle k line_buf_addr 128 line rest es); try done; by apply pending_bound|].
  intros r k' [-> R]. destruct line as [|c line].
  - by apply wp_ret.
  - rewrite (proj2 (Z.leb_gt _ _)) by (simpl; lia). by apply wp_ret.
Qed.

(** The argument vector that the tokenizer leaves. *)
Lemma tokens_args m ws ps len :
  tokens m argv_addr 0 line_buf_addr (line_buf_addr + len) ws ps -> mapped m argv_addr 64 ->
  len < 128 -> Z.of_nat (length ws) < 16 -> args_ok m argv_addr ws ps.
Proof.
  intros [Hs Hr Hp] Hm Hlen Hws. destruct line_range as [Hl1 Hl2], argv_range as [Ha1 Ha2].
  assert (128 < poll_fuel)%nat as Hf by (pose proof (Hfuel []); lia). constructor.
  - clear Hp Hws. induction Hs as [|p w ps ws Hw Hs IH]; inversion Hr; subst; constructor; [|auto].
    constructor; [lia|done| |lia|lia]. intros i Hi. replace (p + i) with (line_buf_addr + (p - line_buf_addr + i)) by lia.
    apply line_kept. lia.
  - intros i p Hi. by rewrite <- (Hp i p Hi).
  - apply (mapped_sub _ argv_addr 64); [done|lia|lia].
  - lia.
  - intros i Hi. apply argv_kept. lia.
Qed.

(** Splitting the line and running its words. *)
Lemma run_line_wp k line :
  shell_ok k -> cstr (k_mem k) line_buf_addr line -> Z.of_nat (length line) < 128 -> Z.of_nat (length (words line)) < 16 ->
  wp (argc <- tokenize line_buf_addr argv_addr MAX_ARGS ;;
      if argc =? 0 then ret tt
      else
        found <- dispatch builtin_commands argc argv_addr ;;
        when found =? 0 do (name <- load32 argv_addr ;; printf_lit not_found_format [name] ;;; ret tt))
    (fun _ k' => shell_ok k' /\ term_of k' = command_screen (words line) (term_of k) /\
       uart_tx (uart_of (k_trace k')) = rev (command_serial (words line)) ++ uart_tx (uart_of (k_trace k)) /\
       input_of keys k' = input_of keys k) k.
Proof.
  intros Hk Hs Hlen Hws. pose proof Hk as [Hu Hl Hline Hargv Hkbd Hisr].
  destruct line_range as [Hl1 Hl2], argv_range as [Ha1 Ha2]. pose proof line_argv_apart as Hap.
  assert (128 < poll_fuel)%nat as Hf by (pose proof (Hfuel []); lia).
  assert (0 <= argv_addr /\ argv_addr + 4 * 16 <= 4294967296) as Ha by lia.
  apply wp_bind. eapply wp_mono.
  { apply (tokenize_wp argv_addr 16 Ha k line_buf_addr line); [|done]. constructor; [done|done|lia|lia|lia]. }
  intros r k1 (m & ps & -> & -> & Htok & _ & Hd1 & Hd2).
  destruct (shell_ok_mem k m Hk) as [Hk1 Ht1]; [intros x Hx1 Hx2; apply Hd1; lia|exact Hd2|].
  destruct (words line) as [|w ws] eqn:Hw; [apply wp_ret; by rewrite Ht1|].
  rewrite (proj2 (Z.eqb_neq _ 0)) by (simpl; lia). eapply wp_mono.
  { apply (run_words_wp (set_mem m k) argv_addr w ws ps); [apply Hk1|apply Hk1|].
    apply (tokens_args m (w :: ws) ps (Z.of_nat (length line))); [done|apply Hk1|done|done]. }
  intros [] k' P. split_and!; [by eapply shell_ok_shows|by rewrite (p_term _ _ _ _ P), Ht1|exact (p_tx _ _ _ _ P)|].
  by destruct (shows_input keys _ _ _ _ P) as [-> _].
Qed.

Lemma shell_iteration_wp k line rest es :
  shell_ok k -> edit_line MAX_LINE_LEN [] (input_of keys k) = Some (line, rest, es) ->
  Z.of_nat (length (words line)) < MAX_ARGS ->
  wp shell_iteration (fun _ k' => shell_ok k' /\ term_of k' = turn_screen (term_of k) line es /\
    uart_tx (uart_of (k_trace k')) = rev (turn_sent line es) ++ uart_tx (uart_of (k_trace k)) /\
    input_of keys k' = rest) k.
Proof.
  intros Hk Hed Hws. unfold shell_iteration, turn_screen, turn_sent. apply wp_bind.
  eapply wp_mono; [apply (printf_lit_wp k prompt [] [] prompt); [apply Hk|apply Hk|by do 4 right; left|done|done]|].
  intros r k1 P1. pose proof (shell_ok_shows _ _ _ _ P1 Hk) as Hk1. destruct (shows_input keys _ _ _ _ P1) as [Hin _].
  apply wp_bind. eapply wp_mono; [apply (gets_wp k1 line rest es Hk1); by rewrite Hin|].
  intros r1 k2 [-> R]. pose proof (shell_ok_reads _ _ _ _ _ R Hk1) as Hk2.
  assert (term_of k2 = term_write (term_write (term_of k) prompt) (concat (screen_echo <$> es))) as Ht
    by (by rewrite (ur_term _ _ _ _ _ _ _ _ R), (p_term _ _ _ _ P1)).
  assert (uart_tx (uart_of (k_trace k2)) = rev (prompt ++ concat (serial_echo <$> es)) ++ uart_tx (uart_of (k_trace k))) as Htx
    by (by rewrite (ur_tx _ _ _ _ _ _ _ _ R), (p_tx _ _ _ _ P1), rev_app_distr, app_assoc).
  case_bool_decide as Hl.
  - subst line. apply wp_ret. split_and!; [done|done| |apply R]. by rewrite app_nil_r.
  - rewrite (proj2 (Z.eqb_neq _ 0)) by (destruct line_range; lia).
    eapply wp_mono; [apply (run_line_wp k2 line Hk2); [apply R|apply R|done]|].
    intros [] k3 (Hk3 & Ht3 & Htx3 & Hin3). split_and!; [done|by rewrite Ht3, Ht| |by rewrite Hin3; apply R].
    by rewrite Htx3, Htx, app_assoc, <- rev_app_distr, <- app_assoc.
Qed.

Lemma shell_turns_wp n : forall lo k t sent rest,
  shell_ok k -> session n (term_of k) (input_of keys k) = Some (t, sent, rest) ->
  wp (for_loop lo 1 n (fun _ => shell_iteration)) (fun _ k' => shell_ok k' /\ term_of k' = t /\
    uart_tx (uart_of (k_trace k')) = rev sent ++ uart_tx (uart_of (k_trace k)) /\ input_of keys k' = rest) k.
Proof.
  induction n as [|n IH]; intros lo k t sent rest Hk Hs; cbn [session for_loop] in *.
  { simplify_eq. by apply wp_ret. }
  destruct (edit_line MAX_LINE_LEN [] (input_of keys k)) as [[[line rest1] es]|] eqn:Hed; [|done]. cbn -[turn_sent turn_screen] in Hs.
  destruct (Z.ltb_spec (Z.of_nat (length (words line))) MAX_ARGS) as [Hlt|]; [|done].
  destruct (session n (turn_screen (term_of k) line es) rest1) as [[[t' sent'] rest']|] eqn:Hrec; [|done]. cbn -[turn_sent] in Hs.
  simplify_eq. apply wp_bind. eapply wp_mono; [by apply (shell_iteration_wp k line rest1 es)|].
  intros [] k1 (Hk1 & Ht1 & Htx1 & Hin1).
  eapply wp_mono; [apply (IH (lo + 1) k1 t sent' rest Hk1); by rewrite Ht1, Hin1|].
  intros [] k2 (Hk2 & Ht2 & Htx2 & Hin2). split_and!; [done|done| |done].
  by rewrite Htx2, Htx1, rev_app_distr, app_assoc.
Qed.

Lemma main_wp n k t sent rest :
  shell_ok k -> session n (term_write (term_of k) (concat banner_lines)) (input_of keys k) = Some (t, sent, rest) ->
  wp (main n) (fun _ k' => term_of k' = t /\
    uart_tx (uart_of (k_trace k')) = rev (concat banner_lines ++ sent) ++ uart_tx (uart_of (k_trace k)) /\
    input_of keys k' = rest /\ shell_ok k') k.
Proof.
  intros Hk Hs. unfold main. apply wp_bind. eapply wp_mono; [apply banner_wp; apply Hk|].
  intros [] k1 P. destruct (shows_input keys _ _ _ _ P) as [Hin _].
  eapply wp_mono; [apply (shell_turns_wp n 0 k1 t sent rest (shell_ok_shows _ _ _ _ P Hk));
    by rewrite Hin, (p_term _ _ _ _ P)|].
  intros [] k2 (Hk2 & Ht2 & Htx2 & Hin2). split_and!; [done| |done|done].
  by rewrite Htx2, (p_tx _ _ _ _ P), rev_app_distr, app_assoc.
Qed.
End Turn.
