(* ===== verification/UserSamples.v ===== *)
(** A sample placement of the user program, with its string literals in memory,
    on which the theorems about the user library and the shell are instantiated. *)
From S2P Require Import Prelude State Machine Image Framebuffer FramebufferFacts Isr Keyboard Serial SerialFacts Pic Interrupt InterruptFacts Samples Syscall SyscallFacts SyscallCalls CString Stdio StdioFacts Printf Shell TokenizeFacts ShellFacts ShellTurn.

(** * Bytes in memory *)

Fixpoint put_bytes (m : gmap Z Z) (a : Z) (l : list Z) : gmap Z Z :=
  match l with
  | [] => m
  | c :: l' => <[a := c]> (put_bytes m (a + 1) l')
  end.

Lemma put_bytes_ne m a l x : ~ a <= x < a + Z.of_nat (length l) -> put_bytes m a l !! x = m !! x.
Proof.
  revert a. induction l as [|c l IH]; intros a Hx; [done|]. cbn [put_bytes length] in *.
  rewrite lookup_insert_ne by lia. apply IH. lia.
Qed.

Lemma put_bytes_eq m a l i c : l !! i = Some c -> put_bytes m a l !! (a + Z.of_nat i) = Some c.
Proof.
  revert a i. induction l as [|d l IH]; intros a [|i] Hi; [done|done|..]; cbn [put_bytes].
  - apply (inj Some) in Hi. subst d. rewrite Z.add_0_r. apply lookup_insert_eq.
  - rewrite lookup_insert_ne by lia. replace (a + Z.of_nat (S i)) with (a + 1 + Z.of_nat i) by lia. by apply IH.
Qed.

Lemma put_bytes_mapped m a l b n : Forall is_u8 l -> mapped m b n -> mapped (put_bytes m a l) b n.
Proof.
  intros Hl. revert a. induction Hl as [|c l Hc _ IH]; intros a Hm; [done|]. cbn [put_bytes].
  by apply mapped_insert; [apply IH|].
Qed.

Lemma put_bytes_cstr m a s :
  Forall nonzero s -> 0 <= a -> a + Z.of_nat (length s) < 4294967296 -> cstr (put_bytes m a (s ++ [0])) a s.
Proof.
  intros Hs Ha Hl. split; [|done]. intros i c Hi. split; [by apply put_bytes_eq|].
  apply lookup_lt_Some in Hi. rewrite length_app in Hi. simpl in Hi. word_solve.
Qed.

Lemma mapped_union_zero m lo len a n :
  mapped m a n \/ lo <= a /\ a + n <= lo + len -> mapped (zero_mem lo len ∪ m) a n.
Proof.
  intros Hm i Hi. destruct (zero_mem lo len !! (a + i)) as [v|] eqn:E.
  - exists v. split; [by apply lookup_union_Some_l|]. unfold zero_mem in E.
    apply lookup_gset_to_gmap_Some in E as [_ <-]. word_solve.
  - destruct Hm as [Hm|Hm].
    + destruct (Hm i Hi) as (v & Hv & Hr). exists v. split; [|done]. by rewrite lookup_union_r.
    + by rewrite zero_mem_lookup in E by lia.
Qed.

(** * The program

    Literals in slots of 128 bytes from 0x8000 of the 64KB image, [line_buf] and
    [argv] below them, and [putchar]'s variable on the stack page. *)

Fixpoint index (l : list (list Z)) (s : list Z) : Z :=
  match l with
  | [] => 0
  | t :: l' => if bool_decide (t = s) then 0 else 1 + index l' s
  end.

Lemma index_range l s : 0 <= index l s <= Z.of_nat (length l).
Proof. induction l as [|t l IH]; simpl; [lia|]. case_bool_decide; lia. Qed.

Lemma index_inj l s t : s ∈ l -> index l s = index l t -> s = t.
Proof.
  induction 1 as [s l|s u l Hs IH]; cbn [index].
  - rewrite (bool_decide_eq_true_2 (s = s)) by done. case_bool_decide; [done|]. pose proof (index_range l t). lia.
  - pose proof (index_range l s). pose proof (index_range l t).
    repeat case_bool_decide; [congruence|lia|lia|]. intros E. apply IH. lia.
Qed.

#[export] Instance sample_user : UserLayout := {
  lit_addr := fun s => 0x8000 + 128 * index shell_literals s;
  putchar_ch := 0xBFFFFFF0
}.
#[export] Instance sample_shell : ShellLayout := { line_buf_addr := 0x6000; argv_addr := 0x6100 }.

(** The address space of the program: image, stack page and the kernel's 4MB. *)
Definition user_space : gmap Z Z := zero_mem 0 65536 ∪ (zero_mem 0xBFFFF000 4096 ∪ sample_mem).
(** The literals of an image that starts at [off]. *)
Definition put_literals (off : Z) (l : list (list Z)) (m : gmap Z Z) : gmap Z Z :=
  foldr (fun s m => put_bytes m (off + lit_addr s) (s ++ [0])) m l.
Definition user_mem : gmap Z Z := put_literals 0 shell_literals user_space.
Definition user_kernel : kernel := set_mem user_mem sample_ready.

Lemma lit_addr_eq s : lit_addr s = 0x8000 + 128 * index shell_literals s.
Proof. reflexivity. Qed.

Lemma literal_slot s : s ∈ shell_literals -> 0x8000 <= lit_addr s /\ lit_addr s + Z.of_nat (length s) < 65536.
Proof.
  intros Hs. pose proof literals_small as Hl. rewrite Forall_forall in Hl. destruct (Hl s Hs) as [Hlen _].
  pose proof (index_range shell_literals s). change (Z.of_nat (length shell_literals)) with 27 in *.
  rewrite lit_addr_eq. lia.
Qed.

Lemma put_literals_cons off t l m :
  put_literals off (t :: l) m = put_bytes (put_literals off l m) (off + lit_addr t) (t ++ [0]).
Proof. reflexivity. Qed.

Lemma put_literals_cstr off l m s :
  0 <= off < 2147483648 -> s ∈ l -> (forall t, t ∈ l -> t ∈ shell_literals) -> cstr (put_literals off l m) (off + lit_addr s) s.
Proof.
  pose proof literals_small as Hsm. rewrite Forall_forall in Hsm.
  intros Hoff. induction l as [|t l IH]; intros Hs Hin; [by apply elem_of_nil in Hs|]. rewrite put_literals_cons.
  destruct (decide (t = s)) as [->|Hne].
  - assert (s ∈ shell_literals) as Hsl by (by apply Hin). destruct (Hsm s Hsl) as [Hlen Hnz].
    pose proof (literal_slot s Hsl). apply put_bytes_cstr; [done|lia|lia].
  - assert (s ∈ l) as Hsl by (by apply elem_of_cons in Hs as [->|]).
    eapply cstr_ext; [|apply IH; [done|intros u Hu; apply Hin; by right]].
    intros x Hx. apply put_bytes_ne. rewrite length_app. cbn [length].
    assert (s ∈ shell_literals) as Hs1 by (by apply Hin; right). assert (t ∈ shell_literals) as Ht1 by (apply Hin; left).
    destruct (Hsm s Hs1) as [Hlen1 _], (Hsm t Ht1) as [Hlen2 _].
    assert (index shell_literals t <> index shell_literals s) as Hix by (intros E; by apply index_inj in E).
    rewrite !lit_addr_eq in *. lia.
Qed.

Lemma put_literals_ne off l m x :
  (forall t, t ∈ l -> t ∈ shell_literals) -> ~ off + 0x8000 <= x < off + 65536 -> put_literals off l m !! x = m !! x.
Proof.
  intros Hin Hx. induction l as [|t l IH]; [done|]. rewrite put_literals_cons.
  assert (t ∈ shell_literals) as Ht by (apply Hin; left). pose proof (literal_slot t Ht).
  rewrite put_bytes_ne; [apply IH; intros u Hu; apply Hin; by right|]. rewrite length_app. cbn [length]. lia.
Qed.

Lemma put_literals_mapped off l m a n :
  (forall t, t ∈ l -> t ∈ shell_literals) -> mapped m a n -> mapped (put_literals off l m) a n.
Proof.
  pose proof literals_small as Hsm. rewrite Forall_forall in Hsm.
  induction l as [|t l IH]; intros Hin Hm; [done|]. rewrite put_literals_cons. apply put_bytes_mapped.
  - apply Forall_app_2; [|by apply Forall_singleton]. destruct (Hsm t) as [_ Ht]; [apply Hin; left|].
    eapply Forall_impl; [exact Ht|]. unfold nonzero. intros c Hc. word_solve.
  - apply IH; [|done]. intros u Hu. apply Hin. by right.
Qed.

Lemma user_space_mapped a n :
  0 <= a /\ a + n <= 65536 \/ 0xBFFFF000 <= a /\ a + n <= 0xC0000000 \/ 0xC0000000 <= a /\ a + n <= 0xC0400000 ->
  mapped user_space a n.
Proof.
  intros Ha. apply mapped_union_zero. destruct Ha as [Ha|[Ha|Ha]]; [by right|left|left];
    apply mapped_union_zero; [by right|left]. apply zero_mem_mapped; lia.
Qed.

Lemma user_mem_mapped a n :
  0 <= a /\ a + n <= 65536 \/ 0xBFFFF000 <= a /\ a + n <= 0xC0000000 \/ 0xC0000000 <= a /\ a + n <= 0xC0400000 ->
  mapped user_mem a n.
Proof. intros Ha. apply put_literals_mapped; [done|]. by apply user_space_mapped. Qed.

Lemma trap_frame_eq : trap_frame = 0xC0180FBC.
Proof. reflexivity. Qed.

#[export] Instance sample_user_placed : UserPlaced.
Proof. constructor; rewrite ?trap_frame_eq; unfold fb; cbn; lia. Qed.

(** What output changes is above the image. *)
Lemma image_kept a n : 0 <= a -> a + Z.of_nat n <= 65536 -> kept a n.
Proof. intros Ha Hn i Hi Hs. unfold scratch in Hs. rewrite trap_frame_eq in Hs. unfold fb in Hs. cbn in Hs. lia. Qed.

#[export] Instance sample_shell_placed : ShellPlaced.
Proof.
  constructor; try (cbn; lia).
  - by apply image_kept.
  - by apply image_kept.
  - intros s x Hs Hx. pose proof (literal_slot s Hs). cbn [line_buf_addr argv_addr sample_shell]. lia.
Qed.

Section Sample.
Local Existing Instance sample_fuel.

Lemma user_text s : s ∈ shell_literals -> text_at user_mem (lit_addr s) s.
Proof.
  intros Hs. pose proof (literal_slot s Hs). pose proof literals_small as Hsm.
  rewrite Forall_forall in Hsm. destruct (Hsm s Hs) as [Hlen _]. constructor.
  - lia.
  - by apply (put_literals_cstr 0).
  - apply image_kept; lia.
  - unfold poll_fuel, sample_fuel. lia.
  - lia.
Qed.

Lemma user_kernel_fb : fb_ok user_kernel.
Proof. constructor; [|done|done]. apply user_mem_mapped. by do 2 right. Qed.

Lemma user_kernel_user : user_ok user_kernel.
Proof.
  constructor; [apply user_kernel_fb|done|..]; apply user_mem_mapped.
  - by do 2 right.
  - by right; left.
Qed.

Lemma user_kernel_ok : shell_ok user_kernel.
Proof.
  constructor; [apply user_kernel_user|exact user_text|..].
  - apply user_mem_mapped. by left.
  - apply user_mem_mapped. by left.
  - exact (proj1 (input_set_mem _ sample_ready sample_ready_kbd sample_isr_ok)).
  - exact (proj2 (input_set_mem _ sample_ready sample_ready_kbd sample_isr_ok)).
Qed.
End Sample.

(** The sample keyboard's input does not depend on the memory. *)
Lemma sample_input m m' keys :
  input_of (pending 0x60 keys) (set_mem m (set_isr sample_isr (image m'))) = snd (decode_all 0 keys).
Proof. reflexivity. Qed.

(** Typing "echo hi" and Enter. *)
Definition sample_typing : list Z := [0x12; 0x2E; 0x23; 0x18; 0x39; 0x23; 0x17; 0x1C].

Lemma sample_session t :
  session 1 t (snd (decode_all 0 sample_typing))
  = Some (turn_screen t (str "echo hi") ((E_char <$> str "echo hi") ++ [E_eol]),
      prompt ++ str "echo hi" ++ [13; 10] ++ str "hi" ++ [10], []).
Proof.
  cbn [session]. replace (edit_line MAX_LINE_LEN [] (snd (decode_all 0 sample_typing)))
    with (Some (str "echo hi", @nil Z, (E_char <$> str "echo hi") ++ [E_eol])) by (vm_compute; reflexivity).
  reflexivity.
Qed.
