(* ===== verification/UserProps.v ===== *)
(** The correctness of the user program: the string routines and formatted output
    of userland/libc and the shell of userland/shell. *)
From S2P Require Import Prelude State Machine Image Framebuffer FramebufferFacts Isr Keyboard Serial SerialFacts Pic Interrupt InterruptFacts Samples Syscall SyscallFacts SyscallCalls CString Stdio StdioFacts Numerals Printf Shell TokenizeFacts ShellFacts ShellTurn UserSamples.

(** * The shell *)

Section ShellProps.
Context `{Env} `{PollFuel} `{Layout} `{UserLayout} `{ShellLayout} `{!UserPlaced} `{!ShellPlaced} `{!UartReady}.

(** C18. A session with the shell: run through [n] turns of its loop on a keyboard
    that supplies the input, [main] gets through them, with every system call,
    interrupt and driver underneath; the screen and the serial line show the banner
    and then, turn by turn, the prompt, the echoes of the line editor and the text
    of the command (or a cleared screen), exactly as the abstract session computes
    them from the typed characters, and the input behind the last line is unread. *)
Theorem shell_session_shows (keys : trace -> list Z) `{!KbdSource keys} n k t sent rest :
  (forall tr, Z.land (u8 (env_in tr 0x3FD)) 1 = 0) ->
  (forall tr, (2 * length (keys tr) + 256 < poll_fuel)%nat) ->
  shell_ok k -> session n (term_write (term_of k) (concat banner_lines)) (input_of keys k) = Some (t, sent, rest) ->
  exists k', main n k = Ok (tt, k') /\ term_of k' = t /\
    uart_tx (uart_of (k_trace k')) = rev (concat banner_lines ++ sent) ++ uart_tx (uart_of (k_trace k)) /\
    input_of keys k' = rest /\ shell_ok k'.
Proof.
  intros Hidle Hfuel Hk Hs. destruct (main_wp keys Hidle Hfuel n k t sent rest Hk Hs) as ([] & k' & Hrun & HQ). by exists k'.
Qed.
End ShellProps.

(** * The tokenizer *)

Section TokenizeProps.
Context `{PollFuel}.

(** C39. [tokenize] on a line of fewer than [max_args] words returns their number;
    the argument vector holds, in order, pointers into the line to exactly its
    words, each now a terminated string, followed by a null pointer; only the line
    and the entries used change. *)
Theorem tokenize_splits_line k line s args max_args :
  cstr (k_mem k) line s -> (length s < poll_fuel)%nat -> mapped (k_mem k) args (4 * max_args) ->
  0 <= args /\ args + 4 * max_args <= 4294967296 ->
  line + Z.of_nat (length s) + 1 <= args \/ args + 4 * max_args <= line ->
  Z.of_nat (length (words s)) < max_args ->
  exists m ps, tokenize line args max_args k = Ok (Z.of_nat (length (words s)), set_mem m k) /\
    Forall2 (cstr m) ps (words s) /\
    Forall2 (fun p w => line <= p /\ p + Z.of_nat (length w) <= line + Z.of_nat (length s)) ps (words s) /\
    (forall i p, ps !! i = Some p -> word_at m (args + 4 * Z.of_nat i) = p) /\
    word_at m (args + 4 * Z.of_nat (length (words s))) = 0 /\
    (forall x, ~ line <= x < line + Z.of_nat (length s) ->
       ~ args <= x < args + 4 * Z.of_nat (length (words s)) + 4 -> m !! x = k_mem k !! x).
Proof.
  intros Hs Hf Hm Hr Hap Hlt.
  destruct (tokenize_wp args max_args Hr k line s) as (r & k' & Hrun & m & ps & -> & -> & [Hstr Hran Hptr] & Hnull & Hd & _).
  - constructor; try done. lia.
  - done.
  - exists m, ps. split_and!; [done|done|done|intros i p Hi; by rewrite <- (Hptr i p Hi)|done|].
    intros x Hx1 Hx2. apply Hd; lia.
Qed.

(** With 16 words or more, the shell's call of [tokenize] stores the
    terminating null pointer behind the 16 entries of [argv], over the word that
    follows the array. *)
Theorem tokenize_overruns_argv `{ShellLayout} k line s :
  cstr (k_mem k) line s -> (length s < poll_fuel)%nat -> mapped (k_mem k) argv_addr 68 ->
  0 <= argv_addr /\ argv_addr + 68 <= 4294967296 ->
  line + Z.of_nat (length s) + 1 <= argv_addr \/ argv_addr + 68 <= line ->
  16 <= Z.of_nat (length (words s)) ->
  exists m, tokenize line argv_addr MAX_ARGS k = Ok (16, set_mem m k) /\ word_at m (argv_addr + 64) = 0.
Proof.
  intros Hs Hf Hm Hr Hap Hge. assert (0 <= argv_addr /\ argv_addr + 4 * 16 <= 4294967296) as Hr' by lia.
  destruct (tokenize_full_wp argv_addr 16 Hr' k line s) as (r & k' & Hrun & m & ps & -> & -> & _ & Hnull).
  - constructor; [done| |lia|lia|done]. apply (mapped_sub _ argv_addr 68); [done|lia|lia].
  - done.
  - lia.
  - apply (mapped_sub _ argv_addr 68); [done|lia|lia].
  - lia.
  - by exists m.
Qed.
End TokenizeProps.

(** * Formatted output *)

Section OutputProps.
Context `{Env} `{PollFuel} `{Layout} `{UserLayout} `{!UserPlaced} `{!UartReady}.

(** C40. [printf] returns and writes exactly the text that the format stands for
    with its arguments, to screen and serial line, and leaves the program's memory
    alone: %c, %s (with "(null)" for a null pointer), %d and %i (the decimal numeral of
    the signed number, INT_MIN included), %x and %p (the hexadecimal numeral of the
    32-bit pattern), %%, and any other conversion copied as it is.  Numerals are those
    of the Standard Library. *)
Theorem printf_formats k format fmt ws args t :
  user_ok k -> null_ok (k_mem k) -> text_at (k_mem k) format fmt -> Forall2 (arg_at (k_mem k)) ws args ->
  format_text fmt args = Some t ->
  exists k', printf format ws k = Ok (0, k') /\ term_of k' = term_write (term_of k) t /\
    uart_tx (uart_of (k_trace k')) = rev t ++ uart_tx (uart_of (k_trace k)) /\
    (forall x, ~ scratch x -> k_mem k' !! x = k_mem k !! x).
Proof.
  intros Hk Hn Hf Ha Ht. destruct (printf_wp k format fmt ws args t) as (r & k' & Hrun & -> & []); try done.
  by exists k'.
Qed.

(** What [print_number] writes reads back as the number: in base 10 a minus
    sign for a negative one and then the digits of its absolute value, INT_MIN
    included; in another base up to 16 the digits of its 32-bit pattern; always at
    least one digit. *)
Theorem print_number_reads_back k num base :
  user_ok k -> -2147483648 <= num < 2147483648 -> 2 <= base <= 16 ->
  exists k' sign t, print_number num base k = Ok (tt, k') /\
    uart_tx (uart_of (k_trace k')) = rev (sign ++ t) ++ uart_tx (uart_of (k_trace k)) /\
    term_of k' = term_write (term_of k) (sign ++ t) /\
    sign = (if bool_decide (base = 10 /\ num < 0) then [45] else []) /\
    numeral_value base t = (if bool_decide (base = 10) then Z.abs num else u32 num) /\
    t <> [] /\ Forall (fun c => 0 <= digit_value c < base) t.
Proof.
  intros Hk Hnum Hb. destruct (print_number_wp k num base Hk Hb) as ([] & k' & Hrun & []).
  set (n := if bool_decide (base = 10 /\ num < 0) then u32 (- num) else u32 num).
  exists k', (if bool_decide (base = 10 /\ num < 0) then [45] else []), (unsigned_text n base).
  assert (is_u32 n) as Hn by (unfold n; case_bool_decide; apply u32_range).
  assert (number_text num base = (if bool_decide (base = 10 /\ num < 0) then [45] else []) ++ unsigned_text n base) as Ht.
  { unfold number_text, n. destruct (Z.eqb_spec base 10), (Z.ltb_spec num 0);
      [rewrite !bool_decide_eq_true_2 by done; done|rewrite !bool_decide_eq_false_2 by lia; done..]. }
  rewrite Ht in *. split_and!; [done|done|done|done| |by apply unsigned_text_nonempty|by apply unsigned_text_digits].
  rewrite unsigned_text_value by done. unfold n. repeat case_bool_decide; word_solve.
Qed.
End OutputProps.

(** * Strings *)

Section StringProps.
Context `{PollFuel}.

(** [strcmp] decides equality and dictionary order of C strings, by unsigned
    bytes: the result is zero exactly for equal strings, negative exactly when the
    first comes before, and changes sign with the order of the arguments. *)
Theorem strcmp_orders k a1 a2 s1 s2 :
  cstr (k_mem k) a1 s1 -> cstr (k_mem k) a2 s2 -> (length s1 < poll_fuel)%nat -> (length s2 < poll_fuel)%nat ->
  exists d, strcmp a1 a2 k = Ok (d, k) /\ (d = 0 <-> s1 = s2) /\ (d < 0 <-> str_lt s1 s2) /\
    strcmp a2 a1 k = Ok (- d, k).
Proof.
  intros Hs1 Hs2 Hf1 Hf2. exists (str_diff s1 s2). unfold strcmp.
  rewrite (strcmp_loop_eq k s1 s2 a1 a2), (strcmp_loop_eq k s2 s1 a2 a1), (str_diff_anti s1 s2) by done.
  split_and!; [done|apply str_diff_eq; by eapply cstr_bytes|apply str_diff_lt; by eapply cstr_bytes|done].
Qed.

(** [strncpy] writes exactly [n] bytes: those of the string as far as they go,
    then zeros (so no terminator when the string has [n] characters or more), and
    nothing outside the destination. *)
Theorem strncpy_pads k dest src n s :
  cstr (k_mem k) src s -> mapped (k_mem k) dest n -> 0 <= n -> 0 <= dest -> dest + n <= 4294967296 ->
  dest + n <= src \/ src + Z.of_nat (length s) + 1 <= dest ->
  exists m, strncpy dest src n k = Ok (dest, set_mem m k) /\
    (forall i, 0 <= i < n -> m !! (dest + i) = Some (default 0 (s !! Z.to_nat i))) /\
    (forall x, ~ dest <= x < dest + n -> m !! x = k_mem k !! x).
Proof.
  intros Hs Hm Hn Hlo Hhi Hap.
  destruct (strncpy_wp k dest src n s) as (r & k' & Hrun & -> & m & -> & Hd & _ & Ht); try done. by exists m.
Qed.
End StringProps.

(** * Instances *)

Lemma shell_session_shows_witness :
  let E := sample_env [] sample_typing in let F := sample_fuel in
  exists k', main 1 user_kernel = Ok (tt, k') /\
    uart_tx (uart_of (k_trace k'))
    = rev (concat banner_lines ++ prompt ++ str "echo hi" ++ [13; 10] ++ str "hi" ++ [10]) ++ uart_tx (uart_of (k_trace user_kernel)).
Proof.
  intros E F. assert (Forall is_u8 sample_typing) as Hu by bytes_done.
  pose proof (sample_kbd_source _ Hu) as HS. pose proof (sample_uart_ready [] sample_typing) as HR.
  destruct (shell_session_shows (pending 0x60 sample_typing) 1 user_kernel
    (turn_screen (term_write (term_of user_kernel) (concat banner_lines)) (str "echo hi") ((E_char <$> str "echo hi") ++ [E_eol]))
    (prompt ++ str "echo hi" ++ [13; 10] ++ str "hi" ++ [10]) []) as (k' & Hk1 & _ & Hk2 & _).
  - apply sample_idle.
  - intros tr. unfold pending. rewrite length_drop. unfold sample_typing, poll_fuel, F, sample_fuel. cbn [length]. lia.
  - exact user_kernel_ok.
  - unfold user_kernel, sample_ready, sample_kernel. rewrite sample_input. apply sample_session.
  - exists k'. auto.
Defined.

(** A string in the line buffer. *)
Definition with_line (s : list Z) : kernel := set_mem (put_bytes user_mem 0x6000 (s ++ [0])) user_kernel.

Lemma with_line_cstr s : Forall nonzero s -> Z.of_nat (length s) < 256 -> cstr (k_mem (with_line s)) 0x6000 s.
Proof. intros Hs Hl. apply put_bytes_cstr; [done|lia|lia]. Qed.

Lemma with_line_mapped s a n : Forall nonzero s -> 0 <= a -> a + n <= 65536 -> mapped (k_mem (with_line s)) a n.
Proof.
  intros Hs Ha Hn. apply put_bytes_mapped.
  - apply Forall_app_2; [|by apply Forall_singleton]. eapply Forall_impl; [exact Hs|]. unfold nonzero. intros c Hc. word_solve.
  - apply user_mem_mapped. by left.
Qed.

Definition two_words : list Z := str " ls  -l ".
Definition sixteen_words : list Z := str "1 2 3 4 5 6 7 8 9 a b c d e f g".

Lemma tokenize_splits_line_witness :
  let F := sample_fuel in
  exists m ps, tokenize 0x6000 0x6100 16 (with_line two_words) = Ok (2, set_mem m (with_line two_words)) /\
    Forall2 (cstr m) ps [str "ls"; str "-l"].
Proof.
  intros F. assert (Forall nonzero two_words) as Hn by (apply (bool_decide_unpack _); vm_compute; exact I).
  destruct (tokenize_splits_line (with_line two_words) 0x6000 two_words 0x6100 16) as (m & ps & Hk1 & Hk2 & _).
  - by apply with_line_cstr.
  - change (8 < 1000)%nat. lia.
  - by apply with_line_mapped.
  - lia.
  - left. change (Z.of_nat (length two_words)) with 8. lia.
  - reflexivity.
  - exists m, ps. split; [exact Hk1|exact Hk2].
Defined.

Lemma tokenize_overruns_argv_witness :
  let F := sample_fuel in
  exists m, tokenize 0x6000 0x6100 MAX_ARGS (with_line sixteen_words) = Ok (16, set_mem m (with_line sixteen_words)) /\
    word_at m (0x6100 + 64) = 0.
Proof.
  intros F. assert (Forall nonzero sixteen_words) as Hn by (apply (bool_decide_unpack _); vm_compute; exact I).
  destruct (tokenize_overruns_argv (with_line sixteen_words) 0x6000 sixteen_words) as (m & Hk1 & Hk2).
  - by apply with_line_cstr.
  - change (31 < 1000)%nat. lia.
  - by apply with_line_mapped.
  - cbn [argv_addr sample_shell]. lia.
  - left. change (Z.of_nat (length sixteen_words)) with 31. cbn [argv_addr sample_shell]. lia.
  - change (16 <= 16). lia.
  - exists m. split; [exact Hk1|exact Hk2].
Defined.

(** A format with every kind of conversion; the line buffer lies apart from the literals. *)
Definition sample_format : list Z := str "%d %i %x %p %c %s %% %q".

Lemma user_ok_mem `{Layout} `{UserLayout} k m : user_ok k -> (forall a n, mapped (k_mem k) a n -> mapped m a n) -> user_ok (set_mem m k).
Proof. intros [[Hf1 Hf2 Hf3] Hd Hfr Hch] Hm. constructor; [constructor; [by apply Hm|exact Hf2|exact Hf3]|exact Hd|by apply Hm|by apply Hm]. Qed.

Lemma user_kernel_mem : k_mem user_kernel = user_mem.
Proof. unfold user_kernel. by generalize user_mem. Qed.

Lemma with_line_user s : Forall nonzero s -> user_ok (with_line s).
Proof.
  intros Hs. apply user_ok_mem; [exact user_kernel_user|].
  intros a n Ha. rewrite user_kernel_mem in Ha. apply put_bytes_mapped; [|exact Ha]. apply Forall_app_2; [|by apply Forall_singleton].
  eapply Forall_impl; [exact Hs|]. unfold nonzero. intros c Hc. word_solve.
Qed.

Lemma with_line_text `{PollFuel} s : Forall nonzero s -> (length s < 128)%nat -> (length s < poll_fuel)%nat -> text_at (k_mem (with_line s)) 0x6000 s.
Proof.
  intros Hs Hl Hf. constructor; [lia|by apply with_line_cstr; [|lia]|apply image_kept; lia|exact Hf|lia].
Qed.

Lemma with_line_null s : (length s < 128)%nat -> let F := sample_fuel in null_ok (k_mem (with_line s)).
Proof.
  intros Hl F. assert (str "(null)" ∈ shell_literals) as Hin by left. pose proof (literal_slot _ Hin) as Hlit.
  unfold null_ok. apply (text_at_ext user_mem); [|exact (user_text _ Hin)]. revert Hlit. generalize (str "(null)"). intros t Hlit x Hx.
  apply put_bytes_ne. rewrite length_app. cbn [length]. lia.
Qed.

Lemma printf_formats_witness :
  let E := sample_env [] [] in let F := sample_fuel in
  exists k', printf 0x6000 [4294967254; 2147483648; 48879; 0; 65; 0] (with_line sample_format) = Ok (0, k') /\
    uart_tx (uart_of (k_trace k'))
    = rev (str "-42 -2147483648 beef 0 A (null) % %q") ++ uart_tx (uart_of (k_trace (with_line sample_format))).
Proof.
  intros E F. pose proof (sample_uart_ready [] []) as HR.
  assert (Forall nonzero sample_format) as Hn by (apply (bool_decide_unpack _); vm_compute; exact I).
  destruct (printf_formats (with_line sample_format) 0x6000 sample_format [4294967254; 2147483648; 48879; 0; 65; 0]
    [A_int (-42); A_int (-2147483648); A_int 48879; A_int 0; A_int 65; A_null]
    (str "-42 -2147483648 beef 0 A (null) % %q")) as (k' & Hk1 & _ & Hk2 & _).
  - by apply with_line_user.
  - apply with_line_null. change (23 < 128)%nat. lia.
  - apply with_line_text; [exact Hn|change (23 < 128)%nat; lia|change (23 < 1000)%nat; lia].
  - repeat (apply Forall2_cons_2; [reflexivity|]). apply Forall2_nil_2.
  - vm_compute. reflexivity.
  - exists k'. split; [exact Hk1|exact Hk2].
Defined.

Lemma print_number_reads_back_witness :
  let E := sample_env [] [] in let F := sample_fuel in
  exists k' t, print_number (-2147483648) 10 user_kernel = Ok (tt, k') /\
    uart_tx (uart_of (k_trace k')) = rev ([45] ++ t) ++ uart_tx (uart_of (k_trace user_kernel)) /\
    numeral_value 10 t = 2147483648.
Proof.
  intros E F. pose proof (sample_uart_ready [] []) as HR.
  destruct (print_number_reads_back user_kernel (-2147483648) 10) as (k' & sign & t & Hk1 & Hk2 & _ & Hs & Hk3 & _).
  - exact user_kernel_user.
  - lia.
  - lia.
  - rewrite bool_decide_eq_true_2 in Hs by lia. rewrite bool_decide_eq_true_2 in Hk3 by done. subst sign.
    exists k', t. auto.
Defined.

Lemma strcmp_orders_witness :
  let F := sample_fuel in
  exists d, strcmp (lit_addr (str "clear")) (lit_addr (str "echo")) user_kernel = Ok (d, user_kernel) /\ d < 0.
Proof.
  intros F.
  destruct (strcmp_orders user_kernel (lit_addr (str "clear")) (lit_addr (str "echo")) (str "clear") (str "echo"))
    as (d & Hk1 & _ & Hk2 & _).
  - apply user_text. apply (bool_decide_unpack (_ ∈ shell_literals)). vm_compute. exact I.
  - apply user_text. apply (bool_decide_unpack (_ ∈ shell_literals)). vm_compute. exact I.
  - change (5 < 1000)%nat. lia.
  - change (4 < 1000)%nat. lia.
  - exists d. split; [exact Hk1|]. apply Hk2. left. reflexivity.
Defined.

Lemma strncpy_pads_witness :
  let F := sample_fuel in
  exists m, strncpy 0x6200 0x6000 12 (with_line two_words) = Ok (0x6200, set_mem m (with_line two_words)) /\
    m !! (0x6200 + 1) = Some 108 /\ m !! (0x6200 + 11) = Some 0.
Proof.
  intros F. assert (Forall nonzero two_words) as Hn by (apply (bool_decide_unpack _); vm_compute; exact I).
  destruct (strncpy_pads (with_line two_words) 0x6200 0x6000 12 two_words) as (m & Hk1 & Hk2 & _).
  - by apply with_line_cstr.
  - by apply with_line_mapped.
  - lia.
  - lia.
  - lia.
  - right. change (Z.of_nat (length two_words)) with 8. lia.
  - exists m. split_and!; [exact Hk1|apply (Hk2 1); lia|apply (Hk2 11); lia].
Defined.
