(* ===== verification/EchoProgram.v ===== *)
(** The sample user program modules/program.s, a flat binary that echoes each line
    it reads: the program over the trap of ring 3, and the session its user sees. *)
From S2P Require Import Prelude State Machine Image Framebuffer FramebufferFacts Isr Keyboard Serial SerialFacts Pic Interrupt InterruptFacts Samples Syscall SyscallFacts SyscallCalls CString Stdio StdioFacts Printf Shell TokenizeFacts ShellFacts ShellTurn UserSamples.

(** * Data

    The strings of section .data, each with the 0 that its length counts. *)

Definition msg_banner_text : list Z :=
  [0x0A] ++ str "=================================================================" ++ [0x0A] ++
  str " [User Ring 3] Canonical Buffer Input Mode is ACTIVE!" ++ [0x0A] ++
  str " Type a full sentence and press ENTER (buffered until \n or \0):" ++ [0x0A] ++
  str "=================================================================" ++ [0x0A; 0].
Definition prompt_text : list Z := str "UserRing3> " ++ [0].
Definition msg_recv_text : list Z := str "[User Ring 3 Received Buffer]: " ++ [0x22; 0].
Definition msg_end_text : list Z := [0x22; 0x0A; 0x0D; 0].
Definition data_texts : list Z := msg_banner_text ++ prompt_text ++ msg_recv_text ++ msg_end_text.

(** Where the assembler puts the sections .data and .bss. *)
Class ProgramLayout := {
  data_addr : Z;
  bss_addr : Z
}.

Section Program.
Context `{Env} `{PollFuel} `{Layout} `{ProgramLayout}.

Definition msg_banner : Z := data_addr.
Definition msg_banner_len : Z := Z.of_nat (length msg_banner_text).
Definition prompt_at : Z := msg_banner + msg_banner_len.
Definition prompt_len : Z := Z.of_nat (length prompt_text).
Definition msg_recv : Z := prompt_at + prompt_len.
Definition msg_recv_len : Z := Z.of_nat (length msg_recv_text).
Definition msg_end : Z := msg_recv + msg_recv_len.
Definition msg_end_len : Z := Z.of_nat (length msg_end_text).
Definition str_len : Z := msg_end + msg_end_len.
Definition user_buffer : Z := bss_addr.

(** * Code *)

(** From [user_loop] back to it: [jle] is taken on a count that is not positive. *)
Definition user_loop : K unit :=
  int80 4 1 prompt_at prompt_len ;;;
  eax <- int80 3 0 user_buffer 128 ;;
  if s32 eax <=? 0 then ret tt
  else
    store32 str_len eax ;;;
    int80 4 1 msg_recv msg_recv_len ;;;
    edx <- load32 str_len ;;
    int80 4 1 user_buffer edx ;;;
    int80 4 1 msg_end msg_end_len ;;;
    ret tt.

(** The program from its label [start], with the first [n] rounds of the endless loop. *)
Definition program_start (n : nat) : K unit :=
  int80 4 1 msg_banner msg_banner_len ;;;
  for_loop 0 1 n (fun _ => user_loop).
End Program.

(** * The session, abstractly *)

(** What the program answers to a line. *)
Definition reply (line : list Z) : list Z :=
  match line with [] => [] | _ => msg_recv_text ++ line ++ msg_end_text end.

(** [n] rounds on the input [cs]: the text on the screen, the text on the serial
    line and the input left, or [None] when the input does not finish the lines. *)
Fixpoint rounds (n : nat) (cs : list Z) : option (list Z * list Z * list Z) :=
  match n with
  | O => Some ([], [], cs)
  | S n' =>
      '(line, rest, es) ← edit_line 128 [] cs;
      '(scr, ser, rest') ← rounds n' rest;
      Some (prompt_text ++ concat (screen_echo <$> es) ++ reply line ++ scr,
            prompt_text ++ concat (serial_echo <$> es) ++ reply line ++ ser, rest')
  end.

(** * The program's memory *)

(** .bss is behind .data, below 4GB and apart from what the kernel changes. *)
Class ProgramPlaced `{Layout} `{UserLayout} `{ProgramLayout} : Prop := {
  data_pos : 0 < data_addr;
  data_end : str_len + 4 <= bss_addr;
  bss_end : bss_addr + 128 <= 4294967296;
  image_apart : forall x, data_addr <= x < bss_addr + 128 -> ~ scratch x
}.

Record program_ok `{Layout} `{UserLayout} `{ProgramLayout} (k : kernel) : Prop := ProgramOk {
  po_user : user_ok k;
  po_data : buf_reads (k_mem k) (Ptr data_addr) data_texts;
  po_len : mapped (k_mem k) str_len 4;
  po_buf : mapped (k_mem k) user_buffer 128;
  po_kbd : kbd_ok (k_kbd k);
  po_isr : isr_ok (k_isr k)
}.

(** From [k] to [k'], the program wrote [scr] on the screen and [ser] on the serial
    line, and [rest] is the input left. *)
Record answered `{Layout} `{UserLayout} `{ProgramLayout} (keys : trace -> list Z) (k : kernel) (scr ser rest : list Z) (k' : kernel) : Prop := Answered {
  an_ok : program_ok k';
  an_term : term_of k' = term_write (term_of k) scr;
  an_tx : uart_tx (uart_of (k_trace k')) = rev ser ++ uart_tx (uart_of (k_trace k));
  an_input : input_of keys k' = rest
}.

Lemma data_length : Z.of_nat (length data_texts) = msg_banner_len + prompt_len + msg_recv_len + msg_end_len.
Proof. reflexivity. Qed.

Lemma str_len_behind `{ProgramLayout} : data_addr <= str_len.
Proof. unfold str_len, msg_end, msg_recv, prompt_at, msg_banner, msg_banner_len, prompt_len, msg_recv_len, msg_end_len. lia. Qed.

Lemma data_bytes : Forall is_u8 data_texts.
Proof. unfold data_texts, msg_banner_text, prompt_text, msg_recv_text, msg_end_text. repeat apply Forall_app_2; try apply str_u8; by repeat constructor. Qed.

Section Facts.
Context `{Env} `{PollFuel} `{Layout} `{UserLayout} `{ProgramLayout} `{!UserPlaced} `{!ProgramPlaced} `{!UartReady}.

(** The wrappers of the C library differ from the trap in the type of the result. *)
Lemma wrapped_wp nr a b c Q k :
  wp (x <- int80 nr a b c ;; ret (s32 x)) Q k -> wp (int80 nr a b c) (fun x k' => Q (s32 x) k') k.
Proof.
  intros (r & k' & Hrun & HQ). unfold bind, ret in Hrun.
  destruct (int80 nr a b c k) as [[x k1]| |] eqn:E; [|done..]. injection Hrun as <- <-. by exists x, k1.
Qed.

(** EAX is a word of the frame. *)
Lemma int80_word nr a b c k r k' : int80 nr a b c k = Ok (r, k') -> user_ok k' -> is_u32 r.
Proof.
  unfold int80, bind. destruct (push_frame nr a b c k) as [[[] k1]| |]; [|done..].
  destruct (do_syscall_in_C trap_frame k1) as [[[] k2]| |]; [|done..].
  destruct (load32 (trap_frame + pt_eax) k2) as [[x k3]| |] eqn:El; [|done..].
  pose proof (load32_state _ _ _ _ El) as ->.
  intros [= <- <-] [_ _ Hfr _]. destruct frame_range as [Hf1 Hf2].
  assert (mapped (k_mem k2) (trap_frame + pt_eax) 4) as Hm by (apply (mapped_sub _ trap_frame 68); [exact Hfr|unfold pt_eax; lia..]).
  rewrite load32_eq in El by (try exact Hm; unfold pt_eax; lia). injection El as <-. by apply word_at_range.
Qed.

Lemma s32_inv x n : is_u32 x -> s32 x = Z.of_nat n -> x = Z.of_nat n.
Proof. unfold s32. intros Hx. rewrite u32_small by done. case_match; word_unfold; lia. Qed.

Lemma image_kept_at a n : data_addr <= a -> a + Z.of_nat n <= bss_addr + 128 -> kept a n.
Proof. intros Ha Hn i Hi. apply image_apart. lia. Qed.

(** Memory outside .data's strings may change. *)
Lemma program_ok_ext k k' :
  program_ok k -> user_ok k' -> kbd_ok (k_kbd k') -> isr_ok (k_isr k') ->
  (forall x, data_addr <= x < str_len -> k_mem k' !! x = k_mem k !! x) ->
  mapped (k_mem k') str_len 4 -> mapped (k_mem k') user_buffer 128 -> program_ok k'.
Proof.
  intros [_ Hdata _ _ _ _] Hu Hkb Hi Hm Hl Hb. constructor; try done.
  intros i c Hc. destruct (Hdata i c Hc) as [H1' H2']. split; [|done]. rewrite Hm; [done|].
  apply lookup_lt_Some in Hc. pose proof data_length. unfold str_len, msg_end, msg_recv, prompt_at, msg_banner. lia.
Qed.

Lemma program_ok_shows k k' t s : shows k k' t s -> program_ok k -> program_ok k'.
Proof.
  intros P Hk. pose proof data_pos. pose proof data_end. pose proof Hk as [_ _ Hl Hb Hkb Hi].
  pose proof str_len_behind.
  apply (program_ok_ext k k' Hk).
  - apply P.
  - by rewrite (p_kbd _ _ _ _ P).
  - by rewrite (p_isr _ _ _ _ P).
  - intros x Hx. apply (p_mem _ _ _ _ P), image_apart. lia.
  - apply (mapped_shows k k' t s _ 4 P); [apply image_kept_at; lia|exact Hl].
  - apply (mapped_shows k k' t s _ 128 P); [apply image_kept_at; unfold user_buffer; lia|exact Hb].
Qed.

(** A range of the image, written whole. *)
Lemma write_image_wp k a s :
  program_ok k -> data_addr <= a < bss_addr + 128 -> a + Z.of_nat (length s) <= bss_addr + 128 -> Z.of_nat (length s) < 2147483648 ->
  buf_reads (k_mem k) (Ptr a) s -> Forall is_u8 s ->
  wp (int80 4 1 a (Z.of_nat (length s))) (fun _ k' => prints k k' s /\ program_ok k') k.
Proof.
  intros Hk Ha Hend Hlen Hr Hb. pose proof data_pos. pose proof bss_end. destruct frame_range as [Hf1 Hf2].
  destruct (kept_placed a (Nat.max 1 (length s))) as (Hp1 & Hp2 & _); [apply image_kept_at; lia|lia|].
  eapply wp_mono; [apply wrapped_wp, (user_write_wp k 1 a s)|]; try assumption; [by left|apply Hk|word_solve|lia|..].
  - intros i Hi. lia.
  - simpl. lia.
  - intros r k' [_ P]. split; [exact P|]. by eapply program_ok_shows.
Qed.

(** A string of .data. *)
Lemma write_string_wp k a pre s post :
  program_ok k -> data_texts = pre ++ s ++ post -> a = data_addr + Z.of_nat (length pre) ->
  wp (int80 4 1 a (Z.of_nat (length s))) (fun _ k' => prints k k' s /\ program_ok k') k.
Proof.
  intros Hk Ht ->. pose proof data_end as Hend. pose proof data_length as Hl. pose proof bss_end. pose proof data_pos.
  unfold str_len, msg_end, msg_recv, prompt_at, msg_banner in Hend. rewrite Ht, !length_app in Hl.
  pose proof data_bytes as Hb. rewrite Ht in Hb. apply Forall_app in Hb as [_ Hb]. apply Forall_app in Hb as [Hb _].
  apply write_image_wp; [exact Hk|lia|lia| | |exact Hb].
  - apply (Z.le_lt_trans _ (Z.of_nat (length data_texts))); [rewrite Ht, !length_app; lia|reflexivity].
  - intros i c Hc. replace (data_addr + Z.of_nat (length pre) + Z.of_nat i) with (data_addr + Z.of_nat (length pre + i)) by lia.
    apply (po_data _ Hk). rewrite Ht, lookup_app_r by lia. rewrite lookup_app_l by (apply lookup_lt_Some in Hc; lia).
    by replace (length pre + i - length pre)%nat with i by lia.
Qed.

Context (keys : trace -> list Z) `{!KbdSource keys}.
Context (Hidle : forall tr, Z.land (u8 (env_in tr 0x3FD)) 1 = 0).
Context (Hfuel : forall tr, (2 * length (keys tr) + 256 < poll_fuel)%nat).

Lemma answered_prints k k1 k' s1 scr ser rest :
  prints k k1 s1 -> answered keys k1 scr ser rest k' -> answered keys k (s1 ++ scr) (s1 ++ ser) rest k'.
Proof.
  intros P [Hok Ht Htx Hin]. constructor; [exact Hok| | |exact Hin].
  - by rewrite Ht, (p_term _ _ _ _ P), term_write_app.
  - by rewrite Htx, (p_tx _ _ _ _ P), rev_app_distr, app_assoc.
Qed.

Lemma answered_here k s1 k1 : prints k k1 s1 -> program_ok k1 -> answered keys k s1 s1 (input_of keys k) k1.
Proof. intros P Hok. constructor; [exact Hok|apply P|apply P|]. by destruct (shows_input keys _ _ _ _ P) as [-> _]. Qed.

(** [SYS_READ] into the buffer. *)
Lemma read_buffer_wp k line rest es :
  program_ok k -> edit_line 128 [] (input_of keys k) = Some (line, rest, es) ->
  wp (int80 3 0 user_buffer 128) (fun r k' => r = Z.of_nat (length line) /\ user_reads keys user_buffer 128 k k' line rest es /\ program_ok k') k.
Proof.
  intros Hk Hed. pose proof Hk as [Hu _ Hl Hb Hkb Hi]. pose proof data_pos. pose proof bss_end. pose proof data_end as Hde.
  pose proof str_len_behind.
  destruct (kept_placed user_buffer 128) as (Hp1 & Hp2 & Hp3); [apply image_kept_at; unfold user_buffer; lia|lia|].
  assert (wp (user_read 0 user_buffer 128) (fun r k' => r = Z.of_nat (length line) /\ user_reads keys user_buffer 128 k k' line rest es) k) as Hread.
  { apply user_read_wp; try assumption; try (unfold user_buffer; lia).
    - split_and!; [unfold user_buffer; lia|exact bss_end|lia].
    - by apply pending_bound. }
  apply wrapped_wp in Hread as (r & k' & Hrun & Hlen & R).
  exists r, k'. split_and!; [exact Hrun| |exact R|].
  - apply s32_inv; [|exact Hlen]. eapply int80_word; [exact Hrun|apply R].
  - apply (program_ok_ext k k' Hk); [apply R..| | |].
    + intros x Hx. apply (ur_mem _ _ _ _ _ _ _ _ R); [unfold user_buffer; lia|apply image_apart; lia].
    + by apply (ur_mapped _ _ _ _ _ _ _ _ R).
    + by apply (ur_mapped _ _ _ _ _ _ _ _ R).
Qed.

(** The length of the line in memory. *)
Lemma store_length_wp k n :
  program_ok k -> is_u32 n ->
  wp (store32 str_len n) (fun _ k' => k' = set_mem (put32 (k_mem k) str_len n) k /\ program_ok k' /\ term_of k' = term_of k) k.
Proof.
  intros Hk Hn. pose proof Hk as [[[Hfb1 Hfb2 Hfb3] Hdl Hfr Hch] _ Hl Hb Hkb Hi]. pose proof data_pos. pose proof bss_end. pose proof data_end.
  pose proof str_len_behind.
  destruct (kept_placed str_len 4) as (Hp1 & _ & _); [apply image_kept_at; lia|lia|].
  eapply wp_eq; [apply store32_eq; [exact Hl|lia|lia]|]. split_and!; [reflexivity| |].
  - apply (program_ok_ext k _ Hk); [|exact Hkb|exact Hi| |by apply put32_mapped|by apply put32_mapped].
    + constructor; [constructor; [by apply put32_mapped|exact Hfb2|exact Hfb3]|exact Hdl|by apply put32_mapped|by apply put32_mapped].
    + intros x Hx. apply put32_lookup_ne. lia.
  - apply term_same; [reflexivity|]. intros x Hx. apply put32_lookup_ne. lia.
Qed.

(** The answer to a line that is not empty. *)
Lemma reply_wp k line rest :
  program_ok k -> cstr (k_mem k) user_buffer line -> Z.of_nat (length line) < 128 -> line <> [] -> input_of keys k = rest ->
  wp (store32 str_len (Z.of_nat (length line)) ;;;
      int80 4 1 msg_recv msg_recv_len ;;;
      edx <- load32 str_len ;;
      int80 4 1 user_buffer edx ;;;
      int80 4 1 msg_end msg_end_len ;;;
      ret tt) (fun _ k' => answered keys k (reply line) (reply line) rest k') k.
Proof.
  intros Hk Hs Hlen Hne Hin. pose proof data_pos. pose proof bss_end as Hbe. pose proof data_end as Hde.
  pose proof str_len_behind.
  apply wp_bind. eapply wp_mono; [apply (store_length_wp k); [exact Hk|word_unfold; lia]|].
  intros [] k1 (-> & Hk1 & Ht1). set (k1 := set_mem _ k) in *.
  assert (buf_reads (k_mem k1) (Ptr user_buffer) (line ++ [0])) as Hr1.
  { intros i c Hi. destruct (cstr_reads _ _ _ Hs i c Hi) as [Hm Hu]. split; [|exact Hu].
    cbn [k1 k_mem set_mem]. rewrite put32_lookup_ne; [exact Hm|]. unfold user_buffer. lia. }
  apply wp_bind. eapply wp_mono; [apply (write_string_wp k1 _ (msg_banner_text ++ prompt_text) msg_recv_text msg_end_text Hk1); [reflexivity|]|].
  { unfold msg_recv, prompt_at, msg_banner, msg_banner_len, prompt_len. rewrite length_app. lia. }
  intros r2 k2 [P2 Hk2]. apply wp_bind. eapply wp_eq; [apply load32_eq; [apply Hk2|lia|lia]|].
  replace (word_at (k_mem k2) str_len) with (Z.of_nat (length line)).
  2:{ rewrite <- (word_at_put32 (k_mem k) str_len (Z.of_nat (length line))) by (word_unfold; lia). symmetry.
      apply word_at_ext. intros i Hi. apply (p_mem _ _ _ _ P2), image_apart. lia. }
  assert (kept user_buffer (length (line ++ [0]))) as Hkept
    by (apply image_kept_at; rewrite ?length_app; unfold user_buffer; cbn [length]; lia).
  pose proof (shows_reads _ _ _ _ _ _ P2 Hkept Hr1) as Hr2. apply buf_reads_prefix in Hr2.
  apply wp_bind. eapply wp_mono; [apply (write_image_wp k2 user_buffer line Hk2); [unfold user_buffer; lia..|exact Hr2|]|].
  { eapply Forall_impl; [apply (cstr_bytes _ _ _ Hs)|]. unfold nonzero. intros c Hc. word_solve. }
  intros r3 k3 [P3 Hk3]. apply wp_bind. eapply wp_mono.
  { apply (write_string_wp k3 _ (msg_banner_text ++ prompt_text ++ msg_recv_text) msg_end_text []); [exact Hk3|by rewrite app_nil_r, <- !app_assoc|].
    unfold msg_end, msg_recv, prompt_at, msg_banner, msg_banner_len, prompt_len, msg_recv_len. rewrite !length_app. lia. }
  intros r4 k4 [P4 Hk4]. apply wp_ret.
  pose proof (prints_trans _ _ _ _ _ P2 (prints_trans _ _ _ _ _ P3 P4)) as P. destruct line as [|c line]; [done|]. cbn [reply].
  constructor; [exact Hk4|by rewrite (p_term _ _ _ _ P), Ht1|exact (p_tx _ _ _ _ P)|].
  by destruct (shows_input keys _ _ _ _ P) as [-> _].
Qed.

(** One round of the loop. *)
Lemma user_loop_wp k line rest es :
  program_ok k -> edit_line 128 [] (input_of keys k) = Some (line, rest, es) ->
  wp user_loop (fun _ k' => answered keys k (prompt_text ++ concat (screen_echo <$> es) ++ reply line)
    (prompt_text ++ concat (serial_echo <$> es) ++ reply line) rest k') k.
Proof.
  intros Hk Hed. unfold user_loop. apply wp_bind.
  eapply wp_mono; [apply (write_string_wp k _ msg_banner_text prompt_text (msg_recv_text ++ msg_end_text) Hk); reflexivity|].
  intros r1 k1 [P1 Hk1]. destruct (shows_input keys _ _ _ _ P1) as [Hin1 _].
  apply wp_bind. eapply wp_mono; [apply (read_buffer_wp k1 line rest es Hk1); by rewrite Hin1|].
  intros r2 k2 (-> & R & Hk2). pose proof (ur_fits _ _ _ _ _ _ _ _ R) as Hfit. rewrite s32_small by lia.
  assert (forall s k3, answered keys k2 s s rest k3 -> answered keys k1 (concat (screen_echo <$> es) ++ s) (concat (serial_echo <$> es) ++ s) rest k3) as Hread.
  { intros s k3 [Hok Ht Htx Hin]. constructor; [exact Hok| | |exact Hin].
    - by rewrite Ht, (ur_term _ _ _ _ _ _ _ _ R), term_write_app.
    - by rewrite Htx, (ur_tx _ _ _ _ _ _ _ _ R), rev_app_distr, app_assoc. }
  destruct (Z.leb_spec (Z.of_nat (length line)) 0) as [Hz|Hz].
  - destruct line as [|c line]; [|cbn [length] in Hz; lia]. apply wp_ret, (answered_prints k k1 _ prompt_text); [exact P1|].
    apply Hread. constructor; [exact Hk2|reflexivity|reflexivity|apply R].
  - eapply wp_mono; [apply (reply_wp k2 line rest Hk2); [apply R|exact Hfit| |apply R]|].
    + intros ->. cbn [length] in Hz. lia.
    + intros [] k3 A. by apply (answered_prints k k1 _ prompt_text), Hread.
Qed.

Lemma user_loops_wp n : forall lo k scr ser rest,
  program_ok k -> rounds n (input_of keys k) = Some (scr, ser, rest) ->
  wp (for_loop lo 1 n (fun _ => user_loop)) (fun _ k' => answered keys k scr ser rest k') k.
Proof.
  induction n as [|n IH]; intros lo k scr ser rest Hk Hr; cbn [rounds for_loop] in *.
  { simplify_eq. by apply wp_ret, Answered. }
  destruct (edit_line 128 [] (input_of keys k)) as [[[line rest1] es]|] eqn:Hed; [|done]. cbn -[prompt_text reply] in Hr.
  destruct (rounds n rest1) as [[[scr1 ser1] rest2]|] eqn:Hrec; [|done]. cbn -[prompt_text reply] in Hr. simplify_eq.
  apply wp_bind. eapply wp_mono; [by apply (user_loop_wp k line rest1 es)|]. intros [] k1 A1.
  eapply wp_mono; [apply (IH (lo + 1) k1 scr1 ser1 rest (an_ok _ _ _ _ _ _ A1)); by rewrite (an_input _ _ _ _ _ _ A1)|].
  intros [] k2 [Hok Ht Htx Hin]. destruct A1 as [_ Ht1 Htx1 _]. constructor; [exact Hok| | |exact Hin].
  - by rewrite Ht, Ht1, <- !term_write_app, <- !app_assoc.
  - by rewrite Htx, Htx1, app_assoc, <- rev_app_distr, <- !app_assoc.
Qed.

(** C30. The sample program answers every line: for any [n] and any typed characters
    that finish [n] lines, its banner and [n] rounds of its loop run to the end, the
    screen and the serial line carry the banner and, per round, the prompt, the echoes
    of the line editor and, for a line that is not empty, the prefix, the line as
    edited and the closing quote; an empty line repeats the prompt at once, and what
    follows the last line is unread. *)
Theorem program_echoes n k scr ser rest :
  program_ok k -> rounds n (input_of keys k) = Some (scr, ser, rest) ->
  exists k', program_start n k = Ok (tt, k') /\ answered keys k (msg_banner_text ++ scr) (msg_banner_text ++ ser) rest k'.
Proof.
  intros Hk Hr. assert (wp (program_start n) (fun _ k' => answered keys k (msg_banner_text ++ scr) (msg_banner_text ++ ser) rest k') k) as ([] & k' & Hrun & A).
  { unfold program_start. apply wp_bind. eapply wp_mono.
    { apply (write_string_wp k _ [] msg_banner_text (prompt_text ++ msg_recv_text ++ msg_end_text) Hk); [reflexivity|]. unfold msg_banner. cbn [length]. lia. }
    intros r k1 [P Hk1]. destruct (shows_input keys _ _ _ _ P) as [Hin _].
    eapply wp_mono; [apply (user_loops_wp n 0 k1 scr ser rest Hk1); by rewrite Hin|].
    intros [] k2 A. by apply (answered_prints k k1). }
  by exists k'.
Qed.
End Facts.

(** * An instance *)

#[export] Instance sample_program : ProgramLayout := { data_addr := 0x100; bss_addr := 0x300 }.

#[export] Instance sample_program_placed : ProgramPlaced.
Proof.
  constructor; [reflexivity|vm_compute; congruence|vm_compute; congruence|]. intros x Hx. cbn [data_addr bss_addr sample_program] in Hx.
  pose proof (image_kept x 1) as Hk. specialize (Hk ltac:(lia) ltac:(cbn; lia) 0 ltac:(cbn; lia)). by rewrite Z.add_0_r in Hk.
Qed.

Definition program_mem : gmap Z Z := put_bytes user_space 0x100 data_texts.
Definition program_kernel : kernel := set_mem program_mem sample_ready.

Lemma program_mem_mapped a n :
  0 <= a /\ a + n <= 65536 \/ 0xBFFFF000 <= a /\ a + n <= 0xC0000000 \/ 0xC0000000 <= a /\ a + n <= 0xC0400000 ->
  mapped program_mem a n.
Proof. intros Ha. apply put_bytes_mapped; [exact data_bytes|]. by apply user_space_mapped. Qed.

Lemma program_kernel_ok : program_ok program_kernel.
Proof.
  destruct (input_set_mem program_mem sample_ready sample_ready_kbd sample_isr_ok) as [Hkb Hi]. constructor; [|..|exact Hkb|exact Hi].
  - constructor; [constructor; [|done|done]|done|..]; apply program_mem_mapped; [by do 2 right|by do 2 right|by right; left].
  - intros i c Hc. split; [by apply put_bytes_eq|]. apply lookup_lt_Some in Hc. pose proof data_length as Hl.
    cbn [data_addr sample_program]. assert (Z.of_nat (length data_texts) < 1000) by (vm_compute; reflexivity). word_unfold. lia.
  - apply program_mem_mapped. left. split; vm_compute; congruence.
  - apply program_mem_mapped. left. split; vm_compute; congruence.
Qed.

(** Typing "hi", Enter and Enter again. *)
Definition program_typing : list Z := [0x23; 0x17; 0x1C; 0x1C].

Lemma program_echoes_witness :
  let E := sample_env [] program_typing in let F := sample_fuel in
  exists k', program_start 2 program_kernel = Ok (tt, k') /\
    uart_tx (uart_of (k_trace k')) = rev (msg_banner_text ++ prompt_text ++ str "hi" ++ [13; 10] ++ msg_recv_text ++ str "hi" ++ msg_end_text
      ++ prompt_text ++ [13; 10]) ++ uart_tx (uart_of (k_trace program_kernel)).
Proof.
  intros E F. assert (Forall is_u8 program_typing) as Hu by bytes_done.
  pose proof (sample_kbd_source _ Hu) as HS. pose proof (sample_uart_ready [] program_typing) as HR.
  destruct (program_echoes (pending 0x60 program_typing) (sample_idle program_typing)
    ltac:(intros tr; unfold pending; rewrite length_drop; unfold program_typing, poll_fuel, F, sample_fuel; cbn [length]; lia)
    2 program_kernel
    (prompt_text ++ str "hi" ++ [10] ++ msg_recv_text ++ str "hi" ++ msg_end_text ++ prompt_text ++ [10])
    (prompt_text ++ str "hi" ++ [13; 10] ++ msg_recv_text ++ str "hi" ++ msg_end_text ++ prompt_text ++ [13; 10]) []) as (k' & Hrun & A).
  - exact program_kernel_ok.
  - unfold program_kernel, sample_ready, sample_kernel. rewrite sample_input. vm_compute. reflexivity.
  - exists k'. split; [exact Hrun|exact (an_tx _ _ _ _ _ _ A)].
Defined.
