(* ===== verification/Kmain.v ===== *)
(** The kernel entry: kernel/kmain.c with the boot information of
    include/kernel/multiboot.h, the heap report [kheap_print_stats] of
    kernel/kheap.c, and [enter_user_mode] of arch/x86/boot/loader.s. *)
From S2P Require Import Prelude State Machine Framebuffer Isr Keyboard Serial Pic Descriptors Paging Kheap.

(** * kheap_print_stats *)

Section Stats.
Context `{Env} `{PollFuel} `{Layout}.

(** [buf[0..2]]: the three decimal digits of a number of kilobytes. *)
Definition kb_digits (kb : Z) : list Z :=
  [u8 (48 + u8 (kb / 100)); u8 (48 + u8 (kb / 10 mod 10)); u8 (48 + u8 (kb mod 10))].

(** The text goes to the screen and over COM1. *)
Definition report (buf : list Z) (len : Z) : K unit :=
  fb_write (Lit buf) len ;;;
  serial_write SERIAL_COM1_BASE (Lit buf) len ;;;
  ret tt.

Definition kheap_print_stats : K unit :=
  total <- kheap_get_total_memory ;;
  used <- kheap_get_used_memory ;;
  free <- kheap_get_free_memory ;;
  report (str "[ KHEAP ] Total: ") 17 ;;;
  let total_kb := total / 1024 in
  let used_kb := used / 1024 in
  let free_kb := free / 1024 in
  report (kb_digits total_kb ++ str " KB, Used: ") 14 ;;;
  report (kb_digits used_kb ++ str " KB, Free: ") 14 ;;;
  report (kb_digits free_kb ++ str " KB" ++ [10]) 7.
End Stats.

(** * Console helpers of kmain.c *)

Section Print.
Context `{Env} `{PollFuel}.

(** [while (str[len] != '\0') len++;] *)
Fixpoint strlen_from (fuel : nat) (s : cbuf) (len : Z) : K Z :=
  match fuel with
  | O => hang
  | S fuel' =>
      c <- buf_get s len ;;
      if c =? 0 then ret len else strlen_from fuel' s (u32 (len + 1))
  end.
Definition strlen (s : cbuf) : K Z := strlen_from poll_fuel s 0.

Definition print (s : cbuf) : K unit :=
  n <- strlen s ;;
  fb_write s n ;;;
  ret tt.

(** A string literal with its terminator. *)
Definition literal (s : list Z) : cbuf := Lit (s ++ [0]).

(** [buf[9 - i]] for i = 7, ..., 0 between "0x" and the terminator. *)
Definition hex_digit (n i : Z) : Z :=
  let nibble := Z.land (Z.shiftr n (i * 4)) 0xF in
  if nibble <? 10 then 48 + nibble else 65 + nibble - 10.
Definition print_hex (n : Z) : K unit :=
  print (Lit ([48; 120] ++ (hex_digit n <$> [7; 6; 5; 4; 3; 2; 1; 0]) ++ [0])).
End Print.

(** * Boot information *)

Definition MULTIBOOT_INFO_MODS : Z := 0x00000008.
Definition mb_flags : Z := 0.
Definition mb_mods_count : Z := 20.
Definition mb_mods_addr : Z := 24.
Definition mod_start_off : Z := 0.
Definition mod_end_off : Z := 4.

(** * kmain *)

(** How the run of [kmain] ends: it returns to the halt loop of loader.s, or
    leaves for ring 3 with this instruction and stack pointer. *)
Inductive kmain_end := Returned (r : Z) | UserMode (eip esp : Z).

Section Kmain.
Context `{Env} `{PollFuel} `{Layout}.

(** The frame popped by [iret] is built and consumed on the kernel stack; what
    remains is the user segments and the interrupt flag. *)
Definition enter_user_mode (eip esp : Z) : K kmain_end :=
  modify (fun k => let c := k_cpu k in
    set_cpu (CpuState true (cpu_gdtr c) (cpu_tr c) (cpu_idtr c) (cpu_cr3 c) 0x1B 0x23) k) ;;;
  ret (UserMode eip esp).

Definition rule : list Z := str "=================================================================" ++ [10].

(** The screen and the serial line. *)
Definition kmain_console : K unit :=
  fb_clear ;;;
  fb_set_color FB_LIGHT_CYAN FB_BLACK ;;;
  print (literal rule) ;;;
  print (literal (str "                 Welcome to Little Kernel v0.1.0                 " ++ [10])) ;;;
  print (literal (str "                 Developed by AmiyaSokiya (amiyasociu@gmail.com)  " ++ [10])) ;;;
  print (literal (rule ++ [10])) ;;;
  fb_set_color FB_LIGHT_GREEN FB_BLACK ;;;
  print (literal (str "[ OK ] Framebuffer driver initialized successfully." ++ [10])) ;;;
  print (literal (str "[ OK ] Cursor auto-advance enabled." ++ [10])) ;;;
  print (literal (str "[ OK ] Hardware cursor synchronization active." ++ [10; 10])) ;;;
  fb_set_color FB_LIGHT_MAGENTA FB_BLACK ;;;
  serial_init ;;;
  serial_write_char SERIAL_COM1_BASE 65 ;;;
  serial_write_char SERIAL_COM1_BASE 69 ;;;
  let serial_msg := literal (str " [Serial COM1] LittleOS Serial Driver initialized successfully!" ++ [13; 10]) in
  n <- strlen serial_msg ;;
  serial_write SERIAL_COM1_BASE serial_msg n ;;;
  print (literal (str "[ OK ] Serial driver initialized with IRQ 4 successfully!" ++ [10])).

(** Descriptor tables, interrupt controllers, keyboard, paging and heap. *)
Definition kmain_init : K unit :=
  gdt_init ;;;
  print (literal (str "[ OK ] GDT initialized & loaded successfully." ++ [10])) ;;;
  idt_init ;;;
  print (literal (str "[ OK ] IDT initialized & loaded with 48 interrupt gates." ++ [10])) ;;;
  syscall_init ;;;
  print (literal (str "[ OK ] Syscall handler registered at INT 0x80 (DPL=3)." ++ [10])) ;;;
  pic_remap ;;;
  print (literal (str "[ OK ] PIC remapped (Master: 0x20, Slave: 0x28)." ++ [10])) ;;;
  keyboard_init ;;;
  print (literal (str "[ OK ] PS/2 Keyboard driver initialized on IRQ 1." ++ [10])) ;;;
  paging_init ;;;
  print (literal (str "[ OK ] Higher-Half Paging active (Kernel at 0xC0100000, 3GB Virtual Base)." ++ [10])) ;;;
  kheap_init ;;;
  print (literal (str "[ OK ] Kernel Bitmap Heap initialized (256 KB, 32B block size)." ++ [10])).

(** [for (uint32_t i = 0; i < strlen(test_str); i++) test_alloc[i] = test_str[i];] *)
Fixpoint copy_string (fuel : nat) (dst : Z) (s : cbuf) (i : Z) : K unit :=
  match fuel with
  | O => hang
  | S fuel' =>
      n <- strlen s ;;
      if i <? n then
        c <- buf_get s i ;;
        store8 (dst + i) c ;;;
        copy_string fuel' dst s (u32 (i + 1))
      else ret tt
  end.

(** The test of the heap. *)
Definition kmain_heap_test : K unit :=
  fb_set_color FB_LIGHT_BROWN FB_BLACK ;;;
  test_alloc <- kmalloc 128 ;;
  when negb (test_alloc =? NULL) do
    (let test_str := literal (str "Heap allocation test: OK!" ++ [10]) in
     copy_string poll_fuel test_alloc test_str 0 ;;;
     n <- strlen test_str ;;
     store8 (test_alloc + n) 0 ;;;
     print (literal (str "  -> ")) ;;;
     print (Ptr test_alloc) ;;;
     kheap_print_stats ;;;
     kfree test_alloc ;;;
     print (literal (str "  -> Freed test block. ")) ;;;
     kheap_print_stats).

(** The memory map and the end of the initialisation. *)
Definition kmain_report : K unit :=
  fb_set_color FB_LIGHT_CYAN FB_BLACK ;;;
  print (literal (str "[ MEM ] Kernel Physical: ")) ;;;
  print_hex kernel_physical_start_addr ;;;
  print (literal (str " -> ")) ;;;
  print_hex kernel_physical_end_addr ;;;
  print (literal ([10] ++ str "[ MEM ] Kernel Virtual : ")) ;;;
  print_hex kernel_virtual_start_addr ;;;
  print (literal (str " -> ")) ;;;
  print_hex kernel_virtual_end_addr ;;;
  print (literal [10]) ;;;
  enable_interrupts ;;;
  print (literal (str "[ OK ] CPU interrupts enabled (sti)." ++ [10; 10])) ;;;
  fb_set_color FB_LIGHT_CYAN FB_BLACK ;;;
  print (literal rule) ;;;
  print (literal (str "[ OK ] Kernel initialization complete. Transitioning to User Mode..." ++ [10; 10])) ;;;
  fb_set_color FB_WHITE FB_BLACK.

(** With a module: its address space, the ring 0 stack and the jump. *)
Definition kmain_start_user (mod_start mod_size : Z) : K kmain_end :=
  fb_set_color FB_LIGHT_GREEN FB_BLACK ;;;
  print (literal (str "[ OK ] GRUB module found! Configuring User Mode (Ring 3)..." ++ [10])) ;;;
  paging_setup_user_process mod_start mod_size ;;;
  print (literal (str "[ OK ] User Page Directory & Tables mapped with U/S = 1." ++ [10])) ;;;
  tss_set_kernel_stack (u32 (kernel_stack_addr + 4096)) ;;;
  print (literal (str "[ OK ] TSS Ring 0 stack pointer configured." ++ [10])) ;;;
  fb_set_color FB_LIGHT_CYAN FB_BLACK ;;;
  print (literal (str "[ INFO ] Executing iret to drop CPU privilege into Ring 3..." ++ [10])) ;;;
  let serial_user_msg :=
    literal (str "[User Mode] Switching to Ring 3 via iret (CS=0x1B, SS=0x23, EIP=0x0)..." ++ [13; 10]) in
  n <- strlen serial_user_msg ;;
  serial_write SERIAL_COM1_BASE serial_user_msg n ;;;
  enter_user_mode USER_ENTRY_POINT USER_STACK_TOP.

Definition kmain_load (mb_info_addr : Z) : K kmain_end :=
  flags <- load32 (mb_info_addr + mb_flags) ;;
  found <- (if Z.land flags MULTIBOOT_INFO_MODS =? 0 then ret false
            else mods_count <- load32 (mb_info_addr + mb_mods_count) ;; ret (0 <? mods_count)) ;;
  if (found : bool) then
    m <- load32 (mb_info_addr + mb_mods_addr) ;;
    mod_start <- load32 (m + mod_start_off) ;;
    mod_end <- load32 (m + mod_end_off) ;;
    kmain_start_user mod_start (u32 (mod_end - mod_start))
  else
    fb_set_color FB_LIGHT_RED FB_BLACK ;;;
    print (literal (str "[ WARN ] No Multiboot module found." ++ [10])) ;;;
    ret (Returned 0).

Definition kmain (mb_info_addr : Z) : K kmain_end :=
  kmain_console ;;;
  kmain_init ;;;
  kmain_heap_test ;;;
  kmain_report ;;;
  kmain_load mb_info_addr.
End Kmain.
