(* ===== verification/Boot.v ===== *)
(** The boot sequence step by step: an abstract state of the machine during
    [kmain], and what each routine that kernel/kmain.c calls does to it. *)
From S2P Require Import Prelude State Machine Image Framebuffer FramebufferFacts Isr Keyboard Serial SerialFacts Pic Interrupt InterruptFacts Syscall SyscallFacts SyscallCalls Descriptors Paging PagingFacts Kheap KheapBitmap KheapSpec KheapOps CString Kmain.

(** * The abstract state *)

Record boot_state := Boot {
  b_term : term;
  b_uart : uart;
  b_pics : pic * pic;
  b_cpu : cpu_state;
  b_isr : list isr_handler;
  b_gdt : gdt_state;
  b_idt : idt_state;
  b_kbd : kbd_state;
  b_paging : paging_state;
  b_heap : option (gmap Z chunk)
}.

Definition on_term (f : term -> term) (b : boot_state) : boot_state :=
  Boot (f (b_term b)) (b_uart b) (b_pics b) (b_cpu b) (b_isr b) (b_gdt b) (b_idt b) (b_kbd b) (b_paging b) (b_heap b).
Definition on_uart (f : uart -> uart) (b : boot_state) : boot_state :=
  Boot (b_term b) (f (b_uart b)) (b_pics b) (b_cpu b) (b_isr b) (b_gdt b) (b_idt b) (b_kbd b) (b_paging b) (b_heap b).
Definition on_pics (f : pic * pic -> pic * pic) (b : boot_state) : boot_state :=
  Boot (b_term b) (b_uart b) (f (b_pics b)) (b_cpu b) (b_isr b) (b_gdt b) (b_idt b) (b_kbd b) (b_paging b) (b_heap b).
Definition on_cpu (f : cpu_state -> cpu_state) (b : boot_state) : boot_state :=
  Boot (b_term b) (b_uart b) (b_pics b) (f (b_cpu b)) (b_isr b) (b_gdt b) (b_idt b) (b_kbd b) (b_paging b) (b_heap b).
Definition on_isr (f : list isr_handler -> list isr_handler) (b : boot_state) : boot_state :=
  Boot (b_term b) (b_uart b) (b_pics b) (b_cpu b) (f (b_isr b)) (b_gdt b) (b_idt b) (b_kbd b) (b_paging b) (b_heap b).
Definition on_gdt (f : gdt_state -> gdt_state) (b : boot_state) : boot_state :=
  Boot (b_term b) (b_uart b) (b_pics b) (b_cpu b) (b_isr b) (f (b_gdt b)) (b_idt b) (b_kbd b) (b_paging b) (b_heap b).
Definition on_idt (f : idt_state -> idt_state) (b : boot_state) : boot_state :=
  Boot (b_term b) (b_uart b) (b_pics b) (b_cpu b) (b_isr b) (b_gdt b) (f (b_idt b)) (b_kbd b) (b_paging b) (b_heap b).
Definition on_kbd (f : kbd_state -> kbd_state) (b : boot_state) : boot_state :=
  Boot (b_term b) (b_uart b) (b_pics b) (b_cpu b) (b_isr b) (b_gdt b) (b_idt b) (f (b_kbd b)) (b_paging b) (b_heap b).
Definition on_paging (f : paging_state -> paging_state) (b : boot_state) : boot_state :=
  Boot (b_term b) (b_uart b) (b_pics b) (b_cpu b) (b_isr b) (b_gdt b) (b_idt b) (b_kbd b) (f (b_paging b)) (b_heap b).
Definition on_heap (h : option (gmap Z chunk)) (b : boot_state) : boot_state :=
  Boot (b_term b) (b_uart b) (b_pics b) (b_cpu b) (b_isr b) (b_gdt b) (b_idt b) (b_kbd b) (b_paging b) h.

Definition with_colors (fg bg : Z) (t : term) : term := Term (t_cells t) (t_cur t) fg bg.
Definition with_tx (s : list Z) (u : uart) : uart :=
  Uart (uart_lcr u) (uart_dll u) (uart_dlm u) (uart_ier u) (uart_fcr u) (uart_mcr u) (rev s ++ uart_tx u).

(** A transmission changes nothing of the UART but what it has sent. *)
Lemma uart_sends_all_eq s t tr :
  sends_all s t -> dlab (uart_of tr) = false -> uart_of (t ++ tr) = with_tx s (uart_of tr).
Proof.
  intros Hs Hd. induction Hs as [|s c t t' Hs IH Hsend]; [cbn [app]; by destruct (uart_of tr)|].
  destruct (uart_sends_all s t tr Hs Hd) as [_ Hd']. destruct Hsend as [busy v Hb _].
  rewrite <- app_assoc. cbn [app uart_of]. rewrite uart_of_app_in by done.
  change (SERIAL_COM1_BASE - SERIAL_COM1_BASE) with 0. unfold uart_out. rewrite Z.eqb_refl, Hd', IH.
  unfold with_tx. cbn. by rewrite rev_app_distr.
Qed.

(** * The relation *)

(** The pool is off the screen. *)
Class BootLayout `{Layout} : Prop := {
  boot_heap :: HeapLayout;
  boot_paging :: PagingLayout;
  pool_off_screen : kheap_memory_addr + KHEAP_SIZE <= fb \/ fb + 4000 <= kheap_memory_addr
}.

Definition in_pool `{Layout} (x : Z) : Prop := kheap_memory_addr <= x < kheap_memory_addr + KHEAP_SIZE.
Definition in_window (x : Z) : Prop := fb <= x < fb + 4000.

(** No interrupt was taken and no scancode read. *)
Definition quiet_event (e : io_event) : Prop :=
  match e with Out _ _ => True | In p _ => p <> KBD_DATA_PORT | Irq _ => False end.

(** Before [kheap_init], the heap is just its storage. *)
Definition heap_at `{Layout} (h : option (gmap Z chunk)) (k : kernel) : Prop :=
  match h with
  | None => Z.of_nat (length (kheap_bitmap (k_heap k))) = KHEAP_BITMAP_SIZE /\ mapped (k_mem k) kheap_memory_addr KHEAP_SIZE
  | Some A => heap_inv A k
  end.

(** [at_boot m0 tr0 b k]: the state [k] shows the abstract state [b]; memory
    outside screen and pool is still [m0], and the history since [tr0] is quiet. *)
Record at_boot `{Layout} (m0 : gmap Z Z) (tr0 : trace) (b : boot_state) (k : kernel) : Prop := AtBoot {
  ab_fb : fb_ok k;
  ab_term : term_of k = b_term b;
  ab_uart : uart_of (k_trace k) = b_uart b;
  ab_pics : (master (k_trace k), slave (k_trace k)) = b_pics b;
  ab_quiet : exists evs, k_trace k = evs ++ tr0 /\ Forall quiet_event evs;
  ab_cpu : k_cpu k = b_cpu b;
  ab_isr : k_isr k = b_isr b;
  ab_gdt : k_gdt k = b_gdt b;
  ab_idt : k_idt k = b_idt b;
  ab_kbd : k_kbd k = b_kbd b;
  ab_paging : k_paging k = b_paging b;
  ab_heap : heap_at (b_heap b) k;
  ab_mem : forall x, ~ in_window x -> ~ in_pool x -> k_mem k !! x = m0 !! x
}.

Section Steps.
Context `{Env} `{PollFuel} `{BootLayout} `{!UartReady}.
Context (m0 : gmap Z Z) (tr0 : trace).

(** ** Frames *)

Lemma heap_at_ext h k k' :
  heap_at h k -> k_heap k' = k_heap k -> (forall x, in_pool x -> k_mem k' !! x = k_mem k !! x) -> heap_at h k'.
Proof.
  intros Hh Hk Hm.
  assert (forall a n, kheap_memory_addr <= a -> a + n <= kheap_memory_addr + KHEAP_SIZE ->
    mapped (k_mem k) a n -> mapped (k_mem k') a n) as Hmap.
  { intros a n Ha Hn Hmap i Hi. rewrite Hm; [by apply Hmap|]. unfold in_pool. lia. }
  destruct h as [A|]; cbn [heap_at] in *.
  - destruct Hh as [Hi Hwf Hmp Hc Hhd Hd Hb]. constructor; rewrite ?Hk; try done; [apply Hmap; [lia|lia|done]|].
    intros s c Hs. pose proof (Hhd s c Hs) as Hok. pose proof (Hc s c Hs) as (Hs0 & Hb0 & Hsb & _).
    assert (forall off, 0 <= off <= 12 -> word_at (k_mem k') (hdr s + off) = word_at (k_mem k) (hdr s + off)) as Hw.
    { intros off Hoff. apply word_at_ext. intros j Hj. apply Hm. unfold in_pool, hdr. kheap_consts. lia. }
    unfold header_ok in *. pose proof (Hw 0 ltac:(lia)) as Hw0. rewrite Z.add_0_r in Hw0. by rewrite Hw0, !Hw by lia.
  - destruct Hh as [Hl Hmp]. rewrite Hk. split; [done|]. apply Hmap; [lia|lia|done].
Qed.

Lemma quiet_app evs k :
  Forall quiet_event evs -> (exists evs', k_trace k = evs' ++ tr0 /\ Forall quiet_event evs') ->
  exists evs', evs ++ k_trace k = evs' ++ tr0 /\ Forall quiet_event evs'.
Proof. intros He (evs' & -> & He'). exists (evs ++ evs'). rewrite app_assoc. split; [done|by apply Forall_app_2]. Qed.

Lemma crtc_quiet evs : Forall crtc_event evs -> Forall quiet_event evs /\ Forall not_pic evs.
Proof. intros He. split; (eapply Forall_impl; [exact He|]); intros e (p & v & -> & [-> | ->]); cbn; try split_and!; done. Qed.

Lemma uart_quiet evs : Forall uart_event evs -> Forall quiet_event evs /\ Forall not_pic evs.
Proof.
  intros He. split; (eapply Forall_impl; [exact He|]); intros [p v|p v|v]; cbn; try done.
  - by intros ->.
  - by intros ->; split_and!.
Qed.

(** Output on the screen. *)
Lemma boot_fb_step b k k' t : at_boot m0 tr0 b k -> fb_step k k' t -> at_boot m0 tr0 (on_term (fun _ => t) b) k'.
Proof.
  intros [] [Hok Ht Hm Hf (evs & Hev & Hcr)]. destruct (crtc_quiet evs Hcr) as [Hq Hnp].
  destruct (pics_app evs (k_trace k) Hnp) as [Hp1 Hp2].
  constructor; try (rewrite Hf; done); try done.
  - rewrite Hev. rewrite uart_of_app by (by apply crtc_off_uart). done.
  - by rewrite Hev, Hp1, Hp2.
  - rewrite Hev. by apply quiet_app.
  - eapply heap_at_ext; [done|by rewrite Hf|]. intros x Hx. apply Hm. unfold in_pool in Hx. destruct pool_off_screen; lia.
  - intros x Hx1 Hx2. by rewrite Hm; [apply ab_mem0|].
Qed.

(** Port events that do not address the CRT controller. *)
Lemma boot_events b k evs :
  at_boot m0 tr0 b k -> Forall quiet_event evs -> Forall (out_ports off_crtc) evs ->
  at_boot m0 tr0 (on_pics (fun _ => (master (evs ++ k_trace k), slave (evs ++ k_trace k)))
    (on_uart (fun _ => uart_of (evs ++ k_trace k)) b)) (set_trace (evs ++ k_trace k) k).
Proof.
  intros [] Hq Hc. constructor; try done.
  - by apply (fb_ok_events k evs).
  - by apply quiet_app.
  - by apply (heap_at_ext _ k).
Qed.

(** Transmission over COM1. *)
Lemma boot_sends b k s t :
  at_boot m0 tr0 b k -> dlab (b_uart b) = false -> sends_all s t ->
  at_boot m0 tr0 (on_uart (with_tx s) b) (set_trace (t ++ k_trace k) k).
Proof.
  intros Hb Hd Ht. pose proof (sends_all_uart _ _ Ht) as Hu. destruct (uart_quiet _ Hu) as [Hq Hnp].
  pose proof (boot_events b k t Hb Hq (uart_off_crtc _ Hu)) as Hb'.
  destruct (pics_app t (k_trace k) Hnp) as [Hp1 Hp2]. destruct Hb, Hb'. constructor; try done.
  - change (uart_of (t ++ k_trace k) = with_tx s (b_uart b)). rewrite <- ab_uart0 in Hd |- *.
    by apply uart_sends_all_eq.
  - change ((master (t ++ k_trace k), slave (t ++ k_trace k)) = b_pics b). by rewrite Hp1, Hp2.
Qed.

End Steps.

(** A step that only assigns static variables. *)
Ltac boot_fields :=
  match goal with Hb : at_boot _ _ ?b ?k |- _ =>
    destruct Hb; constructor; try done; try (by apply (heap_at_ext _ k)); 
      try (match goal with Hf : fb_ok k |- fb_ok _ => by destruct Hf; constructor end)
  end.

Section Console.
Context `{Env} `{PollFuel} `{BootLayout} `{!UartReady}.
Context (m0 : gmap Z Z) (tr0 : trace).

(** A step of the heap: it writes in the pool only. *)
Lemma boot_pool_step b k k' h :
  at_boot m0 tr0 b k -> heap_at h k' -> only_differ (k_mem k) (k_mem k') kheap_memory_addr KHEAP_SIZE ->
  k' = set_heap (k_heap k') (set_mem (k_mem k') k) -> at_boot m0 tr0 (on_heap h b) k'.
Proof.
  intros [] Hh Hd Hf.
  assert (forall x, fb <= x < fb + 4000 -> k_mem k' !! x = k_mem k !! x) as Hwin by (intros x Hx; apply Hd; destruct pool_off_screen; lia).
  constructor; try (rewrite Hf; done); try done.
  - apply (fb_ok_same k); [by rewrite Hf..|exact Hwin|done].
  - cbn [b_term on_heap]. rewrite <- ab_term0. apply term_same; [by rewrite Hf|exact Hwin].
  - intros x Hx1 Hx2. rewrite Hd; [by apply ab_mem0|exact Hx2].
Qed.

(** ** Console *)

Lemma kmain_strlen_eq k s txt :
  buf_reads (k_mem k) s (txt ++ [0]) -> Forall nonzero txt -> (length txt < poll_fuel)%nat ->
  Z.of_nat (length txt) < 4294967296 -> strlen s k = Ok (Z.of_nat (length txt), k).
Proof.
  intros Hr Hnz Hf Hl. unfold strlen.
  assert (forall fuel done rest, txt = done ++ rest -> (length rest < fuel)%nat ->
    strlen_from fuel s (Z.of_nat (length done)) k = Ok (Z.of_nat (length txt), k)) as Hloop;
    [|by apply (Hloop poll_fuel [] txt)].
  induction fuel as [|fuel IH]; intros don rest Heq Hlt; [lia|]. cbn [strlen_from].
  assert ((txt ++ [0]) !! length don = head (rest ++ [0])) as Hc.
  { rewrite Heq, <- app_assoc, lookup_app_r by lia. rewrite Nat.sub_diag. by destruct rest. }
  destruct rest as [|c rest]; cbn [app head] in Hc.
  - rewrite (bind_ok _ _ _ _ _ (buf_get_reads _ _ _ (Z.of_nat (length don)) 0 Hr ltac:(by rewrite Nat2Z.id) ltac:(lia))).
    cbn [Z.eqb]. rewrite Heq, app_nil_r. done.
  - rewrite (bind_ok _ _ _ _ _ (buf_get_reads _ _ _ (Z.of_nat (length don)) c Hr ltac:(by rewrite Nat2Z.id) ltac:(lia))).
    assert (nonzero c) as Hcz by (rewrite Heq in Hnz; apply Forall_app in Hnz as [_ Hnz]; by inversion Hnz).
    unfold nonzero in Hcz. rewrite (proj2 (Z.eqb_neq c 0)) by lia.
    assert (length txt = length don + S (length rest))%nat by (rewrite Heq, length_app; done).
    rewrite u32_small by word_solve.
    replace (Z.of_nat (length don) + 1) with (Z.of_nat (length (don ++ [c]))) by (rewrite length_app; simpl; lia).
    apply (IH _ rest); [by rewrite <- app_assoc|simpl in Hlt; lia].
Qed.

(** Texts of the sources: terminated by their first zero, within the budget. *)
Definition text_ok (s : list Z) : Prop := Forall nonzero s /\ (length s < poll_fuel)%nat /\ Z.of_nat (length s) < 4294967296.

Lemma text_u8 s : Forall nonzero s -> Forall is_u8 s.
Proof. intros Hs. eapply Forall_impl; [exact Hs|]. unfold nonzero. intros c Hc. word_solve. Qed.

Definition b_print (s : list Z) : boot_state -> boot_state := on_term (fun t => term_write t s).
Definition b_send (s : list Z) : boot_state -> boot_state := on_uart (with_tx s).

Lemma boot_fb_write b k buf s :
  at_boot m0 tr0 b k -> buf_holds (k_mem k) buf s -> Forall is_u8 s ->
  wp (fb_write buf (Z.of_nat (length s))) (fun _ => at_boot m0 tr0 (b_print s b)) k.
Proof.
  intros Hb Hbuf Hs. eapply wp_mono; [by apply (fb_write_wp k buf s (ab_fb _ _ _ _ Hb))|].
  intros r k' [_ Hstep]. rewrite (ab_term _ _ _ _ Hb) in Hstep. exact (boot_fb_step m0 tr0 b k k' _ Hb Hstep).
Qed.

Lemma print_wp k buf s :
  fb_ok k -> buf_reads (k_mem k) buf (s ++ [0]) -> buf_apart buf (length s) -> text_ok s ->
  wp (print buf) (fun _ k' => fb_step k k' (term_write (term_of k) s)) k.
Proof.
  intros Hok Hbuf Hap (Hnz & Hf & Hl). unfold print. apply wp_bind. eapply wp_eq; [by apply (kmain_strlen_eq k buf s)|].
  apply wp_bind. eapply wp_mono; [apply (fb_write_wp k buf s Hok); [|by apply text_u8]|].
  - split; [by apply (buf_reads_prefix _ _ _ [0])|done].
  - intros r k' [_ Hs]. by apply wp_ret.
Qed.

Lemma boot_print b k buf s :
  at_boot m0 tr0 b k -> buf_reads (k_mem k) buf (s ++ [0]) -> buf_apart buf (length s) -> text_ok s ->
  wp (print buf) (fun _ k' => at_boot m0 tr0 (b_print s b) k' /\ only_differ (k_mem k) (k_mem k') fb 4000) k.
Proof.
  intros Hb Hbuf Hap Hs. eapply wp_mono; [by apply (print_wp k buf s (ab_fb _ _ _ _ Hb))|].
  intros [] k' Hstep. split; [|apply Hstep]. rewrite (ab_term _ _ _ _ Hb) in Hstep.
  exact (boot_fb_step m0 tr0 b k k' _ Hb Hstep).
Qed.

Lemma boot_print_literal b k s : at_boot m0 tr0 b k -> text_ok s -> wp (print (literal s)) (fun _ => at_boot m0 tr0 (b_print s b)) k.
Proof.
  intros Hb Hs. eapply wp_mono; [apply (boot_print b k (literal s) s); [done|apply buf_reads_lit|done|done]|]. by intros [] k' [Hb' _].
Qed.

Lemma boot_serial_write b k buf s :
  at_boot m0 tr0 b k -> dlab (b_uart b) = false -> buf_reads (k_mem k) buf s -> Forall is_u8 s ->
  wp (serial_write SERIAL_COM1_BASE buf (Z.of_nat (length s))) (fun _ => at_boot m0 tr0 (b_send s b)) k.
Proof.
  intros Hb Hd Hr Hs. eapply wp_mono; [by apply (serial_write_wp k buf s)|]. intros r k' (_ & t & Ht & ->). by apply boot_sends.
Qed.

Lemma boot_serial_char b k c :
  at_boot m0 tr0 b k -> dlab (b_uart b) = false -> is_u8 c ->
  wp (serial_write_char SERIAL_COM1_BASE c) (fun _ => at_boot m0 tr0 (b_send [c] b)) k.
Proof.
  intros Hb Hd Hc. unfold serial_write_char. eapply wp_run_eq; [apply bind_assoc|]. apply wp_bind.
  eapply wp_mono; [by apply serial_send_wp|]. intros [] k' (t & Ht & ->). apply wp_ret. apply boot_sends; [done|done|].
  rewrite <- (app_nil_r t). by apply (sends_snoc [] c [] t sends_nil).
Qed.

Lemma boot_send_literal {A} b k s (m : K A) R :
  at_boot m0 tr0 b k -> dlab (b_uart b) = false -> text_ok s ->
  (forall k', at_boot m0 tr0 (b_send s b) k' -> wp m R k') ->
  wp (n <- strlen (literal s) ;; serial_write SERIAL_COM1_BASE (literal s) n ;;; m) R k.
Proof.
  intros Hb Hd (Hnz & Hf & Hl) Hm. apply wp_bind. eapply wp_eq; [by apply (kmain_strlen_eq k (literal s) s); [apply buf_reads_lit|..]|].
  apply wp_bind. eapply wp_mono; [apply (boot_serial_write b k (literal s) s Hb Hd); [|by apply text_u8]|].
  - apply (buf_reads_prefix _ _ _ [0]), buf_reads_lit.
  - intros r k' Hb'. by apply Hm.
Qed.

Lemma boot_color b k fg bg :
  at_boot m0 tr0 b k -> wp (fb_set_color fg bg) (fun _ => at_boot m0 tr0 (on_term (with_colors fg bg) b)) k.
Proof.
  intros Hb. apply wp_modify. boot_fields. unfold on_term, with_colors. cbn [b_term]. by rewrite <- ab_term0.
Qed.

(** Text on both. *)
Lemma boot_report b k s :
  at_boot m0 tr0 b k -> dlab (b_uart b) = false -> Forall is_u8 s ->
  wp (report s (Z.of_nat (length s))) (fun _ => at_boot m0 tr0 (b_send s (b_print s b))) k.
Proof.
  intros Hb Hd Hs. unfold report. apply wp_bind.
  eapply wp_mono; [by apply (boot_fb_write b k (Lit s) s); [|apply buf_holds_lit|]|]. intros r k1 Hb1. apply wp_bind.
  eapply wp_mono; [by apply (boot_serial_write _ k1 (Lit s) s Hb1); [|apply buf_reads_lit|]|]. intros r2 k2 Hb2. by apply wp_ret.
Qed.
End Console.
