(* ===== verification/BootInit.v ===== *)
(** What the initialisation routines do to the state of the boot sequence. *)
From S2P Require Import Prelude State Machine Image Framebuffer FramebufferFacts Isr Keyboard Serial SerialFacts Pic Interrupt InterruptFacts Syscall SyscallFacts SyscallCalls Descriptors Paging PagingFacts Kheap KheapBitmap KheapSpec KheapOps CString Kmain Boot.

Section Effects.
Context `{Layout}.

Definition b_serial_init (b : boot_state) : boot_state :=
  on_isr <[36%nat := serial_interrupt]> (on_uart (fun u => Uart 0x03 1 0 0x01 0x07 0x0B (uart_tx u)) b).

Definition b_gdt_init (b : boot_state) : boot_state :=
  on_cpu cpu_with_gdt (on_gdt (fun _ => GdtState gdt_final (TablePtr 47 gdt_addr) (tss_final 0)) b).

(** The gates after [idt_init], and after [syscall_init]. *)
Definition idt_table : list idt_entry :=
  (fun v => if v <? 48 then idt_gate (isr_stub_addr v) 0x08 0x8E else idt_entry_zero) <$> seqZ 0 256.
Definition cpu_with_idt (c : cpu_state) : cpu_state :=
  CpuState (cpu_if c) (cpu_gdtr c) (cpu_tr c) (TablePtr 2047 idt_addr) (cpu_cr3 c) (cpu_cs c) (cpu_ds c).
Definition b_idt_init (b : boot_state) : boot_state :=
  on_cpu cpu_with_idt (on_idt (fun _ => IdtState idt_table (TablePtr 2047 idt_addr)) b).
Definition b_syscall_init (b : boot_state) : boot_state :=
  on_idt (fun t => IdtState (<[128%nat := idt_gate Int128Handler_addr 0x08 0xEE]> (idt t)) (idtr t)) b.

Definition b_pic_remap (b : boot_state) : boot_state :=
  on_pics (fun p => (Pic OCW true 32 0x04 0x01 0xED (pic_eois (fst p)), Pic OCW true 40 0x02 0x01 0xFF (pic_eois (snd p)))) b.

Definition b_keyboard_init (b : boot_state) : boot_state :=
  on_isr <[33%nat := keyboard_interrupt]> (on_kbd (fun s => KbdState (shift_active s) (kbd_buffer s) 0 0 0) b).

Definition b_paging_init (b : boot_state) : boot_state :=
  on_paging (fun p => PagingState (<[768%nat := boot_pde]> (<[0%nat := boot_pde]> (boot_page_directory p)))
    (boot_page_table1 p) (user_page_directory p) (user_code_page_table p) (user_stack_page_table p)
    (user_code_pages p) (user_stack_page p)) b.
End Effects.

Section Init.
Context `{Env} `{PollFuel} `{BootLayout} `{!UartReady}.
Context (m0 : gmap Z Z) (tr0 : trace).

Lemma boot_fb_clear k h :
  mapped (k_mem k) fb 4000 -> heap_at h k -> m0 = k_mem k -> tr0 = k_trace k ->
  wp fb_clear (fun _ => at_boot m0 tr0 (Boot (term_clear (term_of k)) (uart_of (k_trace k)) (master (k_trace k), slave (k_trace k))
    (k_cpu k) (k_isr k) (k_gdt k) (k_idt k) (k_kbd k) (k_paging k) h)) k.
Proof.
  intros Hm Hh -> ->. eapply wp_mono; [by apply fb_clear_wp|].
  intros [] k' [Hok Ht Hd Hf (evs & Hev & Hcr)]. destruct (crtc_quiet evs Hcr) as [Hq Hnp].
  destruct (pics_app evs (k_trace k) Hnp) as [Hp1 Hp2].
  constructor; try (rewrite Hf; done); try done.
  - rewrite Hev. by apply uart_of_app, crtc_off_uart.
  - by rewrite Hev, Hp1, Hp2.
  - by exists evs.
  - eapply heap_at_ext; [done|by rewrite Hf|]. intros x Hx. apply Hd. unfold in_pool in Hx. destruct pool_off_screen; lia.
  - intros x Hx1 Hx2. by apply Hd.
Qed.

Lemma boot_serial_init b k :
  at_boot m0 tr0 b k -> length (b_isr b) = 256%nat -> wp serial_init (fun _ => at_boot m0 tr0 (b_serial_init b)) k.
Proof.
  intros Hb Hlen. set (evs := [Out 0x3F9 0x01; Out 0x3FC 0x0B; Out 0x3FA 0x07; Out 0x3FB 0x03; Out 0x3F9 0x00; Out 0x3F8 0x01; Out 0x3FB 0x80]).
  assert (serial_init k = Ok (tt, set_isr (<[36%nat := serial_interrupt]> (k_isr k)) (set_trace (evs ++ k_trace k) k))) as Hrun.
  { rewrite <- (ab_isr _ _ _ _ Hb) in Hlen. unfold serial_init, serial_config_baud_rate, serial_config_line, serial_config_buffers,
      serial_config_modem, bind, outb, modify. by rewrite register_interrupt_handler_eq. }
  eapply wp_eq; [exact Hrun|].
  assert (at_boot m0 tr0 (on_uart (fun u => Uart 0x03 1 0 0x01 0x07 0x0B (uart_tx u)) b) (set_trace (evs ++ k_trace k) k)) as Hb1.
  { assert (Forall quiet_event evs) as Hq by (by repeat (apply Forall_cons_2; [done|]); apply Forall_nil_2).
    assert (Forall (out_ports off_crtc) evs) as Hc by (by repeat (apply Forall_cons_2; [done|]); apply Forall_nil_2).
    pose proof (ab_uart _ _ _ _ Hb) as Hu. pose proof (ab_pics _ _ _ _ Hb) as Hp.
    destruct (boot_events m0 tr0 b k evs Hb Hq Hc). constructor; try done.
    change (uart_of (evs ++ k_trace k) = Uart 0x03 1 0 0x01 0x07 0x0B (uart_tx (b_uart b))). by rewrite <- Hu. }
  pose proof (ab_isr _ _ _ _ Hb) as Hi. clear Hb. boot_fields.
  change (<[36%nat := serial_interrupt]> (k_isr k) = <[36%nat := serial_interrupt]> (b_isr b)). by rewrite Hi.
Qed.

Lemma boot_gdt_init b k :
  at_boot m0 tr0 b k -> length (gdt (b_gdt b)) = 6%nat -> wp gdt_init (fun _ => at_boot m0 tr0 (b_gdt_init b)) k.
Proof.
  intros Hb Hlen. rewrite <- (ab_gdt _ _ _ _ Hb) in Hlen. eapply wp_eq; [by apply gdt_init_eq|].
  boot_fields. cbn [k_cpu set_cpu b_cpu b_gdt_init on_cpu on_gdt]. by f_equal.
Qed.

Lemma boot_idt_init b k :
  at_boot m0 tr0 b k -> length (idt (b_idt b)) = 256%nat -> wp idt_init (fun _ => at_boot m0 tr0 (b_idt_init b)) k.
Proof.
  intros Hb Hlen. rewrite <- (ab_idt _ _ _ _ Hb) in Hlen. eapply wp_mono; [by apply idt_init_wp|].
  intros [] k' (l & -> & Hl & Hlk).
  assert (l = idt_table) as ->.
  { apply list_eq. intros i. destruct (decide (i < 256)%nat) as [Hi|Hi].
    - rewrite Hlk by done. unfold idt_table. rewrite list_lookup_fmap, lookup_seqZ_lt by lia. cbn [fmap option_fmap option_map].
      by rewrite Z.add_0_l.
    - rewrite !lookup_ge_None_2; [done| |lia]. unfold idt_table. rewrite length_fmap, length_seqZ. lia. }
  boot_fields. cbn [k_cpu set_cpu set_idt b_cpu b_idt_init on_cpu on_idt]. unfold cpu_with_idt. by rewrite ab_cpu.
Qed.

Lemma boot_syscall_init b k :
  at_boot m0 tr0 b k -> length (idt (b_idt b)) = 256%nat -> wp syscall_init (fun _ => at_boot m0 tr0 (b_syscall_init b)) k.
Proof.
  intros Hb Hlen. rewrite <- (ab_idt _ _ _ _ Hb) in Hlen. eapply wp_eq; [by apply idt_set_gate_eq|].
  boot_fields. cbn [k_idt set_idt b_idt b_syscall_init on_idt]. by rewrite ab_idt.
Qed.

Lemma boot_pic_remap b k : at_boot m0 tr0 b k -> wp pic_remap (fun _ => at_boot m0 tr0 (b_pic_remap b)) k.
Proof.
  intros Hb. set (evs := [Out 0xA1 0xFF; Out 0x21 0xED; Out 0xA1 0x01; Out 0x21 0x01; Out 0xA1 0x02; Out 0x21 0x04;
    Out 0xA1 0x28; Out 0x21 0x20; Out 0xA0 0x11; Out 0x20 0x11]).
  eapply (wp_eq _ _ _ _ (set_trace (evs ++ k_trace k) k)); [reflexivity|].
  assert (Forall quiet_event evs) as Hq by (by repeat (apply Forall_cons_2; [done|]); apply Forall_nil_2).
  assert (Forall (out_ports off_crtc) evs) as Hc by (by repeat (apply Forall_cons_2; [done|]); apply Forall_nil_2).
  pose proof (ab_uart _ _ _ _ Hb) as Hu. pose proof (ab_pics _ _ _ _ Hb) as Hp.
  destruct (boot_events m0 tr0 b k evs Hb Hq Hc). constructor; try done.
  cbn [b_pics b_pic_remap on_pics]. rewrite <- Hp. reflexivity.
Qed.

Lemma boot_keyboard_init b k :
  (forall evs, Forall quiet_event evs -> Z.land (u8 (env_in (evs ++ tr0) KBD_STATUS_PORT)) 1 = 0) -> (0 < poll_fuel)%nat ->
  at_boot m0 tr0 b k -> length (b_isr b) = 256%nat -> wp keyboard_init (fun _ => at_boot m0 tr0 (b_keyboard_init b)) k.
Proof.
  intros Hst Hf Hb Hlen. rewrite <- (ab_isr _ _ _ _ Hb) in Hlen. unfold keyboard_init.
  apply wp_bind, wp_modify, wp_bind. eapply wp_eq; [by apply register_interrupt_handler_eq|].
  destruct poll_fuel as [|n]; [lia|]. cbn [while_fuel]. apply wp_bind, wp_bind. eapply wp_eq; [apply inb_eq|]. apply wp_ret.
  set (k1 := set_isr _ _). change (k_trace k1) with (k_trace k). change (u16 KBD_STATUS_PORT) with KBD_STATUS_PORT.
  destruct (ab_quiet _ _ _ _ Hb) as (evs & Hev & Hq). rewrite Hev. rewrite Hst by done. cbn [Z.eqb negb]. apply wp_ret.
  set (e := In KBD_STATUS_PORT _). rewrite <- Hev.
  assert (at_boot m0 tr0 b (set_trace ([e] ++ k_trace k) k)) as Hb1.
  { pose proof (ab_uart _ _ _ _ Hb) as Hu. pose proof (ab_pics _ _ _ _ Hb) as Hp.
    destruct (boot_events m0 tr0 b k [e] Hb ltac:(by apply Forall_singleton) ltac:(by apply Forall_singleton)).
    by constructor. }
  pose proof (ab_isr _ _ _ _ Hb) as Hi. pose proof (ab_kbd _ _ _ _ Hb) as Hk. clear Hb. boot_fields.
  - change (<[33%nat := keyboard_interrupt]> (k_isr k) = <[33%nat := keyboard_interrupt]> (b_isr b)). by rewrite Hi.
  - cbn [b_kbd b_keyboard_init on_kbd on_isr]. by rewrite <- Hk.
Qed.

Lemma boot_paging_init b k :
  at_boot m0 tr0 b k -> length (boot_page_directory (b_paging b)) = 1024%nat ->
  wp paging_init (fun _ => at_boot m0 tr0 (b_paging_init b)) k.
Proof.
  intros Hb Hlen. rewrite <- (ab_paging _ _ _ _ Hb) in Hlen. eapply wp_eq; [by apply paging_init_eq|].
  boot_fields. cbn [k_paging set_paging b_paging b_paging_init on_paging]. by rewrite ab_paging.
Qed.

Lemma boot_kheap_init b k :
  at_boot m0 tr0 b k -> b_heap b = None -> wp kheap_init (fun _ => at_boot m0 tr0 (on_heap (Some ∅) b)) k.
Proof.
  intros Hb Hn. pose proof (ab_heap _ _ _ _ Hb) as Hh. rewrite Hn in Hh. destruct Hh as [Hl Hm].
  eapply wp_mono; [by apply kheap_init_wp|]. intros [] k' (Hinv & Hd & _ & Hf).
  apply (boot_pool_step m0 tr0 b k k' (Some ∅) Hb Hinv Hd). by rewrite Hf at 1.
Qed.
End Init.
