(* ===== verification/BootHeap.v ===== *)
(** The heap test of [kmain]: an allocation, the report of the statistics, and
    the release. *)
From S2P Require Import Prelude State Machine Image Framebuffer FramebufferFacts Isr Keyboard Serial SerialFacts Pic Interrupt InterruptFacts Syscall SyscallFacts SyscallCalls Descriptors Paging PagingFacts Kheap KheapBitmap KheapSpec KheapOps CString Kmain Boot BootInit.

(** * Effects *)

Definition b_report (s : list Z) (b : boot_state) : boot_state := b_send s (b_print s b).

Definition stats_text (used : Z) : list Z :=
  str "[ KHEAP ] Total: " ++ kb_digits (KHEAP_SIZE / 1024) ++ str " KB, Used: " ++ kb_digits (used / 1024)
  ++ str " KB, Free: " ++ kb_digits ((KHEAP_SIZE - used) / 1024) ++ str " KB" ++ [10].

Definition test_text : list Z := str "Heap allocation test: OK!" ++ [10].

(** The test block takes five blocks: 16 bytes of header and 128 of payload. *)
Definition b_heap_test (b : boot_state) : boot_state :=
  b_report (stats_text 0) (b_print (str "  -> Freed test block. ")
    (b_report (stats_text 160) (b_print test_text (b_print (str "  -> ")
      (on_term (with_colors FB_LIGHT_BROWN FB_BLACK) b))))).

Lemma with_tx_app s1 s2 u : with_tx s2 (with_tx s1 u) = with_tx (s1 ++ s2) u.
Proof. unfold with_tx. cbn. by rewrite rev_app_distr, app_assoc. Qed.

Lemma b_report_app s1 s2 b : b_report s2 (b_report s1 b) = b_report (s1 ++ s2) b.
Proof.
  unfold b_report, b_send, b_print, on_uart, on_term. cbn [b_term b_uart b_pics b_cpu b_isr b_gdt b_idt b_kbd b_paging b_heap].
  by rewrite with_tx_app, term_write_app.
Qed.

Lemma kb_digits_u8 kb : Forall is_u8 (kb_digits kb).
Proof. repeat (apply Forall_cons_2; [apply u8_range|]). apply Forall_nil_2. Qed.

(** The heap and the console are apart. *)
Lemma on_heap_print h s b : on_heap h (b_print s b) = b_print s (on_heap h b).
Proof. reflexivity. Qed.
Lemma on_heap_report h s b : on_heap h (b_report s b) = b_report s (on_heap h b).
Proof. reflexivity. Qed.
Lemma on_heap_colors h fg bg b : on_heap h (on_term (with_colors fg bg) b) = on_term (with_colors fg bg) (on_heap h b).
Proof. reflexivity. Qed.
Lemma on_heap_twice h h' b : on_heap h (on_heap h' b) = on_heap h b.
Proof. reflexivity. Qed.
Lemma on_heap_id h b : b_heap b = h -> on_heap h b = b.
Proof. intros <-. by destruct b. Qed.

Lemma total_blocks_empty : total_blocks ∅ = 0.
Proof. reflexivity. Qed.
Lemma total_blocks_singleton s c : total_blocks {[s := c]} = ch_blocks c.
Proof. rewrite <- insert_empty, total_blocks_insert by apply lookup_empty. unfold total_blocks at 1. rewrite map_fold_empty. lia. Qed.

Section Heap.
Context `{Env} `{PollFuel} `{BootLayout} `{!UartReady}.
Context (m0 : gmap Z Z) (tr0 : trace).

Lemma boot_print_stats b k A :
  at_boot m0 tr0 b k -> b_heap b = Some A -> dlab (b_uart b) = false ->
  wp kheap_print_stats (fun _ => at_boot m0 tr0 (b_report (stats_text (32 * total_blocks A)) b)) k.
Proof.
  intros Hb Hh Hd. pose proof (ab_heap _ _ _ _ Hb) as Hinv. rewrite Hh in Hinv. cbn [heap_at] in Hinv.
  unfold kheap_print_stats. apply wp_bind, wp_ret. apply wp_bind. eapply wp_eq; [by apply used_memory_eq|].
  apply wp_bind. eapply wp_eq; [by apply free_memory_eq|]. unfold stats_text.
  set (d1 := kb_digits _). set (d2 := kb_digits (32 * _ / _)). set (d3 := kb_digits ((_ - _) / _)).
  assert (forall d t, d ∈ [d1; d2; d3] -> Forall is_u8 (d ++ str t)) as Hdt.
  { intros d t Hin. apply Forall_app_2; [|apply str_u8]. rewrite !elem_of_cons in Hin.
    destruct Hin as [->|[->|[->|Hin]]]; [apply kb_digits_u8..|by apply elem_of_nil in Hin]. }
  apply wp_bind. eapply wp_mono; [apply (boot_report m0 tr0 b k (str "[ KHEAP ] Total: ") Hb Hd), str_u8|]. intros [] k1 Hb1.
  apply wp_bind. eapply wp_mono; [apply (boot_report m0 tr0 _ k1 (d1 ++ str " KB, Used: ") Hb1 Hd), Hdt; left|]. intros [] k2 Hb2.
  apply wp_bind. eapply wp_mono; [apply (boot_report m0 tr0 _ k2 (d2 ++ str " KB, Free: ") Hb2 Hd), Hdt; by right; left|]. intros [] k3 Hb3.
  eapply wp_mono; [apply (boot_report m0 tr0 _ k3 (d3 ++ str " KB" ++ [10]) Hb3 Hd)|].
  - rewrite app_assoc. apply Forall_app_2; [apply Hdt; by do 2 right; left|by apply Forall_singleton].
  - intros [] k4 Hb4. fold (b_report (str "[ KHEAP ] Total: ") b) in Hb4.
    fold (b_report (d1 ++ str " KB, Used: ") (b_report (str "[ KHEAP ] Total: ") b)) in Hb4.
    fold (b_report (d2 ++ str " KB, Free: ") (b_report (d1 ++ str " KB, Used: ") (b_report (str "[ KHEAP ] Total: ") b))) in Hb4.
    fold (b_report (d3 ++ str " KB" ++ [10])
      (b_report (d2 ++ str " KB, Free: ") (b_report (d1 ++ str " KB, Used: ") (b_report (str "[ KHEAP ] Total: ") b)))) in Hb4.
    rewrite !b_report_app, <- !app_assoc in Hb4. exact Hb4.
Qed.

(** An empty heap has room for the test block, at its start. *)
Lemma boot_kmalloc b k :
  at_boot m0 tr0 b k -> b_heap b = Some ∅ ->
  wp (kmalloc 128) (fun p k' => exists s, p = payload s /\ p <> NULL /\
    at_boot m0 tr0 (on_heap (Some {[s := Chunk 5 128]}) b) k') k.
Proof.
  intros Hb Hh. pose proof (ab_heap _ _ _ _ Hb) as Hinv. rewrite Hh in Hinv. cbn [heap_at] in Hinv.
  eapply wp_mono; [apply (kmalloc_wp ∅ k 128 Hinv); lia|]. unfold kmalloc_post. cbv zeta. change (blocks_for 128) with 5.
  intros p k' [(_ & _ & Hno)|(s & bm' & (Hs0 & Hs1 & _) & -> & _ & -> & Hinv')].
  - exfalso. apply (Hno 0); [lia|kheap_consts; lia|]. intros i Hi.
    destruct (bit_of _ i) eqn:E; [|done]. apply (hi_bits _ _ Hinv) in E as (s & c & Hl & _); [done|kheap_consts; lia].
  - pose proof (hdr_bounds s ltac:(kheap_consts; lia)) as Hh0. exists s. split; [done|]. split; [unfold payload, NULL; lia|].
    rewrite insert_empty in Hinv'. apply (boot_pool_step m0 tr0 b k); [done|done| |done].
    intros x Hx. cbn [k_mem set_mem]. unfold put_header. unfold hdr in *. kheap_consts. rewrite !put32_lookup_ne by lia. done.
Qed.

(** Reading the length again in every turn, the copy is a counted loop. *)
Lemma copy_string_eq dst s : text_ok s -> forall fuel i k,
  0 <= i <= Z.of_nat (length s) -> (Z.to_nat (Z.of_nat (length s) - i) < fuel)%nat ->
  copy_string fuel dst (literal s) i k
  = for_up i (Z.of_nat (length s)) (fun i => c <- buf_get (literal s) i ;; store8 (dst + i) c) k.
Proof.
  intros (Hnz & Hf & Hl). unfold for_up. induction fuel as [|fuel IH]; intros i k Hi Hlt; [lia|]. cbn [copy_string].
  rewrite (bind_ok _ _ _ _ _ (kmain_strlen_eq k (literal s) s (buf_reads_lit _ _) Hnz Hf Hl)).
  destruct (Z.ltb_spec i (Z.of_nat (length s))) as [Hc|Hc].
  - replace (Z.to_nat (Z.of_nat (length s) - i)) with (S (Z.to_nat (Z.of_nat (length s) - (i + 1)))) by lia. cbn [for_loop].
    rewrite bind_assoc. unfold bind. destruct (buf_get (literal s) i k) as [[c k1]| | ]; [|done..].
    destruct (store8 (dst + i) c k1) as [[[] k2]| | ]; [|done..]. rewrite u32_small by word_solve. apply IH; lia.
  - by replace (Z.to_nat (Z.of_nat (length s) - i)) with 0%nat by lia.
Qed.

(** Writing the test string into the block. *)
Lemma boot_fill b k s :
  at_boot m0 tr0 b k -> b_heap b = Some {[s := Chunk 5 128]} ->
  wp (for_up 0 26 (fun i => c <- buf_get (literal test_text) i ;; store8 (payload s + i) c) ;;; store8 (payload s + 26) 0)
    (fun _ k' => at_boot m0 tr0 b k' /\ buf_reads (k_mem k') (Ptr (payload s)) (test_text ++ [0])) k.
Proof.
  intros Hb Hh. pose proof (ab_heap _ _ _ _ Hb) as Hinv. rewrite Hh in Hinv. cbn [heap_at] in Hinv.
  pose proof (lookup_singleton_eq s (Chunk 5 128) : {[s := Chunk 5 128]} !! s = Some (Chunk 5 128)) as Hs.
  destruct (payload_bounds _ _ _ _ Hinv Hs) as (Hp1 & Hp2 & _). cbn [ch_size] in Hp2.
  pose proof (payload_mapped _ _ _ _ Hinv Hs) as Hpm. cbn [ch_size] in Hpm.
  assert (forall i, 0 <= i < 27 -> (test_text ++ [0]) !! Z.to_nat i = Some (default 0 (test_text !! Z.to_nat i))) as Htxt.
  { intros i Hi. destruct (decide (i = 26)) as [->|]; [done|]. rewrite lookup_app_l by (change (length test_text) with 26%nat; lia).
    destruct (lookup_lt_is_Some_2 test_text (Z.to_nat i)) as [c Hc]; [change (length test_text) with 26%nat; lia|]. by rewrite Hc. }
  assert (Forall is_u8 (test_text ++ [0])) as Hu by (apply (bool_decide_unpack _); vm_compute; exact I).
  rewrite Forall_lookup in Hu. apply wp_bind.
  eapply wp_mono; [apply (wp_for_up (fun i k' => padded k (payload s) 27 test_text i k') 0 26); [lia| |]|].
  - exists (k_mem k). split_and!; [apply set_mem_id|done|by apply (mapped_sub _ (payload s) 128); [|lia|lia]|lia].
  - intros i k' Hi Hp. apply wp_bind.
    eapply wp_eq; [apply (buf_get_reads _ _ (test_text ++ [0]) i); [apply buf_reads_lit|apply Htxt; lia|lia]|].
    apply (padded_store k (payload s) 27 test_text i); [done|lia|lia|lia|done|]. eapply Hu, Htxt. lia.
  - intros [] k1 Hp. eapply wp_mono; [apply (padded_store k (payload s) 27 test_text 26); try done; lia|].
    intros [] k2 (m & -> & Hd & Hm & Ht). split.
    + pose proof (boot_pool_step m0 tr0 b k (set_mem m k) (b_heap b) Hb) as Hstep. destruct b; apply Hstep.
      * rewrite Hh. apply (payload_write_inv _ k s (Chunk 5 128) m 27 Hinv Hs); [cbn; lia|done|done].
      * intros x Hx. apply Hd. unfold in_pool, payload, hdr in *.
        pose proof (hi_chunk _ _ Hinv _ _ Hs) as (Hc1 & _ & Hc2 & _). cbn [ch_blocks] in Hc2. kheap_consts. lia.
      * done.
    + intros i c Hi. pose proof (lookup_lt_Some _ _ _ Hi) as Hlt. change (length (test_text ++ [0])) with 27%nat in Hlt.
      cbn [k_mem set_mem]. rewrite Ht by lia. rewrite <- (Htxt (Z.of_nat i)) by lia. rewrite Nat2Z.id. split; [done|word_solve].
Qed.

Lemma copy_then_close {A} dst (m : K A) k : text_ok test_text -> (26 < poll_fuel)%nat ->
  (copy_string poll_fuel dst (literal test_text) 0 ;;; n <- strlen (literal test_text) ;; store8 (dst + n) 0 ;;; m) k
  = (for_up 0 26 (fun i => c <- buf_get (literal test_text) i ;; store8 (dst + i) c) ;;; store8 (dst + 26) 0 ;;; m) k.
Proof.
  intros Ht Hf. unfold bind at 1 4. rewrite (copy_string_eq dst test_text Ht) by (change (Z.of_nat (length test_text)) with 26; lia).
  change (Z.of_nat (length test_text)) with 26. destruct (for_up _ _ _ k) as [[[] k1]| | ]; [|done..].
  destruct Ht as (Hnz & Hf' & Hl). by rewrite (bind_ok _ _ _ _ _ (kmain_strlen_eq k1 (literal test_text) test_text (buf_reads_lit _ _) Hnz Hf' Hl)).
Qed.

Lemma boot_kfree b k A s c :
  at_boot m0 tr0 b k -> b_heap b = Some A -> A !! s = Some c ->
  wp (kfree (payload s)) (fun _ => at_boot m0 tr0 (on_heap (Some (delete s A)) b)) k.
Proof.
  intros Hb Hh Hs. pose proof (ab_heap _ _ _ _ Hb) as Hinv. rewrite Hh in Hinv. cbn [heap_at] in Hinv.
  destruct (kfree_live A k s c Hinv Hs) as (bm' & Hrun & Hinv' & _). eapply wp_eq; [exact Hrun|].
  apply (boot_pool_step m0 tr0 b k); [done|done| |done]. intros x Hx. cbn [k_mem set_mem set_bitmap set_heap].
  apply put32_lookup_ne. pose proof (hi_chunk _ _ Hinv _ _ Hs) as (Hc1 & Hc2 & Hc3 & _). unfold hdr. kheap_consts. lia.
Qed.

(** Printing the block from the heap. *)
Lemma boot_print_block b k s :
  at_boot m0 tr0 b k -> b_heap b = Some {[s := Chunk 5 128]} -> text_ok test_text ->
  buf_reads (k_mem k) (Ptr (payload s)) (test_text ++ [0]) ->
  wp (print (Ptr (payload s))) (fun _ => at_boot m0 tr0 (b_print test_text b)) k.
Proof.
  intros Hb Hh Hok Hr. pose proof (ab_heap _ _ _ _ Hb) as Hinv. rewrite Hh in Hinv. cbn [heap_at] in Hinv.
  pose proof (lookup_singleton_eq s (Chunk 5 128) : {[s := Chunk 5 128]} !! s = Some (Chunk 5 128)) as Hs.
  pose proof (hi_chunk _ _ Hinv _ _ Hs) as (Hc1 & _ & Hc2 & _). cbn [ch_blocks] in Hc2.
  eapply wp_mono; [apply (boot_print m0 tr0 b k (Ptr (payload s)) test_text Hb Hr); [|done]|by intros [] k' [Hb' _]].
  cbn [buf_apart]. change (Z.of_nat (length test_text)) with 26. unfold payload, hdr. pose proof pool_off_screen. kheap_consts. lia.
Qed.

(** The whole test, from an empty heap to an empty heap. *)
Lemma boot_heap_test b k :
  at_boot m0 tr0 b k -> b_heap b = Some ∅ -> dlab (b_uart b) = false -> (128 < poll_fuel)%nat ->
  wp kmain_heap_test (fun _ => at_boot m0 tr0 (b_heap_test b)) k.
Proof.
  intros Hb Hh Hd Hf. unfold kmain_heap_test.
  assert (forall s, bool_decide (Forall nonzero s) = true -> (length s <= 128)%nat -> text_ok s) as Hok.
  { intros s Hs Hl. split_and!; [by apply bool_decide_eq_true in Hs|lia|lia]. }
  apply wp_bind. eapply wp_mono; [by apply (boot_color m0 tr0)|]. intros [] k1 Hb1.
  apply wp_bind. eapply wp_mono; [by eapply boot_kmalloc|]. intros p k2 (s & -> & Hnz & Hb2).
  rewrite (proj2 (Z.eqb_neq _ _) Hnz). cbn [negb]. cbv zeta. fold test_text.
  assert (text_ok test_text) as Htt by (apply Hok; [reflexivity|cbn; lia]).
  eapply wp_run_eq; [apply copy_then_close; [exact Htt|lia]|]. eapply wp_run_eq; [apply bind_assoc|]. apply wp_bind.
  eapply wp_mono; [by eapply (boot_fill _ k2 s)|]. intros [] k3 [Hb3 Hr3].
  apply wp_bind. eapply wp_mono.
  { apply (boot_print m0 tr0 _ k3 (literal (str "  -> ")) (str "  -> ") Hb3); [apply buf_reads_lit|done|].
    apply Hok; [reflexivity|cbn; lia]. }
  intros [] k4 [Hb4 Hd4]. apply wp_bind. eapply wp_mono.
  { eapply (boot_print_block _ k4 s Hb4); [done|done|]. intros i c Hi. destruct (Hr3 i c Hi) as [Hm Hu]. split; [|done].
    rewrite Hd4; [done|]. pose proof (lookup_lt_Some _ _ _ Hi) as Hlt. change (length (test_text ++ [0])) with 27%nat in Hlt.
    pose proof (ab_heap _ _ _ _ Hb3) as Hinv. pose proof (hi_chunk _ _ Hinv s _ ltac:(apply lookup_singleton_eq)) as (Hc1 & _ & Hc2 & _).
    cbn [ch_blocks] in Hc2. unfold payload, hdr. pose proof pool_off_screen. kheap_consts. lia. }
  intros [] k5 Hb5. apply wp_bind. eapply wp_mono; [by eapply (boot_print_stats _ k5)|]. intros [] k6 Hb6.
  apply wp_bind. eapply wp_mono; [eapply (boot_kfree _ k6 _ s _ Hb6); [done|apply lookup_singleton_eq]|]. intros [] k7 Hb7.
  apply wp_bind. eapply wp_mono; [eapply (boot_print_literal m0 tr0 _ k7 _ Hb7), Hok; [reflexivity|cbn; lia]|]. intros [] k8 Hb8.
  eapply wp_mono; [by eapply (boot_print_stats _ k8)|]. intros [] k9 Hb9.
  rewrite delete_singleton_eq, total_blocks_singleton, total_blocks_empty in Hb9.
  change (32 * ch_blocks (Chunk 5 128)) with 160 in Hb9. change (32 * 0) with 0 in Hb9.
  rewrite on_heap_report, !on_heap_print, on_heap_twice, on_heap_colors, (on_heap_id _ b Hh) in Hb9. exact Hb9.
Qed.
End Heap.
