(* ===== verification/BootSequence.v ===== *)
(** [kmain] as a sequence of steps on the abstract state of the boot. *)
From S2P Require Import Prelude State Machine Image Framebuffer FramebufferFacts Isr Keyboard Serial SerialFacts Pic Interrupt InterruptFacts Syscall SyscallFacts SyscallCalls Descriptors Paging PagingFacts Kheap KheapBitmap KheapSpec KheapOps CString Kmain Boot BootInit BootHeap.

(** * The log *)

Definition b_run (fs : list (boot_state -> boot_state)) (b : boot_state) : boot_state := fold_left (fun b f => f b) fs b.

Definition colour (fg : Z) : boot_state -> boot_state := on_term (with_colors fg FB_BLACK).
Definition say (s : String.string) : boot_state -> boot_state := b_print (str s ++ [10]).

Definition hex_text (n : Z) : list Z := [48; 120] ++ (hex_digit n <$> [7; 6; 5; 4; 3; 2; 1; 0]).
Definition set_if (i : bool) : boot_state -> boot_state := on_cpu (set_cpu_if i).

Section Log.
Context `{Layout}.

Definition console_steps : list (boot_state -> boot_state) :=
  [ colour FB_LIGHT_CYAN; b_print rule;
    say "                 Welcome to Little Kernel v0.1.0                 ";
    say "                 Developed by AmiyaSokiya (amiyasociu@gmail.com)  ";
    b_print (rule ++ [10]);
    colour FB_LIGHT_GREEN;
    say "[ OK ] Framebuffer driver initialized successfully.";
    say "[ OK ] Cursor auto-advance enabled.";
    b_print (str "[ OK ] Hardware cursor synchronization active." ++ [10; 10]);
    colour FB_LIGHT_MAGENTA;
    b_serial_init; b_send [65]; b_send [69];
    b_send (str " [Serial COM1] LittleOS Serial Driver initialized successfully!" ++ [13; 10]);
    say "[ OK ] Serial driver initialized with IRQ 4 successfully!" ].

Definition init_steps : list (boot_state -> boot_state) :=
  [ b_gdt_init; say "[ OK ] GDT initialized & loaded successfully.";
    b_idt_init; say "[ OK ] IDT initialized & loaded with 48 interrupt gates.";
    b_syscall_init; say "[ OK ] Syscall handler registered at INT 0x80 (DPL=3).";
    b_pic_remap; say "[ OK ] PIC remapped (Master: 0x20, Slave: 0x28).";
    b_keyboard_init; say "[ OK ] PS/2 Keyboard driver initialized on IRQ 1.";
    b_paging_init; say "[ OK ] Higher-Half Paging active (Kernel at 0xC0100000, 3GB Virtual Base).";
    on_heap (Some ∅); say "[ OK ] Kernel Bitmap Heap initialized (256 KB, 32B block size)." ].

Definition report_steps : list (boot_state -> boot_state) :=
  [ colour FB_LIGHT_CYAN; b_print (str "[ MEM ] Kernel Physical: ");
    b_print (hex_text kernel_physical_start_addr); b_print (str " -> ");
    b_print (hex_text kernel_physical_end_addr); b_print ([10] ++ str "[ MEM ] Kernel Virtual : ");
    b_print (hex_text kernel_virtual_start_addr); b_print (str " -> ");
    b_print (hex_text kernel_virtual_end_addr); b_print [10];
    set_if true; b_print (str "[ OK ] CPU interrupts enabled (sti)." ++ [10; 10]);
    colour FB_LIGHT_CYAN; b_print rule;
    b_print (str "[ OK ] Kernel initialization complete. Transitioning to User Mode..." ++ [10; 10]);
    colour FB_WHITE ].

(** The state when the boot information is looked at. *)
Definition boot_done (b : boot_state) : boot_state :=
  b_run report_steps (b_heap_test (b_run init_steps (b_run console_steps b))).
End Log.

(** * Boot information *)

(** Memory that the boot sequence only reads. *)
Definition readable `{Layout} (m : gmap Z Z) (a n : Z) : Prop :=
  mapped m a n /\ 0 <= a /\ a + n <= 4294967296 /\ forall x, a <= x < a + n -> ~ in_window x /\ ~ in_pool x.

(** The loader passed a module of [size] bytes at [ms]; or none. *)
Record has_module `{Layout} (m : gmap Z Z) (mb ms size : Z) : Prop := HasModule {
  hm_info : readable m mb 28;
  hm_entry : readable m (word_at m (mb + mb_mods_addr)) 8;
  hm_flag : Z.land (word_at m (mb + mb_flags)) MULTIBOOT_INFO_MODS <> 0;
  hm_count : 0 < word_at m (mb + mb_mods_count);
  hm_start : word_at m (word_at m (mb + mb_mods_addr) + mod_start_off) = ms;
  hm_size : u32 (word_at m (word_at m (mb + mb_mods_addr) + mod_end_off) - ms) = size;
  hm_bytes : readable m ms (Z.min size 65536)
}.
Definition no_module `{Layout} (m : gmap Z Z) (mb : Z) : Prop :=
  readable m mb 28 /\
  (Z.land (word_at m (mb + mb_flags)) MULTIBOOT_INFO_MODS = 0 \/ word_at m (mb + mb_mods_count) = 0).

(** The address space of the process, the ring 0 stack and the way out. *)
Definition b_setup `{Layout} (m : gmap Z Z) (ms size : Z) (b : boot_state) : boot_state :=
  on_cpu (with_cr3 (VIRTUAL_TO_PHYSICAL user_page_directory_addr))
    (on_paging (fun p => with_user p (user_dir boot_pde) (fill code_pte 16 zero_table) stack_table
      (page_image m ms size <$> seqZ 0 16) zero_page) b).
Definition with_esp0 (esp0 : Z) (g : gdt_state) : gdt_state :=
  let t := tss g in
  GdtState (gdt g) (gdtr g) (TssEntry (prev_tss t) esp0 (tss_ss0 t) (tss_esp1 t) (tss_ss1 t) (tss_esp2 t) (tss_ss2 t)
    (tss_cr3 t) (tss_eip t) (tss_eflags t) (tss_eax t) (tss_ecx t) (tss_edx t) (tss_ebx t) (tss_esp t)
    (tss_ebp t) (tss_esi t) (tss_edi t) (tss_es t) (tss_cs t) (tss_ss t) (tss_ds t) (tss_fs t) (tss_gs t)
    (tss_ldt t) (tss_trap t) (tss_iomap_base t)).
Definition cpu_in_user (c : cpu_state) : cpu_state :=
  CpuState true (cpu_gdtr c) (cpu_tr c) (cpu_idtr c) (cpu_cr3 c) 0x1B 0x23.

Definition user_steps `{Layout} (m : gmap Z Z) (ms size : Z) : list (boot_state -> boot_state) :=
  [ colour FB_LIGHT_GREEN; say "[ OK ] GRUB module found! Configuring User Mode (Ring 3)...";
    b_setup m ms size; say "[ OK ] User Page Directory & Tables mapped with U/S = 1.";
    on_gdt (with_esp0 (u32 (kernel_stack_addr + 4096))); say "[ OK ] TSS Ring 0 stack pointer configured.";
    colour FB_LIGHT_CYAN; say "[ INFO ] Executing iret to drop CPU privilege into Ring 3...";
    b_send (str "[User Mode] Switching to Ring 3 via iret (CS=0x1B, SS=0x23, EIP=0x0)..." ++ [13; 10]);
    on_cpu cpu_in_user ].
Definition warn_steps : list (boot_state -> boot_state) :=
  [ colour FB_LIGHT_RED; say "[ WARN ] No Multiboot module found." ].

(** * The sequence *)

(** What [kmain] needs of the image and the machine. *)
Record bootable (b : boot_state) : Prop := Bootable {
  bt_isr : length (b_isr b) = 256%nat;
  bt_gdt : length (gdt (b_gdt b)) = 6%nat;
  bt_idt : length (idt (b_idt b)) = 256%nat;
  bt_paging : paging_sized (b_paging b);
  bt_heap : b_heap b = None
}.

Section Sequence.
Context `{Env} `{PollFuel} `{BootLayout} `{!UartReady}.
Context (m0 : gmap Z Z) (tr0 : trace).
Context (Hfuel : (128 < poll_fuel)%nat).
Context (Hquiet : forall evs, Forall quiet_event evs -> Z.land (u8 (env_in (evs ++ tr0) KBD_STATUS_PORT)) 1 = 0).

Lemma run_step {A B} f fs b k (m : K A) (n : K B) :
  wp m (fun _ => at_boot m0 tr0 (f b)) k ->
  (forall k', at_boot m0 tr0 (f b) k' -> wp n (fun _ => at_boot m0 tr0 (b_run fs (f b))) k') ->
  wp (m ;;; n) (fun _ => at_boot m0 tr0 (b_run (f :: fs) b)) k.
Proof. intros Hm Hn. apply wp_bind. eapply wp_mono; [exact Hm|]. intros a k' Hk. by apply Hn. Qed.

Lemma text_small s : bool_decide (Forall nonzero s) = true -> (length s <= 128)%nat -> text_ok s.
Proof. intros Hs Hl. split_and!; [by apply bool_decide_eq_true in Hs|lia|lia]. Qed.

Lemma say_step b k s : at_boot m0 tr0 b k -> bool_decide (Forall nonzero s) = true -> (length s <= 128)%nat ->
  wp (print (literal s)) (fun _ => at_boot m0 tr0 (b_print s b)) k.
Proof. intros Hb Hs Hl. by apply boot_print_literal, text_small. Qed.

Ltac said := first [eapply boot_color; eassumption | eapply say_step; [eassumption|reflexivity|vm_compute; lia]].
Ltac step := eapply run_step; [solve [said]|let k := fresh "k" in let Hb := fresh "Hb" in intros k Hb].

(** The state in which [kmain] is entered, seen after [fb_clear]. *)
Definition boot_start (k : kernel) : boot_state :=
  Boot (term_clear (term_of k)) (uart_of (k_trace k)) (master (k_trace k), slave (k_trace k))
    (k_cpu k) (k_isr k) (k_gdt k) (k_idt k) (k_kbd k) (k_paging k) None.

Lemma console_wp k :
  mapped (k_mem k) fb 4000 -> heap_at None k -> m0 = k_mem k -> tr0 = k_trace k -> bootable (boot_start k) ->
  wp kmain_console (fun _ => at_boot m0 tr0 (b_run console_steps (boot_start k))) k.
Proof.
  intros Hm Hh Hm0 Htr0 [Hisr _ _ _ _]. unfold kmain_console. apply wp_bind.
  eapply wp_mono; [by apply (boot_fb_clear m0 tr0 k None)|]. fold (boot_start k). intros [] k1 Hb.
  set (b := boot_start k) in *. unfold console_steps. do 10 step.
  eapply run_step; [eapply boot_serial_init; [eassumption|exact Hisr]|intros k11 Hb11].
  eapply run_step; [eapply boot_serial_char; [eassumption|reflexivity|done]|intros k12 Hb12].
  eapply run_step; [eapply boot_serial_char; [eassumption|reflexivity|done]|intros k13 Hb13]. cbv zeta.
  eapply boot_send_literal; [exact Hb13|reflexivity|apply text_small; [reflexivity|vm_compute; lia]|].
  intros k14 Hb14. said.
Qed.

Lemma idt_table_length : length idt_table = 256%nat.
Proof. unfold idt_table. by rewrite length_fmap, length_seqZ. Qed.

Lemma init_wp b k :
  at_boot m0 tr0 b k -> bootable b -> wp kmain_init (fun _ => at_boot m0 tr0 (b_run init_steps b)) k.
Proof.
  intros Hb [Hisr Hgdt Hidt Hpg Hheap]. unfold kmain_init, init_steps.
  eapply run_step; [by eapply boot_gdt_init|intros k1 Hb1]. step.
  eapply run_step; [by eapply boot_idt_init|intros k3 Hb3]. step.
  eapply run_step; [eapply boot_syscall_init; [eassumption|exact idt_table_length]|intros k5 Hb5]. step.
  eapply run_step; [by eapply boot_pic_remap|intros k7 Hb7]. step.
  eapply run_step; [eapply boot_keyboard_init; [exact Hquiet|lia|eassumption|exact Hisr]|intros k9 Hb9]. step.
  eapply run_step; [eapply boot_paging_init; [eassumption|exact (sz_boot_dir _ Hpg)]|intros k11 Hb11]. step.
  eapply run_step; [eapply boot_kheap_init; [eassumption|exact Hheap]|intros k13 Hb13]. said.
Qed.

(** Hexadecimal numbers. *)
Lemma hex_digit_nonzero n i : nonzero (hex_digit n i).
Proof.
  unfold hex_digit, nonzero. change 0xF with (Z.ones 4). rewrite Z.land_ones by lia.
  pose proof (Z.mod_pos_bound (Z.shiftr n (i * 4)) (2 ^ 4) ltac:(lia)). change (2 ^ 4) with 16 in *. case_bool; lia.
Qed.

Lemma print_hex_step b k n :
  at_boot m0 tr0 b k -> wp (print_hex n) (fun _ => at_boot m0 tr0 (b_print (hex_text n) b)) k.
Proof.
  intros Hb. apply (boot_print_literal m0 tr0 b k (hex_text n) Hb). split_and!; [|change (length (hex_text n)) with 10%nat; lia..].
  unfold hex_text. apply Forall_app_2; [apply (bool_decide_unpack _); vm_compute; exact I|].
  apply Forall_fmap, Forall_true. intros i. apply hex_digit_nonzero.
Qed.

Lemma boot_sti b k : at_boot m0 tr0 b k -> wp enable_interrupts (fun _ => at_boot m0 tr0 (set_if true b)) k.
Proof. intros Hb. apply wp_modify. boot_fields. cbn [k_cpu set_cpu b_cpu set_if on_cpu]. by f_equal. Qed.

Lemma report_wp b k : at_boot m0 tr0 b k -> wp kmain_report (fun _ => at_boot m0 tr0 (b_run report_steps b)) k.
Proof.
  intros Hb. unfold kmain_report, report_steps. do 2 step.
  do 4 (eapply run_step; [eapply print_hex_step; eassumption|intros ? ?]; step).
  eapply run_step; [eapply boot_sti; eassumption|intros k11 Hb11]. do 4 step. said.
Qed.

Lemma boot_load32 b k a n : at_boot m0 tr0 b k -> readable m0 a n -> forall off, 0 <= off -> off + 4 <= n ->
  load32 (a + off) k = Ok (word_at m0 (a + off), k).
Proof.
  intros Hb (Hm & Ha & Hn & Hoff) off Ho1 Ho2.
  assert (forall x, a <= x < a + n -> k_mem k !! x = m0 !! x) as Hx by (intros x Hx; apply (ab_mem _ _ _ _ Hb); apply Hoff; lia).
  rewrite load32_eq; [|intros i Hi; rewrite Hx by lia; rewrite <- Z.add_assoc; apply Hm; lia|lia|lia].
  do 2 f_equal. apply word_at_ext. intros i Hi. apply Hx. lia.
Qed.

Lemma boot_setup b k ms size :
  at_boot m0 tr0 b k -> paging_sized (b_paging b) -> boot_page_directory (b_paging b) !! 768%nat = Some boot_pde ->
  is_u32 size -> readable m0 ms (Z.min size 65536) ->
  wp (paging_setup_user_process ms size) (fun _ => at_boot m0 tr0 (b_setup m0 ms size b)) k.
Proof.
  intros Hb Hsz He Hsize (Hm & Ha & Hn & Hoff). rewrite <- (ab_paging _ _ _ _ Hb) in Hsz, He.
  assert (forall x, ms <= x < ms + Z.min size 65536 -> k_mem k !! x = m0 !! x) as Hx
    by (intros x Hx; apply (ab_mem _ _ _ _ Hb); apply Hoff; lia).
  eapply wp_mono; [apply (setup_wp k ms size boot_pde Hsz Hsize); [|exact He]|].
  { split_and!; [|done|done]. intros i Hi. rewrite Hx by lia. by apply Hm. }
  intros [] k' ->.
  assert (page_image (k_mem k) ms size <$> seqZ 0 16 = page_image m0 ms size <$> seqZ 0 16) as ->.
  { apply list_fmap_ext. intros j p Hp. apply lookup_seqZ in Hp as [-> Hj]. unfold page_image, fill. f_equal.
    apply list_fmap_ext. intros i x Hi. apply lookup_seqZ in Hi as [-> Hi]. unfold image_byte, byte_at. rewrite Hx; [done|].
    unfold copied in Hi. lia. }
  boot_fields.
  - cbn [k_cpu set_cpu b_cpu b_setup on_cpu]. by f_equal.
  - cbn [k_paging set_cpu set_paging b_paging b_setup on_cpu on_paging]. by rewrite ab_paging.
Qed.

Lemma boot_tss b k esp0 : at_boot m0 tr0 b k -> wp (tss_set_kernel_stack esp0) (fun _ => at_boot m0 tr0 (on_gdt (with_esp0 esp0) b)) k.
Proof. intros Hb. apply wp_modify. boot_fields. cbn [k_gdt set_gdt b_gdt on_gdt]. by rewrite ab_gdt. Qed.

Lemma boot_enter b k eip esp : at_boot m0 tr0 b k ->
  wp (enter_user_mode eip esp) (fun r k' => r = UserMode eip esp /\ at_boot m0 tr0 (on_cpu cpu_in_user b) k') k.
Proof.
  intros Hb. unfold enter_user_mode. apply wp_bind, wp_modify, wp_ret. split; [done|]. boot_fields.
  cbn [k_cpu set_cpu b_cpu on_cpu]. by rewrite ab_cpu.
Qed.

(** [run_step] for a program that ends with a result. *)
Lemma run_step_to {A B} f fs b k (m : K A) (n : K B) r :
  wp m (fun _ => at_boot m0 tr0 (f b)) k ->
  (forall k', at_boot m0 tr0 (f b) k' -> wp n (fun x k'' => x = r /\ at_boot m0 tr0 (b_run fs (f b)) k'') k') ->
  wp (m ;;; n) (fun x k'' => x = r /\ at_boot m0 tr0 (b_run (f :: fs) b) k'') k.
Proof. intros Hm Hn. apply wp_bind. eapply wp_mono; [exact Hm|]. intros a k' Hk. by apply Hn. Qed.

Ltac step_to := eapply run_step_to; [solve [said]|let k := fresh "k" in let Hb := fresh "Hb" in intros k Hb].

Lemma start_user_wp b k ms size :
  at_boot m0 tr0 b k -> dlab (b_uart b) = false -> paging_sized (b_paging b) ->
  boot_page_directory (b_paging b) !! 768%nat = Some boot_pde -> is_u32 size -> readable m0 ms (Z.min size 65536) ->
  wp (kmain_start_user ms size) (fun r k' => r = UserMode USER_ENTRY_POINT USER_STACK_TOP /\
    at_boot m0 tr0 (b_run (user_steps m0 ms size) b) k') k.
Proof.
  intros Hb Hd Hsz He Hsize Hr. unfold kmain_start_user, user_steps. do 2 step_to.
  eapply run_step_to; [eapply boot_setup; [eassumption|exact Hsz|exact He|exact Hsize|exact Hr]|intros k3 Hb3]. step_to.
  eapply run_step_to; [eapply boot_tss; eassumption|intros k5 Hb5]. do 3 step_to. cbv zeta.
  eapply boot_send_literal; [eassumption|exact Hd|apply text_small; [reflexivity|vm_compute; lia]|]. intros k9 Hb9.
  by apply boot_enter.
Qed.
(** ** The boot information *)

Lemma load_module_wp b k mb ms size :
  at_boot m0 tr0 b k -> dlab (b_uart b) = false -> paging_sized (b_paging b) ->
  boot_page_directory (b_paging b) !! 768%nat = Some boot_pde -> has_module m0 mb ms size ->
  wp (kmain_load mb) (fun r k' => r = UserMode USER_ENTRY_POINT USER_STACK_TOP /\
    at_boot m0 tr0 (b_run (user_steps m0 ms size) b) k') k.
Proof.
  intros Hb Hd Hsz He [Hi Hm Hf Hc Hs Hz Hr]. unfold kmain_load.
  pose proof (boot_load32 _ _ _ _ Hb Hi) as Hli. pose proof (boot_load32 _ _ _ _ Hb Hm) as Hlm.
  apply wp_bind. eapply wp_eq; [apply Hli; unfold mb_flags; lia|]. rewrite (proj2 (Z.eqb_neq _ _) Hf).
  apply wp_bind, wp_bind. eapply wp_eq; [apply Hli; unfold mb_mods_count; lia|]. apply wp_ret.
  rewrite (proj2 (Z.ltb_lt _ _) Hc).
  apply wp_bind. eapply wp_eq; [apply Hli; unfold mb_mods_addr; lia|].
  apply wp_bind. eapply wp_eq; [apply Hlm; unfold mod_start_off; lia|].
  apply wp_bind. eapply wp_eq; [apply Hlm; unfold mod_end_off; lia|].
  rewrite Hs, Hz. apply start_user_wp; try done. rewrite <- Hz. apply u32_range.
Qed.

Lemma load_none_wp b k mb :
  at_boot m0 tr0 b k -> no_module m0 mb ->
  wp (kmain_load mb) (fun r k' => r = Returned 0 /\ at_boot m0 tr0 (b_run warn_steps b) k') k.
Proof.
  intros Hb [Hi Hn]. unfold kmain_load. pose proof (boot_load32 _ _ _ _ Hb Hi) as Hli.
  apply wp_bind. eapply wp_eq; [apply Hli; unfold mb_flags; lia|].
  assert (wp (fb_set_color FB_LIGHT_RED FB_BLACK ;;;
    print (literal (str "[ WARN ] No Multiboot module found." ++ [10])) ;;; ret (Returned 0))
    (fun r k' => r = Returned 0 /\ at_boot m0 tr0 (b_run warn_steps b) k') k) as Hw by (do 2 step_to; by apply wp_ret).
  destruct (Z.land _ _ =? 0) eqn:E; apply wp_bind; [by apply wp_ret|].
  apply Z.eqb_neq in E. destruct Hn as [Hn|Hn]; [done|].
  apply wp_bind. eapply wp_eq; [apply Hli; unfold mb_mods_count; lia|]. apply wp_ret.
  rewrite Hn. exact Hw.
Qed.

(** ** The whole of [kmain] *)

Context (k : kernel).
Context (Hm0 : m0 = k_mem k) (Htr0 : tr0 = k_trace k).
Context (Hwin : mapped (k_mem k) fb 4000) (Hheap : heap_at None k) (Hboot : bootable (boot_start k)).

Lemma initialised_wp {A} (rest : K A) Q :
  (forall k', at_boot m0 tr0 (boot_done (boot_start k)) k' -> wp rest Q k') ->
  wp (kmain_console ;;; kmain_init ;;; kmain_heap_test ;;; kmain_report ;;; rest) Q k.
Proof.
  intros Hrest. apply wp_bind. eapply wp_mono; [by apply console_wp|]. intros [] k1 Hb1.
  apply wp_bind. eapply wp_mono; [apply init_wp; [exact Hb1|]|].
  { destruct Hboot as [Hi Hg Ht Hp Hh]. constructor; try assumption.
    change (b_isr (b_run console_steps (boot_start k))) with (<[36%nat := serial_interrupt]> (b_isr (boot_start k))).
    by rewrite length_insert. }
  intros [] k2 Hb2. apply wp_bind. eapply wp_mono; [by apply boot_heap_test; [exact Hb2|..]|].
  intros [] k3 Hb3. apply wp_bind. eapply wp_mono; [by apply report_wp|]. intros [] k4 Hb4. by apply Hrest.
Qed.

Lemma kmain_module_wp mb ms size :
  has_module m0 mb ms size ->
  wp (kmain mb) (fun r k' => r = UserMode USER_ENTRY_POINT USER_STACK_TOP /\
    at_boot m0 tr0 (b_run (user_steps m0 ms size) (boot_done (boot_start k))) k') k.
Proof.
  intros Hmod. apply initialised_wp. intros k' Hb. pose proof (bt_paging _ Hboot) as Hp.
  apply load_module_wp with (1 := Hb); try done.
  - change (paging_sized (b_paging (b_paging_init (boot_start k)))). destruct Hp. constructor; try done.
    cbn. by rewrite !length_insert.
  - change (boot_page_directory (b_paging (b_paging_init (boot_start k))) !! 768%nat = Some boot_pde).
    destruct Hp. cbn. apply list_lookup_insert_eq. rewrite length_insert. cbn in sz_boot_dir. rewrite sz_boot_dir. lia.
Qed.

Lemma kmain_none_wp mb :
  no_module m0 mb ->
  wp (kmain mb) (fun r k' => r = Returned 0 /\ at_boot m0 tr0 (b_run warn_steps (boot_done (boot_start k))) k') k.
Proof. intros Hno. apply initialised_wp. intros k' Hb. by apply load_none_wp. Qed.
End Sequence.
