(* ===== verification/BootFinal.v ===== *)
(** The states in which [kmain] ends, field by field: what the screen and the
    serial line received and what each component holds. *)
From S2P Require Import Prelude State Machine Image Framebuffer FramebufferFacts Isr Keyboard Serial SerialFacts Pic Interrupt InterruptFacts Syscall SyscallFacts SyscallCalls Descriptors Paging PagingFacts Kheap KheapBitmap KheapSpec KheapOps CString Kmain Boot BootInit BootHeap BootSequence.

(** * The log *)

(** The foreground colour changes, or text is written. *)
Inductive log_entry := Fg (c : Z) | Txt (s : list Z).

Definition log_step (t : term) (e : log_entry) : term :=
  match e with Fg c => with_colors c FB_BLACK t | Txt s => term_write t s end.
Definition show_log (log : list log_entry) (t : term) : term := fold_left log_step log t.

Definition line (s : String.string) : log_entry := Txt (str s ++ [10]).

Section Log.
Context `{Layout}.

Definition boot_log : list log_entry :=
  [ Fg FB_LIGHT_CYAN; Txt rule;
    line "                 Welcome to Little Kernel v0.1.0                 ";
    line "                 Developed by AmiyaSokiya (amiyasociu@gmail.com)  ";
    Txt (rule ++ [10]);
    Fg FB_LIGHT_GREEN;
    line "[ OK ] Framebuffer driver initialized successfully.";
    line "[ OK ] Cursor auto-advance enabled.";
    Txt (str "[ OK ] Hardware cursor synchronization active." ++ [10; 10]);
    Fg FB_LIGHT_MAGENTA;
    line "[ OK ] Serial driver initialized with IRQ 4 successfully!";
    line "[ OK ] GDT initialized & loaded successfully.";
    line "[ OK ] IDT initialized & loaded with 48 interrupt gates.";
    line "[ OK ] Syscall handler registered at INT 0x80 (DPL=3).";
    line "[ OK ] PIC remapped (Master: 0x20, Slave: 0x28).";
    line "[ OK ] PS/2 Keyboard driver initialized on IRQ 1.";
    line "[ OK ] Higher-Half Paging active (Kernel at 0xC0100000, 3GB Virtual Base).";
    line "[ OK ] Kernel Bitmap Heap initialized (256 KB, 32B block size).";
    Fg FB_LIGHT_BROWN;
    Txt (str "  -> "); Txt test_text; Txt (stats_text 160);
    Txt (str "  -> Freed test block. "); Txt (stats_text 0);
    Fg FB_LIGHT_CYAN;
    Txt (str "[ MEM ] Kernel Physical: "); Txt (hex_text kernel_physical_start_addr); Txt (str " -> ");
    Txt (hex_text kernel_physical_end_addr);
    Txt ([10] ++ str "[ MEM ] Kernel Virtual : "); Txt (hex_text kernel_virtual_start_addr); Txt (str " -> ");
    Txt (hex_text kernel_virtual_end_addr); Txt [10];
    Txt (str "[ OK ] CPU interrupts enabled (sti)." ++ [10; 10]);
    Fg FB_LIGHT_CYAN; Txt rule;
    Txt (str "[ OK ] Kernel initialization complete. Transitioning to User Mode..." ++ [10; 10]);
    Fg FB_WHITE ].

Definition user_log : list log_entry :=
  [ Fg FB_LIGHT_GREEN;
    line "[ OK ] GRUB module found! Configuring User Mode (Ring 3)...";
    line "[ OK ] User Page Directory & Tables mapped with U/S = 1.";
    line "[ OK ] TSS Ring 0 stack pointer configured.";
    Fg FB_LIGHT_CYAN;
    line "[ INFO ] Executing iret to drop CPU privilege into Ring 3..." ].
Definition warn_log : list log_entry := [ Fg FB_LIGHT_RED; line "[ WARN ] No Multiboot module found." ].

(** The bytes over COM1. *)
Definition boot_serial : list Z :=
  str "AE [Serial COM1] LittleOS Serial Driver initialized successfully!" ++ [13; 10] ++ stats_text 160 ++ stats_text 0.
Definition user_serial : list Z :=
  str "[User Mode] Switching to Ring 3 via iret (CS=0x1B, SS=0x23, EIP=0x0)..." ++ [13; 10].

(** * The final states *)

(** [initialised k log sent cpu g p]: every component is as its initialisation
    leaves it, given the state [k] in which [kmain] was entered. *)
Definition initialised (k : kernel) (log : list log_entry) (sent : list Z) (cpu : cpu_state) (esp0 : Z) (p : paging_state) : boot_state :=
  Boot (show_log log (term_clear (term_of k)))
    (Uart 0x03 1 0 0x01 0x07 0x0B (rev sent ++ uart_tx (uart_of (k_trace k))))
    (Pic OCW true 32 0x04 0x01 0xED (pic_eois (master (k_trace k))), Pic OCW true 40 0x02 0x01 0xFF (pic_eois (slave (k_trace k))))
    cpu
    (<[33%nat := keyboard_interrupt]> (<[36%nat := serial_interrupt]> (k_isr k)))
    (GdtState gdt_final (TablePtr 47 gdt_addr) (tss_final esp0))
    (IdtState (<[128%nat := idt_gate Int128Handler_addr 0x08 0xEE]> idt_table) (TablePtr 2047 idt_addr))
    (KbdState (shift_active (k_kbd k)) (kbd_buffer (k_kbd k)) 0 0 0)
    p (Some ∅).

Definition mapped_boot (p : paging_state) : paging_state :=
  PagingState (<[768%nat := boot_pde]> (<[0%nat := boot_pde]> (boot_page_directory p)))
    (boot_page_table1 p) (user_page_directory p) (user_code_page_table p) (user_stack_page_table p)
    (user_code_pages p) (user_stack_page p).

(** In ring 3, on the address space of the process. *)
Definition in_user_mode (k : kernel) (ms size : Z) : boot_state :=
  initialised k (boot_log ++ user_log) (boot_serial ++ user_serial)
    (CpuState true (TablePtr 47 gdt_addr) 0x28 (TablePtr 2047 idt_addr) (VIRTUAL_TO_PHYSICAL user_page_directory_addr) 0x1B 0x23)
    (u32 (kernel_stack_addr + 4096))
    (with_user (mapped_boot (k_paging k)) (user_dir boot_pde) (fill code_pte 16 zero_table) stack_table
      (page_image (k_mem k) ms size <$> seqZ 0 16) zero_page).

(** In the halt loop of loader.s, interrupts enabled. *)
Definition in_halt (k : kernel) : boot_state :=
  initialised k (boot_log ++ warn_log) boot_serial
    (CpuState true (TablePtr 47 gdt_addr) 0x28 (TablePtr 2047 idt_addr) (cpu_cr3 (k_cpu k)) 0x08 0x10)
    0 (mapped_boot (k_paging k)).

(** * The steps lead there *)

#[local] Opaque term_write with_tx str.

Lemma console_term b : b_term (boot_done b) = show_log boot_log (b_term b).
Proof. reflexivity. Qed.

Lemma console_uart b :
  b_uart (boot_done b) = with_tx boot_serial (Uart 0x03 1 0 0x01 0x07 0x0B (uart_tx (b_uart b))).
Proof.
  transitivity (with_tx (stats_text 0) (with_tx (stats_text 160) (with_tx (str " [Serial COM1] LittleOS Serial Driver initialized successfully!" ++ [13; 10])
    (with_tx [69] (with_tx [65] (Uart 0x03 1 0 0x01 0x07 0x0B (uart_tx (b_uart b)))))))).
  - reflexivity.
  - rewrite !with_tx_app. f_equal.
Qed.

(** Equality of abstract states, field by field. *)
Lemma boot_eq b b' :
  b_term b = b_term b' -> b_uart b = b_uart b' -> b_pics b = b_pics b' -> b_cpu b = b_cpu b' -> b_isr b = b_isr b' ->
  b_gdt b = b_gdt b' -> b_idt b = b_idt b' -> b_kbd b = b_kbd b' -> b_paging b = b_paging b' -> b_heap b = b_heap b' -> b = b'.
Proof. destruct b, b'. cbn. by intros -> -> -> -> -> -> -> -> -> ->. Qed.

Lemma done_eq k : boot_done (boot_start k) =
  initialised k boot_log boot_serial
    (CpuState true (TablePtr 47 gdt_addr) 0x28 (TablePtr 2047 idt_addr) (cpu_cr3 (k_cpu k)) 0x08 0x10) 0 (mapped_boot (k_paging k)).
Proof. apply boot_eq; [apply console_term|apply console_uart|reflexivity..]. Qed.

(** The steps of the two ends. *)
Lemma user_eq k ms size : b_run (user_steps (k_mem k) ms size) (boot_done (boot_start k)) = in_user_mode k ms size.
Proof. rewrite done_eq. by apply boot_eq. Qed.

Lemma warn_eq k : b_run warn_steps (boot_done (boot_start k)) = in_halt k.
Proof. rewrite done_eq. by apply boot_eq. Qed.
End Log.
