(* ===== verification/Process.v ===== *)
(** The process that [kmain] starts: the memory it sees through its page
    directory, and the state in which the shell begins. *)
From S2P Require Import Prelude State Machine Image Framebuffer FramebufferFacts Isr Keyboard Serial SerialFacts Pic Interrupt InterruptFacts Syscall SyscallFacts SyscallCalls CString Stdio StdioFacts Printf Shell TokenizeFacts ShellFacts ShellTurn Descriptors Paging PagingFacts PagingProps Kheap KheapBitmap KheapSpec KheapOps Kmain Boot BootInit BootHeap BootSequence BootFinal.

(** * Maps from functions *)

Definition tabulate (f : Z -> option Z) (l : list Z) : gmap Z Z :=
  foldr (fun x m => match f x with Some v => <[x := v]> m | None => m end) ∅ l.

Lemma tabulate_lookup f l x : tabulate f l !! x = if decide (x ∈ l) then f x else None.
Proof.
  induction l as [|y l IH]; [rewrite decide_False by apply not_elem_of_nil; apply lookup_empty|]. cbn [tabulate foldr].
  fold (tabulate f l). destruct (decide (y = x)) as [->|Hne].
  - rewrite decide_True by (by left). destruct (f x) eqn:E; [apply lookup_insert_eq|]. rewrite IH. by case_decide.
  - rewrite (decide_ext (x ∈ y :: l) (x ∈ l)) by (rewrite elem_of_cons; intuition congruence).
    destruct (f y); [by rewrite lookup_insert_ne|done].
Qed.

(** * The address space *)

Section Space.
Context `{Layout}.

(** The byte at a physical address: a frame of the process, or memory that the
    kernel reaches at 3GB. *)
Definition frame_byte (p : paging_state) (m : gmap Z Z) (pa : Z) : option Z :=
  let code := pa - (user_code_pages_addr - KERNEL_VIRTUAL_BASE) in
  let stack := pa - (user_stack_page_addr - KERNEL_VIRTUAL_BASE) in
  if (0 <=? code) && (code <? 65536) then
    page ← user_code_pages p !! Z.to_nat (code / 4096); page !! Z.to_nat (code mod 4096)
  else if (0 <=? stack) && (stack <? 4096) then user_stack_page p !! Z.to_nat stack
  else m !! (pa + KERNEL_VIRTUAL_BASE).

(** [process_view p m m']: [m'] is what the CPU sees through the user directory. *)
Definition process_view (p : paging_state) (m m' : gmap Z Z) : Prop :=
  forall va, is_u32 va -> m' !! va = translate (tables_of p) (user_page_directory p) false va ≫= frame_byte p m.

(** That memory, for every address. *)
Definition process_memory (p : paging_state) (m : gmap Z Z) : gmap Z Z :=
  tabulate (fun va => translate (tables_of p) (user_page_directory p) false va ≫= frame_byte p m) (seqZ 0 4294967296).

Lemma process_memory_view p m : process_view p m (process_memory p m).
Proof.
  intros va Hva. unfold process_memory. rewrite tabulate_lookup, decide_True; [done|]. apply elem_of_seqZ. word_solve.
Qed.

Definition in_frames (x : Z) : Prop :=
  user_code_pages_addr <= x < user_code_pages_addr + 65536 \/ user_stack_page_addr <= x < user_stack_page_addr + 4096.

(** The image as the process sees it at [x]. *)
Definition loaded (m : gmap Z Z) (ms size x : Z) : Z := if x <? size then byte_at m (ms + x) else 0.
End Space.

#[global] Opaque process_memory.

(** The frames are distinct, and neither on the screen nor on the ring 0 stack. *)
Class ProcessLayout `{Layout} : Prop := {
  process_boot :: BootLayout;
  frames_distinct : user_code_pages_addr + 65536 <= user_stack_page_addr \/ user_stack_page_addr + 4096 <= user_code_pages_addr;
  screen_off_frames : forall x, fb <= x < fb + 4000 -> ~ in_frames x;
  trap_off_frames : forall x, trap_frame <= x < trap_frame + 68 -> ~ in_frames x;
  trap_off_pool : forall x, trap_frame <= x < trap_frame + 68 -> ~ in_pool x;
  trap_high : KERNEL_VIRTUAL_BASE <= trap_frame /\ trap_frame + 68 <= 0xC0400000
}.

Section View.
Context `{ProcessLayout}.
Context (p0 : paging_state) (m m' m0 : gmap Z Z) (ms size : Z).
Definition process_paging : paging_state :=
  with_user p0 (user_dir boot_pde) (fill code_pte 16 zero_table) stack_table (page_image m0 ms size <$> seqZ 0 16) zero_page.
Context (Htab : boot_page_table1 p0 = boot_table) (Hsize : is_u32 size).
Context (Hview : process_view process_paging m m').

Lemma view_eq va : is_u32 va -> m' !! va = kernel_frame va ≫= frame_byte process_paging m.
Proof. intros Hva. rewrite (Hview va Hva). f_equal. by apply (user_walk p0 _ _ false). Qed.

Lemma view_image x : 0 <= x < 65536 -> m' !! x = Some (loaded m0 ms size x).
Proof.
  intros Hx. rewrite view_eq by word_solve. unfold kernel_frame, user_frame.
  rewrite (proj2 (Z.leb_gt 0xC0000000 x)), (proj2 (Z.ltb_lt x 65536)) by lia. cbn [andb mbind option_bind]. unfold frame_byte.
  replace (user_code_pages_addr - KERNEL_VIRTUAL_BASE + x - (user_code_pages_addr - KERNEL_VIRTUAL_BASE)) with x by lia.
  rewrite (proj2 (Z.leb_le _ _)), (proj2 (Z.ltb_lt _ _)) by lia. cbn [andb process_paging with_user user_code_pages].
  rewrite seqZ_fmap_lookup by word_solve. cbn [mbind option_bind]. by apply page_image_lookup.
Qed.

Lemma view_stack x : 0xBFFFF000 <= x < 0xC0000000 -> m' !! x = Some 0.
Proof.
  intros Hx. rewrite view_eq by word_solve. unfold kernel_frame, user_frame.
  rewrite (proj2 (Z.leb_gt 0xC0000000 x)), (proj2 (Z.ltb_ge x 65536)), (proj2 (Z.leb_le 0xBFFFF000 x)), (proj2 (Z.ltb_lt x 0xC0000000)) by lia.
  cbn [andb mbind option_bind]. unfold frame_byte. cbn [process_paging with_user user_code_pages user_stack_page].
  pose proof frames_distinct.
  rewrite (proj2 (andb_false_iff (0 <=? _) _)) by (rewrite Z.leb_gt, Z.ltb_ge; lia).
  replace (user_stack_page_addr - KERNEL_VIRTUAL_BASE + (x - 0xBFFFF000) - (user_stack_page_addr - KERNEL_VIRTUAL_BASE))
    with (x - 0xBFFFF000) by lia.
  rewrite (proj2 (Z.leb_le _ _)), (proj2 (Z.ltb_lt _ _)) by lia. cbn [andb]. unfold zero_page. apply (seqZ_fmap_lookup (fun _ => 0)). lia.
Qed.

Lemma view_kernel x : 0xC0000000 <= x < 0xC0400000 -> ~ in_frames x -> m' !! x = m !! x.
Proof.
  intros Hx Hf. rewrite view_eq by word_solve. unfold kernel_frame.
  rewrite (proj2 (Z.leb_le _ _)), (proj2 (Z.ltb_lt _ _)) by lia. cbn [andb mbind option_bind]. unfold frame_byte, in_frames in *.
  rewrite !(proj2 (andb_false_iff (0 <=? _) _)) by (rewrite Z.leb_gt, Z.ltb_ge; lia). f_equal. lia.
Qed.
End View.

(** Port traffic without interrupts takes no key. *)
Lemma quiet_keys `{Env} (keys : trace -> list Z) `{!KbdSource keys} evs tr : Forall quiet_event evs -> keys (evs ++ tr) = keys tr.
Proof.
  intros Hq. induction Hq as [|e evs He _ IH]; [done|]. cbn [app].
  destruct e as [p v|p v|v]; cbn in He; [by rewrite key_out|by rewrite key_in|done].
Qed.

(** The drivers after [kmain]'s initialisation. *)
Lemma drivers_ready `{Layout} m0 tr0 k log ser cpu esp0 p k1 :
  length (k_isr k) = 256%nat -> length (kbd_buffer (k_kbd k)) = 256%nat -> Forall is_u8 (kbd_buffer (k_kbd k)) ->
  at_boot m0 tr0 (initialised k log ser cpu esp0 p) k1 ->
  isr_ok (k_isr k1) /\ kbd_ok (k_kbd k1) /\ dlab (uart_of (k_trace k1)) = false.
Proof.
  intros Hi Hl Hb Hboot. rewrite (ab_isr _ _ _ _ Hboot), (ab_kbd _ _ _ _ Hboot), (ab_uart _ _ _ _ Hboot).
  cbn [b_isr b_kbd b_uart initialised]. split_and!; [|constructor; cbn; try done; by rewrite Hl|done].
  constructor; [by rewrite !length_insert|..].
  - apply list_lookup_insert_eq. rewrite length_insert. lia.
  - rewrite list_lookup_insert_ne by lia. apply list_lookup_insert_eq. lia.
Qed.

(** * The start of the shell *)

(** Addresses that ring 3 may use. *)
Definition user_range (a n : Z) : Prop := 0 < a /\ a + n <= 65536 \/ 0xBFFFF000 <= a /\ a + n <= 0xC0000000.

(** The module is the shell: its literals are where the program expects them,
    and its variables are in the image or on the stack page. *)
Record shell_module `{UserLayout} `{ShellLayout} (m : gmap Z Z) (ms size : Z) : Prop := ShellModule {
  sm_range : forall s, s ∈ shell_literals -> 0 < lit_addr s /\ lit_addr s + Z.of_nat (length s) < 65536;
  sm_bytes : forall s i c, s ∈ shell_literals -> (s ++ [0]) !! i = Some c -> loaded m ms size (lit_addr s + Z.of_nat i) = c;
  sm_line : user_range line_buf_addr 128;
  sm_argv : user_range argv_addr 64;
  sm_ch : 0xBFFFF000 <= putchar_ch < 0xC0000000
}.

Section Start.
Context `{PollFuel} `{ProcessLayout} `{UserLayout} `{ShellLayout}.
Context (k k1 : kernel) (m' : gmap Z Z) (ms size : Z).
Context (Hfuel : (128 < poll_fuel)%nat) (Htab : boot_page_table1 (k_paging k) = boot_table) (Hsize : is_u32 size).
Context (Hmod : readable (k_mem k) ms (Z.min size 65536)) (Hshell : shell_module (k_mem k) ms size).
Context (Hboot : at_boot (k_mem k) (k_trace k) (in_user_mode k ms size) k1).
Context (Hview : process_view (k_paging k1) (k_mem k1) m').

Lemma view_is : process_view (process_paging (mapped_boot (k_paging k)) (k_mem k) ms size) (k_mem k1) m'.
Proof. pose proof Hview as Hv. rewrite (ab_paging _ _ _ _ Hboot) in Hv. exact Hv. Qed.

Lemma user_mapped a n : user_range a n -> mapped m' a n.
Proof.
  intros Ha i Hi. destruct Ha as [Ha|Ha].
  - eexists. split; [apply (view_image (mapped_boot (k_paging k)) (k_mem k1) m' (k_mem k) ms size Htab Hsize view_is); lia|].
    unfold loaded. destruct (Z.ltb_spec (a + i) size); [|word_solve]. destruct Hmod as (Hm & _).
    destruct (Hm (a + i)) as (v & Hv & Hu); [lia|]. unfold byte_at. by rewrite Hv.
  - exists 0. split; [|word_solve].
    apply (view_stack (mapped_boot (k_paging k)) (k_mem k1) m' (k_mem k) ms size Htab Hsize view_is). lia.
Qed.

Lemma kernel_kept x : 0xC0000000 <= x < 0xC0400000 -> ~ in_frames x -> m' !! x = k_mem k1 !! x.
Proof. apply (view_kernel (mapped_boot (k_paging k)) (k_mem k1) m' (k_mem k) ms size Htab Hsize view_is). Qed.

Lemma screen_kept x : fb <= x < fb + 4000 -> m' !! x = k_mem k1 !! x.
Proof. intros Hx. apply kernel_kept; [unfold fb in Hx; lia|by apply screen_off_frames]. Qed.

Lemma literal_text s : s ∈ shell_literals -> text_at m' (lit_addr s) s.
Proof.
  intros Hs. destruct (sm_range _ _ _ Hshell s Hs) as [Hl1 Hl2].
  pose proof literals_small as Hsm. rewrite Forall_forall in Hsm. destruct (Hsm s Hs) as [Hlen Hnz].
  constructor; [done| | |lia|lia].
  - split; [|done]. intros i c Hi. pose proof (lookup_lt_Some _ _ _ Hi) as Hlt. rewrite length_app in Hlt. simpl in Hlt.
    split; [|word_solve].
    rewrite (view_image (mapped_boot (k_paging k)) (k_mem k1) m' (k_mem k) ms size Htab Hsize view_is) by lia.
    f_equal. by apply (sm_bytes _ _ _ Hshell s).
  - intros i Hi Hs'. pose proof (sm_ch _ _ _ Hshell). destruct trap_high. unfold KERNEL_VIRTUAL_BASE in *.
    destruct Hs' as [Hs'|[Hs'|Hs']]; unfold fb in Hs'; lia.
Qed.

Lemma screen_seen : fb_ok (set_mem m' k1) /\ term_of (set_mem m' k1) = term_of k1.
Proof.
  pose proof (ab_fb _ _ _ _ Hboot) as Hfb.
  split; [apply (fb_ok_same k1); try done|apply term_same; try done]; intros x Hx; by apply screen_kept.
Qed.

(** The ring 0 stack is seen at its address. *)
Lemma frame_seen : trap_frame + 68 <= fb \/ fb + 4000 <= trap_frame -> mapped (k_mem k) trap_frame 68 -> mapped m' trap_frame 68.
Proof.
  intros Hap Hfr i Hr. destruct trap_high as [Ht1 Ht2]. unfold KERNEL_VIRTUAL_BASE in Ht1.
  rewrite kernel_kept by (lia || (apply trap_off_frames; lia)).
  rewrite (ab_mem _ _ _ _ Hboot); [by apply Hfr| |apply trap_off_pool; lia]. unfold in_window. lia.
Qed.

(** The shell starts on the screen of the boot. *)
Lemma shell_starts :
  length (k_isr k) = 256%nat -> length (kbd_buffer (k_kbd k)) = 256%nat -> Forall is_u8 (kbd_buffer (k_kbd k)) ->
  mapped (k_mem k) trap_frame 68 -> trap_frame + 68 <= fb \/ fb + 4000 <= trap_frame -> shell_ok (set_mem m' k1).
Proof.
  intros Hi Hl Hb Hfr Hap. destruct (drivers_ready _ _ k _ _ _ _ _ k1 Hi Hl Hb Hboot) as (Hisr & Hkbd & Hd). destruct screen_seen as [Hfb _].
  constructor; [|exact literal_text|apply user_mapped, Hshell|apply user_mapped, Hshell|done|done].
  constructor; [done|done|by apply frame_seen|].
  apply user_mapped. right. pose proof (sm_ch _ _ _ Hshell). lia.
Qed.

(** Nothing typed was lost. *)
Lemma input_starts `{Env} (keys : trace -> list Z) `{!KbdSource keys} :
  input_of keys (set_mem m' k1) = snd (decode_all (shift_active (k_kbd k)) (keys (k_trace k))).
Proof.
  unfold input_of. cbn [k_kbd k_trace set_mem]. rewrite (ab_kbd _ _ _ _ Hboot).
  destruct (ab_quiet _ _ _ _ Hboot) as (evs & -> & Hq). cbn [b_kbd in_user_mode initialised queue_of kbd_buf_count shift_active].
  change (queue_of (KbdState (shift_active (k_kbd k)) (kbd_buffer (k_kbd k)) 0 0 0)) with (@nil Z). cbn [app]. by rewrite (quiet_keys keys).
Qed.
End Start.
