(* ===== verification/BootSamples.v ===== *)
(** A sample machine at power-on: the kernel image, boot information and a module
    with the shell in low memory, and a keyboard on which typing starts after the
    boot. *)
From S2P Require Import Prelude State Machine Image Framebuffer FramebufferFacts Isr Keyboard Serial SerialFacts Pic Interrupt InterruptFacts Samples Syscall SyscallFacts SyscallCalls CString Stdio StdioFacts Printf Shell TokenizeFacts ShellFacts ShellTurn UserSamples Descriptors Paging PagingFacts PagingProps Kheap KheapBitmap KheapSpec KheapOps KheapProps Kmain Boot BootInit BootHeap BootSequence BootFinal Process.

(** * The machine *)

(** The controller reports a byte only once an interrupt has been taken. *)
Definition interrupted (tr : trace) : bool := existsb (fun e => match e with Irq _ => true | _ => false end) tr.
Definition boot_env (keys : list Z) : Env := {|
  env_in := fun tr port => if (port =? 0x64) && negb (interrupted tr) then 0 else @env_in (sample_env [] keys) tr port;
  env_irq := @env_irq (sample_env [] keys)
|}.

Lemma boot_kbd_source keys : Forall is_u8 keys -> @KbdSource (boot_env keys) (pending 0x60 keys).
Proof. intros Hs. destruct (sample_kbd_source keys Hs). split; assumption. Qed.

Lemma boot_uart_ready keys : @UartReady (boot_env keys) sample_fuel.
Proof. intros tr. exists 0%nat. split; [unfold poll_fuel, sample_fuel; lia|]. cbn. by destruct (bool_decide _). Qed.

Lemma boot_idle keys tr : Z.land (u8 (@env_in (boot_env keys) tr 0x3FD)) 1 = 0.
Proof. apply (sample_idle keys tr). Qed.

Lemma quiet_uninterrupted evs : Forall quiet_event evs -> interrupted (evs ++ []) = false.
Proof. induction 1 as [|e evs He _ IH]; [done|]. destruct e; [done..|]. by cbn in He. Qed.

Lemma boot_quiet keys evs :
  Forall quiet_event evs -> Z.land (u8 (@env_in (boot_env keys) (evs ++ []) KBD_STATUS_PORT)) 1 = 0.
Proof. intros Hq. cbn [env_in boot_env]. by rewrite quiet_uninterrupted. Qed.

(** * Memory *)

(** Boot information at 0x9500, its module list at 0x9600, the module at 2MB. *)
Definition boot_info (m : gmap Z Z) : gmap Z Z :=
  put32 (put32 (put32 (put32 (put32 m 0x9500 8) 0x9514 1) 0x9518 0x9600) 0x9600 0x200000) 0x9604 0x210000.
Definition bare_mem : gmap Z Z := zero_mem 0 0x400000 ∪ sample_mem.
Definition boot_mem : gmap Z Z := put_literals 0x200000 shell_literals (boot_info bare_mem).
Definition boot_kernel : kernel := image boot_mem.

(** The same machine without boot information. *)
Definition bare_kernel : kernel := image bare_mem.

Lemma bare_mapped a n : 0 <= a /\ a + n <= 0x400000 \/ 0xC0000000 <= a /\ a + n <= 0xC0400000 -> mapped bare_mem a n.
Proof. intros [Ha|Ha]; apply mapped_union_zero; [by right|left]. apply zero_mem_mapped; lia. Qed.

Lemma boot_info_mapped m a n : mapped m a n -> mapped (boot_info m) a n.
Proof. intros Hm. unfold boot_info. by do 5 apply put32_mapped. Qed.

Lemma boot_mapped a n : 0 <= a /\ a + n <= 0x400000 \/ 0xC0000000 <= a /\ a + n <= 0xC0400000 -> mapped boot_mem a n.
Proof. intros Ha. apply put_literals_mapped; [done|]. by apply boot_info_mapped, bare_mapped. Qed.

(** Memory is off the screen and the pool in its lower half. *)
Lemma low_readable m a n : mapped m a n -> 0 <= a -> a + n <= 0x400000 -> readable m a n.
Proof.
  intros Hm Ha Hn. split_and!; [done|done|lia|]. intros x Hx. unfold in_window, in_pool, fb.
  cbn [kheap_memory_addr sample_layout]. lia.
Qed.

Lemma boot_word a v : word_at (boot_info bare_mem) a = v -> 0 <= a -> a + 4 <= 0x200000 -> word_at boot_mem a = v.
Proof. intros <- Ha1 Ha2. apply word_at_ext. intros i Hi. apply put_literals_ne; [done|lia]. Qed.

Ltac info_word := apply boot_word; [unfold boot_info; rewrite ?word_at_put32_ne by lia; by apply word_at_put32|lia|lia].

Lemma info_flags : word_at boot_mem 0x9500 = 8.
Proof. info_word. Qed.
Lemma info_count : word_at boot_mem 0x9514 = 1.
Proof. info_word. Qed.
Lemma info_mods : word_at boot_mem 0x9518 = 0x9600.
Proof. info_word. Qed.
Lemma info_start : word_at boot_mem 0x9600 = 0x200000.
Proof. info_word. Qed.
Lemma info_end : word_at boot_mem 0x9604 = 0x210000.
Proof. info_word. Qed.

Lemma sample_has_module : has_module boot_mem 0x9500 0x200000 65536.
Proof.
  constructor; change (0x9500 + mb_flags) with 0x9500; change (0x9500 + mb_mods_count) with 0x9514;
    change (0x9500 + mb_mods_addr) with 0x9518; rewrite ?info_mods;
    change (0x9600 + mod_start_off) with 0x9600; change (0x9600 + mod_end_off) with 0x9604.
  - apply low_readable; [by apply boot_mapped; left|done|done].
  - apply low_readable; [by apply boot_mapped; left|done|done].
  - by rewrite info_flags.
  - by rewrite info_count.
  - apply info_start.
  - by rewrite info_end.
  - apply low_readable; [by apply boot_mapped; left|done|done].
Qed.

Lemma sample_shell_module : shell_module boot_mem 0x200000 65536.
Proof.
  constructor.
  - intros s Hs. pose proof (literal_slot s Hs). lia.
  - intros s i c Hs Hi. pose proof (literal_slot s Hs). pose proof (lookup_lt_Some _ _ _ Hi) as Hlt.
    rewrite length_app in Hlt. cbn [length] in Hlt. unfold loaded. rewrite (proj2 (Z.ltb_lt _ _)) by lia.
    destruct (put_literals_cstr 0x200000 shell_literals (boot_info bare_mem) s ltac:(lia) Hs ltac:(done)) as [Hr _].
    destruct (Hr i c Hi) as [Hc _]. unfold byte_at. rewrite Z.add_assoc. unfold boot_mem. by rewrite Hc.
  - by left.
  - by left.
  - by cbn.
Qed.

Lemma word_zero m a : (forall x, a <= x < a + 4 -> m !! x = Some 0) -> word_at m a = 0.
Proof. intros Hm. unfold word_at, byte_at. by rewrite !Hm by lia. Qed.

Lemma bare_low x : 0 <= x < 0x400000 -> bare_mem !! x = Some 0.
Proof. intros Hx. apply lookup_union_Some_l, zero_mem_lookup. lia. Qed.

Lemma bare_no_module : no_module bare_mem 0x9500.
Proof.
  split; [apply low_readable; [by apply bare_mapped; left|done|done]|]. left.
  change (0x9500 + mb_flags) with 0x9500. rewrite word_zero; [done|]. intros x Hx. apply bare_low. lia.
Qed.

(** * The layout *)

#[export] Instance sample_boot_layout : BootLayout.
Proof. constructor; [apply _|apply _|]. right. by cbn. Qed.

#[export] Instance sample_process_layout : ProcessLayout.
Proof.
  constructor; try apply _; unfold in_frames, in_pool, fb, KERNEL_VIRTUAL_BASE; rewrite ?trap_frame_eq; kheap_consts;
    cbn [user_code_pages_addr user_stack_page_addr kheap_memory_addr sample_layout]; lia.
Qed.
