(* ===== verification/KmainProps.v ===== *)
(** The correctness of the boot: [kmain] from the state that the loader leaves to
    ring 3, to the halt loop when no program was loaded, and on into the shell. *)
From S2P Require Import Prelude State Machine Image Framebuffer FramebufferFacts Isr Keyboard Serial SerialFacts Pic Interrupt InterruptFacts Samples Syscall SyscallFacts SyscallCalls CString Stdio StdioFacts Printf Shell TokenizeFacts ShellFacts ShellTurn UserSamples Descriptors Paging PagingFacts PagingProps Kheap KheapBitmap KheapSpec KheapOps KheapProps Kmain Boot BootInit BootHeap BootSequence BootFinal Process BootSamples.

(** What the loader leaves: arrays of their declared sizes, the bootstrap page
    table, and the screen, the pool and the ring 0 stack in memory. *)
Record image_ready `{Layout} (k : kernel) : Prop := ImageReady {
  ir_isr : length (k_isr k) = 256%nat;
  ir_gdt : length (gdt (k_gdt k)) = 6%nat;
  ir_idt : length (idt (k_idt k)) = 256%nat;
  ir_kbd : length (kbd_buffer (k_kbd k)) = 256%nat;
  ir_kbd_bytes : Forall is_u8 (kbd_buffer (k_kbd k));
  ir_bitmap : Z.of_nat (length (kheap_bitmap (k_heap k))) = KHEAP_BITMAP_SIZE;
  ir_paging : paging_sized (k_paging k);
  ir_table : boot_page_table1 (k_paging k) = boot_table;
  ir_screen : mapped (k_mem k) fb 4000;
  ir_pool : mapped (k_mem k) kheap_memory_addr KHEAP_SIZE;
  ir_stack : mapped (k_mem k) trap_frame 68
}.

(** No key was pressed before the first interrupt is taken. *)
Definition keyboard_quiet `{Env} (k : kernel) : Prop :=
  forall evs, Forall quiet_event evs -> Z.land (u8 (env_in (evs ++ k_trace k) KBD_STATUS_PORT)) 1 = 0.

Section Props.
Context `{Env} `{PollFuel} `{Layout} `{!ProcessLayout} `{!UartReady}.

Lemma image_bootable k : image_ready k -> bootable (boot_start k) /\ heap_at None k.
Proof. intros []. split; [by constructor|by split]. Qed.

(** C4. The boot: on an image as the loader leaves it, with a module in the boot
    information, [kmain] gets through its whole sequence and leaves for ring 3 at
    address 0 with the stack at 0xBFFFFFFB.  The screen shows exactly the log in
    its colours, COM1 is configured and sent its messages, both controllers are
    remapped and masked, the handlers, the GDT with the TSS stack, the IDT with the
    system call gate and the empty keyboard queue are installed, the heap is
    initialised and empty again after its test, the process's tables and image are
    built and loaded in CR3, and memory outside the screen and the pool is as it
    was. *)
Theorem kmain_boots k mb ms size :
  (128 < poll_fuel)%nat -> keyboard_quiet k -> image_ready k -> has_module (k_mem k) mb ms size ->
  exists k', kmain mb k = Ok (UserMode USER_ENTRY_POINT USER_STACK_TOP, k') /\
    at_boot (k_mem k) (k_trace k) (in_user_mode k ms size) k'.
Proof.
  intros Hf Hq Hi Hm. destruct (image_bootable k Hi) as [Hb Hh].
  destruct (kmain_module_wp (k_mem k) (k_trace k) Hf Hq k eq_refl eq_refl (ir_screen k Hi) Hh Hb mb ms size Hm)
    as (r & k' & Hrun & -> & Hk). rewrite user_eq in Hk. by exists k'.
Qed.

(** Without a module (the flag clear, or a count of zero) [kmain] does the same
    initialisation, warns in light red and returns 0 with interrupts enabled: no
    process is built, CR3 and the user tables are as they were. *)
Theorem kmain_without_module k mb :
  (128 < poll_fuel)%nat -> keyboard_quiet k -> image_ready k -> no_module (k_mem k) mb ->
  exists k', kmain mb k = Ok (Returned 0, k') /\ at_boot (k_mem k) (k_trace k) (in_halt k) k'.
Proof.
  intros Hf Hq Hi Hm. destruct (image_bootable k Hi) as [Hb Hh].
  destruct (kmain_none_wp (k_mem k) (k_trace k) Hf Hq k eq_refl eq_refl (ir_screen k Hi) Hh Hb mb Hm)
    as (r & k' & Hrun & -> & Hk). rewrite warn_eq in Hk. by exists k'.
Qed.

Context `{UserLayout} `{ShellLayout} `{!UserPlaced} `{!ShellPlaced}.

(** C1. From power-on to the shell: [kmain] boots a module that holds the shell, and
    the shell's [main], run on the memory that the MMU shows it through the tables
    [kmain] built, gets through any number of turns whose lines the typed keys
    complete.  The screen is what the abstract terminal makes of the boot log, the
    banner and the session; the serial line carried exactly the same bytes in
    order; no key typed after the boot is lost. *)
Theorem boot_to_shell (keys : trace -> list Z) `{!KbdSource keys} k mb ms size n t sent rest :
  (forall tr, Z.land (u8 (env_in tr 0x3FD)) 1 = 0) -> (forall tr, (2 * length (keys tr) + 256 < poll_fuel)%nat) ->
  keyboard_quiet k -> image_ready k -> has_module (k_mem k) mb ms size -> shell_module (k_mem k) ms size ->
  session n (term_write (show_log (boot_log ++ user_log) (term_clear (term_of k))) (concat banner_lines))
    (snd (decode_all (shift_active (k_kbd k)) (keys (k_trace k)))) = Some (t, sent, rest) ->
  exists k1 k2, kmain mb k = Ok (UserMode USER_ENTRY_POINT USER_STACK_TOP, k1) /\
    main n (set_mem (process_memory (k_paging k1) (k_mem k1)) k1) = Ok (tt, k2) /\
    term_of k2 = t /\
    uart_tx (uart_of (k_trace k2))
    = rev (boot_serial ++ user_serial ++ concat banner_lines ++ sent) ++ uart_tx (uart_of (k_trace k)) /\
    input_of keys k2 = rest.
Proof.
  intros Hidle Hfuel Hq Hi Hm Hsh Hs. destruct (image_bootable k Hi) as [Hb Hh].
  assert (128 < poll_fuel)%nat as Hf by (pose proof (Hfuel []); lia).
  destruct (kmain_module_wp (k_mem k) (k_trace k) Hf Hq k eq_refl eq_refl (ir_screen k Hi) Hh Hb mb ms size Hm)
    as (r & k1 & Hrun & -> & Hk). rewrite user_eq in Hk.
  assert (is_u32 size) as Hsize by (rewrite <- (hm_size _ _ _ _ Hm); apply u32_range).
  exists k1. pose proof (process_memory_view (k_paging k1) (k_mem k1)) as Hv. revert Hv. generalize (process_memory (k_paging k1) (k_mem k1)).
  intros m' Hv.
  pose proof (shell_starts k k1 m' ms size Hf (ir_table k Hi) Hsize (hm_bytes _ _ _ _ Hm) Hsh Hk Hv (ir_isr k Hi) (ir_kbd k Hi)
    (ir_kbd_bytes k Hi) (ir_stack k Hi) frame_apart) as Hok.
  destruct (screen_seen k k1 m' ms size Hf (ir_table k Hi) Hsize Hk Hv) as [_ Ht]. rewrite (ab_term _ _ _ _ Hk) in Ht.
  pose proof (input_starts k k1 m' ms size Hk keys) as Hin.
  destruct (main_wp keys Hidle Hfuel n (set_mem m' k1) t sent rest Hok) as ([] & k2 & Hrun2 & Ht2 & Htx2 & Hin2 & _).
  { rewrite Hin, Ht. exact Hs. }
  exists k2. split_and!; [done|done|done| |done].
  rewrite Htx2. cbn [k_trace set_mem]. rewrite (ab_uart _ _ _ _ Hk). cbn [b_uart in_user_mode initialised uart_tx].
  rewrite app_assoc, <- rev_app_distr, <- !app_assoc. done.
Qed.
End Props.

(** * Instances *)

Lemma sample_image_ready m : (forall a n, 0xC0000000 <= a -> a + n <= 0xC0400000 -> mapped m a n) -> image_ready (image m).
Proof.
  intros Hm. pose proof paging_init_sized as Hp. constructor;
    cbn [image k_isr k_gdt k_idt k_kbd k_heap k_paging k_mem gdt idt kbd_init_state kbd_buffer heap_init_state kheap_bitmap];
    rewrite ?length_replicate; try done.
  - apply Forall_replicate. word_solve.
  - by apply Hm.
  - by apply Hm.
  - rewrite trap_frame_eq. by apply Hm.
Qed.

Lemma kmain_boots_witness :
  let E := boot_env [] in let F := sample_fuel in
  exists k', kmain 0x9500 boot_kernel = Ok (UserMode 0 0xBFFFFFFB, k') /\
    cpu_cs (k_cpu k') = 0x1B /\ cpu_if (k_cpu k') = true.
Proof.
  intros E F. pose proof (boot_uart_ready []) as HR.
  destruct (kmain_boots boot_kernel 0x9500 0x200000 65536) as (k' & Hrun & Hb).
  - unfold poll_fuel, F, sample_fuel. lia.
  - intros evs. apply boot_quiet.
  - apply sample_image_ready. intros a n Ha Hn. apply boot_mapped. by right.
  - exact sample_has_module.
  - exists k'. split; [exact Hrun|]. rewrite (ab_cpu _ _ _ _ Hb). by split.
Defined.

Lemma kmain_without_module_witness :
  let E := boot_env [] in let F := sample_fuel in
  exists k', kmain 0x9500 bare_kernel = Ok (Returned 0, k') /\ heap_inv ∅ k'.
Proof.
  intros E F. pose proof (boot_uart_ready []) as HR.
  destruct (kmain_without_module bare_kernel 0x9500) as (k' & Hrun & Hb).
  - unfold poll_fuel, F, sample_fuel. lia.
  - intros evs. apply boot_quiet.
  - apply sample_image_ready. intros a n Ha Hn. apply bare_mapped. by right.
  - exact bare_no_module.
  - exists k'. split; [exact Hrun|]. exact (ab_heap _ _ _ _ Hb).
Defined.

(** Booted, the shell answers "echo hi". *)
Lemma boot_to_shell_witness :
  let E := boot_env sample_typing in let F := sample_fuel in
  exists k1 k2, kmain 0x9500 boot_kernel = Ok (UserMode USER_ENTRY_POINT USER_STACK_TOP, k1) /\
    main 1 (set_mem (process_memory (k_paging k1) (k_mem k1)) k1) = Ok (tt, k2) /\
    uart_tx (uart_of (k_trace k2))
    = rev (boot_serial ++ user_serial ++ concat banner_lines ++ prompt ++ str "echo hi" ++ [13; 10] ++ str "hi" ++ [10]) ++ [].
Proof.
  intros E F. assert (Forall is_u8 sample_typing) as Hu by bytes_done.
  pose proof (boot_kbd_source _ Hu) as HS. pose proof (boot_uart_ready sample_typing) as HR.
  destruct (boot_to_shell (pending 0x60 sample_typing) boot_kernel 0x9500 0x200000 65536 1
    (turn_screen (term_write (show_log (boot_log ++ user_log) (term_clear (term_of boot_kernel))) (concat banner_lines))
      (str "echo hi") ((E_char <$> str "echo hi") ++ [E_eol]))
    (prompt ++ str "echo hi" ++ [13; 10] ++ str "hi" ++ [10]) []) as (k1 & k2 & Hk1 & Hk2 & _ & Hk3 & _).
  - apply boot_idle.
  - intros tr. unfold pending. rewrite length_drop. unfold sample_typing, poll_fuel, F, sample_fuel. cbn [length]. lia.
  - intros evs. apply boot_quiet.
  - apply sample_image_ready. intros a n Ha Hn. apply boot_mapped. by right.
  - exact sample_has_module.
  - exact sample_shell_module.
  - apply sample_session.
  - exists k1, k2. auto.
Defined.
