(* ===== verification/Footprint.v ===== *)
(** The memory that a computation depends on and the memory it changes.

    [S] is memory it neither reads nor writes, [W] memory it does not write.  Run from
    two states that differ on [S] only, the computation does the same in both: the two
    runs return the same value, fault together or hang together, and leave [W] and the
    tables of the kernel as they were. *)
From S2P Require Import Prelude State Machine Framebuffer FramebufferFacts Isr Keyboard Serial Pic Interrupt.

(** * Two runs *)

Definition grows (m m' : gmap Z Z) : Prop := forall a n, mapped m a n -> mapped m' a n.

(** What no driver, interrupt or system call changes: the heap's bookkeeping, the
    handler table, the descriptor tables, the page tables and, but for the interrupt
    flag, the CPU's registers. *)
Record tables_kept (k k' : kernel) : Prop := TablesKept {
  tk_heap : k_heap k' = k_heap k;
  tk_isr : k_isr k' = k_isr k;
  tk_gdt : k_gdt k' = k_gdt k;
  tk_idt : k_idt k' = k_idt k;
  tk_paging : k_paging k' = k_paging k;
  tk_cpu : set_cpu_if true (k_cpu k') = set_cpu_if true (k_cpu k)
}.

#[export] Instance tables_kept_preorder : PreOrder tables_kept.
Proof. split; [done|]. intros k1 k2 k3 [] []. constructor; congruence. Qed.

(** The cursor is on the screen. *)
Definition on_screen (s : fb_state) : Prop := 0 <= cursor_pos s < cells_total.

Create HintDb blind.

Section Footprint.
Context (S W : Z -> Prop).

Definition same_out (m1 m2 : gmap Z Z) : Prop := forall x, ~ S x -> m2 !! x = m1 !! x.
Definition kept_on (m m' : gmap Z Z) : Prop := forall x, W x -> m' !! x = m !! x.

(** [both m P k m2]: the runs of [m] from [k] and from [k] with the memory [m2]. *)
Definition both {A} (m : K A) (P : A -> kernel -> Prop) (k : kernel) (m2 : gmap Z Z) : Prop :=
  match m k, m (set_mem m2 k) with
  | Ok (a, k'), Ok (b, l') => a = b /\ exists m2', l' = set_mem m2' k' /\ same_out (k_mem k') m2' /\
      kept_on (k_mem k) (k_mem k') /\ kept_on m2 m2' /\ grows (k_mem k) (k_mem k') /\ grows m2 m2' /\
      tables_kept k k' /\ P a k'
  | Fault, Fault => True
  | Hang, Hang => True
  | _, _ => False
  end.

(** A step that touches no memory. *)
Lemma both_step {A} (m : K A) (P : A -> kernel -> Prop) a k k' m2 :
  m k = Ok (a, k') -> m (set_mem m2 k) = Ok (a, set_mem m2 k') -> k_mem k' = k_mem k -> tables_kept k k' ->
  same_out (k_mem k) m2 -> P a k' -> both m P k m2.
Proof.
  intros E1 E2 Hm Ht Hs HP. unfold both. rewrite E1, E2. split; [done|]. exists m2. unfold kept_on, grows. rewrite Hm. by split_and!.
Qed.

Lemma both_ret {A} (a : A) P k m2 : same_out (k_mem k) m2 -> P a k -> both (ret a) P k m2.
Proof. intros Hm HP. by apply (both_step _ _ a k k m2). Qed.

Lemma both_bind {A B} (m : K A) (f : A -> K B) P Q k m2 :
  both m Q k m2 ->
  (forall a k' m2', Q a k' -> same_out (k_mem k') m2' -> both (f a) P k' m2') -> both (bind m f) P k m2.
Proof.
  unfold both, bind. destruct (m k) as [[a k']| |], (m (set_mem m2 k)) as [[b l']| |]; try done.
  intros (-> & m2' & -> & Hs & Hw1 & Hw2 & Hg1 & Hg2 & Ht & HQ) Hf. specialize (Hf b k' m2' HQ Hs).
  destruct (f b k') as [[c k'']| |], (f b (set_mem m2' k')) as [[d l'']| |]; try done.
  destruct Hf as (-> & m2'' & -> & Hs' & Hw1' & Hw2' & Hg1' & Hg2' & Ht' & HP). split; [done|]. exists m2''. split_and!; try done.
  - intros x Hx. rewrite Hw1', Hw1 by done. done.
  - intros x Hx. rewrite Hw2', Hw2 by done. done.
  - intros y n Hy. by apply Hg1', Hg1.
  - intros y n Hy. by apply Hg2', Hg2.
  - by transitivity k'.
Qed.

Lemma both_mono {A} (m : K A) (P Q : A -> kernel -> Prop) k m2 :
  both m P k m2 -> (forall a k', P a k' -> Q a k') -> both m Q k m2.
Proof.
  unfold both. intros Hm HPQ. destruct (m k) as [[a k']| |], (m (set_mem m2 k)) as [[b l']| |]; try done.
  destruct Hm as (-> & m2' & H1 & H2 & H3 & H4 & H5 & H6 & H7 & HP). split; [done|]. exists m2'. split_and!; auto.
Qed.

(** * Computations with this footprint *)

Context (J : fb_state -> Prop).

(** They keep [J] of the console's variables, and their results satisfy [P]. *)
Definition blind {A} (P : A -> Prop) (m : K A) : Prop :=
  forall k m2, J (k_fb k) -> same_out (k_mem k) m2 -> both m (fun a k' => J (k_fb k') /\ P a) k m2.
Abbreviation blindly m := (blind (fun _ => True) m).

Section Monad.
Context {A B : Type}.

Lemma blind_ret (P : A -> Prop) a : P a -> blind P (ret a).
Proof. intros HP k m2 Hk Hm. by apply both_ret. Qed.

Lemma blind_bind (P : A -> Prop) (Q : B -> Prop) (m : K A) (f : A -> K B) :
  blind P m -> (forall a, P a -> blind Q (f a)) -> blind Q (bind m f).
Proof.
  intros Hm Hf k m2 Hk Hs. eapply both_bind; [by apply Hm|]. intros a k' m2' [Hk' Ha] Hs'. by apply Hf.
Qed.

Lemma blind_any (P : A -> Prop) (m : K A) : blind P m -> blindly m.
Proof. intros Hm k m2 Hk Hs. eapply both_mono; [by apply Hm|]. intros a k' [H1 _]. done. Qed.

Lemma blind_fault (P : A -> Prop) : blind P fault.
Proof. by intros k m2 Hk Hs. Qed.
Lemma blind_hang (P : A -> Prop) : blind P hang.
Proof. by intros k m2 Hk Hs. Qed.
Lemma blind_from_option (P : A -> Prop) (o : option A) : (forall a, o = Some a -> P a) -> blind P (from_option o).
Proof. intros HP. destruct o; [apply blind_ret; auto|apply blind_fault]. Qed.

(** Variables other than memory. *)
Lemma blind_gets (f : kernel -> A) (P : A -> Prop) :
  (forall k m, f (set_mem m k) = f k) -> (forall k, J (k_fb k) -> P (f k)) -> blind P (gets f).
Proof.
  intros Hf HP k m2 Hk Hs. apply (both_step _ _ (f k) k k m2); auto; [|done]. unfold gets. by rewrite Hf.
Qed.
End Monad.

Lemma blind_modify (f : kernel -> kernel) :
  (forall k m, f (set_mem m k) = set_mem m (f k)) -> (forall k, k_mem (f k) = k_mem k) -> (forall k, tables_kept k (f k)) ->
  (forall k, J (k_fb k) -> J (k_fb (f k))) -> blindly (modify f).
Proof.
  intros H1 H2 H3 H4 k m2 Hk Hs. apply (both_step _ _ tt k (f k) m2); auto. unfold modify. by rewrite H1.
Qed.

Lemma blind_for_loop lo step n (body : Z -> K unit) :
  (forall j, 0 <= j < Z.of_nat n -> blindly (body (lo + step * j))) -> blindly (for_loop lo step n body).
Proof.
  revert lo. induction n as [|n IH]; intros lo Hb; [by apply blind_ret|]. cbn [for_loop].
  eapply blind_bind; [replace lo with (lo + step * 0) by lia; apply Hb; lia|]. intros _ _. apply IH. intros j Hj.
  replace (lo + step + step * j) with (lo + step * (j + 1)) by lia. apply Hb. lia.
Qed.
Lemma blind_for_up lo hi (body : Z -> K unit) : (forall i, lo <= i < hi -> blindly (body i)) -> blindly (for_up lo hi body).
Proof. intros Hb. apply blind_for_loop. intros j Hj. apply Hb. lia. Qed.
Lemma blind_for_up2 lo hi (body : Z -> K unit) :
  (forall i, lo <= i < hi -> (i - lo) mod 2 = 0 -> blindly (body i)) -> blindly (for_up2 lo hi body).
Proof. intros Hb. apply blind_for_loop. intros j Hj. apply Hb; Z.div_mod_to_equations; lia. Qed.
Lemma blind_while fuel (cond : K bool) (body : K unit) : blindly cond -> blindly body -> blindly (while_fuel fuel cond body).
Proof.
  intros Hc Hb. induction fuel as [|fuel IH]; [apply blind_hang|]. cbn [while_fuel]. eapply blind_bind; [exact Hc|].
  intros [] _; [|by apply blind_ret]. eapply blind_bind; [exact Hb|]. by intros _ _.
Qed.
End Footprint.

Abbreviation blindly S W J m := (blind S W J (fun _ => True) m).
