(* ===== verification/FootprintDrivers.v ===== *)
(** The memory that the drivers, the dispatcher and the system calls use: the screen,
    the buffers they are given and the register frame, whatever the devices do. *)
From S2P Require Import Prelude State Machine Framebuffer FramebufferFacts Isr Keyboard Serial Pic Interrupt Syscall SyscallFacts SyscallCalls Footprint.

(** What is not read is not written either, and the screen is not part of it. *)
Class Hidden (S W : Z -> Prop) : Prop := {
  hidden_sub : forall x, S x -> W x;
  hidden_screen : forall x, fb <= x < fb + 4000 -> ~ W x
}.

#[export] Hint Resolve blind_ret blind_fault blind_hang : blind.
#[export] Hint Extern 9 (blindly _ _ _ _) => eapply blind_any : blind.
#[export] Hint Extern 1 True => exact I : blind.

Ltac blind_step :=
  cbv zeta;
  lazymatch goal with
  | |- forall _, _ => intros ?
  | |- blind _ _ _ _ (bind _ _) =>
      first [eapply blind_bind; [solve [eauto 3 with blind nocore]|intros ? ?]
            |eapply (blind_bind _ _ _ (fun _ => True)); [|intros ? _]]
  | |- blind _ _ _ _ (match ?b with _ => _ end) => destruct b eqn:?
  | |- blind _ _ _ _ (for_up _ _ _) => apply blind_for_up
  | |- blind _ _ _ _ (for_up2 _ _ _) => apply blind_for_up2
  | |- blind _ _ _ _ (while_fuel _ _ _) => apply blind_while
  | |- blind _ _ _ _ (ret _) => apply blind_ret; try done
  | |- blind _ _ _ _ _ => solve [eauto 4 with blind nocore]
  end.
Ltac blind_run := repeat blind_step; try done.

(** * Primitives *)

Section Primitives.
Context {S W : Z -> Prop} `{!Hidden S W} {J : fb_state -> Prop}.

Lemma both_load8 a k m2 (P : Z -> kernel -> Prop) :
  ~ S (u32 a) -> same_out S (k_mem k) m2 -> (forall v, k_mem k !! u32 a = Some v -> P v k) -> both S W (load8 a) P k m2.
Proof.
  intros Ha Hs HP. destruct (k_mem k !! u32 a) as [v|] eqn:E.
  - apply (both_step _ _ _ _ v k k m2); auto; [..|done]; unfold load8, bind, gets, id; cbn [k_mem set_mem]; rewrite ?Hs by done; by rewrite E.
  - unfold both, load8, bind, gets, id. cbn [k_mem set_mem]. rewrite Hs by done. by rewrite E.
Qed.

Lemma blind_load8 a : ~ S (u32 a) -> blindly S W J (load8 a).
Proof. intros Ha k m2 Hk Hs. by apply both_load8. Qed.

Lemma blind_store8 a v : ~ W (u32 a) -> blindly S W J (store8 a v).
Proof.
  intros Ha k m2 Hk Hs. assert (~ S (u32 a)) as Ha' by (intros Hx; by apply Ha, hidden_sub).
  unfold both, store8, bind, gets, modify, id. cbn [k_mem set_mem]. rewrite Hs by done.
  destruct (k_mem k !! u32 a); [|done]. cbn. split; [done|]. eexists. split; [reflexivity|]. split_and!; try done.
  - intros x Hx. rewrite !lookup_insert. case_decide; [done|]. by apply Hs.
  - intros x Hx. rewrite lookup_insert_ne; [done|congruence].
  - intros x Hx. rewrite lookup_insert_ne; [done|congruence].
  - intros b n Hb. apply mapped_insert; [done|apply u8_range].
  - intros b n Hb. apply mapped_insert; [done|apply u8_range].
Qed.

(** A word below 4GB. *)
Definition word_clear (P : Z -> Prop) (a : Z) : Prop := 0 <= a /\ a + 4 <= 4294967296 /\ forall i, 0 <= i < 4 -> ~ P (a + i).

Lemma word_clear_byte P a i : word_clear P a -> 0 <= i < 4 -> ~ P (u32 (a + i)).
Proof. intros (H1 & H2 & H3) Hi. rewrite u32_small by word_solve. auto. Qed.

Lemma both_load32 a k m2 (P : Z -> kernel -> Prop) :
  word_clear S a -> same_out S (k_mem k) m2 -> P (word_at (k_mem k) a) k -> both S W (load32 a) P k m2.
Proof.
  intros Ha Hs HP. pose proof (word_clear_byte S a) as Hc. destruct Ha as (Ha1 & Ha2 & Ha3).
  unfold load32. rewrite <- (Z.add_0_r a) at 1.
  do 4 (eapply (both_bind _ _ _ _ _ (fun v k' => k' = k /\ k_mem k !! _ = Some v));
    [apply both_load8; [apply Hc; [done|lia]|done|by intros v Hv]|intros ? ? ? [-> ?] ?]).
  apply both_ret; [done|]. rewrite !u32_small in * by word_solve. unfold word_at, byte_at in HP. rewrite Z.add_0_r in *.
  by simplify_option_eq.
Qed.

Lemma blind_store32 a v : word_clear W a -> blindly S W J (store32 a v).
Proof.
  intros Ha. unfold store32. rewrite <- (Z.add_0_r a) at 1.
  do 3 (eapply blind_bind; [apply blind_store8, word_clear_byte; [done|lia]|intros _ _]). apply blind_store8, word_clear_byte; [done|lia].
Qed.

(** The first [n] bytes of a buffer. *)
Definition buf_clear (P : Z -> Prop) (b : cbuf) (n : Z) : Prop :=
  match b with Ptr a => forall i, 0 <= i < n -> ~ P (u32 (a + i)) | Lit _ => True end.

Lemma blind_buf_get b n i : buf_clear S b n -> 0 <= i < n -> blindly S W J (buf_get b i).
Proof. intros Hb Hi. destruct b; cbn [buf_get]; [by apply blind_load8, Hb|by apply blind_from_option]. Qed.

Lemma screen_clear i : 0 <= i < 4000 -> ~ W (u32 (fb + i)).
Proof. intros Hi. rewrite u32_small by (unfold fb; word_solve). apply hidden_screen. lia. Qed.
Lemma screen_unhidden i : 0 <= i < 4000 -> ~ S (u32 (fb + i)).
Proof. intros Hi Hx. apply (screen_clear i Hi). by apply hidden_sub. Qed.
End Primitives.

Section Ports.
Context {S W : Z -> Prop} {J : fb_state -> Prop} `{Env}.

Lemma blind_outb p v : blindly S W J (outb p v).
Proof. by apply blind_modify; [..|constructor|]. Qed.
Lemma blind_inb p : blindly S W J (inb p).
Proof. intros k m2 Hk Hs. set (v := u8 (env_in (k_trace k) (u16 p))). apply (both_step _ _ _ _ v k (set_trace (In (u16 p) v :: k_trace k) k) m2); [done|done|done|by constructor|done|by split]. Qed.
Lemma blind_sti : blindly S W J enable_interrupts.
Proof. by apply blind_modify; [..|constructor|]. Qed.
Lemma blind_cli : blindly S W J disable_interrupts.
Proof. by apply blind_modify; [..|constructor|]. Qed.
End Ports.
#[export] Hint Resolve blind_load8 blind_store8 blind_outb blind_inb blind_sti blind_cli : blind.

(** * Console *)

Section Console.
Context {S W : Z -> Prop} `{!Hidden S W} {J : fb_state -> Prop} `{Env}.

Lemma blind_move_cursor p : blindly S W J (fb_move_cursor p).
Proof. unfold fb_move_cursor. blind_run. Qed.

Lemma blind_write_cell off c fg bg : 0 <= off < 3999 -> blindly S W J (fb_write_cell off c fg bg).
Proof.
  intros Ho. unfold fb_write_cell. eapply blind_bind; [apply blind_store8, screen_clear; lia|]. intros _ _.
  apply blind_store8, screen_clear. lia.
Qed.

Lemma blind_gets_fb : blind S W J J (gets k_fb).
Proof. by apply blind_gets. Qed.

Lemma blind_blank i : 0 <= i < 3999 -> blindly S W J (fb_blank i).
Proof.
  intros Hi. unfold fb_blank. eapply blind_bind; [apply blind_gets_fb|]. intros s _.
  eapply blind_bind; [apply blind_store8, screen_clear; lia|]. intros _ _. apply blind_store8, screen_clear. lia.
Qed.

Lemma blind_set_cursor p : 0 <= p < cells_total -> blindly S W on_screen (set_cursor_pos p).
Proof. intros Hp. by apply blind_modify; [..|constructor|]. Qed.

Lemma blind_set_color fg bg : blindly S W on_screen (fb_set_color fg bg).
Proof. by apply blind_modify; [..|constructor|]. Qed.

Lemma blind_scroll_move : blindly S W J (for_up 0 3840 (fun i => v <- load8 (fb + (i + FB_NUM_COLS * 2)) ;; store8 (fb + i) v)).
Proof.
  apply blind_for_up. intros i Hi. eapply blind_bind; [apply blind_load8, screen_unhidden; unfold FB_NUM_COLS; lia|]. intros v _.
  apply blind_store8, screen_clear. lia.
Qed.

Lemma blind_blanks lo : 0 <= lo -> lo mod 2 = 0 -> blindly S W J (for_up2 lo 4000 fb_blank).
Proof. intros Hlo Hm. apply blind_for_up2. intros i Hi Hi2. apply blind_blank. Z.div_mod_to_equations; lia. Qed.
End Console.

Section Screen.
Context {S W : Z -> Prop} `{!Hidden S W} `{Env}.

Lemma blind_clear : blindly S W on_screen fb_clear.
Proof.
  unfold fb_clear. cbv zeta. eapply blind_bind; [by apply blind_blanks|intros _ _].
  eapply blind_bind; [by apply blind_set_cursor|intros _ _]. eapply blind_bind; [apply blind_gets_fb|]. intros s _. apply blind_move_cursor.
Qed.

(** The new position of the cursor, before scrolling. *)
Lemma both_goto p k m2 : same_out S (k_mem k) m2 -> 0 <= p <= cells_total + 80 ->
  both S W (set_cursor_pos p) (fun _ k' => 0 <= cursor_pos (k_fb k') <= cells_total + 80) k m2.
Proof. intros Hs Hp. by eapply (both_step _ _ _ _ tt k (after (set_cursor_pos p) k) m2); [..|constructor| |]. Qed.

Lemma both_scroll k m2 : same_out S (k_mem k) m2 ->
  both S W fb_scroll (fun _ k' => on_screen (k_fb k')) k m2.
Proof.
  intros Hs. unfold fb_scroll. cbv zeta. change ((FB_NUM_ROWS - 1) * FB_NUM_COLS * 2) with 3840. change (FB_NUM_ROWS * FB_NUM_COLS * 2) with 4000.
  eapply both_bind; [by apply (blind_scroll_move (J := fun _ => True))|]. intros [] k1 m1 _ H1.
  eapply both_bind; [by apply (blind_blanks (J := fun _ => True))|]. intros [] k3 m3 _ H3.
  by eapply (both_step _ _ _ _ tt k3 (after (set_cursor_pos 1920) k3) m3); [..|constructor| |].
Qed.

(** Every branch of [fb_put_char] up to the scroll. *)
Lemma both_advance c s k m2 : same_out S (k_mem k) m2 -> on_screen s -> k_fb k = s ->
  both S W
    (if c =? 10 then set_cursor_pos (u16 ((cursor_pos s / FB_NUM_COLS + 1) * FB_NUM_COLS))
     else if c =? 13 then set_cursor_pos (u16 (cursor_pos s / FB_NUM_COLS * FB_NUM_COLS))
     else if c =? 9 then set_cursor_pos (u16 (Z.land (cursor_pos s + 8) (Z.lnot (8 - 1))))
     else if c =? 8 then
       when 0 <? cursor_pos s do
         (set_cursor_pos (u16 (cursor_pos s - 1)) ;;;
          fb_write_cell (u16 (cursor_pos s - 1) * 2) 32 (current_fg s) (current_bg s))
     else
       fb_write_cell (cursor_pos s * 2) c (current_fg s) (current_bg s) ;;;
       set_cursor_pos (u16 (cursor_pos s + 1)))
    (fun _ k' => 0 <= cursor_pos (k_fb k') <= cells_total + 80) k m2.
Proof.
  unfold on_screen, cells_total, FB_NUM_COLS, FB_NUM_ROWS. intros Hs Hc Hk.
  destruct (c =? 10); [apply both_goto; [done|unfold cells_total, FB_NUM_COLS, FB_NUM_ROWS; word_solve]|].
  destruct (c =? 13); [apply both_goto; [done|unfold cells_total, FB_NUM_COLS, FB_NUM_ROWS; word_solve]|].
  destruct (c =? 9); [apply both_goto; [done|]|].
  { rewrite tab_stop by lia. unfold cells_total, FB_NUM_COLS, FB_NUM_ROWS. word_solve. }
  destruct (c =? 8).
  - destruct (Z.ltb_spec 0 (cursor_pos s)); [|apply both_ret; [done|rewrite Hk; unfold cells_total, FB_NUM_COLS, FB_NUM_ROWS; lia]].
    eapply both_bind; [apply both_goto; [done|unfold cells_total, FB_NUM_COLS, FB_NUM_ROWS; word_solve]|]. intros [] k1 m1 H1 Hs1.
    eapply both_mono; [apply (blind_write_cell (J := fun s => 0 <= cursor_pos s <= cells_total + 80)); [word_solve|done|done]|].
    by intros _ k' [? _].
  - eapply both_bind; [by apply (blind_write_cell (J := fun _ => True)); [lia|..]|]. intros [] k1 m1 _ Hs1.
    apply both_goto; [done|unfold cells_total, FB_NUM_COLS, FB_NUM_ROWS; word_solve].
Qed.

Lemma blind_put_char c : blindly S W on_screen (fb_put_char c).
Proof.
  intros k m2 Hk Hs. unfold fb_put_char. eapply (both_bind _ _ _ _ _ (fun s k' => s = k_fb k' /\ on_screen s)).
  { by apply (both_step _ _ _ _ (k_fb k) k k m2). }
  intros s k1 m1 [Hs1 Hon] Ho1. eapply both_bind; [by apply both_advance|]. cbv beta. intros [] k3 m3 Hc Ho3.
  eapply (both_bind _ _ _ _ _ (fun s k' => k' = k3 /\ s = k_fb k3)). { by apply (both_step _ _ _ _ (k_fb k3) k3 k3 m3). }
  intros ? ? m4 [-> ->] Ho4. eapply (both_bind _ _ _ _ _ (fun _ k' => on_screen (k_fb k'))).
  { destruct (Z.leb_spec (FB_NUM_COLS * FB_NUM_ROWS) (cursor_pos (k_fb k3))); [by apply both_scroll|].
    apply both_ret; [done|]. unfold on_screen, cells_total in *. lia. }
  intros [] k5 m5 Hk5 Ho5. by apply (blind_bind _ _ _ on_screen); [by apply blind_gets_fb|intros ? _; apply blind_move_cursor|..].
Qed.
End Screen.
#[export] Hint Resolve blind_move_cursor blind_set_color blind_clear blind_gets_fb blind_put_char : blind.

(** * Input, serial line and dispatch *)

Section Drivers.
Context {S W : Z -> Prop} `{!Hidden S W} `{Env} `{PollFuel}.

Lemma blind_fb_write b n : buf_clear S b n -> blindly S W on_screen (fb_write b n).
Proof.
  intros Hb. unfold fb_write. eapply (blind_bind _ _ _ (fun _ => True)); [apply blind_for_up|intros _ _; by apply blind_ret].
  intros i Hi. eapply blind_bind; [by apply (blind_buf_get b n)|]. intros c _. apply blind_put_char.
Qed.

Lemma blind_set_kbd f : blindly S W on_screen (modify (fun k => set_kbd (f (k_kbd k)) k)).
Proof. by apply blind_modify; [..|constructor|]. Qed.
Lemma blind_gets_kbd : blindly S W on_screen (gets k_kbd).
Proof. by apply blind_gets. Qed.
Lemma blind_store_kbd s : blindly S W on_screen (modify (set_kbd s)).
Proof. by apply blind_modify; [..|constructor|]. Qed.
Lemma blind_option {A} (o : option A) : blindly S W on_screen (from_option o).
Proof. by apply blind_from_option. Qed.
End Drivers.
#[export] Hint Resolve blind_gets_kbd blind_store_kbd blind_option : blind.

Section Input.
Context {S W : Z -> Prop} `{!Hidden S W} `{Env} `{PollFuel}.

Lemma blind_kbd_put c : blindly S W on_screen (keyboard_put_char c).
Proof. unfold keyboard_put_char. blind_run. Qed.
Lemma blind_getchar : blindly S W on_screen keyboard_getchar.
Proof. unfold keyboard_getchar. blind_run. Qed.
Lemma blind_set_shift b : blindly S W on_screen (set_shift_active b).
Proof. by apply blind_modify; [..|constructor|]. Qed.
Lemma blind_wait com : blindly S W on_screen (serial_wait com).
Proof. unfold serial_wait, serial_is_transmit_fifo_empty. blind_run. Qed.
Lemma blind_receive com : blindly S W on_screen (serial_receive com).
Proof. unfold serial_receive. blind_run. Qed.
Lemma blind_pic_ack irq : blindly S W on_screen (pic_ack irq).
Proof. unfold pic_ack. blind_run. Qed.
End Input.
#[export] Hint Resolve blind_kbd_put blind_getchar blind_set_shift blind_wait blind_receive blind_pic_ack : blind.

Section Serial.
Context {S W : Z -> Prop} `{!Hidden S W} `{Env} `{PollFuel}.

Lemma blind_kbd_handler : blindly S W on_screen keyboard_interrupt_handler.
Proof. unfold keyboard_interrupt_handler, read_scan_code. blind_run. Qed.
Lemma blind_serial_read com : blindly S W on_screen (serial_read_char com).
Proof. unfold serial_read_char. blind_run. Qed.
Lemma blind_serial_char com c : blindly S W on_screen (serial_write_char com c).
Proof. unfold serial_write_char. blind_run. Qed.
Lemma blind_serial_write com b n : buf_clear S b n -> blindly S W on_screen (serial_write com b n).
Proof.
  intros Hb. unfold serial_write. eapply (blind_bind _ _ _ (fun _ => True)); [apply blind_for_up|intros _ _; by apply blind_ret].
  intros i Hi. eapply blind_bind; [apply blind_wait|]. intros _ _.
  eapply blind_bind; [by apply (blind_buf_get b n)|]. intros c _. apply blind_outb.
Qed.
Lemma buf_clear_lit s n : buf_clear S (Lit s) n.
Proof. exact I. Qed.
End Serial.
#[export] Hint Resolve blind_kbd_handler blind_serial_read blind_serial_char blind_serial_write blind_fb_write buf_clear_lit : blind.

Section Dispatch.
Context {S W : Z -> Prop} `{!Hidden S W} `{Env} `{PollFuel}.

Lemma blind_serial_handler : blindly S W on_screen serial_interrupt_handler.
Proof. unfold serial_interrupt_handler. blind_run. Qed.
Lemma blind_unhandled v : blindly S W on_screen (unhandled_exception v).
Proof. unfold unhandled_exception, write. blind_run. Qed.

Lemma blind_interrupt v : blindly S W on_screen (interrupt_handler v).
Proof.
  pose proof blind_serial_handler. pose proof (blind_unhandled v). unfold interrupt_handler.
  eapply (blind_bind _ _ _ (fun _ => True)); [by apply blind_gets|]. intros t _.
  eapply (blind_bind _ _ _ (fun _ => True)); [destruct (v <? 256); [by apply blind_option|by apply blind_ret]|]. intros h _.
  eapply (blind_bind _ _ _ (fun _ => True)); [|intros ? _; blind_run].
  destruct (_ && _); [|destruct (v <? 32); [done|by apply blind_ret]]. destruct h; cbn [call_handler]; eauto with blind.
Qed.

Lemma blind_take v : blindly S W on_screen (take_interrupt v).
Proof.
  unfold take_interrupt. eapply (blind_bind _ _ _ (fun _ => True)); [by apply blind_modify; [..|constructor|]|]. intros _ _.
  pose proof (blind_interrupt v). blind_run.
Qed.

Lemma blind_hlt : blindly S W on_screen hlt.
Proof.
  intros k m2 Hk Hs. unfold both, hlt, bind, gets, id. cbn [k_cpu k_trace set_mem].
  destruct (cpu_if (k_cpu k)), (env_irq (k_trace k)) as [v|]; [exact (blind_take v k m2 Hk Hs)|done..].
Qed.
End Dispatch.
#[export] Hint Resolve blind_interrupt blind_take blind_hlt : blind.
