(* ===== verification/FootprintCalls.v ===== *)
(** The footprint of a system call: four words of the register frame, of which it writes
    one, the buffer named by the call, and the screen. *)
From S2P Require Import Prelude State Machine Framebuffer FramebufferFacts Isr Keyboard Serial Pic Interrupt Syscall SyscallFacts SyscallCalls Footprint FootprintDrivers.

(** The buffer of the call avoids what it may not read, or may not write. *)
Definition buffers_clear (S W : Z -> Prop) (nr buf count : Z) : Prop :=
  (nr = SYS_WRITE -> buf_clear S (Ptr buf) count) /\ (nr = SYS_READ -> buf_clear W (Ptr buf) count).

(** The argument words that a call reads. *)
Definition call_args (nr : Z) : Z := if (nr =? SYS_WRITE) || (nr =? SYS_READ) then 3 else if nr =? SYS_EXIT then 1 else 0.

(** They and the result avoid it too. *)
Record frame_clear (S W : Z -> Prop) (nr p : Z) : Prop := FrameClear {
  fc_pos : 0 < p;
  fc_args : forall i, 0 <= i < call_args nr -> word_clear S (p + 4 * i);
  fc_eax : word_clear W (p + pt_eax)
}.

Section Calls.
Context {S W : Z -> Prop} `{!Hidden S W} `{Env} `{PollFuel}.

Lemma blind_read_loop fuel buf n idx :
  buf_clear W (Ptr buf) n -> 2 <= n < 4294967296 -> 0 <= idx < n ->
  blind S W on_screen (fun r => 0 <= r < n) (read_loop fuel buf n idx).
Proof.
  intros Hb Hn. assert (u32 (n - 1) = n - 1) as Hu by word_solve. revert idx.
  induction fuel as [|fuel IH]; intros idx Hi; [apply blind_hang|]. cbn [read_loop].
  rewrite Hu. destruct (Z.ltb_spec idx (n - 1)); [|by apply blind_ret].
  eapply (blind_bind _ _ _ (fun _ => True)); [apply blind_getchar|]. intros c0 _.
  eapply (blind_bind _ _ _ (fun _ => True)); [blind_run|]. intros c _.
  destruct (c =? -1); [eapply blind_bind; [apply blind_hlt|intros _ _; by apply IH]|].
  destruct (_ || _); [do 2 (eapply blind_bind; [eauto with blind|intros _ _]); by apply blind_ret|].
  destruct (_ || _).
  - destruct (Z.ltb_spec 0 idx); [|by apply IH]. do 2 (eapply blind_bind; [eauto with blind|intros _ _]). apply IH. word_solve.
  - eapply blind_bind; [apply blind_store8, Hb; lia|intros _ _]. do 2 (eapply blind_bind; [eauto with blind|intros _ _]). apply IH. word_solve.
Qed.

Lemma three_clear nr p : frame_clear S W nr p -> call_args nr = 3 ->
  word_clear S (p + pt_ebx) /\ word_clear S (p + pt_ecx) /\ word_clear S (p + pt_edx).
Proof. intros [_ Ha _] Hn. rewrite Hn in Ha. split_and!; [apply (Ha 0)|apply (Ha 1)|apply (Ha 2)]; lia. Qed.

Lemma both_sys_read k m2 p a buf n :
  on_screen (k_fb k) -> same_out S (k_mem k) m2 -> frame_clear S W SYS_READ p -> regs_hold (k_mem k) p SYS_READ a buf n ->
  is_u32 n -> buf_clear W (Ptr buf) n -> both S W (sys_read p) (fun _ k' => on_screen (k_fb k') /\ True) k m2.
Proof.
  intros Hk Hs Hp (_ & Hebx & Hecx & Hedx) Hn Hb. unfold sys_read.
  destruct (three_clear SYS_READ p Hp eq_refl) as (Hc1 & Hc2 & Hc3). pose proof (fc_eax _ _ _ _ Hp).
  eapply both_bind; [by apply (both_load32 _ k m2 (fun v k' => k' = k /\ v = a))|]. intros ? ? m3 [-> ->] H3.
  destruct (a =? 0); [|by apply blind_store32].
  eapply both_bind; [by apply (both_load32 _ k m3 (fun v k' => k' = k /\ v = buf))|]. intros ? ? m4 [-> ->] H4.
  eapply both_bind; [by apply (both_load32 _ k m4 (fun v k' => k' = k /\ v = n))|]. intros ? ? m5 [-> ->] H5.
  destruct (_ || (n <=? 1)) eqn:E.
  - assert (blindly S W on_screen (when negb (buf =? 0) && (n =? 1) do store8 buf 0)) as Hone.
    { destruct (_ && _) eqn:E1; [|by apply blind_ret]. apply andb_prop in E1 as [_ ->%Z.eqb_eq]. rewrite <- (Z.add_0_r buf).
      by apply blind_store8, Hb. }
    by apply (blind_bind _ _ _ _ _ _ _ Hone); [intros _ _; by apply blind_store32|..].
  - apply orb_false_elim in E as [_ ?%Z.leb_gt]. eapply both_bind; [by apply (blind_sti (J := on_screen))|]. intros [] k1 m6 [Hk1 _] H6.
    eapply both_bind; [apply (blind_read_loop poll_fuel buf n 0); first [done|word_solve]|]. intros idx k3 m7 [Hk3 Hidx] H7.
    eapply both_bind; [by apply (blind_store8 (J := on_screen)); [apply Hb|..]|]. intros [] k4 m8 [Hk4 _] H8. by apply blind_store32.
Qed.

Lemma both_sys_write k m2 p a buf n :
  on_screen (k_fb k) -> same_out S (k_mem k) m2 -> frame_clear S W SYS_WRITE p -> regs_hold (k_mem k) p SYS_WRITE a buf n ->
  buf_clear S (Ptr buf) n -> both S W (sys_write p) (fun _ k' => on_screen (k_fb k') /\ True) k m2.
Proof.
  intros Hk Hs Hp (_ & Hebx & Hecx & Hedx) Hb. unfold sys_write.
  destruct (three_clear SYS_WRITE p Hp eq_refl) as (Hc1 & Hc2 & Hc3). pose proof (fc_eax _ _ _ _ Hp).
  eapply both_bind; [by apply (both_load32 _ k m2 (fun v k' => k' = k /\ v = a))|]. intros ? ? m3 [-> ->] H3.
  destruct (_ || _); [|by apply blind_store32].
  eapply both_bind; [by apply (both_load32 _ k m3 (fun v k' => k' = k /\ v = buf))|]. intros ? ? m4 [-> ->] H4.
  eapply both_bind; [by apply (both_load32 _ k m4 (fun v k' => k' = k /\ v = n))|]. intros ? ? m5 [-> ->] H5.
  eapply (both_bind _ _ _ _ _ (fun _ k' => on_screen (k_fb k') /\ True)); [|intros [] k1 m6 [Hk1 _] H6; by apply blind_store32].
  assert (blindly S W on_screen (when negb (buf =? 0) && (0 <? n) do
    (fb_write (Ptr buf) n ;;; serial_write SERIAL_COM1_BASE (Ptr buf) n ;;; ret tt))) as Hout; [|by apply Hout].
  destruct (_ && _); [|by apply blind_ret]. eapply blind_bind; [by apply blind_fb_write|intros _ _].
  eapply blind_bind; [by apply blind_serial_write|intros _ _]. by apply blind_ret.
Qed.

(** A system call, from two states whose memories differ on [S]. *)
Lemma both_syscall k m2 p nr a buf n :
  on_screen (k_fb k) -> same_out S (k_mem k) m2 -> frame_clear S W nr p -> regs_hold (k_mem k) p nr a buf n ->
  is_u32 n -> buffers_clear S W nr buf n -> both S W (do_syscall_in_C p) (fun _ k' => on_screen (k_fb k') /\ True) k m2.
Proof.
  intros Hk Hs Hp Hh Hn [Hbw Hbr]. pose proof Hp as [Hpos Hargs Heax]. unfold do_syscall_in_C.
  rewrite (proj2 (Z.eqb_neq p 0)) by lia. pose proof Hh as (Hv & Hebx & _ & _).
  assert (word_clear S (p + pt_eax)) as Heax'.
  { destruct Heax as (H1 & H2 & H3). split_and!; [done|done|]. intros i Hi Hx. apply (H3 i Hi). by apply hidden_sub. }
  eapply both_bind; [by apply (both_load32 _ k m2 (fun v k' => k' = k /\ v = nr))|]. intros ? ? m3 [-> ->] H3.
  destruct (Z.eqb_spec nr SYS_WRITE) as [->|_]; [by apply (both_sys_write k m3 p a buf n); auto|].
  destruct (Z.eqb_spec nr SYS_EXIT) as [->|_].
  { eapply both_bind; [by apply (both_load32 _ k m3 (fun v k' => k' = k /\ v = a)); [apply (Hargs 0)|..]|]. intros ? ? m4 [-> ->] H4.
    by apply blind_store32. }
  destruct (nr =? SYS_CLEAR).
  { assert (blindly S W on_screen (sys_clear p)) as Hc; [|by apply Hc]. unfold sys_clear.
    do 2 (eapply blind_bind; [eauto with blind|intros _ _]). by apply blind_store32. }
  destruct (Z.eqb_spec nr SYS_READ) as [->|_]; [by apply (both_sys_read k m3 p a buf n); auto|]. by apply blind_store32.
Qed.
End Calls.
