(* ===== verification/Storage.v ===== *)
(** Where the kernel's storage lies in memory, and what a store to it through a pointer
    may do.

    [k_mem] holds the bytes that the code reaches through pointers: the heap's pool, the
    ring 0 stack, the screen, the process, boot information and modules.  The rest of
    the image, code and static variables, is not in it: the variables are the other
    fields of [kernel], and code is not data.  A store that hits one of those addresses
    is therefore not a change of [k_mem]: what it does is left open ([settles]), and the
    bytes that [k_mem] has there mean nothing ([refreshed]). *)
From S2P Require Import Prelude State Machine Image Framebuffer FramebufferFacts Isr Keyboard Serial Pic Interrupt Paging PagingFacts PagingProps Kheap KheapBitmap KheapSpec Boot Process Footprint.

Section Storage.
Context `{Layout}.

(** * Regions *)

(** The sections of link.ld, and the stack that loader.s reserves. *)
Definition in_image (x : Z) : Prop := kernel_virtual_start_addr <= x < kernel_virtual_end_addr.
Definition on_stack (x : Z) : Prop := kernel_stack_addr <= x < kernel_stack_addr + 4096.

(** The tables that the CPU reads, with their sizes. *)
Definition cpu_tables : list (Z * Z) :=
  [ (boot_page_directory_addr, 4096); (boot_page_table1_addr, 4096); (user_page_directory_addr, 4096);
    (user_code_page_table_addr, 4096); (user_stack_page_table_addr, 4096);
    (gdt_addr, 48); (tss_addr, 104); (idt_addr, 2048) ].
Definition in_table (x : Z) : Prop := Exists (fun '(a, n) => a <= x < a + n) cpu_tables.

(** What is not in [k_mem]: those tables, and all of the image but the arrays of bytes
    that pointers lead to. *)
Definition static (x : Z) : Prop := in_table x \/ (in_image x /\ ~ in_pool x /\ ~ on_stack x /\ ~ in_frames x).

(** The memory of the process: 16 pages of program and the stack page below 3GB. *)
Definition user_memory (x : Z) : Prop :=
  0 <= x < USER_CODE_MAX_PAGES * 4096 \/ 0xBFFFF000 <= x < 0xC0000000.

(** What interrupts and system calls have no reason to write: anything but the process,
    under either of its addresses, the screen and the ring 0 stack. *)
Definition unwritten (x : Z) : Prop := ~ user_memory x /\ ~ in_window x /\ ~ on_stack x /\ ~ in_frames x.
(** The bytes of [k_mem] among them. *)
Definition protected (x : Z) : Prop := unwritten x /\ ~ static x.

(** * Stores *)

(** [k_mem] with other bytes where they mean nothing: in static storage, and in the
    frames of the process under the kernel's address. *)
Record refreshed (m m' : gmap Z Z) : Prop := Refreshed {
  rf_same : forall x, ~ static x -> ~ in_frames x -> m' !! x = m !! x;
  rf_grows : grows m m'
}.

(** A computation that started on the memory [m] ended in [k]; if a static byte changed
    on the way the next state is any state. *)
Definition settles (m : gmap Z Z) (k k' : kernel) : Prop :=
  (forall x, static x -> k_mem k !! x = m !! x) -> k' = k.

(** Whatever the meaningless bytes are, static storage is not written. *)
Definition spares_static {A} (m : K A) (k : kernel) : Prop :=
  forall mem a k', refreshed (k_mem k) mem -> m (set_mem mem k) = Ok (a, k') ->
    forall x, static x -> k_mem k' !! x = mem !! x.

Lemma refreshed_refl m : refreshed m m.
Proof. split; [done|by intros a n]. Qed.
End Storage.

(** * Placement

    What link.ld guarantees: the image lies between 1MB and 4MB in the kernel's window,
    and its objects do not overlap. *)
Class KernelLayout `{Layout} : Prop := {
  kl_image : 0xC0100000 <= kernel_virtual_start_addr /\ kernel_virtual_end_addr <= 0xC0400000;
  kl_stack : forall x, on_stack x -> in_image x;
  kl_frames : forall x, in_frames x -> in_image x /\ ~ on_stack x;
  kl_pool : forall x, in_pool x -> in_image x /\ ~ on_stack x /\ ~ in_frames x;
  kl_tables : forall x, in_table x -> in_image x /\ ~ in_pool x /\ ~ on_stack x /\ ~ in_frames x
}.

Section Placement.
Context `{KernelLayout}.

Lemma image_high x : in_image x -> 0xC0100000 <= x < 0xC0400000.
Proof. unfold in_image. pose proof kl_image. lia. Qed.

Lemma static_image x : static x -> in_image x /\ ~ in_pool x /\ ~ on_stack x /\ ~ in_frames x.
Proof. intros [Ht|Hs]; [by apply kl_tables|done]. Qed.

Lemma image_off_user x : in_image x -> ~ user_memory x /\ ~ in_window x.
Proof. intros Hx%image_high. unfold user_memory, in_window, fb. change (USER_CODE_MAX_PAGES * 4096) with 65536. lia. Qed.

Lemma static_unwritten x : static x -> unwritten x.
Proof. intros (Hi & _ & Hs & Hf)%static_image. destruct (image_off_user x Hi). done. Qed.

Lemma pool_protected x : in_pool x -> protected x.
Proof.
  intros Hp. destruct (kl_pool x Hp) as (Hi & Hs & Hf), (image_off_user x Hi). split; [done|].
  by intros (_ & ? & _)%static_image.
Qed.

Lemma pool_window : 0xC0000000 <= kheap_memory_addr /\ kheap_memory_addr + KHEAP_SIZE <= 0xC0400000.
Proof.
  destruct (kl_pool kheap_memory_addr) as [H1%image_high _]; [unfold in_pool; kheap_consts; lia|].
  destruct (kl_pool (kheap_memory_addr + KHEAP_SIZE - 1)) as [H2%image_high _]; [unfold in_pool; kheap_consts; lia|]. lia.
Qed.

Lemma stack_window : 0xC0100000 <= kernel_stack_addr /\ kernel_stack_addr + 4096 <= 0xC0400000.
Proof.
  assert (in_image kernel_stack_addr) as H1%image_high by (apply kl_stack; unfold on_stack; lia).
  assert (in_image (kernel_stack_addr + 4095)) as H2%image_high by (apply kl_stack; unfold on_stack; lia). lia.
Qed.

(** The ring 3 address space leads to the frames of the process only. *)
Lemma user_frame_frames va pa : 0 <= va -> user_frame va = Some pa -> in_frames (pa + KERNEL_VIRTUAL_BASE).
Proof.
  intros Hva. unfold user_frame, in_frames. destruct (Z.ltb_spec va 65536); [intros [= <-]; left; lia|].
  destruct (Z.leb_spec 0xBFFFF000 va), (Z.ltb_spec va 0xC0000000); cbn [andb]; try done. intros [= <-]. right. lia.
Qed.

Lemma frames_not_static x : in_frames x -> ~ static x.
Proof. intros Hf (_ & _ & _ & ?)%static_image. done. Qed.
End Placement.

(** * Instance *)

#[export] Instance sample_kernel_layout : KernelLayout.
Proof.
  constructor; unfold in_image, on_stack, in_frames, in_pool, in_table, cpu_tables; kheap_consts;
    cbn [kernel_virtual_start_addr kernel_virtual_end_addr kernel_stack_addr user_code_pages_addr user_stack_page_addr kheap_memory_addr
      boot_page_directory_addr boot_page_table1_addr user_page_directory_addr user_code_page_table_addr user_stack_page_table_addr
      gdt_addr tss_addr idt_addr sample_layout]; rewrite ?Exists_cons, ?Exists_nil; try lia.
  intros x. rewrite !Exists_cons, Exists_nil. lia.
Qed.
