(* ===== verification/Invariant.v ===== *)
(** An invariant of every state the kernel can be in: what ring 3 can reach through the
    page tables, the gates through which it is entered, and the keyboard's variables.
    Operations that keep it, built from the primitives up. *)
From S2P Require Import Prelude State Machine Image Framebuffer Isr Keyboard Serial Pic Interrupt Syscall Descriptors Paging PagingFacts PagingProps Kheap Kmain Boot Process Footprint Storage.

(** * The invariant *)

Section Confined.
Context `{Layout}.

(** Entries of the page tables: closed to ring 3, or one of those that lead to the
    frames of the process. *)
Definition kernel_entry (e : Z) : Prop := entry_user e = false.
Definition directory_entry (e : Z) : Prop := kernel_entry e \/ e = code_pde \/ e = stack_pde.
Definition code_entry (e : Z) : Prop := kernel_entry e \/ exists p, 0 <= p < 16 /\ e = code_pte p.
Definition stack_entry (e : Z) : Prop := kernel_entry e \/ e = stack_pte.

(** A present gate leads to the stub of its vector; ring 3 may use that of vector 128. *)
Definition gate_ok (v : nat) (e : idt_entry) : Prop :=
  gate_present (gate_of e) = true ->
  (v < 48)%nat /\ gate_of e = Gate (isr_stub_addr (Z.of_nat v)) SEGMENT_KERNEL_CS true 0 14 \/
  v = 128%nat /\ gate_of e = Gate Int128Handler_addr SEGMENT_KERNEL_CS true 3 14.

Record confined (k : kernel) : Prop := Confined {
  cf_kbd : kbd_ok (k_kbd k) /\ (shift_active (k_kbd k) = 0 \/ shift_active (k_kbd k) = 1);
  cf_idt : length (idt (k_idt k)) = 256%nat /\ forall v e, idt (k_idt k) !! v = Some e -> gate_ok v e;
  cf_boot : Forall kernel_entry (boot_page_directory (k_paging k)) /\ Forall kernel_entry (boot_page_table1 (k_paging k));
  cf_user : Forall directory_entry (user_page_directory (k_paging k)) /\
    Forall code_entry (user_code_page_table (k_paging k)) /\ Forall stack_entry (user_stack_page_table (k_paging k))
}.

(** * Operations that keep the invariant

    Whenever [m] returns from a state with the invariant, the state it leaves has it and
    the result satisfies [P]. *)
Definition keeps {A} (P : A -> Prop) (m : K A) : Prop :=
  forall k a k', confined k -> m k = Ok (a, k') -> confined k' /\ P a.
End Confined.
Abbreviation kept_by m := (keeps (fun _ => True) m).

Create HintDb confined.

Section Monad.
Context `{Layout} {A B : Type}.
Implicit Types (P : A -> Prop) (Q : B -> Prop).

Lemma keeps_ret P (a : A) : P a -> keeps P (ret a).
Proof. intros Ha k a' k' Hk [= <- <-]. done. Qed.

Lemma keeps_bind P Q (m : K A) (f : A -> K B) :
  keeps P m -> (forall a, P a -> keeps Q (f a)) -> keeps Q (bind m f).
Proof.
  intros Hm Hf k b k' Hk. unfold bind. destruct (m k) as [[a k1]| |] eqn:E; [|done..]. intros Hb.
  destruct (Hm k a k1 Hk E) as (Hk1 & Ha). by apply (Hf a Ha k1).
Qed.

Lemma keeps_any P (m : K A) : keeps P m -> kept_by m.
Proof. intros Hm k a k' Hk E. by destruct (Hm k a k' Hk E). Qed.

Lemma keeps_gets (f : kernel -> A) : keeps (fun a => exists k, confined k /\ a = f k) (gets f).
Proof. intros k a k' Hk [= <- <-]. eauto. Qed.

Lemma keeps_from_option P (o : option A) : (forall a, o = Some a -> P a) -> keeps P (from_option o).
Proof. intros Ho k a k' Hk. destruct o as [x|]; [|done]. intros [= <- <-]. auto. Qed.

Lemma keeps_fault P : keeps P fault.
Proof. intros k a k' Hk [=]. Qed.
Lemma keeps_hang P : keeps P hang.
Proof. intros k a k' Hk [=]. Qed.

Lemma keeps_if P (b : bool) (m n : K A) : keeps P m -> keeps P n -> keeps P (if b then m else n).
Proof. by destruct b. Qed.
End Monad.

(** An assignment to static variables. *)
Lemma keeps_modify `{Layout} (f : kernel -> kernel) : (forall k, confined k -> confined (f k)) -> kept_by (modify f).
Proof. intros Hf k [] k' Hk [= <-]. auto. Qed.

Lemma keeps_for_loop `{Layout} lo step n (body : Z -> K unit) : (forall i, kept_by (body i)) -> kept_by (for_loop lo step n body).
Proof.
  intros Hb. revert lo. induction n as [|n IH]; intros lo; [by apply keeps_ret|]. cbn [for_loop].
  eapply keeps_bind; [apply Hb|]. intros _ _. apply IH.
Qed.
Lemma keeps_for_up `{Layout} lo hi (body : Z -> K unit) : (forall i, kept_by (body i)) -> kept_by (for_up lo hi body).
Proof. apply keeps_for_loop. Qed.
(** With the bounds of the index. *)
Lemma keeps_for_range `{Layout} lo hi (body : Z -> K unit) :
  (forall i, lo <= i < hi -> kept_by (body i)) -> kept_by (for_up lo hi body).
Proof.
  unfold for_up. remember (Z.to_nat (hi - lo)) as n eqn:Hn. revert lo Hn. induction n as [|n IH]; intros lo Hn Hb; [by apply keeps_ret|].
  cbn [for_loop]. eapply keeps_bind; [apply Hb; lia|]. intros _ _. apply IH; [lia|]. intros i Hi. apply Hb. lia.
Qed.
Lemma keeps_for_up2 `{Layout} lo hi (body : Z -> K unit) : (forall i, kept_by (body i)) -> kept_by (for_up2 lo hi body).
Proof. apply keeps_for_loop. Qed.
Lemma keeps_while `{Layout} fuel (cond : K bool) (body : K unit) : kept_by cond -> kept_by body -> kept_by (while_fuel fuel cond body).
Proof.
  intros Hc Hb. induction fuel as [|fuel IH]; [apply keeps_hang|]. cbn [while_fuel]. eapply keeps_bind; [exact Hc|].
  intros b _. destruct b; [|by apply keeps_ret]. eapply keeps_bind; [exact Hb|]. by intros _ _.
Qed.

(** Operations proved by execution. *)
Lemma keeps_wp `{Layout} {A} (P : A -> Prop) (m : K A) :
  (forall k, confined k -> wp m (fun a k' => confined k' /\ P a) k) -> keeps P m.
Proof. intros Hm k a k' Hk E. destruct (Hm k Hk) as (a' & k1 & E' & Hp). rewrite E in E'. by simplify_eq. Qed.

#[export] Hint Resolve keeps_ret keeps_gets keeps_fault keeps_hang u8_range u16_range u32_range : confined.
#[export] Hint Resolve keeps_for_up keeps_for_up2 keeps_while keeps_if : confined.
#[export] Hint Extern 9 (kept_by _) => eapply keeps_any : confined.
#[export] Hint Extern 1 True => exact I : confined.

(** One step through a body, taking the result of each call at its type. *)
Ltac keeps_step :=
  cbv zeta;
  lazymatch goal with
  | |- forall _, _ => intros ?
  | |- keeps _ (bind _ _) =>
      first [eapply keeps_bind; [solve [eauto 3 with confined nocore]|intros ? ?]
            |eapply (keeps_bind (fun _ => True)); [|intros ? _]]
  | |- keeps _ (match ?b with _ => _ end) => destruct b eqn:?
  | |- keeps _ (for_up _ _ _) => apply keeps_for_up
  | |- keeps _ (for_up2 _ _ _) => apply keeps_for_up2
  | |- keeps _ (while_fuel _ _ _) => apply keeps_while
  | |- keeps _ (ret _) => apply keeps_ret; try done
  | |- keeps _ _ => solve [eauto 4 with confined nocore]
  end.
Ltac keeps_run := repeat keeps_step; try done.

(** An assignment that leaves most of the invariant alone. *)
Ltac reconfine :=
  let k := fresh "k" in let Hk := fresh "Hk" in
  apply keeps_modify; intros k Hk; destruct Hk; constructor; cbn; try done.

(** * Primitives *)

Section Primitives.
Context `{Layout}.

Lemma keeps_load8 a : kept_by (load8 a).
Proof.
  unfold load8. eapply keeps_bind; [apply keeps_gets|]. intros k _. by apply keeps_from_option.
Qed.
Lemma keeps_set_mem m : kept_by (modify (set_mem m)).
Proof. reconfine. Qed.
Lemma keeps_store8 a v : kept_by (store8 a v).
Proof.
  unfold store8. eapply keeps_bind; [apply keeps_gets|]. intros k _.
  destruct (_ !! _); [|apply keeps_fault]. apply keeps_modify. intros k1 []. by constructor.
Qed.
End Primitives.
#[export] Hint Resolve keeps_load8 keeps_store8 : confined.

Section Words.
Context `{Layout}.
Lemma keeps_load32 a : kept_by (load32 a).
Proof. unfold load32. keeps_run. Qed.
Lemma keeps_store32 a v : kept_by (store32 a v).
Proof. unfold store32. keeps_run. Qed.
Lemma keeps_buf_get b i : kept_by (buf_get b i).
Proof. destruct b; cbn [buf_get]; [eauto with confined|]. by apply keeps_from_option. Qed.
Lemma keeps_sti : kept_by enable_interrupts.
Proof. reconfine. Qed.
Lemma keeps_cli : kept_by disable_interrupts.
Proof. reconfine. Qed.

Context `{Env}.
Lemma keeps_outb p v : kept_by (outb p v).
Proof. reconfine. Qed.
Lemma keeps_inb p : keeps is_u8 (inb p).
Proof. intros k a k' Hk [= <- <-]. split; [|apply u8_range]. destruct Hk. by constructor. Qed.
End Words.
#[export] Hint Resolve keeps_load32 keeps_store32 keeps_buf_get keeps_outb keeps_inb keeps_sti keeps_cli : confined.
