(* ===== verification/InvariantDrivers.v ===== *)
(** The drivers, the dispatcher and the system calls keep the invariant, whatever the
    devices answer. *)
From S2P Require Import Prelude State Machine Image Framebuffer Isr Keyboard Serial Pic Interrupt Syscall Descriptors Paging Kheap Kmain Invariant.

(** * Console *)

Section Console.
Context `{Layout} `{Env}.

Lemma keeps_set_cursor p : kept_by (set_cursor_pos p).
Proof. reconfine. Qed.
Lemma keeps_write_cell off c fg bg : kept_by (fb_write_cell off c fg bg).
Proof. unfold fb_write_cell. keeps_run. Qed.
Lemma keeps_move_cursor p : kept_by (fb_move_cursor p).
Proof. unfold fb_move_cursor. keeps_run. Qed.
Lemma keeps_blank i : kept_by (fb_blank i).
Proof. unfold fb_blank. keeps_run. Qed.
Lemma keeps_set_color fg bg : kept_by (fb_set_color fg bg).
Proof. reconfine. Qed.
End Console.
#[export] Hint Resolve keeps_set_cursor keeps_write_cell keeps_move_cursor keeps_blank keeps_set_color : confined.
#[export] Hint Extern 1 (is_u8 _) => done : confined.

Lemma keeps_scroll `{Layout} `{Env} : kept_by fb_scroll.
Proof. unfold fb_scroll. keeps_run. Qed.
Lemma keeps_clear `{Layout} `{Env} : kept_by fb_clear.
Proof. unfold fb_clear. keeps_run. Qed.
#[export] Hint Resolve keeps_scroll keeps_clear : confined.

Lemma keeps_put_char `{Layout} `{Env} c : kept_by (fb_put_char c).
Proof. unfold fb_put_char. keeps_run. Qed.
#[export] Hint Resolve keeps_put_char : confined.

Lemma keeps_fb_write `{Layout} `{Env} buf len : kept_by (fb_write buf len).
Proof. unfold fb_write. keeps_run. Qed.
#[export] Hint Resolve keeps_fb_write : confined.

(** * Input *)

Lemma keeps_register `{Layout} n h : kept_by (register_interrupt_handler n h).
Proof.
  unfold register_interrupt_handler. eapply keeps_bind; [apply keeps_gets|]. intros t _.
  eapply (keeps_bind (fun _ => True)); [by apply keeps_from_option|]. intros l _. reconfine.
Qed.
#[export] Hint Resolve keeps_register : confined.

Lemma confined_set_kbd `{Layout} k s :
  confined k -> kbd_ok s -> shift_active s = shift_active (k_kbd k) -> confined (set_kbd s k).
Proof. intros [[_ Hsh] ? ? ?] Hs Heq. constructor; try done. cbn. by rewrite Heq. Qed.

Section Input.
Context `{Layout} `{Env} `{PollFuel}.

Lemma keeps_kbd_put c : is_u8 c -> kept_by (keyboard_put_char c).
Proof.
  intros Hc. apply keeps_wp. intros k Hk. destruct (cf_kbd _ Hk) as [Hs _].
  eapply wp_mono; [by apply keyboard_put_char_wp|]. intros [] k' (s' & -> & Hs' & Hsh' & _).
  split; [|done]. by apply confined_set_kbd.
Qed.

Lemma keeps_getchar : kept_by keyboard_getchar.
Proof.
  apply keeps_wp. intros k Hk. destruct (cf_kbd _ Hk) as [Hs _].
  eapply wp_mono; [by apply keyboard_getchar_wp|]. intros r k'. destruct (queue_of (k_kbd k)) as [|c q].
  - intros [_ ->]. done.
  - intros (_ & s' & -> & Hs' & Hsh' & _). split; [|done]. by apply confined_set_kbd.
Qed.

Lemma keeps_has_char : kept_by keyboard_has_char.
Proof. unfold keyboard_has_char. keeps_run. Qed.
Lemma keeps_set_shift b : b = 0 \/ b = 1 -> kept_by (set_shift_active b).
Proof. intros Hb. reconfine. destruct cf_kbd as [[] _]. by split. Qed.
End Input.
#[export] Hint Resolve keeps_kbd_put keeps_getchar keeps_has_char keeps_set_shift : confined.
#[export] Hint Extern 1 (_ = 0 \/ _ = 1) => lia : confined.

Lemma tables_typed : Forall is_u8 kbd_us_ascii /\ Forall is_u8 kbd_us_ascii_shift.
Proof. split; apply (bool_decide_unpack _); vm_compute; exact I. Qed.

Lemma arr_get_forall {A} (P : A -> Prop) l i a : Forall P l -> arr_get l i = Some a -> P a.
Proof. unfold arr_get. destruct (0 <=? i); [|done]. apply Forall_lookup_1. Qed.

Lemma keeps_translate `{Layout} (b : bool) i :
  keeps is_u8 (from_option (if b then arr_get kbd_us_ascii_shift i else arr_get kbd_us_ascii i)).
Proof.
  apply keeps_from_option. intros v Hv. destruct tables_typed as [H1 H2].
  destruct b; [exact (arr_get_forall _ _ _ _ H2 Hv)|exact (arr_get_forall _ _ _ _ H1 Hv)].
Qed.
#[export] Hint Resolve keeps_translate : confined.

Section Interrupts.
Context `{Layout} `{Env} `{PollFuel}.

Lemma keeps_kbd_handler : kept_by keyboard_interrupt_handler.
Proof. unfold keyboard_interrupt_handler, read_scan_code. keeps_run. Qed.

Lemma keeps_kbd_init : kept_by keyboard_init.
Proof.
  unfold keyboard_init. eapply keeps_bind.
  - reconfine. destruct cf_kbd as [[] Hsh]. by split; [constructor|].
  - intros _ _. keeps_run.
Qed.

(** * Serial line and interrupt controllers *)

Lemma keeps_wait com : kept_by (serial_wait com).
Proof. unfold serial_wait, serial_is_transmit_fifo_empty. keeps_run. Qed.
Lemma keeps_receive com : kept_by (serial_receive com).
Proof. unfold serial_receive. keeps_run. Qed.
End Interrupts.
#[export] Hint Resolve keeps_kbd_handler keeps_kbd_init keeps_wait keeps_receive : confined.

Section Serial.
Context `{Layout} `{Env} `{PollFuel}.

Lemma keeps_serial_write com buf len : kept_by (serial_write com buf len).
Proof. unfold serial_write. keeps_run. Qed.
Lemma keeps_serial_write_char com c : kept_by (serial_write_char com c).
Proof. unfold serial_write_char. keeps_run. Qed.
Lemma keeps_serial_read_char com : kept_by (serial_read_char com).
Proof. unfold serial_read_char. keeps_run. Qed.
Lemma keeps_pic_ack irq : kept_by (pic_ack irq).
Proof. unfold pic_ack. keeps_run. Qed.
Lemma keeps_pic_remap : kept_by pic_remap.
Proof. unfold pic_remap, pic_set_mask. keeps_run. Qed.
End Serial.
#[export] Hint Resolve keeps_serial_write keeps_serial_write_char keeps_serial_read_char keeps_pic_ack keeps_pic_remap : confined.

Section Dispatch.
Context `{Layout} `{Env} `{PollFuel}.

Lemma keeps_serial_handler : kept_by serial_interrupt_handler.
Proof. unfold serial_interrupt_handler. keeps_run. Qed.
Lemma keeps_serial_init : kept_by serial_init.
Proof. unfold serial_init, serial_config_baud_rate, serial_config_line, serial_config_buffers, serial_config_modem. keeps_run. Qed.

(** * Dispatch *)

Lemma keeps_unhandled v : kept_by (unhandled_exception v).
Proof. unfold unhandled_exception, write. keeps_run. Qed.
Lemma keeps_interrupt v : kept_by (interrupt_handler v).
Proof.
  unfold interrupt_handler. eapply keeps_bind; [apply keeps_gets|]. intros t _.
  eapply (keeps_bind (fun _ => True)); [destruct (v <? 256); [by apply keeps_from_option|by apply keeps_ret]|].
  intros h _. pose proof keeps_serial_handler. pose proof (keeps_unhandled v).
  eapply (keeps_bind (fun _ => True)); [|intros ? _; keeps_run].
  destruct (_ && _); [|destruct (v <? 32); [done|by apply keeps_ret]]. destruct h; cbn [call_handler]; eauto with confined.
Qed.
Lemma keeps_take v : kept_by (take_interrupt v).
Proof.
  unfold take_interrupt. pose proof (keeps_interrupt v). eapply keeps_bind; [reconfine|].
  intros _ _. keeps_run.
Qed.
Lemma keeps_hlt : kept_by hlt.
Proof.
  unfold hlt. eapply keeps_bind; [apply keeps_gets|]. intros k _.
  destruct (cpu_if (k_cpu k)), (env_irq (k_trace k)); try apply keeps_hang. apply keeps_take.
Qed.
End Dispatch.
#[export] Hint Resolve keeps_serial_init keeps_interrupt keeps_take keeps_hlt : confined.

(** * System calls *)

Section Calls.
Context `{Layout} `{Env} `{PollFuel}.

Lemma keeps_read_char : kept_by keyboard_read_char.
Proof. unfold keyboard_read_char. keeps_run. Qed.

Lemma keeps_read_loop fuel buf max idx : kept_by (read_loop fuel buf max idx).
Proof. revert idx. induction fuel as [|fuel IH]; intros idx; [apply keeps_hang|]. cbn [read_loop]. keeps_run. Qed.
Lemma keeps_sys_write regs : kept_by (sys_write regs).
Proof. unfold sys_write. keeps_run. Qed.
Lemma keeps_sys_clear regs : kept_by (sys_clear regs).
Proof. unfold sys_clear. keeps_run. Qed.
Lemma keeps_sys_read regs : kept_by (sys_read regs).
Proof. unfold sys_read. pose proof keeps_read_loop. keeps_run. Qed.
Lemma keeps_syscall regs : kept_by (do_syscall_in_C regs).
Proof.
  unfold do_syscall_in_C. pose proof keeps_sys_write. pose proof keeps_sys_clear. pose proof keeps_sys_read. keeps_run.
Qed.
End Calls.
#[export] Hint Resolve keeps_read_char keeps_syscall : confined.
