(* ===== verification/InvariantKernel.v ===== *)
(** The heap, the page tables, the descriptor tables and the boot sequence keep the
    invariant. *)
From S2P Require Import Prelude State Machine Image Framebuffer Isr Keyboard Serial Pic Interrupt Syscall Descriptors Paging PagingFacts PagingProps Kheap Kmain Boot Process Footprint Storage Invariant InvariantDrivers.

(** * Arrays *)

(** An assignment [l[i] = a] keeps what holds of all elements. *)
Lemma keeps_arr_set `{Layout} {A} (P : A -> Prop) l i a :
  Forall P l -> P a -> keeps (Forall P) (from_option (arr_set l i a)).
Proof.
  intros Hl Ha. apply keeps_from_option. intros l' E. unfold arr_set in E. destruct (_ && _); [|done]. simplify_eq. by apply Forall_insert.
Qed.

(** * The heap *)

Section Heap.
Context `{Layout}.

Lemma keeps_bitmap_load i : kept_by (bitmap_load i).
Proof. unfold bitmap_load. eapply keeps_bind; [apply keeps_gets|]. intros h _. by apply keeps_from_option. Qed.
Lemma keeps_bitmap_store i v : kept_by (bitmap_store i v).
Proof.
  unfold bitmap_store. eapply keeps_bind; [apply keeps_gets|]. intros h _.
  eapply (keeps_bind (fun _ => True)); [by apply keeps_from_option|]. intros bm _. reconfine.
Qed.
End Heap.
#[export] Hint Resolve keeps_bitmap_load keeps_bitmap_store : confined.

Section HeapOps.
Context `{Layout}.

Lemma keeps_bitmap_set b : kept_by (bitmap_set b).
Proof. unfold bitmap_set. keeps_run. Qed.
Lemma keeps_bitmap_clear b : kept_by (bitmap_clear b).
Proof. unfold bitmap_clear. keeps_run. Qed.
Lemma keeps_bitmap_test b : kept_by (bitmap_test b).
Proof. unfold bitmap_test. keeps_run. Qed.
End HeapOps.
#[export] Hint Resolve keeps_bitmap_set keeps_bitmap_clear keeps_bitmap_test : confined.

Section Allocator.
Context `{Layout}.

Lemma keeps_kheap_init : kept_by kheap_init.
Proof. unfold kheap_init, kheap_memset. keeps_run. reconfine. Qed.
Lemma keeps_scan n : forall i c s b, kept_by (kmalloc_scan n i c s b).
Proof. induction n as [|n IH]; intros i c s b; cbn [kmalloc_scan]; keeps_run. Qed.
Lemma keeps_kmalloc size : kept_by (kmalloc size).
Proof.
  unfold kmalloc. pose proof (keeps_scan (Z.to_nat KHEAP_TOTAL_BLOCKS)) as Hscan. revert Hscan.
  generalize (Z.to_nat KHEAP_TOTAL_BLOCKS). intros n Hscan. unfold mark_blocks. keeps_run.
Qed.
Lemma keeps_kfree ptr : kept_by (kfree ptr).
Proof. unfold kfree. keeps_run. Qed.
End Allocator.
#[export] Hint Resolve keeps_kheap_init keeps_kmalloc keeps_kfree : confined.

Section Reallocation.
Context `{Layout}.

Lemma keeps_kcalloc num size : kept_by (kcalloc num size).
Proof. unfold kcalloc, kheap_memset. keeps_run. Qed.
Lemma keeps_krealloc ptr new_size : kept_by (krealloc ptr new_size).
Proof. unfold krealloc, kheap_memcpy. keeps_run. Qed.

Lemma keeps_used_loop n : forall i u, kept_by (used_blocks_loop n i u).
Proof. induction n as [|n IH]; intros i u; cbn [used_blocks_loop]; keeps_run. Qed.
Lemma keeps_used : kept_by kheap_get_used_memory.
Proof.
  unfold kheap_get_used_memory. pose proof (keeps_used_loop (Z.to_nat KHEAP_TOTAL_BLOCKS)) as Hl. revert Hl.
  generalize (Z.to_nat KHEAP_TOTAL_BLOCKS). intros n Hl. keeps_run.
Qed.
Lemma keeps_total : kept_by kheap_get_total_memory.
Proof. by apply keeps_ret. Qed.
End Reallocation.
#[export] Hint Resolve keeps_used keeps_total : confined.

Lemma keeps_free `{Layout} : kept_by kheap_get_free_memory.
Proof. unfold kheap_get_free_memory. keeps_run. Qed.
#[export] Hint Resolve keeps_free : confined.

(** * Page tables *)

(** An assignment to one of the tables. *)
Ltac table_set P :=
  eapply keeps_bind; [apply keeps_gets|];
  let p := fresh "p" in let k0 := fresh "k0" in let Hk0 := fresh "Hk0" in
  intros p (k0 & Hk0 & ->); pose proof (cf_boot _ Hk0) as (? & ?); pose proof (cf_user _ Hk0) as (? & ? & ?);
  eapply keeps_bind; [by apply (keeps_arr_set P)|];
  intros ? ?; reconfine.

Section Entries.
Context `{Layout}.

Lemma keeps_boot_pde i v : kernel_entry v -> kept_by (set_boot_pde i v).
Proof. intros Hv. unfold set_boot_pde. table_set kernel_entry. Qed.
Lemma keeps_user_pde i v : directory_entry v -> kept_by (set_user_pde i v).
Proof. intros Hv. unfold set_user_pde. table_set directory_entry. Qed.
Lemma keeps_code_pte i v : code_entry v -> kept_by (set_code_pte i v).
Proof. intros Hv. unfold set_code_pte. table_set code_entry. Qed.
Lemma keeps_stack_pte i v : stack_entry v -> kept_by (set_stack_pte i v).
Proof. intros Hv. unfold set_stack_pte. table_set stack_entry. Qed.
Lemma keeps_stack_byte i v : kept_by (set_stack_byte i v).
Proof.
  unfold set_stack_byte. eapply keeps_bind; [apply keeps_gets|]. intros p (k0 & Hk0 & ->).
  pose proof (cf_boot _ Hk0) as (? & ?). pose proof (cf_user _ Hk0) as (? & ? & ?).
  eapply (keeps_bind (fun _ => True)); [by apply keeps_from_option|]. intros ? _. reconfine.
Qed.
Lemma keeps_code_byte page i v : kept_by (set_code_byte page i v).
Proof.
  unfold set_code_byte. eapply keeps_bind; [apply keeps_gets|]. intros p (k0 & Hk0 & ->).
  pose proof (cf_boot _ Hk0) as (? & ?). pose proof (cf_user _ Hk0) as (? & ? & ?).
  do 3 (eapply (keeps_bind (fun _ => True)); [by apply keeps_from_option|]; intros ? _). reconfine.
Qed.
Lemma keeps_cr3 v : kept_by (load_page_directory v).
Proof. reconfine. Qed.

(** Absent entries. *)
Lemma kernel_entry_0 : kernel_entry 0.
Proof. done. Qed.
Lemma directory_entry_0 : directory_entry 0.
Proof. by left. Qed.
Lemma code_entry_0 : code_entry 0.
Proof. by left. Qed.
Lemma stack_entry_0 : stack_entry 0.
Proof. by left. Qed.
Lemma directory_entry_code : directory_entry (Z.lor (VIRTUAL_TO_PHYSICAL user_code_page_table_addr) PAGING_USER_PAGE).
Proof. right. by left. Qed.
Lemma directory_entry_stack : directory_entry (Z.lor (VIRTUAL_TO_PHYSICAL user_stack_page_table_addr) PAGING_USER_PAGE).
Proof. by do 2 right. Qed.
Lemma stack_entry_page : stack_entry (Z.lor (VIRTUAL_TO_PHYSICAL user_stack_page_addr) PAGING_USER_PAGE).
Proof. by right. Qed.

Lemma keeps_boot_entry p i :
  (exists k, confined k /\ p = k_paging k) -> keeps directory_entry (from_option (arr_get (boot_page_directory p) i)).
Proof.
  intros (k & Hk & ->). apply keeps_from_option. intros v Hv. left. exact (arr_get_forall _ _ _ _ (proj1 (cf_boot _ Hk)) Hv).
Qed.
End Entries.
#[export] Hint Resolve keeps_boot_pde keeps_user_pde keeps_code_pte keeps_stack_pte keeps_stack_byte keeps_code_byte keeps_cr3 : confined.
#[export] Hint Resolve directory_entry_0 code_entry_0 stack_entry_0 directory_entry_code directory_entry_stack stack_entry_page keeps_boot_entry : confined.

Section Setup.
Context `{PagingLayout}.

Lemma kernel_entry_boot : kernel_entry (Z.lor (VIRTUAL_TO_PHYSICAL boot_page_table1_addr) PAGING_KERNEL_PAGE).
Proof.
  unfold kernel_entry. destruct (phys_aligned _ al_boot_table) as [_ Ha].
  by destruct (entry_parts _ PAGING_KERNEL_PAGE Ha ltac:(done)) as (_ & _ & ->).
Qed.
Hint Resolve kernel_entry_boot : confined.

Lemma keeps_paging_init : kept_by paging_init.
Proof. unfold paging_init. keeps_run. Qed.
Lemma keeps_load_page ms size p : 0 <= p < USER_CODE_MAX_PAGES -> kept_by (load_page ms size p).
Proof.
  intros Hp. unfold load_page. assert (code_entry (Z.lor (VIRTUAL_TO_PHYSICAL (user_code_pages_addr + p * 4096)) PAGING_USER_PAGE))
    by (right; by exists p). keeps_run.
Qed.
Lemma keeps_setup ms size : kept_by (paging_setup_user_process ms size).
Proof.
  unfold paging_setup_user_process. pose proof (keeps_for_range 0 USER_CODE_MAX_PAGES _ (keeps_load_page ms size)). keeps_run.
Qed.
End Setup.
#[export] Hint Resolve keeps_paging_init keeps_setup : confined.

(** * Descriptor tables *)

Section Gdt.
Context `{Layout}.

Lemma keeps_gdt_gate num base limit acc gran : kept_by (gdt_set_gate num base limit acc gran).
Proof.
  unfold gdt_set_gate. eapply keeps_bind; [apply keeps_gets|]. intros g _.
  eapply (keeps_bind (fun _ => True)); [by apply keeps_from_option|]. intros l _. reconfine.
Qed.
Lemma keeps_set_tss t : kept_by (set_tss t).
Proof. reconfine. Qed.
Lemma keeps_load_gdt t : kept_by (load_gdt t).
Proof. reconfine. Qed.
Lemma keeps_load_tss s : kept_by (load_tss s).
Proof. reconfine. Qed.
End Gdt.
#[export] Hint Resolve keeps_gdt_gate keeps_set_tss keeps_load_gdt keeps_load_tss : confined.

(** The linker places the stubs below 4GB. *)
Class StubLayout `{Layout} : Prop := {
  stub_addr : forall i, 0 <= i < 48 -> is_u32 (isr_stub_addr i);
  call_addr : is_u32 Int128Handler_addr
}.

Section Descriptors.
Context `{StubLayout}.

Lemma keeps_kernel_stack esp : kept_by (tss_set_kernel_stack esp).
Proof. unfold tss_set_kernel_stack. keeps_run. Qed.
Lemma keeps_write_tss num ss0 esp0 : kept_by (write_tss num ss0 esp0).
Proof. unfold write_tss. keeps_run. Qed.
Lemma keeps_gdt_init : kept_by gdt_init.
Proof. unfold gdt_init. pose proof keeps_write_tss. eapply keeps_bind; [reconfine|]. intros _ _. keeps_run. Qed.

Lemma stub_gate v : (v < 48)%nat -> gate_ok v (idt_gate (isr_stub_addr (Z.of_nat v)) 0x08 0x8E).
Proof.
  intros Hv _. left. split; [done|]. rewrite <- (idt_gate_offset (isr_stub_addr (Z.of_nat v)) 0x08 0x8E) at 2 by (apply stub_addr; lia). reflexivity.
Qed.
Lemma call_gate : gate_ok 128 (idt_gate Int128Handler_addr 0x08 0xEE).
Proof. intros _. right. split; [done|]. rewrite <- (idt_gate_offset Int128Handler_addr 0x08 0xEE) at 2 by apply call_addr. reflexivity. Qed.

Lemma keeps_idt_init : kept_by idt_init.
Proof.
  apply keeps_wp. intros k Hk. destruct (cf_idt _ Hk) as [Hl _]. eapply wp_mono; [by apply idt_init_wp|].
  intros [] k' (l & -> & Hl' & Hlk). split; [|done]. destruct Hk. constructor; try done. cbn. split; [done|]. intros v e Hv.
  rewrite Hlk in Hv by (rewrite <- Hl'; by eapply lookup_lt_Some). injection Hv as <-. case_bool; [apply stub_gate; lia|done].
Qed.
Lemma keeps_syscall_init : kept_by syscall_init.
Proof.
  apply keeps_wp. intros k Hk. destruct (cf_idt _ Hk) as [Hl Hg]. unfold syscall_init. eapply wp_eq; [by apply idt_set_gate_eq|].
  split; [|done]. destruct Hk. constructor; try done. cbn [k_idt set_idt idt]. split; [by rewrite length_insert|]. intros v e.
  rewrite list_lookup_insert_Some. intros [(<- & <- & _)|[_ He]]; [apply call_gate|by apply Hg].
Qed.
End Descriptors.
#[export] Hint Resolve keeps_kernel_stack keeps_gdt_init keeps_idt_init keeps_syscall_init : confined.

(** * The boot sequence *)

Section Entry.
Context `{Env} `{PollFuel} `{PagingLayout} `{!StubLayout}.

Lemma keeps_strlen s : kept_by (strlen s).
Proof.
  unfold strlen. generalize 0. induction poll_fuel as [|n IH]; intros i; cbn [strlen_from]; keeps_run.
Qed.
Lemma keeps_report buf len : kept_by (report buf len).
Proof. unfold report. keeps_run. Qed.
Lemma keeps_enter eip esp : kept_by (enter_user_mode eip esp).
Proof. unfold enter_user_mode. eapply keeps_bind; [reconfine|]. intros _ _. keeps_run. Qed.
End Entry.
#[export] Hint Resolve keeps_strlen keeps_report keeps_enter : confined.

Section Printing.
Context `{Env} `{PollFuel} `{PagingLayout} `{!StubLayout}.

Lemma keeps_print s : kept_by (print s).
Proof. unfold print. keeps_run. Qed.
Lemma keeps_stats : kept_by kheap_print_stats.
Proof. unfold kheap_print_stats. keeps_run. Qed.
Lemma keeps_copy_string fuel dst s i : kept_by (copy_string fuel dst s i).
Proof. revert i. induction fuel as [|fuel IH]; intros i; cbn [copy_string]; keeps_run. Qed.
End Printing.
#[export] Hint Resolve keeps_print keeps_stats keeps_copy_string : confined.

Section Boot.
Context `{Env} `{PollFuel} `{PagingLayout} `{!StubLayout}.

Lemma keeps_console : kept_by kmain_console.
Proof. unfold kmain_console. keeps_run. Qed.
Lemma keeps_init : kept_by kmain_init.
Proof. unfold kmain_init. keeps_run. Qed.
Lemma keeps_heap_test : kept_by kmain_heap_test.
Proof. unfold kmain_heap_test. keeps_run. Qed.
Lemma keeps_kmain_report : kept_by kmain_report.
Proof. unfold kmain_report, print_hex. keeps_run. Qed.
Lemma keeps_start_user ms size : kept_by (kmain_start_user ms size).
Proof. unfold kmain_start_user. keeps_run. Qed.
Lemma keeps_kmain mb : kept_by (kmain mb).
Proof.
  unfold kmain, kmain_load. pose proof keeps_console. pose proof keeps_init. pose proof keeps_heap_test.
  pose proof keeps_kmain_report. pose proof keeps_start_user. keeps_run.
Qed.
End Boot.
