(* ===== verification/InvariantProps.v ===== *)
(** Ring 3 is confined in every state that can be reached, whatever the kernel's
    functions are called with, the devices answer and ring 3 does to memory. *)
From S2P Require Import Prelude State Machine Image Framebuffer Isr Keyboard Serial Pic Interrupt InterruptFacts Samples Syscall Descriptors Paging PagingFacts PagingProps Kheap Kmain Boot Process Footprint Storage Invariant InvariantDrivers InvariantKernel.

(** * The entry points *)





(** * Reachable states *)


Section Props.
Context `{Env} `{PollFuel} `{Layout} `{!PagingLayout} `{!StubLayout} `{!KernelLayout}.







End Props.

(** * Instances *)

#[export] Instance sample_stub_layout : StubLayout.
Proof. split; [|done]. intros i Hi. cbn. word_solve. Qed.



