(* ===== verification/Asm.v ===== *)
(** The assembly routines at the level of instructions: the interrupt stubs of
    arch/x86/cpu/isr.s, the system call entry of kernel/syscall.s, the user stubs of
    userland/libc/src/syscall.s, [enter_user_mode] of arch/x86/boot/loader.s and the
    port routines of arch/x86/cpu/io.s, on the part of IA-32 that they use. *)
From S2P Require Import Prelude State Machine Framebuffer Isr Keyboard Serial Pic Interrupt Syscall.

(** * Registers *)

Inductive reg := EAX | ECX | EDX | EBX | ESP | EBP | ESI | EDI | DS | ES | FS | GS | SS | CS | EIP | EFLAGS.

#[global] Instance reg_eq_dec : EqDecision reg.
Proof. solve_decision. Defined.

Abbreviation regs := (reg -> Z).
Definition upd (r : reg) (v : Z) (f : regs) : regs := fun x => if decide (x = r) then v else f x.

Definition is_segment (r : reg) : bool := match r with DS | ES | FS | GS | SS | CS => true | _ => false end.

(** A register holds a word, a segment register a selector. *)
Definition regs_typed (f : regs) : Prop := forall r, if is_segment r then is_u16 (f r) else is_u32 (f r).

(** * The machine *)

Abbreviation A := (M (regs * kernel)).

(** A computation on the second component of the state. *)
Definition lift {S T X} (m : M T X) : M (S * T) X := fun s =>
  match m (snd s) with Ok (x, k) => Ok (x, (fst s, k)) | Fault => Fault | Hang => Hang end.
Definition get (r : reg) : A Z := gets (fun s => fst s r).
Definition set (r : reg) (v : Z) : A unit := modify (fun s => (upd r v (fst s), snd s)).

Definition push (v : Z) : A unit :=
  sp <- get ESP ;;
  lift (store32 (u32 (sp - 4)) v) ;;;
  set ESP (u32 (sp - 4)).
(** The word at the top of the stack, taken off. *)
Definition pull : A Z :=
  sp <- get ESP ;;
  v <- lift (load32 sp) ;;
  set ESP (u32 (sp + 4)) ;;;
  ret v.

(** EFLAGS, with IF as the kernel state has it. *)
Definition IF_bit : Z := 9.
Definition flags_word (f : regs) (k : kernel) : Z :=
  Z.lor (Z.land (f EFLAGS) (0xFFFFFFFF - 512)) (if cpu_if (k_cpu k) then 512 else 0).
Definition set_if (b : bool) : K unit := if b then enable_interrupts else disable_interrupts.

(** Entry through an interrupt gate to ring 0: from ring 3 the stack is that of the
    TSS and holds the old one; some exceptions push an error code. *)
Definition cpl (f : regs) : Z := f CS mod 4.
Definition enter (error_code : option Z) : A unit :=
  s <- gets id ;;
  let '(f, k) := s in
  (when cpl f =? 3 do
     (set ESP (tss_esp0 (tss (k_gdt k))) ;;;
      set SS (u16 (tss_ss0 (tss (k_gdt k)))) ;;;
      push (f SS) ;;;
      push (f ESP))) ;;;
  push (flags_word f k) ;;;
  push (f CS) ;;;
  push (f EIP) ;;;
  (match error_code with Some e => push e | None => ret tt end) ;;;
  set CS 0x08 ;;;
  lift disable_interrupts.

(** [iret]: a return to ring 3 also restores the stack. *)
Definition iret : A unit :=
  f <- gets fst ;;
  ip <- pull ;;
  cs <- pull ;;
  flags <- pull ;;
  (when cpl f <? cs mod 4 do
     (sp <- pull ;;
      ss <- pull ;;
      set ESP sp ;;;
      set SS (u16 ss))) ;;;
  set EIP ip ;;;
  set CS (u16 cs) ;;;
  set EFLAGS flags ;;;
  lift (set_if (Z.testbit flags IF_bit)).

(** * Instructions *)

Inductive instr :=
| I_push (r : reg)
| I_push_imm (v : Z)
| I_push_mem (disp : Z)             (* push dword [esp + disp] *)
| I_pop (r : reg)
| I_mov_imm (r : reg) (v : Z)
| I_mov_imm16 (r : reg) (v : Z)     (* mov ax, v *)
| I_mov_seg (s r : reg)             (* mov ds, ax *)
| I_mov_mem (r : reg) (disp : Z)    (* mov ebx, [esp + disp] *)
| I_mov_mem16 (r : reg) (disp : Z)  (* mov dx, [esp + disp] *)
| I_mov_mem8 (r : reg) (disp : Z)   (* mov al, [esp + disp] *)
| I_lea (r : reg) (disp : Z)        (* lea eax, [esp + disp] *)
| I_add_esp (n : Z)
| I_cld | I_cli | I_sti
| I_out | I_in                      (* out dx, al; in al, dx *)
| I_int80
| I_iret
| I_call (n : nat) (f : list Z -> K unit).

(** The words at the top of the stack. *)
Fixpoint stack_args (n : nat) (a : Z) : K (list Z) :=
  match n with
  | O => ret []
  | S n' =>
      v <- load32 a ;;
      vs <- stack_args n' (a + 4) ;;
      ret (v :: vs)
  end.

Section Exec.
Context `{Env} `{PollFuel}.
(** What a C function leaves in the registers it may use. *)
Context (junk : reg -> Z).

(** The low 16 or 8 bits of a register. *)
Definition low16 (old v : Z) : Z := old / 65536 * 65536 + u16 v.
Definition low8 (old v : Z) : Z := old / 256 * 256 + u8 v.

Definition DF_bit : Z := 10.

(** A call of a C function with [n] words of arguments on the stack; its own frame is
    below them. *)
Definition call (n : nat) (f : list Z -> K unit) : A unit :=
  sp <- get ESP ;;
  args <- lift (stack_args n sp) ;;
  lift (f args) ;;;
  set EAX (junk EAX) ;;;
  set ECX (junk ECX) ;;;
  set EDX (junk EDX).

Definition exec_pop (r : reg) : A unit :=
  v <- pull ;;
  set r (if is_segment r then u16 v else v).

Section Step.
Context (int80 : A unit).

Definition step (i : instr) : A unit :=
  match i with
  | I_push r => v <- get r ;; push v
  | I_push_imm v => push v
  | I_push_mem disp => sp <- get ESP ;; v <- lift (load32 (u32 (sp + disp))) ;; push v
  | I_pop r => exec_pop r
  | I_mov_imm r v => set r v
  | I_mov_imm16 r v => old <- get r ;; set r (low16 old v)
  | I_mov_seg s r => v <- get r ;; set s (u16 v)
  | I_mov_mem r disp => sp <- get ESP ;; v <- lift (load32 (u32 (sp + disp))) ;; set r v
  | I_mov_mem16 r disp => sp <- get ESP ;; v <- lift (load32 (u32 (sp + disp))) ;; old <- get r ;; set r (low16 old v)
  | I_mov_mem8 r disp => sp <- get ESP ;; v <- lift (load32 (u32 (sp + disp))) ;; old <- get r ;; set r (low8 old v)
  | I_lea r disp => sp <- get ESP ;; set r (u32 (sp + disp))
  | I_add_esp n => sp <- get ESP ;; set ESP (u32 (sp + n))
  | I_cld => fl <- get EFLAGS ;; set EFLAGS (Z.clearbit fl DF_bit)
  | I_cli => lift disable_interrupts
  | I_sti => lift enable_interrupts
  | I_out => port <- get EDX ;; v <- get EAX ;; lift (outb port v)
  | I_in => port <- get EDX ;; v <- lift (inb (u16 port)) ;; old <- get EAX ;; set EAX (low8 old v)
  | I_int80 => int80
  | I_iret => iret
  | I_call n f => call n f
  end.

Fixpoint exec (p : list instr) : A unit :=
  match p with
  | [] => ret tt
  | i :: p' => step i ;;; exec p'
  end.
End Step.

(** * The routines *)

(** [Int128Handler] of kernel/syscall.s. *)
Definition Int128Handler : list instr :=
  [ I_push EAX; I_push GS; I_push FS; I_push ES; I_push DS; I_push_imm (u32 (- ENOSYS));
    I_push EBP; I_push EDI; I_push ESI; I_push EDX; I_push ECX; I_push EBX;
    I_mov_imm16 EAX 0x10; I_mov_seg DS EAX; I_mov_seg ES EAX; I_cld;
    I_push ESP; I_call 1 (fun args => do_syscall_in_C (nth 0 args 0)); I_add_esp 4;
    I_pop EBX; I_pop ECX; I_pop EDX; I_pop ESI; I_pop EDI; I_pop EBP; I_add_esp 4;
    I_pop DS; I_pop ES; I_pop FS; I_pop GS; I_pop EAX; I_iret ].

(** [common_interrupt_handler] of isr.s, with the stub that jumps to it. *)
Definition common_interrupt_handler : list instr :=
  [ I_push EAX; I_push ECX; I_push EDX; I_push EBX; I_push ESP; I_push EBP; I_push ESI; I_push EDI;
    I_push_mem 32; I_lea EAX 40; I_push EAX; I_lea EAX 8; I_push EAX;
    I_call 3 (fun args => interrupt_handler (nth 2 args 0)); I_add_esp 12;
    I_pop EDI; I_pop ESI; I_pop EBP; I_add_esp 4; I_pop EBX; I_pop EDX; I_pop ECX; I_pop EAX;
    I_add_esp 8; I_iret ].

Definition error_code_vectors : list Z := [8; 10; 11; 12; 13; 14; 17].
Definition isr_stub (v : Z) : list instr :=
  (if bool_decide (v ∈ error_code_vectors) then [] else [I_push_imm 0]) ++ [I_push_imm v] ++ common_interrupt_handler.

(** No routine entered through a gate raises [int 0x80] itself. *)
Definition run_int80 : A unit := enter None ;;; exec fault Int128Handler.
Definition run_interrupt (v : Z) (error_code : option Z) : A unit :=
  lift (modify (fun k => set_trace (Irq v :: k_trace k) k)) ;;;
  enter error_code ;;;
  exec fault (isr_stub v).

(** The user stubs, up to their [ret]: syscall.s of the C library. *)
Definition sys_exit_stub : list instr :=
  [ I_push EBX; I_mov_imm EAX 1; I_mov_mem EBX 8; I_int80; I_pop EBX ].
Definition sys_read_stub : list instr :=
  [ I_push EBX; I_mov_imm EAX 3; I_mov_mem EBX 8; I_mov_mem ECX 12; I_mov_mem EDX 16; I_int80; I_pop EBX ].
Definition sys_write_stub : list instr :=
  [ I_push EBX; I_mov_imm EAX 4; I_mov_mem EBX 8; I_mov_mem ECX 12; I_mov_mem EDX 16; I_int80; I_pop EBX ].
Definition sys_clear_stub : list instr := [ I_mov_imm EAX 5; I_int80 ].
Definition run_user (p : list instr) : A unit := exec run_int80 p.

(** [enter_user_mode] of arch/x86/boot/loader.s. *)
Definition enter_user_mode_s : list instr :=
  [ I_mov_mem EAX 4; I_mov_mem EBX 8;
    I_mov_imm16 ECX 0x23; I_mov_seg DS ECX; I_mov_seg ES ECX; I_mov_seg FS ECX; I_mov_seg GS ECX;
    I_push_imm 0x23; I_push EBX; I_push_imm 0x202; I_push_imm 0x1B; I_push EAX; I_iret ].

(** io.s, up to [ret]. *)
Definition outb_s : list instr := [ I_mov_mem16 EDX 4; I_mov_mem8 EAX 8; I_out ].
Definition inb_s : list instr := [ I_mov_mem16 EDX 4; I_in ].
Definition enable_interrupts_s : list instr := [ I_sti ].
Definition disable_interrupts_s : list instr := [ I_cli ].
End Exec.
