(* ===== verification/AsmFacts.v ===== *)
(** Symbolic execution of the routines: what pushes leave on the stack and what pops
    take from it. *)
From S2P Require Import Prelude State Machine Framebuffer FramebufferFacts Isr Keyboard Serial Pic Interrupt Syscall Asm.

(** * Words in memory *)

(** [ws] are the words from [a] up. *)
Definition words_at (m : gmap Z Z) (a : Z) (ws : list Z) : Prop :=
  forall i w, ws !! i = Some w -> word_at m (a + 4 * Z.of_nat i) = w.

Lemma words_at_nil m a : words_at m a [].
Proof. by intros i w Hi. Qed.

Lemma words_at_cons m a w ws : words_at m a (w :: ws) <-> word_at m a = w /\ words_at m (a + 4) ws.
Proof.
  split.
  - intros Hw. split; [by rewrite <- (Hw 0%nat w eq_refl), Z.add_0_r|]. intros i x Hi. rewrite <- (Hw (S i) x Hi). f_equal. lia.
  - intros [H1 H2] [|i] x Hi; [cbn in Hi; simplify_eq; by rewrite Z.add_0_r|]. rewrite <- (H2 i x Hi). f_equal. lia.
Qed.

Lemma words_at_app m a us ws :
  words_at m a (us ++ ws) <-> words_at m a us /\ words_at m (a + 4 * Z.of_nat (length us)) ws.
Proof.
  revert a. induction us as [|u us IH]; intros a; cbn [app length].
  - rewrite Z.add_0_r. split; [|tauto]. intros H. split; [apply words_at_nil|done].
  - rewrite !words_at_cons, IH. replace (a + 4 + 4 * Z.of_nat (length us)) with (a + 4 * Z.of_nat (S (length us))) by lia. tauto.
Qed.

Lemma words_at_ext m m' a ws :
  (forall x, a <= x < a + 4 * Z.of_nat (length ws) -> m' !! x = m !! x) -> words_at m a ws -> words_at m' a ws.
Proof.
  intros Hm Hw i w Hi. rewrite <- (Hw i w Hi). pose proof (lookup_lt_Some _ _ _ Hi). apply word_at_ext.
  intros j Hj. apply Hm. lia.
Qed.

(** One word of a structure was changed. *)
Lemma words_at_update m m' a ws j :
  words_at m a ws ->
  (forall x, a <= x < a + 4 * Z.of_nat (length ws) -> ~ a + 4 * Z.of_nat j <= x < a + 4 * Z.of_nat j + 4 -> m' !! x = m !! x) ->
  words_at m' a (<[j := word_at m' (a + 4 * Z.of_nat j)]> ws).
Proof.
  intros Hw Hm i w Hi. pose proof (lookup_lt_Some _ _ _ Hi) as Hlt. rewrite length_insert in Hlt.
  destruct (decide (i = j)) as [->|Hne].
  - rewrite list_lookup_insert_eq in Hi by done. congruence.
  - rewrite list_lookup_insert_ne in Hi by done. rewrite <- (Hw i w Hi). apply word_at_ext. intros x Hx. apply Hm; lia.
Qed.

(** * The stack during a routine

    [stack f k top ws s]: since the registers were [f], the memory [k_mem k] and the
    stack pointer [top], the words [ws] have been pushed and nothing else changed. *)
Record stack (f : regs) (k : kernel) (top : Z) (ws : list Z) (s : regs * kernel) : Prop := Stack {
  st_esp : fst s ESP = top - 4 * Z.of_nat (length ws);
  st_regs : forall r, r <> ESP -> fst s r = f r;
  st_kernel : snd s = set_mem (k_mem (snd s)) k;
  st_words : words_at (k_mem (snd s)) (top - 4 * Z.of_nat (length ws)) ws;
  st_else : only_differ (k_mem k) (k_mem (snd s)) (top - 4 * Z.of_nat (length ws)) (4 * Z.of_nat (length ws));
  st_mapped : forall a n, mapped (k_mem k) a n -> mapped (k_mem (snd s)) a n
}.

(** Room for [n] words below [top]. *)
Definition room (k : kernel) (top : Z) (n : nat) : Prop :=
  mapped (k_mem k) (top - 4 * Z.of_nat n) (4 * Z.of_nat n) /\ 0 <= top - 4 * Z.of_nat n /\ top < 4294967296.

Lemma wp_lift {S T X} (m : M T X) Q (f : S) (k : T) : wp m (fun x k' => Q x (f, k')) k -> wp (lift m) Q (f, k).
Proof. intros (x & k' & E & HQ). exists x, (f, k'). unfold lift. cbn [snd fst]. by rewrite E. Qed.

Lemma stack_nil f k : stack f k (f ESP) [] (f, k).
Proof.
  split; cbn [fst snd length]; [lia|done|by destruct k|apply words_at_nil|by intros x Hx|done].
Qed.

Lemma push_wp f k top ws s v n :
  stack f k top ws s -> room k top n -> (length ws < n)%nat -> is_u32 v ->
  wp (push v) (fun _ s' => stack f k top (v :: ws) s' /\ forall r, r <> ESP -> fst s' r = fst s r) s.
Proof.
  intros [He Hr Hk Hw Hd Hm] (Hmap & Hlo & Hhi) Hn Hv. destruct s as [g k1]. cbn [fst snd] in *.
  set (sp := top - 4 * Z.of_nat (length ws)) in *. unfold push, get, set. wp_steps. cbn [fst]. rewrite He.
  rewrite u32_small by word_solve.
  assert (mapped (k_mem k1) (sp - 4) 4) as Hmp by (apply Hm, (mapped_sub _ _ _ _ _ Hmap); lia).
  apply wp_lift. eapply wp_eq; [apply store32_eq; [done|lia|lia]|]. wp_steps. cbn [fst snd k_mem set_mem].
  assert (top - 4 * Z.of_nat (length (v :: ws)) = sp - 4) as Hsp by (cbn [length]; lia).
  split; [|intros r Hne; cbn [fst]; unfold upd; by rewrite decide_False].
  constructor; rewrite ?Hsp; cbn [fst snd k_mem set_mem].
  - unfold upd. by rewrite decide_True.
  - intros r Hne. unfold upd. rewrite decide_False by done. by apply Hr.
  - by rewrite Hk.
  - apply words_at_cons. split; [by apply word_at_put32|]. replace (sp - 4 + 4) with sp by lia.
    eapply words_at_ext; [|done]. intros x Hx. apply put32_lookup_ne. lia.
  - intros x Hx. cbn [length] in Hx. rewrite put32_lookup_ne by lia. apply Hd. lia.
  - intros a m Ha. by apply put32_mapped, Hm.
Qed.

(** Another register is assigned. *)
Lemma upd_eq r v f : upd r v f r = v.
Proof. unfold upd. by rewrite decide_True. Qed.
Lemma upd_ne r x v f : x <> r -> upd r v f x = f x.
Proof. intros Hx. unfold upd. by rewrite decide_False. Qed.

Lemma stack_set f k top ws g k1 r v :
  r <> ESP -> stack f k top ws (g, k1) -> stack (upd r v f) k top ws (upd r v g, k1).
Proof.
  intros Hne []. constructor; cbn [fst snd] in *; try done; [by rewrite upd_ne|].
  intros x Hx. unfold upd. case_decide; [done|auto].
Qed.

Section Steps.
Context `{Env} `{PollFuel} (junk : reg -> Z) (i80 : A unit).
Context (k : kernel) (top : Z) (n : nat) (Hroom : room k top n).
Implicit Types (f : regs) (ws : list Z) (s : regs * kernel) (p : list instr) (Q : unit -> regs * kernel -> Prop).
Abbreviation run p := (exec junk i80 p).

Lemma exec_push r p Q f ws s :
  stack f k top ws s -> (length ws < n)%nat -> r <> ESP -> is_u32 (f r) ->
  (forall s', stack f k top (f r :: ws) s' -> wp (run p) Q s') -> wp (run (I_push r :: p)) Q s.
Proof.
  intros Hs Hn Hr Hv Hp. cbn [exec step]. apply wp_bind. unfold get. wp_steps. rewrite (st_regs _ _ _ _ _ Hs r Hr).
  eapply wp_mono; [by eapply push_wp|]. intros [] s' [Hs' _]. by apply Hp.
Qed.

Lemma top_small ws : (length ws < n)%nat -> is_u32 (top - 4 * Z.of_nat (length ws)) \/ ws = [].
Proof. intros Hn. destruct Hroom as (_ & Hlo & Hhi). destruct ws; [by right|left]. cbn [length] in *. word_solve. Qed.

Lemma exec_push_esp p Q f ws s :
  stack f k top ws s -> (length ws < n)%nat -> ws <> [] ->
  (forall s', stack f k top (top - 4 * Z.of_nat (length ws) :: ws) s' -> wp (run p) Q s') -> wp (run (I_push ESP :: p)) Q s.
Proof.
  intros Hs Hn Hne Hp. cbn [exec step]. apply wp_bind. unfold get. wp_steps. rewrite (st_esp _ _ _ _ _ Hs).
  destruct (top_small ws Hn) as [Hv|]; [|done]. eapply wp_mono; [by eapply push_wp|]. intros [] s' [Hs' _]. by apply Hp.
Qed.

Lemma exec_push_imm v p Q f ws s :
  stack f k top ws s -> (length ws < n)%nat -> is_u32 v ->
  (forall s', stack f k top (v :: ws) s' -> wp (run p) Q s') -> wp (run (I_push_imm v :: p)) Q s.
Proof.
  intros Hs Hn Hv Hp. cbn [exec step]. apply wp_bind. eapply wp_mono; [by eapply push_wp|]. intros [] s' [Hs' _]. by apply Hp.
Qed.

(** A word that was pushed is read back. *)
Lemma stack_load f ws s i w :
  stack f k top ws s -> (length ws <= n)%nat -> ws !! i = Some w ->
  load32 (top - 4 * Z.of_nat (length ws) + 4 * Z.of_nat i) (snd s) = Ok (w, snd s).
Proof.
  intros [He Hr Hk Hw Hd Hm] Hn Hi. destruct Hroom as (Hmap & Hlo & Hhi). pose proof (lookup_lt_Some _ _ _ Hi) as Hlt.
  rewrite load32_eq; [by rewrite (Hw i w Hi)| |lia|lia]. apply Hm, (mapped_sub _ _ _ _ _ Hmap); lia.
Qed.

Lemma exec_push_mem disp i w p Q f ws s :
  stack f k top ws s -> (length ws < n)%nat -> ws !! i = Some w -> disp = 4 * Z.of_nat i -> is_u32 w ->
  (forall s', stack f k top (w :: ws) s' -> wp (run p) Q s') -> wp (run (I_push_mem disp :: p)) Q s.
Proof.
  intros Hs Hn Hi -> Hw Hp. cbn [exec step]. apply wp_bind. unfold get. wp_steps. rewrite (st_esp _ _ _ _ _ Hs).
  pose proof (lookup_lt_Some _ _ _ Hi) as Hlt. destruct Hroom as (_ & Hlo & Hhi). rewrite u32_small by word_solve.
  destruct s as [g k1]. apply wp_lift.
  eapply wp_eq; [apply (stack_load f ws (g, k1) i w Hs); [lia|done]|]. cbn [snd].
  eapply wp_mono; [by eapply push_wp|]. intros [] s' [Hs' _]. by apply Hp.
Qed.

Lemma exec_lea r disp p Q f ws s :
  stack f k top ws s -> r <> ESP ->
  (forall s', stack (upd r (u32 (top - 4 * Z.of_nat (length ws) + disp)) f) k top ws s' -> wp (run p) Q s') ->
  wp (run (I_lea r disp :: p)) Q s.
Proof.
  intros Hs Hr Hp. cbn [exec step]. apply wp_bind. unfold get, set. wp_steps. rewrite (st_esp _ _ _ _ _ Hs).
  apply Hp. destruct s. by apply stack_set.
Qed.

Lemma exec_mov_imm16 r v p Q f ws s :
  stack f k top ws s -> r <> ESP ->
  (forall s', stack (upd r (low16 (f r) v) f) k top ws s' -> wp (run p) Q s') -> wp (run (I_mov_imm16 r v :: p)) Q s.
Proof.
  intros Hs Hr Hp. cbn [exec step]. apply wp_bind. unfold get, set. wp_steps. rewrite (st_regs _ _ _ _ _ Hs) by done.
  apply Hp. destruct s. by apply stack_set.
Qed.

Lemma exec_mov_seg d r p Q f ws s :
  stack f k top ws s -> d <> ESP -> r <> ESP ->
  (forall s', stack (upd d (u16 (f r)) f) k top ws s' -> wp (run p) Q s') -> wp (run (I_mov_seg d r :: p)) Q s.
Proof.
  intros Hs Hd Hr Hp. cbn [exec step]. apply wp_bind. unfold get, set. wp_steps. rewrite (st_regs _ _ _ _ _ Hs) by done.
  apply Hp. destruct s. by apply stack_set.
Qed.

Lemma exec_mov_imm r v p Q f ws s :
  stack f k top ws s -> r <> ESP -> (forall s', stack (upd r v f) k top ws s' -> wp (run p) Q s') -> wp (run (I_mov_imm r v :: p)) Q s.
Proof. intros Hs Hr Hp. cbn [exec step]. unfold set. wp_steps. apply Hp. destruct s. by apply stack_set. Qed.

Lemma exec_int80 p Q s : wp i80 (fun _ s' => wp (run p) Q s') s -> wp (run (I_int80 :: p)) Q s.
Proof. intros Hp. cbn [exec step]. by apply wp_bind. Qed.

(** An argument above the words pushed. *)
Lemma exec_mov_mem r disp v p Q f ws s :
  stack f k top ws s -> r <> ESP -> 4 * Z.of_nat (length ws) <= disp ->
  let a := top - 4 * Z.of_nat (length ws) + disp in
  mapped (k_mem k) a 4 -> 0 <= a -> a + 4 < 4294967296 -> word_at (k_mem k) a = v ->
  (forall s', stack (upd r v f) k top ws s' -> wp (run p) Q s') -> wp (run (I_mov_mem r disp :: p)) Q s.
Proof.
  intros Hs Hr Hd a Hm Ha1 Ha2 Hv Hp. pose proof Hs as [He _ _ _ Hd' Hm']. cbn [exec step]. apply wp_bind. unfold get, set. wp_steps.
  rewrite He. fold a. rewrite u32_small by word_solve. destruct s as [g k1]. cbn [fst snd] in *.
  apply wp_lift. eapply wp_eq; [apply load32_eq; [by apply Hm'|lia|lia]|]. wp_steps. cbn [fst snd].
  replace (word_at (k_mem k1) a) with v; [by apply Hp, stack_set|]. rewrite <- Hv. symmetry. apply word_at_ext.
  intros i Hi. apply Hd'. unfold a. lia.
Qed.

Lemma exec_cld p Q f ws s :
  stack f k top ws s ->
  (forall s', stack (upd EFLAGS (Z.clearbit (f EFLAGS) DF_bit) f) k top ws s' -> wp (run p) Q s') -> wp (run (I_cld :: p)) Q s.
Proof.
  intros Hs Hp. cbn [exec step]. apply wp_bind. unfold get, set. wp_steps. rewrite (st_regs _ _ _ _ _ Hs) by done.
  apply Hp. destruct s. by apply stack_set.
Qed.
End Steps.

(** * Taking words off the stack

    [frame g k sp ws s]: the stack pointer is [sp], where the words [ws] are; the
    other registers are [g] and the kernel state is [k]. *)
Record frame (g : regs) (k : kernel) (sp : Z) (ws : list Z) (s : regs * kernel) : Prop := Frame {
  fr_esp : fst s ESP = sp;
  fr_regs : forall r, r <> ESP -> fst s r = g r;
  fr_kernel : snd s = k;
  fr_words : words_at (k_mem k) sp ws;
  fr_mapped : mapped (k_mem k) sp (4 * Z.of_nat (length ws));
  fr_range : 0 <= sp /\ sp + 4 * Z.of_nat (length ws) < 4294967296
}.

Lemma frame_set g k sp ws h k1 r v :
  r <> ESP -> frame g k sp ws (h, k1) -> frame (upd r v g) k sp ws (upd r v h, k1).
Proof.
  intros Hne []. constructor; cbn [fst snd] in *; try done; [by rewrite upd_ne|].
  intros x Hx. unfold upd. case_decide; [done|auto].
Qed.

Lemma pull_wp g k sp w ws s :
  frame g k sp (w :: ws) s -> wp pull (fun v s' => v = w /\ frame g k (sp + 4) ws s') s.
Proof.
  intros [He Hr Hk Hw Hm Hb]. destruct s as [h k1]. cbn [fst snd length] in *. subst k1.
  apply words_at_cons in Hw as [Hw Hws]. unfold pull, get, set. wp_steps. cbn [fst]. rewrite He.
  apply wp_lift. eapply wp_eq; [apply load32_eq; [apply (mapped_sub _ _ _ _ _ Hm); lia|lia|lia]|]. wp_steps.
  split; [done|]. rewrite u32_small by word_solve. constructor; cbn [fst snd]; try done.
  - intros r Hne. rewrite upd_ne by done. auto.
  - apply (mapped_sub _ _ _ _ _ Hm); lia.
  - lia.
Qed.

Section Pops.
Context `{Env} `{PollFuel} (junk : reg -> Z) (i80 : A unit).
Context (k : kernel).
Implicit Types (g : regs) (ws : list Z) (s : regs * kernel) (p : list instr) (Q : unit -> regs * kernel -> Prop).
Abbreviation run p := (exec junk i80 p).

Definition popped (r : reg) (w : Z) : Z := if is_segment r then u16 w else w.

Lemma exec_pop_step r p Q g sp w ws s :
  frame g k sp (w :: ws) s -> r <> ESP ->
  (forall s', frame (upd r (popped r w) g) k (sp + 4) ws s' -> wp (run p) Q s') -> wp (run (I_pop r :: p)) Q s.
Proof.
  intros Hs Hr Hp. cbn [exec step]. unfold exec_pop. apply wp_bind, wp_bind. eapply wp_mono; [by eapply pull_wp|].
  intros v s' [-> Hs']. unfold set. wp_steps. apply Hp. destruct s'. by apply frame_set.
Qed.

Lemma exec_add_esp us p Q g sp ws s m :
  frame g k sp (us ++ ws) s -> m = 4 * Z.of_nat (length us) ->
  (forall s', frame g k (sp + m) ws s' -> wp (run p) Q s') -> wp (run (I_add_esp m :: p)) Q s.
Proof.
  intros [He Hr Hk Hw Hm Hb] -> Hp. destruct s as [h k1]. cbn [fst snd] in *. subst k1. rewrite length_app in Hm, Hb.
  cbn [exec step]. apply wp_bind. unfold get, set. wp_steps. cbn [fst snd]. rewrite He, u32_small by word_solve. apply Hp.
  apply words_at_app in Hw as [_ Hw]. constructor; cbn [fst snd]; try done.
  - intros r Hne. rewrite upd_ne by done. auto.
  - apply (mapped_sub _ _ _ _ _ Hm); lia.
  - lia.
Qed.

(** A call; [us] are its arguments. *)
Lemma stack_args_eq us ws sp k1 :
  words_at (k_mem k1) sp (us ++ ws) -> mapped (k_mem k1) sp (4 * Z.of_nat (length us)) ->
  0 <= sp -> sp + 4 * Z.of_nat (length us) <= 4294967296 -> stack_args (length us) sp k1 = Ok (us, k1).
Proof.
  revert sp. induction us as [|u us IH]; intros sp Hw Hm Hlo Hhi; [done|]. cbn [length app] in *.
  apply words_at_cons in Hw as [Hw Hws]. cbn [stack_args].
  rewrite (bind_ok _ _ _ _ _ (load32_eq k1 sp ltac:(apply (mapped_sub _ _ _ _ _ Hm); lia) Hlo ltac:(lia))).
  rewrite (bind_ok _ _ _ _ _ (IH (sp + 4) Hws ltac:(apply (mapped_sub _ _ _ _ _ Hm); lia) ltac:(lia) ltac:(lia))). by rewrite Hw.
Qed.

Definition clobbered (g : regs) : regs := upd EDX (junk EDX) (upd ECX (junk ECX) (upd EAX (junk EAX) g)).

Lemma exec_call k0 top n us ws vs f (fn : list Z -> K unit) p Q s :
  stack f k0 top (us ++ ws) s -> room k0 top n -> (length (us ++ ws) <= n)%nat ->
  fn us (snd s) = Ok (tt, k) ->
  mapped (k_mem k) (top - 4 * Z.of_nat (length (us ++ ws))) (4 * Z.of_nat (length (us ++ ws))) ->
  length vs = length (us ++ ws) -> words_at (k_mem k) (top - 4 * Z.of_nat (length (us ++ ws))) vs ->
  (forall s', frame (clobbered f) k (top - 4 * Z.of_nat (length (us ++ ws))) vs s' -> wp (run p) Q s') ->
  wp (run (I_call (length us) fn :: p)) Q s.
Proof.
  intros [He Hr Hk Hw Hd Hm] (Hmap & Hlo & Hhi) Hn Hfn Hkm Hvl Hvs Hp. destruct s as [h k1]. cbn [fst snd] in *.
  set (sp := top - 4 * Z.of_nat (length (us ++ ws))) in *. pose proof (length_app us ws) as Hl.
  cbn [exec step]. unfold call, get, set. apply wp_bind. wp_steps. cbn [fst]. rewrite He. apply wp_lift.
  eapply wp_eq; [apply (stack_args_eq us ws sp k1 Hw); [apply Hm, (mapped_sub _ _ _ _ _ Hmap); lia|lia|lia]|].
  wp_steps. apply wp_lift. eapply wp_eq; [exact Hfn|]. wp_steps. cbn [fst snd]. apply Hp.
  constructor; cbn [fst snd]; try done.
  - intros r Hne. unfold clobbered, upd. repeat case_decide; auto.
  - by rewrite Hvl.
  - lia.
Qed.
End Pops.

(** * Entry and return *)

Definition with_if (b : bool) (k : kernel) : kernel := set_cpu (set_cpu_if b (k_cpu k)) k.

Lemma flags_typed f k : is_u32 (flags_word f k).
Proof.
  apply lor_u32; [|by destruct (cpu_if _)]. apply (land_range 32); [lia|]. split; [done|]. reflexivity.
Qed.

Lemma flags_if f k : Z.testbit (flags_word f k) IF_bit = cpu_if (k_cpu k).
Proof.
  unfold flags_word, IF_bit. rewrite Z.lor_spec, Z.land_spec. change (Z.testbit (0xFFFFFFFF - 512) 9) with false.
  rewrite andb_false_r. by destruct (cpu_if _).
Qed.

Definition code_words (code : option Z) : list Z := match code with Some e => [e] | None => [] end.

(** The stack an interrupt goes to, the words the CPU pushes on it and the registers
    with which the routine starts. *)
Definition entry_top (f : regs) (k : kernel) : Z := if cpl f =? 3 then tss_esp0 (tss (k_gdt k)) else f ESP.
Definition old_stack (f : regs) : list Z := if cpl f =? 3 then [f ESP; f SS] else [].
Definition cpu_frame (f : regs) (k : kernel) : list Z := [f EIP; f CS; flags_word f k] ++ old_stack f.
Definition entry_regs (f : regs) (k : kernel) : regs :=
  upd CS 0x08 (if cpl f =? 3 then upd SS (u16 (tss_ss0 (tss (k_gdt k)))) f else f).

Lemma stack_ext f f' k top ws s : (forall r, r <> ESP -> f' r = f r) -> stack f k top ws s -> stack f' k top ws s.
Proof. intros Hf []. constructor; try done. intros r Hr. rewrite Hf by done. auto. Qed.

Lemma stack_with_if f k top ws g k1 b : stack f k top ws (g, k1) -> stack f (with_if b k) top ws (g, with_if b k1).
Proof. intros []. cbn [fst snd] in *. constructor; cbn [fst snd]; try done. by rewrite st_kernel0. Qed.

Lemma seg_u32 f r : regs_typed f -> is_u32 (f r).
Proof. intros Hf. specialize (Hf r). destruct (is_segment r); [word_solve|done]. Qed.

(** Pushing a list, the last word first. *)
Lemma pushes_wp f k top ws s v n Q :
  stack f k top ws s -> room k top n -> (length ws < n)%nat -> is_u32 v ->
  (forall s', stack f k top (v :: ws) s' -> Q tt s') -> wp (push v) Q s.
Proof. intros Hs Hr Hn Hv HQ. eapply wp_mono; [by eapply push_wp|]. intros [] s' [Hs' _]. by apply HQ. Qed.

Lemma enter_wp f k n code :
  regs_typed f -> room k (entry_top f k) n -> (6 <= n)%nat -> (match code with Some e => is_u32 e | None => True end) ->
  wp (enter code) (fun _ s => stack (entry_regs f k) (with_if false k) (entry_top f k)
    (code_words code ++ cpu_frame f k) s) (f, k).
Proof.
  intros Hf Hroom Hn Hcode. unfold enter. wp_steps. cbn [id]. apply wp_bind.
  assert (wp (when cpl f =? 3 do (set ESP (tss_esp0 (tss (k_gdt k))) ;;; set SS (u16 (tss_ss0 (tss (k_gdt k)))) ;;; push (f SS) ;;; push (f ESP)))
    (fun _ s => stack (if cpl f =? 3 then upd SS (u16 (tss_ss0 (tss (k_gdt k)))) f else f) k (entry_top f k) (old_stack f) s) (f, k)) as H1.
  { unfold entry_top, old_stack in *. destruct (cpl f =? 3); [|apply wp_ret, stack_nil]. unfold set. wp_steps. cbn [fst snd].
    set (f1 := upd SS _ (upd ESP _ f)).
    assert (stack (upd SS (u16 (tss_ss0 (tss (k_gdt k)))) f) k (tss_esp0 (tss (k_gdt k))) [] (f1, k)) as Hs.
    { apply (stack_ext f1); [|exact (stack_nil f1 k)]. intros r Hr. unfold f1, upd. by repeat case_decide. }
    eapply pushes_wp; [exact Hs|done|simpl; lia|by apply seg_u32|]. intros s2 Hs2.
    eapply pushes_wp; [exact Hs2|done|simpl; lia|by apply seg_u32|]. by intros s3 Hs3. }
  assert (length (old_stack f) <= 2)%nat as Hlen by (unfold old_stack; destruct (cpl f =? 3); simpl; lia).
  eapply wp_mono; [exact H1|]. intros [] s1 Hs1. cbv beta in Hs1.
  apply wp_bind. eapply pushes_wp; [exact Hs1|done|lia|apply flags_typed|]. intros s2 Hs2.
  apply wp_bind. eapply pushes_wp; [exact Hs2|done|simpl; lia|by apply seg_u32|]. intros s3 Hs3.
  apply wp_bind. eapply pushes_wp; [exact Hs3|done|simpl; lia|by apply seg_u32|]. intros s4 Hs4.
  apply wp_bind.
  assert (wp (match code with Some e => push e | None => ret tt end) (fun _ s => stack (if cpl f =? 3 then upd SS (u16 (tss_ss0 (tss (k_gdt k)))) f else f)
    k (entry_top f k) (code_words code ++ cpu_frame f k) s) s4) as H5.
  { destruct code as [e|]; [|by apply wp_ret]. eapply pushes_wp; [exact Hs4|done|simpl; lia|done|]. by intros s5 Hs5. }
  eapply wp_mono; [exact H5|]. intros [] [g5 k5] Hs5. unfold set. wp_steps. apply wp_lift. cbn [fst snd].
  unfold disable_interrupts. apply wp_modify. apply (stack_with_if _ k). apply stack_set; [done|exact Hs5].
Qed.

Lemma set_if_eq b k : set_if b k = Ok (tt, with_if b k).
Proof. by destruct b. Qed.

(** Back to ring 3, and back to ring 0. *)
Lemma iret_user_wp g k sp ip cs fl sp' ss s :
  frame g k sp [ip; cs; fl; sp'; ss] s -> cpl g = 0 -> cs mod 4 = 3 ->
  wp iret (fun _ s' => (forall r, fst s' r = upd EFLAGS fl (upd CS (u16 cs) (upd EIP ip (upd SS (u16 ss) (upd ESP sp' g)))) r) /\
    snd s' = with_if (Z.testbit fl IF_bit) k) s.
Proof.
  intros Hs Hg Hcs. unfold iret. wp_steps.
  assert (cpl (fst s) = 0) as Hc by (unfold cpl in *; by rewrite (fr_regs _ _ _ _ _ Hs)).
  eapply wp_mono; [by eapply pull_wp|]. intros v1 s1 [-> Hs1]. wp_steps.
  eapply wp_mono; [by eapply pull_wp|]. intros v2 s2 [-> Hs2]. wp_steps.
  eapply wp_mono; [by eapply pull_wp|]. intros v3 s3 [-> Hs3]. wp_steps.
  rewrite Hc, Hcs. cbn [Z.ltb Z.compare]. wp_steps.
  eapply wp_mono; [by eapply pull_wp|]. intros v4 s4 [-> Hs4]. wp_steps.
  eapply wp_mono; [by eapply pull_wp|]. intros v5 [h5 k5] [-> Hs5]. unfold set. wp_steps. apply wp_lift. cbn [fst snd].
  eapply wp_eq; [apply set_if_eq|]. cbn [fst snd]. rewrite <- (fr_kernel _ _ _ _ _ Hs5). split; [|done].
  intros r. unfold upd. repeat case_decide; try done. by apply (fr_regs _ _ _ _ _ Hs5).
Qed.

Lemma iret_kernel_wp g k sp ip cs fl s :
  frame g k sp [ip; cs; fl] s -> cpl g = 0 -> cs mod 4 = 0 ->
  wp iret (fun _ s' => (forall r, fst s' r = upd EFLAGS fl (upd CS (u16 cs) (upd EIP ip (upd ESP (sp + 12) g))) r) /\
    snd s' = with_if (Z.testbit fl IF_bit) k) s.
Proof.
  intros Hs Hg Hcs. unfold iret. wp_steps.
  assert (cpl (fst s) = 0) as Hc by (unfold cpl in *; by rewrite (fr_regs _ _ _ _ _ Hs)).
  eapply wp_mono; [by eapply pull_wp|]. intros v1 s1 [-> Hs1]. wp_steps.
  eapply wp_mono; [by eapply pull_wp|]. intros v2 s2 [-> Hs2]. wp_steps.
  eapply wp_mono; [by eapply pull_wp|]. intros v3 [h3 k3] [-> Hs3]. wp_steps.
  rewrite Hc, Hcs. cbn [Z.ltb Z.compare]. unfold set. wp_steps. apply wp_lift. cbn [fst snd].
  eapply wp_eq; [apply set_if_eq|]. cbn [fst snd]. rewrite <- (fr_kernel _ _ _ _ _ Hs3). split; [|done].
  pose proof (fr_esp _ _ _ _ _ Hs3) as E. cbn [fst] in E. intros r. destruct (decide (r = ESP)) as [->|Hne].
  - change (h3 ESP = sp + 12). lia.
  - unfold upd. repeat case_decide; try done. by apply (fr_regs _ _ _ _ _ Hs3).
Qed.

(** A program in two parts. *)
Lemma exec_app `{Env} `{PollFuel} junk i80 p q s :
  exec junk i80 (p ++ q) s = (exec junk i80 p ;;; exec junk i80 q) s.
Proof.
  revert s. induction p as [|i p IH]; intros s; [done|]. cbn [app exec]. rewrite <- bind_assoc.
  unfold bind. destruct (step junk i80 i s) as [[x s1]| |]; [|done..]. apply IH.
Qed.

Lemma wp_resume {S X} (m m' : M S X) Q s s' : m s = m' s' -> wp m' Q s' -> wp m Q s.
Proof. intros E (x & t & Hm & HQ). exists x, t. by rewrite E. Qed.

Lemma exec_split `{Env} `{PollFuel} junk i80 n p s :
  exec junk i80 p s = (exec junk i80 (take n p) ;;; exec junk i80 (drop n p)) s.
Proof. rewrite <- exec_app. by rewrite take_drop. Qed.
