(* ===== verification/AsmStubs.v ===== *)
(** The stubs step by step: the frames they build for the C functions, and how the
    registers come back. *)
From S2P Require Import Prelude State Machine Framebuffer FramebufferFacts Isr Keyboard Serial SerialFacts Pic Interrupt InterruptFacts Syscall Asm AsmFacts.

(** * What the C functions see *)

(** [struct pt_regs] of include/kernel/syscall.h. *)
Definition pt_regs (f : regs) (k : kernel) : list Z :=
  [f EBX; f ECX; f EDX; f ESI; f EDI; f EBP; u32 (- ENOSYS); f DS; f ES; f FS; f GS; f EAX;
   f EIP; f CS; flags_word f k; f ESP; f SS].

(** [struct registers] and [struct stack_state] of include/arch/x86/isr.h. *)
Definition struct_registers (f : regs) (esp : Z) : list Z :=
  [f EDI; f ESI; f EBP; esp; f EBX; f EDX; f ECX; f EAX].
Definition struct_stack_state (f : regs) (k : kernel) (error_code : Z) : list Z :=
  [error_code; f EIP; f CS; flags_word f k].

(** The registers with which the program goes on. *)
Definition resumes (f : regs) (k : kernel) (f' : regs) : Prop :=
  forall r, f' r = if decide (r = EFLAGS) then flags_word f k else f r.

Section Stubs.
Context `{Env} `{PollFuel} (junk : reg -> Z).

Lemma entry_general f k r : r <> CS -> r <> SS -> entry_regs f k r = f r.
Proof. intros H1 H2. unfold entry_regs. rewrite upd_ne by done. destruct (cpl f =? 3); [by rewrite upd_ne|done]. Qed.

(** ** The system call entry *)

(** Up to the call of the dispatcher: the frame is built. *)
Lemma int80_entry_wp f k :
  regs_typed f -> cpl f = 3 -> room k (tss_esp0 (tss (k_gdt k))) 18 ->
  let top := tss_esp0 (tss (k_gdt k)) in
  wp (enter None ;;; exec junk fault (take 17 Int128Handler)) (fun _ s => exists g,
    stack g (with_if false k) top ((top - 68) :: pt_regs f k) s /\ g CS = 0x08) (f, k).
Proof.
  intros Hf Hcpl Hroom top. apply wp_bind.
  assert (entry_top f k = top) as Htop by (unfold entry_top; by rewrite Hcpl).
  assert (cpu_frame f k = [f EIP; f CS; flags_word f k; f ESP; f SS]) as Hcf by (unfold cpu_frame, old_stack; by rewrite Hcpl).
  eapply wp_mono; [apply (enter_wp f k 18%nat None Hf); [by rewrite Htop|by apply Nat.leb_le|exact I]|]. cbv beta. rewrite Htop, Hcf. cbn [code_words app].
  intros [] s0 Hs0. pose proof (seg_u32 f) as Hu.
  assert (room (with_if false k) top 18) as Hr by exact Hroom.
  assert (forall r, r <> CS -> r <> SS -> is_u32 (entry_regs f k r)) as Hg by (intros r H1 H2; rewrite entry_general by done; auto).
  assert (entry_regs f k CS = 0x08) as Hcs by apply upd_eq.
  pose proof (entry_general f k) as He. set (g := entry_regs f k) in *. clearbody g.
  cbn [take Int128Handler].
  do 5 (eapply exec_push; [exact Hr|eassumption|cbn [length]; lia|done|by apply Hg|intros ? ?]).
  eapply exec_push_imm; [exact Hr|eassumption|cbn [length]; lia|by apply u32_range|intros ? ?].
  do 6 (eapply exec_push; [exact Hr|eassumption|cbn [length]; lia|done|by apply Hg|intros ? ?]).
  eapply exec_mov_imm16; [eassumption|done|intros ? ?].
  do 2 (eapply exec_mov_seg; [eassumption|done|done|intros ? ?]).
  eapply exec_cld; [eassumption|intros ? ?].
  eapply exec_push_esp; [exact Hr|eassumption|cbn [length]; lia|done|intros s Hs].
  apply wp_ret. rewrite !He in Hs by done. eexists. split; [exact Hs|exact Hcs].
Qed.

(** From the call on: the registers come back. *)
Lemma int80_return_wp f k g k2 s :
  regs_typed f -> cpl f = 3 -> room k (tss_esp0 (tss (k_gdt k))) 18 ->
  let top := tss_esp0 (tss (k_gdt k)) in let p := top - 68 in
  stack g (with_if false k) top (p :: pt_regs f k) s -> g CS = 0x08 ->
  do_syscall_in_C p (snd s) = Ok (tt, k2) -> mapped (k_mem k2) (p - 4) 72 ->
  (forall x, p <= x < p + 68 -> ~ p + pt_eax <= x < p + pt_eax + 4 -> k_mem k2 !! x = k_mem (snd s) !! x) ->
  wp (exec junk fault (drop 17 Int128Handler)) (fun _ s' =>
    resumes (upd EAX (word_at (k_mem k2) (p + pt_eax)) f) k (fst s') /\ snd s' = with_if (cpu_if (k_cpu k)) k2) s.
Proof.
  intros Hf Hcpl Hroom top p Hs Hcs Hrun Hmap Hkeep. cbn [drop Int128Handler].
  set (v := word_at (k_mem k2) (p + pt_eax)).
  assert (words_at (k_mem k2) p (<[11%nat := v]> (pt_regs f k))) as Hw.
  { apply (words_at_update (k_mem (snd s))); [|exact Hkeep].
    destruct Hs as [_ _ _ Hw _ _]. apply words_at_cons in Hw as [_ Hw].
    replace (top - 4 * Z.of_nat (length (p :: pt_regs f k)) + 4) with p in Hw by (cbn [length pt_regs]; lia). exact Hw. }
  cbn [pt_regs list_insert insert] in Hw.
  apply (exec_call junk fault k2 (with_if false k) top 18 [p] (pt_regs f k)
    (word_at (k_mem k2) (p - 4) :: [f EBX; f ECX; f EDX; f ESI; f EDI; f EBP; u32 (- ENOSYS); f DS; f ES; f FS; f GS; v;
      f EIP; f CS; flags_word f k; f ESP; f SS]) g (fun args => do_syscall_in_C (nth 0 args 0))); try done.
  - cbn [length app pt_regs]. by replace (top - 4 * Z.of_nat 18) with (p - 4) by lia.
  - cbn [length app pt_regs]. replace (top - 4 * Z.of_nat 18) with (p - 4) by lia. apply words_at_cons. split; [done|].
    by replace (p - 4 + 4) with p by lia.
  - cbn [length app pt_regs]. intros s1 Hs1.
    eapply (exec_add_esp junk fault k2 [_]); [exact Hs1|done|intros s2 Hs2].
    do 6 (eapply exec_pop_step; [eassumption|done|intros ? ?]).
    match goal with Hs : frame _ _ _ _ ?s |- wp _ _ ?s => eapply (exec_add_esp junk fault k2 [_]); [exact Hs|done|intros ? ?] end.
    do 5 (eapply exec_pop_step; [eassumption|done|intros ? ?]).
    cbn [exec step]. apply wp_bind. eapply wp_mono; [eapply iret_user_wp; [eassumption|change (g CS mod 4 = 0); by rewrite Hcs|exact Hcpl]|].
    intros [] s9 [Hr Hk']. apply wp_ret. rewrite flags_if in Hk'. split; [|done]. intros r. rewrite Hr.
    pose proof (Hf r) as Ht. destruct r; cbn in Ht |- *; try done; by apply u16_small.
Qed.

Lemma run_int80_wp f k :
  regs_typed f -> cpl f = 3 -> room k (tss_esp0 (tss (k_gdt k))) 18 ->
  let p := tss_esp0 (tss (k_gdt k)) - 68 in
  exists m1, words_at m1 p (pt_regs f k) /\ only_differ (k_mem k) m1 (p - 4) 72 /\
    (forall a n, mapped (k_mem k) a n -> mapped m1 a n) /\
    forall k2, do_syscall_in_C p (with_if false (set_mem m1 k)) = Ok (tt, k2) -> mapped (k_mem k2) (p - 4) 72 ->
      (forall x, p <= x < p + 68 -> ~ p + pt_eax <= x < p + pt_eax + 4 -> k_mem k2 !! x = m1 !! x) ->
      wp (run_int80 junk) (fun _ s' => resumes (upd EAX (word_at (k_mem k2) (p + pt_eax)) f) k (fst s') /\
        snd s' = with_if (cpu_if (k_cpu k)) k2) (f, k).
Proof.
  intros Hf Hcpl Hroom p. destruct (int80_entry_wp f k Hf Hcpl Hroom) as ([] & s & Hrun & g & Hs & Hcs).
  fold p in Hs. exists (k_mem (snd s)). pose proof Hs as [_ _ Hk Hw Hd Hm].
  cbn [length pt_regs] in Hw, Hd. replace (tss_esp0 (tss (k_gdt k)) - 4 * Z.of_nat 18) with (p - 4) in Hw, Hd by lia.
  apply words_at_cons in Hw as [_ Hw]. replace (p - 4 + 4) with p in Hw by lia.
  split_and!; [exact Hw|exact Hd|exact Hm|]. intros k2 Hsys Hmap Hkeep.
  eapply wp_resume; [|apply (int80_return_wp f k g k2 s Hf Hcpl Hroom Hs Hcs);
    [rewrite <- Hsys; f_equal; exact Hk|exact Hmap|exact Hkeep]].
  unfold run_int80, bind in *. destruct (enter None (f, k)) as [[[] s0]| |]; [|done..].
  rewrite (exec_split junk fault 17). unfold bind. by rewrite Hrun.
Qed.

(** ** The interrupt stubs *)

(** The exceptions of IA-32 for which the CPU pushes an error code: double fault,
    invalid TSS, segment not present, stack fault, general protection, page fault and
    alignment check.  It pushes none for the other exceptions and for hardware
    interrupts. *)
Inductive exception_with_code : Z -> Prop :=
| DF_code : exception_with_code 8
| TS_code : exception_with_code 10
| NP_code : exception_with_code 11
| SS_code : exception_with_code 12
| GP_code : exception_with_code 13
| PF_code : exception_with_code 14
| AC_code : exception_with_code 17.

Definition code_matches (v : Z) (code : option Z) : Prop :=
  (exception_with_code v -> exists e, code = Some e /\ is_u32 e) /\ (~ exception_with_code v -> code = None).

(** The stubs that push no 0 of their own are those of these exceptions. *)
Lemma stub_expects_code v : v ∈ error_code_vectors <-> exception_with_code v.
Proof.
  unfold error_code_vectors. rewrite !elem_of_cons, elem_of_nil. split.
  - intros Hv. destruct_or?; subst; constructor.
  - intros []; tauto.
Qed.

Lemma code_stub v code : code_matches v code ->
  if bool_decide (v ∈ error_code_vectors) then (exists e, code = Some e /\ is_u32 e) else code = None.
Proof. intros [H1 H2]. case_bool_decide as Hv; rewrite stub_expects_code in Hv; auto. Qed.

Definition isr_prefix (v : Z) : list instr :=
  (if bool_decide (v ∈ error_code_vectors) then [] else [I_push_imm 0]) ++ [I_push_imm v] ++ take 13 common_interrupt_handler.

Lemma isr_stub_split v : isr_stub v = isr_prefix v ++ drop 13 common_interrupt_handler.
Proof. unfold isr_stub, isr_prefix. by rewrite <- !app_assoc, take_drop. Qed.

(** The structures, from the stack pointer up. *)
Definition isr_frame (f : regs) (k : kernel) (v e : Z) : list Z :=
  let top := entry_top f k in let n := Z.of_nat (length (cpu_frame f k)) in
  [top - 4 * (n + 10); top - 4 * (n + 1); v] ++ struct_registers f (top - 4 * (n + 6)) ++ [v; e] ++ cpu_frame f k.

Lemma cpu_frame_length f k : (3 <= length (cpu_frame f k) <= 5)%nat.
Proof. unfold cpu_frame, old_stack. destruct (cpl f =? 3); cbn; lia. Qed.

(** The registers when [interrupt_handler] is called. *)
Definition isr_regs (f g : regs) : Prop :=
  g CS = 0x08 /\ (cpl f = 0 -> g SS = f SS) /\ forall r, r ∉ [EAX; CS; SS] -> g r = f r.

Lemma isr_entry_wp f k v code :
  regs_typed f -> room k (entry_top f k) 18 -> is_u32 v -> code_matches v code ->
  wp (enter code ;;; exec junk fault (isr_prefix v)) (fun _ s => exists g,
    stack g (with_if false k) (entry_top f k) (isr_frame f k v (default 0 code)) s /\ isr_regs f g) (f, k).
Proof.
  intros Hf Hroom Hv Hcode%code_stub. apply wp_bind. pose proof (cpu_frame_length f k) as Hlen.
  assert (room (with_if false k) (entry_top f k) 18) as Hr by exact Hroom. pose proof Hroom as (_ & Hlo & Hhi).
  eapply wp_mono; [apply (enter_wp f k 18%nat code Hf Hroom); [lia|]|].
  { case_bool_decide; [destruct Hcode as (e & -> & He); done|by rewrite Hcode]. }
  cbv beta. intros [] s0 Hs0. unfold isr_frame. set (top := entry_top f k) in *. set (cf := cpu_frame f k) in *. clearbody cf.
  assert (forall r, r <> CS -> r <> SS -> is_u32 (entry_regs f k r)) as Hg
    by (intros r H1 H2; rewrite entry_general by done; by apply seg_u32).
  assert (entry_regs f k CS = 0x08) as Hcs by apply upd_eq.
  assert (cpl f = 0 -> entry_regs f k SS = f SS) as Hss by (intros Hc; unfold entry_regs; by rewrite Hc).
  pose proof (entry_general f k) as He. set (g := entry_regs f k) in *. clearbody g.
  assert (forall Q, (forall s, stack g (with_if false k) top (default 0 code :: cf) s ->
      wp (exec junk fault ([I_push_imm v] ++ take 13 common_interrupt_handler)) Q s) ->
    wp (exec junk fault (isr_prefix v)) Q s0) as Hpre.
  { intros Q HQ. unfold isr_prefix in *. case_bool_decide.
    - destruct Hcode as (e & -> & He'). by apply HQ.
    - subst code. eapply exec_push_imm; [exact Hr|exact Hs0|cbn [length app code_words]; lia|done|]. exact HQ. }
  apply Hpre. intros s1 Hs1. cbn [app take common_interrupt_handler].
  eapply exec_push_imm; [exact Hr|eassumption|cbn [length]; lia|done|intros ? ?].
  do 4 (eapply exec_push; [exact Hr|eassumption|cbn [length]; lia|done|by apply Hg|intros ? ?]).
  eapply exec_push_esp; [exact Hr|eassumption|cbn [length]; lia|done|intros ? ?].
  do 3 (eapply exec_push; [exact Hr|eassumption|cbn [length]; lia|done|by apply Hg|intros ? ?]).
  eapply (exec_push_mem _ _ _ _ _ Hr 32 8); [eassumption|cbn [length]; lia|done|done|done|intros ? ?].
  eapply exec_lea; [eassumption|done|intros ? ?].
  eapply exec_push; [exact Hr|eassumption|cbn [length]; lia|done|apply u32_range|intros ? ?].
  eapply exec_lea; [eassumption|done|intros ? ?].
  eapply exec_push; [exact Hr|eassumption|cbn [length]; lia|done|apply u32_range|intros s Hs].
  apply wp_ret. rewrite !upd_eq, !He in Hs by done. cbn [length] in Hs.
  rewrite !u32_small in Hs by word_solve. eexists. split; [|split_and!].
  - refine (eq_rect _ (fun ws => stack _ _ _ ws s) Hs _ _). unfold struct_registers. cbn [app]. repeat (apply (f_equal2 cons); [lia|]). done.
  - exact Hcs.
  - exact Hss.
  - intros r Hin. rewrite !not_elem_of_cons in Hin. destruct Hin as (Hn1 & Hn2 & Hn3 & _). rewrite !upd_ne by done. by apply He.
Qed.

(** From the call on: the registers come back. *)
Lemma isr_return_wp f k v e g k2 s :
  regs_typed f -> cpl f = 3 \/ cpl f = 0 -> room k (entry_top f k) 18 -> is_u32 v ->
  let ws := isr_frame f k v e in let sp := entry_top f k - 4 * Z.of_nat (length ws) in
  stack g (with_if false k) (entry_top f k) ws s -> isr_regs f g ->
  interrupt_handler v (snd s) = Ok (tt, k2) ->
  (forall x, sp <= x < entry_top f k -> k_mem k2 !! x = k_mem (snd s) !! x) ->
  wp (exec junk fault (drop 13 common_interrupt_handler)) (fun _ s' =>
    resumes f k (fst s') /\ snd s' = with_if (cpu_if (k_cpu k)) k2) s.
Proof.
  intros Hf Hcpl Hroom Hv ws sp Hs (Hcs & Hss & Hg) Hrun Hkeep. cbn [drop common_interrupt_handler].
  pose proof (cpu_frame_length f k) as Hlen. pose proof Hroom as (Hmap & Hlo & Hhi).
  pose proof Hs as [_ _ _ Hw _ Hm]. cbn [k_mem with_if set_cpu] in Hm.
  set (top := entry_top f k) in *. set (n := Z.of_nat (length (cpu_frame f k))) in *.
  assert (length ws = 13 + length (cpu_frame f k))%nat as Hl by done.
  assert (mapped (k_mem k2) sp (4 * Z.of_nat (length ws))) as Hmap2.
  { intros i Hi. rewrite Hkeep by (unfold sp in *; lia).
    destruct (Hm _ _ Hmap (sp + i - (top - 4 * Z.of_nat 18))) as (x & Hx & Hu); [unfold sp in *; lia|].
    exists x. split; [|done]. rewrite <- Hx. f_equal. lia. }
  assert (words_at (k_mem k2) sp ws) as Hw2.
  { eapply words_at_ext; [|exact Hw]. intros x Hx. apply Hkeep. fold sp in Hx. unfold sp in *. lia. }
  apply (exec_call junk fault k2 (with_if false k) top 18 [top - 4 * (n + 10); top - 4 * (n + 1); v]
    (struct_registers f (top - 4 * (n + 6)) ++ [v; e] ++ cpu_frame f k) ws g
    (fun args => interrupt_handler (nth 2 args 0))); try done.
  { change ((length ws <= 18)%nat). lia. }
  intros s1 Hs1. change (frame (clobbered junk g) k2 sp ws s1) in Hs1. unfold ws, isr_frame, struct_registers in Hs1. cbn [app] in Hs1.
  eapply (exec_add_esp junk fault k2 [_; _; _]); [exact Hs1|done|intros s2 Hs2].
  do 3 (eapply exec_pop_step; [eassumption|done|intros ? ?]).
  match goal with Hs : frame _ _ _ _ ?s |- wp _ _ ?s => eapply (exec_add_esp junk fault k2 [_]); [exact Hs|done|intros ? ?] end.
  do 4 (eapply exec_pop_step; [eassumption|done|intros ? ?]).
  match goal with Hs : frame _ _ _ _ ?s |- wp _ _ ?s => eapply (exec_add_esp junk fault k2 [_; _]); [exact Hs|done|intros s9 Hs9] end.
  cbn [exec step]. apply wp_bind. match type of Hs9 with frame ?G _ ?P _ _ => set (h := G) in Hs9; set (q := P) in Hs9 end.
  assert (cpl h = 0) as Hh by (change (g CS mod 4 = 0); by rewrite Hcs).
  assert (forall r, r ∉ [CS; SS] -> h r = f r) as Hhr.
  { intros r Hin. destruct r; try reflexivity; try (by apply Hg, (bool_decide_unpack _)); exfalso; apply Hin; by repeat constructor. }
  assert (forall r, is_segment r = true -> u16 (f r) = f r) as Hseg
    by (intros r Hr; apply u16_small; pose proof (Hf r) as Ht; by rewrite Hr in Ht).
  unfold cpu_frame, old_stack in Hs9. destruct Hcpl as [Hc|Hc]; rewrite Hc in Hs9; cbn [Z.eqb app] in Hs9.
  - eapply wp_mono; [apply (iret_user_wp h k2 q _ _ _ _ _ s9 Hs9 Hh Hc)|].
    intros [] t [Hr Hk']. apply wp_ret. rewrite flags_if in Hk'. split; [|done]. intros r. rewrite Hr. unfold upd.
    repeat case_decide; subst; try done; try (by apply Hseg). apply Hhr. rewrite !not_elem_of_cons. split_and!; [done|done|apply not_elem_of_nil].
  - eapply wp_mono; [apply (iret_kernel_wp h k2 q _ _ _ s9 Hs9 Hh Hc)|].
    intros [] t [Hr Hk']. apply wp_ret. rewrite flags_if in Hk'. split; [|done]. intros r. rewrite Hr. unfold upd.
    assert (h SS = f SS) as Hhs by (exact (Hss Hc)).
    assert (q + 12 = f ESP) as Hq.
    { assert (top = f ESP) as <- by (unfold top, entry_top; by rewrite Hc). unfold q, sp. rewrite Hl.
      unfold cpu_frame, old_stack. rewrite Hc. cbn [Z.eqb length app]. lia. }
    repeat case_decide; subst; try done; try (by apply Hseg). destruct (decide (r = SS)) as [->|]; [done|].
    apply Hhr. rewrite !not_elem_of_cons. split_and!; [done|done|apply not_elem_of_nil].
Qed.
Lemma isr_run_eq f k v code s :
  (enter code ;;; exec junk fault (isr_prefix v)) (f, set_trace (Irq v :: k_trace k) k) = Ok (tt, s) ->
  run_interrupt junk v code (f, k) = exec junk fault (drop 13 common_interrupt_handler) s.
Proof.
  intros Hrun. unfold run_interrupt. unfold bind at 1. unfold lift, modify. cbn [snd fst]. unfold bind in Hrun |- *.
  destruct (enter code _) as [[[] s0]| |]; [|done..]. rewrite isr_stub_split, exec_app. unfold bind. by rewrite Hrun.
Qed.

(** Memory when [interrupt_handler] is called: the structures are on the stack. *)
Record handler_entry (f : regs) (k : kernel) (code : option Z) (m1 : gmap Z Z) : Prop := HandlerEntry {
  he_registers : words_at m1 (entry_top f k - 4 * (Z.of_nat (length (cpu_frame f k)) + 10))
    (struct_registers f (entry_top f k - 4 * (Z.of_nat (length (cpu_frame f k)) + 6)));
  he_state : words_at m1 (entry_top f k - 4 * (Z.of_nat (length (cpu_frame f k)) + 1)) (struct_stack_state f k (default 0 code));
  he_else : only_differ (k_mem k) m1 (entry_top f k - 72) 72;
  he_mapped : forall a n, mapped (k_mem k) a n -> mapped m1 a n
}.

(** The whole of a stub, around a handler that changes memory on the screen only. *)
Lemma interrupt_call_wp f k v code (P : gmap Z Z -> kernel -> Prop) :
  regs_typed f -> cpl f = 3 \/ cpl f = 0 -> is_u32 v -> code_matches v code ->
  room k (entry_top f k) 18 -> entry_top f k <= fb \/ fb + 4000 <= entry_top f k - 72 ->
  (forall m1, handler_entry f k code m1 ->
    wp (interrupt_handler v) (fun _ k2 => only_differ m1 (k_mem k2) fb 4000 /\ P m1 k2)
      (with_if false (set_mem m1 (set_trace (Irq v :: k_trace k) k)))) ->
  wp (run_interrupt junk v code) (fun _ s' => exists m1 k2, handler_entry f k code m1 /\
    interrupt_handler v (with_if false (set_mem m1 (set_trace (Irq v :: k_trace k) k))) = Ok (tt, k2) /\ P m1 k2 /\
    resumes f k (fst s') /\ snd s' = with_if (cpu_if (k_cpu k)) k2) (f, k).
Proof.
  intros Hf Hcpl Hvu Hcode Hroom Hoff Hh. set (k0 := set_trace (Irq v :: k_trace k) k).
  destruct (isr_entry_wp f k0 v code Hf Hroom Hvu Hcode) as ([] & s & Hrun & g & Hs & Hg).
  pose proof (cpu_frame_length f k) as Hlen. pose proof Hs as [_ _ Hk Hw Hd Hm]. set (top := entry_top f k) in *.
  set (ws := isr_frame f k0 v (default 0 code)) in *. assert (length ws = 13 + length (cpu_frame f k))%nat as Hl by done.
  change (entry_top f k0) with top in *. change (k_mem (with_if false k0)) with (k_mem k) in Hd, Hm.
  assert (handler_entry f k code (k_mem (snd s))) as Hhe.
  { apply words_at_app in Hw as [_ Hw]. apply words_at_app in Hw as [Hw1 Hw].
    apply (words_at_app _ _ [v]) in Hw as [_ Hw]. fold ws in Hw1, Hw. rewrite Hl in Hw1, Hw. cbn [length struct_registers] in Hw1, Hw.
    constructor; fold top; [| |intros x Hx; apply Hd; lia|exact Hm].
    - replace (top - 4 * (Z.of_nat (length (cpu_frame f k)) + 10)) with (top - 4 * Z.of_nat (13 + length (cpu_frame f k)) + 4 * Z.of_nat 3) by lia.
      exact Hw1.
    - replace (top - 4 * (Z.of_nat (length (cpu_frame f k)) + 1))
        with (top - 4 * Z.of_nat (13 + length (cpu_frame f k)) + 4 * Z.of_nat 3 + 4 * Z.of_nat 8 + 4 * Z.of_nat 1) by lia.
      apply (words_at_app _ _ (struct_stack_state f k (default 0 code)) (old_stack f)). exact Hw. }
  destruct (Hh _ Hhe) as ([] & k2 & Hrun2 & Hd2 & HP). fold k0 in Hrun2.
  destruct (isr_return_wp f k0 v (default 0 code) g k2 s Hf Hcpl Hroom Hvu Hs Hg) as ([] & s' & Hrun3 & Hr & Hk2).
  { rewrite <- Hrun2. f_equal. exact Hk. }
  { intros x Hx. apply Hd2. change (entry_top f k0) with top in Hx. fold ws in Hx. lia. }
  exists tt, s'. split; [exact (eq_trans (isr_run_eq f k v code s Hrun) Hrun3)|]. by exists (k_mem (snd s)), k2.
Qed.
End Stubs.
