(* ===== verification/AsmUser.v ===== *)
(** System calls from ring 3: the trap through [Int128Handler] as the calling program
    sees it, and the stubs of the C library around it. *)
From S2P Require Import Prelude State Machine Framebuffer FramebufferFacts Isr Keyboard Serial SerialFacts Pic Interrupt InterruptFacts Syscall SyscallFacts SyscallCalls Asm AsmFacts AsmStubs.

#[local] Ltac argument :=
  match goal with Hv : word_at _ ?x = _ |- word_at _ ?y = _ => replace y with x by (cbn [length]; lia); exact Hv end.

Section User.
Context `{Env} `{PollFuel} `{!UartReady} (junk : reg -> Z).

(** The ring 0 stack of the process is apart from the screen. *)
Definition kernel_stack_ok (k : kernel) : Prop :=
  let top := tss_esp0 (tss (k_gdt k)) in
  room k top 18 /\ 0 < top - 72 /\ (top <= fb \/ fb + 4000 <= top - 72).

(** [off k x]: the address is neither on the screen nor on the ring 0 stack. *)
Definition off (k : kernel) (x : Z) : Prop :=
  let top := tss_esp0 (tss (k_gdt k)) in ~ fb <= x < fb + 4000 /\ ~ top - 72 <= x < top.

(** The dispatcher starts in [k1] with the frame at [p] for the call [nr] with these
    arguments; since [k], memory has not changed where [same] holds. *)
Record entered (same : Z -> Prop) (nr a b c : Z) (k : kernel) (p : Z) (k1 : kernel) : Prop := Entered {
  en_kernel : k1 = with_if false (set_mem (k_mem k1) k);
  en_place : p = tss_esp0 (tss (k_gdt k)) - 68;
  en_fb : fb_ok k1;
  en_screen : forall x, fb <= x < fb + 4000 -> k_mem k1 !! x = k_mem k !! x;
  en_regs : regs_ok (k_mem k1) p;
  en_hold : regs_hold (k_mem k1) p nr a b c;
  en_mem : forall x, same x -> k_mem k1 !! x = k_mem k !! x;
  en_mapped : forall a n, mapped (k_mem k) a n -> mapped (k_mem k1) a n
}.

Lemma entered_term same nr a b c k p k1 : entered same nr a b c k p k1 -> term_of k1 = term_of k.
Proof. intros []. apply term_same; [by rewrite en_kernel0|done]. Qed.
Lemma entered_trace same nr a b c k p k1 : entered same nr a b c k p k1 -> k_trace k1 = k_trace k.
Proof. intros []. by rewrite en_kernel0. Qed.

(** The interrupt flag comes back with the rest of EFLAGS. *)
Lemma with_if_back k m1 k2 :
  k2 = set_trace (k_trace k2) (set_fb (k_fb k2) (set_mem (k_mem k2) (with_if false (set_mem m1 k)))) ->
  with_if (cpu_if (k_cpu k)) k2 = set_trace (k_trace k2) (set_fb (k_fb k2) (set_mem (k_mem k2) k)).
Proof. intros Hk. rewrite Hk at 1. unfold with_if. by destruct k as [? ? []]. Qed.

(** What the trap needs of a system call: of the frame it changes the result only. *)
Definition frame_kept (p : Z) (k1 k2 : kernel) : Prop :=
  (forall a n, mapped (k_mem k1) a n -> mapped (k_mem k2) a n) /\
  forall x, p <= x < p + 68 -> ~ p + pt_eax <= x < p + pt_eax + 4 -> k_mem k2 !! x = k_mem k1 !! x.

(** A system call, seen from ring 3. *)
Lemma int80_call_wp f k (Q : Z -> kernel -> kernel -> Prop) :
  regs_typed f -> cpl f = 3 -> kernel_stack_ok k -> fb_ok k ->
  (forall p k1, entered (off k) (f EAX) (f EBX) (f ECX) (f EDX) k p k1 ->
    wp (do_syscall_in_C p) (fun _ k2 => frame_kept p k1 k2 /\ Q p k1 k2) k1) ->
  wp (run_int80 junk) (fun _ s' => exists p k1 k2,
    entered (off k) (f EAX) (f EBX) (f ECX) (f EDX) k p k1 /\ frame_kept p k1 k2 /\ Q p k1 k2 /\
    resumes (upd EAX (word_at (k_mem k2) (p + pt_eax)) f) k (fst s') /\ snd s' = with_if (cpu_if (k_cpu k)) k2) (f, k).
Proof.
  intros Hf Hcpl (Hroom & Hpos & Hoff) Hfb Hsys.
  destruct (run_int80_wp junk f k Hf Hcpl Hroom) as (m1 & Hw & Hd & Hm & Hret).
  destruct Hroom as (Hmap & Hlo & Hhi). set (top := tss_esp0 (tss (k_gdt k))) in *.
  set (p := top - 68) in *. set (k1 := with_if false (set_mem m1 k)) in *.
  assert (forall x, fb <= x < fb + 4000 -> m1 !! x = k_mem k !! x) as Hwin by (intros x Hx; apply Hd; lia).
  assert (mapped m1 (p - 4) 72) as Hmap1
    by (replace (p - 4) with (top - 4 * Z.of_nat 18) by lia; by apply Hm).
  assert (entered (off k) (f EAX) (f EBX) (f ECX) (f EDX) k p k1) as Hen.
  { constructor; try done.
    - by apply (fb_ok_same k).
    - constructor; [apply (mapped_sub _ _ _ _ _ Hmap1); lia|lia|lia|lia].
    - unfold pt_regs in Hw. repeat apply words_at_cons in Hw as [?Hv Hw]. unfold regs_hold, pt_eax, pt_ebx, pt_ecx, pt_edx.
      split_and!; cbn [k_mem k1 with_if set_cpu set_mem]; (etransitivity; [|eassumption]); f_equal; lia.
    - intros x [_ Hx]. apply Hd. lia. }
  destruct (Hsys p k1 Hen) as ([] & k2 & Hrun & [Hkm Hkf] & HQ).
  eapply wp_mono; [apply (Hret k2 Hrun); [by apply Hkm|exact Hkf]|].
  intros [] s' [Hr Hk']. by exists p, k1, k2.
Qed.

(** ** The stubs *)

Lemma typed_upd r v f : is_segment r = false -> is_u32 v -> regs_typed f -> regs_typed (upd r v f).
Proof. intros Hr Hv Hf x. unfold upd. case_decide; [subst; by rewrite Hr|apply Hf]. Qed.

Lemma stack_typed f k top ws s n :
  stack f k top ws s -> room k top n -> (length ws <= n)%nat -> regs_typed f -> regs_typed (fst s).
Proof.
  intros [He Hr _ _ _ _] (_ & Hlo & Hhi) Hn Hf x. destruct (decide (x = ESP)) as [->|Hx].
  - rewrite He. cbn [is_segment]. word_solve.
  - rewrite Hr by done. apply Hf.
Qed.

(** The C call of a stub with three arguments: its return address is on the top of the
    user stack, the arguments above it. *)
Record user_call (f : regs) (k : kernel) (args : list Z) : Prop := UserCall {
  uc_room : room k (f ESP) 1;
  uc_mapped : mapped (k_mem k) (f ESP + 4) (4 * Z.of_nat (length args));
  uc_args : words_at (k_mem k) (f ESP + 4) args;
  uc_typed : Forall is_u32 args;
  uc_end : f ESP + 4 + 4 * Z.of_nat (length args) < 4294967296;
  uc_off : forall x, f ESP - 4 <= x < f ESP -> off k x
}.

(** The word the stub pushes, and memory that neither it nor the trap uses. *)
Definition pushed (f : regs) (x : Z) : Prop := f ESP - 4 <= x < f ESP.
Definition apart (f : regs) (k : kernel) (x : Z) : Prop := off k x /\ ~ pushed f x.

(** The caller gets the result in EAX and its stack and registers back, as the calling
    convention has it. *)
Record preserves (f : regs) (k : kernel) (r : Z) (f' : regs) : Prop := Preserves {
  ps_eax : f' EAX = r;
  ps_regs : forall x, x ∉ [EAX; ECX; EDX; EFLAGS] -> f' x = f x;
  ps_flags : f' EFLAGS = flags_word f k;
  ps_words : is_u32 (f' ECX) /\ is_u32 (f' EDX)
}.

Lemma preserves_typed f k r f' : regs_typed f -> is_u32 r -> preserves f k r f' -> regs_typed f'.
Proof.
  intros Hf Hr [He Hs Hfl [Hc Hd]] x. destruct (decide (x ∈ [EAX; ECX; EDX; EFLAGS])) as [Hx|Hx]; [|rewrite Hs by done; apply Hf].
  rewrite !elem_of_cons, elem_of_nil in Hx. destruct Hx as [->|[->|[->|[->|[]]]]]; cbn [is_segment]; rewrite ?He, ?Hfl; try done. apply flags_typed.
Qed.

(** The state at the [int 0x80] of a stub. *)
Definition stub_regs (nr a b c : Z) (f : regs) : regs := upd EDX c (upd ECX b (upd EBX a (upd EAX nr f))).

Lemma preserves_stub f k nr a b c k1 g r g2 g3 :
  regs_typed g -> (forall x, x <> ESP -> g x = stub_regs nr a b c f x) -> k_cpu k1 = k_cpu k -> resumes (upd EAX r g) k1 g2 ->
  g3 ESP = f ESP -> (forall x, x <> ESP -> g3 x = upd EBX (f EBX) g2 x) -> preserves f k r g3.
Proof.
  intros Hg Hr Hk Hr2 He3 Hr3. constructor.
  - rewrite Hr3 by done. change (g2 EAX = r). by rewrite Hr2.
  - intros x Hx. destruct (decide (x = ESP)) as [->|Hne]; [done|]. rewrite Hr3 by done. unfold upd. case_decide; [by subst|].
    rewrite Hr2, !not_elem_of_cons in *. rewrite decide_False by tauto. rewrite upd_ne by tauto. rewrite Hr by done.
    unfold stub_regs, upd. by repeat (rewrite decide_False by tauto).
  - rewrite Hr3 by done. change (g2 EFLAGS = flags_word f k). rewrite Hr2. cbn. unfold flags_word. by rewrite upd_ne, Hr, Hk.
  - rewrite !Hr3 by done. change (is_u32 (g2 ECX) /\ is_u32 (g2 EDX)). rewrite !Hr2. split; [exact (Hg ECX)|exact (Hg EDX)].
Qed.

(** Up to the trap. *)
Lemma stub3_entry_wp f k nr a b c p Q :
  regs_typed f -> user_call f k [a; b; c] -> is_u32 nr ->
  (forall s, stack (stub_regs nr a b c f) k (f ESP) [f EBX] s -> regs_typed (fst s) -> wp (exec junk (run_int80 junk) p) Q s) ->
  wp (run_user junk (I_push EBX :: I_mov_imm EAX nr :: I_mov_mem EBX 8 :: I_mov_mem ECX 12 :: I_mov_mem EDX 16 :: p)) Q (f, k).
Proof.
  intros Hf [Hroom Hmap Hargs Htyped Hend Hoff] Hnr Hp. pose proof Hroom as (_ & Hlo & Hhi).
  cbn [length] in Hend, Hmap. repeat apply words_at_cons in Hargs as [?Hv Hargs].
  repeat (apply Forall_cons in Htyped as [?Ht Htyped]). unfold run_user.
  eapply exec_push; [exact Hroom|apply stack_nil|cbn; lia|done|by apply seg_u32|intros ? ?].
  eapply exec_mov_imm; [eassumption|done|intros ? ?].
  do 3 (eapply exec_mov_mem; [eassumption|done|cbn [length]; lia|apply (mapped_sub _ _ _ _ _ Hmap); cbn [length]; lia
    |cbn [length]; lia|cbn [length]; lia|argument|intros ? ?]).
  apply Hp; [done|]. eapply stack_typed; [eassumption|exact Hroom|done|]. by repeat apply typed_upd.
Qed.

(** The frame of the trap taken in a stub. *)
Lemma entered_stub f k nr a b c s p k2 :
  stack (stub_regs nr a b c f) k (f ESP) [f EBX] s -> (forall x, pushed f x -> off k x) ->
  entered (off (snd s)) nr a b c (snd s) p k2 -> entered (apart f k) nr a b c k p k2.
Proof.
  intros [_ _ Hk1 _ Hd1 Hm1] Hoff []. cbn [length] in *. constructor; try done.
  - rewrite en_kernel0. by rewrite Hk1.
  - by rewrite Hk1 in en_place0.
  - intros x Hx. rewrite en_screen0 by done. apply Hd1. intros Hin. destruct (Hoff x); [unfold pushed; lia|done].
  - intros x [Hx1 Hx]. rewrite en_mem0; [apply Hd1; unfold pushed in Hx; lia|by rewrite Hk1].
  - intros y n Hy. by apply en_mapped0, Hm1.
Qed.

(** From the trap on, for any system call that keeps the frame and the word pushed. *)
Lemma stub_tail_wp f k nr a b c (Q : Z -> kernel -> kernel -> Prop) s :
  stack (stub_regs nr a b c f) k (f ESP) [f EBX] s -> regs_typed (fst s) -> room k (f ESP) 1 -> (forall x, pushed f x -> off k x) ->
  cpl f = 3 -> kernel_stack_ok k -> fb_ok k ->
  (forall p k1, entered (apart f k) nr a b c k p k1 ->
    wp (do_syscall_in_C p) (fun _ k2 => frame_kept p k1 k2 /\ (forall x, pushed f x -> k_mem k2 !! x = k_mem k1 !! x) /\ Q p k1 k2) k1) ->
  wp (exec junk (run_int80 junk) [I_int80; I_pop EBX])
    (fun _ s' => exists p k1 k2, entered (apart f k) nr a b c k p k1 /\ Q p k1 k2 /\
      preserves f k (word_at (k_mem k2) (p + pt_eax)) (fst s') /\ snd s' = with_if (cpu_if (k_cpu k)) k2) s.
Proof.
  intros Hst Hg Hroom Hoff Hcpl Hstk Hfb Hsys. pose proof Hroom as (Hrm & Hlo & Hhi).
  destruct s as [g k1]. apply exec_int80. pose proof Hst as [He Hr Hk1 Hw1 Hd1 Hm1].
  pose proof (fun p k2 => entered_stub f k nr a b c (g, k1) p k2 Hst Hoff) as Hen. cbn [fst snd length] in *.
  assert (k_gdt k1 = k_gdt k) as Hgdt by by rewrite Hk1. assert (k_cpu k1 = k_cpu k) as Hcpu by by rewrite Hk1.
  eapply wp_mono; [apply (int80_call_wp g k1
    (fun p k2 k3 => (forall x, pushed f x -> k_mem k3 !! x = k_mem k2 !! x) /\ Q p k2 k3) Hg)|].
  - unfold cpl. by rewrite Hr.
  - unfold kernel_stack_ok, room in *. rewrite Hgdt. destruct Hstk as ((Ha & Hb) & Hc). split_and!; try tauto. by apply Hm1.
  - apply (fb_ok_same k); [by rewrite Hk1..| |done]. intros x Hx. apply Hd1. intros Hin. destruct (Hoff x); [unfold pushed; lia|done].
  - rewrite !Hr by done. intros p k2 Hk2. by apply Hsys, Hen.
  - rewrite !Hr by done. intros [] [g2 k3'] (p & k2 & k3 & Hk2 & [Hfm _] & [Hpush HQ] & Hr2 & Hk3). cbn [fst snd] in *. subst k3'.
    assert (forall x, pushed f x -> k_mem k3 !! x = k_mem k1 !! x) as Hkeep.
    { intros x Hx. rewrite Hpush by done. apply (en_mem _ _ _ _ _ _ _ _ Hk2). unfold off. rewrite Hgdt. by apply Hoff. }
    assert (frame g2 (with_if (cpu_if (k_cpu k1)) k3) (f ESP - 4) [f EBX] (g2, with_if (cpu_if (k_cpu k1)) k3)) as Hfr.
    { constructor; cbn [fst snd length]; try done; [by rewrite Hr2| | |lia].
      - eapply words_at_ext; [|exact Hw1]. cbn [length]. intros x Hx. apply Hkeep. unfold pushed. lia.
      - by apply Hfm, (en_mapped _ _ _ _ _ _ _ _ Hk2), Hm1. }
    eapply exec_pop_step; [exact Hfr|done|]. intros [g3 k4] [He3 Hr3 Hk4 _ _ _]. cbn [fst snd] in *. subst k4. apply wp_ret.
    exists p, k2, k3. split_and!; [by apply Hen|done| |by rewrite Hcpu].
    apply (preserves_stub f k nr a b c k1 g _ g2); [exact Hg|exact Hr|exact Hcpu|exact Hr2|cbn [fst]; lia|exact Hr3].
Qed.

(** The stubs with three arguments. *)
Lemma stub3_wp f k nr a b c (Q : Z -> kernel -> kernel -> Prop) :
  regs_typed f -> cpl f = 3 -> kernel_stack_ok k -> user_call f k [a; b; c] -> is_u32 nr -> fb_ok k ->
  (forall p k1, entered (apart f k) nr a b c k p k1 ->
    wp (do_syscall_in_C p) (fun _ k2 => frame_kept p k1 k2 /\ (forall x, pushed f x -> k_mem k2 !! x = k_mem k1 !! x) /\ Q p k1 k2) k1) ->
  wp (run_user junk [ I_push EBX; I_mov_imm EAX nr; I_mov_mem EBX 8; I_mov_mem ECX 12; I_mov_mem EDX 16; I_int80; I_pop EBX ])
    (fun _ s' => exists p k1 k2, entered (apart f k) nr a b c k p k1 /\ Q p k1 k2 /\
      preserves f k (word_at (k_mem k2) (p + pt_eax)) (fst s') /\ snd s' = with_if (cpu_if (k_cpu k)) k2) (f, k).
Proof.
  intros Hf Hcpl Hstk Hcall Hnr Hfb Hsys. pose proof Hcall as [Hroom _ _ _ _ Hoff].
  apply (stub3_entry_wp f k nr a b c); [done..|]. intros s Hst Hg. by apply stub_tail_wp.
Qed.

(** The stub of [sys_exit], with one argument. *)
Lemma stub1_entry_wp f k nr a p Q :
  regs_typed f -> user_call f k [a] -> is_u32 nr ->
  (forall s, stack (stub_regs nr a (f ECX) (f EDX) f) k (f ESP) [f EBX] s -> regs_typed (fst s) -> wp (exec junk (run_int80 junk) p) Q s) ->
  wp (run_user junk (I_push EBX :: I_mov_imm EAX nr :: I_mov_mem EBX 8 :: p)) Q (f, k).
Proof.
  intros Hf [Hroom Hmap Hargs Htyped Hend Hoff] Hnr Hp. pose proof Hroom as (_ & Hlo & Hhi).
  cbn [length] in Hend, Hmap. apply words_at_cons in Hargs as [Hv Hargs]. apply Forall_cons in Htyped as [Ht _]. unfold run_user.
  eapply exec_push; [exact Hroom|apply stack_nil|cbn; lia|done|by apply seg_u32|intros ? ?].
  eapply exec_mov_imm; [eassumption|done|intros ? ?].
  eapply exec_mov_mem; [eassumption|done|cbn [length]; lia|apply (mapped_sub _ _ _ _ _ Hmap); cbn [length]; lia
    |cbn [length]; lia|cbn [length]; lia|argument|intros s Hs].
  apply Hp; [|eapply stack_typed; [exact Hs|exact Hroom|done|by repeat apply typed_upd]].
  eapply stack_ext; [|exact Hs]. intros r _. unfold stub_regs, upd. by repeat case_decide; subst.
Qed.
End User.

Section Privilege.
Context `{Env} `{PollFuel} (junk : reg -> Z).

Lemma low16_u16 a v : is_u16 v -> u16 (low16 a v) = v.
Proof. intros Hv. unfold low16. word_solve. Qed.

(** The frame is built and consumed below the stack pointer. *)
Lemma enter_user_mode_wp f k eip esp :
  regs_typed f -> cpl f = 0 -> room k (f ESP) 5 -> f ESP + 12 < 4294967296 ->
  mapped (k_mem k) (f ESP + 4) 8 -> words_at (k_mem k) (f ESP + 4) [eip; esp] -> is_u32 eip -> is_u32 esp ->
  wp (exec junk fault enter_user_mode_s) (fun _ s' =>
    only_differ (k_mem k) (k_mem (snd s')) (f ESP - 20) 20 /\ snd s' = with_if true (set_mem (k_mem (snd s')) k) /\
    fst s' EIP = eip /\ fst s' ESP = esp /\ fst s' CS = 0x1B /\
    Forall (fun r => fst s' r = 0x23) [SS; DS; ES; FS; GS]) (f, k).
Proof.
  intros Hf Hcpl Hroom Hend Hmap Hargs Hip Hsp. pose proof Hroom as (_ & Hlo & Hhi).
  repeat apply words_at_cons in Hargs as [?Hv Hargs]. unfold enter_user_mode_s.
  do 2 (eapply exec_mov_mem; [first [eassumption|apply stack_nil]|done|cbn [length]; lia|apply (mapped_sub _ _ _ _ _ Hmap); cbn [length]; lia
    |cbn [length]; lia|cbn [length]; lia|argument|intros ? ?]).
  eapply exec_mov_imm16; [eassumption|done|intros ? ?].
  do 4 (eapply exec_mov_seg; [eassumption|done|done|intros ? ?]).
  eapply exec_push_imm; [exact Hroom|eassumption|cbn [length]; lia|done|intros ? ?].
  eapply exec_push; [exact Hroom|eassumption|cbn [length]; lia|done|done|intros ? ?].
  do 2 (eapply exec_push_imm; [exact Hroom|eassumption|cbn [length]; lia|done|intros ? ?]).
  eapply exec_push; [exact Hroom|eassumption|cbn [length]; lia|done|done|intros [g k1] Hst].
  match type of Hst with stack ?f0 _ _ _ _ => set (g1 := f0) in Hst end. pose proof Hst as [He Hr Hk1 Hw1 Hd1 Hm1].
  cbn [exec step]. apply wp_bind. cbn [fst snd length] in *.
  eapply wp_mono; [apply (iret_user_wp g1 k1 (f ESP - 20) eip 0x1B 0x202 esp 0x23)|]; [|exact Hcpl|done|].
  - constructor; cbn [fst snd length]; try done; [apply Hm1, Hroom|lia].
  - intros [] [g2 k2] [Hr2 Hk2]. apply wp_ret. cbn [fst snd] in *. subst k2. cbn [with_if k_mem set_cpu].
    split_and!; [intros x Hx; apply Hd1; lia|by rewrite Hk1|by rewrite Hr2..|].
    repeat apply Forall_cons_2; try apply Forall_nil_2; rewrite Hr2; [done|..]; by apply low16_u16.
Qed.
End Privilege.

Section Ports.
Context `{Env} `{PollFuel} (junk : reg -> Z).

Lemma low8_u8 a v : u8 (low8 a v) = u8 v.
Proof. unfold low8. word_solve. Qed.
Lemma low16_same a v : u16 (low16 a v) = u16 v.
Proof. unfold low16. word_solve. Qed.

(** A C call: the return address is on the top of the stack, the arguments are above it. *)
Definition c_call (f : regs) (k : kernel) (args : list Z) : Prop :=
  mapped (k_mem k) (f ESP + 4) (4 * Z.of_nat (length args)) /\ words_at (k_mem k) (f ESP + 4) args /\
  0 <= f ESP /\ f ESP + 4 + 4 * Z.of_nat (length args) < 4294967296.

Lemma load_arg f g k args i v disp :
  c_call f k args -> args !! i = Some v -> g ESP = f ESP -> disp = 4 + 4 * Z.of_nat i ->
  lift (load32 (u32 (g ESP + disp))) (g, k) = Ok (v, (g, k)).
Proof.
  intros (Hm & Hw & Hlo & Hhi) Hi He ->. pose proof (lookup_lt_Some _ _ _ Hi). rewrite He, u32_small by word_solve.
  unfold lift. cbn [snd fst]. rewrite load32_eq; [|apply (mapped_sub _ _ _ _ _ Hm); lia|lia|lia].
  replace (f ESP + (4 + 4 * Z.of_nat i)) with (f ESP + 4 + 4 * Z.of_nat i) by lia. by rewrite (Hw i v Hi).
Qed.

(** The arguments reach the port as the C declaration has them: 16 and 8 bits. *)
Lemma outb_s_wp f k port v :
  c_call f k [port; v] ->
  wp (exec junk fault outb_s) (fun _ s' => outb port v k = Ok (tt, snd s') /\ forall r, r ∉ [EAX; EDX] -> fst s' r = f r) (f, k).
Proof.
  intros Hc. unfold outb_s. cbn [exec step]. unfold get, set. wp_steps.
  eapply wp_eq; [by apply (load_arg f f k [port; v] 0 port)|]. wp_steps.
  eapply wp_eq; [by apply (load_arg f _ k [port; v] 1 v)|]. wp_steps. cbn [fst snd].
  apply wp_lift, wp_modify. cbn [snd fst]. unfold outb, modify. apply wp_ret. cbn [fst snd]. rewrite upd_ne, !upd_eq, low16_same, low8_u8 by done. split; [done|].
  intros r Hr. rewrite !not_elem_of_cons in Hr. by rewrite !upd_ne by tauto.
Qed.

Lemma inb_s_wp f k port :
  c_call f k [port] ->
  wp (exec junk fault inb_s) (fun _ s' => inb port k = Ok (u8 (fst s' EAX), snd s') /\ forall r, r ∉ [EAX; EDX] -> fst s' r = f r) (f, k).
Proof.
  intros Hc. unfold inb_s. cbn [exec step]. unfold get, set. wp_steps.
  eapply wp_eq; [by apply (load_arg f f k [port] 0 port)|]. wp_steps. cbn [fst snd].
  rewrite upd_eq, low16_same. apply wp_lift. unfold inb. wp_steps. cbn [fst snd id]. rewrite upd_eq, low8_u8, !u8_u8. split.
  - by rewrite (u16_small (u16 port)) by apply u16_range.
  - intros r Hr. rewrite !not_elem_of_cons in Hr. by rewrite !upd_ne by tauto.
Qed.
End Ports.
