(* ===== verification/AsmSamples.v ===== *)
(** A program in ring 3 with its stack at 0xBFFFF800, where it calls a stub with given
    arguments, the text hi at 0x6000, and kernel code in ring 0 about to enter ring 3:
    the states on which the theorems about the assembly are instantiated. *)
From S2P Require Import Prelude State Machine Framebuffer FramebufferFacts Isr Keyboard Serial SerialFacts Pic Interrupt InterruptFacts Syscall SyscallFacts SyscallCalls CString Stdio StdioFacts Image Samples UserSamples Asm AsmFacts AsmStubs AsmUser.

Fixpoint put_words (m : gmap Z Z) (a : Z) (ws : list Z) : gmap Z Z :=
  match ws with
  | [] => m
  | w :: ws' => put32 (put_words m (a + 4) ws') a w
  end.

Lemma put_words_at m a ws : Forall is_u32 ws -> words_at (put_words m a ws) a ws.
Proof.
  revert a. induction ws as [|w ws IH]; intros a Hws; [apply words_at_nil|]. apply Forall_cons in Hws as [Hw Hws].
  apply words_at_cons. split; [by apply word_at_put32|]. eapply words_at_ext; [|by apply IH].
  intros x Hx. apply put32_lookup_ne. lia.
Qed.

Lemma put_words_mapped m a ws b n : mapped m b n -> mapped (put_words m a ws) b n.
Proof. revert a. induction ws as [|w ws IH]; intros a Hm; [done|]. by apply put32_mapped, IH. Qed.

Lemma put_words_ne m a ws x : ~ a <= x < a + 4 * Z.of_nat (length ws) -> put_words m a ws !! x = m !! x.
Proof.
  revert a. induction ws as [|w ws IH]; intros a Hx; [done|]. cbn [put_words length] in *. rewrite put32_lookup_ne by lia. apply IH. lia.
Qed.

Definition asm_mem (args : list Z) : gmap Z Z :=
  put_bytes (put_words (put_words user_space 0xC0180F04 [0; 0xBFFFFFFB]) 0xBFFFF804 args) 0x6000 [104; 105].
Definition asm_gdt : gdt_state := GdtState [] (TablePtr 0 0)
  (TssEntry 0 0xC0181000 0x10 0 0 0 0 0 0 0 0 0 0 0 0 0 0 0 0 0 0 0 0 0 0 0 0).
Definition asm_kernel (args : list Z) : kernel := set_gdt asm_gdt (set_mem (asm_mem args) sample_ready).
Definition ring3_regs : regs := fun r => match r with
  | ESP => 0xBFFFF800 | CS => 0x1B | SS | DS | ES | FS | GS => 0x23 | EFLAGS => 0x202 | _ => 7 end.
Definition ring0_regs : regs := fun r => match r with
  | ESP => 0xC0180F00 | CS => 0x08 | SS | DS | ES | FS | GS => 0x10 | EFLAGS => 0x202 | _ => 7 end.

Lemma ring3_typed : regs_typed ring3_regs.
Proof. intros []; cbn; word_solve. Qed.
Lemma ring0_typed : regs_typed ring0_regs.
Proof. intros []; cbn; word_solve. Qed.

Lemma asm_mapped args a n :
  0 <= a /\ a + n <= 65536 \/ 0xBFFFF000 <= a /\ a + n <= 0xC0000000 \/ 0xC0000000 <= a /\ a + n <= 0xC0400000 ->
  mapped (asm_mem args) a n.
Proof.
  intros Ha. apply put_bytes_mapped; [bytes_done|]. do 2 apply put_words_mapped. by apply user_space_mapped.
Qed.

Lemma asm_text args : buf_holds (asm_mem args) (Ptr 0x6000) [104; 105].
Proof.
  split; [|by left]. intros i c Hi. unfold asm_mem. split; [by apply put_bytes_eq|]. apply lookup_lt_Some in Hi. cbn in Hi. word_solve.
Qed.
Lemma asm_args args : length args = 3%nat -> words_at (asm_mem args) (0xC0180F00 + 4) [0; 0xBFFFFFFB].
Proof.
  intros Hl. eapply words_at_ext; [|apply put_words_at; by repeat constructor].
  intros x Hx. cbn [length] in Hx. unfold asm_mem. rewrite put_bytes_ne by (cbn; lia). apply put_words_ne. rewrite Hl. lia.
Qed.

Lemma asm_user_args args : length args = 3%nat -> Forall is_u32 args -> words_at (asm_mem args) (0xBFFFF800 + 4) args.
Proof.
  intros Hl Hu. eapply words_at_ext; [|by apply put_words_at].
  intros x Hx. rewrite Hl in Hx. unfold asm_mem. apply put_bytes_ne. cbn. lia.
Qed.
#[global] Opaque asm_mem.

Lemma asm_fb args : fb_ok (asm_kernel args).
Proof. constructor; [|done|done]. apply asm_mapped. by do 2 right. Qed.
Lemma input_set_gdt g m k :
  kbd_ok (k_kbd k) -> isr_ok (k_isr k) -> kbd_ok (k_kbd (set_gdt g (set_mem m k))) /\ isr_ok (k_isr (set_gdt g (set_mem m k))).
Proof. done. Qed.
Lemma asm_kbd args : kbd_ok (k_kbd (asm_kernel args)).
Proof. exact (proj1 (input_set_gdt asm_gdt (asm_mem args) sample_ready sample_ready_kbd sample_isr_ok)). Qed.
Lemma asm_isr args : isr_ok (k_isr (asm_kernel args)).
Proof. exact (proj2 (input_set_gdt asm_gdt (asm_mem args) sample_ready sample_ready_kbd sample_isr_ok)). Qed.
Lemma asm_room args top n :
  0xBFFFF000 <= top - 4 * Z.of_nat n /\ top <= 0xC0000000 \/ 0xC0000000 <= top - 4 * Z.of_nat n /\ top <= 0xC0400000 ->
  room (asm_kernel args) top n.
Proof. intros Ht. unfold room. split_and!; [apply asm_mapped|..]; lia. Qed.
Lemma asm_stack_ok args : kernel_stack_ok (asm_kernel args).
Proof. split; [apply asm_room; by right|by split; [|right]]. Qed.
Lemma asm_call args : length args = 3%nat -> Forall is_u32 args -> user_call ring3_regs (asm_kernel args) args.
Proof.
  intros Hl Hu. constructor; [apply asm_room; by left|rewrite Hl; apply asm_mapped; by right; left|by apply asm_user_args|done|by rewrite Hl|].
  unfold off, fb. cbn. lia.
Qed.
Lemma asm_user_ok args : user_ok (asm_kernel args).
Proof.
  constructor; [apply asm_fb|done|..]; apply asm_mapped.
  - rewrite trap_frame_eq. lia.
  - cbn. lia.
Qed.
