(* ===== verification/AsmEntry.v ===== *)
(** The entry point of a user program: [_start] of userland/libc/src/entry.s, around any
    [main], at the level of instructions. *)
From S2P Require Import Prelude State Machine Framebuffer FramebufferFacts Isr Keyboard Serial SerialFacts Pic Interrupt InterruptFacts Syscall SyscallFacts SyscallCalls CString Stdio StdioFacts Image Samples UserSamples Asm AsmFacts AsmStubs AsmUser AsmSamples.

Definition GP_vector : Z := 13.

Section Entry.
Context `{Env} `{PollFuel} (junk : reg -> Z).

(** [hlt] is privileged: in ring 3 it is a general protection fault, and as a fault it
    is restarted when the handler returns. *)
Definition user_hlt : A unit :=
  f <- gets fst ;;
  if cpl f =? 3 then run_interrupt junk GP_vector (Some 0) else lift hlt.

(** [.halt: hlt; jmp .halt], [n] times. *)
Definition guard_loop (n : nat) : A unit := for_loop 0 1 n (fun _ => user_hlt).

(** [call] of a stub and its [ret]. *)
Definition call_stub (return_address : Z) (p : list instr) : A unit :=
  push return_address ;;;
  run_user junk p ;;;
  v <- pull ;;
  set EIP v.

Definition user_start (main : K Z) (return_address : Z) (n : nat) : A unit :=
  r <- lift main ;;
  set EAX r ;;;
  set ECX (junk ECX) ;;;
  set EDX (junk EDX) ;;;
  (v <- get EAX ;; push v) ;;;
  call_stub return_address sys_exit_stub ;;;
  guard_loop n.

(** The report of one fault. *)
Definition fault_report (t : term) : term :=
  term_write (Term (t_cells t) (t_cur t) FB_LIGHT_RED FB_BLACK) (exception_text GP_vector).

(** What the faults rely on. *)
Record fault_ready (k : kernel) : Prop := FaultReady {
  fr_fb : fb_ok k;
  fr_stack : kernel_stack_ok k;
  fr_isr : length (k_isr k) = 256%nat;
  fr_null : k_isr k !! Z.to_nat GP_vector = Some H_null
}.

Lemma fault_wp f k :
  regs_typed f -> cpl f = 3 -> fault_ready k ->
  wp user_hlt (fun _ s' => resumes f k (fst s') /\ fault_ready (snd s') /\ term_of (snd s') = fault_report (term_of k)) (f, k).
Proof.
  intros Hf Hcpl [Hfb Hst Hl Hn]. unfold user_hlt. wp_steps. cbn [fst]. rewrite Hcpl. cbn [Z.eqb Pos.eqb].
  pose proof Hst as (Hroom & Hpos & Hoff). assert (entry_top f k = tss_esp0 (tss (k_gdt k))) as Htop by (unfold entry_top; by rewrite Hcpl).
  eapply wp_mono; [apply (interrupt_call_wp junk f k GP_vector (Some 0) (fun m1 k2 =>
    fb_step (set_fb (FbState (cursor_pos (k_fb k)) FB_LIGHT_RED FB_BLACK) (with_if false (set_mem m1 (set_trace (Irq GP_vector :: k_trace k) k)))) k2
      (fault_report (term_of k)))); rewrite ?Htop; try done; try by left|].
  - split; [by exists 0|]. intros Hno. destruct Hno. constructor.
  - intros m1 [_ _ Hd Hm]. rewrite Htop in Hd. set (k1 := with_if false (set_mem m1 (set_trace (Irq GP_vector :: k_trace k) k))).
    assert (forall x, fb <= x < fb + 4000 -> m1 !! x = k_mem k !! x) as Hscr by (intros x Hx; apply Hd; lia).
    assert (term_of k1 = term_of k) as Ht by (by apply term_same).
    eapply wp_mono; [apply (exception_wp k1 GP_vector); [done|destruct Hfb; constructor; [by apply Hm|assumption|assumption]|exact Hl|exact Hn]|].
    intros [] k2 Hs. split; [apply Hs|]. unfold fault_report. rewrite <- Ht. exact Hs.
  - intros [] s' (m1 & k2 & [_ _ Hd Hm] & _ & [Hfb2 Ht2 Hm2 Hk2 _] & Hr & ->). rewrite Htop in Hd. split; [done|].
    cbn [k_mem set_fb with_if set_cpu set_mem] in Hm2. split; [|exact Ht2]. constructor.
    + by apply (fb_ok_same k2).
    + assert (k_gdt k2 = k_gdt k) as Hg by by rewrite Hk2. unfold kernel_stack_ok, room in *. cbn [with_if set_cpu k_gdt k_mem].
      rewrite Hg. split_and!; try tauto. intros i Hi. rewrite Hm2 by lia. by apply (Hm _ _ (proj1 Hroom)).
    + by rewrite Hk2.
    + by rewrite Hk2.
Qed.

Lemma resumes_typed f k f' : regs_typed f -> resumes f k f' -> regs_typed f'.
Proof. intros Hf Hr r. rewrite Hr. case_decide; [subst; apply flags_typed|apply Hf]. Qed.

(** [n] of them. *)
Lemma guard_loop_wp n i f k :
  regs_typed f -> cpl f = 3 -> fault_ready k ->
  wp (for_loop i 1 n (fun _ => user_hlt)) (fun _ s' =>
    (forall r, r <> EFLAGS -> fst s' r = f r) /\ term_of (snd s') = Nat.iter n fault_report (term_of k)) (f, k).
Proof.
  revert i f k. induction n as [|n IH]; intros i f k Hf Hcpl Hk; cbn [for_loop]; [by apply wp_ret|].
  apply wp_bind. eapply wp_mono; [by apply fault_wp|]. intros [] [f1 k1] (Hr & Hk1 & Ht1). cbn [fst snd] in *.
  assert (forall r, r <> EFLAGS -> f1 r = f r) as Hr1 by (intros r Hne; rewrite Hr; by rewrite decide_False).
  eapply wp_mono; [apply IH; [by eapply resumes_typed|unfold cpl; by rewrite Hr1|done]|].
  intros [] s' [Hr2 Ht2]. split; [intros r Hne; by rewrite Hr2, Hr1|]. by rewrite Ht2, Ht1, Nat.iter_succ_r.
Qed.

(** ** The call of sys_exit *)

(** SYS_EXIT answers its argument. *)
Lemma do_exit_wp k1 p status b c :
  regs_ok (k_mem k1) p -> regs_hold (k_mem k1) p SYS_EXIT status b c ->
  wp (do_syscall_in_C p) (fun _ k2 => k2 = set_mem (put32 (k_mem k1) (p + pt_eax) status) k1) k1.
Proof.
  intros Hr Hh. eapply wp_run_eq; [by apply (dispatch_eq k1 p _ _ _ _ Hr Hh)|]. destruct Hh as (_ & Hebx & _).
  change (SYS_EXIT =? SYS_WRITE) with false. change (SYS_EXIT =? SYS_EXIT) with true. cbv iota.
  apply wp_bind. eapply wp_eq; [by apply (load_reg Hr)|]. rewrite Hebx. eapply wp_eq; [exact (store_eax Hr _)|]. done.
Qed.

Lemma exit_stub_wp f k status :
  regs_typed f -> cpl f = 3 -> user_call f k [status] -> fault_ready k ->
  wp (run_user junk sys_exit_stub) (fun _ s' => preserves f k status (fst s') /\ fault_ready (snd s') /\
    term_of (snd s') = term_of k /\ (forall x, apart f k x -> k_mem (snd s') !! x = k_mem k !! x) /\
    forall a n, mapped (k_mem k) a n -> mapped (k_mem (snd s')) a n) (f, k).
Proof.
  intros Hf Hcpl Huc [Hfb Hst Hl Hn]. pose proof Huc as [Hroom _ _ Hu _ Hoff]. apply Forall_cons in Hu as [Hu _].
  apply (stub1_entry_wp junk f k SYS_EXIT status); [done..|]. intros s Hs Hg.
  eapply wp_mono; [apply (stub_tail_wp junk f k SYS_EXIT status (f ECX) (f EDX)
    (fun p k1 k2 => k2 = set_mem (put32 (k_mem k1) (p + pt_eax) status) k1) s); try done|].
  - intros p k1 [_ Hp _ _ Hok Hh _ _]. eapply wp_mono; [by apply (do_exit_wp k1 p status (f ECX) (f EDX))|]. intros [] k2 ->.
    cbn [k_mem set_mem]. split_and!; [split; cbn [k_mem set_mem]| |done].
    + intros a n Ha. by apply put32_mapped.
    + intros x _ Hx. by apply put32_lookup_ne.
    + intros x Hx. apply put32_lookup_ne. destruct (Hoff x Hx) as [_ Hx2]. unfold pt_eax. lia.
  - intros [] s' (p & k1 & k2 & [Hk1 Hp Hfb1 Hscr Hok Hh Hm Hmm] & -> & Hps & ->). cbn [k_mem set_mem] in *.
    rewrite word_at_put32 in Hps by done. split; [done|]. destruct Hok as [_ _ _ Hap]. unfold pt_eax in *.
    assert (forall x, fb <= x < fb + 4000 -> put32 (k_mem k1) (p + 44) status !! x = k_mem k1 !! x) as Hput
      by (intros x Hx; apply put32_lookup_ne; lia).
    cbn [snd with_if set_cpu set_mem k_mem k_gdt k_isr k_fb]. split_and!.
    + constructor; cbn [with_if set_cpu set_mem k_mem k_gdt k_isr].
      * apply (fb_ok_same k1); done.
      * unfold kernel_stack_ok, room in *. cbn [k_mem k_gdt with_if set_cpu set_mem].
        assert (k_gdt k1 = k_gdt k) as -> by by rewrite Hk1. split_and!; try tauto. apply put32_mapped, Hmm. tauto.
      * by rewrite Hk1.
      * by rewrite Hk1.
    + apply term_same; [by rewrite Hk1|]. intros x Hx. cbn [k_mem with_if set_cpu set_mem]. rewrite Hput by done. by apply Hscr.
    + intros x [[Hx1 Hx2] Hx3]. rewrite put32_lookup_ne by lia. apply Hm. by split.
    + intros a n Ha. by apply put32_mapped, Hmm.
Qed.

(** The stack of [_start] has room for the status, the return address and the stub. *)
Definition entry_stack (f : regs) (k : kernel) : Prop :=
  room k (f ESP) 3 /\ forall x, f ESP - 12 <= x < f ESP -> off k x.

Lemma call_exit_wp f k status return_address :
  regs_typed f -> cpl f = 3 -> fault_ready k -> entry_stack f k -> is_u32 return_address -> f EAX = status ->
  wp ((v <- get EAX ;; push v) ;;; call_stub return_address sys_exit_stub) (fun _ s' =>
    fst s' EAX = status /\ fst s' EIP = return_address /\ fst s' ESP = f ESP - 4 /\
    (forall r, r ∉ [EAX; ECX; EDX; EFLAGS; EIP; ESP] -> fst s' r = f r) /\ regs_typed (fst s') /\
    fault_ready (snd s') /\ term_of (snd s') = term_of k) (f, k).
Proof.
  intros Hf Hcpl Hk [Hroom Hoff] Hret Heax. apply wp_bind, wp_bind. unfold get. wp_steps. cbn [fst]. rewrite Heax.
  assert (is_u32 status) as Hst by (rewrite <- Heax; exact (Hf EAX)). pose proof Hroom as (Hrm & Hlo & Hhi).
  eapply wp_mono; [apply (push_wp f k (f ESP) [] (f, k) status 3); [apply stack_nil|done|cbn; lia|done]|].
  intros [] s1 [Hs1 _]. unfold call_stub. apply wp_bind.
  eapply wp_mono; [apply (push_wp f k (f ESP) [status] s1 return_address 3); [done|done|cbn; lia|done]|].
  intros [] [g k1] [Hs2 _]. pose proof Hs2 as [He Hr Hk1 Hw Hd Hm]. cbn [fst snd length] in *.
  assert (k_gdt k1 = k_gdt k) as Hgdt by by rewrite Hk1. assert (k_isr k1 = k_isr k) as Hisr by by rewrite Hk1.
  assert (fault_ready k1) as Hf1.
  { destruct Hk as [Hfb Hks Hl Hn]. constructor; rewrite ?Hisr; try done.
    - apply (fb_ok_same k); [by rewrite Hk1..| |done]. intros x Hx. apply Hd. intros Hin. destruct (Hoff x); [lia|done].
    - unfold kernel_stack_ok, room in *. rewrite Hgdt. split_and!; try tauto. apply Hm. tauto. }
  assert (term_of k1 = term_of k) as Ht1.
  { apply term_same; [by rewrite Hk1|]. intros x Hx. apply Hd. intros Hin. destruct (Hoff x); [lia|done]. }
  pose proof (stack_typed _ _ _ _ _ 3 Hs2 Hroom ltac:(cbn; lia) Hf) as Hg. cbn [fst] in Hg.
  assert (forall x, f ESP - 12 <= x < f ESP -> off k1 x) as Hoff1 by (intros x Hx; unfold off; rewrite Hgdt; by apply Hoff).
  assert (user_call g k1 [status]) as Huc.
  { apply words_at_cons in Hw as [_ Hw]. constructor; cbn [length]; rewrite ?He.
    - unfold room. split_and!; [apply Hm, (mapped_sub _ _ _ _ _ Hrm)|..]; lia.
    - apply Hm, (mapped_sub _ _ _ _ _ Hrm); lia.
    - exact Hw.
    - by constructor.
    - lia.
    - intros x Hx. apply Hoff1. lia. }
  apply wp_bind. eapply wp_mono; [apply (exit_stub_wp g k1 status); [exact Hg|unfold cpl; by rewrite Hr|exact Huc|exact Hf1]|].
  intros [] [g2 k2] (Hps & Hf2 & Ht2 & Hmem & Hmap). cbn [fst snd] in *. pose proof (preserves_typed _ _ _ _ Hg Hst Hps) as Hg2.
  destruct Hps as [Hp1 Hp2 _ _]. assert (g2 ESP = f ESP - 8) as He2 by (rewrite Hp2, He by (by apply (bool_decide_unpack _)); lia).
  assert (frame g2 k2 (f ESP - 8) [return_address] (g2, k2)) as Hfr.
  { constructor; cbn [fst snd length]; [exact He2|reflexivity|reflexivity| |apply Hmap, Hm, (mapped_sub _ _ _ _ _ Hrm); lia|lia].
    apply words_at_cons in Hw as [Hw _]. apply words_at_cons. split; [|apply words_at_nil]. rewrite <- Hw. replace (f ESP - 4 * Z.of_nat 2) with (f ESP - 8) by lia.
    apply word_at_ext. intros i Hi. apply Hmem. split; [apply Hoff1; lia|]. unfold pushed. rewrite He. lia. }
  apply wp_bind. eapply wp_mono; [by apply (pull_wp g2 k2 (f ESP - 8) return_address [])|].
  intros v [g3 k3] [-> [He3 Hr3 Hk3 _ _ _]]. cbn [fst snd] in *. subst k3. unfold set. wp_steps. cbn [fst snd].
  assert (forall r, r <> ESP -> g3 r = g2 r) as Hr3' by done. clear Hr3. split_and!; [|apply upd_eq| | | |exact Hf2|].
  - rewrite upd_ne, Hr3' by done. exact Hp1.
  - rewrite upd_ne, He3 by done. lia.
  - intros r Hin. rewrite !not_elem_of_cons in Hin. rewrite upd_ne, Hr3', Hp2, Hr by (rewrite ?not_elem_of_cons; tauto || done). done.
  - apply typed_upd; [reflexivity|exact Hret|]. intros r. destruct (decide (r = ESP)) as [->|Hne]; [rewrite He3; cbn; word_solve|rewrite Hr3' by done; apply Hg2].
  - by rewrite Ht2.
Qed.

(** C37. A program does not end: when [main] returns, [_start] passes its result to
    [sys_exit], which answers it and comes back, and the guard loop behind it raises a
    general protection fault at every [hlt], since ring 3 may not halt; the kernel
    reports each on the screen and resumes the program there, in ring 3, with its
    registers, so that after any number of turns the screen holds as many reports. *)
Theorem entry_never_exits (main : K Z) return_address n f k r k1 :
  regs_typed f -> cpl f = 3 -> is_u32 (junk ECX) -> is_u32 (junk EDX) -> is_u32 r -> is_u32 return_address ->
  main k = Ok (r, k1) -> fault_ready k1 -> entry_stack f k1 ->
  exists s', user_start main return_address n (f, k) = Ok (tt, s') /\ cpl (fst s') = 3 /\ fst s' EAX = r /\
    fst s' EIP = return_address /\ fst s' ESP = f ESP - 4 /\ term_of (snd s') = Nat.iter n fault_report (term_of k1).
Proof.
  intros Hf Hcpl Hjc Hjd Hr Hret Hmain Hk1 Hst. set (f1 := upd EDX (junk EDX) (upd ECX (junk ECX) (upd EAX r f))).
  assert (regs_typed f1) as Hf1 by (by repeat apply typed_upd).
  destruct (call_exit_wp f1 k1 r return_address Hf1 Hcpl Hk1 Hst Hret eq_refl) as ([] & [g k2] & Hrun & He & Hi & Hs & Hg & Hgt & Hk2 & Ht2).
  cbn [fst snd] in *. assert (cpl g = 3) as Hc2 by (unfold cpl; rewrite Hg by (by apply (bool_decide_unpack _)); exact Hcpl).
  destruct (guard_loop_wp n 0 g k2 Hgt Hc2 Hk2) as ([] & s' & Hrun2 & Hr2 & Ht3).
  exists s'. split_and!; [|unfold cpl; by rewrite Hr2|by rewrite Hr2|by rewrite Hr2|rewrite Hr2 by done; exact Hs|by rewrite Ht3, Ht2].
  unfold user_start, bind, lift, set, modify in Hrun |- *. cbn [fst snd] in *. rewrite Hmain. cbn [fst snd]. fold f1. unfold bind in Hrun.
  destruct (get EAX (f1, k1)) as [[v s1]| |]; [|discriminate Hrun..]. destruct (push v s1) as [[[] s2]| |]; [|discriminate Hrun..].
  rewrite Hrun. exact Hrun2.
Qed.
End Entry.

(** * Instance *)

Lemma entry_never_exits_witness :
  let E := sample_env [] [] in let F := sample_fuel in
  exists s', user_start (fun _ => 0) (ret 7) 0x10 2 (ring3_regs, asm_kernel [0; 0; 0]) = Ok (tt, s') /\ fst s' EAX = 7 /\
    term_of (snd s') = Nat.iter 2 fault_report (term_of (asm_kernel [0; 0; 0])).
Proof.
  intros E F.
  destruct (entry_never_exits (fun _ => 0) (ret 7) 0x10 2 ring3_regs (asm_kernel [0; 0; 0]) 7 (asm_kernel [0; 0; 0])) as (s' & H1 & _ & H2 & _ & _ & H3).
  - exact ring3_typed.
  - reflexivity.
  - word_solve.
  - word_solve.
  - word_solve.
  - word_solve.
  - reflexivity.
  - constructor; [apply asm_fb|apply asm_stack_ok|reflexivity|reflexivity].
  - split; [apply asm_room; by left|]. intros x Hx. unfold off, fb. cbn in Hx |- *. lia.
  - exists s'. split; [exact H1|]. split; [exact H2|exact H3].
Defined.
