(* ===== verification/AsmRefine.v ===== *)
(** The trap that the user program's theorems are about ([int80] of Stdio.v) is what
    the machine does: [Int128Handler] and the stubs, instruction by instruction, give
    the same results and leave the same memory, but for the ring 0 stack. *)
From S2P Require Import Prelude State Machine Framebuffer FramebufferFacts Isr Keyboard Serial SerialFacts Pic Interrupt InterruptFacts Syscall SyscallFacts SyscallCalls CString Stdio StdioFacts Footprint FootprintDrivers FootprintCalls Asm AsmFacts AsmStubs AsmUser.

(** Words determine their bytes. *)
Lemma le32_inj a0 a1 a2 a3 b0 b1 b2 b3 :
  is_u8 a0 -> is_u8 a1 -> is_u8 a2 -> is_u8 a3 -> is_u8 b0 -> is_u8 b1 -> is_u8 b2 -> is_u8 b3 ->
  le32 a0 a1 a2 a3 = le32 b0 b1 b2 b3 -> a0 = b0 /\ a1 = b1 /\ a2 = b2 /\ a3 = b3.
Proof. unfold le32. word_unfold. lia. Qed.

Lemma word_bytes m m' a i :
  mapped m a 4 -> mapped m' a 4 -> word_at m' a = word_at m a -> 0 <= i < 4 -> m' !! (a + i) = m !! (a + i).
Proof.
  intros Hm Hm' Hw Hi. unfold word_at, byte_at in Hw.
  destruct (Hm 0) as (a0 & E0 & ?), (Hm 1) as (a1 & E1 & ?), (Hm 2) as (a2 & E2 & ?), (Hm 3) as (a3 & E3 & ?); try lia.
  destruct (Hm' 0) as (b0 & F0 & ?), (Hm' 1) as (b1 & F1 & ?), (Hm' 2) as (b2 & F2 & ?), (Hm' 3) as (b3 & F3 & ?); try lia.
  rewrite Z.add_0_r in E0, F0. rewrite E0, E1, E2, E3, F0, F1, F2, F3 in Hw. unfold default, id in Hw.
  apply le32_inj in Hw as (-> & -> & -> & ->); try done.
  assert (i = 0 \/ i = 1 \/ i = 2 \/ i = 3) as [->|[->|[->| ->]]] by lia; rewrite ?Z.add_0_r; congruence.
Qed.

(** * What a trap hides from the dispatcher

    Of the frame at [p] and the word below it, the call reads its number and arguments
    and writes the result; [X] is other memory that the two runs may differ on. *)
Section Trap.
Context (X : Z -> Prop) (nr p : Z).

Definition trap_hidden (x : Z) : Prop := X x \/ p - 4 <= x < p + 68 /\ ~ p <= x < p + 4 * call_args nr /\ ~ p + 44 <= x < p + 48.
Definition trap_kept (x : Z) : Prop := X x \/ p - 4 <= x < p + 68 /\ ~ p + 44 <= x < p + 48.

(** The ring 0 stack and [X] are where they can be. *)
Record trap_placed : Prop := TrapPlaced {
  tp_low : 4 < p;
  tp_high : p + 68 <= 4294967296;
  tp_screen : p + 68 <= fb \/ fb + 4000 <= p - 4;
  tp_extra : forall x, X x -> ~ fb <= x < fb + 4000 /\ ~ p - 4 <= x < p + 68
}.

Lemma trap_hides : trap_placed -> Hidden trap_hidden trap_kept.
Proof.
  intros []. split; unfold trap_hidden, trap_kept; [intros x [Hx|Hx]; [by left|right; lia]|].
  intros x Hx [Hxx|Hxx]; [by destruct (tp_extra0 x Hxx)|lia].
Qed.

Lemma call_args_range : 0 <= call_args nr <= 3.
Proof. unfold call_args. destruct (_ || _), (nr =? SYS_EXIT); lia. Qed.

Lemma trap_frame_clear : trap_placed -> frame_clear trap_hidden trap_kept nr p.
Proof.
  intros [Hlo Hhi Hscr Hext]. pose proof call_args_range.
  assert (forall P o, (forall x, P x -> X x \/ ~ p + o <= x < p + o + 4) -> 0 <= o <= 64 -> word_clear P (p + o)) as Hc.
  { intros P o HP Ho. split_and!; [lia|lia|]. intros i Hi Hx. destruct (HP _ Hx) as [Hxx|Hxx]; [|lia]. destruct (Hext _ Hxx). lia. }
  constructor; [lia|intros i Hi|]; apply Hc; try (unfold pt_eax; lia); unfold trap_hidden, trap_kept, pt_eax; intros x [Hx|Hx]; [by left|right; lia|by left|right; lia].
Qed.
End Trap.

Section Refine.
Context `{Env} `{PollFuel} `{Layout}.

(** The trap of the C model, in steps. *)
Lemma int80_inv nr a b c k r k' :
  mapped (k_mem k) trap_frame 68 -> 0 < trap_frame -> trap_frame + 68 <= 4294967296 ->
  trap_frame + 68 <= fb \/ fb + 4000 <= trap_frame -> is_u32 nr -> is_u32 a -> is_u32 b -> is_u32 c ->
  int80 nr a b c k = Ok (r, k') ->
  exists m k2, regs_hold m trap_frame nr a b c /\ regs_ok m trap_frame /\ only_differ (k_mem k) m trap_frame 68 /\ grows (k_mem k) m /\
    do_syscall_in_C trap_frame (set_mem m (with_if false k)) = Ok (tt, k2) /\
    load32 (trap_frame + pt_eax) k2 = Ok (r, k2) /\ k' = with_if true k2.
Proof.
  intros Hm Hf1 Hf2 Hap Hnr Ha Hb Hc Hrun. destruct (push_frame_at k nr a b c) as ([] & k0 & Hpush & m & -> & Hh & Hok & Hd & Hg); try done.
  exists m. unfold int80, bind in Hrun. rewrite Hpush in Hrun.
  destruct (do_syscall_in_C trap_frame _) as [[[] k2]| |] eqn:E; [|done..]. exists k2.
  destruct (load32 (trap_frame + pt_eax) k2) as [[x k3]| |] eqn:El; [|done..].
  pose proof (load32_state _ _ _ _ El) as ->. injection Hrun as <- <-. by split_and!.
Qed.

(** Two frames that carry the same call differ on hidden memory only. *)
Definition args_agree (nr a b c a' b' c' : Z) : Prop :=
  (0 < call_args nr -> a' = a) /\ (1 < call_args nr -> b' = b /\ c' = c).

Lemma frames_agree X same nr a b c a' b' c' k p k1 m :
  trap_placed X p -> regs_hold m p nr a b c -> regs_ok m p -> only_differ (k_mem k) m p 68 ->
  entered same nr a' b' c' k p k1 -> args_agree nr a b c a' b' c' ->
  (forall x, ~ X x -> ~ p - 4 <= x < p + 68 -> ~ fb <= x < fb + 4000 -> same x) -> same_out (trap_hidden X nr p) m (k_mem k1).
Proof.
  intros Hp Hh Hok Hd [_ _ _ Hscreen Hregs Hhold Hmem _] [Hag1 Hag2] Hsame x Hx.
  assert (forall o i, 0 <= o <= 64 -> word_at (k_mem k1) (p + o) = word_at m (p + o) -> 0 <= i < 4 -> k_mem k1 !! (p + o + i) = m !! (p + o + i)) as Hw.
  { intros o i Ho Hw Hi. apply word_bytes; try done; eapply mapped_sub; [apply Hok|lia|lia|apply Hregs|lia|lia]. }
  destruct Hh as (Ha1 & Ha2 & Ha3 & Ha4), Hhold as (Hb1 & Hb2 & Hb3 & Hb4).
  destruct (decide (p <= x < p + 4 * call_args nr \/ p + 44 <= x < p + 48)) as [Hin|Hout].
  - unfold pt_eax, pt_ebx, pt_ecx, pt_edx in *. assert (call_args nr = 0 \/ call_args nr = 1 \/ call_args nr = 3) as Hn
      by (unfold call_args; destruct (_ || _), (nr =? SYS_EXIT); lia).
    assert (exists o, (o = 44 \/ 0 < call_args nr /\ o = 0 \/ 1 < call_args nr /\ (o = 4 \/ o = 8)) /\ 0 <= x - p - o < 4) as (o & Ho & Hi).
    { destruct (decide (p + 44 <= x)); [exists 44; lia|]. destruct (decide (x < p + 4)); [exists 0; lia|].
      destruct (decide (x < p + 8)); [exists 4; lia|exists 8; lia]. }
    replace x with (p + o + (x - p - o)) by lia. destruct Ho as [->|[[Hc ->]|[Hc Ho]]].
    + apply Hw; (lia || congruence).
    + apply Hw; [lia| |lia]. rewrite Ha2, Hb2. auto.
    + destruct (Hag2 Hc) as [-> ->]. destruct Ho as [->| ->]; apply Hw; (lia || congruence).
  - unfold trap_hidden in Hx. destruct (tp_screen _ _ Hp) as [?|?].
    all: destruct (decide (fb <= x < fb + 4000)); [rewrite Hscreen by done; symmetry; apply Hd; lia|].
    all: rewrite Hmem, Hd; [done|lia|]; apply Hsame; [tauto|lia|done].
Qed.

(** The dispatcher, entered by the machine, does what it does in the C model. *)
Lemma entered_runs X same nr a b c a' b' c' k p k1 r k' :
  int80 nr a b c k = Ok (r, k') -> on_screen (k_fb k) -> p = trap_frame -> mapped (k_mem k) p 68 -> trap_placed X p ->
  is_u32 nr -> is_u32 a -> is_u32 b -> is_u32 c -> buffers_clear (trap_hidden X nr p) (trap_kept X p) nr b c ->
  entered same nr a' b' c' k p k1 -> args_agree nr a b c a' b' c' ->
  (forall x, ~ X x -> ~ p - 4 <= x < p + 68 -> ~ fb <= x < fb + 4000 -> same x) ->
  wp (do_syscall_in_C p) (fun _ k2 => frame_kept p k1 k2 /\ (forall x, X x -> k_mem k2 !! x = k_mem k1 !! x) /\
    word_at (k_mem k2) (p + pt_eax) = r /\ (forall i, with_if i k2 = with_if i (set_mem (k_mem k2) k')) /\
    forall x, ~ X x -> ~ p - 4 <= x < p + 68 -> k_mem k2 !! x = k_mem k' !! x) k1.
Proof.
  intros Hrun Hcur -> Hmap Hp Hnr Ha Hb Hc Hbuf Hen Hag Hsame. pose proof Hp as [Hlo Hhi Hscr Hext]. set (p := trap_frame) in *.
  destruct (int80_inv nr a b c k r k') as (m & k2 & Hh & Hok & Hd & _ & Hsys & Hload & ->); try done; try (lia || fold p; lia).
  pose proof (frames_agree X same nr a b c a' b' c' k p k1 m Hp Hh Hok Hd Hen Hag Hsame) as Hsm.
  pose proof (trap_hides X nr p Hp) as HH.
  pose proof (both_syscall (set_mem m (with_if false k)) (k_mem k1) p nr a b c Hcur Hsm (trap_frame_clear X nr p Hp) Hh Hc Hbuf) as Hb2.
  unfold both in Hb2. fold p in Hsys. rewrite Hsys in Hb2.
  assert (set_mem (k_mem k1) (set_mem m (with_if false k)) = k1) as Hk1 by (destruct Hen as [-> _ _ _ _ _ _ _]; done).
  rewrite Hk1 in Hb2. destruct (do_syscall_in_C p k1) as [[[] l]| |] eqn:E; try done.
  destruct Hb2 as (_ & m2 & -> & Hs2 & _ & Hw2 & _ & Hg2 & _ & _). exists tt, (set_mem m2 k2). split; [done|].
  cbn [k_mem set_mem]. split_and!.
  - split; [exact Hg2|]. intros x Hx1 Hx2. apply Hw2. right. unfold pt_eax in Hx2. lia.
  - intros x Hx. apply Hw2. by left.
  - assert (word_at m2 (p + pt_eax) = word_at (k_mem k2) (p + pt_eax)) as Hw.
    { apply word_at_ext. intros i Hi. apply Hs2. unfold trap_hidden, pt_eax. intros [Hx|Hx]; [destruct (Hext _ Hx)|]; lia. }
    assert (mapped (k_mem k2) (p + pt_eax) 4) as Hm2.
    { intros i Hi. rewrite <- Hs2 by (unfold trap_hidden, pt_eax; intros [Hx|Hx]; [destruct (Hext _ Hx)|]; lia).
      apply (Hg2 (p + pt_eax) 4); [|done]. eapply mapped_sub; [apply (en_regs _ _ _ _ _ _ _ _ Hen)|unfold pt_eax; lia..]. }
    rewrite Hw. fold p in Hload. rewrite load32_eq in Hload by (done || unfold pt_eax; lia). by simplify_eq.
  - intros i. by destruct k2 as [? ? []].
  - intros x Hx1 Hx2. apply Hs2. unfold trap_hidden. tauto.
Qed.

(** Memory a buffer must stay out of, if the call has one. *)
Definition buffer_apart (P : Z -> Prop) (nr buf count : Z) : Prop :=
  nr = SYS_WRITE \/ nr = SYS_READ -> forall i, 0 <= i < count -> ~ P (u32 (buf + i)).

Lemma buffer_apart_clear X P p nr buf count :
  (forall x, X x -> P x) -> (forall x, p - 4 <= x < p + 68 -> P x) -> buffer_apart P nr buf count ->
  buffers_clear (trap_hidden X nr p) (trap_kept X p) nr buf count.
Proof. intros HX Hp Hb. split; intros Hnr i Hi [Hx|Hx]; apply (Hb ltac:(auto) i Hi); auto; apply Hp; lia. Qed.

(** The ring 0 stack of the process, as [kmain] set it up. *)
Definition ring0_stack (k : kernel) (x : Z) : Prop :=
  tss_esp0 (tss (k_gdt k)) - 72 <= x < tss_esp0 (tss (k_gdt k)).

Section Machine.
Context (junk : reg -> Z) (f : regs) (k : kernel).
Hypothesis Hf : regs_typed f.
Hypothesis Hcpl : cpl f = 3.
Hypothesis Hstk : kernel_stack_ok k.
Hypothesis Htss : tss_esp0 (tss (k_gdt k)) = kernel_stack_addr + 4096.
Hypothesis Hfb : fb_ok k.

Lemma trap_frame_tss : trap_frame = tss_esp0 (tss (k_gdt k)) - 68.
Proof. rewrite Htss. unfold trap_frame, sizeof_pt_regs. lia. Qed.

Lemma trap_ready X :
  (forall x, X x -> ~ fb <= x < fb + 4000 /\ ~ ring0_stack k x) ->
  trap_placed X trap_frame /\ mapped (k_mem k) trap_frame 68.
Proof.
  intros HX. rewrite trap_frame_tss. destruct Hstk as ((Hm & Hlo & Hhi) & Hpos & Hscr). split.
  - constructor; [lia|lia|lia|]. intros x Hx. destruct (HX x Hx) as [? Hr]. unfold ring0_stack in Hr. split; [done|lia].
  - apply (mapped_sub _ _ _ _ _ Hm); lia.
Qed.

(** [int 0x80] on the machine. *)
Lemma int80_refines_wp a b c r k' :
  args_agree (f EAX) a b c (f EBX) (f ECX) (f EDX) -> is_u32 a -> is_u32 b -> is_u32 c ->
  buffer_apart (ring0_stack k) (f EAX) b c -> int80 (f EAX) a b c k = Ok (r, k') ->
  wp (run_int80 junk) (fun _ s' => resumes (upd EAX r f) k (fst s') /\ exists m,
    snd s' = with_if (cpu_if (k_cpu k)) (set_mem m k') /\ forall x, ~ ring0_stack k x -> m !! x = k_mem k' !! x) (f, k).
Proof.
  intros Hag Ha Hb Hc Hbuf Hrun. destruct (trap_ready (fun _ => False)) as [Hp Hm]; [done|].
  eapply wp_mono; [apply (int80_call_wp junk f k (fun p k1 k2 => word_at (k_mem k2) (p + pt_eax) = r /\
    (forall i, with_if i k2 = with_if i (set_mem (k_mem k2) k')) /\ forall x, ~ ring0_stack k x -> k_mem k2 !! x = k_mem k' !! x)); try done|].
  - intros p k1 Hen. assert (p = trap_frame) as -> by (rewrite trap_frame_tss; apply Hen).
    eapply wp_mono; [apply (entered_runs (fun _ => False) (off k) (f EAX) a b c (f EBX) (f ECX) (f EDX) k trap_frame k1 r k');
      try done; try (by apply seg_u32); try apply Hfb|].
    + eapply buffer_apart_clear; [| |exact Hbuf]; [done|]. intros x Hx. unfold ring0_stack. rewrite trap_frame_tss in Hx. lia.
    + intros x _ Hx Hs. split; [done|]. rewrite trap_frame_tss in Hx. lia.
    + intros [] k2 (R1 & _ & R3 & R4 & R5). split_and!; try done. intros x Hx. apply R5; [tauto|].
      unfold ring0_stack in Hx. rewrite trap_frame_tss. lia.
  - intros [] [f' l] (p & k1 & k2 & _ & _ & (Hr & Hw & Hx) & Hres & Hl). cbn [fst snd] in *. subst l. rewrite Hr in Hres. split; [done|].
    exists (k_mem k2). by rewrite Hw.
Qed.

(** The trap inside a stub that has pushed EBX. *)
Lemma stub_refines_wp nr a b c a' b' c' r k' s :
  stack (stub_regs nr a' b' c' f) k (f ESP) [f EBX] s -> regs_typed (fst s) -> room k (f ESP) 1 -> (forall x, pushed f x -> off k x) ->
  args_agree nr a b c a' b' c' -> is_u32 nr -> is_u32 a -> is_u32 b -> is_u32 c ->
  buffer_apart (fun x => ring0_stack k x \/ pushed f x) nr b c -> int80 nr a b c k = Ok (r, k') ->
  wp (exec junk (run_int80 junk) [I_int80; I_pop EBX])
    (fun _ s' => preserves f k r (fst s') /\ exists m,
      snd s' = with_if (cpu_if (k_cpu k)) (set_mem m k') /\
      forall x, ~ ring0_stack k x -> ~ pushed f x -> m !! x = k_mem k' !! x) s.
Proof.
  intros Hst Hg Hroom Hoff Hag Hnr Ha Hb Hc Hbuf Hrun. destruct (trap_ready (pushed f)) as [Hp Hm].
  { intros x Hx. destruct (Hoff x Hx). by split. }
  eapply wp_mono; [apply (stub_tail_wp junk f k nr a' b' c' (fun p k1 k2 => word_at (k_mem k2) (p + pt_eax) = r /\
    (forall i, with_if i k2 = with_if i (set_mem (k_mem k2) k')) /\
    forall x, ~ ring0_stack k x -> ~ pushed f x -> k_mem k2 !! x = k_mem k' !! x) s); try done|].
  - intros p k1 Hen. assert (p = trap_frame) as -> by (rewrite trap_frame_tss; apply Hen).
    eapply wp_mono; [apply (entered_runs (pushed f) (apart f k) nr a b c a' b' c' k trap_frame k1 r k'); try done; try apply Hfb|].
    + eapply buffer_apart_clear; [| |exact Hbuf]; [by right|]. intros x Hx. left. unfold ring0_stack. rewrite trap_frame_tss in Hx. lia.
    + intros x Hx Hx2 Hs. split; [|done]. split; [done|]. rewrite trap_frame_tss in Hx2. lia.
    + intros [] k2 (R1 & R2 & R3 & R4 & R5). split_and!; try done. intros x Hx Hx2. apply R5; [done|].
      unfold ring0_stack in Hx. rewrite trap_frame_tss. lia.
  - intros [] [f' l] (p & k1 & k2 & _ & (Hr & Hw & Hx) & Hres & Hl). cbn [fst snd] in *. subst l. rewrite Hr in Hres. split; [done|].
    exists (k_mem k2). by rewrite Hw.
Qed.
End Machine.
End Refine.

(** * The library *)

(** The stubs of syscall.s with their arguments, the buffer they name and the C model of
    the call. *)
Inductive library_call `{Env} `{PollFuel} `{Layout} : list instr -> list Z -> Z -> Z -> K Z -> Prop :=
| lc_exit status : library_call sys_exit_stub [status] 0 0 (user_exit status)
| lc_read fd buf n : library_call sys_read_stub [fd; buf; n] buf n (user_read fd buf n)
| lc_write fd buf n : library_call sys_write_stub [fd; buf; n] buf n (user_write fd buf n)
| lc_clear : library_call sys_clear_stub [] 0 0 user_clear.

Section Library.
Context `{Env} `{PollFuel} `{Layout} (junk : reg -> Z).

Lemma wrapper_inv nr a b c k r k' :
  (x <- int80 nr a b c ;; ret (s32 x)) k = Ok (r, k') -> exists x, int80 nr a b c k = Ok (x, k') /\ r = s32 x.
Proof. unfold bind, ret. destruct (int80 nr a b c k) as [[x k1]| |]; [|done..]. intros [= <- <-]. eauto. Qed.

(** [sys_clear] pushes nothing. *)
Lemma clear_refines_wp f k r k' :
  regs_typed f -> cpl f = 3 -> kernel_stack_ok k -> tss_esp0 (tss (k_gdt k)) = kernel_stack_addr + 4096 -> fb_ok k ->
  int80 SYS_CLEAR 0 0 0 k = Ok (r, k') ->
  wp (run_user junk sys_clear_stub) (fun _ s' => preserves f k r (fst s') /\ exists m,
    snd s' = with_if (cpu_if (k_cpu k)) (set_mem m k') /\ forall x, ~ ring0_stack k x -> m !! x = k_mem k' !! x) (f, k).
Proof.
  intros Hf Hcpl Hstk Htss Hfb Hrun. unfold run_user, sys_clear_stub.
  change (wp (exec junk (run_int80 junk) [I_int80]) (fun _ s' => preserves f k r (fst s') /\ exists m,
    snd s' = with_if (cpu_if (k_cpu k)) (set_mem m k') /\ forall x, ~ ring0_stack k x -> m !! x = k_mem k' !! x) (upd EAX 5 f, k)).
  apply exec_int80. eapply wp_mono; [apply (int80_refines_wp junk (upd EAX 5 f) k) with (a := 0) (b := 0) (c := 0) (r := r) (k' := k'); try done|].
  - by apply typed_upd.
  - intros [Hx|Hx]; discriminate.
  - intros [] s' [Hres Hm]. apply wp_ret. split; [|done]. constructor.
    + rewrite Hres. cbn. by rewrite upd_eq.
    + intros x Hx. rewrite !not_elem_of_cons in Hx. rewrite Hres, decide_False, !upd_ne by tauto. done.
    + by rewrite Hres.
    + rewrite !Hres. split; [exact (Hf ECX)|exact (Hf EDX)].
Qed.

(** What a program sees of a library call, next to what the C model computes. *)
Definition call_refines (f : regs) (k : kernel) (r : Z) (k' : kernel) (s' : regs * kernel) : Prop :=
  r = s32 (fst s' EAX) /\ (forall x, x ∉ [EAX; ECX; EDX; EFLAGS] -> fst s' x = f x) /\ fst s' EFLAGS = flags_word f k /\
  exists m, snd s' = with_if (cpu_if (k_cpu k)) (set_mem m k') /\
    forall x, ~ ring0_stack k x -> ~ pushed f x -> m !! x = k_mem k' !! x.

Lemma call_refines_wp f k x k' (m : A unit) s :
  wp m (fun _ s' => preserves f k x (fst s') /\ exists mm, snd s' = with_if (cpu_if (k_cpu k)) (set_mem mm k') /\
    forall y, ~ ring0_stack k y -> ~ pushed f y -> mm !! y = k_mem k' !! y) s ->
  wp m (fun _ => call_refines f k (s32 x) k') s.
Proof.
  intros Hm. eapply wp_mono; [exact Hm|]. intros [] s' [[He Hr Hfl _] Hmem]. unfold call_refines. by rewrite He.
Qed.

Lemma library_calls_wp stub args buf count call f k r k' :
  library_call stub args buf count call ->
  regs_typed f -> cpl f = 3 -> kernel_stack_ok k -> tss_esp0 (tss (k_gdt k)) = kernel_stack_addr + 4096 -> fb_ok k ->
  user_call f k args -> (forall i, 0 <= i < count -> ~ (ring0_stack k (u32 (buf + i)) \/ pushed f (u32 (buf + i)))) ->
  call k = Ok (r, k') -> wp (run_user junk stub) (fun _ => call_refines f k r k') (f, k).
Proof.
  intros Hcall Hf Hcpl Hstk Htss Hfb Huc Hbuf Hrun. pose proof Huc as [Hroom _ _ Hu _ Hoff].
  destruct Hcall; apply wrapper_inv in Hrun as (x & Hrun & ->).
  all: apply call_refines_wp.
  - apply (stub1_entry_wp junk f k SYS_EXIT status); [done..|]. intros s Hs Hg.
    apply Forall_cons in Hu as [? _]. apply (stub_refines_wp junk f k Hcpl Hstk Htss Hfb SYS_EXIT status 0 0 status (f ECX) (f EDX)); try done.
    intros [?|?]; discriminate.
  - apply (stub3_entry_wp junk f k SYS_READ fd buf n); [done..|]. intros s Hs Hg.
    repeat (apply Forall_cons in Hu as [? Hu]). apply (stub_refines_wp junk f k Hcpl Hstk Htss Hfb SYS_READ fd buf n fd buf n); try done. by intros _.
  - apply (stub3_entry_wp junk f k SYS_WRITE fd buf n); [done..|]. intros s Hs Hg.
    repeat (apply Forall_cons in Hu as [? Hu]). apply (stub_refines_wp junk f k Hcpl Hstk Htss Hfb SYS_WRITE fd buf n fd buf n); try done. by intros _.
  - eapply wp_mono; [by apply (clear_refines_wp f k x k')|]. intros [] s' [Hp (m & Hm1 & Hm2)]. split; [done|]. exists m. auto.
Qed.
End Library.
