(* ===== verification/AsmProps.v ===== *)
(** The correctness of the assembly routines: the C functions are called with the
    structures they expect, and the interrupted program goes on with its registers. *)
From S2P Require Import Prelude State Machine Framebuffer FramebufferFacts Isr Keyboard Serial SerialFacts Pic Interrupt InterruptFacts Syscall SyscallFacts SyscallCalls CString Stdio StdioFacts Footprint FootprintDrivers FootprintCalls Kmain Image Samples UserSamples Asm AsmFacts AsmStubs AsmUser AsmSamples AsmRefine.

Section Props.
Context `{Env} `{PollFuel} (junk : reg -> Z).


End Props.

(** Output and input as the calling program sees them. *)
Record writes (f : regs) (k : kernel) (s : list Z) (s' : regs * kernel) : Prop := Writes {
  wr_regs : preserves f k (Z.of_nat (length s)) (fst s');
  wr_fb : fb_ok (snd s');
  wr_term : term_of (snd s') = term_write (term_of k) s;
  wr_tx : uart_tx (uart_of (k_trace (snd s'))) = rev s ++ uart_tx (uart_of (k_trace k));
  wr_mem : forall x, apart f k x -> k_mem (snd s') !! x = k_mem k !! x;
  wr_frame : snd s' = set_trace (k_trace (snd s')) (set_fb (k_fb (snd s')) (set_mem (k_mem (snd s')) k))
}.

Record reads (keys : trace -> list Z) (f : regs) (k : kernel) (buf cap : Z) (line rest : list Z) (es : list echo)
    (s' : regs * kernel) : Prop := Reads {
  rd_regs : preserves f k (Z.of_nat (length line)) (fst s');
  rd_fits : Z.of_nat (length line) < cap;
  rd_buf : forall i c, (line ++ [0]) !! i = Some c -> k_mem (snd s') !! (buf + Z.of_nat i) = Some c;
  rd_fb : fb_ok (snd s');
  rd_term : term_of (snd s') = term_write (term_of k) (concat (screen_echo <$> es));
  rd_tx : uart_tx (uart_of (k_trace (snd s'))) = rev (concat (serial_echo <$> es)) ++ uart_tx (uart_of (k_trace k));
  rd_input : input_of keys (snd s') = rest;
  rd_if : cpu_if (k_cpu (snd s')) = cpu_if (k_cpu k);
  rd_mem : forall x, apart f k x -> ~ buf <= x < buf + cap -> k_mem (snd s') !! x = k_mem k !! x
}.

(** The frame of the trap is off the screen and off memory apart from it. *)
Lemma frame_apart_mem f k x p : p = tss_esp0 (tss (k_gdt k)) - 68 -> apart f k x -> ~ fb <= x < fb + 4000 /\ ~ p + pt_eax <= x < p + pt_eax + 4.
Proof. intros -> [[Hx1 Hx2] _]. unfold pt_eax. lia. Qed.

(** C13. A program in ring 3 that calls the library's [sys_write(fd, buf, n)] with
    [fd] 1 or 2 gets [n] back in EAX; the bytes are on the screen and on the serial
    line; its stack pointer and the registers a C function preserves are as before,
    and so is all memory but the screen, the ring 0 stack and the word its stub
    pushed: stub, trap, [Int128Handler], dispatcher and drivers together. *)
Theorem sys_write_from_ring3 `{Env} `{PollFuel} `{!UartReady} (junk : reg -> Z) f k fd buf s :
  regs_typed f -> cpl f = 3 -> kernel_stack_ok k -> user_call f k [fd; buf; Z.of_nat (length s)] ->
  fb_ok k -> dlab (uart_of (k_trace k)) = false ->
  fd = 1 \/ fd = 2 -> 0 < buf -> Forall is_u8 s -> buf_holds (k_mem k) (Ptr buf) s ->
  (forall x, buf <= x < buf + Z.of_nat (length s) -> apart f k x) ->
  exists s', run_user junk sys_write_stub (f, k) = Ok (tt, s') /\ writes f k s s'.
Proof.
  intros Hf Hcpl Hstk Hcall Hfb Hdl Hfd Hbuf Hs [Hr Hap] Hoff.
  destruct (stub3_wp junk f k SYS_WRITE fd buf (Z.of_nat (length s)) (fun p k1 k2 =>
    outputs p k1 k2 (term_write (term_of k1) s) s /\ word_at (k_mem k2) (p + pt_eax) = Z.of_nat (length s)))
    as ([] & [f' k'] & Hrun & p & k1 & k2 & Hen & ([] & Heax) & Hps & Hk'); try done.
  - intros p k1 Hen. pose proof Hen as [Hk1 Hp Hfb1 _ Hok Hh Hm _]. pose proof (entered_term _ _ _ _ _ _ _ _ Hen) as Hterm.
    eapply wp_mono; [apply (do_write_wp k1 p fd buf s); try assumption; [by rewrite (entered_trace _ _ _ _ _ _ _ _ Hen)|]|].
    + split; [|exact Hap]. intros i c Hi. destruct (Hr i c Hi) as [Hv Hu]. split; [|done]. apply lookup_lt_Some in Hi.
      rewrite Hm; [done|apply Hoff; lia].
    + intros [] k2 [Ho He]. pose proof Hok as [_ _ _ Hapart]. split_and!; [|..|exact Ho|exact He].
      * split; [apply Ho|]. intros x Hx1 Hx2. apply (o_mem _ _ _ _ _ Ho); [lia|done].
      * intros x Hx. destruct (uc_off _ _ _ Hcall x Hx) as [Hx1 Hx2]. apply (o_mem _ _ _ _ _ Ho); [done|unfold pt_eax; lia].
  - cbn [fst snd] in *. subst k'. exists (f', with_if (cpu_if (k_cpu k)) k2). split; [exact Hrun|].
    pose proof Hen as [Hk1 Hp Hfb1 _ Hok Hh Hm _]. pose proof (entered_term _ _ _ _ _ _ _ _ Hen) as Hterm. constructor; cbn [fst snd].
    + by rewrite <- Heax.
    + by apply (fb_ok_same k2).
    + change (term_of k2 = term_write (term_of k) s). by rewrite <- Hterm.
    + change (uart_tx (uart_of (k_trace k2)) = rev s ++ uart_tx (uart_of (k_trace k))). by rewrite o_tx, (entered_trace _ _ _ _ _ _ _ _ Hen).
    + intros x Hx. destruct (frame_apart_mem f k x p Hp Hx). change (k_mem k2 !! x = k_mem k !! x). rewrite o_mem by done. by apply Hm.
    + rewrite Hk1 in o_frame. exact (with_if_back k (k_mem k1) k2 o_frame).
Qed.

(** C14. A program in ring 3 that calls the library's [sys_read(0, buf, cap)] gets a
    line: once the typed input completes it, the call returns its length in EAX, the
    buffer holds the line that the abstract editor makes of the input, screen and
    serial line show its echoes, what was typed after it is still to be read, and
    registers, stack, interrupt flag and all other memory of the caller are as before. *)
Theorem sys_read_from_ring3 `{Env} `{PollFuel} `{!UartReady} (junk : reg -> Z) (keys : trace -> list Z) `{!KbdSource keys}
    f k buf cap line rest es :
  (forall tr, Z.land (u8 (env_in tr 0x3FD)) 1 = 0) ->
  regs_typed f -> cpl f = 3 -> kernel_stack_ok k -> user_call f k [0; buf; cap] ->
  fb_ok k -> kbd_ok (k_kbd k) -> isr_ok (k_isr k) -> dlab (uart_of (k_trace k)) = false ->
  0 < buf -> buf_ok buf cap -> mapped (k_mem k) buf cap -> 2 <= cap ->
  (forall x, buf <= x < buf + cap -> apart f k x) ->
  (2 * length (keys (k_trace k)) + length (queue_of (k_kbd k)) < poll_fuel)%nat ->
  edit_line cap [] (input_of keys k) = Some (line, rest, es) ->
  exists s', run_user junk sys_read_stub (f, k) = Ok (tt, s') /\ reads keys f k buf cap line rest es s'.
Proof.
  intros Hidle Hf Hcpl Hstk Hcall Hfb Hkbd Hisr Hdl Hbuf Hbok Hmap Hcap Hoff Hfuel Hed.
  destruct (stub3_wp junk f k SYS_READ 0 buf cap (fun p k1 k2 => reads_line keys p buf cap k1 k2 line rest es))
    as ([] & [f' k'] & Hrun & p & k1 & k2 & Hen & [] & Hps & Hk'); try done.
  - intros p k1 Hen. pose proof Hen as [Hk1 Hp Hfb1 _ Hok Hh Hm Hmm]. pose proof (entered_trace _ _ _ _ _ _ _ _ Hen) as Htr.
    assert (k_kbd k1 = k_kbd k) as Hkk by by rewrite Hk1. assert (k_isr k1 = k_isr k) as Hki by by rewrite Hk1.
    assert (p + 68 <= buf \/ buf + cap <= p) as Hsep.
    { destruct (Z.le_gt_cases (p + 68) buf); [by left|]. destruct (Z.le_gt_cases (buf + cap) p); [by right|].
      destruct (Hoff (Z.max buf p)) as [[_ Hx] _]; lia. }
    eapply wp_mono; [apply (do_read_wp keys Hidle k1 p buf cap line rest es); rewrite ?Hkk, ?Hki, ?Htr; try assumption|].
    + by apply Hmm.
    + unfold input_of in *. by rewrite Hkk, Htr.
    + intros [] k2 Ho. pose proof Hok as [_ _ _ Hapart]. split_and!; [split; [apply Ho|]| |exact Ho].
      * intros x Hx1 Hx2. apply (rl_mem _ _ _ _ _ _ _ _ _ Ho); [lia|lia|done].
      * intros x Hx. destruct (uc_off _ _ _ Hcall x Hx) as [Hx1 Hx2].
        apply (rl_mem _ _ _ _ _ _ _ _ _ Ho); [intros Hin; by destruct (Hoff x Hin)|done|unfold pt_eax; lia].
  - cbn [fst snd] in *. subst k'. exists (f', with_if (cpu_if (k_cpu k)) k2). split; [exact Hrun|].
    pose proof Hen as [Hk1 Hp Hfb1 _ Hok Hh Hm _]. pose proof (entered_term _ _ _ _ _ _ _ _ Hen) as Hterm. constructor; cbn [fst snd]; [|exact rl_fits|exact rl_buf|..|exact rl_input|reflexivity|].
    + by rewrite <- rl_eax.
    + by apply (fb_ok_same k2).
    + rewrite <- Hterm. exact rl_term.
    + rewrite <- (entered_trace _ _ _ _ _ _ _ _ Hen). exact rl_tx.
    + intros x Hx Hxb. destruct (frame_apart_mem f k x p Hp Hx). change (k_mem k2 !! x = k_mem k !! x). rewrite rl_mem by done. by apply Hm.
Qed.

(** C17. [enter_user_mode(eip, esp)], run in ring 0, leaves ring 0 as kmain's model has
    it: the program continues at [eip] with the stack [esp], the user code segment,
    the user data segment in all data segment registers and interrupts enabled, and
    apart from the 20 bytes of the frame below the kernel's stack pointer no memory
    and no kernel state changes. *)
Theorem enter_user_mode_refines `{Env} `{PollFuel} (junk : reg -> Z) f k eip esp :
  regs_typed f -> cpl f = 0 -> room k (f ESP) 5 -> f ESP + 12 < 4294967296 ->
  mapped (k_mem k) (f ESP + 4) 8 -> words_at (k_mem k) (f ESP + 4) [eip; esp] -> is_u32 eip -> is_u32 esp ->
  exists s' k', exec junk fault enter_user_mode_s (f, k) = Ok (tt, s') /\
    enter_user_mode eip esp k = Ok (UserMode eip esp, k') /\
    only_differ (k_mem k) (k_mem (snd s')) (f ESP - 20) 20 /\ snd s' = with_if (cpu_if (k_cpu k')) (set_mem (k_mem (snd s')) k) /\
    fst s' EIP = eip /\ fst s' ESP = esp /\ fst s' CS = cpu_cs (k_cpu k') /\ cpl (fst s') = 3 /\
    Forall (fun r => fst s' r = cpu_ds (k_cpu k')) [SS; DS; ES; FS; GS].
Proof.
  intros Hf Hcpl Hroom Hend Hmap Hargs Hip Hsp.
  destruct (enter_user_mode_wp junk f k eip esp) as ([] & s' & Hrun & Hd & Hk & He & Hs & Hc & Hseg); try done.
  eexists s', _. split; [exact Hrun|]. split; [reflexivity|]. cbn [k_cpu set_cpu cpu_if cpu_cs cpu_ds].
  split_and!; try done. unfold cpl. by rewrite Hc.
Qed.

(** C15. The C model of a system call is what the machine does: whenever a wrapper of the
    library ([user_exit], [user_read], [user_write], [user_clear]) returns in the model
    that the theorems about the user program are proved on, its stub, run instruction by
    instruction from ring 3 with any registers, returns the same value in EAX, with the
    registers and the stack that a C call preserves and with the same console, input,
    trace, tables and memory, but for the ring 0 stack and the word the stub pushed;
    whatever the devices do. *)
Theorem library_calls_refine `{Env} `{PollFuel} `{Layout} (junk : reg -> Z) stub args buf count call f k r k' :
  library_call stub args buf count call ->
  regs_typed f -> cpl f = 3 -> kernel_stack_ok k -> tss_esp0 (tss (k_gdt k)) = kernel_stack_addr + 4096 -> fb_ok k ->
  user_call f k args -> (forall i, 0 <= i < count -> ~ (ring0_stack k (u32 (buf + i)) \/ pushed f (u32 (buf + i)))) ->
  call k = Ok (r, k') ->
  exists s', run_user junk stub (f, k) = Ok (tt, s') /\ call_refines f k r k' s'.
Proof.
  intros Hcall Hf Hcpl Hstk Htss Hfb Huc Hbuf Hrun.
  destruct (library_calls_wp junk stub args buf count call f k r k') as ([] & s' & H'); try done. by exists s'.
Qed.

(** * Instances *)


Lemma sys_write_from_ring3_witness :
  let E := sample_env [] [] in let F := sample_fuel in
  exists s', run_user (fun _ => 0) sys_write_stub (ring3_regs, (asm_kernel [1; 0x6000; 2])) = Ok (tt, s') /\ fst s' EAX = 2 /\
    uart_tx (uart_of (k_trace (snd s'))) = [105; 104].
Proof.
  intros E F. pose proof (sample_uart_ready [] []) as HR.
  destruct (sys_write_from_ring3 (fun _ => 0) ring3_regs (asm_kernel [1; 0x6000; 2]) 1 0x6000 [104; 105]) as (s' & H1 & [[H2 _ _] _ _ H3 _ _]).
  - exact ring3_typed.
  - reflexivity.
  - apply asm_stack_ok.
  - by apply asm_call; repeat constructor.
  - apply asm_fb.
  - reflexivity.
  - by left.
  - lia.
  - bytes_done.
  - apply asm_text.
  - unfold apart, pushed, off, fb. cbn. lia.
  - exists s'. auto.
Defined.

Lemma sys_read_from_ring3_witness :
  let E := sample_env [] [0x23; 0x17; 0x1C] in let F := sample_fuel in
  exists s', run_user (fun _ => 0) sys_read_stub (ring3_regs, asm_kernel [0; 0x7000; 16]) = Ok (tt, s') /\ fst s' EAX = 2 /\
    k_mem (snd s') !! 0x7001 = Some 105.
Proof.
  intros E F. assert (Forall is_u8 [0x23; 0x17; 0x1C]) as Hu by bytes_done.
  pose proof (sample_kbd_source _ Hu) as HS. pose proof (sample_uart_ready [] [0x23; 0x17; 0x1C]) as HR.
  destruct (sys_read_from_ring3 (fun _ => 0) (pending 0x60 [0x23; 0x17; 0x1C]) ring3_regs (asm_kernel [0; 0x7000; 16]) 0x7000 16
    (str "hi") [] [E_char 104; E_char 105; E_eol]) as (s' & H1 & [[H2 _ _] _ H3 _ _ _ _ _ _]).
  - apply sample_idle.
  - exact ring3_typed.
  - reflexivity.
  - apply asm_stack_ok.
  - by apply asm_call; repeat constructor.
  - apply asm_fb.
  - apply asm_kbd.
  - apply asm_isr.
  - reflexivity.
  - lia.
  - split; [discriminate|]. split; [discriminate|]. by left.
  - apply asm_mapped. by left.
  - lia.
  - unfold apart, pushed, off, fb. cbn. lia.
  - change (6 < 1000)%nat. lia.
  - reflexivity.
  - exists s'. split; [done|]. split; [done|]. by apply (H3 1%nat).
Defined.

Lemma enter_user_mode_refines_witness :
  let E := sample_env [] [] in let F := sample_fuel in
  exists s', exec (fun _ => 0) fault enter_user_mode_s (ring0_regs, (asm_kernel [0; 0; 0])) = Ok (tt, s') /\ cpl (fst s') = 3.
Proof.
  intros E F.
  destruct (enter_user_mode_refines (fun _ => 0) ring0_regs (asm_kernel [0; 0; 0]) 0 0xBFFFFFFB) as (s' & k' & H1 & _ & _ & _ & _ & _ & _ & H2 & _).
  - exact ring0_typed.
  - reflexivity.
  - apply asm_room. by right.
  - reflexivity.
  - apply asm_mapped. by do 2 right.
  - by apply asm_args.
  - word_solve.
  - word_solve.
  - exists s'. auto.
Defined.

Lemma library_calls_refine_witness :
  let E := sample_env [] [] in let F := sample_fuel in
  exists r k' s', user_write 1 0x6000 2 (asm_kernel [1; 0x6000; 2]) = Ok (r, k') /\
    run_user (fun _ => 0) sys_write_stub (ring3_regs, asm_kernel [1; 0x6000; 2]) = Ok (tt, s') /\ s32 (fst s' EAX) = 2.
Proof.
  intros E F. pose proof (sample_uart_ready [] []) as HR.
  destruct (user_write_wp (asm_kernel [1; 0x6000; 2]) 1 0x6000 [104; 105]) as (r & k' & Hrun & Hr & _).
  - by left.
  - apply asm_user_ok.
  - word_solve.
  - lia.
  - apply asm_text.
  - bytes_done.
  - intros i Hi. rewrite trap_frame_eq. cbn in Hi. lia.
  - by left.
  - done.
  - destruct (library_calls_refine (fun _ => 0) sys_write_stub [1; 0x6000; 2] 0x6000 2 (user_write 1 0x6000 2)
      ring3_regs (asm_kernel [1; 0x6000; 2]) r k') as (s' & Hs & He & _).
    + constructor.
    + exact ring3_typed.
    + reflexivity.
    + apply asm_stack_ok.
    + reflexivity.
    + apply asm_fb.
    + by apply asm_call; repeat constructor.
    + intros i Hi. rewrite u32_small by word_solve. unfold ring0_stack, pushed. cbn. lia.
    + exact Hrun.
    + exists r, k', s'. split_and!; [done|done|]. by rewrite <- He.
Defined.
