(* ===== verification/Integrity.v ===== *)
(** The kernel under an arbitrary program: ring 3 stores, system calls and interrupts in
    any order, and what none of them changes. *)
From stdpp Require Import relations.
From S2P Require Import Prelude State Machine Image Framebuffer FramebufferFacts Isr Keyboard Serial SerialFacts Pic Interrupt InterruptFacts Syscall SyscallFacts SyscallCalls CString Stdio StdioFacts Kheap KheapBitmap KheapSpec Paging PagingFacts PagingProps Boot Process Footprint FootprintDrivers FootprintCalls Storage Asm AsmFacts AsmStubs AsmUser AsmRefine.

(** * The system *)

(** The buffer that SYS_READ fills lies in the process. *)
Definition reads_into_user (nr buf count : Z) : Prop :=
  nr = SYS_READ -> forall i, 0 <= i < count -> user_memory (u32 (buf + i)).

(** One step of the process or of the hardware: a store that the MMU lets through, an
    interrupt, a system call with any registers.  A store of the process that reaches
    static storage, or a kernel step that writes to it through a pointer, is followed
    by any state whatever. *)
Inductive sys_step `{Env} `{PollFuel} `{Layout} : kernel -> kernel -> Prop :=
| step_store a pa v k k' :
    is_u32 a -> walk_write k a = Some pa ->
    (~ static (pa + KERNEL_VIRTUAL_BASE) -> k' = set_mem (<[a := u8 v]> (k_mem k)) k) -> sys_step k k'
| step_interrupt v m k k1 k' :
    0 <= v < 48 -> refreshed (k_mem k) m ->
    take_interrupt v (set_mem m k) = Ok (tt, k1) -> settles m k1 k' -> sys_step k k'
| step_call nr a b c r m k k1 k' :
    is_u32 nr -> is_u32 a -> is_u32 b -> is_u32 c -> reads_into_user nr b c -> refreshed (k_mem k) m ->
    int80 nr a b c (set_mem m k) = Ok (r, k1) -> settles m k1 k' -> sys_step k k'.

(** * What stays *)

(** The kernel runs: the cursor is on the screen, the trap frame is mapped, and the
    loaded tables let ring 3 read and write the frames of the process and nothing else. *)
Record running `{Layout} (k : kernel) : Prop := Running {
  ru_screen : on_screen (k_fb k);
  ru_frame : mapped (k_mem k) trap_frame 68;
  ru_walk : forall va, is_u32 va -> walk true k va = user_frame va;
  ru_write : forall va, is_u32 va -> walk_write k va = user_frame va
}.

(** From [k] to [k'] nothing that the kernel relies on has changed, nor a byte of [R]. *)
Record intact `{Layout} (R : Z -> Prop) (k k' : kernel) : Prop := Intact {
  in_running : running k -> running k';
  in_tables : running k -> tables_kept k k';
  in_memory : running k -> forall x, R x -> k_mem k' !! x = k_mem k !! x;
  in_grows : running k -> grows (k_mem k) (k_mem k')
}.

Section Integrity.
Context `{Env} `{PollFuel} `{KernelLayout}.

#[export] Instance intact_preorder R : PreOrder (intact R).
Proof.
  split; [intros k; constructor; [done|intros _; reflexivity|done|by intros _ a n]|]. intros k1 k2 k3 [R1 T1 M1 G1] [R2 T2 M2 G2]. constructor; auto.
  - intros Hr. etransitivity; eauto.
  - intros Hr x Hx. rewrite M2, M1; auto.
  - intros Hr a n Ha. apply G2; auto. by apply G1.
Qed.

(** One run of a computation with a footprint, from the run compared with itself. *)
Lemma both_run (S W : Z -> Prop) {A} (m : K A) P k a k' :
  both S W m P k (k_mem k) -> m k = Ok (a, k') ->
  kept_on W (k_mem k) (k_mem k') /\ grows (k_mem k) (k_mem k') /\ tables_kept k k' /\ P a k'.
Proof.
  unfold both. rewrite <- (set_mem_id k). intros Hb Hm. rewrite Hm in Hb.
  by destruct Hb as (_ & m2 & _ & _ & K1 & _ & K2 & _ & K3 & K4).
Qed.

Lemma intact_mono (R R' : Z -> Prop) k k' : (forall x, R' x -> R x) -> intact R k k' -> intact R' k k'.
Proof. intros HR [I1 I2 I3 I4]. constructor; auto. Qed.

(** The kernel may read everything. *)
Abbreviation readable := (fun _ : Z => False).

Lemma unwritten_hidden : Hidden readable unwritten.
Proof. split; [done|]. intros x Hx (_ & Hs & _). done. Qed.

(** The walks depend on the tables and on CR3 alone. *)
Lemma walk_kept k k' va : tables_kept k k' ->
  (forall user, walk user k' va = walk user k va) /\ walk_write k' va = walk_write k va.
Proof.
  intros [_ _ _ _ Hp Hc]. unfold walk, walk_write, loaded_directory. rewrite Hp.
  assert (cpu_cr3 (k_cpu k') = cpu_cr3 (k_cpu k)) as -> by (destruct (k_cpu k), (k_cpu k'); by injection Hc). done.
Qed.

Lemma running_kept k k' :
  running k -> tables_kept k k' -> grows (k_mem k) (k_mem k') -> on_screen (k_fb k') -> running k'.
Proof.
  intros [_ Hf Hw Hww] Ht Hg Hs. constructor; [done|by apply Hg|..]; intros va Hva; destruct (walk_kept k k' va Ht) as [E1 E2].
  - rewrite E1. by apply Hw.
  - rewrite E2. by apply Hww.
Qed.

Lemma intact_by (R : Z -> Prop) k k' :
  tables_kept k k' -> grows (k_mem k) (k_mem k') -> (on_screen (k_fb k) -> on_screen (k_fb k')) ->
  (forall x, R x -> k_mem k' !! x = k_mem k !! x) -> intact R k k'.
Proof. intros Ht Hg Hs Hm. constructor; auto. intros Hr. apply (running_kept k); auto. apply Hs, Hr. Qed.

Lemma intact_run {A} (m : K A) P k a k' :
  both readable unwritten m (fun a k' => on_screen (k_fb k') /\ P a) k (k_mem k) -> m k = Ok (a, k') -> intact unwritten k k'.
Proof. intros Hb Hm. destruct (both_run _ _ m _ k a k' Hb Hm) as (Hk & Hg & Ht & Hs & _). by apply intact_by. Qed.

Lemma interrupt_intact v k k' : running k -> take_interrupt v k = Ok (tt, k') -> intact unwritten k k'.
Proof.
  intros Hr Hrun. pose proof unwritten_hidden. pose proof (ru_screen k Hr). eapply (intact_run (take_interrupt v) (fun _ => True)); [|exact Hrun].
  by apply blind_take.
Qed.

Lemma frame_in_stack : kernel_stack_addr <= trap_frame /\ trap_frame + 68 = kernel_stack_addr + 4096.
Proof. unfold trap_frame, sizeof_pt_regs. lia. Qed.

Lemma call_intact nr a b c r k k' :
  is_u32 nr -> is_u32 a -> is_u32 b -> is_u32 c -> reads_into_user nr b c ->
  running k -> int80 nr a b c k = Ok (r, k') -> intact unwritten k k'.
Proof.
  intros Hnr Ha Hb Hc Hbuf [Hs Hst _ _] Hrun. destruct frame_in_stack as [Hf1 Hf2], stack_window as [Hl1 Hl2].
  assert (fb + 4000 <= kernel_stack_addr) as Hap by (unfold fb; lia).
  destruct (int80_inv nr a b c k r k') as (m & k2 & Hh & Hok & Hd & Hg & Hsys & _ & ->); try done; try lia.
  pose proof unwritten_hidden. set (k1 := set_mem m (with_if false k)) in *.
  assert (frame_clear readable unwritten nr trap_frame) as Hfc.
  { constructor; [lia|intros i Hi; pose proof (call_args_range nr); split_and!; [lia|lia|auto]|].
    unfold word_clear, pt_eax. split_and!; [lia|lia|]. intros i Hi (_ & _ & Hx & _). unfold on_stack in Hx. lia. }
  assert (intact unwritten k k1) as I1.
  { apply intact_by; try done. intros x (_ & _ & Hx & _). unfold on_stack in Hx. apply Hd. lia. }
  assert (intact unwritten k1 k2) as I2.
  { apply (intact_run (do_syscall_in_C trap_frame) (fun _ => True) k1 tt k2); [|done].
    apply (both_syscall k1 m trap_frame nr a b c); try done. split; [by intros _ i Hi []|]. intros Hr i Hi (Hx & _). by apply Hx, Hbuf. }
  assert (intact unwritten k2 (with_if true k2)) as I3 by (apply intact_by; [by constructor|by intros x n|done|done]).
  by transitivity k1; [|transitivity k2].
Qed.

Lemma user_frame_memory va : is_u32 va -> is_Some (user_frame va) -> user_memory va.
Proof.
  intros Hva [pa Hpa]. unfold user_frame in Hpa. unfold user_memory.
  change (USER_CODE_MAX_PAGES * 4096) with 65536. repeat case_match; try done; word_solve.
Qed.

Lemma store_intact a v k : user_memory a -> intact unwritten k (set_mem (<[a := u8 v]> (k_mem k)) k).
Proof.
  intros Ha. apply intact_by; cbn; try done.
  - intros b n Hb. apply mapped_insert; [done|apply u8_range].
  - intros x (Hx & _). apply lookup_insert_ne. by intros ->.
Qed.

Lemma protected_kept k k' : intact unwritten k k' -> intact protected k k'.
Proof. apply intact_mono. by intros x [Hx _]. Qed.

Lemma refresh_intact k m : refreshed (k_mem k) m -> intact protected k (set_mem m k).
Proof. intros [Hs Hg]. apply intact_by; [done|done|done|]. intros x [(_ & _ & _ & Hf) Hx]. by apply Hs. Qed.

(** A kernel step leaves static storage alone, so it has no other outcome. *)
Lemma kernel_step_intact k m k1 k' :
  running k -> refreshed (k_mem k) m -> (running (set_mem m k) -> intact unwritten (set_mem m k) k1) -> settles m k1 k' ->
  intact protected k k'.
Proof.
  intros Hr Hm Hi Hset. pose proof (refresh_intact k m Hm) as I1. pose proof (in_running _ _ _ I1 Hr) as Hr1. specialize (Hi Hr1).
  rewrite Hset; [transitivity (set_mem m k); [done|by apply protected_kept]|].
  intros x Hx. apply (in_memory _ _ _ Hi Hr1). by apply static_unwritten.
Qed.

Lemma step_intact k k' : running k -> sys_step k k' -> intact protected k k'.
Proof.
  intros Hr Hs. destruct Hs as [a pa v k k' Ha Hw Hst|v m k k1 k' Hv Hm Hrun Hset|nr a b c r m k k1 k' Hn Ha Hb Hc Hbuf Hm Hrun Hset].
  - rewrite (ru_write k Hr a Ha) in Hw. rewrite Hst.
    + apply protected_kept, store_intact, user_frame_memory; [done|by rewrite Hw].
    + apply frames_not_static, (user_frame_frames a); [apply Ha|done].
  - apply (kernel_step_intact k m k1); try done. intros Hr1. by apply (interrupt_intact v).
  - apply (kernel_step_intact k m k1); try done. intros Hr1. by apply (call_intact nr a b c r).
Qed.

Lemma steps_intact k k' : running k -> rtc sys_step k k' -> intact protected k k'.
Proof.
  intros Hr Hs. induction Hs as [k|k1 k2 k3 H12 H23 IH]; [reflexivity|].
  pose proof (step_intact k1 k2 Hr H12) as Hi. transitivity k2; [done|]. apply IH. by apply (in_running _ _ _ Hi).
Qed.

(** The heap does not notice. *)
Lemma intact_heap `{!HeapLayout} A k k' : running k -> intact protected k k' -> heap_inv A k -> heap_inv A k'.
Proof.
  intros Hr [_ Ht Hm Hg] []. specialize (Ht Hr). specialize (Hm Hr). specialize (Hg Hr). destruct Ht. constructor; rewrite ?tk_heap; auto.
  intros s c Hs. eapply header_ok_ext; [by apply hi_header|]. intros i Hi. apply Hm, pool_protected. unfold in_pool, hdr.
  destruct (hi_chunk _ _ Hs) as (Hs1 & Hs2 & Hs3 & Hs4). kheap_consts. lia.
Qed.
End Integrity.
