(* ===== verification/IntegrityProps.v ===== *)
(** The integrity of the kernel: what no program can change once [kmain] has started
    it, whatever it stores, calls and is interrupted by. *)
From stdpp Require Import relations.
From S2P Require Import Prelude State Machine Image Framebuffer FramebufferFacts Isr Keyboard Serial SerialFacts Pic Interrupt InterruptFacts Samples Syscall SyscallFacts SyscallCalls CString Stdio StdioFacts Printf Shell TokenizeFacts ShellFacts ShellTurn UserSamples Descriptors Paging PagingFacts PagingProps Kheap KheapBitmap KheapSpec KheapOps KheapProps Kmain Boot BootInit BootHeap BootSequence BootFinal Process BootSamples KmainProps Footprint FootprintDrivers FootprintCalls Storage Asm AsmFacts AsmStubs AsmUser AsmRefine Integrity.

Section Props.
Context `{Env} `{PollFuel} `{Layout} `{!ProcessLayout} `{!KernelLayout}.


Context `{!UartReady}.




(** That SYS_READ fills a buffer of the process is needed: the pointer is not checked,
    and a line typed for a buffer in the pool is written over the kernel's heap. *)
Theorem read_reaches_heap (keys : trace -> list Z) `{!KbdSource keys} k regs buf cap line rest es :
  (forall tr, Z.land (u8 (env_in tr 0x3FD)) 1 = 0) ->
  fb_ok k -> kbd_ok (k_kbd k) -> isr_ok (k_isr k) -> dlab (uart_of (k_trace k)) = false ->
  regs_ok (k_mem k) regs -> regs_hold (k_mem k) regs SYS_READ 0 buf cap ->
  kheap_memory_addr <= buf -> buf + cap <= kheap_memory_addr + KHEAP_SIZE -> mapped (k_mem k) buf cap ->
  regs + 68 <= buf \/ buf + cap <= regs ->
  2 <= cap -> (2 * length (keys (k_trace k)) + length (queue_of (k_kbd k)) < poll_fuel)%nat ->
  edit_line cap [] (input_of keys k) = Some (line, rest, es) ->
  exists k', do_syscall_in_C regs k = Ok (tt, k') /\
    forall i c, (line ++ [0]) !! i = Some c -> in_pool (buf + Z.of_nat i) /\ k_mem k' !! (buf + Z.of_nat i) = Some c.
Proof.
  intros Hidle Hfb Hkbd Hisr Hdl Hr Hh Hb1 Hb2 Hm Hap Hcap Hfuel Hed. pose proof pool_window as [Hw1 Hw2].
  destruct (do_read_wp keys Hidle k regs buf cap line rest es) as ([] & k' & Hrun & Hrl); try assumption; [lia| |].
  { pose proof (pool_protected (Z.max buf fb)) as Hp. unfold protected, unwritten, in_window, in_pool in Hp. unfold buf_ok. lia. }
  exists k'. split; [done|]. intros i c Hi. split; [|by apply (rl_buf _ _ _ _ _ _ _ _ _ Hrl)].
  pose proof (rl_fits _ _ _ _ _ _ _ _ _ Hrl). apply lookup_lt_Some in Hi. rewrite length_app in Hi. cbn [length] in Hi. unfold in_pool. lia.
Qed.
End Props.

(** * Instances *)



