(* ===== verification/AsmBoot.v ===== *)
(** The rest of arch/x86/boot/loader.s and arch/x86/cpu/idt.s at the level of
    instructions: the loader up to [kmain] and its halt loop, and the routines that load
    the descriptor table registers, the task register and CR3. *)
From S2P Require Import Prelude State Machine Image Framebuffer Isr Keyboard Serial Pic Interrupt Descriptors Paging Kheap Kmain Process Asm.

(** * Paging

    With PG clear the memory of the state is the physical one; the instruction that
    sets PG makes it what the MMU shows of that through the loaded directory. *)

Definition paged_memory `{Layout} (k : kernel) : gmap Z Z :=
  tabulate (fun va => walk false k va ≫= fun pa => k_mem k !! pa) (seqZ 0 4294967296).

Lemma paged_memory_lookup `{Layout} k va : is_u32 va -> paged_memory k !! va = walk false k va ≫= fun pa => k_mem k !! pa.
Proof. intros Hva. unfold paged_memory. rewrite tabulate_lookup, decide_True; [done|]. apply elem_of_seqZ. word_solve. Qed.

#[global] Opaque paged_memory.

(** * Instructions *)

(** CR0, the registers and the kernel. *)
Abbreviation B := (M (Z * (regs * kernel))).

Definition PG_bit : Z := 31.

Inductive boot_instr :=
| B_instr (i : instr)
| B_or (r : reg) (v : Z)            (* or eax, v *)
| B_mov_from_cr0 (r : reg)
| B_mov_to_cr0 (r : reg)
| B_mov_to_cr3 (r : reg)
| B_lea (r : reg) (a : Z)           (* lea eax, [label] *)
| B_jmp (r : reg)                   (* jmp eax *)
| B_jmp_far (sel : Z)               (* jmp sel:label, to the next instruction *)
| B_lgdt (r : reg) | B_lidt (r : reg) | B_ltr (r : reg).

(** The packed [struct gdt_ptr] or [struct idt_ptr]: a 16-bit limit and the base. *)
Definition load_table_ptr (a : Z) : K table_ptr :=
  lo <- load8 a ;;
  hi <- load8 (a + 1) ;;
  base <- load32 (a + 2) ;;
  ret (TablePtr (lo + 256 * hi) base).

Definition set_gdtr (t : table_ptr) (c : cpu_state) : cpu_state :=
  CpuState (cpu_if c) t (cpu_tr c) (cpu_idtr c) (cpu_cr3 c) (cpu_cs c) (cpu_ds c).
Definition set_idtr (t : table_ptr) (c : cpu_state) : cpu_state :=
  CpuState (cpu_if c) (cpu_gdtr c) (cpu_tr c) t (cpu_cr3 c) (cpu_cs c) (cpu_ds c).
Definition set_tr (v : Z) (c : cpu_state) : cpu_state :=
  CpuState (cpu_if c) (cpu_gdtr c) v (cpu_idtr c) (cpu_cr3 c) (cpu_cs c) (cpu_ds c).
Definition set_cr3 (v : Z) (c : cpu_state) : cpu_state :=
  CpuState (cpu_if c) (cpu_gdtr c) (cpu_tr c) (cpu_idtr c) v (cpu_cs c) (cpu_ds c).
Definition cpu_load (h : cpu_state -> cpu_state) : K unit := modify (fun k => set_cpu (h (k_cpu k)) k).

Section Exec.
Context `{Env} `{PollFuel} `{Layout} (junk : reg -> Z).

(** The directory must be one of the kernel's. *)
Definition enable_mmu : K unit :=
  k <- gets id ;;
  match loaded_directory k with
  | Some _ => modify (set_mem (paged_memory k))
  | None => fault
  end.

Definition bstep (i : boot_instr) : B unit :=
  match i with
  | B_instr i => lift (step junk fault i)
  | B_or r v => old <- lift (get r) ;; lift (set r (Z.lor old v))
  | B_mov_from_cr0 r => v <- gets fst ;; lift (set r v)
  | B_mov_to_cr0 r =>
      v <- lift (get r) ;;
      old <- gets fst ;;
      modify (fun s => (v, snd s)) ;;;
      when Z.testbit v PG_bit && negb (Z.testbit old PG_bit) do lift (lift enable_mmu)
  | B_mov_to_cr3 r => v <- lift (get r) ;; lift (lift (cpu_load (set_cr3 v)))
  | B_lea r a => lift (set r a)
  | B_jmp r => v <- lift (get r) ;; lift (set EIP v)
  | B_jmp_far sel => lift (set CS sel)
  | B_lgdt r => a <- lift (get r) ;; t <- lift (lift (load_table_ptr a)) ;; lift (lift (cpu_load (set_gdtr t)))
  | B_lidt r => a <- lift (get r) ;; t <- lift (lift (load_table_ptr a)) ;; lift (lift (cpu_load (set_idtr t)))
  | B_ltr r => v <- lift (get r) ;; lift (lift (cpu_load (set_tr (u16 v))))
  end.

Fixpoint bexec (p : list boot_instr) : B unit :=
  match p with
  | [] => ret tt
  | i :: p' => bstep i ;;; bexec p'
  end.

(** * The routines, up to [ret] *)

Definition load_gdt_s : list boot_instr :=
  [ B_instr (I_mov_mem EAX 4); B_lgdt EAX;
    B_instr (I_mov_imm16 EAX 0x10); B_instr (I_mov_seg DS EAX); B_instr (I_mov_seg SS EAX);
    B_instr (I_mov_seg ES EAX); B_instr (I_mov_seg FS EAX); B_instr (I_mov_seg GS EAX); B_jmp_far 0x08 ].
Definition load_page_directory_s : list boot_instr := [ B_instr (I_mov_mem EAX 4); B_mov_to_cr3 EAX ].
Definition enable_paging : list boot_instr := [ B_mov_from_cr0 EAX; B_or EAX 0x80000000; B_mov_to_cr0 EAX ].
Definition load_tss_s : list boot_instr := [ B_instr (I_mov_mem16 EAX 4); B_ltr EAX ].
Definition load_idt_s : list boot_instr := [ B_instr (I_mov_mem EAX 4); B_lidt EAX ].

(** * The loader *)

(** The address of the label in .text. *)
Context (higher_half : Z).
Definition KERNEL_STACK_SIZE : Z := 4096.

Definition loader : list boot_instr :=
  [ B_instr (I_mov_imm EAX (boot_page_directory_addr - KERNEL_VIRTUAL_BASE)); B_mov_to_cr3 EAX;
    B_mov_from_cr0 EAX; B_or EAX 0x80000000; B_mov_to_cr0 EAX;
    B_lea EAX higher_half; B_jmp EAX ].
Definition higher_half_s : list boot_instr :=
  [ B_instr (I_mov_imm ESP (kernel_stack_addr + KERNEL_STACK_SIZE)); B_instr (I_push EBX) ].

(** [call kmain]: the word on the stack is its argument, and it may never return. *)
Definition call_kmain : A kmain_end :=
  sp <- get ESP ;;
  mb_info_addr <- lift (load32 sp) ;;
  lift (kmain mb_info_addr).

(** [.loop: hlt; jmp .loop], [n] times. *)
Definition halt_loop (n : nat) : K unit := for_loop 0 1 n (fun _ => hlt).

Definition start (n : nat) : B kmain_end :=
  bexec loader ;;;
  bexec higher_half_s ;;;
  r <- lift call_kmain ;;
  match r with
  | UserMode eip esp => ret (UserMode eip esp)
  | Returned v => lift (set EAX v) ;;; lift (lift (halt_loop n)) ;;; ret (Returned v)
  end.
End Exec.
