(* ===== verification/AsmBootFacts.v ===== *)
(** The loader and the register loads, run symbolically. *)
From S2P Require Import Prelude State Machine Image Framebuffer FramebufferFacts Isr Keyboard Serial SerialFacts Pic Interrupt InterruptFacts Descriptors Paging PagingFacts PagingProps Kheap KheapSpec Kmain Boot BootInit BootHeap BootSequence BootFinal Process KmainProps Syscall SyscallFacts CString Stdio Asm AsmFacts AsmBoot Footprint Storage Integrity.

(** The packed pointer [t] is in memory at [a]. *)
Definition table_ptr_at (m : gmap Z Z) (a : Z) (t : table_ptr) : Prop :=
  mapped m a 6 /\ 0 <= a /\ a + 6 <= 4294967296 /\ byte_at m a + 256 * byte_at m (a + 1) = tp_limit t /\
  word_at m (a + 2) = tp_base t.

Section Loads.
Context `{Env} `{PollFuel} `{Layout} (junk : reg -> Z).
Implicit Types (c : Z) (f : regs) (k : kernel) (p : list boot_instr).

(** The argument of a routine that C calls: above the return address. *)
Definition argument f k (a : Z) : Prop :=
  0 <= f ESP /\ f ESP + 8 <= 4294967296 /\ mapped (k_mem k) (f ESP + 4) 4 /\ word_at (k_mem k) (f ESP + 4) = a.

Lemma load_argument f k a : argument f k a -> load32 (u32 (f ESP + 4)) k = Ok (a, k).
Proof. intros (Ha1 & Ha2 & Hm & <-). rewrite u32_small by word_solve. apply load32_eq; [done|lia|lia]. Qed.

Lemma bexec_argument p c f k a :
  argument f k a -> bexec junk (B_instr (I_mov_mem EAX 4) :: p) (c, (f, k)) = bexec junk p (c, (upd EAX a f, k)).
Proof.
  intros Ha. cbn [bexec bstep step]. unfold bind, lift, get, set, gets, modify. cbn [fst snd].
  by rewrite (load_argument f k a Ha).
Qed.

Lemma load8_byte k a n x : mapped (k_mem k) a n -> a <= x < a + n -> is_u32 x -> load8 x k = Ok (byte_at (k_mem k) x, k).
Proof.
  intros Hm Hx Hu. destruct (Hm (x - a)) as (v & Hv & _); [lia|]. replace (a + (x - a)) with x in Hv by lia.
  unfold byte_at. rewrite Hv. by apply load8_eq.
Qed.

Lemma load_table_ptr_eq a t k : table_ptr_at (k_mem k) a t -> load_table_ptr a k = Ok (t, k).
Proof.
  intros (Hm & Ha & Hn & Hl & Hb). unfold load_table_ptr, bind.
  rewrite (load8_byte k a 6 a), (load8_byte k a 6 (a + 1)) by (done || lia || word_solve).
  rewrite load32_eq by (lia || (apply (mapped_sub _ _ _ _ _ Hm); lia)). unfold ret. rewrite Hl, Hb. by destruct t.
Qed.

(** The registers after [load_gdt]. *)
Definition kernel_segments (f : regs) (a : Z) : regs :=
  upd CS 0x08 (upd GS 0x10 (upd FS 0x10 (upd ES 0x10 (upd SS 0x10 (upd DS 0x10 (upd EAX (low16 a 0x10) (upd EAX a f))))))).

Lemma load_gdt_run c f k a t :
  argument f k a -> table_ptr_at (k_mem k) a t ->
  bexec junk load_gdt_s (c, (f, k)) = Ok (tt, (c, (kernel_segments f a, set_cpu (set_gdtr t (k_cpu k)) k))).
Proof.
  intros Ha Ht. unfold load_gdt_s. rewrite (bexec_argument _ c f k a Ha).
  cbn [bexec bstep step]. unfold bind, lift, get, set, gets, modify, cpu_load, modify. cbn [fst snd].
  rewrite upd_eq, (load_table_ptr_eq a t k Ht). cbn [fst snd]. rewrite !upd_ne by done. rewrite !upd_eq.
  assert (u16 (low16 a 0x10) = 0x10) as -> by (unfold low16; word_solve). done.
Qed.

Lemma load_idt_run c f k a t :
  argument f k a -> table_ptr_at (k_mem k) a t ->
  bexec junk load_idt_s (c, (f, k)) = Ok (tt, (c, (upd EAX a f, set_cpu (set_idtr t (k_cpu k)) k))).
Proof.
  intros Ha Ht. unfold load_idt_s. rewrite (bexec_argument _ c f k a Ha).
  cbn [bexec bstep step]. unfold bind, lift, get, set, gets, modify, cpu_load, modify. cbn [fst snd].
  by rewrite upd_eq, (load_table_ptr_eq a t k Ht).
Qed.

Lemma load_page_directory_run c f k a :
  argument f k a -> bexec junk load_page_directory_s (c, (f, k)) = Ok (tt, (c, (upd EAX a f, set_cpu (set_cr3 a (k_cpu k)) k))).
Proof.
  intros Ha. unfold load_page_directory_s. rewrite (bexec_argument _ c f k a Ha).
  cbn [bexec bstep step]. unfold bind, lift, get, set, gets, modify, cpu_load, modify. cbn [fst snd]. by rewrite upd_eq.
Qed.

Lemma load_tss_run c f k a :
  argument f k a ->
  bexec junk load_tss_s (c, (f, k)) = Ok (tt, (c, (upd EAX (low16 (f EAX) a) f, set_cpu (set_tr (u16 a) (k_cpu k)) k))).
Proof.
  intros Ha. unfold load_tss_s. cbn [bexec bstep step]. unfold bind, lift, get, set, gets, modify, cpu_load, modify. cbn [fst snd].
  rewrite (load_argument f k a Ha). cbn [fst snd]. rewrite upd_eq.
  assert (u16 (low16 (f EAX) a) = u16 a) as -> by (unfold low16; word_solve). done.
Qed.
End Loads.

(** * The loader *)

(** link.ld places the directories apart, in the kernel's half. *)
Class LoaderLayout `{Layout} : Prop := {
  loader_process :: ProcessLayout;
  loader_kernel :: KernelLayout;
  ll_distinct : VIRTUAL_TO_PHYSICAL user_page_directory_addr <> VIRTUAL_TO_PHYSICAL boot_page_directory_addr;
  ll_directory : KERNEL_VIRTUAL_BASE <= boot_page_directory_addr < 4294967296
}.

Section Loader.
Context `{Env} `{PollFuel} `{LoaderLayout} (junk : reg -> Z) (higher_half : Z).
Context (pm : gmap Z Z).

(** The image over the physical memory [pm], with CR3 loaded; and what [kmain] starts
    from, its argument pushed. *)
Definition directory_loaded : kernel :=
  set_cpu (set_cr3 (boot_page_directory_addr - KERNEL_VIRTUAL_BASE) cpu_reset) (image pm).
Definition entered_kernel (mb : Z) : kernel :=
  set_mem (put32 (paged_memory directory_loaded) (kernel_stack_addr + 4092) mb) directory_loaded.

Lemma directory_found : loaded_directory directory_loaded = Some (boot_directory boot_page_table1_addr).
Proof.
  unfold loaded_directory, directory_loaded. cbn [k_cpu set_cpu set_cr3 cpu_cr3 k_paging image paging_init_state boot_page_directory].
  pose proof ll_directory. pose proof ll_distinct as Hd. unfold VIRTUAL_TO_PHYSICAL in Hd |- *. unfold KERNEL_VIRTUAL_BASE in *.
  rewrite (u32_small (boot_page_directory_addr - _)) in * by word_solve. rewrite Z.eqb_refl.
  by rewrite (proj2 (Z.eqb_neq _ _)) by congruence.
Qed.

Lemma paged_eq va : is_u32 va -> paged_memory directory_loaded !! va
  = if (va <? 0x400000) || (0xC0000000 <=? va) && (va <? 0xC0400000) then pm !! (va mod 0x400000) else None.
Proof.
  intros Hva. rewrite paged_memory_lookup by done. unfold walk. rewrite directory_found. cbn [mbind option_bind].
  rewrite boot_directory_walk by done. cbn [negb andb]. by destruct (_ || _).
Qed.

Lemma paged_low x : 0 <= x < 0x400000 -> paged_memory directory_loaded !! x = pm !! x.
Proof. intros Hx. rewrite paged_eq by word_solve. rewrite (proj2 (Z.ltb_lt _ _)) by lia. cbn [orb]. f_equal. word_solve. Qed.

Lemma paged_high x : 0 <= x < 0x400000 -> paged_memory directory_loaded !! (x + 0xC0000000) = pm !! x.
Proof.
  intros Hx. rewrite paged_eq by word_solve. rewrite (proj2 (Z.ltb_ge _ _)), (proj2 (Z.leb_le _ _)), (proj2 (Z.ltb_lt _ _)) by lia.
  cbn [orb andb]. f_equal. word_solve.
Qed.

(** The instructions up to the jump touch no memory. *)
Lemma loader_run c f :
  Z.testbit c PG_bit = false ->
  bexec junk (loader higher_half) (c, (f, image pm))
  = Ok (tt, (Z.lor c 0x80000000, (upd EIP higher_half (upd EAX higher_half (upd EAX (Z.lor c 0x80000000) (upd EAX c
      (upd EAX (boot_page_directory_addr - KERNEL_VIRTUAL_BASE) f)))), set_mem (paged_memory directory_loaded) directory_loaded))).
Proof.
  intros Hc. unfold loader. cbn [bexec bstep step]. unfold bind, lift, get, set, gets, modify, cpu_load, modify, enable_mmu, bind, gets.
  cbn [fst snd]. rewrite !upd_eq. rewrite Z.lor_spec, Hc. change (Z.testbit 0x80000000 PG_bit) with true. cbn [orb andb negb].
  unfold id. change (set_cpu _ (image pm)) with directory_loaded. cbn [fst snd].
  rewrite directory_found. unfold modify. cbn [fst snd]. by rewrite upd_eq.
Qed.

Context (Hram : mapped pm 0 0x400000).

Lemma stack_high : 0xC0000000 <= kernel_stack_addr + 4028 /\ kernel_stack_addr + 4096 <= 0xC0400000.
Proof. destruct trap_high as [Ht1 Ht2]. unfold trap_frame, sizeof_pt_regs, KERNEL_VIRTUAL_BASE in *. lia. Qed.

Lemma paged_mapped a n : 0xC0000000 <= a -> a + n <= 0xC0400000 -> mapped (paged_memory directory_loaded) a n.
Proof.
  intros Ha Hn i Hi. replace (a + i) with (a + i - 0xC0000000 + 0xC0000000) by lia. rewrite paged_high by lia.
  destruct (Hram (a + i - 0xC0000000)) as (v & Hv & Hu); [lia|]. by exists v.
Qed.

(** The stack is set up and the argument is on it. *)
Lemma higher_half_run c f :
  is_u32 (f EBX) -> exists g, bexec junk higher_half_s (c, (f, set_mem (paged_memory directory_loaded) directory_loaded))
    = Ok (tt, (c, (g, entered_kernel (f EBX)))) /\ g ESP = kernel_stack_addr + 4092 /\ forall r, r <> ESP -> g r = f r.
Proof.
  intros Hb. destruct stack_high. eexists. unfold higher_half_s, KERNEL_STACK_SIZE. cbn [bexec bstep step].
  unfold bind, lift, get, set, gets, modify, push, bind, lift, get, gets, set, modify. cbn [fst snd]. rewrite upd_eq, upd_ne by done.
  replace (kernel_stack_addr + 4096 - 4) with (kernel_stack_addr + 4092) by lia. rewrite u32_small by word_solve.
  rewrite store32_eq; [|apply paged_mapped; lia|lia|lia]. cbn [fst snd]. split; [reflexivity|]. split; [apply upd_eq|].
  intros r Hr. by rewrite !upd_ne.
Qed.

Lemma call_kmain_run g mb :
  is_u32 mb -> g ESP = kernel_stack_addr + 4092 ->
  call_kmain (g, entered_kernel mb) = lift (kmain mb) (g, entered_kernel mb).
Proof.
  intros Hmb Hg. destruct stack_high. unfold call_kmain, bind, get, gets. cbn [fst]. rewrite Hg. unfold lift at 1. cbn [snd].
  assert (mapped (k_mem (entered_kernel mb)) (kernel_stack_addr + 4092) 4) as Hm
    by (apply put32_mapped, paged_mapped; lia).
  rewrite load32_eq by (done || lia). cbn [fst].
  unfold entered_kernel at 1. cbn [k_mem set_mem]. by rewrite word_at_put32.
Qed.

(** Memory when [kmain] is entered: both views of the physical memory, but for the
    word pushed. *)
Definition stack_word (x : Z) : Prop := kernel_stack_addr + 4092 <= x < kernel_stack_addr + 4096.

Lemma entered_low mb x : 0 <= x < 0x400000 -> k_mem (entered_kernel mb) !! x = pm !! x.
Proof. intros Hx. destruct stack_high. cbn [entered_kernel k_mem set_mem]. rewrite put32_lookup_ne by lia. by apply paged_low. Qed.

Lemma entered_high mb x :
  0 <= x < 0x400000 -> ~ stack_word (x + 0xC0000000) -> k_mem (entered_kernel mb) !! (x + 0xC0000000) = pm !! x.
Proof.
  intros Hx Hs. unfold stack_word in Hs. cbn [entered_kernel k_mem set_mem]. rewrite put32_lookup_ne by lia. by apply paged_high.
Qed.

Lemma entered_ready mb : image_ready (entered_kernel mb).
Proof.
  pose proof pool_window. destruct trap_high as [Ht1 Ht2]. unfold KERNEL_VIRTUAL_BASE in Ht1.
  assert (forall a n, 0xC0000000 <= a -> a + n <= 0xC0400000 -> mapped (k_mem (entered_kernel mb)) a n) as Hm
    by (intros a n Ha Hn; by apply put32_mapped, paged_mapped).
  constructor; try (apply Hm; unfold fb; lia);
    cbn [entered_kernel directory_loaded set_mem set_cpu image k_isr k_gdt k_idt k_kbd k_heap k_paging gdt idt kbd_init_state kbd_buffer heap_init_state kheap_bitmap];
    rewrite ?length_replicate; try done.
  - apply Forall_replicate. word_solve.
  - apply paging_init_sized.
Qed.
End Loader.
