(* ===== verification/AsmBootProps.v ===== *)
(** The correctness of the loader: from the state in which the boot loader hands over
    to ring 3, or to the halt loop, and the register loads that C calls. *)
From S2P Require Import Prelude State Machine Image Framebuffer FramebufferFacts Isr Keyboard Serial SerialFacts Pic Interrupt InterruptFacts Samples Descriptors Paging PagingFacts PagingProps Kheap KheapBitmap KheapSpec KheapOps KheapProps Kmain Boot BootInit BootHeap BootSequence BootFinal Process BootSamples KmainProps Syscall SyscallFacts CString Stdio StdioFacts SyscallCalls UserSamples Asm AsmFacts AsmStubs AsmUser AsmSamples AsmBoot Footprint Storage Integrity IntegrityProps AsmBootFacts.

(** Physical memory that belongs neither to the kernel's image nor to the screen: of
    the first 4MB this is what the kernel does not write, so that it reads the same at
    0 and at 3GB. *)
Definition outside `{Layout} (x : Z) : Prop := ~ in_image (x + KERNEL_VIRTUAL_BASE) /\ ~ in_window (x + KERNEL_VIRTUAL_BASE).

(** The boot information, the module list and the part of the module that is copied
    are in the 4MB that the bootstrap table maps, and the boot loader has put them
    neither over the image nor over the screen. *)
Definition low `{Layout} (a n : Z) : Prop := a + n <= 0x400000 /\ forall x, a <= x < a + n -> outside x.
Definition module_low `{Layout} (m : gmap Z Z) (mb ms size : Z) : Prop :=
  low mb 28 /\ low (word_at m (mb + mb_mods_addr)) 8 /\ low ms (Z.min size 65536).

Section Low.
Context `{Layout} (m m' : gmap Z Z) (Hlow : forall x, 0 <= x < 0x400000 -> m' !! x = m !! x).

Lemma readable_low a n : a + n <= 0x400000 -> readable m a n -> readable m' a n.
Proof. intros Hn (Hm & Ha & Hb & Hx). split_and!; try done. intros i Hi. rewrite Hlow by lia. by apply Hm. Qed.

Lemma word_low a : 0 <= a -> a + 4 <= 0x400000 -> word_at m' a = word_at m a.
Proof. intros Ha Hn. apply word_at_ext. intros i Hi. apply Hlow. lia. Qed.

Lemma has_module_low mb ms size : module_low m mb ms size -> has_module m mb ms size -> has_module m' mb ms size.
Proof.
  intros ([Hl1 _] & [Hl2 _] & [Hl3 _]) [Hi He Hf Hc Hs Hz Hb]. pose proof Hi as (_ & Hi0 & _). pose proof He as (_ & He0 & _).
  unfold mb_flags, mb_mods_count, mb_mods_addr, mod_start_off, mod_end_off in *.
  constructor; unfold mb_flags, mb_mods_count, mb_mods_addr, mod_start_off, mod_end_off; rewrite ?(word_low (mb + 24)) by lia.
  - by apply readable_low.
  - by apply readable_low.
  - by rewrite word_low by lia.
  - by rewrite word_low by lia.
  - by rewrite word_low by lia.
  - by rewrite word_low by lia.
  - by apply readable_low.
Qed.

Lemma no_module_low mb : mb + 28 <= 0x400000 -> no_module m mb -> no_module m' mb.
Proof.
  intros Hl [Hi Hn]. pose proof Hi as (_ & Hmb & _). split; [by apply readable_low|]. unfold mb_flags, mb_mods_count in *. by rewrite !word_low by lia.
Qed.

Lemma loaded_low ms size x : 0 <= ms -> ms + Z.min size 65536 <= 0x400000 -> 0 <= x < 65536 -> loaded m' ms size x = loaded m ms size x.
Proof. intros Hms Hl Hx. unfold loaded. destruct (Z.ltb_spec x size); [|done]. unfold byte_at. by rewrite Hlow by lia. Qed.
End Low.

Section Props.
Context `{Env} `{PollFuel} `{LoaderLayout} `{!UartReady} (junk : reg -> Z) (higher_half : Z).

(** Up to the first instruction of [kmain]. *)
Lemma start_eq n c f pm :
  Z.testbit c PG_bit = false -> is_u32 (f EBX) -> mapped pm 0 0x400000 ->
  exists g, g ESP = kernel_stack_addr + 4092 /\ g EIP = higher_half /\
    start junk higher_half n (c, (f, image pm))
    = (r <- lift (lift (kmain (f EBX))) ;;
       match r with
       | UserMode eip esp => ret (UserMode eip esp)
       | Returned v => lift (set EAX v) ;;; lift (lift (halt_loop n)) ;;; ret (Returned v)
       end) (Z.lor c 0x80000000, (g, entered_kernel pm (f EBX))).
Proof.
  intros Hc Hb Hram. unfold start. unfold bind at 1. rewrite (loader_run junk higher_half pm c f Hc).
  match goal with |- context [(upd EIP higher_half ?h, _)] => set (f1 := upd EIP higher_half h) end.
  assert (f1 EBX = f EBX) as Hf1 by done.
  destruct (higher_half_run junk pm Hram (Z.lor c 0x80000000) f1) as (g & Hrun & Hsp & Hg); [by rewrite Hf1|].
  exists g. rewrite Hf1 in Hrun. split_and!; [done|by rewrite Hg|]. unfold bind at 1. rewrite Hrun. unfold bind at 1 2. unfold lift at 1. cbn [snd fst].
  by rewrite (call_kmain_run pm Hram g (f EBX) Hb Hsp).
Qed.

(** What a boot leaves, memory aside. *)
Lemma at_boot_own m0 b k : at_boot m0 [] b k -> at_boot (k_mem k) [] b k.
Proof. intros []. by constructor. Qed.

(** C2. From the boot loader to ring 3: started with paging off on a physical memory
    that holds a module, the code of loader.s turns paging on through the bootstrap
    tables, moves to the higher half and calls [kmain] on the ring 0 stack with the
    address of the boot information; [kmain] leaves for ring 3 with every component as
    after any boot.  Whatever of the first 4MB belongs neither to the kernel's image nor
    to the screen is unchanged, at 0 and at 3GB, and the process sees at address x the
    byte x of the module in physical memory, or zero. *)
Theorem start_boots n c f pm ms size :
  (128 < poll_fuel)%nat -> keyboard_quiet (image pm) -> Z.testbit c PG_bit = false -> is_u32 (f EBX) ->
  mapped pm 0 0x400000 -> has_module pm (f EBX) ms size -> module_low pm (f EBX) ms size ->
  exists c' g k', start junk higher_half n (c, (f, image pm)) = Ok (UserMode USER_ENTRY_POINT USER_STACK_TOP, (c', (g, k'))) /\
    Z.testbit c' PG_bit = true /\ g ESP = kernel_stack_addr + 4092 /\ g EIP = higher_half /\
    at_boot (k_mem k') [] (in_user_mode (entered_kernel pm (f EBX)) ms size) k' /\
    (forall x, 0 <= x < 0x400000 -> outside x -> k_mem k' !! x = pm !! x /\ k_mem k' !! (x + KERNEL_VIRTUAL_BASE) = pm !! x) /\
    (forall x, 0 <= x < 65536 -> process_memory (k_paging k') (k_mem k') !! x = Some (loaded pm ms size x)).
Proof.
  intros Hf Hq Hc Hb Hram Hm Hl. destruct (start_eq n c f pm Hc Hb Hram) as (g & Hsp & Hip & Hstart).
  set (ke := entered_kernel pm (f EBX)) in *. pose proof (entered_ready pm Hram (f EBX)) as Hi. fold ke in Hi.
  pose proof (entered_low pm (f EBX)) as Hlow. fold ke in Hlow. destruct (image_bootable ke Hi) as [Hbt Hh].
  pose proof (has_module_low pm (k_mem ke) Hlow _ _ _ Hl Hm) as Hm'.
  destruct (kmain_module_wp (k_mem ke) (k_trace ke) Hf Hq ke eq_refl eq_refl (ir_screen ke Hi) Hh Hbt (f EBX) ms size Hm')
    as (r & k' & Hrun & -> & Hk). rewrite user_eq in Hk.
  assert (is_u32 size) as Hsize by (rewrite <- (hm_size _ _ _ _ Hm); apply u32_range).
  exists (Z.lor c 0x80000000), g, k'. split_and!; [| |exact Hsp|exact Hip|exact (at_boot_own _ _ _ Hk)|..].
  - rewrite Hstart. unfold bind, lift. cbn [snd fst]. rewrite Hrun. reflexivity.
  - rewrite Z.lor_spec, Hc. reflexivity.
  - intros x Hx [Ho Hw]. split.
    + rewrite (ab_mem _ _ _ _ Hk); [by apply Hlow|unfold in_window, fb; lia|]. unfold in_pool. pose proof pool_window. lia.
    + pose proof (entered_high pm (f EBX) x Hx) as Hh'. fold ke in Hh'. unfold KERNEL_VIRTUAL_BASE in *.
      rewrite (ab_mem _ _ _ _ Hk), Hh'; [reflexivity| |exact Hw|intros Hp; apply Ho, (kl_pool _ Hp)].
      intros Hs. apply Ho, kl_stack. unfold stack_word, on_stack in *. lia.
  - intros x Hx. pose proof (view_is ke k' _ ms size Hk (process_memory_view _ _)) as Hv. revert Hv.
    generalize (process_memory (k_paging k') (k_mem k')). intros m' Hv.
    rewrite (view_image (mapped_boot (k_paging ke)) (k_mem k') m' (k_mem ke) ms size (ir_table ke Hi) Hsize Hv x Hx). f_equal.
    apply (loaded_low pm (k_mem ke) Hlow); [|apply Hl|done]. by destruct (hm_bytes _ _ _ _ Hm) as (_ & ? & _).
Qed.

(** C35. Without a module the loader and [kmain] do the same initialisation, [kmain]
    warns in light red and returns 0 to the loop of loader.s, and that serves the
    keyboard as long as keys are typed: every [hlt] wakes for the next scancode, which is
    acknowledged once and its character queued; nothing else changes any more. *)
Theorem start_idles (keys : trace -> list Z) `{!KbdSource keys} c f pm scs rest :
  (128 < poll_fuel)%nat -> keyboard_quiet (image pm) -> Z.testbit c PG_bit = false -> is_u32 (f EBX) ->
  mapped pm 0 0x400000 -> no_module pm (f EBX) -> f EBX + 28 <= 0x400000 -> keys [] = scs ++ rest ->
  exists c' g k', start junk higher_half (length scs) (c, (f, image pm)) = Ok (Returned 0, (c', (g, k'))) /\
    g EAX = 0 /\ (exists k1, at_boot (k_mem (entered_kernel pm (f EBX))) [] (in_halt (entered_kernel pm (f EBX))) k1 /\
      k' = set_cpu (k_cpu k') (set_kbd (k_kbd k') (set_trace (k_trace k') k1))) /\
    heap_inv ∅ k' /\ term_of k' = b_term (in_halt (entered_kernel pm (f EBX))) /\
    queue_of (k_kbd k') = fold_left queue_put (snd (decode_all 0 scs)) [] /\ keys (k_trace k') = rest /\
    pic_eois (master (k_trace k')) = (length scs + pic_eois (fst (b_pics (in_halt (entered_kernel pm (f EBX))))))%nat.
Proof.
  intros Hf Hq Hc Hb Hram Hm Hl Hkeys. destruct (start_eq (length scs) c f pm Hc Hb Hram) as (g & Hsp & Hip & Hstart).
  set (ke := entered_kernel pm (f EBX)) in *. pose proof (entered_ready pm Hram (f EBX)) as Hi. fold ke in Hi.
  pose proof (entered_low pm (f EBX)) as Hlow. fold ke in Hlow. destruct (image_bootable ke Hi) as [Hbt Hh].
  pose proof (no_module_low pm (k_mem ke) Hlow _ Hl Hm) as Hm'.
  destruct (kmain_none_wp (k_mem ke) (k_trace ke) Hf Hq ke eq_refl eq_refl (ir_screen ke Hi) Hh Hbt (f EBX) Hm')
    as (r & k1 & Hrun & -> & Hk). rewrite warn_eq in Hk.
  destruct (drivers_ready _ _ ke _ _ _ _ _ k1 (ir_isr ke Hi) (ir_kbd ke Hi) (ir_kbd_bytes ke Hi) Hk) as (Hisr & Hkbd & _).
  assert (keys (k_trace k1) = scs ++ rest) as Hk1.
  { destruct (ab_quiet _ _ _ _ Hk) as (evs & -> & Hev). rewrite (quiet_keys keys) by assumption. exact Hkeys. }
  destruct (keys_loop_wp keys true hlt scs rest k1 0 (hlt_takes_keys keys)) as ([] & k' & Hloop & _ & Hr & _ & Hqu & Heoi & _ & _ & Hsame);
    [by rewrite (ab_cpu _ _ _ _ Hk)|assumption..|].
  exists (Z.lor c 0x80000000), (upd EAX 0 g), k'. split_and!; [|reflexivity|exists k1; split; [exact Hk|exact Hsame]| | | |exact Hr|].
  - rewrite Hstart. unfold bind, lift. cbn [snd fst]. rewrite Hrun. unfold set, modify, halt_loop. cbn [snd fst]. rewrite Hloop. reflexivity.
  - apply (heap_at_ext (Some ∅) k1 k'); [exact (ab_heap _ _ _ _ Hk)|by rewrite Hsame|intros x _; by rewrite Hsame].
  - rewrite <- (ab_term _ _ _ _ Hk), Hsame. reflexivity.
  - rewrite Hqu, (ab_kbd _ _ _ _ Hk). reflexivity.
  - rewrite Heoi. f_equal. rewrite <- (ab_pics _ _ _ _ Hk). reflexivity.
Qed.
End Props.

(** * The register loads *)

(** The kernel state with the selectors that the registers hold. *)
Definition with_segments (g : regs) (k : kernel) : kernel :=
  let c := k_cpu k in set_cpu (CpuState (cpu_if c) (cpu_gdtr c) (cpu_tr c) (cpu_idtr c) (cpu_cr3 c) (g CS) (g DS)) k.

(** C36. The routines that C calls to load the CPU's tables do what the model of the C
    code says: with a pointer to the packed structure above the return address,
    [load_gdt] loads GDTR and leaves the kernel's code selector in CS and its data
    selector in every data segment register, and [load_idt] loads IDTR; [load_tss] loads
    TR with the low half of its argument and [load_page_directory] CR3 with all of it.
    No memory changes, and no register but EAX and those segments. *)
Theorem register_loads_refine `{Env} `{PollFuel} `{Layout} (junk : reg -> Z) c f k a :
  argument f k a ->
  (forall t, table_ptr_at (k_mem k) a t ->
    (exists g k', bexec junk load_gdt_s (c, (f, k)) = Ok (tt, (c, (g, k'))) /\ load_gdt t k = Ok (tt, with_segments g k') /\
      Forall (fun r => g r = g DS) [SS; ES; FS; GS] /\ forall r, r <> EAX -> is_segment r = false -> g r = f r) /\
    exists g k', bexec junk load_idt_s (c, (f, k)) = Ok (tt, (c, (g, k'))) /\ load_idt t k = Ok (tt, k') /\
      forall r, r <> EAX -> g r = f r) /\
  (exists g k', bexec junk load_tss_s (c, (f, k)) = Ok (tt, (c, (g, k'))) /\ load_tss a k = Ok (tt, k') /\
    forall r, r <> EAX -> g r = f r) /\
  exists g k', bexec junk load_page_directory_s (c, (f, k)) = Ok (tt, (c, (g, k'))) /\ load_page_directory a k = Ok (tt, k') /\
    forall r, r <> EAX -> g r = f r.
Proof.
  intros Ha. split_and!.
  - intros t Ht. split.
    + eexists _, _. split; [by apply load_gdt_run|]. split_and!; [reflexivity|by repeat constructor|].
      intros r Hr Hs. unfold kernel_segments. by rewrite !upd_ne by (try done; by intros ->).
    + eexists _, _. split; [by apply load_idt_run|]. split; [reflexivity|]. intros r Hr. by apply upd_ne.
  - eexists _, _. split; [by apply load_tss_run|]. split; [reflexivity|]. intros r Hr. by apply upd_ne.
  - eexists _, _. split; [by apply load_page_directory_run|]. split; [reflexivity|]. intros r Hr. by apply upd_ne.
Qed.

(** Once paging is on, [enable_paging] changes EAX only. *)
Theorem enable_paging_idempotent `{Env} `{PollFuel} `{Layout} (junk : reg -> Z) c f k :
  Z.testbit c PG_bit = true -> exists g, bexec junk enable_paging (c, (f, k)) = Ok (tt, (c, (g, k))) /\ forall r, r <> EAX -> g r = f r.
Proof.
  intros Hc. assert (Z.lor c 0x80000000 = c) as Hl.
  { apply Z.bits_inj'. intros i Hi. rewrite Z.lor_spec. change 0x80000000 with (2 ^ 31). rewrite Z.pow2_bits_eqb by lia.
    destruct (Z.eqb_spec 31 i) as [<-|]; [by rewrite orb_true_r|by rewrite orb_false_r]. }
  eexists. unfold enable_paging. cbn [bexec bstep]. unfold bind, lift, get, set, gets, modify. cbn [fst snd].
  rewrite !upd_eq, Hl, Hc. cbn [negb andb]. split; [reflexivity|]. intros r Hr. by rewrite !upd_ne.
Qed.

(** * Instances *)

#[export] Instance sample_loader_layout : LoaderLayout.
Proof. constructor; [apply _|apply _|by vm_compute|by vm_compute]. Qed.

(** Physical memory as the boot loader leaves it. *)
Definition boot_regs (mb : Z) : regs := fun r => match r with EBX => mb | EAX => 0x2BADB002 | _ => 0 end.

Lemma sample_ram : mapped boot_mem 0 0x400000.
Proof. apply boot_mapped. by left. Qed.

Lemma sample_low a n : a + n <= 0x400000 -> 0x200000 <= a \/ 0 <= a /\ a + n <= 0xB8000 -> low a n.
Proof.
  intros Hn Ha. split; [done|]. intros x Hx. unfold outside, in_image, in_window, fb, KERNEL_VIRTUAL_BASE.
  cbn [kernel_virtual_start_addr kernel_virtual_end_addr sample_layout]. lia.
Qed.

Lemma sample_module_low : module_low boot_mem 0x9500 0x200000 65536.
Proof.
  split_and!; [by apply sample_low; [|right]| |by apply sample_low; [|left]].
  change (0x9500 + mb_mods_addr) with 0x9518. rewrite info_mods. by apply sample_low; [|right].
Qed.

Lemma start_boots_witness :
  let E := boot_env [] in let F := sample_fuel in
  exists c' g k', start (fun _ => 0) 0xC0100040 0 (0x11, (boot_regs 0x9500, image boot_mem))
    = Ok (UserMode 0 0xBFFFFFFB, (c', (g, k'))) /\ Z.testbit c' 31 = true /\ k_mem k' !! 0x9500 = boot_mem !! 0x9500.
Proof.
  intros E F. pose proof (boot_uart_ready []) as HR.
  destruct (start_boots (fun _ => 0) 0xC0100040 0 0x11 (boot_regs 0x9500) boot_mem 0x200000 65536) as (c' & g & k' & Hrun & Hc & _ & _ & _ & Hl & _).
  - unfold poll_fuel, F, sample_fuel. lia.
  - intros evs. apply boot_quiet.
  - reflexivity.
  - cbn. word_solve.
  - exact sample_ram.
  - exact sample_has_module.
  - exact sample_module_low.
  - exists c', g, k'. split; [exact Hrun|]. split; [exact Hc|]. apply Hl; [lia|]. apply (sample_low 0x9500 28); [lia|lia|lia].
Defined.

Lemma start_idles_witness :
  let E := boot_env sample_typing in let F := sample_fuel in
  exists c' g k', start (fun _ => 0) 0xC0100040 (length sample_typing) (0x11, (boot_regs 0x9500, image bare_mem))
    = Ok (Returned 0, (c', (g, k'))) /\ heap_inv ∅ k'.
Proof.
  intros E F. assert (Forall is_u8 sample_typing) as Hu by bytes_done.
  pose proof (boot_kbd_source _ Hu) as HS. pose proof (boot_uart_ready sample_typing) as HR.
  destruct (start_idles (fun _ => 0) 0xC0100040 (pending 0x60 sample_typing) 0x11 (boot_regs 0x9500) bare_mem sample_typing [])
    as (c' & g & k' & Hrun & _ & _ & Hh & _).
  - unfold poll_fuel, F, sample_fuel. lia.
  - intros evs. apply boot_quiet.
  - reflexivity.
  - cbn. word_solve.
  - apply bare_mapped. by left.
  - exact bare_no_module.
  - done.
  - reflexivity.
  - exists c', g, k'. split; [exact Hrun|exact Hh].
Defined.

Lemma asm_argument args : length args = 3%nat -> argument ring0_regs (asm_kernel args) 0.
Proof.
  intros Hl. split_and!; [done|done|apply asm_mapped; by do 2 right|].
  destruct (proj1 (words_at_cons _ _ _ _) (asm_args args Hl)) as [Hw _]. exact Hw.
Qed.

Lemma register_loads_refine_witness :
  let E := sample_env [] [] in let F := sample_fuel in
  exists g k', bexec (fun _ => 0) load_tss_s (0x80000011, (ring0_regs, asm_kernel [0; 0; 0])) = Ok (tt, (0x80000011, (g, k'))) /\
    load_tss 0 (asm_kernel [0; 0; 0]) = Ok (tt, k').
Proof.
  intros E F.
  destruct (register_loads_refine (fun _ => 0) 0x80000011 ring0_regs (asm_kernel [0; 0; 0]) 0) as (_ & (g & k' & Hrun & Hk & _) & _).
  - apply asm_argument. reflexivity.
  - exists g, k'. split; [exact Hrun|exact Hk].
Defined.
